(* ===== verification/_CoqProject ===== *)
-Q . S2P
Prelude.v
Binary.v
Machine.v
CallAbi.v
Status.v
Text.v
Guid.v
Tables.v
Desc.v
Console.v
Boot.v
MemMap.v
Heap.v
Entry.v
FileSys.v
DevicePath.v
Image.v
Verify.v
Refuse.v
Runs.v
Unikernel.v
Stubs.v
SpecTables.v
Protocols.v
Gop.v
Disk.v
Serial.v
Handles.v
Events.v
Ticks.v
Vars.v
Commands.v
Clock.v
Cpu.v
Layouts.v
Constants.v
Flags.v
ModTime.v
Goroutines.v
