(* ===== verification/Prelude.v ===== *)
(** * UKI stub: a verification library for the Go UEFI runtime

    The repository builds unified kernel images.  Its Go half, src/goefi, is a
    set of bare-metal EFI programs (cmd/) on a library that talks to UEFI
    firmware: pkg/ueficore, the library in use, with its hardware part in
    pkg/ueficore/x64, and pkg/uefi, the tables of the UEFI specification with a
    method per service.  This library models that Go code (and the assembly
    trampoline uefi.s) and proves what it does; nothing is assumed beyond the
    classes named below.

    ** How the program works

    The x64 package's [init] obtains the system table and the image handle,
    makes a [Services] instance of it and claims memory for the Go heap from
    the firmware.  Every service is a function pointer in a table: [callFn]
    moves a Go slice of 64-bit words into the Microsoft calling convention and
    calls through the table entry's address, under a global mutex.  Structs
    are shared with the firmware as packed little-endian bytes ([encode] and
    [decode] of desc.go).  On this stand the console, the memory map and its
    E820 form, the files of the boot volume, device paths, and image loading;
    the program efi-verify reads a configuration placed after its own image,
    loads the kernel from the boot volume, sets its command line and starts it.

    ** The files and what they model

    - Prelude: fixed-width integers ([wrap], [swrap]), Go strings as byte lists,
      Go errors, [outcome] (a value, a panic, a deadlock, or out of fuel).
    - Binary: encoding/binary; the class [Binary] states what a struct promises
      its users (fields and values), and the codec's laws are proved once for
      every instance.
    - Machine: memory, the Go heap, the mutex, the log and the firmware's state
      ([World]), the monad [M], pointers ([ptrval]), [callFn], [CallService] and
      [CallServiceTable] of uefi.go.
    - CallAbi: uefi.s from its entry to its return, a function per labelled
      stretch, and its refinement to the [callFn] of Machine.
    - Status: ueficore/error.go (module [Core]) and uefi/efistatus.go (module
      [Spec], with the error registry).
    - Text: [toUTF16] of desc.go, the conversions of uefi/util.go, and Go's
      utf8 and utf16 packages as these use them.
    - Guid: guid.go and the registry format of config.go.
    - Tables: one module per Go struct that crosses the boundary, with its
      fields and its [Binary] instance.
    - Desc: [encode] and [decode] of desc.go.
    - Console: console.go and [printk] of x64/console.go.
    - Boot: [Services] of uefi.go with protocol.go, pages.go, wdog.go, exit.go,
      reset.go, config.go and graphics.go.
    - MemMap: mem.go, with [ExitBootServices] of exit.go.
    - Heap: x64/mem.go and x64/x64.go: the setting of the clock, the instance
      and the heap.
    - Entry: x64/x64.s, instruction by instruction, with the variables that it
      fills and the early console over them.
    - FileSys: file.go and fs.go, with io.ReadAll and fs.ReadFile over them.
    - DevicePath: path.go.
    - Image: image.go and cmd/efi-verify/main.go.
    - Verify: efi-verify as a whole, on a firmware with a boot volume and an
      image loader; Refuse: efi-verify when the boot volume cannot be used.
    - Runs: what every operation of ueficore, and every program that is built
      from them, keeps on any firmware whatsoever.
    - Unikernel: x64's [init] and efi-verify's [main] on one machine, one after
      the other.
    - Stubs: the eleven call stubs of uefi/asm_amd64.S, instruction by
      instruction.
    - SpecTables: the runtime and boot services tables of uefi/uefi_spec.go, its
      methods, and call.go; the monad [SM] of that package, with its own mutex.
    - Protocols: the protocol structs of pkg/uefi with a definition per method.
    - Gop: [Init] of graphics_output_protocol.go.
    - Disk: the [Disk] of media_io_protocol.go.
    - Serial: the [SerialPort] of serial_io_protocol.go.
    - Handles: the package variables of util.go, the five enumerations and the
      lookups of single interfaces.
    - Events: [WaitForEvent] of runtime.go and [GetKey] of simple_text_in.go.
    - Ticks: [TicksFrequency] and [GetTime] of clock.go, [DebugPrint] of util.go.
    - Vars: [getkey] and [vars] of cmd/efiload.
    - Commands: the rest of cmd/efiload, and cmd/recovery.
    - Clock: uefi/clock.go and uefi/device/x86/cpu.go.
    - Cpu: uefi/device/x86/cpu_amd64.S, instruction by instruction, and the
      [init] of cpu.go over it.
    - Layouts: every struct type of pkg/uefi as a Go type, with the sizes and
      offsets that Go gives it, and the counterpart of each field of ueficore's.
    - Constants: the GUIDs, revisions and memory types of pkg/uefi; Flags: the
      enumerations and bit masks, a Definition per constant block.
    - ModTime: [ModTime] of file.go, with Go's time.Date.
    - Goroutines: service calls of several goroutines as a step relation, with
      the mutexes of both packages.

    A Go function keeps its name; a method [T.f] is [f], or [T_f] where the name
    is taken (FS.Open is [FS_Open]).  A receiver or parameter that the code only
    reads is a value; one that the firmware also reaches is an address in
    memory.  Every allocation, result slot and protocol instance that the code
    hands to the firmware is an object of the modelled heap, so aliasing between
    the Go side and the firmware is that of the program.

    ** What lies outside

    The firmware, the dma and bzimage packages of tamago and go-boot, the
    processor and the growth of [append] are parameters: the classes [Machine]
    (firmware and dma), [Bzimage], [Append], [Tamago] (the CPU, clock and UART
    drivers), [Processor] (CPUID), and arguments such as [AsmCpuid] of Clock,
    which Cpu discharges, and [Ticks].  The commands efiload and recovery use go-boot's own
    copy of the services, which is the class [GoBoot].  What the code relies on
    is stated as classes with laws, each with an instance on which the witnesses
    run: [DmaLaws] (a fresh region places a buffer at the first word at or after
    its start, as the dma package documents),
    [DmaReturns] (dma returns or panics), [Linked] (where the linker
    puts what the entry code names), [PageService] (AllocatePages),
    [HandleDatabase] (HandleProtocol and LocateProtocol, with the errors that the
    specification lists for them), [MapServices]
    (GetMemoryMap and ExitBootServices), [BootVolumeService] (OpenVolume and
    LoadImage), [FileService] and [OpenService] (the
    file protocol), [StreamReader] (what io.Reader promises io.ReadAll), and for
    pkg/uefi [GopService], [EventService] and [VariableStore].  Theorems are
    proved against the class, instances discharge it.  A class describes
    functions that the tables and protocols point to, as the specification has it.
    Many methods of pkg/uefi call through one pointer too many (SpecTables and
    Protocols say which), so that they do not reach their function: what is
    proved of the code that uses them (Disk, Serial, the enumerations of Handles,
    Ticks) holds on any firmware and assumes nothing of what such a call does.

    ** What is shown

    - The boundary: the assembly calls the service at the table entry with the
      arguments in registers and stack slots as the convention wants, returns
      its status to the caller with the stack pointer restored, and for which
      argument counts the stack is aligned; the pkg/uefi wrappers that
      reach their service and those that do not; struct layouts against the C
      alignment rules, and [decode] after [encode].
    - Text and names: UTF-16 conversions, GUID text to bytes and back, status
      codes and the identity of their errors.
    - Services as refinements: protocol lookup refines a handle database,
      [GetMemoryMap] and [ExitBootServices] refine a firmware that keeps a map
      and its key, [File.Read] and [io.ReadAll] over it refine a stream, opening
      and reading a file yields its content.
    - Algorithms: the E820 conversion covers exactly the same addresses with
      the same types, joins all it can and isolates the unikernel; the device
      path parser inverts the printer and is safe on any bytes except for node
      lengths 1 to 3; heap set-up; [GetEpoch]; the TSC frequency.
    - The image as a whole: the entry code hands the firmware's handle and table
      to [Init]; from there [init] claims the heap and [main] boots the kernel
      with what it found in memory before.  Whatever the firmware answers, every
      program built from the operations of ueficore ends, with the mutex free,
      unless it calls [LoadImage] and the firmware never stops reporting more of
      the file; the unikernel ends, too.
    - The boot programs: efi-verify reads its configuration back as it was
      written, has the firmware load the kernel under its path, starts it with
      the command line and exits; it exits with code 1, having asked for lookups
      only, in each of the ways its boot volume can be unusable; what
      efiload starts once it has listed a variable store of any size, which
      leaves its configuration alone, and what recovery starts, after which
      errors.
    - The devices of pkg/uefi on a firmware that keeps them: the graphics mode
      chosen, the variables that are listed, and the keyboard, whose blocking call
      returns exactly when a key comes.  On any firmware: which checks and calls
      a disk transfer makes and what it returns, when a blocking serial read
      returns, how an enumeration of handles ends, and that the calibration of the
      counter closes its event on every path.
    - The processor: asmCpuid and asmReadRdtsc deliver what CPUID and RDTSC
      answer to the variables that the frequency is computed from.
    - The call stubs pass every argument where the convention wants it and
      restore the stack; which of them misalign it.
    - Goroutines: the mutex of a package serializes the calls made through it,
      so the rest of the development may run a call in one piece; it keeps two
      goroutines out of the firmware at once, but not a call of the one package
      and a call of the other; no set of goroutines deadlocks.  The steps allow
      every interleaving that sync.Mutex permits, which is more than one core
      shows; what a call does to memory is seen when it returns.
    - Layouts: the two packages' declarations of the firmware's structs agree
      field by field but for the file times, and where they differ from C; the
      offsets that the
      methods use are those of Go's layout.
    - Where the code does not do what it means to, a theorem says what it does
      instead.

    ** Bounds and fuel

    Loops of the source with a bound in it are run with that bound: 16 device
    path nodes, 1000 memory descriptors, the entries of a configuration table,
    the handles of a handle buffer.  [ConfigurationTables] (for a table of
    consistent size) and [GetMemoryMap] pass fuel computed from the input and
    are proved never to run out.  Loops that the outside ends take fuel as an
    argument, and a theorem says how much is enough: [ReadAll] one round more
    than there are bytes left, [Gop.Init] one more than there are modes, [vars]
    two for each variable and one more, [WaitForEvent] one more than the checks
    that find nothing; for an event that is never signalled no fuel is enough.
    [Serial.Read] ends with the round that ends its wait, and may never.  Machine integers have their width: every operation that
    can leave it is wrapped.

    ** Not modelled

    The Zig stubs (src/src) and the signer and build scripts are not Go.  The
    empty files of pkg/uefi, type aliases and interfaces without an
    implementation have no behaviour; the struct types without
    methods (device paths, DHCP and network configuration, file system
    information) appear in Layouts only.  tamago's sse_enable, which the entry
    code calls, and its drivers are parameters.  uefi.s of pkg/uefi is the same file
    as that of ueficore.  What the processor answers CPUID and RDTSC is a parameter;
    the SHA-256 that the commands print is not computed. *)

From Stdlib Require Export ZArith Lia Ascii.
From stdpp Require Export base tactics numbers gmap strings.
From stdpp Require Export list.

Declare Scope go_scope.
Delimit Scope go_scope with go.
Open Scope Z_scope.

Create HintDb word.
Create Rewrite HintDb word.
Create HintDb bytes.
Create Rewrite HintDb bytes.

(** ** Machine integers

    A Go integer of width [w] is a [Z]; every arithmetic operation of the
    source that can leave the range is followed by the conversion below. *)

Definition wrap (w z : Z) : Z := z mod 2 ^ w.
Definition swrap (w z : Z) : Z := (z + 2 ^ (w - 1)) mod 2 ^ w - 2 ^ (w - 1).

Abbreviation u8 := (wrap 8).
Abbreviation u16 := (wrap 16).
Abbreviation u32 := (wrap 32).
Abbreviation u64 := (wrap 64).
Abbreviation i16 := (swrap 16).
Abbreviation i32 := (swrap 32).
Abbreviation i64 := (swrap 64).

Definition is_word (w z : Z) : Prop := 0 <= z < 2 ^ w.
Definition is_byte (b : Z) : Prop := 0 <= b < 256.

#[export] Instance is_word_dec w z : Decision (is_word w z).
Proof. unfold is_word. apply _. Defined.
#[export] Instance is_byte_dec b : Decision (is_byte b).
Proof. unfold is_byte. apply _. Defined.

Lemma wrap_range w z : 0 <= w -> is_word w (wrap w z).
Proof. intros Hw. apply Z.mod_pos_bound. lia. Qed.

Lemma wrap_small w z : is_word w z -> wrap w z = z.
Proof. apply Z.mod_small. Qed.

Lemma wrap_wrap w z : wrap w (wrap w z) = wrap w z.
Proof. apply Zmod_mod. Qed.

Lemma is_word_ones w z : 0 <= w -> is_word w z <-> Z.land z (Z.ones w) = z.
Proof.
  intros Hw. rewrite Z.land_ones by done. split; [by apply wrap_small|].
  intros <-. by apply wrap_range.
Qed.

Lemma is_word_lor w a b : 0 <= w -> is_word w a -> is_word w b -> is_word w (Z.lor a b).
Proof.
  intros Hw Ha Hb. apply is_word_ones in Ha, Hb; try done. apply is_word_ones; [done|].
  by rewrite Z.land_lor_distr_l, Ha, Hb.
Qed.

(** A word above another one. *)
Lemma lor_shifted w hi lo : 0 <= w -> is_word w lo -> Z.lor (Z.shiftl hi w) lo = hi * 2 ^ w + lo.
Proof.
  unfold is_word. intros Hw Hlo. rewrite Z.shiftl_mul_pow2 by done. symmetry. apply Z.add_nocarry_lor.
  apply Z.bits_inj'. intros i Hi. rewrite Z.land_spec, Z.bits_0. destruct (Z.lt_ge_cases i w).
  - by rewrite Z.mul_pow2_bits_low by lia.
  - rewrite <-(Z.mod_small lo (2 ^ w)), Z.mod_pow2_bits_high by lia. by rewrite andb_false_r.
Qed.

Lemma is_word_ldiff w a b : 0 <= w -> is_word w a -> is_word w (Z.ldiff a b).
Proof.
  intros Hw Ha. apply is_word_ones in Ha; [|done]. apply is_word_ones; [done|].
  apply Z.bits_inj. intros n. rewrite Z.land_spec, Z.ldiff_spec.
  rewrite <-Ha at 2. rewrite Z.land_spec. by destruct (Z.testbit a n), (Z.testbit b n), (Z.testbit _ n).
Qed.

Lemma swrap_range w z : 0 < w -> - 2 ^ (w - 1) <= swrap w z < 2 ^ (w - 1).
Proof.
  intros Hw. unfold swrap.
  assert (2 ^ w = 2 * 2 ^ (w - 1)) as E.
  { rewrite <-Z.pow_succ_r by lia. f_equal. lia. }
  pose proof (Z.mod_pos_bound (z + 2 ^ (w - 1)) (2 ^ w) ltac:(lia)). lia.
Qed.

Lemma swrap_small w z : 0 < w -> - 2 ^ (w - 1) <= z < 2 ^ (w - 1) -> swrap w z = z.
Proof.
  intros Hw Hz. unfold swrap.
  assert (2 ^ w = 2 * 2 ^ (w - 1)) as E.
  { rewrite <-Z.pow_succ_r by lia. f_equal. lia. }
  rewrite Z.mod_small; lia.
Qed.

(** Sign reinterpretation and its inverse. *)
Lemma wrap_swrap w z : 0 < w -> wrap w (swrap w z) = wrap w z.
Proof.
  intros Hw. unfold wrap, swrap.
  rewrite Zminus_mod_idemp_l. f_equal. lia.
Qed.

Lemma swrap_wrap w z : 0 < w -> swrap w (wrap w z) = swrap w z.
Proof. intros Hw. unfold wrap, swrap. by rewrite Zplus_mod_idemp_l. Qed.

#[export] Hint Resolve wrap_range : word.
#[export] Hint Rewrite wrap_wrap : word.

(** [word] closes range goals on fixed-width integers. *)
Ltac word :=
  unfold wrap, swrap, is_word, is_byte in *;
  repeat match goal with
  | |- context [2 ^ ?k] => let v := eval vm_compute in (2 ^ k) in
                           lazymatch v with Zpos _ => change (2 ^ k) with v end
  | H : context [2 ^ ?k] |- _ => let v := eval vm_compute in (2 ^ k) in
                           lazymatch v with Zpos _ => change (2 ^ k) with v in H end
  end;
  Z.div_mod_to_equations; lia.

(** ** Lists *)

Section Lists.
Context {A : Type}.
Implicit Types l : list A.

Lemma take_app_exact l k n : n = length l -> take n (l ++ k) = l.
Proof. intros ->. by rewrite take_app_length. Qed.

Lemma drop_app_exact l k n : n = length l -> drop n (l ++ k) = k.
Proof. intros ->. by rewrite drop_app_length. Qed.

(** The elements [off, off+n) of a list: Go's [l[off:off+n]]. *)
Definition sub (off n : nat) l : list A := take n (drop off l).

Lemma length_sub off n l : (off + n <= length l)%nat -> length (sub off n l) = n.
Proof. intros H. unfold sub. rewrite length_take, length_drop. lia. Qed.

Lemma sub_0 n l : sub 0 n l = take n l.
Proof. unfold sub. by rewrite drop_0. Qed.

Lemma sub_app_l off n l k : (off + n <= length l)%nat -> sub off n (l ++ k) = sub off n l.
Proof.
  intros H. unfold sub. rewrite drop_app_le by lia.
  rewrite take_app_le; [done|]. rewrite length_drop. lia.
Qed.

Lemma sub_app_exact off n l1 l2 l3 :
  off = length l1 -> n = length l2 -> sub off n (l1 ++ l2 ++ l3) = l2.
Proof. intros -> ->. unfold sub. rewrite drop_app_length. by apply take_app_length. Qed.

Lemma Forall_sub (P : A -> Prop) off n l : Forall P l -> Forall P (sub off n l).
Proof. intros. by apply Forall_take, Forall_drop. Qed.
End Lists.

Lemma fst_eq {A B} (p : A * B) (a : A) : p.1 = a -> p = (a, p.2).
Proof. by destruct p; intros <-. Qed.

Definition zlen {A} (l : list A) : Z := Z.of_nat (length l).

Lemma zlen_nonneg {A} (l : list A) : 0 <= zlen l.
Proof. unfold zlen. lia. Qed.

Lemma zlen_app {A} (l k : list A) : zlen (l ++ k) = zlen l + zlen k.
Proof. unfold zlen. rewrite length_app. lia. Qed.

Lemma zlen_cons {A} (x : A) l : zlen (x :: l) = 1 + zlen l.
Proof. unfold zlen. simpl. lia. Qed.

#[export] Hint Resolve zlen_nonneg Forall_sub : bytes.
#[export] Hint Rewrite @zlen_app @zlen_cons : bytes.

(** ** Go strings are byte sequences *)

Abbreviation gostring := (list Z).

Definition bytes_of_string (s : string) : gostring :=
  map (fun a => Z.of_N (N_of_ascii a)) (String.list_ascii_of_string s).

Lemma bytes_of_string_byte s : Forall is_byte (bytes_of_string s).
Proof.
  apply Forall_map, Forall_true. intros a. simpl.
  pose proof (N_ascii_bounded a). unfold is_byte. lia.
Qed.

(** ** Lists whose elements make steps *)

(** One element makes a step. *)
Definition one_changes {A} (R : A -> A -> Prop) (l l' : list A) : Prop :=
  exists i x y, l !! i = Some x /\ R x y /\ l' = <[i := y]> l.

Lemma one_changes_sn {A} (R : A -> A -> Prop) l : Forall (sn R) l -> sn (one_changes R) l.
Proof.
  induction 1 as [|x l Hx _ IH].
  - constructor. intros l' (i & y & z & Hi & _). done.
  - revert l IH. induction Hx as [x _ IHx]. intros l IH. pose proof IH as Hl.
    induction IH as [l _ IHl]. constructor. intros l' (i & y & z & Hi & HR & ->).
    destruct i as [|i]; simplify_eq/=; [by apply IHx|].
    apply IHl; [by exists i, y, z|]. apply (Acc_inv Hl). by exists i, y, z.
Qed.

(** ** Go errors

    [errors.New] and [fmt.Errorf] values with the data they print, and the
    sentinel [io.EOF]. [None] is the nil error. *)

Inductive goerror :=
| ErrEOF                                    (* io.EOF *)
| ErrStatus (status code : Z)               (* "EFI_STATUS error %#x (%d)" *)
| ErrEfi (status : Z)                       (* StatusError(status) of pkg/uefi *)
| ErrNew (msg : string)                     (* errors.New(msg) *)
| ErrWrap (msg : string) (e : goerror).     (* "msg" ++ e.Error() *)

Abbreviation error := (option goerror).

#[export] Instance goerror_eq_dec : EqDecision goerror.
Proof. solve_decision. Defined.

(** ** Outcomes of Go code *)

Inductive panic :=
| PIndex            (* index out of range *)
| PSlice            (* slice bounds out of range *)
| PMakeslice        (* makeslice: len out of range *)
| PDivide           (* integer divide by zero *)
| PNil              (* nil pointer dereference *)
| PMsg (s : string). (* panic("...") *)

Inductive outcome (A : Type) :=
| Ret (a : A)
| Panic (p : panic)
| Deadlock          (* sync.Mutex locked twice by the only goroutine *)
| NoFuel.           (* the loop did not end within the fuel given *)
Arguments Ret {_} _.
Arguments Panic {_} _.
Arguments Deadlock {_}.
Arguments NoFuel {_}.

Definition outcome_bind {A B} (f : A -> outcome B) (o : outcome A) : outcome B :=
  match o with
  | Ret a => f a
  | Panic p => Panic p
  | Deadlock => Deadlock
  | NoFuel => NoFuel
  end.

#[export] Instance outcome_mret : MRet outcome := fun _ a => Ret a.
#[export] Instance outcome_mbind : MBind outcome := fun _ _ f o => outcome_bind f o.
