(* ===== verification/Binary.v ===== *)
(** * Binary: little-endian integers and fixed-size structs

    Go's [encoding/binary] as [pkg/ueficore/desc.go] uses it: a struct is
    the concatenation of its fields, little endian, with no padding between
    them; blank fields ([_]) are written as zeros and skipped when reading.
    The class [Binary] is the interface between a Go struct and its bytes;
    the laws are proved once, for any list of fields. *)

From S2P Require Import Prelude.

(** ** Little-endian integers *)

Fixpoint le_enc (n : nat) (z : Z) : list Z :=
  match n with
  | O => []
  | S n => z mod 256 :: le_enc n (z / 256)
  end.

Fixpoint le_dec (bs : list Z) : Z :=
  match bs with
  | [] => 0
  | b :: bs => b + 256 * le_dec bs
  end.

Lemma length_le_enc n z : length (le_enc n z) = n.
Proof. revert z. induction n; intros; simpl; auto. Qed.

Lemma le_enc_byte n z : Forall is_byte (le_enc n z).
Proof.
  revert z. induction n; intros; constructor; auto.
  unfold is_byte. pose proof (Z.mod_pos_bound z 256). lia.
Qed.

Lemma le_dec_enc n z : le_dec (le_enc n z) = z mod 2 ^ (8 * Z.of_nat n).
Proof.
  revert z. induction n as [|n IH]; intros z; simpl le_dec.
  - by rewrite Z.mod_1_r.
  - rewrite IH.
    replace (2 ^ (8 * Z.of_nat (S n))) with (256 * 2 ^ (8 * Z.of_nat n)).
    2: { rewrite (Nat2Z.inj_succ n), Z.mul_succ_r, Z.pow_add_r by lia. lia. }
    rewrite (Z.rem_mul_r z 256) by lia. lia.
Qed.

Lemma le_dec_range bs :
  Forall is_byte bs -> 0 <= le_dec bs < 2 ^ (8 * Z.of_nat (length bs)).
Proof.
  induction 1 as [|b bs Hb _ IH]; [simpl; lia|].
  replace (2 ^ (8 * Z.of_nat (length (b :: bs))))
    with (256 * 2 ^ (8 * Z.of_nat (length bs))).
  2: { simpl length. rewrite Nat2Z.inj_succ, Z.mul_succ_r, Z.pow_add_r by lia. lia. }
  unfold is_byte in Hb. simpl. lia.
Qed.

Lemma le_enc_dec bs n :
  Forall is_byte bs -> n = length bs -> le_enc n (le_dec bs) = bs.
Proof.
  intros H ->. induction H as [|b bs Hb _ IH]; [done|]. unfold is_byte in Hb.
  simpl. rewrite (Z.mul_comm 256), Z.mod_add, Z.mod_small by lia.
  f_equal. rewrite Z.div_add, Z.div_small by lia. simpl. done.
Qed.

Lemma le_dec_enc_word n z : is_word (8 * Z.of_nat n) z -> le_dec (le_enc n z) = z.
Proof. intros H. rewrite le_dec_enc. by apply Z.mod_small. Qed.

Lemma le_enc_mod n z : le_enc n (z mod 2 ^ (8 * Z.of_nat n)) = le_enc n z.
Proof.
  rewrite <-le_dec_enc. apply le_enc_dec; [apply le_enc_byte|].
  by rewrite length_le_enc.
Qed.

#[export] Hint Resolve le_enc_byte le_dec_enc_word : bytes.
#[export] Hint Rewrite length_le_enc : bytes.

(** ** Struct fields *)

Inductive fty :=
| FUint (n : nat)     (* unsigned integer of n bytes *)
| FInt (n : nat)      (* signed integer of n bytes *)
| FBytes (n : nat)    (* [n]byte *)
| FPad (n : nat).     (* blank field *)

Inductive fval := VZ (z : Z) | VB (bs : list Z).

Definition fsize (f : fty) : nat :=
  match f with FUint n | FInt n | FBytes n | FPad n => n end.

Definition fields_size (fs : list fty) : nat := sum_list_with fsize fs.

Definition val_ok (f : fty) (v : fval) : Prop :=
  match f, v with
  | FUint n, VZ z => is_word (8 * Z.of_nat n) z
  | FInt n, VZ z => (0 < n)%nat /\
                    - 2 ^ (8 * Z.of_nat n - 1) <= z < 2 ^ (8 * Z.of_nat n - 1)
  | FBytes n, VB bs => length bs = n /\ Forall is_byte bs
  | _, _ => False
  end.

Definition is_pad (f : fty) : bool := match f with FPad _ => true | _ => false end.

Fixpoint vals_ok (fs : list fty) (vs : list fval) : Prop :=
  match fs with
  | [] => vs = []
  | f :: fs =>
      if is_pad f then vals_ok fs vs else
      match vs with
      | [] => False
      | v :: vs => val_ok f v /\ vals_ok fs vs
      end
  end.

Definition enc_field (f : fty) (v : fval) : list Z :=
  match f, v with
  | (FUint n | FInt n), VZ z => le_enc n z
  | FBytes n, VB bs => bs
  | _, _ => replicate (fsize f) 0
  end.

Definition dec_field (f : fty) (bs : list Z) : fval :=
  match f with
  | FInt n => VZ (swrap (8 * Z.of_nat n) (le_dec bs))
  | FBytes _ => VB bs
  | _ => VZ (le_dec bs)
  end.

Fixpoint enc_fields (fs : list fty) (vs : list fval) : list Z :=
  match fs with
  | [] => []
  | f :: fs =>
      if is_pad f then replicate (fsize f) 0 ++ enc_fields fs vs else
      match vs with
      | [] => replicate (fsize f) 0 ++ enc_fields fs []
      | v :: vs => enc_field f v ++ enc_fields fs vs
      end
  end.

Fixpoint dec_fields (fs : list fty) (bs : list Z) : list fval :=
  match fs with
  | [] => []
  | f :: fs =>
      if is_pad f then dec_fields fs (drop (fsize f) bs) else
      dec_field f (take (fsize f) bs) :: dec_fields fs (drop (fsize f) bs)
  end.

(** Blank fields hold zeros: what a Go writer leaves there. *)
Fixpoint pads_zero (fs : list fty) (bs : list Z) : Prop :=
  match fs with
  | [] => True
  | f :: fs =>
      (is_pad f -> take (fsize f) bs = replicate (fsize f) 0) /\
      pads_zero fs (drop (fsize f) bs)
  end.

Definition fty_ok (f : fty) : Prop := match f with FInt n => (0 < n)%nat | _ => True end.

Lemma enc_field_length f v : val_ok f v -> length (enc_field f v) = fsize f.
Proof. destruct f, v; simpl; try done; rewrite ?length_le_enc; tauto. Qed.

Lemma enc_field_byte f v : val_ok f v -> Forall is_byte (enc_field f v).
Proof. destruct f, v; simpl; try done; intros; try tauto; auto with bytes. Qed.

Lemma dec_enc_field f v : val_ok f v -> dec_field f (enc_field f v) = v.
Proof.
  destruct f, v; simpl; try done; intros H; f_equal.
  - by apply le_dec_enc_word.
  - destruct H as [Hn H]. rewrite le_dec_enc. fold (wrap (8 * Z.of_nat n) z).
    rewrite swrap_wrap by lia. apply swrap_small; lia.
Qed.

Lemma dec_field_ok f bs :
  is_pad f = false -> fty_ok f ->
  length bs = fsize f -> Forall is_byte bs -> val_ok f (dec_field f bs).
Proof.
  destruct f; simpl; try done; intros _ Hf <- Hb.
  - by apply le_dec_range.
  - split; [done|]. apply swrap_range. lia.
Qed.

Lemma enc_dec_field f bs :
  is_pad f = false -> fty_ok f ->
  length bs = fsize f -> Forall is_byte bs -> enc_field f (dec_field f bs) = bs.
Proof.
  destruct f as [n|n|n|n]; simpl; try done; intros _ Hf Hlen Hb.
  - by apply le_enc_dec.
  - rewrite <-le_enc_mod. fold (wrap (8 * Z.of_nat n) (swrap (8 * Z.of_nat n) (le_dec bs))).
    rewrite wrap_swrap by lia. unfold wrap. rewrite le_enc_mod. by apply le_enc_dec.
Qed.

(** ** Whole structs *)

Lemma enc_fields_length fs vs : vals_ok fs vs -> length (enc_fields fs vs) = fields_size fs.
Proof.
  revert vs. induction fs as [|f fs IH]; intros vs; simpl; [done|].
  destruct (is_pad f).
  - intros H. by rewrite length_app, length_replicate, IH.
  - destruct vs as [|v vs]; [done|]. intros [Hv Hvs].
    by rewrite length_app, (enc_field_length _ _ Hv), IH.
Qed.

Lemma enc_fields_byte fs vs : vals_ok fs vs -> Forall is_byte (enc_fields fs vs).
Proof.
  revert vs. induction fs as [|f fs IH]; intros vs; simpl; [constructor|].
  destruct (is_pad f).
  - intros H. apply Forall_app; split; [apply Forall_replicate; unfold is_byte; lia|auto].
  - destruct vs as [|v vs]; [done|]. intros [Hv Hvs].
    apply Forall_app; split; eauto using enc_field_byte.
Qed.

(** Decoding reads exactly what encoding wrote, whatever follows it. *)
Lemma dec_enc_fields fs vs rest :
  vals_ok fs vs -> dec_fields fs (enc_fields fs vs ++ rest) = vs.
Proof.
  revert vs. induction fs as [|f fs IH]; intros vs; simpl; [done|].
  destruct (is_pad f) eqn:Hp.
  - intros H. rewrite <-app_assoc, drop_app_exact by (by rewrite length_replicate).
    by apply IH.
  - destruct vs as [|v vs]; [done|]. intros [Hv Hvs]. rewrite <-app_assoc.
    rewrite take_app_exact, drop_app_exact by (by rewrite (enc_field_length _ _ Hv)).
    by rewrite dec_enc_field, IH.
Qed.

Lemma fields_split f fs bs :
  length bs = fields_size (f :: fs) -> Forall is_byte bs ->
  length (take (fsize f) bs) = fsize f /\ Forall is_byte (take (fsize f) bs) /\
  length (drop (fsize f) bs) = fields_size fs /\ Forall is_byte (drop (fsize f) bs).
Proof.
  intros Hlen Hb. unfold fields_size in *. simpl in Hlen. rewrite length_take, length_drop.
  repeat split; auto using Forall_take, Forall_drop; lia.
Qed.

Lemma dec_fields_ok fs bs :
  Forall fty_ok fs -> length bs = fields_size fs -> Forall is_byte bs ->
  vals_ok fs (dec_fields fs bs).
Proof.
  intros Hfs. revert bs. induction Hfs as [|f fs Hf _ IH]; intros bs Hlen Hb; [done|].
  destruct (fields_split _ _ _ Hlen Hb) as (? & ? & ? & ?).
  simpl. destruct (is_pad f) eqn:Hp; auto using dec_field_ok.
Qed.

Lemma enc_dec_fields fs bs :
  Forall fty_ok fs -> length bs = fields_size fs -> Forall is_byte bs ->
  pads_zero fs bs -> enc_fields fs (dec_fields fs bs) = bs.
Proof.
  intros Hfs. revert bs. induction Hfs as [|f fs Hf _ IH]; intros bs Hlen Hb Hp.
  { by destruct bs. }
  destruct (fields_split _ _ _ Hlen Hb) as (? & ? & ? & ?). destruct Hp as [Hz Hp].
  simpl. destruct (is_pad f) eqn:Hpad; rewrite IH by done.
  - rewrite <-Hz by done. apply take_drop.
  - rewrite enc_dec_field by done. apply take_drop.
Qed.

(** ** The codec interface *)

Class Binary (A : Type) := {
  bin_fields : list fty;
  bin_zero : A;                          (* Go's zero value *)
  to_vals : A -> list fval;
  of_vals : list fval -> option A;
  bin_fields_ok : Forall fty_ok bin_fields;
  of_to_vals : forall a, of_vals (to_vals a) = Some a;
  to_of_vals : forall vs, vals_ok bin_fields vs ->
               exists a, of_vals vs = Some a /\ to_vals a = vs;
}.
Arguments bin_fields A {_}.
Arguments bin_zero A {_}.

(** The shape of well-formed values, field by field. *)
Lemma vals_ok_uint n fs vs :
  vals_ok (FUint n :: fs) vs -> exists z vs', vs = VZ z :: vs' /\ vals_ok fs vs'.
Proof. destruct vs as [|[z|bs] vs]; simpl; try tauto. intros [_ Hvs]; eauto. Qed.

Lemma vals_ok_int n fs vs :
  vals_ok (FInt n :: fs) vs -> exists z vs', vs = VZ z :: vs' /\ vals_ok fs vs'.
Proof. destruct vs as [|[z|bs] vs]; simpl; try tauto. intros [_ Hvs]; eauto. Qed.

Lemma vals_ok_bytes n fs vs :
  vals_ok (FBytes n :: fs) vs -> exists bs vs', vs = VB bs :: vs' /\ vals_ok fs vs'.
Proof. destruct vs as [|[z|bs] vs]; simpl; try tauto. intros [_ Hvs]; eauto. Qed.

Lemma vals_ok_pad n fs vs : vals_ok (FPad n :: fs) vs -> vals_ok fs vs.
Proof. done. Qed.

Lemma vals_ok_nil vs : vals_ok [] vs -> vs = [].
Proof. done. Qed.

(** [binary_fields] discharges [to_of_vals] for a concrete field list. *)
Ltac binary_fields :=
  let vs := fresh "vs" in
  let H := fresh "H" in
  intros vs H;
  lazymatch type of H with
  | vals_ok (?f :: ?fs) _ => idtac
  | vals_ok ?fs _ => let fs' := eval hnf in fs in change (vals_ok fs' vs) in H
  end;
  repeat lazymatch type of H with
  | vals_ok (FUint _ :: _) _ => apply vals_ok_uint in H as (? & ? & -> & H)
  | vals_ok (FInt _ :: _) _ => apply vals_ok_int in H as (? & ? & -> & H)
  | vals_ok (FBytes _ :: _) _ => apply vals_ok_bytes in H as (? & ? & -> & H)
  | vals_ok (FPad _ :: _) _ => apply vals_ok_pad in H
  end;
  apply vals_ok_nil in H as ->;
  eexists; split; reflexivity.

Section Codec.
Context {A : Type} `{Binary A}.

Definition bin_size : nat := fields_size (bin_fields A).
Definition bin_ok (a : A) : Prop := vals_ok (bin_fields A) (to_vals a).

(** [marshalBinary] of desc.go: never fails on a fixed-size struct. *)
Definition marshalBinary (data : A) : list Z * error :=
  (enc_fields (bin_fields A) (to_vals data), None).

(** [unmarshalBinary]: [binary.Decode] refuses a short buffer and otherwise
    reads the leading bytes; the value is unchanged on error. *)
Definition unmarshalBinary (buf : list Z) (data : A) : A * error :=
  if decide (length buf < bin_size)%nat
  then (data, Some (ErrNew "buffer too small"))
  else (default data (of_vals (dec_fields (bin_fields A) buf)), None).

Definition enc (a : A) : list Z := fst (marshalBinary a).

Lemma enc_length a : bin_ok a -> length (enc a) = bin_size.
Proof. apply enc_fields_length. Qed.

Lemma enc_byte a : bin_ok a -> Forall is_byte (enc a).
Proof. apply enc_fields_byte. Qed.

Lemma unmarshal_enc a rest d :
  bin_ok a -> unmarshalBinary (enc a ++ rest) d = (a, None).
Proof.
  intros Ha. unfold unmarshalBinary.
  rewrite decide_False.
  2: { rewrite length_app, enc_length by done. lia. }
  unfold enc, marshalBinary. simpl.
  by rewrite dec_enc_fields, of_to_vals.
Qed.

Lemma unmarshal_exact a d : bin_ok a -> unmarshalBinary (enc a) d = (a, None).
Proof. intros Ha. rewrite <-(app_nil_r (enc a)). by apply unmarshal_enc. Qed.

Lemma unmarshal_ok bs d :
  length bs = bin_size -> Forall is_byte bs ->
  exists a, unmarshalBinary bs d = (a, None) /\ bin_ok a.
Proof.
  intros Hl Hb. unfold unmarshalBinary. rewrite decide_False by lia.
  destruct (to_of_vals (dec_fields (bin_fields A) bs)) as (a & -> & Ha).
  { apply dec_fields_ok; auto using bin_fields_ok. }
  exists a. split; [done|]. unfold bin_ok. rewrite Ha.
  apply dec_fields_ok; auto using bin_fields_ok.
Qed.

Lemma enc_unmarshal bs d a :
  length bs = bin_size -> Forall is_byte bs -> pads_zero (bin_fields A) bs ->
  unmarshalBinary bs d = (a, None) -> enc a = bs.
Proof.
  intros Hl Hb Hp. unfold unmarshalBinary. rewrite decide_False by lia.
  destruct (to_of_vals (dec_fields (bin_fields A) bs)) as (a' & -> & Ha).
  { apply dec_fields_ok; auto using bin_fields_ok. }
  intros [= <-]. simpl. unfold enc, marshalBinary. simpl. rewrite Ha.
  apply enc_dec_fields; auto using bin_fields_ok.
Qed.

Lemma unmarshal_short buf d :
  (length buf < bin_size)%nat ->
  unmarshalBinary buf d = (d, Some (ErrNew "buffer too small")).
Proof. intros. unfold unmarshalBinary. by rewrite decide_True. Qed.
End Codec.
Arguments bin_size A {_}.

#[export] Hint Resolve enc_byte : bytes.

(** ** Natural alignment

    The firmware lays its structs out in C: each field at a multiple of its
    size and the whole padded to the largest alignment.  Decoding such memory
    with the packed codec above is right when the packed offsets are already
    aligned, which the Go structs achieve with explicit blank fields. *)

Definition falign (f : fty) : nat :=
  match f with FUint n | FInt n => n | FBytes _ | FPad _ => 1 end.

Fixpoint c_aligned_from (off : nat) (fs : list fty) : bool :=
  match fs with
  | [] => true
  | f :: fs => (off mod falign f =? 0)%nat && c_aligned_from (off + fsize f) fs
  end.

Definition c_aligned (fs : list fty) : bool :=
  c_aligned_from 0 fs &&
  (fields_size fs mod max_list_with falign fs =? 0)%nat.

(** Offset of the [i]-th entry of a field list in the packed encoding. *)
Definition foffset (i : nat) (fs : list fty) : nat := fields_size (take i fs).

#[global] Arguments le_enc : simpl never.
#[global] Arguments le_dec : simpl never.
