(* ===== verification/Machine.v ===== *)
(** * Machine: memory, the firmware boundary and the Go effects

    The state every effectful definition threads: byte-addressed memory, the
    Go heap frontier, the package mutex of [uefi.go], the console log and the
    firmware's own state.  The firmware and the [tamago/dma] package are not
    part of the repository: they are the fields of the class [Machine], so
    every definition and theorem is parametric in them. *)

From S2P Require Import Prelude Binary.

(** ** Memory *)

Abbreviation memory := (gmap Z Z).

Definition load8 (m : memory) (a : Z) : Z := default 0 (m !! a).

Fixpoint load_bytes (m : memory) (a : Z) (n : nat) : list Z :=
  match n with
  | O => []
  | S n => load8 m a :: load_bytes m (a + 1) n
  end.

Fixpoint store_bytes (m : memory) (a : Z) (bs : list Z) : memory :=
  match bs with
  | [] => m
  | b :: bs => <[a := b]> (store_bytes m (a + 1) bs)
  end.

Definition load64 (m : memory) (a : Z) : Z := le_dec (load_bytes m a 8).
Definition store64 (m : memory) (a v : Z) : memory := store_bytes m a (le_enc 8 v).
Definition load32 (m : memory) (a : Z) : Z := le_dec (load_bytes m a 4).
Definition store32 (m : memory) (a v : Z) : memory := store_bytes m a (le_enc 4 v).

(** Two byte ranges that do not overlap. *)
Definition disjoint_ranges (a : Z) (n : nat) (b : Z) (k : nat) : Prop :=
  a + Z.of_nat n <= b \/ b + Z.of_nat k <= a.

#[export] Instance disjoint_ranges_dec a n b k : Decision (disjoint_ranges a n b k).
Proof. unfold disjoint_ranges. apply _. Defined.

Lemma load_bytes_S m a n : load_bytes m a (S n) = load8 m a :: load_bytes m (a + 1) n.
Proof. reflexivity. Qed.

Lemma load_bytes_map m a n :
  load_bytes m a n = map (fun i => load8 m (a + Z.of_nat i)) (seq 0 n).
Proof.
  revert a. induction n as [|n IH]; intros a; [done|]. rewrite load_bytes_S, IH. simpl.
  rewrite Z.add_0_r. f_equal. rewrite <-seq_shift, map_map. apply map_ext. intros. f_equal. lia.
Qed.

Lemma length_load_bytes m a n : length (load_bytes m a n) = n.
Proof. by rewrite load_bytes_map, length_map, length_seq. Qed.

Lemma load_bytes_app m a n k :
  load_bytes m a (n + k) = load_bytes m a n ++ load_bytes m (a + Z.of_nat n) k.
Proof.
  revert a. induction n as [|n IH]; intros a.
  - simpl. by rewrite Z.add_0_r.
  - simpl Nat.add. rewrite !load_bytes_S, IH. simpl. do 2 f_equal. f_equal. lia.
Qed.

Lemma sub_load_bytes m a n off k :
  (off + k <= n)%nat -> sub off k (load_bytes m a n) = load_bytes m (a + Z.of_nat off) k.
Proof.
  intros H. replace n with (off + (k + (n - off - k)))%nat by lia.
  rewrite !load_bytes_app. apply sub_app_exact; by rewrite length_load_bytes.
Qed.

Lemma take_load_bytes m a n k : (k <= n)%nat -> take k (load_bytes m a n) = load_bytes m a k.
Proof.
  intros H. rewrite <-sub_0, sub_load_bytes by lia. f_equal. lia.
Qed.

Lemma load8_store_bytes m a bs x :
  load8 (store_bytes m a bs) x =
  if decide (a <= x < a + zlen bs) then nth (Z.to_nat (x - a)) bs 0 else load8 m x.
Proof.
  revert a. induction bs as [|b bs IH]; intros a; unfold load8 in *; simpl store_bytes.
  - rewrite decide_False; [done|]. unfold zlen. simpl. lia.
  - rewrite zlen_cons. destruct (decide (x = a)) as [->|Hne].
    + rewrite lookup_insert_eq. rewrite decide_True by (pose proof (zlen_nonneg bs); lia).
      by replace (a - a) with 0 by lia.
    + rewrite lookup_insert_ne by done. rewrite IH.
      destruct (decide (a + 1 <= x < a + 1 + zlen bs)) as [Hin|Hout].
      * rewrite decide_True by lia.
        by replace (Z.to_nat (x - a)) with (S (Z.to_nat (x - (a + 1)))) by lia.
      * rewrite decide_False by lia. done.
Qed.

Lemma load_store_same m a bs : load_bytes (store_bytes m a bs) a (length bs) = bs.
Proof.
  apply nth_ext with (d := 0) (d' := 0); rewrite length_load_bytes; [done|].
  intros i Hi. rewrite load_bytes_map.
  rewrite (nth_indep _ _ (load8 (store_bytes m a bs) (a + Z.of_nat 0)))
    by (by rewrite length_map, length_seq).
  rewrite (map_nth (fun i => load8 (store_bytes m a bs) (a + Z.of_nat i))), seq_nth by done.
  rewrite load8_store_bytes, decide_True by (unfold zlen; lia).
  f_equal. lia.
Qed.

Lemma load_store_other m a bs b n :
  disjoint_ranges a (length bs) b n ->
  load_bytes (store_bytes m a bs) b n = load_bytes m b n.
Proof.
  intros Hd. rewrite !load_bytes_map. apply map_ext_in. intros i Hi%in_seq.
  rewrite load8_store_bytes, decide_False; [done|].
  unfold disjoint_ranges, zlen in *. lia.
Qed.

Lemma load64_store64 m a v : is_word 64 v -> load64 (store64 m a v) a = v.
Proof.
  intros Hv. unfold load64, store64.
  replace 8%nat with (length (le_enc 8 v)) at 2 by apply length_le_enc.
  rewrite load_store_same. by apply le_dec_enc_word.
Qed.

Lemma load32_store32 m a v : is_word 32 v -> load32 (store32 m a v) a = v.
Proof.
  intros Hv. unfold load32, store32.
  replace 4%nat with (length (le_enc 4 v)) at 2 by apply length_le_enc.
  rewrite load_store_same. by apply le_dec_enc_word.
Qed.

Lemma load64_store_other m a bs b :
  disjoint_ranges a (length bs) b 8 -> load64 (store_bytes m a bs) b = load64 m b.
Proof. intros H. unfold load64. by rewrite load_store_other. Qed.

Lemma load64_store64_other m a v b : a + 8 <= b \/ b + 8 <= a -> load64 (store64 m a v) b = load64 m b.
Proof. intros H. apply load64_store_other. rewrite length_le_enc. unfold disjoint_ranges. lia. Qed.

Lemma load_store_prefix m a bs j :
  (j <= length bs)%nat -> load_bytes (store_bytes m a bs) a j = take j bs.
Proof.
  intros Hj. rewrite <-(take_load_bytes _ a (length bs)) by done. by rewrite load_store_same.
Qed.

(** Two memories agree below [B]. *)
Definition agree_below (B : Z) (m m' : memory) : Prop :=
  forall a n, a + Z.of_nat n <= B -> load_bytes m' a n = load_bytes m a n.

Lemma agree_refl B m : agree_below B m m.
Proof. by intros a n _. Qed.

Lemma agree_trans B m1 m2 m3 : agree_below B m1 m2 -> agree_below B m2 m3 -> agree_below B m1 m3.
Proof. intros H12 H23 a n Ha. by rewrite H23, H12. Qed.

Lemma agree_le B B' m m' : B <= B' -> agree_below B' m m' -> agree_below B m m'.
Proof. intros HB Hm a n Ha. apply Hm. lia. Qed.

Lemma agree_store B m a bs : B <= a -> agree_below B m (store_bytes m a bs).
Proof. intros Ha b n Hb. apply load_store_other. unfold disjoint_ranges. lia. Qed.

Lemma agree_load64 B m m' a : agree_below B m m' -> a + 8 <= B -> load64 m' a = load64 m a.
Proof. intros Hm Ha. unfold load64. by rewrite Hm. Qed.

#[export] Hint Rewrite length_load_bytes : bytes.

#[global] Arguments load_bytes : simpl never.
#[global] Arguments store_bytes : simpl never.
#[global] Arguments load64 : simpl never.
#[global] Arguments load32 : simpl never.

(** ** The boundary *)

Class Machine := {
  fwstate : Type;
  (** What jumping to the entry point of a UEFI service does: from the
      arguments it receives, memory and the firmware's state, to the status
      register, memory and the new state. *)
  firmware : Z -> list Z -> memory -> fwstate -> Z * memory * fwstate;
  (** The content of a result slot that the callee never writes. *)
  stale_result : Z;
  (** [tamago/dma]: [NewRegion(addr, size, unsafe)] fails or yields a region,
      here its start and size; [Reserve(size, align)] places a buffer in it and
      returns the buffer's address; [Alloc(buf, align)] also copies [buf]
      there. [Release] and [Free] only concern the region, which the callers
      drop.  [dma_word] is the word to which every buffer is aligned. *)
  dma_word : Z;
  dma_NewRegion : Z -> Z -> bool -> error;
  dma_Reserve : Z * Z -> Z -> Z -> outcome Z;
  dma_Alloc : Z * Z -> list Z -> Z -> memory -> outcome (Z * memory);
}.

(** The bytes from [start] to the next word. *)
Definition dma_pad `{Machine} (start : Z) : Z := (- start) mod dma_word.

Definition dma_aligned `{Machine} (start : Z) : Prop := start mod dma_word = 0.

(** Documented behaviour of the package on a region nothing was reserved in: word
    alignment is always enforced, so a buffer is placed at the first word of the region,
    and one that does not fit after it panics. *)
Class DmaLaws `{Machine} := {
  dma_word_pos : 0 < dma_word;
  dma_reserve_fresh : forall start size n,
    0 < n -> dma_pad start + n <= size -> dma_Reserve (start, size) n 0 = Ret (start + dma_pad start);
  dma_reserve_full : forall start size n,
    0 < n -> size < dma_pad start + n -> exists p, dma_Reserve (start, size) n 0 = Panic p;
  dma_alloc_fresh : forall start size buf m,
    0 < zlen buf -> dma_pad start + zlen buf <= size ->
    dma_Alloc (start, size) buf 0 m =
      Ret (start + dma_pad start, store_bytes m (start + dma_pad start) buf);
  dma_alloc_full : forall start size buf m,
    0 < zlen buf -> size < dma_pad start + zlen buf ->
    exists p, dma_Alloc (start, size) buf 0 m = Panic p;
}.

Lemma dma_pad_aligned `{Machine, !DmaLaws} start : dma_aligned start -> dma_pad start = 0.
Proof.
  unfold dma_aligned, dma_pad. intros E. pose proof dma_word_pos. apply Z_mod_zero_opp_full. exact E.
Qed.

Lemma dma_pad_unaligned `{Machine, !DmaLaws} start : ~ dma_aligned start -> 0 < dma_pad start.
Proof.
  unfold dma_aligned, dma_pad. intros E. pose proof dma_word_pos as Hw.
  pose proof (Z.mod_pos_bound (- start) dma_word Hw).
  destruct (decide ((- start) mod dma_word = 0)) as [E0|]; [|lia].
  destruct E. rewrite <-(Z.opp_involutive start). by apply Z_mod_zero_opp_full.
Qed.

(** The two laws where the region starts at a word. *)
Lemma dma_reserve_aligned `{Machine, !DmaLaws} start size n :
  dma_aligned start -> 0 < n <= size -> dma_Reserve (start, size) n 0 = Ret start.
Proof.
  intros Ha Hn. pose proof (dma_pad_aligned start Ha) as E.
  rewrite dma_reserve_fresh, E by lia. by rewrite Z.add_0_r.
Qed.

Lemma dma_alloc_aligned `{Machine, !DmaLaws} start size buf m :
  dma_aligned start -> 0 < zlen buf <= size ->
  dma_Alloc (start, size) buf 0 m = Ret (start, store_bytes m start buf).
Proof.
  intros Ha Hn. pose proof (dma_pad_aligned start Ha) as E.
  rewrite dma_alloc_fresh, E by lia. by rewrite Z.add_0_r.
Qed.

(** A machine around a firmware given as a function, whose DMA package obeys
    its documentation: what the witnesses run on. *)
Definition machine_with (S : Type)
    (fw : Z -> list Z -> memory -> S -> Z * memory * S) : Machine := {|
  fwstate := S;
  firmware := fw;
  stale_result := 0;
  dma_NewRegion _ _ _ := None;
  dma_word := 8;
  dma_Reserve r n _ :=
    let pad := (- r.1) mod 8 in
    if decide (0 < n /\ pad + n <= r.2) then Ret (r.1 + pad) else Panic (PMsg "out of memory");
  dma_Alloc r buf _ m :=
    let pad := (- r.1) mod 8 in
    if decide (0 < zlen buf /\ pad + zlen buf <= r.2)
    then Ret (r.1 + pad, store_bytes m (r.1 + pad) buf)
    else Panic (PMsg "out of memory");
|}.

#[export] Instance machine_with_dma S fw : DmaLaws (H := machine_with S fw).
Proof.
  split.
  - reflexivity.
  - intros start size n Hn Hs. cbn. by rewrite decide_True.
  - intros start size n Hn Hs. cbn. unfold dma_pad in Hs. cbn in Hs.
    rewrite decide_False by lia. by eexists.
  - intros start size buf m Hn Hs. cbn. by rewrite decide_True.
  - intros start size buf m Hn Hs. cbn. unfold dma_pad in Hs. cbn in Hs.
    rewrite decide_False by lia. by eexists.
Qed.

Record World `{Machine} := mkWorld {
  w_mem : memory;
  w_brk : Z;                (* first address the Go heap has not handed out *)
  w_mux : bool;             (* mux sync.Mutex of uefi.go is held *)
  w_log : list string;      (* messages printed with fmt or log, newest first *)
  w_fw : fwstate;
}.

(** ** The monad of Go code *)

Definition M `{Machine} (A : Type) : Type := World -> outcome A * World.

#[export] Instance M_ret `{Machine} : MRet M := fun _ a w => (Ret a, w).
#[export] Instance M_bind `{Machine} : MBind M := fun _ _ f m w =>
  match m w with
  | (Ret a, w') => f a w'
  | (Panic p, w') => (Panic p, w')
  | (Deadlock, w') => (Deadlock, w')
  | (NoFuel, w') => (NoFuel, w')
  end.

Section Monad.
Context `{Machine}.

Lemma bind_ret {A B} (a : A) (f : A -> M B) w : (mret a ≫= f) w = f a w.
Proof. reflexivity. Qed.

Lemma bind_ret_r {A} (m : M A) w : (m ≫= mret) w = m w.
Proof. unfold mbind, M_bind. by destruct (m w) as [[] ?]. Qed.

Lemma bind_assoc {A B C} (m : M A) (f : A -> M B) (g : B -> M C) w :
  ((m ≫= f) ≫= g) w = (m ≫= (fun a => f a ≫= g)) w.
Proof. unfold mbind, M_bind. by destruct (m w) as [[] ?]. Qed.

(** The stepping rule of every proof about effectful code. *)
Lemma bind_step {A B} (m : M A) (f : A -> M B) w a w' :
  m w = (Ret a, w') -> (m ≫= f) w = f a w'.
Proof. intros E. unfold mbind, M_bind. by rewrite E. Qed.

Lemma bind_panic {A B} (m : M A) (f : A -> M B) w p w' :
  m w = (Panic p, w') -> (m ≫= f) w = (Panic p, w').
Proof. intros E. unfold mbind, M_bind. by rewrite E. Qed.

Lemma bind_inv {A B} (m : M A) (f : A -> M B) w b w' :
  (m ≫= f) w = (Ret b, w') ->
  exists a w1, m w = (Ret a, w1) /\ f a w1 = (Ret b, w').
Proof.
  unfold mbind, M_bind. destruct (m w) as [[] w1]; intros E; simplify_eq; eauto.
Qed.
End Monad.

Section Effects.
Context `{Machine}.

Definition gopanic {A} (p : panic) : M A := fun w => (Panic p, w).
Definition lift {A} (o : outcome A) : M A := fun w => (o, w).
Definition get_world : M World := fun w => (Ret w, w).

Definition set_mem (m : memory) (w : World) : World :=
  mkWorld _ m (w_brk w) (w_mux w) (w_log w) (w_fw w).
Definition set_mux (b : bool) (w : World) : World :=
  mkWorld _ (w_mem w) (w_brk w) b (w_log w) (w_fw w).

(** Read and write memory through a pointer. *)
Definition get_bytes (a : Z) (n : nat) : M (list Z) :=
  fun w => (Ret (load_bytes (w_mem w) a n), w).
Definition put_bytes (a : Z) (bs : list Z) : M unit :=
  fun w => (Ret tt, set_mem (store_bytes (w_mem w) a bs) w).
Definition get64 (a : Z) : M Z := fun w => (Ret (load64 (w_mem w) a), w).
Definition get32 (a : Z) : M Z := fun w => (Ret (load32 (w_mem w) a), w).

(** Sizes are rounded to the word the allocator works with. *)
Definition alloc_size (n : nat) : Z := 8 * ((Z.of_nat n + 7) `div` 8).

(** A new Go object that holds [bs]: [new], [make], a variable whose address
    is taken. *)
Definition alloc_world (bs : list Z) (w : World) : World :=
  mkWorld _ (store_bytes (w_mem w) (w_brk w) bs) (w_brk w + alloc_size (length bs))
          (w_mux w) (w_log w) (w_fw w).

Definition alloc (bs : list Z) : M Z := fun w => (Ret (w_brk w), alloc_world bs w).

Definition alloc64 (v : Z) : M Z := alloc (le_enc 8 v).

(** [&bs[0]] of a byte slice built in Go: the slice's data is placed in
    memory; an empty slice has no element 0. *)
Definition addr_of_bytes (bs : list Z) : M Z :=
  match bs with [] => gopanic PIndex | _ => alloc bs end.

Definition println (s : string) : M unit := fun w =>
  (Ret tt, mkWorld _ (w_mem w) (w_brk w) (w_mux w) (s :: w_log w) (w_fw w)).

Lemma alloc_size_ge n : Z.of_nat n <= alloc_size n.
Proof.
  unfold alloc_size. pose proof (Z.mod_pos_bound (Z.of_nat n + 7) 8).
  pose proof (Z.div_mod (Z.of_nat n + 7) 8). lia.
Qed.

Lemma alloc_size_word v : alloc_size (length (le_enc 8 v)) = 8.
Proof. by rewrite length_le_enc. Qed.

Lemma addr_of_bytes_step bs w :
  bs <> [] -> addr_of_bytes bs w = (Ret (w_brk w), alloc_world bs w).
Proof. by destruct bs. Qed.

Lemma alloc_world_brk bs w : w_brk (alloc_world bs w) = w_brk w + alloc_size (length bs).
Proof. done. Qed.

Lemma alloc_world_load bs w : load_bytes (w_mem (alloc_world bs w)) (w_brk w) (length bs) = bs.
Proof. apply load_store_same. Qed.

Lemma alloc_world_word v w :
  is_word 64 v -> load64 (w_mem (alloc_world (le_enc 8 v) w)) (w_brk w) = v.
Proof. apply load64_store64. Qed.

(** What was allocated before is untouched by an allocation. *)
Lemma alloc_world_other bs w a n :
  a + Z.of_nat n <= w_brk w ->
  load_bytes (w_mem (alloc_world bs w)) a n = load_bytes (w_mem w) a n.
Proof. intros Ha. apply load_store_other. unfold disjoint_ranges. lia. Qed.

Lemma alloc_agree bs w : agree_below (w_brk w) (w_mem w) (w_mem (alloc_world bs w)).
Proof. apply agree_store. lia. Qed.

(** ** ptrval

    The dynamic type of the argument decides; any type the switch does not
    list panics. *)
Inductive goptr :=
| PtrUint64 (a : Z) | PtrUint32 (a : Z) | PtrUint16 (a : Z) | PtrByte (a : Z)
| PtrInputKey (a : Z) | PtrUintptr (a : Z) | PtrOther.

Definition ptrval (ptr : goptr) : M Z :=
  match ptr with
  | PtrUint64 v | PtrUint32 v | PtrUint16 v | PtrByte v | PtrInputKey v => mret v
  | PtrUintptr _ | PtrOther => gopanic (PMsg "internal error, invalid ptrval")
  end.

Definition Ptrval (ptr : goptr) : M Z := ptrval ptr.

(** ** Calling a UEFI service *)

(** [callFn] of uefi.s: [fn] is the address of a table entry, and the call
    goes through it ([CALL (DI)]); without arguments it returns at once and
    the result slot keeps what it held. *)
Definition callFn (fn : Z) (args : list Z) : M Z := fun w =>
  match args with
  | [] => (Ret stale_result, w)
  | _ =>
      let '(status, m, s) :=
        firmware (load64 (w_mem w) fn) args (w_mem w) (w_fw w) in
      (Ret status, mkWorld _ m (w_brk w) (w_mux w) (w_log w) s)
  end.

Definition mux_Lock : M unit := fun w =>
  if w_mux w then (Deadlock, w) else (Ret tt, set_mux true w).
Definition mux_Unlock : M unit := fun w => (Ret tt, set_mux false w).

Definition CallService (fn : Z) (args : list Z) : M Z :=
  mux_Lock ≫= fun _ =>
  callFn fn args ≫= fun status =>
  mux_Unlock ≫= fun _ =>
  mret status.

(** Entry [idx] of a table that starts with the 24-byte EFI table header. *)
Definition CallServiceTable (tablePtr idx : Z) (args : list Z) : M Z :=
  mux_Lock ≫= fun _ =>
  callFn (u64 (tablePtr + 24 + u64 (8 * idx))) args ≫= fun status =>
  mux_Unlock ≫= fun _ =>
  mret status.

(** What one service call does to the world, seen from a free mutex. *)
Definition fw_step (fn : Z) (args : list Z) (w : World) : Z * World :=
  let '(status, m, s) := firmware (load64 (w_mem w) fn) args (w_mem w) (w_fw w) in
  (status, mkWorld _ m (w_brk w) (w_mux w) (w_log w) s).

Lemma CallService_step fn args w :
  w_mux w = false -> args <> [] ->
  CallService fn args w = (Ret (fst (fw_step fn args w)), snd (fw_step fn args w)).
Proof.
  intros Hm Ha. destruct args as [|a args]; [done|].
  unfold CallService, mux_Lock, mux_Unlock, callFn, fw_step, mbind, M_bind, mret, M_ret.
  rewrite Hm. simpl. by destruct (firmware _ _ _ _) as [[st m] s].
Qed.

Lemma fw_step_mux fn args w : w_mux (snd (fw_step fn args w)) = w_mux w.
Proof. unfold fw_step. by destruct (firmware _ _ _ _) as [[? ?] ?]. Qed.

Lemma fw_step_brk fn args w : w_brk (snd (fw_step fn args w)) = w_brk w.
Proof. unfold fw_step. by destruct (firmware _ _ _ _) as [[? ?] ?]. Qed.
End Effects.
