(* ===== verification/CallAbi.v ===== *)
(** * CallAbi: the assembly trampoline of uefi.s

    [callFn] moves a Go [[]uint64] into the Microsoft x64 calling convention:
    four registers, the rest on the stack above a 32-byte shadow area, the
    stack pointer 16-byte aligned at the call; when the service returns it takes the arguments
    off the stack again, restores the stack pointer and stores the status.  Registers and
    addresses are [Z]; one function per labelled stretch of the assembly. *)

From S2P Require Import Prelude Binary Machine.

(** The two calls of the code, by the code that follows them: the one with arguments on
    the stack goes on at [pop], the one of label [call] at [done]. *)
Inductive after := AfterStack | AfterRegs.

(** The machine as the [CALL (DI)] instruction finds it. *)
Record frame := mkFrame {
  fr_entry : Z;       (* the word DI points to *)
  fr_cx : Z; fr_dx : Z; fr_r8 : Z; fr_r9 : Z;
  fr_sp : Z;
  fr_mem : memory;
  fr_bx : Z; fr_r14 : Z;
  fr_after : after;
}.

Record regs := mkRegs {
  r_di : Z; r_r12 : Z; r_r13 : Z;
  r_cx : Z; r_dx : Z; r_r8 : Z; r_r9 : Z;
  r_sp : Z; r_mem : memory;
  r_bx : Z; r_r14 : Z;
}.

(** [ADJSP $32; CALL (DI)] *)
Definition do_call (l : after) (r : regs) : frame :=
  let sp := r_sp r - 32 in
  mkFrame (load64 (r_mem r) (r_di r)) (r_cx r) (r_dx r) (r_r8 r) (r_r9 r) sp (r_mem r)
          (r_bx r) (r_r14 r) l.

(** label [call]: [ANDQ $~15, SP], then the call. *)
Definition lbl_call (r : regs) : frame :=
  do_call AfterRegs
    (mkRegs (r_di r) (r_r12 r) (r_r13 r) (r_cx r) (r_dx r) (r_r8 r) (r_r9 r)
            (Z.land (r_sp r) (Z.lnot 15)) (r_mem r) (r_bx r) (r_r14 r)).

(** [PUSHQ]: eight bytes below the stack pointer. *)
Definition pushq (bs : list Z) (sp : Z) (m : memory) : Z * memory :=
  (sp - 8, store_bytes m (sp - 8) bs).

(** label [push]: [SUBQ $8, R12; PUSHQ (R12); SUBQ $1, R13; JNE push]. *)
Fixpoint lbl_push (r13 : nat) (r12 sp : Z) (m : memory) : Z * memory :=
  match r13 with
  | O => (sp, m)
  | S r13 =>
      let r12 := r12 - 8 in
      let '(sp, m) := pushq (load_bytes m r12 8) sp m in
      lbl_push r13 r12 sp m
  end.

(** Five arguments and more: align the stack, move R12 past the last element,
    push the padding word when the count left equals its own low bit, keep the count
    in R14, push the elements in reverse order, call. *)
Definition stack_args (r : regs) : frame :=
  let sp := Z.land (r_sp r) (Z.lnot 15) in
  let r15 := (r_r13 r + 1) * 8 in
  let r12 := r_r12 r + r15 in
  let r14 := Z.land (r_r13 r) 1 in
  let '(sp, m) := if r_r13 r =? r14 then pushq (le_enc 8 0) sp (r_mem r)
                  else (sp, r_mem r) in
  let r14 := r_r13 r in
  let '(sp, m) := lbl_push (Z.to_nat (r_r13 r)) r12 sp m in
  do_call AfterStack (mkRegs (r_di r) r12 0 (r_cx r) (r_dx r) (r_r8 r) (r_r9 r) sp m (r_bx r) r14).

(** [callFn] from its first comparison to the call: [None] when it jumps to [ret]
    without calling. The registers that no argument reaches keep what they held
    ([cx0 .. r140]); [MOVQ SP, BX] saves the stack pointer. *)
Definition callFn_asm (fn n args sp : Z) (cx0 dx0 r80 r90 r140 : Z) (m : memory)
  : option frame :=
  if n =? 0 then None else
  if args =? 0 then None else
  let bx := sp in
  let r := mkRegs fn args (n - 1) (load64 m args) dx0 r80 r90 sp m bx r140 in
  if r_r13 r =? 0 then Some (lbl_call r) else
  let r := mkRegs fn (r_r12 r + 8) (r_r13 r - 1) (r_cx r)
                  (load64 m (r_r12 r + 8)) r80 r90 sp m bx r140 in
  if r_r13 r =? 0 then Some (lbl_call r) else
  let r := mkRegs fn (r_r12 r + 8) (r_r13 r - 1) (r_cx r) (r_dx r)
                  (load64 m (r_r12 r + 8)) r90 sp m bx r140 in
  if r_r13 r =? 0 then Some (lbl_call r) else
  let r := mkRegs fn (r_r12 r + 8) (r_r13 r - 1) (r_cx r) (r_dx r) (r_r8 r)
                  (load64 m (r_r12 r + 8)) sp m bx r140 in
  if r_r13 r =? 0 then Some (lbl_call r) else
  Some (stack_args r).

(** The entry: the parameters lie above the return address, [x+k(FP)] at [SP + 8 + k]. *)
Definition callFn_entry (sp : Z) (cx0 dx0 r80 r90 r140 : Z) (m : memory) : option frame :=
  let di := load64 m (sp + 8) in          (* fn+0(FP) *)
  let r13 := load64 m (sp + 16) in        (* n+8(FP) *)
  let r12 := load64 m (sp + 24) in        (* args+16(FP) *)
  callFn_asm di r13 r12 sp cx0 dx0 r80 r90 r140 m.

(** ** The way back *)

(** The machine after the service has returned. *)
Record returned := mkReturned { rt_ax : Z; rt_bx : Z; rt_r14 : Z; rt_sp : Z; rt_mem : memory }.

(** label [ret]: the address that execution goes on at, the stack pointer, memory. *)
Definition lbl_ret (sp : Z) (m : memory) : Z * Z * memory := (load64 m sp, sp + 8, m).

(** label [done]: [MOVQ BX, SP; MOVQ AX, status+40(FP)].  The assembler resolves FP against
    the pushes and pops up to here, which balance: the slot is at [48(SP)]. *)
Definition lbl_done (ax bx sp : Z) (m : memory) : Z * Z * memory :=
  let sp := bx in
  let m := store64 m (sp + 48) ax in
  lbl_ret sp m.

(** label [pop], [n] times: [POPQ CX]. *)
Fixpoint lbl_pop (n : nat) (sp : Z) : Z :=
  match n with O => sp | S n => lbl_pop n (sp + 8) end.

(** What follows a call: [ADJSP $-32], and for stacked arguments the loop at [pop], which counts
    R14 down before it compares it with 0. *)
Definition resume (l : after) (c : returned) : Z * Z * memory :=
  let sp := rt_sp c + 32 in
  let sp := match l with
            | AfterStack => lbl_pop (S (Z.to_nat (u64 (rt_r14 c - 1)))) sp
            | AfterRegs => sp
            end in
  lbl_done (rt_ax c) (rt_bx c) sp (rt_mem c).

(** The whole of [callFn] around a service [callee]. *)
Definition callFn_run (callee : frame -> returned) (sp : Z) (cx0 dx0 r80 r90 r140 : Z) (m : memory) :
    Z * Z * memory :=
  match callFn_entry sp cx0 dx0 r80 r90 r140 m with
  | None => lbl_ret sp m
  | Some f => resume (fr_after f) (callee f)
  end.

(** What the Microsoft convention promises of a service: the stack pointer and the non-volatile
    registers are as they were; its result is in AX. *)
Definition keeps (f : frame) (c : returned) : Prop :=
  rt_sp c = fr_sp f /\ rt_bx c = fr_bx f /\ rt_r14 c = fr_r14 f.

(** What a callee of [n] parameters reads under the Microsoft convention. *)
Definition frame_args (f : frame) (n : nat) : list Z :=
  take n [fr_cx f; fr_dx f; fr_r8 f; fr_r9 f] ++
  map (fun i => load64 (fr_mem f) (fr_sp f + 32 + 8 * Z.of_nat i)) (seq 0 (n - 4)).

(** A [[]uint64] in memory. *)
Definition array64 (m : memory) (a : Z) (n : nat) : list Z :=
  map (fun i => load64 m (a + 8 * Z.of_nat i)) (seq 0 n).

(** ** Correctness *)

Lemma align16 sp : Z.land sp (Z.lnot 15) = 16 * (sp `div` 16).
Proof.
  rewrite <-Z.ldiff_land. change 15 with (Z.ones 4).
  rewrite Z.ldiff_ones_r, Z.shiftl_mul_pow2, Z.shiftr_div_pow2 by lia.
  change (2 ^ 4) with 16. lia.
Qed.

Lemma lbl_push_sp k r12 sp m : fst (lbl_push k r12 sp m) = sp - 8 * Z.of_nat k.
Proof.
  revert r12 sp m. induction k as [|k IH]; intros; cbn [lbl_push pushq fst].
  - lia.
  - rewrite IH. lia.
Qed.

Lemma lbl_push_frame k r12 sp m x n :
  disjoint_ranges (sp - 8 * Z.of_nat k) (8 * k) x n ->
  load_bytes (snd (lbl_push k r12 sp m)) x n = load_bytes m x n.
Proof.
  revert r12 sp m. induction k as [|k IH]; intros r12 sp m Hd; [done|].
  cbn [lbl_push pushq]. unfold disjoint_ranges in *.
  rewrite IH by (unfold disjoint_ranges; lia).
  apply load_store_other. rewrite length_load_bytes. unfold disjoint_ranges. lia.
Qed.

Lemma lbl_push_args k r12 sp m i :
  disjoint_ranges (sp - 8 * Z.of_nat k) (8 * k) (r12 - 8 * Z.of_nat k) (8 * k) ->
  (i < k)%nat ->
  load_bytes (snd (lbl_push k r12 sp m)) (sp - 8 * Z.of_nat k + 8 * Z.of_nat i) 8 =
  load_bytes m (r12 - 8 * Z.of_nat k + 8 * Z.of_nat i) 8.
Proof.
  revert r12 sp m. induction k as [|k IH]; intros r12 sp m Hd Hi; [lia|].
  cbn [lbl_push pushq]. unfold disjoint_ranges in Hd.
  destruct (decide (i = k)) as [->|Hne].
  - rewrite lbl_push_frame by (unfold disjoint_ranges; lia).
    replace (sp - 8 * Z.of_nat (S k) + 8 * Z.of_nat k) with (sp - 8) by lia.
    replace (r12 - 8 * Z.of_nat (S k) + 8 * Z.of_nat k) with (r12 - 8) by lia.
    rewrite <-(length_load_bytes m (r12 - 8) 8) at 2. apply load_store_same.
  - replace (sp - 8 * Z.of_nat (S k)) with (sp - 8 - 8 * Z.of_nat k) by lia.
    replace (r12 - 8 * Z.of_nat (S k)) with (r12 - 8 - 8 * Z.of_nat k) by lia.
    rewrite IH by (unfold disjoint_ranges; lia).
    apply load_store_other. rewrite length_load_bytes. unfold disjoint_ranges. lia.
Qed.

(** The words below the caller's stack pointer that the trampoline may write. *)
Definition stack_room (n : nat) : nat := 8 * n + 16.

Definition off_stack (sp : Z) (n : nat) (a : Z) (k : nat) : Prop :=
  disjoint_ranges (sp - Z.of_nat (stack_room n)) (stack_room n) a k.

(** The padding test of the source, [R13 == R13 & 1], only holds for one
    stacked argument. *)
Lemma pad_test k :
  (0 < k)%nat -> (Z.of_nat k =? Z.land (Z.of_nat k) 1) = (k =? 1)%nat.
Proof.
  intros Hk. change 1 with (Z.ones 1) at 1.
  rewrite Z.land_ones by lia. change (2 ^ 1) with 2.
  pose proof (Z.mod_pos_bound (Z.of_nat k) 2 ltac:(lia)).
  destruct (Nat.eqb_spec k 1) as [->|Hne]; [done|].
  apply Z.eqb_neq. lia.
Qed.

Section StackArgs.
Variables (fn a sp cx dx r8 r9 bx r14 : Z) (m : memory) (k : nat).
Hypothesis Hk : (0 < k)%nat.
Hypothesis Hargs : off_stack sp (4 + k) a (8 * (4 + k)).
Hypothesis Hfn : off_stack sp (4 + k) fn 8.

(** State on entry: R12 at element 3, R13 the number of elements left. *)
Let r := mkRegs fn (a + 24) (Z.of_nat k) cx dx r8 r9 sp m bx r14.

Definition sp0 : Z := 16 * (sp `div` 16) - (if (k =? 1)%nat then 8 else 0).
Definition m0 : memory :=
  if (k =? 1)%nat then store_bytes m (16 * (sp `div` 16) - 8) (le_enc 8 0) else m.

Lemma stack_args_eq :
  stack_args r =
  do_call AfterStack
    (mkRegs fn (a + 32 + 8 * Z.of_nat k) 0 cx dx r8 r9
            (fst (lbl_push k (a + 32 + 8 * Z.of_nat k) sp0 m0))
            (snd (lbl_push k (a + 32 + 8 * Z.of_nat k) sp0 m0)) bx (Z.of_nat k)).
Proof using Hk.
  clear Hargs Hfn. unfold stack_args, r, sp0, m0. cbn [r_sp r_r12 r_r13 r_mem r_di r_cx r_dx r_r8 r_r9 r_bx].
  rewrite (pad_test _ Hk), align16, Nat2Z.id.
  replace (a + 24 + (Z.of_nat k + 1) * 8) with (a + 32 + 8 * Z.of_nat k) by lia.
  destruct (k =? 1)%nat; unfold pushq; rewrite ?Z.sub_0_r;
    by destruct (lbl_push _ _ _ _).
Qed.

Lemma sp0_range : sp - 24 < sp0 <= sp.
Proof using.
  clear Hk Hargs Hfn. unfold sp0. pose proof (Z.div_mod sp 16). pose proof (Z.mod_pos_bound sp 16).
  destruct (k =? 1)%nat; lia.
Qed.

Lemma m0_frame x n : off_stack sp (4 + k) x n -> load_bytes m0 x n = load_bytes m x n.
Proof using.
  clear Hk Hargs Hfn. unfold m0, off_stack, disjoint_ranges, stack_room. intros Hx.
  destruct (k =? 1)%nat; [|done].
  apply load_store_other. rewrite length_le_enc. unfold disjoint_ranges.
  pose proof (Z.div_mod sp 16). pose proof (Z.mod_pos_bound sp 16). lia.
Qed.

Lemma stack_args_entry : fr_entry (stack_args r) = load64 m fn.
Proof using Hk Hfn.
  clear Hargs.
  rewrite stack_args_eq. unfold do_call, load64. cbn -[lbl_push load_bytes].
  pose proof sp0_range. f_equal. rewrite lbl_push_frame, m0_frame; [done..|].
  unfold off_stack, disjoint_ranges, stack_room in *. lia.
Qed.

Lemma stack_args_sp : fr_sp (stack_args r) = sp0 - 8 * Z.of_nat k - 32.
Proof using Hk. rewrite stack_args_eq. simpl. by rewrite lbl_push_sp. Qed.

Lemma stack_args_mem x n : off_stack sp (4 + k) x n ->
  load_bytes (fr_mem (stack_args r)) x n = load_bytes m x n.
Proof using Hk.
  clear Hargs Hfn. intros Hx. rewrite stack_args_eq. cbn [fr_mem do_call r_mem].
  pose proof sp0_range. rewrite lbl_push_frame; [by apply m0_frame|].
  unfold off_stack, disjoint_ranges, stack_room in *. lia.
Qed.

Lemma stack_args_arg i :
  (i < k)%nat ->
  load64 (fr_mem (stack_args r)) (fr_sp (stack_args r) + 32 + 8 * Z.of_nat i) =
  load64 m (a + 8 * Z.of_nat (4 + i)).
Proof using Hk Hargs.
  clear Hfn. intros Hi. rewrite stack_args_sp, stack_args_eq. unfold do_call, load64.
  cbn [fr_mem r_mem].
  pose proof sp0_range. unfold off_stack, disjoint_ranges, stack_room in Hargs.
  replace (sp0 - 8 * Z.of_nat k - 32 + 32 + 8 * Z.of_nat i)
    with (sp0 - 8 * Z.of_nat k + 8 * Z.of_nat i) by lia.
  f_equal. rewrite lbl_push_args by (unfold disjoint_ranges; lia).
  rewrite m0_frame by (unfold off_stack, disjoint_ranges, stack_room; lia).
  f_equal. lia.
Qed.
End StackArgs.

(** ** What the callee receives *)

Lemma array64_S m a n : array64 m a (S n) = load64 m a :: array64 m (a + 8) n.
Proof.
  unfold array64. simpl. rewrite Z.add_0_r. f_equal.
  rewrite <-seq_shift, map_map. apply map_ext. intros. f_equal. lia.
Qed.

Lemma array64_app m a n k :
  array64 m a (n + k) = array64 m a n ++ array64 m (a + 8 * Z.of_nat n) k.
Proof.
  revert a. induction n as [|n IH]; intros a.
  - simpl. by rewrite Z.add_0_r.
  - simpl Nat.add. rewrite !array64_S, IH. simpl. do 2 f_equal. f_equal. lia.
Qed.

Lemma array64_stored m a (l : list Z) :
  Forall (is_word 64) l ->
  load_bytes m a (8 * length l) = concat (map (le_enc 8) l) ->
  array64 m a (length l) = l.
Proof.
  intros Hl. revert a. induction Hl as [|x l Hx _ IH]; intros a Hb; [done|].
  simpl length in *. replace (8 * S (length l))%nat with (8 + 8 * length l)%nat in Hb by lia.
  rewrite load_bytes_app in Hb. cbn [map concat] in Hb.
  apply app_inj_1 in Hb as [Hx' Hb]; [|by rewrite length_load_bytes, length_le_enc].
  rewrite array64_S, IH; [|by rewrite <-Hb].
  unfold load64. by rewrite Hx', le_dec_enc_word.
Qed.

Lemma callFn_asm_stack fn n a sp cx dx r8 r9 r14 m k :
  n = Z.of_nat (4 + k) -> (0 < k)%nat -> a <> 0 ->
  callFn_asm fn n a sp cx dx r8 r9 r14 m =
  Some (stack_args (mkRegs fn (a + 24) (Z.of_nat k) (load64 m a) (load64 m (a + 8))
                           (load64 m (a + 16)) (load64 m (a + 24)) sp m sp r14)).
Proof.
  intros -> Hk Ha. unfold callFn_asm. cbn [r_r13 r_r12 r_cx r_dx r_r8].
  rewrite !(proj2 (Z.eqb_neq _ _)) by lia.
  do 3 f_equal; first [lia | f_equal; lia].
Qed.

(** The cases of at most four arguments and of more. *)
Lemma few_or_more n : (0 < n)%nat -> (n = 1 \/ n = 2 \/ n = 3 \/ n = 4)%nat \/ exists k, (n = 4 + k /\ 0 < k)%nat.
Proof. intros Hn. destruct (decide (n <= 4)%nat); [lia|]. right. exists (n - 4)%nat. lia. Qed.

Ltac few Ha :=
  unfold callFn_asm;
  cbn [r_r13 r_r12 r_cx r_dx r_r8 Z.of_nat Pos.of_succ_nat Pos.succ];
  rewrite (proj2 (Z.eqb_neq _ 0) Ha);
  eexists; split; [reflexivity|].

(** The callee is entered at the word the table entry holds and reads exactly
    the elements of the slice; memory off the scratch area of the stack is as it was. *)
Lemma callFn_asm_args fn n a sp cx dx r8 r9 r14 m :
  (0 < n)%nat -> a <> 0 -> off_stack sp n a (8 * n) -> off_stack sp n fn 8 ->
  exists f, callFn_asm fn (Z.of_nat n) a sp cx dx r8 r9 r14 m = Some f /\
            fr_entry f = load64 m fn /\ frame_args f n = array64 m a n /\
            forall x k, off_stack sp n x k -> load_bytes (fr_mem f) x k = load_bytes m x k.
Proof.
  intros Hn Ha Hargs Hfn.
  destruct (few_or_more n Hn) as [Hle|(k & -> & Hk)].
  - destruct Hle as [->|[->|[->| ->]]]; few Ha;
      (split; [reflexivity|]; split; [|done]);
      unfold frame_args, array64; simpl; rewrite ?Z.add_0_r, <-?Z.add_assoc; reflexivity.
  - rewrite (callFn_asm_stack _ _ _ _ _ _ _ _ _ _ k) by done.
    eexists. split; [reflexivity|]. split; [by apply stack_args_entry|].
    split; [|intros x n; by apply stack_args_mem].
    unfold frame_args. rewrite array64_app.
    replace (4 + k - 4)%nat with k by lia. f_equal.
    + rewrite stack_args_eq by done. unfold do_call, array64. simpl.
      by rewrite take_nil, Z.add_0_r.
    + unfold array64. apply map_ext_in. intros i Hi%in_seq.
      rewrite stack_args_arg by (done || lia). unfold load64. do 2 f_equal. lia.
Qed.

(** Stack alignment at the call instruction. *)
Lemma callFn_asm_sp fn n a sp cx dx r8 r9 r14 m f :
  (0 < n)%nat -> a <> 0 ->
  callFn_asm fn (Z.of_nat n) a sp cx dx r8 r9 r14 m = Some f ->
  fr_sp f mod 16 = 0 <-> ~ ((7 <= n)%nat /\ Nat.odd n).
Proof.
  intros Hn Ha Hf. destruct (few_or_more n Hn) as [Hle|(k & -> & Hk)].
  - assert (fr_sp f = Z.land sp (Z.lnot 15) - 32) as ->.
    { destruct Hle as [->|[->|[->| ->]]]; unfold callFn_asm in Hf;
        cbn [r_r13 r_r12 r_cx r_dx r_r8 Z.of_nat Pos.of_succ_nat Pos.succ] in Hf;
        rewrite (proj2 (Z.eqb_neq a 0)) in Hf by done; by simplify_eq/=. }
    rewrite align16. split; [lia|]. intros _. Z.div_mod_to_equations. lia.
  - rewrite (callFn_asm_stack _ _ _ _ _ _ _ _ _ _ k) in Hf by done. injection Hf as <-.
    rewrite stack_args_sp by done. unfold sp0.
    rewrite Nat.odd_add. change (Nat.odd 4) with false. rewrite xorb_false_l.
    pose proof (Nat.odd_spec k) as Hodd.
    destruct (Nat.eqb_spec k 1) as [->|Hk1].
    { split; [lia|]. intros _. Z.div_mod_to_equations. lia. }
    destruct (Nat.odd k).
    + destruct (proj1 Hodd eq_refl) as [j ->].
      split; [|intros H; exfalso; apply H; split; [lia|done]].
      intros H. exfalso. revert H. Z.div_mod_to_equations. lia.
    + split; [by intros _ [_ ?]|]. intros _.
      destruct (Nat.Even_or_Odd k) as [[j ->]|Ho]; [|by apply Hodd in Ho].
      Z.div_mod_to_equations. lia.
Qed.

(** ** What happens after the call *)

(** The frame saves the stack pointer in BX, and in R14 the number of words to pop. *)
Lemma callFn_asm_saved fn n a sp cx dx r8 r9 r14 m f :
  (0 < n)%nat -> a <> 0 -> callFn_asm fn (Z.of_nat n) a sp cx dx r8 r9 r14 m = Some f -> fr_bx f = sp.
Proof.
  intros Hn Ha Hf. destruct (few_or_more n Hn) as [Hle|(k & -> & Hk)].
  - destruct Hle as [->|[->|[->| ->]]]; unfold callFn_asm in Hf;
      cbn [r_r13 r_r12 r_cx r_dx r_r8 Z.of_nat Pos.of_succ_nat Pos.succ] in Hf;
      rewrite (proj2 (Z.eqb_neq a 0)) in Hf by done; by simplify_eq/=.
  - rewrite (callFn_asm_stack _ _ _ _ _ _ _ _ _ _ k) in Hf by done. injection Hf as <-.
    by rewrite stack_args_eq.
Qed.

(** The way back ends at the caller, with its stack pointer, and with the status in its slot. *)
Lemma resume_keeps f c sp : keeps f c -> fr_bx f = sp ->
  resume (fr_after f) c =
    (load64 (rt_mem c) sp, sp + 8, store64 (rt_mem c) (sp + 48) (rt_ax c)).
Proof.
  intros (_ & Hbx & _) Hf. unfold resume, lbl_done, lbl_ret. rewrite Hbx, Hf. cbv zeta.
  rewrite load64_store64_other by lia. done.
Qed.

(** ** Properties *)

Section Refinement.
Context `{Machine}.

(** A call of [callFn]: the return address and the parameters lie at [sp], the slice off the
    scratch area of the stack. *)
Record called_with (m : memory) (sp fn : Z) (args : list Z) (a : Z) : Prop := {
  cw_fn : load64 m (sp + 8) = fn;
  cw_len : load64 m (sp + 16) = zlen args;
  cw_args : load64 m (sp + 24) = a;
  cw_words : Forall (is_word 64) args;
  cw_slice : load_bytes m a (8 * length args) = concat (map (le_enc 8) args);
  cw_slice_off : off_stack sp (length args) a (8 * length args);
  cw_fn_off : off_stack sp (length args) fn 8;
}.

(** C1. The trampoline implements the abstract call [callFn], from entry to return.  With a slice
    of at least one element, whatever their number, the assembly calls the service that the
    table entry [fn] points to, with exactly the elements of the slice as its arguments, in
    order; on the way it has only written to the scratch area below its stack pointer.  When the
    service returns what the firmware answers there, with the stack pointer and the
    non-volatile registers kept, the assembly goes on at its return address, with
    its caller's stack pointer; its result slot, the one word that it has changed since,
    holds the status that the abstract call from there returns, in the memory and the firmware's
    state that the abstract call ends in.  For an empty slice it returns at once, and nothing
    has changed. *)
Theorem callFn_refines (w : World) fn args a sp cx dx r8 r9 r14 (callee : frame -> returned) :
  called_with (w_mem w) sp fn args a ->
  (args = [] -> callFn_run callee sp cx dx r8 r9 r14 (w_mem w) = (load64 (w_mem w) sp, sp + 8, w_mem w)) /\
  (args <> [] -> a <> 0 -> exists f,
    callFn_entry sp cx dx r8 r9 r14 (w_mem w) = Some f /\
    fr_entry f = load64 (w_mem w) fn /\ frame_args f (length args) = args /\
    (forall x k, off_stack sp (length args) x k ->
       load_bytes (fr_mem f) x k = load_bytes (w_mem w) x k) /\
    forall s', keeps f (callee f) ->
      firmware (fr_entry f) (frame_args f (length args)) (fr_mem f) (w_fw w) =
        (rt_ax (callee f), rt_mem (callee f), s') ->
      is_word 64 (rt_ax (callee f)) -> load64 (rt_mem (callee f)) sp = load64 (w_mem w) sp ->
      exists status w' m', callFn fn args (set_mem (fr_mem f) w) = (Ret status, w') /\ w_fw w' = s' /\
        callFn_run callee sp cx dx r8 r9 r14 (w_mem w) = (load64 (w_mem w) sp, sp + 8, m') /\
        load64 m' (sp + 48) = status /\
        forall x k, disjoint_ranges (sp + 48) 8 x k -> load_bytes m' x k = load_bytes (w_mem w') x k).
Proof.
  intros [Hfn Hlen Hargs Hw Hb Hoff Hfoff]. unfold callFn_run, callFn_entry. rewrite Hfn, Hlen, Hargs.
  split; [by intros ->|]. intros Hne Ha. assert (0 < length args)%nat as Hn by (destruct args; [done|simpl; lia]).
  destruct (callFn_asm_args fn (length args) a sp cx dx r8 r9 r14 (w_mem w))
    as (f & Hf & He & Hargs' & Hmem); [done..|].
  exists f. rewrite array64_stored in Hargs' by done. split; [done|]. split; [done|]. split; [done|].
  split; [done|]. intros s' Hk Hfw Hst Hret.
  assert (load64 (fr_mem f) fn = fr_entry f) as Hentry by (unfold load64; by rewrite Hmem, He).
  eexists _, _, _. split.
  { rewrite Hargs' in Hfw. unfold callFn. destruct args; [by destruct Hne|]. cbn [w_mem set_mem w_fw].
    rewrite Hentry, Hfw. reflexivity. }
  split; [done|]. split.
  { unfold zlen. rewrite Hf, (resume_keeps f _ sp), Hret by eauto using callFn_asm_saved. reflexivity. }
  split; [by apply load64_store64|]. intros x k Hx. apply load_store_other. by rewrite length_le_enc.
Qed.
End Refinement.

(** A firmware whose service answers with the sum of its arguments. *)
Definition sum_machine : Machine :=
  machine_with unit (fun _ args m s => (foldr Z.add 0 args, m, s)).

Definition sum_memory : memory :=
  foldl (fun m '(a, v) => store64 m a v) (store_bytes ∅ 8192 (concat (map (le_enc 8) [1; 2; 3; 4; 5; 6])))
    [ (65536, 0x1234); (65536 + 8, 4096); (65536 + 16, 6); (65536 + 24, 8192) ].

(** The service, which returns to where it was called from. *)
Definition sum_callee (f : frame) : returned :=
  mkReturned (foldr Z.add 0 (frame_args f 6)) (fr_bx f) (fr_r14 f) (fr_sp f) (fr_mem f).

(** Six arguments, whose sum is in the result slot at the end. *)
Lemma callFn_refines_witness :
  exists m', callFn_run sum_callee 65536 0 0 0 0 0 sum_memory = (0x1234, 65536 + 8, m') /\
    load64 m' (65536 + 48) = 21.
Proof.
  destruct (@callFn_refines sum_machine (mkWorld sum_machine sum_memory 131072 false [] tt)
    4096 [1; 2; 3; 4; 5; 6] 8192 65536 0 0 0 0 0 sum_callee) as (_ & Hrun).
  - split.
    + vm_compute. reflexivity.
    + vm_compute. reflexivity.
    + vm_compute. reflexivity.
    + apply (bool_decide_unpack _). vm_compute. exact I.
    + vm_compute. reflexivity.
    + right. vm_compute. congruence.
    + right. vm_compute. congruence.
  - destruct Hrun as (f & Hf & He & Hargs & Hmem & Hret); [discriminate|discriminate|].
    assert (rt_ax (sum_callee f) = 21) as Hax 
      by (change (foldr Z.add 0 (frame_args f (length [1; 2; 3; 4; 5; 6])) = 21); by rewrite Hargs).
    destruct (Hret tt) as (status & w' & m' & E & _ & Erun & Hst & _).
    + by split_and!.
    + reflexivity.
    + rewrite Hax. split; vm_compute; congruence.
    + cbn [sum_callee rt_mem]. unfold load64. cbn [w_mem]. rewrite Hmem; [reflexivity|]. left. vm_compute. congruence.
    + exists m'. split; [exact Erun|]. rewrite Hst. injection E as <- _. reflexivity.
Defined.

(** C25. The stack pointer is 16-byte aligned at the call, as the x64 ABI
    demands, exactly when the service does not take an odd number of at least
    seven arguments: the padding test of the source compares the number of
    stacked arguments with its own low bit, and so only pads one of them. *)
Theorem callFn_alignment fn n a sp cx dx r8 r9 r14 m :
  (0 < n)%nat -> a <> 0 ->
  exists f, callFn_asm fn (Z.of_nat n) a sp cx dx r8 r9 r14 m = Some f /\
            (fr_sp f mod 16 = 0 <-> ~ ((7 <= n)%nat /\ Nat.odd n)).
Proof.
  intros Hn Ha.
  destruct (callFn_asm fn (Z.of_nat n) a sp cx dx r8 r9 r14 m) as [f|] eqn:E.
  - exists f. split; [done|]. eapply callFn_asm_sp; eauto.
  - exfalso. revert E. unfold callFn_asm. rewrite !(proj2 (Z.eqb_neq _ _)) by lia.
    repeat case_match; congruence.
Qed.

Lemma callFn_alignment_witness :
  exists f, callFn_asm 4096 7 8192 65536 0 0 0 0 0 ∅ = Some f /\
            (fr_sp f mod 16 = 0 <-> ~ ((7 <= 7)%nat /\ Nat.odd 7)).
Proof. apply (callFn_alignment 4096 7 8192); lia. Defined.
