(* ===== verification/Status.v ===== *)
(** * Status: EFI status codes and their Go errors

    [Core] is pkg/ueficore/error.go: codes without the error bit and
    [parseStatus].  [Spec] is pkg/uefi/efistatus.go: full status values, and
    the registry [errMap] through which [StatusError] hands out one [*Error]
    per status. *)

From S2P Require Import Prelude.

(** ** The symbols both packages declare *)

Inductive efi_status :=
| SUCCESS | LOAD_ERROR | INVALID_PARAMETER | UNSUPPORTED | BAD_BUFFER_SIZE
| BUFFER_TOO_SMALL | NOT_READY | DEVICE_ERROR | WRITE_PROTECTED | OUT_OF_RESOURCES
| VOLUME_CORRUPTED | VOLUME_FULL | NO_MEDIA | MEDIA_CHANGED | NOT_FOUND
| ACCESS_DENIED | NO_RESPONSE | NO_MAPPING | TIMEOUT | NOT_STARTED
| ALREADY_STARTED | ABORTED | ICMP_ERROR | TFTP_ERROR | PROTOCOL_ERROR
| INCOMPATIBLE_VERSION | SECURITY_VIOLATION | CRC_ERROR | END_OF_MEDIA
| END_OF_FILE | INVALID_LANGUAGE | COMPROMISED_DATA | IP_ADDRESS_CONFLICT
| HTTP_ERROR.

#[export] Instance efi_status_eq_dec : EqDecision efi_status.
Proof. solve_decision. Defined.

Module Core.
(** The [iota] enumeration of error.go. *)
Definition EFI_STATUS_CODES : list efi_status :=
  [ SUCCESS; LOAD_ERROR; INVALID_PARAMETER; UNSUPPORTED; BAD_BUFFER_SIZE;
    BUFFER_TOO_SMALL; NOT_READY; DEVICE_ERROR; WRITE_PROTECTED; OUT_OF_RESOURCES;
    VOLUME_CORRUPTED; VOLUME_FULL; NO_MEDIA; MEDIA_CHANGED; NOT_FOUND;
    ACCESS_DENIED; NO_RESPONSE; NO_MAPPING; TIMEOUT; NOT_STARTED;
    ALREADY_STARTED; ABORTED; ICMP_ERROR; TFTP_ERROR; PROTOCOL_ERROR;
    INCOMPATIBLE_VERSION; SECURITY_VIOLATION; CRC_ERROR; END_OF_MEDIA;
    END_OF_FILE; INVALID_LANGUAGE; COMPROMISED_DATA; IP_ADDRESS_CONFLICT;
    HTTP_ERROR ].

Fixpoint index_of (s : efi_status) (l : list efi_status) : Z :=
  match l with
  | [] => 0
  | x :: l => if decide (x = s) then 0 else 1 + index_of s l
  end.

Definition code (s : efi_status) : Z := index_of s EFI_STATUS_CODES.

Definition EFI_SUCCESS := code SUCCESS.
Definition EFI_NOT_READY := code NOT_READY.
Definition EFI_DEVICE_ERROR := code DEVICE_ERROR.

Definition parseStatus (status : Z) : error :=
  let code := Z.land status 255 in
  if status =? EFI_SUCCESS then None else Some (ErrStatus status code).

Lemma parseStatus_nil status : parseStatus status = None <-> status = 0.
Proof.
  unfold parseStatus. change EFI_SUCCESS with 0.
  destruct (Z.eqb_spec status 0); split; congruence.
Qed.

Lemma parseStatus_0 : parseStatus 0 = None.
Proof. reflexivity. Qed.

Lemma parseStatus_err status :
  status <> 0 -> parseStatus status = Some (ErrStatus status (Z.land status 255)).
Proof.
  intros H. unfold parseStatus. change EFI_SUCCESS with 0.
  by rewrite (proj2 (Z.eqb_neq _ _)).
Qed.
End Core.

Module Spec.
Definition uintnSize : Z := Z.shiftl 32 (Z.shiftr (u64 (Z.lnot 0)) 63).
Definition errorMask : Z := Z.shiftl 1 (uintnSize - 1).

(** The constants of efistatus.go. *)
Definition code (s : efi_status) : Z :=
  match s with
  | SUCCESS => 0
  | LOAD_ERROR => Z.lor errorMask 1
  | INVALID_PARAMETER => Z.lor errorMask 2
  | UNSUPPORTED => Z.lor errorMask 3
  | BAD_BUFFER_SIZE => Z.lor errorMask 4
  | BUFFER_TOO_SMALL => Z.lor errorMask 5
  | NOT_READY => Z.lor errorMask 6
  | DEVICE_ERROR => Z.lor errorMask 7
  | WRITE_PROTECTED => Z.lor errorMask 8
  | OUT_OF_RESOURCES => Z.lor errorMask 9
  | VOLUME_CORRUPTED => Z.lor errorMask 10
  | VOLUME_FULL => Z.lor errorMask 11
  | NO_MEDIA => Z.lor errorMask 12
  | MEDIA_CHANGED => Z.lor errorMask 13
  | NOT_FOUND => Z.lor errorMask 14
  | ACCESS_DENIED => Z.lor errorMask 15
  | NO_RESPONSE => Z.lor errorMask 16
  | NO_MAPPING => Z.lor errorMask 17
  | TIMEOUT => Z.lor errorMask 18
  | NOT_STARTED => Z.lor errorMask 19
  | ALREADY_STARTED => Z.lor errorMask 20
  | ABORTED => Z.lor errorMask 21
  | ICMP_ERROR => Z.lor errorMask 22
  | TFTP_ERROR => Z.lor errorMask 23
  | PROTOCOL_ERROR => Z.lor errorMask 24
  | INCOMPATIBLE_VERSION => Z.lor errorMask 25
  | SECURITY_VIOLATION => Z.lor errorMask 26
  | CRC_ERROR => Z.lor errorMask 27
  | END_OF_MEDIA => Z.lor errorMask 28
  | END_OF_FILE => Z.lor errorMask 31
  | INVALID_LANGUAGE => Z.lor errorMask 32
  | COMPROMISED_DATA => Z.lor errorMask 33
  | IP_ADDRESS_CONFLICT => Z.lor errorMask 34
  | HTTP_ERROR => Z.lor errorMask 35
  end.

(** ** The registry *)

(** type Error struct; a [*Error] is the index of its allocation. *)
Record Error := mkError { code_of : Z; msg : string }.

Record registry := mkRegistry {
  objects : list Error;         (* every Error allocated so far *)
  errMap : gmap Z nat;
}.

Definition newError (c : Z) (m : string) (r : registry) : nat * registry :=
  let err := length (objects r) in
  (err, mkRegistry (objects r ++ [mkError c m]) (<[c := err]> (errMap r))).

Definition Error_ (e : Error) : string := msg e.

Definition StatusError (status : Z) (r : registry) : option nat * registry :=
  if status =? 0 then (None, r) else
  match errMap r !! status with
  | None => let '(e, r) := newError status "unknown EFI error" r in (Some e, r)
  | Some err => (Some err, r)
  end.

(** The package-level variables, in order of initialisation. *)
Definition known : list (efi_status * string) :=
  [ (LOAD_ERROR, "image failed to load");
    (INVALID_PARAMETER, "a parameter was incorrect");
    (UNSUPPORTED, "operation not supported");
    (BAD_BUFFER_SIZE, "buffer size incorrect for request");
    (BUFFER_TOO_SMALL, "buffer too small; size returned in parameter");
    (NOT_READY, "no data pending");
    (DEVICE_ERROR, "physical device reported an error");
    (WRITE_PROTECTED, "device is write-protected");
    (OUT_OF_RESOURCES, "out of resources");
    (VOLUME_CORRUPTED, "filesystem inconsistency detected");
    (VOLUME_FULL, "no more space on filesystem");
    (NO_MEDIA, "device contains no medium");
    (MEDIA_CHANGED, "medium changed since last access");
    (NOT_FOUND, "item not found");
    (ACCESS_DENIED, "access denied");
    (NO_RESPONSE, "server not found or no response");
    (NO_MAPPING, "no device mapping exists");
    (TIMEOUT, "timeout expired");
    (NOT_STARTED, "protocol not started");
    (ALREADY_STARTED, "protocol already started");
    (ABORTED, "operation aborted");
    (ICMP_ERROR, "ICMP error during network operation");
    (TFTP_ERROR, "TFTP error during network operation");
    (PROTOCOL_ERROR, "protocol error during network operation");
    (INCOMPATIBLE_VERSION, "requested version incompatible");
    (SECURITY_VIOLATION, "security violation");
    (CRC_ERROR, "CRC error detected");
    (END_OF_MEDIA, "beginning or end of media reached");
    (END_OF_FILE, "end of file reached");
    (INVALID_LANGUAGE, "invalid language specified");
    (COMPROMISED_DATA, "data security status unknown or compromised");
    (IP_ADDRESS_CONFLICT, "IP address conflict detected");
    (HTTP_ERROR, "HTTP error during network operation") ]%string.

Definition errMap_init : registry :=
  foldl (fun r '(s, m) => snd (newError (code s) m r)) (mkRegistry [] ∅) known.

(** The registry after some calls of [StatusError]. *)
Inductive reachable : registry -> Prop :=
| reach_init : reachable errMap_init
| reach_call r status : reachable r -> reachable (snd (StatusError status r)).

(** Every entry points to an allocated Error that carries its key, and no
    two objects carry the same code. *)
Definition wf (r : registry) : Prop :=
  (forall c p, errMap r !! c = Some p -> exists m, objects r !! p = Some (mkError c m)) /\
  (forall p c m, objects r !! p = Some (mkError c m) -> errMap r !! c = Some p).

Lemma wf_newError c m r : wf r -> errMap r !! c = None -> wf (snd (newError c m r)).
Proof.
  intros [H1 H2] Hc. split; simpl.
  - intros c' p Hp. destruct (decide (c = c')) as [<-|Hne]; simplify_map_eq.
    + exists m. by rewrite lookup_app_r, Nat.sub_diag by lia.
    + destruct (H1 _ _ Hp) as [m' Hm']. exists m'. by apply lookup_app_l_Some.
  - intros p c' m' Hp. apply lookup_app_Some in Hp as [Hp|[Hle Hp]].
    + rewrite lookup_insert_ne; [eauto|]. intros <-.
      rewrite (H2 _ _ _ Hp) in Hc. done.
    + destruct (p - length (objects r))%nat eqn:E; simplify_eq/=.
      rewrite lookup_insert_eq. f_equal. lia.
Qed.

Lemma wf_StatusError status r : wf r -> wf (snd (StatusError status r)).
Proof.
  intros Hr. unfold StatusError. destruct (status =? 0); [done|].
  destruct (errMap r !! status) eqn:E; [done|]. by apply wf_newError.
Qed.

Lemma wf_init : wf errMap_init.
Proof.
  assert (forall l r, wf r -> NoDup (map (fun x => code x.1) l) ->
    Forall (fun x => errMap r !! code x.1 = None) l ->
    wf (foldl (fun r '(s, m) => snd (newError (code s) m r)) r l)) as Hgen.
  { induction l as [|[s m] l IH]; intros r Hr Hnd Hf; [done|].
    apply NoDup_cons in Hnd as [Hn Hnd]. apply Forall_cons in Hf as [Hs Hf]. simpl.
    apply IH; [by apply wf_newError|done|].
    apply Forall_forall. intros x Hx. simpl in *.
    rewrite lookup_insert_ne; [by eapply Forall_forall in Hf|].
    intros Heq. apply Hn. rewrite Heq. by apply (list_elem_of_fmap_2 (fun x => code x.1)). }
  apply Hgen.
  - split; simpl; [by intros ??|by intros []].
  - apply (bool_decide_unpack _). vm_compute. exact I.
  - apply Forall_true. intros x. apply lookup_empty.
Qed.

Lemma wf_reachable r : reachable r -> wf r.
Proof. induction 1; auto using wf_init, wf_StatusError. Qed.

(** Objects are never changed and registrations never withdrawn. *)
Lemma StatusError_mono status r c p :
  errMap r !! c = Some p -> errMap (snd (StatusError status r)) !! c = Some p.
Proof.
  intros Hc. unfold StatusError. destruct (status =? 0); [done|].
  destruct (errMap r !! status) eqn:E; [done|]. simpl.
  rewrite lookup_insert_ne; [done|]. by intros ->; rewrite Hc in E.
Qed.

Lemma StatusError_registered status r :
  status <> 0 -> exists p, fst (StatusError status r) = Some p /\
    errMap (snd (StatusError status r)) !! status = Some p.
Proof.
  intros Hs. unfold StatusError. rewrite (proj2 (Z.eqb_neq _ _)) by done.
  destruct (errMap r !! status) as [p|] eqn:E; eexists; (split; [done|]).
  - done.
  - simpl. apply lookup_insert_eq.
Qed.

Lemma StatusError_known status r p :
  status <> 0 -> errMap r !! status = Some p -> StatusError status r = (Some p, r).
Proof.
  intros Hs Hp. unfold StatusError. rewrite (proj2 (Z.eqb_neq _ _)) by done.
  by rewrite Hp.
Qed.

Inductive calls : registry -> registry -> Prop :=
| calls_refl r : calls r r
| calls_step r status r' : calls (snd (StatusError status r)) r' -> calls r r'.

Lemma calls_mono r r' c p : calls r r' -> errMap r !! c = Some p -> errMap r' !! c = Some p.
Proof. induction 1; auto using StatusError_mono. Qed.

Lemma calls_reachable r r' : calls r r' -> reachable r -> reachable r'.
Proof. induction 1; auto using reach_call. Qed.
End Spec.

(** C20. [StatusError] is what errors.Is needs: in every state the registry can
    reach, the error it returns for a non-zero status carries that status, and
    the very same object is returned for this status after any further calls,
    which then leave the registry as it is. *)
Theorem StatusError_identity r status r' :
  Spec.reachable r -> status <> 0 -> Spec.calls (snd (Spec.StatusError status r)) r' ->
  exists p m, fst (Spec.StatusError status r) = Some p /\
    Spec.objects r' !! p = Some (Spec.mkError status m) /\
    Spec.StatusError status r' = (Some p, r').
Proof.
  intros Hr Hs Hc.
  destruct (Spec.StatusError_registered status r Hs) as (p & Hf & Hp).
  pose proof (Spec.calls_mono _ _ _ _ Hc Hp) as Hp'.
  pose proof (Spec.wf_reachable _ (Spec.calls_reachable _ _ Hc (Spec.reach_call _ _ Hr)))
    as [Hwf _].
  destruct (Hwf _ _ Hp') as [m Hm].
  exists p, m. auto using Spec.StatusError_known.
Qed.

Lemma StatusError_identity_witness :
  exists p m, fst (Spec.StatusError 99 Spec.errMap_init) = Some p /\
    Spec.objects (snd (Spec.StatusError 99 Spec.errMap_init)) !! p = Some (Spec.mkError 99 m) /\
    Spec.StatusError 99 (snd (Spec.StatusError 99 Spec.errMap_init)) =
      (Some p, snd (Spec.StatusError 99 Spec.errMap_init)).
Proof.
  apply (StatusError_identity Spec.errMap_init 99);
    [apply Spec.reach_init|discriminate|apply Spec.calls_refl].
Defined.

(** The two packages' status enumerations agree up to END_OF_MEDIA: the low
    byte of the full status of pkg/uefi is the code pkg/ueficore gives the same
    symbol.  From END_OF_FILE on, where the specification skips two values, the
    codes of pkg/ueficore are two too small. *)
Theorem status_codes_agree s :
  Z.land (Spec.code s) 255 =
  Core.code s + (if decide (s ∈ [END_OF_FILE; INVALID_LANGUAGE; COMPROMISED_DATA;
                                 IP_ADDRESS_CONFLICT; HTTP_ERROR]) then 2 else 0).
Proof. destruct s; vm_compute; reflexivity. Qed.
