(* ===== verification/Text.v ===== *)
(** * Text: UTF-8 strings and UTF-16 buffers

    What the repository uses of Go's [unicode/utf8] and [unicode/utf16], and
    its own conversions on top: [toUTF16] of desc.go, [stringToUTF16Ptr] of the
    commands, and the conversions and [DebugPrint] of pkg/uefi/util.go. *)

From S2P Require Import Prelude Binary Machine.

(** ** Runes *)

Definition RuneError : Z := 0xFFFD.

(** Unicode scalar values: every code point but the surrogates. *)
Definition scalar (r : Z) : Prop := 0 <= r < 0xD800 \/ 0xE000 <= r < 0x110000.

#[export] Instance scalar_dec r : Decision (scalar r).
Proof. unfold scalar. apply _. Defined.

Definition between (lo hi x : Z) : bool := (lo <=? x) && (x <=? hi).

(** [utf8.EncodeRune] *)
Definition encode_rune (r : Z) : list Z :=
  if between 0 0x7F r then [r] else
  if between 0x80 0x7FF r then [0xC0 + r / 64; 0x80 + r mod 64] else
  if between 0x800 0xD7FF r || between 0xE000 0xFFFF r
  then [0xE0 + r / 4096; 0x80 + (r / 64) mod 64; 0x80 + r mod 64] else
  if between 0x10000 0x10FFFF r
  then [0xF0 + r / 262144; 0x80 + (r / 4096) mod 64; 0x80 + (r / 64) mod 64; 0x80 + r mod 64]
  else [0xEF; 0xBF; 0xBD].

Definition continuation (b : Z) : bool := between 0x80 0xBF b.

(** [utf8.DecodeRune]: a rune and the bytes it took; an invalid sequence is
    [RuneError] and takes one byte. *)
Definition decode_rune (s : list Z) : Z * nat :=
  match s with
  | [] => (RuneError, 0%nat)
  | b0 :: s =>
      if b0 <? 0x80 then (b0, 1%nat) else
      if between 0xC2 0xDF b0 then
        match s with
        | b1 :: _ => if continuation b1
                     then ((b0 - 0xC0) * 64 + (b1 - 0x80), 2%nat)
                     else (RuneError, 1%nat)
        | _ => (RuneError, 1%nat)
        end
      else if between 0xE0 0xEF b0 then
        match s with
        | b1 :: b2 :: _ =>
            if between (if b0 =? 0xE0 then 0xA0 else 0x80)
                       (if b0 =? 0xED then 0x9F else 0xBF) b1 && continuation b2
            then ((b0 - 0xE0) * 4096 + (b1 - 0x80) * 64 + (b2 - 0x80), 3%nat)
            else (RuneError, 1%nat)
        | _ => (RuneError, 1%nat)
        end
      else if between 0xF0 0xF4 b0 then
        match s with
        | b1 :: b2 :: b3 :: _ =>
            if between (if b0 =? 0xF0 then 0x90 else 0x80)
                       (if b0 =? 0xF4 then 0x8F else 0xBF) b1 &&
               continuation b2 && continuation b3
            then ((b0 - 0xF0) * 262144 + (b1 - 0x80) * 4096 + (b2 - 0x80) * 64 + (b3 - 0x80),
                  4%nat)
            else (RuneError, 1%nat)
        | _ => (RuneError, 1%nat)
        end
      else (RuneError, 1%nat)
  end.

(** [[]rune(s)]; one byte at least is consumed at each step, so the length of
    the string is enough fuel. *)
Fixpoint runes_fuel (n : nat) (s : list Z) : list Z :=
  match n, s with
  | O, _ | _, [] => []
  | S n, _ => let '(r, k) := decode_rune s in r :: runes_fuel n (drop k s)
  end.

Definition runes (s : gostring) : list Z := runes_fuel (length s) s.

Definition utf8 (rs : list Z) : gostring := concat (map encode_rune rs).

(** ** UTF-16 *)

Definition encode16 (r : Z) : list Z :=
  if between 0 0xD7FF r || between 0xE000 0xFFFF r then [r] else
  if between 0x10000 0x10FFFF r
  then [0xD800 + (r - 0x10000) / 1024; 0xDC00 + (r - 0x10000) mod 1024]
  else [RuneError].

(** [utf16.Encode] *)
Definition utf16_Encode (rs : list Z) : list Z := concat (map encode16 rs).

(** [utf16.Decode] *)
Fixpoint utf16_Decode (us : list Z) : list Z :=
  match us with
  | [] => []
  | u :: us' =>
      if between 0xD800 0xDBFF u then
        match us' with
        | v :: us'' =>
            if between 0xDC00 0xDFFF v
            then ((u - 0xD800) * 1024 + (v - 0xDC00) + 0x10000) :: utf16_Decode us''
            else RuneError :: utf16_Decode us'
        | [] => RuneError :: utf16_Decode us'
        end
      else if between 0xDC00 0xDFFF u then RuneError :: utf16_Decode us'
      else u :: utf16_Decode us'
  end.

(** ** The repository's conversions *)

(** desc.go *)
Definition toUTF16 (s : gostring) : list Z :=
  concat (map (fun r => [Z.land r 0xff; Z.shiftr r 8]) (utf16_Encode (runes s))) ++ [0; 0].

(** cmd/*/main.go: the slice whose first element is pointed to. *)
Definition stringToUTF16 (s : gostring) : list Z := utf16_Encode (runes s) ++ [0].

(** pkg/uefi/util.go: each rune is cut down to a CHAR16. *)
Definition StringToUTF16 (s : gostring) : list Z := map u16 (runes s) ++ [0].

Definition UTF16PtrLenToString (input : list Z) : gostring := utf8 (utf16_Decode input).

(** [&input[0]] of an empty slice panics. *)
Definition UTF16ToString (input : list Z) : outcome gostring :=
  match input with
  | [] => Panic PIndex
  | _ => Ret (UTF16PtrLenToString input)
  end.

(** The scan for the terminator reads memory two bytes at a time; the fuel
    bounds how far it may run. *)
Fixpoint char16_len (fuel : nat) (m : memory) (pointer : Z) : option nat :=
  match fuel with
  | O => None
  | S fuel =>
      if le_dec (load_bytes m pointer 2) =? 0 then Some 0%nat
      else S <$> char16_len fuel m (pointer + 2)
  end.

Definition load16s (m : memory) (a : Z) (n : nat) : list Z :=
  map (fun i => le_dec (load_bytes m (a + 2 * Z.of_nat i) 2)) (seq 0 n).

Definition UTF16PtrToString (fuel : nat) (m : memory) (input : Z) : option gostring :=
  n ← char16_len fuel m input; Some (UTF16PtrLenToString (load16s m input n)).

Definition hexConst : list Z := bytes_of_string "0123456789abcdef".

(** [DebugPrint]: the text of [val] in the 256-element [printBuf], up to and
    with the terminator, or the panic of an index beyond it. *)
Definition DebugPrint_buf (text : gostring) (val : Z) : outcome (list Z) :=
  let buf := text ++ [58] ++
    map (fun j => nth (Z.to_nat (Z.land (i64 (Z.shiftr val ((15 - j) * 4))) 0xf)) hexConst 0)
        (seqZ 0 16) ++ [13; 10; 0] in
  if decide (length buf <= 256)%nat then Ret buf else Panic PIndex.

(** ** UTF-8 round trip *)

Ltac cmp_cases :=
  repeat match goal with
  | |- context [?a <=? ?b] => destruct (Z.leb_spec a b)
  | |- context [?a <? ?b] => destruct (Z.ltb_spec a b)
  | |- context [?a =? ?b] => destruct (Z.eqb_spec a b)
  end; cbn [andb orb].

Lemma between_true lo hi x : lo <= x <= hi -> between lo hi x = true.
Proof. intros. unfold between. lia. Qed.
Lemma between_iff lo hi x : between lo hi x = true <-> lo <= x <= hi.
Proof. unfold between. lia. Qed.
Lemma between_false lo hi x : x < lo \/ hi < x -> between lo hi x = false.
Proof. intros. unfold between. lia. Qed.

(** The four shapes of an encoded scalar. *)
Lemma encode_rune_cases r :
  scalar r ->
  (0 <= r < 0x80 /\ encode_rune r = [r]) \/
  (0x80 <= r < 0x800 /\ encode_rune r = [0xC0 + r / 64; 0x80 + r mod 64]) \/
  (0x800 <= r < 0x10000 /\
   encode_rune r = [0xE0 + r / 4096; 0x80 + (r / 64) mod 64; 0x80 + r mod 64]) \/
  (0x10000 <= r < 0x110000 /\
   encode_rune r = [0xF0 + r / 262144; 0x80 + (r / 4096) mod 64;
                    0x80 + (r / 64) mod 64; 0x80 + r mod 64]).
Proof.
  intros Hr. unfold scalar in Hr. unfold encode_rune.
  destruct (decide (r < 0x80)); [left|right; destruct (decide (r < 0x800)); [left|right;
    destruct (decide (r < 0x10000)); [left|right]]]; (split; [lia|]).
  - by rewrite between_true by lia.
  - by rewrite between_false, between_true by lia.
  - rewrite !(between_false 0), (between_false 0x80) by lia.
    destruct Hr; [rewrite between_true by lia|rewrite between_false, between_true by lia]; done.
  - by rewrite !between_false, between_true by lia.
Qed.

Lemma decode_encode_rune r rest :
  scalar r -> decode_rune (encode_rune r ++ rest) = (r, length (encode_rune r)).
Proof.
  intros Hr. pose proof Hr as Hs. unfold scalar in Hs.
  destruct (encode_rune_cases r Hr) as [[H ->]|[[H ->]|[[H ->]|[H ->]]]];
    cbn [app decode_rune length].
  - by rewrite (proj2 (Z.ltb_lt _ _)) by lia.
  - rewrite (proj2 (Z.ltb_ge _ _)), between_true by (Z.div_mod_to_equations; lia).
    unfold continuation. rewrite between_true by (Z.div_mod_to_equations; lia).
    f_equal. Z.div_mod_to_equations; lia.
  - rewrite (proj2 (Z.ltb_ge _ _)), between_false, between_true
      by (Z.div_mod_to_equations; lia).
    unfold continuation. rewrite !between_true;
      [cbn [andb]; f_equal; Z.div_mod_to_equations; lia|Z.div_mod_to_equations; lia|].
    cmp_cases; Z.div_mod_to_equations; lia.
  - rewrite (proj2 (Z.ltb_ge _ _)), !between_false, between_true
      by (Z.div_mod_to_equations; lia).
    unfold continuation. rewrite !between_true;
      [cbn [andb]; f_equal; Z.div_mod_to_equations; lia
      |Z.div_mod_to_equations; lia|Z.div_mod_to_equations; lia|].
    cmp_cases; Z.div_mod_to_equations; lia.
Qed.

Lemma encode_rune_nonempty r : (1 <= length (encode_rune r) <= 4)%nat.
Proof. unfold encode_rune. repeat case_match; simpl; lia. Qed.

Lemma encode_rune_byte r : Forall is_byte (encode_rune r).
Proof.
  unfold encode_rune, is_byte.
  repeat case_match; rewrite ?orb_true_iff, ?between_iff in *;
    repeat constructor; Z.div_mod_to_equations; lia.
Qed.

Lemma runes_fuel_utf8 rs n :
  Forall scalar rs -> (length (utf8 rs) <= n)%nat -> runes_fuel n (utf8 rs) = rs.
Proof.
  intros Hrs. revert n. induction Hrs as [|r rs Hr _ IH]; intros n Hn.
  - by destruct n.
  - unfold utf8 in *. cbn [map concat] in *. rewrite length_app in Hn.
    pose proof (encode_rune_nonempty r) as Hl.
    destruct n as [|n]; [lia|]. cbn [runes_fuel].
    destruct (encode_rune r ++ concat (map encode_rune rs)) as [|b s] eqn:E.
    { destruct (encode_rune r); simpl in *; [lia|done]. }
    rewrite <-E, decode_encode_rune by done.
    rewrite drop_app_exact by done. f_equal. apply IH. lia.
Qed.

Lemma runes_utf8 rs : Forall scalar rs -> runes (utf8 rs) = rs.
Proof. intros. by apply runes_fuel_utf8. Qed.

(** ** UTF-16 round trip *)

Lemma encode16_cases r :
  scalar r ->
  (r < 0x10000 /\ encode16 r = [r]) \/
  (0x10000 <= r /\
   encode16 r = [0xD800 + (r - 0x10000) / 1024; 0xDC00 + (r - 0x10000) mod 1024]).
Proof.
  intros Hr. unfold scalar in Hr. unfold encode16, between. cmp_cases; try lia; auto with lia.
Qed.

Lemma encode16_word r : Forall (is_word 16) (encode16 r).
Proof.
  unfold encode16, between, is_word. change (2 ^ 16) with 65536. cmp_cases;
    repeat constructor; unfold RuneError; try lia; Z.div_mod_to_equations; lia.
Qed.

Lemma decode_encode16 r us :
  scalar r -> utf16_Decode (encode16 r ++ us) = r :: utf16_Decode us.
Proof.
  intros Hr. pose proof Hr as Hs. unfold scalar in Hs.
  destruct (encode16_cases r Hr) as [[H ->]|[H ->]]; cbn [app utf16_Decode].
  - by rewrite !between_false by lia.
  - rewrite !between_true by (Z.div_mod_to_equations; lia).
    f_equal. Z.div_mod_to_equations; lia.
Qed.

Lemma utf16_Decode_app rs us :
  Forall scalar rs -> utf16_Decode (utf16_Encode rs ++ us) = rs ++ utf16_Decode us.
Proof.
  induction 1 as [|r rs Hr _ IH]; [done|].
  unfold utf16_Encode in *. cbn [map concat].
  by rewrite <-app_assoc, decode_encode16, IH.
Qed.

Lemma utf16_Encode_word rs : Forall (is_word 16) (utf16_Encode rs).
Proof.
  unfold utf16_Encode. apply Forall_concat, Forall_map, Forall_true. apply encode16_word.
Qed.

(** Decoding yields at most one rune per unit, and only pairs leave the basic
    plane. *)
Lemma utf16_Decode_length us : (length (utf16_Decode us) <= length us)%nat.
Proof.
  enough (length (utf16_Decode us) <= length us /\
          forall u, length (utf16_Decode (u :: us)) <= S (length us))%nat by tauto.
  induction us as [|v us [IH1 IH2]].
  - split; [done|]. intros u. simpl. repeat case_match; simpl; lia.
  - split; [apply IH2|]. intros u. specialize (IH2 v).
    change (utf16_Decode (u :: v :: us)) with
      (if between 0xD800 0xDBFF u then
         if between 0xDC00 0xDFFF v
         then ((u - 0xD800) * 1024 + (v - 0xDC00) + 0x10000) :: utf16_Decode us
         else RuneError :: utf16_Decode (v :: us)
       else if between 0xDC00 0xDFFF u then RuneError :: utf16_Decode (v :: us)
       else u :: utf16_Decode (v :: us)).
    repeat case_match; simpl length in *; lia.
Qed.

Lemma utf16_Decode_bmp us :
  Forall (is_word 16) us -> length (utf16_Decode us) = length us ->
  Forall (is_word 16) (utf16_Decode us).
Proof.
  induction 1 as [|u us Hu Hus IH]; [done|]. cbn [utf16_Decode length].
  assert (is_word 16 RuneError) as HE by (by vm_compute).
  destruct (between 0xD800 0xDBFF u).
  - destruct us as [|v us]; [by intros; repeat constructor|].
    destruct (between 0xDC00 0xDFFF v).
    + simpl. pose proof (utf16_Decode_length us). lia.
    + intros [= Hl]. constructor; auto.
  - destruct (between 0xDC00 0xDFFF u); intros [= Hl]; constructor; auto.
Qed.

(** ** Lengths *)

Lemma encode16_le_utf8 r :
  scalar r -> (length (encode16 r) <= length (encode_rune r))%nat /\
              (length (encode16 r) = length (encode_rune r) <-> r < 0x80).
Proof.
  intros Hr. unfold scalar in Hr.
  destruct (encode_rune_cases r Hr) as [[H1 ->]|[[H1 ->]|[[H1 ->]|[H1 ->]]]];
    destruct (encode16_cases r Hr) as [[H2 ->]|[H2 ->]]; simpl; lia.
Qed.

Lemma units_le_utf8 rs :
  Forall scalar rs ->
  (length (utf16_Encode rs) <= length (utf8 rs))%nat /\
  (length (utf16_Encode rs) = length (utf8 rs) <-> Forall (fun r => r < 0x80) rs).
Proof.
  induction 1 as [|r rs Hr _ [IH1 IH2]]; [by split; [|split]|].
  unfold utf16_Encode, utf8 in *. cbn [map concat]. rewrite !length_app, Forall_cons.
  destruct (encode16_le_utf8 r Hr) as [H1 H2]. rewrite <-H2, <-IH2. lia.
Qed.

(** The two bytes [toUTF16] makes of a unit are its little-endian encoding. *)
Lemma unit_bytes u : is_word 16 u -> [Z.land u 0xff; Z.shiftr u 8] = le_enc 2 u.
Proof.
  intros Hu. change 0xff with (Z.ones 8). rewrite Z.land_ones, Z.shiftr_div_pow2 by lia.
  unfold le_enc. do 2 f_equal. unfold is_word in Hu. change (2 ^ 16) with 65536 in Hu.
  change (2 ^ 8) with 256. rewrite Z.mod_small; [done|]. Z.div_mod_to_equations; lia.
Qed.

Lemma toUTF16_eq s :
  toUTF16 s = concat (map (le_enc 2) (stringToUTF16 s)).
Proof.
  unfold toUTF16, stringToUTF16. rewrite map_app, concat_app. f_equal.
  f_equal. apply map_ext_in. intros u Hu. apply unit_bytes.
  by eapply Forall_forall; [apply utf16_Encode_word|apply list_elem_of_In].
Qed.

Lemma length_toUTF16 s : length (toUTF16 s) = (2 * length (utf16_Encode (runes s)) + 2)%nat.
Proof.
  unfold toUTF16. rewrite length_app. simpl. f_equal.
  induction (utf16_Encode (runes s)); simpl; lia.
Qed.

Lemma toUTF16_byte s : Forall is_byte (toUTF16 s).
Proof.
  rewrite toUTF16_eq. apply Forall_concat, Forall_map, Forall_true. apply le_enc_byte.
Qed.

Lemma utf8_byte rs : Forall is_byte (utf8 rs).
Proof. unfold utf8. apply Forall_concat, Forall_map, Forall_true, encode_rune_byte. Qed.

(** ** Reading back the units of a buffer *)

Lemma sub_units us i u :
  us !! i = Some u -> sub (2 * i) 2 (concat (map (le_enc 2) us)) = le_enc 2 u.
Proof.
  revert i. induction us as [|v us IH]; intros i Hi; [done|]. cbn [map concat].
  destruct i as [|i].
  - injection Hi as ->. rewrite sub_0. by apply take_app_exact.
  - rewrite <-(IH i Hi). unfold sub.
    replace (2 * S i)%nat with (length (le_enc 2 v) + 2 * i)%nat
      by (rewrite length_le_enc; lia).
    by rewrite <-drop_drop, drop_app_length.
Qed.

Lemma length_units us : length (concat (map (le_enc 2) us)) = (2 * length us)%nat.
Proof. induction us; [done|]. simpl. rewrite IHus. lia. Qed.

Lemma units_nonzero rs :
  Forall scalar rs -> Forall (fun r => r <> 0) rs ->
  Forall (fun u => u <> 0) (utf16_Encode rs).
Proof.
  intros Hs Hn. unfold utf16_Encode. apply Forall_concat, Forall_map.
  eapply Forall_impl; [apply (proj2 (Forall_and _ _) (conj Hs Hn))|]. intros r [Hr H0]. simpl.
  unfold scalar in Hr.
  destruct (encode16_cases r Hr) as [[? ->]|[? ->]]; repeat constructor;
    try done; Z.div_mod_to_equations; lia.
Qed.

(** ** Properties *)

(** C19. [toUTF16] of a valid UTF-8 string is the little-endian form of a
    NUL-terminated UTF-16 text that decodes to exactly the string's runes; its
    byte length is even and counts each unit and the terminator once. *)
Theorem toUTF16_correct rs :
  Forall scalar rs ->
  exists us, toUTF16 (utf8 rs) = concat (map (le_enc 2) (us ++ [0])) /\
    utf16_Decode (us ++ [0]) = rs ++ [0] /\
    length (toUTF16 (utf8 rs)) = (2 * (length us + 1))%nat /\
    UTF16PtrLenToString us = utf8 rs.
Proof.
  intros Hrs. exists (utf16_Encode rs).
  rewrite length_toUTF16, toUTF16_eq. unfold stringToUTF16, UTF16PtrLenToString.
  rewrite runes_utf8 by done. split; [done|]. split; [by rewrite utf16_Decode_app|].
  split; [lia|]. rewrite <-(app_nil_r (utf16_Encode rs)), utf16_Decode_app by done.
  by rewrite app_nil_r.
Qed.

Lemma toUTF16_correct_witness :
  exists us, toUTF16 (utf8 [0x41; 0xE9; 0x1F600]) = concat (map (le_enc 2) (us ++ [0])) /\
    utf16_Decode (us ++ [0]) = [0x41; 0xE9; 0x1F600] ++ [0] /\
    length (toUTF16 (utf8 [0x41; 0xE9; 0x1F600])) = (2 * (length us + 1))%nat /\
    UTF16PtrLenToString us = utf8 [0x41; 0xE9; 0x1F600].
Proof.
  apply (toUTF16_correct [0x41; 0xE9; 0x1F600]).
  apply (bool_decide_unpack _). vm_compute. exact I.
Defined.

(** [StringToUTF16] of pkg/uefi is not a UTF-16 encoder: converting a valid
    string there and back with [UTF16PtrLenToString] restores it exactly when no
    rune lies above the basic multilingual plane (such a rune is truncated
    instead of being split into surrogates). *)
Theorem StringToUTF16_roundtrip_iff rs :
  Forall scalar rs ->
  (utf16_Decode (StringToUTF16 (utf8 rs)) = rs ++ [0] <->
   Forall (fun r => r < 0x10000) rs).
Proof.
  intros Hrs. unfold StringToUTF16. rewrite runes_utf8 by done. split.
  - intros Heq.
    assert (Forall (is_word 16) (rs ++ [0])) as [Hw _]%Forall_app.
    { rewrite <-Heq. apply utf16_Decode_bmp.
      - apply Forall_app. split; [|by repeat constructor].
        apply Forall_map, Forall_true. intros. by apply wrap_range.
      - by rewrite Heq, !length_app, length_map. }
    eapply Forall_impl; [apply Hw|]. intros r Hr. apply Hr.
  - intros Hb. change (rs ++ [0]) with (rs ++ utf16_Decode [0]).
    rewrite <-utf16_Decode_app by done. f_equal. f_equal.
    induction Hrs as [|r rs Hr _ IH]; [done|]. apply Forall_cons in Hb as [Hb1 Hb].
    cbn [map]. unfold utf16_Encode in *. cbn [map concat]. rewrite IH by done.
    destruct (encode16_cases r Hr) as [[_ ->]|[? _]]; [|lia].
    unfold scalar in Hr. rewrite wrap_small; [done|]. unfold is_word. lia.
Qed.

Lemma StringToUTF16_roundtrip_iff_witness :
  utf16_Decode (StringToUTF16 (utf8 [0x1F600])) = [0x1F600] ++ [0] <->
  Forall (fun r => r < 0x10000) [0x1F600].
Proof.
  apply (StringToUTF16_roundtrip_iff [0x1F600]).
  apply (bool_decide_unpack _). vm_compute. exact I.
Defined.
