(* ===== verification/Guid.v ===== *)
(** * Guid: EFI GUIDs in registry format and in memory

    [GUID.Bytes] of guid.go parses the textual form into the mixed-endian
    16-byte layout; [ConfigurationTable.RegistryFormat] of config.go prints
    such bytes back. *)

From S2P Require Import Prelude Binary.

(** ** Hexadecimal text *)

Definition is_xdigit (c : Z) : bool :=
  (48 <=? c) && (c <=? 57) || (65 <=? c) && (c <=? 70) || (97 <=? c) && (c <=? 102).

Definition hexval (c : Z) : Z :=
  if c <=? 57 then c - 48 else if c <=? 70 then c - 55 else c - 87.

Definition hexdigit (v : Z) : Z := if v <? 10 then v + 48 else v + 87.

(** [strings.ToLower] on hexadecimal digits. *)
Definition lower (c : Z) : Z := if (65 <=? c) && (c <=? 70) then c + 32 else c.

(** [hex.DecodeString] *)
Fixpoint hex_DecodeString (s : list Z) : option (list Z) :=
  match s with
  | [] => Some []
  | [_] => None
  | a :: b :: s =>
      if is_xdigit a && is_xdigit b
      then bs ← hex_DecodeString s; Some (16 * hexval a + hexval b :: bs)
      else None
  end.

(** [%x] of a byte slice. *)
Definition hex_bytes (bs : list Z) : list Z :=
  concat (map (fun b => [hexdigit (b / 16); hexdigit (b mod 16)]) bs).

(** [%0nx] of an unsigned integer below [16^n]: exactly [n] digits. *)
Fixpoint hex_fixed (n : nat) (v : Z) : list Z :=
  match n with
  | O => []
  | S n => hex_fixed n (v / 16) ++ [hexdigit (v mod 16)]
  end.

(** ** GUID.Bytes *)

Fixpoint xdigits (n : nat) (s : list Z) : option (list Z * list Z) :=
  match n, s with
  | O, _ => Some ([], s)
  | S n, c :: s => if is_xdigit c
                   then '(ds, s) ← xdigits n s; Some (c :: ds, s)
                   else None
  | S _, [] => None
  end.

Definition dash (s : list Z) : option (list Z) :=
  match s with 45 :: s => Some s | _ => None end.

(** [guidPattern.FindStringSubmatch(s)[1:]]: the five groups of the anchored
    pattern, [None] when the text does not match. *)
Definition guidPattern (s : gostring) : option (list (list Z)) :=
  '(g0, s) ← xdigits 8 s; s ← dash s;
  '(g1, s) ← xdigits 4 s; s ← dash s;
  '(g2, s) ← xdigits 4 s; s ← dash s;
  '(g3, s) ← xdigits 4 s; s ← dash s;
  '(g4, s) ← xdigits 12 s;
  match s with [] => Some [g0; g1; g2; g3; g4] | _ => None end.

(** What the loop appends for group [i]. *)
Definition guid_group (i : nat) (buf : list Z) : list Z :=
  match i with
  | 0%nat => [nth 3 buf 0; nth 2 buf 0; nth 1 buf 0; nth 0 buf 0]
  | 1%nat | 2%nat => [nth 1 buf 0; nth 0 buf 0]
  | _ => buf
  end.

Fixpoint guid_loop (i : nat) (m : list (list Z)) (guid : list Z) : list Z :=
  match m with
  | [] => guid
  | b :: m => match hex_DecodeString b with
              | None => replicate 16 0
              | Some buf => guid_loop (S i) m (guid ++ guid_group i buf)
              end
  end.

Definition Bytes (g : gostring) : list Z :=
  match guidPattern g with
  | None => replicate 16 0
  | Some m => guid_loop 0 m []
  end.

(** ** ConfigurationTable.RegistryFormat *)

Definition RegistryFormat (GUID : list Z) : gostring :=
  hex_fixed 8 (le_dec (sub 0 4 GUID)) ++ [45] ++
  hex_fixed 4 (le_dec (sub 4 2 GUID)) ++ [45] ++
  hex_fixed 4 (le_dec (sub 6 2 GUID)) ++ [45] ++
  hex_bytes (sub 8 2 GUID) ++ [45] ++
  hex_bytes (drop 10 GUID).

(** ** Hexadecimal round trips *)

Lemma hexval_range c : is_xdigit c = true -> 0 <= hexval c < 16.
Proof. unfold is_xdigit, hexval. repeat case_match; lia. Qed.

Lemma hexdigit_hexval c : is_xdigit c = true -> hexdigit (hexval c) = lower c.
Proof. unfold is_xdigit, hexval, hexdigit, lower. repeat case_match; lia. Qed.

Lemma hexval_hexdigit v : 0 <= v < 16 -> hexval (hexdigit v) = v.
Proof. unfold hexval, hexdigit. repeat case_match; lia. Qed.

Lemma is_xdigit_hexdigit v : 0 <= v < 16 -> is_xdigit (hexdigit v) = true.
Proof. unfold is_xdigit, hexdigit. repeat case_match; lia. Qed.

Lemma hex_fixed_length n v : length (hex_fixed n v) = n.
Proof. revert v. induction n; intros; simpl; [done|]. rewrite length_app, IHn. simpl. lia. Qed.

Lemma hex_bytes_length bs : length (hex_bytes bs) = (2 * length bs)%nat.
Proof. unfold hex_bytes. induction bs; simpl; lia. Qed.

Lemma hex_bytes_app bs cs : hex_bytes (bs ++ cs) = hex_bytes bs ++ hex_bytes cs.
Proof. unfold hex_bytes. by rewrite map_app, concat_app. Qed.

(** The fixed-width form of a little-endian integer is the byte dump of its
    big-endian bytes. *)
Lemma hex_fixed_le_dec bs :
  Forall is_byte bs -> hex_fixed (2 * length bs) (le_dec (rev bs)) = hex_bytes bs.
Proof.
  induction bs as [|b bs IH] using rev_ind; intros Hb; [done|].
  apply Forall_app in Hb as [Hbs [Hb _]%Forall_cons]. unfold is_byte in Hb.
  rewrite rev_app_distr, hex_bytes_app, length_app, <-IH by done.
  replace (2 * (length bs + length [b]))%nat with (S (S (2 * length bs))) by (simpl; lia).
  cbn [hex_fixed rev app]. unfold le_dec at 1 2 3. fold le_dec.
  rewrite <-app_assoc. f_equal.
  - f_equal. rewrite Z.div_div by lia. change (16 * 16) with 256.
    Z.div_mod_to_equations; lia.
  - set (L := le_dec (rev bs)).
    replace ((b + 256 * L) / 16 mod 16) with (b / 16) by (Z.div_mod_to_equations; lia).
    by replace ((b + 256 * L) mod 16) with (b mod 16) by (Z.div_mod_to_equations; lia).
Qed.

Lemma hex_Decode_bytes bs rest :
  Forall is_byte bs ->
  hex_DecodeString (hex_bytes bs ++ rest) = (bs ++.) <$> hex_DecodeString rest.
Proof.
  induction 1 as [|b bs Hb _ IH]; [simpl; by destruct (hex_DecodeString rest)|].
  unfold is_byte in Hb. unfold hex_bytes in *. cbn [map concat app hex_DecodeString].
  rewrite !is_xdigit_hexdigit by (Z.div_mod_to_equations; lia). cbn [andb].
  rewrite IH, !hexval_hexdigit by (Z.div_mod_to_equations; lia).
  destruct (hex_DecodeString rest); [|done]. simpl. do 2 f_equal.
  Z.div_mod_to_equations; lia.
Qed.

(** Decoding a group of an even number of digits gives that many bytes, whose
    dump is the group in lower case. *)
Lemma hex_Decode_group n ds :
  Forall (fun c => is_xdigit c = true) ds -> length ds = (2 * n)%nat ->
  exists bs, hex_DecodeString ds = Some bs /\ length bs = n /\ Forall is_byte bs /\
             hex_bytes bs = map lower ds.
Proof.
  revert ds. induction n as [|n IH]; intros ds Hd Hl.
  - destruct ds; [|done]. by exists [].
  - destruct ds as [|a [|b ds]]; simpl in Hl; [lia..|].
    apply Forall_cons in Hd as [Ha [Hb Hd]%Forall_cons].
    destruct (IH ds Hd ltac:(lia)) as (bs & E & Hlen & Hbytes & Hdump).
    pose proof (hexval_range _ Ha). pose proof (hexval_range _ Hb).
    exists (16 * hexval a + hexval b :: bs). simpl. rewrite Ha, Hb, E. simpl.
    split; [done|]. split; [lia|]. split; [constructor; [unfold is_byte; lia|done]|].
    unfold hex_bytes in *. cbn [map concat]. rewrite Hdump. simpl.
    replace ((16 * hexval a + hexval b) / 16) with (hexval a) by (Z.div_mod_to_equations; lia).
    replace ((16 * hexval a + hexval b) mod 16) with (hexval b) by (Z.div_mod_to_equations; lia).
    by rewrite !hexdigit_hexval.
Qed.

Lemma xdigits_spec n s ds rest :
  xdigits n s = Some (ds, rest) ->
  s = ds ++ rest /\ length ds = n /\ Forall (fun c => is_xdigit c = true) ds.
Proof.
  revert s ds. induction n as [|n IH]; intros s ds E; [by simplify_eq/=|].
  destruct s as [|c s]; [done|]. simpl in E.
  destruct (is_xdigit c) eqn:Hc; [|done].
  destruct (xdigits n s) as [[ds' s']|] eqn:Es; [|done]. simplify_eq/=.
  destruct (IH _ _ Es) as (-> & <- & ?). auto.
Qed.

Lemma xdigits_app ds rest :
  Forall (fun c => is_xdigit c = true) ds -> xdigits (length ds) (ds ++ rest) = Some (ds, rest).
Proof. induction 1 as [|c ds Hc _ IH]; [done|]. simpl. by rewrite Hc, IH. Qed.

Lemma dash_spec s rest : dash s = Some rest -> s = 45 :: rest.
Proof. unfold dash. destruct s as [|c s]; [done|]. repeat case_match; by intros; simplify_eq. Qed.

Lemma hex_bytes_xdigit bs : Forall is_byte bs -> Forall (fun c => is_xdigit c = true) (hex_bytes bs).
Proof.
  intros H. unfold hex_bytes. apply Forall_concat, Forall_map.
  eapply Forall_impl; [apply H|]. intros b Hb. unfold is_byte in Hb. simpl.
  repeat constructor; apply is_xdigit_hexdigit; Z.div_mod_to_equations; lia.
Qed.

#[global] Arguments hex_fixed : simpl never.
#[global] Arguments hex_bytes : simpl never.
#[global] Arguments xdigits : simpl never.

(** ** The two directions *)

(** The bytes of the five groups, as written. *)
Record groups := mkGroups { gr0 : list Z; gr1 : list Z; gr2 : list Z; gr3 : list Z; gr4 : list Z }.

Definition groups_ok (b : groups) : Prop :=
  length (gr0 b) = 4%nat /\ length (gr1 b) = 2%nat /\ length (gr2 b) = 2%nat /\
  length (gr3 b) = 2%nat /\ length (gr4 b) = 6%nat /\
  Forall is_byte (gr0 b ++ gr1 b ++ gr2 b ++ gr3 b ++ gr4 b).

(** The layout in memory: the first three fields little endian. *)
Definition layout (b : groups) : list Z :=
  rev (gr0 b) ++ rev (gr1 b) ++ rev (gr2 b) ++ gr3 b ++ gr4 b.

Definition dump (b : groups) : list Z :=
  hex_bytes (gr0 b) ++ [45] ++ hex_bytes (gr1 b) ++ [45] ++ hex_bytes (gr2 b) ++ [45] ++
  hex_bytes (gr3 b) ++ [45] ++ hex_bytes (gr4 b).

Lemma guid_loop_groups (b : groups) s0 s1 s2 s3 s4 :
  groups_ok b ->
  hex_DecodeString s0 = Some (gr0 b) -> hex_DecodeString s1 = Some (gr1 b) ->
  hex_DecodeString s2 = Some (gr2 b) -> hex_DecodeString s3 = Some (gr3 b) ->
  hex_DecodeString s4 = Some (gr4 b) ->
  guid_loop 0 [s0; s1; s2; s3; s4] [] = layout b.
Proof.
  destruct b as [b0 b1 b2 b3 b4]. intros (H0 & H1 & H2 & _) E0 E1 E2 E3 E4. simpl in *.
  rewrite E0, E1, E2, E3, E4. simpl. unfold layout. simpl.
  destruct b0 as [|? [|? [|? [|? [|]]]]]; try done.
  destruct b1 as [|? [|? [|]]]; try done. destruct b2 as [|? [|? [|]]]; try done.
Qed.

Lemma RegistryFormat_layout b : groups_ok b -> RegistryFormat (layout b) = dump b.
Proof.
  destruct b as [b0 b1 b2 b3 b4].
  intros (H0 & H1 & H2 & H3 & H4 & Hb). unfold layout, RegistryFormat, dump in *.
  cbn [gr0 gr1 gr2 gr3 gr4] in *.
  rewrite !Forall_app in Hb. destruct Hb as (Hb0 & Hb1 & Hb2 & Hb3 & Hb4).
  assert (sub 0 4 (rev b0 ++ rev b1 ++ rev b2 ++ b3 ++ b4) = rev b0) as ->.
  { rewrite sub_0. apply take_app_exact. by rewrite length_rev. }
  assert (sub 4 2 (rev b0 ++ rev b1 ++ rev b2 ++ b3 ++ b4) = rev b1) as ->.
  { apply sub_app_exact; by rewrite length_rev. }
  assert (sub 6 2 (rev b0 ++ rev b1 ++ rev b2 ++ b3 ++ b4) = rev b2) as ->.
  { rewrite app_assoc. apply sub_app_exact; rewrite ?length_app, !length_rev; lia. }
  assert (sub 8 2 (rev b0 ++ rev b1 ++ rev b2 ++ b3 ++ b4) = b3) as ->.
  { rewrite !app_assoc, <-(app_assoc _ b3). apply sub_app_exact; [|done].
    rewrite !length_app, !length_rev. lia. }
  assert (drop 10 (rev b0 ++ rev b1 ++ rev b2 ++ b3 ++ b4) = b4) as ->.
  { rewrite !app_assoc. apply drop_app_exact. rewrite !length_app, !length_rev. lia. }
  assert (forall n bs, Forall is_byte bs -> n = (2 * length bs)%nat ->
            hex_fixed n (le_dec (rev bs)) = hex_bytes bs) as Hfix.
  { intros n bs Hbs ->. by apply hex_fixed_le_dec. }
  by rewrite !Hfix by (done || lia).
Qed.

Lemma guidPattern_groups g m :
  guidPattern g = Some m ->
  exists s0 s1 s2 s3 s4, m = [s0; s1; s2; s3; s4] /\
    g = s0 ++ 45 :: s1 ++ 45 :: s2 ++ 45 :: s3 ++ 45 :: s4 /\
    length s0 = 8%nat /\ length s1 = 4%nat /\ length s2 = 4%nat /\ length s3 = 4%nat /\
    length s4 = 12%nat /\
    Forall (fun c => is_xdigit c = true) (s0 ++ s1 ++ s2 ++ s3 ++ s4).
Proof.
  unfold guidPattern. intros E. 
  repeat (simplify_option_eq; match goal with
          | p : (list Z * list Z)%type |- _ => destruct p; simpl in *
          | H : match ?l with [] => _ | _ => _ end = Some _ |- _ => destruct l; simplify_eq
          end).
  repeat match goal with
  | H : xdigits _ _ = Some _ |- _ => apply xdigits_spec in H as (? & ? & ?); simplify_eq
  | H : dash _ = Some _ |- _ => apply dash_spec in H; simplify_eq
  end.
  do 5 eexists. split; [reflexivity|].
  rewrite app_nil_r, !Forall_app. by repeat split.
Qed.

Lemma lower_dash : lower 45 = 45.
Proof. reflexivity. Qed.

Lemma guidPattern_inv g m :
  guidPattern g = Some m ->
  exists b, groups_ok b /\ Bytes g = layout b /\ map lower g = dump b.
Proof.
  intros E. unfold Bytes. rewrite E.
  apply guidPattern_groups in E as (s0 & s1 & s2 & s3 & s4 & -> & -> & L0 & L1 & L2 & L3 & L4 & Hx).
  rewrite !Forall_app in Hx. destruct Hx as (X0 & X1 & X2 & X3 & X4).
  destruct (hex_Decode_group 4 s0 X0 L0) as (b0 & E0 & M0 & B0 & D0).
  destruct (hex_Decode_group 2 s1 X1 L1) as (b1 & E1 & M1 & B1 & D1).
  destruct (hex_Decode_group 2 s2 X2 L2) as (b2 & E2 & M2 & B2 & D2).
  destruct (hex_Decode_group 2 s3 X3 L3) as (b3 & E3 & M3 & B3 & D3).
  destruct (hex_Decode_group 6 s4 X4 L4) as (b4 & E4 & M4 & B4 & D4).
  assert (groups_ok (mkGroups b0 b1 b2 b3 b4)) as Hok.
  { unfold groups_ok. simpl. rewrite !Forall_app. auto 12. }
  exists (mkGroups b0 b1 b2 b3 b4). split; [done|]. split.
  - by apply guid_loop_groups.
  - unfold dump. simpl. rewrite D0, D1, D2, D3, D4.
    by rewrite !map_app; simpl; rewrite !map_app; simpl; rewrite !map_app; simpl;
       rewrite !map_app.
Qed.

Lemma layout_length b : groups_ok b -> length (layout b) = 16%nat.
Proof.
  intros (H0 & H1 & H2 & H3 & H4 & _). unfold layout.
  rewrite !length_app, !length_rev. lia.
Qed.

(** The dump of any bytes is accepted by the pattern and parsed to them. *)
Lemma Bytes_dump b : groups_ok b -> Bytes (dump b) = layout b.
Proof.
  intros Hok. pose proof Hok as (H0 & H1 & H2 & H3 & H4 & Hb).
  rewrite !Forall_app in Hb. destruct Hb as (Hb0 & Hb1 & Hb2 & Hb3 & Hb4).
  assert (forall n bs rest, Forall is_byte bs -> n = (2 * length bs)%nat ->
            xdigits n (hex_bytes bs ++ rest) = Some (hex_bytes bs, rest)) as Hxd.
  { intros n bs rest Hbs ->. rewrite <-hex_bytes_length.
    apply xdigits_app. by apply hex_bytes_xdigit. }
  assert (forall bs, Forall is_byte bs -> hex_DecodeString (hex_bytes bs) = Some bs) as Hdec.
  { intros bs Hbs. rewrite <-(app_nil_r (hex_bytes bs)), hex_Decode_bytes by done.
    simpl. by rewrite app_nil_r. }
  assert (guidPattern (dump b) = Some [hex_bytes (gr0 b); hex_bytes (gr1 b);
            hex_bytes (gr2 b); hex_bytes (gr3 b); hex_bytes (gr4 b)]) as E.
  { unfold guidPattern, dump. rewrite Hxd by (done || lia). simpl.
    do 3 (rewrite Hxd by (done || lia); simpl).
    rewrite <-(app_nil_r (hex_bytes (gr4 b))) at 1. by rewrite Hxd by (done || lia). }
  unfold Bytes. rewrite E. apply guid_loop_groups; auto.
Qed.

Lemma Bytes_length g : length (Bytes g) = 16%nat.
Proof.
  destruct (guidPattern g) as [m|] eqn:E.
  - destruct (guidPattern_inv g m E) as (b & Hok & -> & _). by apply layout_length.
  - unfold Bytes. by rewrite E.
Qed.

(** ** Properties *)

(** C18. Parsing and printing GUIDs are inverse: the registry format of the bytes
    of any text the pattern accepts is that text in lower case, and parsing the
    registry format of any 16 bytes gives those bytes back. *)
Theorem guid_roundtrip :
  (forall g m, guidPattern g = Some m -> RegistryFormat (Bytes g) = map lower g) /\
  (forall bs, length bs = 16%nat -> Forall is_byte bs -> Bytes (RegistryFormat bs) = bs).
Proof.
  split.
  - intros g m E. destruct (guidPattern_inv g m E) as (b & Hok & -> & ->).
    by apply RegistryFormat_layout.
  - intros bs Hl Hb.
    set (b := mkGroups (rev (take 4 bs)) (rev (sub 4 2 bs)) (rev (sub 6 2 bs))
                       (sub 8 2 bs) (drop 10 bs)).
    do 16 (destruct bs as [|? bs]; [discriminate|]). destruct bs; [|discriminate].
    assert (groups_ok b) as Hok.
    { unfold groups_ok, b. simpl. repeat split.
      repeat match goal with H : Forall is_byte (_ :: _) |- _ =>
               apply Forall_cons in H as [? ?] end.
      repeat first [apply Forall_nil_2 | apply Forall_cons_2; [assumption|]]. }
    change (Bytes (RegistryFormat (layout b)) = layout b).
    by rewrite RegistryFormat_layout, Bytes_dump.
Qed.

(** [GUID.Bytes] always yields 16 bytes, so that its address may be handed
    to the firmware; text that is not a GUID yields the zero GUID. *)
Theorem guid_Bytes_total g :
  length (Bytes g) = 16%nat /\ (guidPattern g = None -> Bytes g = replicate 16 0).
Proof.
  split; [apply Bytes_length|by unfold Bytes; intros ->].
Qed.
