(* ===== verification/Tables.v ===== *)
(** * Tables: the EFI structs of pkg/ueficore and their layouts

    One record per Go struct that is marshalled, with its [Binary] instance:
    the fields in order, blank fields included. *)

From S2P Require Import Prelude Binary Machine.

Abbreviation U8 := (FUint 1).
Abbreviation U16 := (FUint 2).
Abbreviation U32 := (FUint 4).
Abbreviation U64 := (FUint 8).

(** Discharges the three laws of a record's codec. *)
Ltac binary_instance :=
  first [ by repeat constructor | by intros [] | binary_fields ].

(** ** uefi.go *)

Module TableHeader.
Record t := mk { Signature : Z; Revision : Z; HeaderSize : Z; CRC32 : Z; Reserved : Z }.
End TableHeader.

Module SystemTable.
Record t := mk {
  Header : TableHeader.t;
  FirmwareVendor : Z;
  FirmwareRevision : Z;
  ConsoleInHandle : Z;
  ConIn : Z;
  ConsoleOutHandle : Z;
  ConOut : Z;
  StandardErrorHandle : Z;
  StdErr : Z;
  RuntimeServices : Z;
  BootServices : Z;
  NumberOfTableEntries : Z;
  ConfigurationTable : Z;
}.

Definition fields : list fty :=
  [ U64; U32; U32; U32; U32;          (* Header *)
    U64; U32; FPad 4; U64; U64; U64; U64; U64; U64; U64; U64; U64; U64 ].

#[global, refine] Instance binary : Binary t := {
  bin_fields := fields;
  bin_zero := mk (TableHeader.mk 0 0 0 0 0) 0 0 0 0 0 0 0 0 0 0 0 0;
  to_vals d :=
    let h := Header d in
    [VZ (TableHeader.Signature h); VZ (TableHeader.Revision h);
     VZ (TableHeader.HeaderSize h); VZ (TableHeader.CRC32 h);
     VZ (TableHeader.Reserved h);
     VZ (FirmwareVendor d); VZ (FirmwareRevision d); VZ (ConsoleInHandle d); VZ (ConIn d);
     VZ (ConsoleOutHandle d); VZ (ConOut d); VZ (StandardErrorHandle d); VZ (StdErr d);
     VZ (RuntimeServices d); VZ (BootServices d); VZ (NumberOfTableEntries d);
     VZ (ConfigurationTable d)];
  of_vals vs :=
    match vs with
    | [VZ a; VZ b; VZ c; VZ d; VZ e; VZ f; VZ g; VZ h; VZ i; VZ j; VZ k; VZ l; VZ m;
       VZ n; VZ o; VZ p; VZ q] =>
        Some (mk (TableHeader.mk a b c d e) f g h i j k l m n o p q)
    | _ => None
    end;
}.
Proof. 1: binary_instance. 1: by intros [[]]. binary_instance. Defined.
End SystemTable.
(** ** mem.go, config.go *)

(** An EFI memory descriptor, 48 bytes with its trailing blank field. *)
Module MemoryDescriptor.
Record t := mk {
  Type_ : Z;
  PhysicalStart : Z;
  VirtualStart : Z;
  NumberOfPages : Z;
  Attribute : Z;
}.

Definition fields : list fty :=
  [ U32; FPad 4; U64; U64; U64; U64; FPad 8 ].

#[global, refine] Instance binary : Binary t := {
  bin_fields := fields;
  bin_zero := mk 0 0 0 0 0;
  to_vals d :=
    [VZ (Type_ d); VZ (PhysicalStart d); VZ (VirtualStart d);
     VZ (NumberOfPages d); VZ (Attribute d)];
  of_vals vs :=
    match vs with
    | [VZ x0; VZ x1; VZ x2; VZ x3; VZ x4] =>
        Some (mk x0 x1 x2 x3 x4)
    | _ => None
    end;
}.
Proof. all: binary_instance. Defined.
End MemoryDescriptor.

(** An EFI configuration table entry. *)
Module ConfigurationTable.
Record t := mk {
  GUID : list Z;
  VendorTable : Z;
}.

Definition fields : list fty :=
  [ FBytes 16; U64 ].

#[global, refine] Instance binary : Binary t := {
  bin_fields := fields;
  bin_zero := mk (replicate 16 0) 0;
  to_vals d :=
    [VB (GUID d); VZ (VendorTable d)];
  of_vals vs :=
    match vs with
    | [VB x0; VZ x1] =>
        Some (mk x0 x1)
    | _ => None
    end;
}.
Proof. all: binary_instance. Defined.
End ConfigurationTable.

(** ** fs.go, file.go, path.go *)

(** The Loaded Image protocol; the comments of the source give the offsets. *)
Module LoadedImage.
Record t := mk {
  Revision : Z;
  ParentHandle : Z;
  SystemTable : Z;
  DeviceHandle : Z;
  FilePath : Z;
  LoadOptionsSize : Z;
  LoadOptions : Z;
  ImageBase : Z;
  ImageSize : Z;
  ImageCodeType : Z;
  ImageDataType : Z;
  Unload : Z;
}.

Definition fields : list fty :=
  [ U32; FPad 4; U64; U64; U64; U64; FPad 8; U32; FPad 4; U64; U64; U64;
    U64; U64; U64 ].

#[global, refine] Instance binary : Binary t := {
  bin_fields := fields;
  bin_zero := mk 0 0 0 0 0 0 0 0 0 0 0 0;
  to_vals d :=
    [VZ (Revision d); VZ (ParentHandle d); VZ (SystemTable d);
     VZ (DeviceHandle d); VZ (FilePath d); VZ (LoadOptionsSize d);
     VZ (LoadOptions d); VZ (ImageBase d); VZ (ImageSize d);
     VZ (ImageCodeType d); VZ (ImageDataType d); VZ (Unload d)];
  of_vals vs :=
    match vs with
    | [VZ x0; VZ x1; VZ x2; VZ x3; VZ x4; VZ x5; VZ x6; VZ x7; VZ x8;
       VZ x9; VZ x10; VZ x11] =>
        Some (mk x0 x1 x2 x3 x4 x5 x6 x7 x8 x9 x10 x11)
    | _ => None
    end;
}.
Proof. all: binary_instance. Defined.
End LoadedImage.

(** The Simple File System protocol. *)
Module simpleFileSystem.
Record t := mk {
  Revision : Z;
  OpenVolume : Z;
}.

Definition fields : list fty :=
  [ U64; U64 ].

#[global, refine] Instance binary : Binary t := {
  bin_fields := fields;
  bin_zero := mk 0 0;
  to_vals d :=
    [VZ (Revision d); VZ (OpenVolume d)];
  of_vals vs :=
    match vs with
    | [VZ x0; VZ x1] =>
        Some (mk x0 x1)
    | _ => None
    end;
}.
Proof. all: binary_instance. Defined.
End simpleFileSystem.

(** The File protocol: its revision and ten entry points. *)
Module fileProtocol.
Record t := mk {
  Revision : Z;
  Open : Z;
  Close : Z;
  Delete : Z;
  Read : Z;
  Write : Z;
  GetPosition : Z;
  SetPosition : Z;
  GetInfo : Z;
  SetInfo : Z;
  Flush : Z;
}.

Definition fields : list fty :=
  [ U64; U64; U64; U64; U64; U64; U64; U64; U64; U64; U64 ].

#[global, refine] Instance binary : Binary t := {
  bin_fields := fields;
  bin_zero := mk 0 0 0 0 0 0 0 0 0 0 0;
  to_vals d :=
    [VZ (Revision d); VZ (Open d); VZ (Close d); VZ (Delete d);
     VZ (Read d); VZ (Write d); VZ (GetPosition d); VZ (SetPosition d);
     VZ (GetInfo d); VZ (SetInfo d); VZ (Flush d)];
  of_vals vs :=
    match vs with
    | [VZ x0; VZ x1; VZ x2; VZ x3; VZ x4; VZ x5; VZ x6; VZ x7; VZ x8;
       VZ x9; VZ x10] =>
        Some (mk x0 x1 x2 x3 x4 x5 x6 x7 x8 x9 x10)
    | _ => None
    end;
}.
Proof. all: binary_instance. Defined.
End fileProtocol.

(** file.go's view of EFI_TIME. *)
Module efiTime.
Record t := mk {
  Year : Z;
  Month : Z;
  Day : Z;
  Hour : Z;
  Minute : Z;
  Second : Z;
  Nanosecond : Z;
  TimeZone : Z;
  Daylight : Z;
}.

Definition fields : list fty :=
  [ U16; U8; U8; U8; U8; U8; FPad 1; U8; FInt 2; U8; FPad 4 ].

#[global, refine] Instance binary : Binary t := {
  bin_fields := fields;
  bin_zero := mk 0 0 0 0 0 0 0 0 0;
  to_vals d :=
    [VZ (Year d); VZ (Month d); VZ (Day d); VZ (Hour d); VZ (Minute d);
     VZ (Second d); VZ (Nanosecond d); VZ (TimeZone d); VZ (Daylight d)];
  of_vals vs :=
    match vs with
    | [VZ x0; VZ x1; VZ x2; VZ x3; VZ x4; VZ x5; VZ x6; VZ x7; VZ x8] =>
        Some (mk x0 x1 x2 x3 x4 x5 x6 x7 x8)
    | _ => None
    end;
}.
Proof. all: binary_instance. Defined.
End efiTime.

(** EFI_TIME as pkg/uefi/uefi_base_type.go declares it: Go lays its fields out
    at their natural alignment, and there is no implicit padding. *)
Module EFI_TIME.
Record t := mk {
  Year : Z;
  Month : Z;
  Day : Z;
  Hour : Z;
  Minute : Z;
  Second : Z;
  Pad1 : Z;
  Nanosecond : Z;
  TimeZone : Z;
  Daylight : Z;
  Pad2 : Z;
}.

Definition fields : list fty :=
  [ U16; U8; U8; U8; U8; U8; U8; U32; FInt 2; U8; U8 ].

#[global, refine] Instance binary : Binary t := {
  bin_fields := fields;
  bin_zero := mk 0 0 0 0 0 0 0 0 0 0 0;
  to_vals d :=
    [VZ (Year d); VZ (Month d); VZ (Day d); VZ (Hour d); VZ (Minute d);
     VZ (Second d); VZ (Pad1 d); VZ (Nanosecond d); VZ (TimeZone d);
     VZ (Daylight d); VZ (Pad2 d)];
  of_vals vs :=
    match vs with
    | [VZ x0; VZ x1; VZ x2; VZ x3; VZ x4; VZ x5; VZ x6; VZ x7; VZ x8;
       VZ x9; VZ x10] =>
        Some (mk x0 x1 x2 x3 x4 x5 x6 x7 x8 x9 x10)
    | _ => None
    end;
}.
Proof. all: binary_instance. Defined.
End EFI_TIME.

(** A generic device path node header. *)
Module DevicePathNode.
Record t := mk {
  Type_ : Z;
  SubType : Z;
  Length : Z;
}.

Definition fields : list fty :=
  [ U8; U8; U16 ].

#[global, refine] Instance binary : Binary t := {
  bin_fields := fields;
  bin_zero := mk 0 0 0;
  to_vals d :=
    [VZ (Type_ d); VZ (SubType d); VZ (Length d)];
  of_vals vs :=
    match vs with
    | [VZ x0; VZ x1; VZ x2] =>
        Some (mk x0 x1 x2)
    | _ => None
    end;
}.
Proof. all: binary_instance. Defined.
End DevicePathNode.

(** ** graphics.go *)

(** Graphics Output mode information. *)
Module ModeInformation.
Record t := mk {
  Version : Z;
  HorizontalResolution : Z;
  VerticalResolution : Z;
  PixelFormat : Z;
  RedMask : Z;
  GreenMask : Z;
  BlueMask : Z;
  ReservedMask : Z;
  PixelsPerScanLine : Z;
}.

Definition fields : list fty :=
  [ U32; U32; U32; U32; U32; U32; U32; U32; U32 ].

#[global, refine] Instance binary : Binary t := {
  bin_fields := fields;
  bin_zero := mk 0 0 0 0 0 0 0 0 0;
  to_vals d :=
    [VZ (Version d); VZ (HorizontalResolution d);
     VZ (VerticalResolution d); VZ (PixelFormat d); VZ (RedMask d);
     VZ (GreenMask d); VZ (BlueMask d); VZ (ReservedMask d);
     VZ (PixelsPerScanLine d)];
  of_vals vs :=
    match vs with
    | [VZ x0; VZ x1; VZ x2; VZ x3; VZ x4; VZ x5; VZ x6; VZ x7; VZ x8] =>
        Some (mk x0 x1 x2 x3 x4 x5 x6 x7 x8)
    | _ => None
    end;
}.
Proof. all: binary_instance. Defined.
End ModeInformation.

(** Graphics Output protocol mode. *)
Module ProtocolMode.
Record t := mk {
  MaxMode : Z;
  Mode : Z;
  Info : Z;
  SizeOfInfo : Z;
  FrameBufferBase : Z;
  FrameBufferSize : Z;
}.

Definition fields : list fty :=
  [ U32; U32; U64; U64; U64; U64 ].

#[global, refine] Instance binary : Binary t := {
  bin_fields := fields;
  bin_zero := mk 0 0 0 0 0 0;
  to_vals d :=
    [VZ (MaxMode d); VZ (Mode d); VZ (Info d); VZ (SizeOfInfo d);
     VZ (FrameBufferBase d); VZ (FrameBufferSize d)];
  of_vals vs :=
    match vs with
    | [VZ x0; VZ x1; VZ x2; VZ x3; VZ x4; VZ x5] =>
        Some (mk x0 x1 x2 x3 x4 x5)
    | _ => None
    end;
}.
Proof. all: binary_instance. Defined.
End ProtocolMode.

(** The anonymous struct of [GetGraphicsOutput]. *)
Module GraphicsData.
Record t := mk {
  QueryMode : Z;
  SetMode : Z;
  Blt : Z;
  Mode : Z;
}.

Definition fields : list fty :=
  [ U64; U64; U64; U64 ].

#[global, refine] Instance binary : Binary t := {
  bin_fields := fields;
  bin_zero := mk 0 0 0 0;
  to_vals d :=
    [VZ (QueryMode d); VZ (SetMode d); VZ (Blt d); VZ (Mode d)];
  of_vals vs :=
    match vs with
    | [VZ x0; VZ x1; VZ x2; VZ x3] =>
        Some (mk x0 x1 x2 x3)
    | _ => None
    end;
}.
Proof. all: binary_instance. Defined.
End GraphicsData.


(** [fileInfo] embeds three [efiTime] values. *)
Module fileInfo.
Record t := mk {
  Size : Z;
  FileSize : Z;
  PhysicalSize : Z;
  CreateTime : efiTime.t;
  LastAccessTime : efiTime.t;
  ModificationTime : efiTime.t;
  Attribute : Z;
}.

Definition fields : list fty :=
  [U64; U64; U64] ++ efiTime.fields ++ efiTime.fields ++ efiTime.fields ++ [U64].

Definition time_vals (d : efiTime.t) : list fval := @to_vals _ efiTime.binary d.

#[global, refine] Instance binary : Binary t := {
  bin_fields := fields;
  bin_zero := mk 0 0 0 (bin_zero efiTime.t) (bin_zero efiTime.t) (bin_zero efiTime.t) 0;
  to_vals d :=
    [VZ (Size d); VZ (FileSize d); VZ (PhysicalSize d)] ++
    time_vals (CreateTime d) ++ time_vals (LastAccessTime d) ++
    time_vals (ModificationTime d) ++ [VZ (Attribute d)];
  of_vals vs :=
    match vs with
    | [VZ s; VZ f; VZ p;
       VZ a0; VZ a1; VZ a2; VZ a3; VZ a4; VZ a5; VZ a6; VZ a7; VZ a8;
       VZ b0; VZ b1; VZ b2; VZ b3; VZ b4; VZ b5; VZ b6; VZ b7; VZ b8;
       VZ c0; VZ c1; VZ c2; VZ c3; VZ c4; VZ c5; VZ c6; VZ c7; VZ c8; VZ a] =>
        Some (mk s f p (efiTime.mk a0 a1 a2 a3 a4 a5 a6 a7 a8)
                 (efiTime.mk b0 b1 b2 b3 b4 b5 b6 b7 b8)
                 (efiTime.mk c0 c1 c2 c3 c4 c5 c6 c7 c8) a)
    | _ => None
    end;
}.
Proof.
  1: by unfold fields, efiTime.fields; cbn [app];
     repeat (apply Forall_cons_2; [simpl; (exact I || lia)|]); apply Forall_nil_2.
  1: by intros [? ? ? [] [] [] ?].
  intros vs H. unfold fields, efiTime.fields in H. cbn [app] in H. revert vs H. binary_fields.
Defined.
End fileInfo.

(** ** Sizes and layouts *)

(** The structs the firmware and the Go code share. *)
Definition shared_layouts : list (list fty) :=
  [ SystemTable.fields; MemoryDescriptor.fields; ConfigurationTable.fields;
    LoadedImage.fields; simpleFileSystem.fields; fileProtocol.fields;
    EFI_TIME.fields; DevicePathNode.fields; ModeInformation.fields;
    ProtocolMode.fields; GraphicsData.fields ].

(** Every struct the firmware shares with the Go code is naturally aligned
    with its blank fields written out, so that Go's packed decoding reads each
    field where Go's or C's rules put a field of that size; Layouts compares the
    fields by name and the sizes with those of the firmware's structs.  The one exception is file.go's
    [efiTime], whose one-byte Nanosecond puts TimeZone at an odd offset. *)
Theorem shared_layouts_aligned :
  Forall (fun fs => c_aligned fs = true) shared_layouts /\
  map fields_size shared_layouts = [120; 48; 24; 104; 16; 88; 16; 4; 36; 40; 32]%nat /\
  foffset 9 LoadedImage.fields = 56%nat /\ foffset 7 LoadedImage.fields = 48%nat /\
  c_aligned efiTime.fields = false /\ bin_size efiTime.t = bin_size EFI_TIME.t.
Proof.
  split; [apply (bool_decide_unpack _); vm_compute; exact I|].
  vm_compute. auto 6.
Qed.

(** [ModTime] cannot be right: decoding an EFI_TIME with file.go's [efiTime]
    takes the lowest byte of the nanoseconds for the nanoseconds, their middle
    bytes for the time zone and their highest byte for the daylight flag; the
    real time zone is dropped.  The fields before them are read correctly. *)
Theorem efiTime_misreads (t : EFI_TIME.t) (d : efiTime.t) :
  bin_ok t ->
  exists t', unmarshalBinary (enc t) d = (t', None) /\
    efiTime.Year t' = EFI_TIME.Year t /\ efiTime.Month t' = EFI_TIME.Month t /\
    efiTime.Day t' = EFI_TIME.Day t /\ efiTime.Hour t' = EFI_TIME.Hour t /\
    efiTime.Minute t' = EFI_TIME.Minute t /\ efiTime.Second t' = EFI_TIME.Second t /\
    efiTime.Nanosecond t' = EFI_TIME.Nanosecond t mod 256 /\
    efiTime.TimeZone t' = i16 (EFI_TIME.Nanosecond t / 256) /\
    efiTime.Daylight t' = EFI_TIME.Nanosecond t / 2 ^ 24.
Proof.
  destruct t as [y mo da h mi s p1 ns tz dl p2]. intros Hok.
  unfold unmarshalBinary. rewrite (enc_length _ Hok), decide_False by (vm_compute; lia).
  unfold bin_ok in Hok. cbn -[Z.pow] in Hok. unfold is_word in Hok.
  decompose [and] Hok. clear Hok.
  unfold enc, marshalBinary. cbn -[Z.pow]. unfold le_enc, le_dec.
  cbn -[Z.pow Z.modulo Z.div Z.add Z.mul swrap].
  eexists. split; [reflexivity|].
  cbn [efiTime.Year efiTime.Month efiTime.Day efiTime.Hour efiTime.Minute efiTime.Second
       efiTime.Nanosecond efiTime.TimeZone efiTime.Daylight
       EFI_TIME.Year EFI_TIME.Month EFI_TIME.Day EFI_TIME.Hour EFI_TIME.Minute
       EFI_TIME.Second EFI_TIME.Nanosecond].
  split_and!; word.
Qed.

Lemma efiTime_misreads_witness :
  let t := EFI_TIME.mk 2024 5 17 10 20 30 0 500000000 60 0 0 in
  exists t', unmarshalBinary (enc t) (bin_zero efiTime.t) = (t', None) /\
    efiTime.Year t' = EFI_TIME.Year t /\ efiTime.Month t' = EFI_TIME.Month t /\
    efiTime.Day t' = EFI_TIME.Day t /\ efiTime.Hour t' = EFI_TIME.Hour t /\
    efiTime.Minute t' = EFI_TIME.Minute t /\ efiTime.Second t' = EFI_TIME.Second t /\
    efiTime.Nanosecond t' = EFI_TIME.Nanosecond t mod 256 /\
    efiTime.TimeZone t' = i16 (EFI_TIME.Nanosecond t / 256) /\
    efiTime.Daylight t' = EFI_TIME.Nanosecond t / 2 ^ 24.
Proof.
  intros t. apply (efiTime_misreads t (bin_zero efiTime.t)).
  vm_compute. repeat split; (congruence || lia).
Defined.
