(* ===== verification/Desc.v ===== *)
(** * Desc: reading and writing structs at physical addresses

    [encode] and [decode] of pkg/ueficore/desc.go: a struct is marshalled into
    or unmarshalled from memory through a DMA region that starts at the
    address. *)

From S2P Require Import Prelude Binary Machine Tables.

Section Desc.
Context `{Machine} {A : Type} `{Binary A}.

Definition align : Z := 8.

Definition encode (data : A) (addr : Z) : M error :=
  if addr =? 0 then mret (Some (ErrNew "invalid address")) else
  let '(buf, _) := marshalBinary data in
  let n := zlen buf in
  match dma_NewRegion addr n false with
  | Some err => mret (Some err)
  | None =>
      fun w =>
        match dma_Alloc (addr, n) buf 0 (w_mem w) with
        | Ret (ptr, m) => (Ret None, set_mem m w)
        | Panic p => (Panic p, w)
        | Deadlock => (Deadlock, w)
        | NoFuel => (NoFuel, w)
        end
  end.

Definition decode (data : A) (addr : Z) : M (A * error) :=
  if addr =? 0 then mret (data, Some (ErrNew "invalid address")) else
  let '(t, _) := marshalBinary data in
  let n := zlen t + zlen t mod align in
  match dma_NewRegion addr n false with
  | Some err => mret (data, Some err)
  | None =>
      ptr ← lift (dma_Reserve (addr, n) (zlen t) 0);
      buf ← get_bytes ptr (length t);
      mret (unmarshalBinary buf data)
  end.

(** The package makes regions at the address, which is a word's. *)
Definition dma_permits (addr : Z) : Prop :=
  dma_aligned addr /\ forall n, dma_NewRegion addr n false = None.

Lemma decode_zero data w :
  decode data 0 w = (Ret (data, Some (ErrNew "invalid address")), w).
Proof. reflexivity. Qed.

Lemma decode_step `{!DmaLaws} data addr w :
  addr <> 0 -> bin_ok data -> (0 < bin_size A)%nat -> dma_permits addr ->
  decode data addr w =
  (Ret (unmarshalBinary (load_bytes (w_mem w) addr (bin_size A)) data), w).
Proof.
  intros Ha Hok Hs [Hal Hd]. unfold decode. rewrite (proj2 (Z.eqb_neq _ _)) by done.
  cbn [marshalBinary]. rewrite Hd.
  change (enc_fields (bin_fields A) (to_vals data)) with (enc data).
  assert (length (enc data) = bin_size A) as Hlen by by apply enc_length.
  unfold mbind, M_bind, lift, align.
  rewrite dma_reserve_aligned; [|done|].
  2: { unfold zlen. rewrite Hlen. pose proof (Z.mod_pos_bound (Z.of_nat (bin_size A)) 8). lia. }
  unfold get_bytes. by rewrite Hlen.
Qed.

Lemma encode_step `{!DmaLaws} data addr w :
  addr <> 0 -> bin_ok data -> (0 < bin_size A)%nat -> dma_permits addr ->
  encode data addr w = (Ret None, set_mem (store_bytes (w_mem w) addr (enc data)) w).
Proof.
  intros Ha Hok Hs [Hal Hd]. unfold encode. rewrite (proj2 (Z.eqb_neq _ _)) by done.
  cbn [marshalBinary]. rewrite Hd.
  change (enc_fields (bin_fields A) (to_vals data)) with (enc data).
  rewrite dma_alloc_aligned; [done|done|]. unfold zlen. rewrite enc_length by done. lia.
Qed.

(** Off a word the struct no longer fits its region, which has exactly its size. *)
Lemma encode_unaligned `{!DmaLaws} data addr w :
  ~ dma_aligned addr -> addr <> 0 -> bin_ok data -> (0 < bin_size A)%nat ->
  dma_NewRegion addr (Z.of_nat (bin_size A)) false = None ->
  exists p, encode data addr w = (Panic p, w).
Proof.
  intros Hal Ha Hok Hs Hd. unfold encode. rewrite (proj2 (Z.eqb_neq _ _)) by done.
  cbn [marshalBinary]. change (enc_fields (bin_fields A) (to_vals data)) with (enc data).
  assert (zlen (enc data) = Z.of_nat (bin_size A)) as El by (unfold zlen; by rewrite enc_length).
  rewrite El, Hd. pose proof (dma_pad_unaligned addr Hal).
  destruct (dma_alloc_full addr (Z.of_nat (bin_size A)) (enc data) (w_mem w)) as [p ->]; [lia..|].
  by exists p.
Qed.

(** [decode]'s region has a few bytes more: where they suffice, the struct is read from
    the next word instead. *)
Lemma decode_unaligned `{!DmaLaws} data addr w :
  ~ dma_aligned addr -> addr <> 0 -> bin_ok data -> (0 < bin_size A)%nat ->
  (forall n, dma_NewRegion addr n false = None) ->
  if decide (dma_pad addr <= Z.of_nat (bin_size A) mod align)
  then decode data addr w =
    (Ret (unmarshalBinary (load_bytes (w_mem w) (addr + dma_pad addr) (bin_size A)) data), w)
  else exists p, decode data addr w = (Panic p, w).
Proof.
  intros Hal Ha Hok Hs Hd. unfold decode. rewrite (proj2 (Z.eqb_neq _ _)) by done.
  cbn [marshalBinary]. change (enc_fields (bin_fields A) (to_vals data)) with (enc data).
  assert (zlen (enc data) = Z.of_nat (bin_size A)) as El by (unfold zlen; by rewrite enc_length).
  rewrite El, Hd. case_decide.
  - erewrite bind_step by (unfold lift; rewrite dma_reserve_fresh by lia; reflexivity).
    unfold get_bytes, mbind, M_bind. by rewrite enc_length.
  - destruct (dma_reserve_full addr (Z.of_nat (bin_size A) + Z.of_nat (bin_size A) mod align)
      (Z.of_nat (bin_size A))) as [p E]; [lia..|].
    exists p. by erewrite bind_panic by (unfold lift; rewrite E; reflexivity).
Qed.

Lemma unmarshal_stored data v m addr :
  bin_ok v ->
  unmarshalBinary (load_bytes (store_bytes m addr (enc v)) addr (bin_size A)) data = (v, None).
Proof.
  intros Hok. rewrite <-(enc_length v Hok), load_store_same.
  rewrite <-(app_nil_r (enc v)). by apply unmarshal_enc.
Qed.
End Desc.

(** C13. For every struct with a lawful codec and every word address at which the DMA
    package makes a region, [decode] after [encode] returns the value that was encoded;
    both refuse address 0, with memory untouched.  At an address off a word [encode]
    panics: the package aligns its buffer, and the region that [encode] makes has
    exactly the size of the struct; [decode] reads the struct from the next word if its
    region, which has some bytes more, reaches that far, and panics otherwise. *)
Theorem encode_decode_roundtrip `{Machine, !DmaLaws} {A} `{Binary A} (v d : A) addr w :
  addr <> 0 -> bin_ok v -> bin_ok d -> (0 < bin_size A)%nat ->
  (forall n, dma_NewRegion addr n false = None) ->
  (dma_aligned addr ->
   (encode v addr ≫= fun err => decode d addr ≫= fun r => mret (err, r)) w =
     (Ret (None, (v, None)), set_mem (store_bytes (w_mem w) addr (enc v)) w)) /\
  (~ dma_aligned addr -> (exists p, encode v addr w = (Panic p, w)) /\
   if decide (dma_pad addr <= Z.of_nat (bin_size A) mod align)
   then decode d addr w =
     (Ret (unmarshalBinary (load_bytes (w_mem w) (addr + dma_pad addr) (bin_size A)) d), w)
   else exists p, decode d addr w = (Panic p, w)) /\
  encode v 0 w = (Ret (Some (ErrNew "invalid address")), w) /\
  decode d 0 w = (Ret (d, Some (ErrNew "invalid address")), w).
Proof.
  intros Ha Hv Hd Hs Hp. split; [|split; [|done]].
  - intros Hal. erewrite bind_step by by apply encode_step.
    erewrite bind_step by by apply decode_step.
    simpl. by rewrite unmarshal_stored.
  - intros Hal. split; [by apply encode_unaligned|by apply decode_unaligned].
Qed.

(** A firmware that is never called. *)
Definition idle_machine : Machine := machine_with unit (fun _ _ m s => (0, m, s)).
Definition idle_world : World (H := idle_machine) := mkWorld idle_machine ∅ 4096 false [] tt.

(** At a word, and four bytes after it. *)
Lemma encode_decode_roundtrip_witness :
  let v := MemoryDescriptor.mk 7 0x100000 0 256 15 in
  let d := bin_zero MemoryDescriptor.t in
  (encode (H := idle_machine) v 0x8000 ≫= fun err =>
     decode d 0x8000 ≫= fun r => mret (err, r)) idle_world =
    (Ret (None, (v, None)),
     set_mem (H := idle_machine) (store_bytes ∅ 0x8000 (enc v)) idle_world) /\
  exists p, encode (H := idle_machine) v 0x8004 idle_world = (Panic p, idle_world).
Proof.
  intros v d. split.
  - apply (encode_decode_roundtrip (H := idle_machine) v d 0x8000 idle_world);
      [discriminate|vm_compute; repeat split; congruence..|vm_compute; lia|intros n; reflexivity|reflexivity].
  - apply (encode_decode_roundtrip (H := idle_machine) v d 0x8004 idle_world);
      [discriminate|vm_compute; repeat split; congruence..|vm_compute; lia|intros n; reflexivity|].
    vm_compute. discriminate.
Defined.
