(* ===== verification/Console.v ===== *)
(** * Console: the EFI text console of pkg/ueficore/console.go

    Output through EFI_SIMPLE_TEXT_OUTPUT_PROTOCOL, input through
    EFI_SIMPLE_TEXT_INPUT_PROTOCOL, and the early [printk] of x64/console.go. *)

From S2P Require Import Prelude Binary Machine Status Text.

(** EFI ConOut and ConIn offsets. *)
Definition outputString : Z := 0x08.
Definition setMode : Z := 0x20.
Definition setAttribute : Z := 0x28.
Definition clearScreen : Z := 0x30.
Definition readKeyStroke : Z := 0x08.

(** ASCII control characters. *)
Definition null : Z := 0x00.
Definition bs : Z := 0x08.
Definition tab : Z := 0x09.
Definition lf : Z := 0x0a.
Definition cr : Z := 0x0d.
Definition space : Z := 0x20.

(** Cursor back. *)
Definition cub : list Z := [0x1b; 0x5b; 0x44; 0x20; 0x1b; 0x5b; 0x44].

Record Console := mkConsole {
  ForceLine : bool;
  ReplaceTabs : Z;
  In : Z;
  Out : Z;
}.

(** The bytes [Write] builds from the UTF-16 units. *)
Definition write_unit (c : Console) (r : Z) : list Z :=
  if (r =? tab) && (0 <? ReplaceTabs c)
  then concat (replicate (Z.to_nat (ReplaceTabs c)) [space; 0x00])
  else [Z.land r 0xff; Z.shiftr r 8] ++
       (if (r =? lf) && ForceLine c then [cr; 0x00] else []).

(** [Output]'s termination of the buffer, [p[len(p)-1] != null]. *)
Definition terminate (p : list Z) : list Z :=
  if decide (last p = Some null) then p else p ++ [null].

Section Console.
Context `{Machine}.

Definition ClearScreen (c : Console) : M error :=
  if Out c =? 0 then mret None else
  status ← CallService (u64 (Out c + clearScreen)) [Out c];
  mret (Core.parseStatus status).

Definition SetMode (c : Console) (mode : Z) : M error :=
  if Out c =? 0 then mret None else
  status ← CallService (u64 (Out c + setMode)) [Out c; mode];
  mret (Core.parseStatus status).

Definition SetAttribute (c : Console) (attr : Z) : M error :=
  if Out c =? 0 then mret None else
  status ← CallService (u64 (Out c + setAttribute)) [Out c; attr];
  mret (Core.parseStatus status).

(** [k] points to an InputKey: ScanCode at 0, UnicodeChar at 2. *)
Definition Input (c : Console) (k : Z) : M Z :=
  if In c =? 0 then mret 0 else
  p ← ptrval (PtrInputKey k);
  CallService (u64 (In c + readKeyStroke)) [In c; p].

Definition Output (c : Console) (p : list Z) : M Z :=
  match p with
  | [] => gopanic PIndex
  | _ =>
      let p := terminate p in
      if Out c =? 0 then mret 0 else
      addr ← addr_of_bytes p;
      addr ← ptrval (PtrByte addr);
      CallService (u64 (Out c + outputString)) [Out c; addr]
  end.

(** [Read] into the slice of length [len] at [p]; one round of the loop
    advances [n] by two, so [len] rounds are enough. *)
Fixpoint Read_loop (fuel : nat) (c : Console) (p len k n : Z) : M (Z * error) :=
  match fuel with
  | O => lift NoFuel
  | S fuel =>
      if n <? len then
        status ← Input c k;
        if Z.land status 0xff =? Core.EFI_NOT_READY then mret (n, None)
        else if negb (status =? Core.EFI_SUCCESS) then mret (n, Core.parseStatus status)
        else
          scan ← get_bytes k 2;
          if 0 <? le_dec scan then
            (* PutUint16(p[n:], k.ScanCode) *)
            if len - n <? 2 then gopanic PIndex
            else _ ← put_bytes (p + n) (le_enc 2 (le_dec scan));
                 Read_loop fuel c p len k (n + 2)
          else
            (* copy(p[n:], k.UnicodeChar[:]) *)
            char ← get_bytes (k + 2) 2;
            _ ← put_bytes (p + n) (take (Z.to_nat (len - n)) char);
            Read_loop fuel c p len k (n + 2)
      else mret (n, None)
  end.

Definition Read (c : Console) (p len : Z) : M (Z * error) :=
  k ← alloc [0; 0; 0; 0];
  Read_loop (S (Z.to_nat len)) c p len k 0.

(** The named result [n] is never assigned. *)
Definition Write (c : Console) (p : gostring) : M (Z * error) :=
  let n := 0 in
  match p with
  | [] => mret (n, None)
  | _ =>
      let p := if decide (p = cub) then [bs; 0x00] else p in
      let b := utf16_Encode (runes p) in
      let s := concat (map (write_unit c) b) in
      status ← Output c s;
      if negb (status =? Core.EFI_SUCCESS) then mret (n, Core.parseStatus status)
      else mret (n, None)
  end.

(** x64/console.go: before [Init], one byte at a time. *)
Definition printk (Console : Console) (c : Z) : M unit :=
  if Out Console =? 0 then mret tt else
  _ ← Output Console [c];
  if (c =? 0x0a) && ForceLine Console
  then _ ← Output Console [0x0d]; mret tt
  else mret tt.
End Console.

(** ** What is written *)

(** The specification of [Write]'s translation, on runes. *)
Definition expand_rune (c : Console) (r : Z) : list Z :=
  if (r =? tab) && (0 <? ReplaceTabs c) then replicate (Z.to_nat (ReplaceTabs c)) space
  else if (r =? lf) && ForceLine c then [lf; cr] else [r].

Definition expand (c : Console) (rs : list Z) : list Z := concat (map (expand_rune c) rs).

Lemma write_unit_other c r :
  is_word 16 r -> r <> tab -> r <> lf -> write_unit c r = le_enc 2 r.
Proof.
  intros Hw Ht Hl. unfold write_unit. rewrite !(proj2 (Z.eqb_neq _ _)) by done.
  rewrite app_nil_r. by apply unit_bytes.
Qed.

Lemma write_rune c r :
  scalar r ->
  concat (map (write_unit c) (encode16 r)) =
  concat (map (le_enc 2) (utf16_Encode (expand_rune c r))).
Proof.
  intros Hr. pose proof (encode16_word r) as Hw.
  unfold expand_rune, utf16_Encode.
  destruct (Z.eqb_spec r tab) as [->|Ht].
  { destruct (Z.ltb_spec 0 (ReplaceTabs c)) as [Hn|Hn]; cbn [andb].
    - change (encode16 tab) with [tab]. cbn [map concat]. rewrite app_nil_r.
      unfold write_unit. rewrite (proj2 (Z.ltb_lt _ _)) by done. simpl.
      induction (Z.to_nat (ReplaceTabs c)) as [|k IH]; [done|]. simpl. by rewrite <-IH.
    - change (tab =? lf) with false. cbn [andb map concat]. rewrite !app_nil_r.
      change (encode16 tab) with [tab]. cbn [map concat]. rewrite !app_nil_r.
      unfold write_unit. by rewrite (proj2 (Z.ltb_ge _ _)) by done. }
  destruct (Z.eqb_spec r lf) as [->|Hl].
  { change (encode16 lf) with [lf]. cbn [andb map concat]. rewrite app_nil_r.
    unfold write_unit. by destruct (ForceLine c). }
  cbn [andb map concat]. rewrite app_nil_r. f_equal. apply map_ext_in. intros u Hu.
  assert (is_word 16 u) as Hu16 by by eapply Forall_forall; [|apply list_elem_of_In].
  unfold tab, lf in *. unfold scalar in Hr.
  destruct (encode16_cases r Hr) as [[H1 E]|[H1 E]]; rewrite E in Hu; simpl in Hu.
  - destruct Hu as [->|[]]. by apply write_unit_other.
  - apply write_unit_other; [done|..];
      destruct Hu as [<-|[<-|[]]]; unfold tab, lf; Z.div_mod_to_equations; lia.
Qed.

Lemma write_text c rs :
  Forall scalar rs ->
  concat (map (write_unit c) (utf16_Encode rs)) =
  concat (map (le_enc 2) (utf16_Encode (expand c rs))).
Proof.
  induction 1 as [|r rs Hr _ IH]; [done|].
  unfold utf16_Encode, expand in *. cbn [map concat].
  rewrite !map_app, !concat_app, IH, map_app, concat_app. f_equal.
  by apply (write_rune c r).
Qed.

(** ** Output and Write *)

Lemma terminate_nonempty p : terminate p <> [].
Proof.
  unfold terminate. destruct (decide _) as [E|]; [by destruct p|].
  by destruct p.
Qed.

Section Output.
Context `{Machine}.

Lemma Output_step c p w :
  p <> [] -> Out c <> 0 -> w_mux w = false ->
  let r := fw_step (u64 (Out c + outputString)) [Out c; w_brk w]
                   (alloc_world (terminate p) w) in
  Output c p w = (Ret r.1, r.2).
Proof.
  intros Hp Ho Hm r. destruct p as [|b p]; [done|]. unfold Output.
  rewrite (proj2 (Z.eqb_neq _ _)) by done.
  erewrite bind_step by apply addr_of_bytes_step, terminate_nonempty.
  erewrite bind_step by reflexivity.
  by apply CallService_step.
Qed.

Lemma expand_rune_nonempty c r : expand_rune c r <> [].
Proof.
  unfold expand_rune. destruct (Z.eqb_spec r tab); simpl.
  - destruct (Z.ltb_spec 0 (ReplaceTabs c)); simpl; [|by destruct (_ && _)].
    destruct (Z.to_nat (ReplaceTabs c)) eqn:E; [lia|done].
  - by destruct (_ && _).
Qed.

Lemma encode16_nonempty r : encode16 r <> [].
Proof. unfold encode16. by repeat case_match. Qed.

Lemma text_nonempty c rs :
  rs <> [] -> concat (map (le_enc 2) (utf16_Encode (expand c rs))) <> [].
Proof.
  intros Hrs E. destruct rs as [|r rs]; [done|].
  pose proof (expand_rune_nonempty c r) as Hr.
  unfold expand, utf16_Encode in E. cbn [map concat] in E.
  destruct (expand_rune c r) as [|x xs]; [done|]. cbn [app map concat] in E.
  pose proof (encode16_nonempty x). by destruct (encode16 x).
Qed.

Lemma Write_step c rs w :
  Forall scalar rs -> rs <> [] -> utf8 rs <> cub -> Out c <> 0 -> w_mux w = false ->
  let text := concat (map (le_enc 2) (utf16_Encode (expand c rs))) in
  let r := fw_step (u64 (Out c + outputString)) [Out c; w_brk w]
                   (alloc_world (terminate text) w) in
  Write c (utf8 rs) w = (Ret (0, Core.parseStatus r.1), r.2).
Proof.
  intros Hrs Hne Hcub Ho Hm text r.
  unfold Write. destruct (utf8 rs) as [|b s] eqn:E.
  { exfalso. destruct rs as [|x rs]; [done|]. unfold utf8 in E. cbn in E.
    pose proof (encode_rune_nonempty x). destruct (encode_rune x); [simpl in *; lia|done]. }
  rewrite decide_False by done. rewrite <-E, runes_utf8, write_text by done.
  erewrite bind_step by (apply Output_step; auto using text_nonempty).
  fold text r. change Core.EFI_SUCCESS with 0.
  unfold Core.parseStatus. change Core.EFI_SUCCESS with 0.
  by destruct (r.1 =? 0).
Qed.
End Output.

(** ** Expanded texts *)

Lemma expand_scalar c rs : Forall scalar rs -> Forall scalar (expand c rs).
Proof.
  intros H. unfold expand. apply Forall_concat, Forall_map.
  eapply Forall_impl; [apply H|]. intros r Hr. simpl. unfold expand_rune.
  assert (scalar space /\ scalar lf /\ scalar cr) as (? & ? & ?)
    by (unfold scalar, space, lf, cr; lia).
  repeat case_match; [by apply Forall_replicate|..];
    repeat (apply Forall_cons_2; [by auto|]); apply Forall_nil_2.
Qed.

Lemma expand_nonzero c rs :
  Forall (fun r => r <> 0) rs -> Forall (fun r => r <> 0) (expand c rs).
Proof.
  intros H. unfold expand. apply Forall_concat, Forall_map.
  eapply Forall_impl; [apply H|]. intros r Hr. simpl in *. unfold expand_rune.
  repeat case_match; [by apply Forall_replicate|..];
    repeat (apply Forall_cons_2; [by auto|]); apply Forall_nil_2.
Qed.

(** ** Read *)

Section ReadLoop.
Context `{Machine}.

Lemma Input_step c k w :
  w_mux w = false ->
  exists st w', Input c k w = (Ret st, w') /\ w_mux w' = false.
Proof.
  intros Hm. unfold Input. destruct (In c =? 0); [by exists 0, w|].
  erewrite bind_step by reflexivity.
  rewrite CallService_step by done. do 2 eexists. split; [reflexivity|].
  by rewrite fw_step_mux.
Qed.

Ltac next_round :=
  match goal with
  | IH : forall n w, _, He : _ = 2 * ?j |- context [Read_loop _ _ _ _ _ (?n + 2) ?w2] =>
      destruct (IH (n + 2) w2) as (m & err & w' & E & ? & ? & ? & ?);
      [done|lia|exists (j - 1); lia|lia|];
      exists m, err, w'; split; [exact E|]; split; [lia|]; by split
  end.

(** For a slice of even length the loop ends, in bounds. *)
Lemma Read_loop_even fuel c p len k n w :
  w_mux w = false -> 0 <= n <= len -> Z.Even (len - n) -> len - n < Z.of_nat fuel ->
  exists m err w', Read_loop fuel c p len k n w = (Ret (m, err), w') /\
    n <= m <= len /\ Z.Even (len - m) /\ w_mux w' = false /\
    (err = None \/ exists st, err = Some (ErrStatus st (Z.land st 255)) /\ st <> 0).
Proof.
  revert n w. induction fuel as [|fuel IH]; intros n w Hm Hn He Hf; [lia|].
  cbn [Read_loop]. destruct (Z.ltb_spec n len) as [Hlt|Hge].
  2: { exists n, None, w. split; [done|]. split; [lia|]. auto. }
  destruct (Input_step c k w Hm) as (st & w1 & Ei & Hm1).
  erewrite bind_step by exact Ei.
  destruct (Z.land st 255 =? Core.EFI_NOT_READY).
  { exists n, None, w1. split; [done|]. split; [lia|]. auto. }
  change Core.EFI_SUCCESS with 0.
  destruct (Z.eqb_spec st 0) as [->|Hst]; cbn [negb].
  2: { exists n, (Core.parseStatus st), w1. rewrite Core.parseStatus_err by done.
       split; [done|]. split; [lia|]. repeat split; [done..|right; eauto]. }
  erewrite bind_step by reflexivity.
  destruct He as [j Hj].
  destruct (0 <? le_dec (load_bytes (w_mem w1) k 2)).
  - rewrite (proj2 (Z.ltb_ge _ _)) by lia.
    erewrite bind_step by reflexivity. next_round.
  - erewrite bind_step by reflexivity. erewrite bind_step by reflexivity. next_round.
Qed.
End ReadLoop.

(** ** Properties *)

Section Properties.
Context `{Machine}.

(** C21. [Write] of a text calls OutputString once, through the table entry at
    [Out + 8], with the UTF-16 form of the text in which tabs are replaced by
    [ReplaceTabs] spaces (when positive) and, under [ForceLine], line feeds
    are followed by carriage returns: decoding the units that are passed gives
    exactly those runes.  Its error is the status of the call. *)
Theorem Write_correct c rs w :
  Forall scalar rs -> rs <> [] -> utf8 rs <> cub -> Out c <> 0 -> w_mux w = false ->
  exists us,
    utf16_Decode us = expand c rs /\
    let buf := terminate (concat (map (le_enc 2) us)) in
    let r := fw_step (u64 (Out c + 8)) [Out c; w_brk w] (alloc_world buf w) in
    load_bytes (w_mem (alloc_world buf w)) (w_brk w) (length buf) = buf /\
    exists n, Write c (utf8 rs) w = (Ret (n, Core.parseStatus r.1), r.2).
Proof.
  intros Hrs Hne Hcub Ho Hm. exists (utf16_Encode (expand c rs)). split.
  { rewrite <-(app_nil_r (utf16_Encode _)), utf16_Decode_app by by apply expand_scalar.
    apply app_nil_r. }
  intros buf r. split; [apply alloc_world_load|].
  exists 0. by apply Write_step.
Qed.

(** [Write] reports 0 bytes written whatever it wrote, which the io.Writer
    contract only allows together with an error: on success it returns
    [(0, nil)] for a non-empty text. *)
Theorem Write_count c rs w :
  Forall scalar rs -> rs <> [] -> utf8 rs <> cub -> Out c <> 0 -> w_mux w = false ->
  exists err w', Write c (utf8 rs) w = (Ret (0, err), w') /\ w_mux w' = false /\
    (err = None <->
     (fw_step (u64 (Out c + 8)) [Out c; w_brk w]
        (alloc_world (terminate (concat (map (le_enc 2) (utf16_Encode (expand c rs))))) w)).1
     = 0).
Proof.
  intros Hrs Hne Hcub Ho Hm. do 2 eexists. split; [by apply Write_step|].
  split; [by rewrite fw_step_mux|apply Core.parseStatus_nil].
Qed.

(** [Read] into a slice of even length returns, without panicking, an even
    number of bytes within the slice, and leaves the firmware mutex free,
    whatever the firmware answers; its error, if any, carries a failing
    status. *)
Theorem Read_bounds c p len w :
  0 <= len -> Z.Even len -> w_mux w = false ->
  exists n err w', Read c p len w = (Ret (n, err), w') /\
    0 <= n <= len /\ Z.Even (len - n) /\ w_mux w' = false /\
    (err = None \/ exists st, err = Some (ErrStatus st (Z.land st 255)) /\ st <> 0).
Proof.
  intros Hl He Hm. unfold Read. erewrite bind_step by reflexivity.
  apply Read_loop_even; [done|lia|by rewrite Z.sub_0_r|lia].
Qed.
End Properties.

(** The buffer [Output] hands to OutputString never holds the 16-bit NUL
    that ends the string for the firmware: for a text without NUL runes, no
    aligned pair of bytes within the buffer is zero, since at most one single
    zero byte is appended. *)
Theorem Output_unterminated c rs i :
  Forall scalar rs -> Forall (fun r => r <> 0) rs ->
  let buf := terminate (concat (map (write_unit c) (utf16_Encode rs))) in
  (2 * i + 1 < length buf)%nat -> le_dec (sub (2 * i) 2 buf) <> 0.
Proof.
  intros Hs Hn buf Hi. unfold buf in *. rewrite write_text in * by done.
  set (us := utf16_Encode (expand c rs)) in *.
  assert (exists z, terminate (concat (map (le_enc 2) us)) =
                    concat (map (le_enc 2) us) ++ z /\ (length z <= 1)%nat) as (z & E & Hz).
  { unfold terminate. case_decide; [exists []|exists [null]]; rewrite ?app_nil_r; split; simpl; auto; lia. }
  rewrite E, length_app, length_units in *.
  rewrite sub_app_l by (rewrite length_units; lia).
  destruct (lookup_lt_is_Some_2 us i ltac:(lia)) as [u Hu].
  rewrite (sub_units us i u Hu).
  rewrite le_dec_enc_word.
  - assert (Forall (fun u => u <> 0) us) as Hnz
      by (apply units_nonzero; auto using expand_scalar, expand_nonzero).
    by eapply Forall_lookup_1 in Hnz.
  - eapply Forall_lookup_1; [apply utf16_Encode_word|exact Hu].
Qed.

(** ** A console that accepts every string *)

Definition quiet_machine : Machine := machine_with unit (fun _ _ m s => (0, m, s)).
Definition quiet_world : World (H := quiet_machine) := mkWorld quiet_machine ∅ 4096 false [] tt.
Definition demo_console : Console := mkConsole true 8 0x1000 0x2000.

Ltac demo_text :=
  first [ apply (bool_decide_unpack _); vm_compute; exact I | discriminate | reflexivity ].

Lemma Write_correct_witness :
  exists us, utf16_Decode us = expand demo_console [0x48; 9; 10] /\
    let buf := terminate (concat (map (le_enc 2) us)) in
    let r := fw_step (u64 (Out demo_console + 8)) [Out demo_console; w_brk quiet_world]
               (alloc_world buf quiet_world) in
    load_bytes (w_mem (alloc_world buf quiet_world)) (w_brk quiet_world) (length buf) = buf /\
    exists n, Write demo_console (utf8 [0x48; 9; 10]) quiet_world =
              (Ret (n, Core.parseStatus r.1), r.2).
Proof. apply (Write_correct demo_console [0x48; 9; 10] quiet_world); demo_text. Defined.

Lemma Write_count_witness :
  exists err w', Write demo_console (utf8 [0x48; 0x69]) quiet_world = (Ret (0, err), w') /\
    w_mux w' = false /\
    (err = None <->
     (fw_step (u64 (Out demo_console + 8)) [Out demo_console; w_brk quiet_world]
        (alloc_world (terminate (concat (map (le_enc 2)
           (utf16_Encode (expand demo_console [0x48; 0x69]))))) quiet_world)).1 = 0).
Proof. apply (Write_count demo_console [0x48; 0x69] quiet_world); demo_text. Defined.

Lemma Read_bounds_witness :
  exists n err w', Read demo_console 0x3000 4 quiet_world = (Ret (n, err), w') /\
    0 <= n <= 4 /\ Z.Even (4 - n) /\ w_mux w' = false /\
    (err = None \/ exists st, err = Some (ErrStatus st (Z.land st 255)) /\ st <> 0).
Proof.
  apply (Read_bounds demo_console 0x3000 4 quiet_world); [lia|by exists 2|reflexivity].
Defined.

Lemma Output_unterminated_witness :
  let buf := terminate (concat (map (write_unit demo_console) (utf16_Encode [0x41; 0x42]))) in
  (2 * 1 + 1 < length buf)%nat /\ le_dec (sub (2 * 1) 2 buf) <> 0.
Proof.
  split; [vm_compute; lia|].
  apply (Output_unterminated demo_console [0x41; 0x42] 1); [demo_text..|vm_compute; lia].
Defined.
