(* ===== verification/Boot.v ===== *)
(** * Boot: the services instance and the calls through its tables

    uefi.go ([Services]), protocol.go, pages.go, wdog.go, exit.go ([Exit]),
    reset.go, graphics.go and config.go of pkg/ueficore.  Every operation puts
    its result slots on the Go heap, calls the service through the table entry
    and reads the slots back.  A firmware with a handle database
    refuses a lookup with one of the errors that the specification lists for it. *)

From S2P Require Import Prelude Binary Machine Status Guid Tables Desc Console.
From stdpp Require Import pretty.
Open Scope Z_scope.

(** ** Constants *)

Definition signature : Z := 0x5453595320494249.

Definition handleProtocol : Z := 0x098.
Definition locateProtocol : Z := 0x140.
Definition allocatePages : Z := 0x28.
Definition freePages : Z := 0x30.
Definition setWatchdogTimer : Z := 0x100.
Definition watchdogCode : Z := 0xba3e5e7a1.
Definition exit : Z := 0xd8.
Definition exitBootServices : Z := 0xe8.
Definition getTime : Z := 0x18.
Definition setTime : Z := 0x20.
Definition getVariable : Z := 0x48.
Definition getNextVariable : Z := 0x50.
Definition setVariable : Z := 0x58.
Definition getNextHighMonotonicCount : Z := 0x60.
Definition resetSystem : Z := 0x68.
Definition querVariableInfo : Z := 0x80.
Definition blt : Z := 0x10.

Definition PageSize : Z := 4096.

Definition AllocateAddress : Z := 2.

Definition EfiLoaderCode : Z := 1.
Definition EfiLoaderData : Z := 2.
Definition EfiBootServicesCode : Z := 3.
Definition EfiBootServicesData : Z := 4.
Definition EfiConventionalMemory : Z := 7.
Definition EfiACPIReclaimMemory : Z := 9.
Definition EfiACPIMemoryNVS : Z := 10.
Definition EfiPersistentMemory : Z := 14.

Definition EfiResetCold : Z := 0.
Definition EfiResetShutdown : Z := 2.

Definition EFI_GRAPHICS_OUTPUT_PROTOCOL_GUID : gostring :=
  bytes_of_string "9042a9de-23dc-4a38-96fb-7aded080516a".

(** ** Instances *)

Record BootServices := mkBoot { base : Z; imageHandle : Z }.
Record RuntimeServices := mkRuntime { rt_base : Z }.

(** Nil pointers are [None]. *)
Record Services := mkServices {
  s_SystemTable : option SystemTable.t;
  s_Console : option Console;
  s_Boot : option BootServices;
  s_Runtime : option RuntimeServices;
  s_imageHandle : Z;
  s_systemTable : Z;
}.

Definition Services_zero : Services := mkServices None None None None 0 0.

Record GraphicsOutput := mkGop { gop_base : Z; gop_mode : Z }.

(** [fmt.Sprintf("%d.%d", major, minor)] *)
Definition Revision (d : SystemTable.t) : string :=
  let r := TableHeader.Revision (SystemTable.Header d) in
  let major := Z.shiftr r 16 in
  let minor := Z.land r 0xffff in
  pretty major +:+ "." +:+ pretty minor.

Definition ImageHandle (s : Services) : Z := s_imageHandle s.
Definition Address (s : Services) : Z := s_systemTable s.

Section Boot.
Context `{Machine}.

(** A method that reads a field through a nil receiver. *)
Definition deref {A} (p : option A) : M A :=
  match p with Some a => mret a | None => gopanic PNil end.

Definition guid_ptrval (g : gostring) : M Z :=
  addr ← addr_of_bytes (Bytes g);
  ptrval (PtrByte addr).

(** ** protocol.go *)

Definition HandleProtocol (s : BootServices) (handle : Z) (guid : gostring) :
    M (Z * error) :=
  addr ← alloc64 0;
  g ← guid_ptrval guid;
  p ← ptrval (PtrUint64 addr);
  status ← CallService (u64 (base s + handleProtocol)) [handle; g; p];
  a ← get64 addr;
  mret (a, Core.parseStatus status).

Definition LocateProtocol (s : BootServices) (guid : gostring) : M (Z * error) :=
  addr ← alloc64 0;
  g ← guid_ptrval guid;
  p ← ptrval (PtrUint64 addr);
  status ← CallService (u64 (base s + locateProtocol)) [g; 0; p];
  a ← get64 addr;
  mret (a, Core.parseStatus status).

(** ** pages.go *)

Definition AllocatePages (s : BootServices)
    (allocateType memoryType size physicalAddress : Z) : M error :=
  slot ← alloc64 physicalAddress;
  p ← ptrval (PtrUint64 slot);
  status ← CallService (u64 (base s + allocatePages))
             [u64 allocateType; u64 memoryType; u64 size / PageSize; p];
  mret (Core.parseStatus status).

Definition FreePages (s : BootServices) (physicalAddress size : Z) : M error :=
  status ← CallService (u64 (base s + freePages))
             [physicalAddress; u64 size / PageSize];
  mret (Core.parseStatus status).

(** ** wdog.go, exit.go, reset.go *)

Definition SetWatchdogTimer (s : BootServices) (sec : Z) : M error :=
  status ← CallService (u64 (base s + setWatchdogTimer)) [u64 sec; watchdogCode; 0; 0];
  mret (Core.parseStatus status).

Definition Exit (s : BootServices) (code : Z) : M error :=
  status ← CallService (u64 (base s + exit)) [imageHandle s; u64 code; 0; 0];
  mret (Core.parseStatus status).

Definition ResetSystem (s : RuntimeServices) (resetType : Z) : M error :=
  status ← CallService (u64 (rt_base s + resetSystem))
             [u64 resetType; Core.EFI_SUCCESS; 0; 0];
  mret (Core.parseStatus status).

(** [&x[0]] of a slice that is already in memory. *)
Definition elem0 (ptr len : Z) : M Z :=
  if 0 <? len then mret ptr else gopanic PIndex.

(** The buffer and its size are dropped: the result is always [nil, 0]. *)
Definition GetVariable (s : RuntimeServices) (name name_len guid guid_len : Z) :
    M (list Z * Z * error) :=
  dataSize ← alloc64 0;
  data ← alloc (replicate 16 0);
  n ← elem0 name name_len;
  g ← elem0 guid guid_len;
  status ← CallService (u64 (rt_base s + getVariable)) [n; g; data; dataSize];
  mret ([], 0, Core.parseStatus status).

(** ** graphics.go *)

Definition GetInfo (d : ProtocolMode.t) : M (ModeInformation.t * error) :=
  decode (bin_zero ModeInformation.t) (ProtocolMode.Info d).

Definition GetMode (gop : GraphicsOutput) : M (ProtocolMode.t * error) :=
  decode (bin_zero ProtocolMode.t) (gop_mode gop).

Definition Blt (gop : GraphicsOutput) (buf : list Z)
    (op srcX srcY dstX dstY width height delta : Z) : M error :=
  if gop_base gop =? 0 then mret None else
  b ← addr_of_bytes buf;
  p ← ptrval (PtrByte b);
  status ← CallService (u64 (gop_base gop + blt))
             [gop_base gop; p; u64 op; srcX; srcY; dstX; dstY; width; height; delta];
  mret (Core.parseStatus status).

Definition GetGraphicsOutput (s : BootServices) : M (GraphicsOutput * error) :=
  '(gop_base, err) ← LocateProtocol s EFI_GRAPHICS_OUTPUT_PROTOCOL_GUID;
  match err with
  | Some _ => mret (mkGop gop_base 0, err)
  | None =>
      '(data, err) ← decode (bin_zero GraphicsData.t) gop_base;
      match err with
      | Some _ => mret (mkGop gop_base 0, err)
      | None => mret (mkGop gop_base (GraphicsData.Mode data), None)
      end
  end.

(** ** config.go *)

(** One round per [entrySize] bytes of the table. *)
Fixpoint ConfigurationTables_loop (fuel : nat) (buf : list Z) (i tableSize entrySize : Z)
    (c : list ConfigurationTable.t) : outcome (list ConfigurationTable.t * error) :=
  match fuel with
  | O => NoFuel
  | S fuel =>
      if i <? tableSize then
        if zlen buf <? i + entrySize then Panic PSlice else
        let '(t, err) := unmarshalBinary (sub (Z.to_nat i) (Z.to_nat entrySize) buf)
                           (bin_zero ConfigurationTable.t) in
        match err with
        | Some _ => Ret (c, err)
        | None => ConfigurationTables_loop fuel buf (i + entrySize) tableSize entrySize (c ++ [t])
        end
      else Ret (c, None)
  end.

Definition ConfigurationTables (d : SystemTable.t) :
    M (list ConfigurationTable.t * error) :=
  if (SystemTable.NumberOfTableEntries d =? 0) || (SystemTable.ConfigurationTable d =? 0)
  then mret ([], Some (ErrNew "EFI Configuration Table is invalid")) else
  let entrySize := zlen (enc (bin_zero ConfigurationTable.t)) in
  let tableSize := i64 (entrySize * i64 (SystemTable.NumberOfTableEntries d)) in
  match dma_NewRegion (SystemTable.ConfigurationTable d) tableSize false with
  | Some err => mret ([], Some err)
  | None =>
      addr ← lift (dma_Reserve (SystemTable.ConfigurationTable d, tableSize) tableSize 0);
      buf ← get_bytes addr (Z.to_nat tableSize);
      lift (ConfigurationTables_loop (S (Z.to_nat tableSize)) buf 0 tableSize entrySize [])
  end.

(** ** uefi.go *)

Definition Init (s : Services) (imageHandle systemTable : Z) : M (Services * error) :=
  '(st, err) ← decode (bin_zero SystemTable.t) systemTable;
  let s := mkServices (Some st) (s_Console s) (s_Boot s) (s_Runtime s)
                      imageHandle systemTable in
  match err with
  | Some _ => mret (s, err)
  | None =>
      if negb (TableHeader.Signature (SystemTable.Header st) =? signature)
      then mret (s, Some (ErrNew "EFI System Table pointer is invalid"))
      else
        mret (mkServices (Some st)
                (Some (mkConsole true 8 (SystemTable.ConIn st) (SystemTable.ConOut st)))
                (Some (mkBoot (SystemTable.BootServices st) imageHandle))
                (Some (mkRuntime (SystemTable.RuntimeServices st)))
                imageHandle systemTable, None)
  end.
End Boot.

(** ** Stepping through the calls *)

Section Steps.
Context `{Machine}.

Lemma alloc_world_mux bs w : w_mux (alloc_world bs w) = w_mux w.
Proof. done. Qed.

Lemma alloc_world_fw bs w : w_fw (alloc_world bs w) = w_fw w.
Proof. done. Qed.

Lemma alloc_world_load64 bs w a :
  disjoint_ranges (w_brk w) (length bs) a 8 ->
  load64 (w_mem (alloc_world bs w)) a = load64 (w_mem w) a.
Proof. apply load64_store_other. Qed.

Lemma guid_ptrval_step g w :
  guid_ptrval g w = (Ret (w_brk w), alloc_world (Bytes g) w).
Proof.
  unfold guid_ptrval. pose proof (Bytes_length g).
  erewrite bind_step by (apply addr_of_bytes_step; by destruct (Bytes g)).
  reflexivity.
Qed.

(** The world in which a service that takes a result slot and a GUID is
    called: the slot at the heap frontier, the GUID after it. *)
Definition slot_guid (guid : gostring) (w : World) : World :=
  alloc_world (Bytes guid) (alloc_world (le_enc 8 0) w).

Lemma slot_guid_guid guid w :
  load_bytes (w_mem (slot_guid guid w)) (w_brk w + 8) 16 = Bytes guid.
Proof.
  unfold slot_guid. pose proof (Bytes_length guid) as Hl. rewrite <-Hl at 1.
  apply (alloc_world_load (Bytes guid) (alloc_world (le_enc 8 0) w)).
Qed.

Lemma slot_guid_load64 guid w a :
  disjoint_ranges (w_brk w) 24 a 8 ->
  load64 (w_mem (slot_guid guid w)) a = load64 (w_mem w) a.
Proof.
  intros Hd. unfold slot_guid.
  rewrite !alloc_world_load64; [done|..];
    rewrite ?alloc_world_brk, ?Bytes_length, ?alloc_size_word, ?length_le_enc;
    unfold disjoint_ranges in *; lia.
Qed.

Lemma HandleProtocol_step s handle guid w :
  w_mux w = false ->
  let r := fw_step (u64 (base s + handleProtocol)) [handle; w_brk w + 8; w_brk w]
                   (slot_guid guid w) in
  HandleProtocol s handle guid w =
  (Ret (load64 (w_mem r.2) (w_brk w), Core.parseStatus r.1), r.2).
Proof.
  intros Hm r. unfold HandleProtocol.
  erewrite bind_step by reflexivity. erewrite bind_step by apply guid_ptrval_step.
  erewrite bind_step by reflexivity. by erewrite bind_step by by apply CallService_step.
Qed.

Lemma LocateProtocol_step s guid w :
  w_mux w = false ->
  let r := fw_step (u64 (base s + locateProtocol)) [w_brk w + 8; 0; w_brk w]
                   (slot_guid guid w) in
  LocateProtocol s guid w =
  (Ret (load64 (w_mem r.2) (w_brk w), Core.parseStatus r.1), r.2).
Proof.
  intros Hm r. unfold LocateProtocol.
  erewrite bind_step by reflexivity. erewrite bind_step by apply guid_ptrval_step.
  erewrite bind_step by reflexivity. by erewrite bind_step by by apply CallService_step.
Qed.
End Steps.

(** ** Refusals

    A service that refuses answers with one of its documented errors and leaves the firmware's
    state and all memory but the caller's result slot [out]; what it leaves there is
    the firmware's choice, unless [null] says that it is null or what it was. *)

Record refuses {S : Type} (errors : list efi_status) (null : bool) (out : Z) (m : memory) (s : S)
    (r : Z * memory * S) : Prop := {
  rf_status : exists e, e ∈ errors /\ r.1.1 = Spec.code e;
  rf_memory : forall a n, disjoint_ranges out 8 a n -> load_bytes r.1.2 a n = load_bytes m a n;
  rf_slot : null = true -> load64 r.1.2 out = load64 m out \/ load64 r.1.2 out = 0;
  rf_state : r.2 = s;
}.

(** The error that the Go functions return for a status. *)
Definition status_error (e : efi_status) : error :=
  Some (ErrStatus (Spec.code e) (Z.land (Spec.code e) 255)).

Lemma code_nonzero e : e <> SUCCESS -> Spec.code e <> 0.
Proof. destruct e; [done|vm_compute; congruence..]. Qed.

Lemma parseStatus_code e : e <> SUCCESS -> Core.parseStatus (Spec.code e) = status_error e.
Proof. intros He. by apply Core.parseStatus_err, code_nonzero. Qed.

(** Simplest: memory untouched. *)
Lemma refuses_plain {S} errors null out m (s : S) e : e ∈ errors -> refuses errors null out m s (Spec.code e, m, s).
Proof. intros He. split; eauto. Qed.

(** ** The handle database

    What the UEFI specification promises of HandleProtocol and LocateProtocol,
    as far as the callers rely on it, for a GUID and a result slot that are not null: a
    database from handles and protocol GUIDs to interfaces; on success the interface is
    stored in the caller's slot.  HandleProtocol answers EFI_UNSUPPORTED when the handle
    does not have the protocol and EFI_INVALID_PARAMETER for a bad handle,
    LocateProtocol answers EFI_NOT_FOUND. *)

Definition hp_errors : list efi_status := [UNSUPPORTED; INVALID_PARAMETER].
Definition lp_errors : list efi_status := [NOT_FOUND].

Class HandleDatabase `{Machine} := {
  db_handle : fwstate -> Z -> list Z -> option Z;
  db_locate : fwstate -> list Z -> option Z;
  hp_entry : Z;
  lp_entry : Z;
  db_handle_word : forall s h g a, db_handle s h g = Some a -> is_word 64 a;
  db_locate_word : forall s g a, db_locate s g = Some a -> is_word 64 a;
  hp_contract : forall h g out m s, 0 < g -> 0 < out ->
    match db_handle s h (load_bytes m g 16) with
    | Some a => firmware hp_entry [h; g; out] m s = (0, store64 m out a, s)
    | None => refuses hp_errors true out m s (firmware hp_entry [h; g; out] m s)
    end;
  lp_contract : forall g out m s, 0 < g -> 0 < out ->
    match db_locate s (load_bytes m g 16) with
    | Some a => firmware lp_entry [g; 0; out] m s = (0, store64 m out a, s)
    | None => refuses lp_errors true out m s (firmware lp_entry [g; 0; out] m s)
    end;
}.

(** The result of a lookup as the Go functions return it. *)
Definition protocol_result (errors : list efi_status) (r : option Z) (x : Z * error) : Prop :=
  match r with
  | Some a => x = (a, None)
  | None => exists e, e ∈ errors /\ x = (0, status_error e)
  end.

Section Database.
Context `{HandleDatabase}.

(** The boot services table holds [entry] at [offset], outside the heap cells
    a call allocates. *)
Definition table_entry (s : BootServices) (offset entry : Z) (w : World) : Prop :=
  load64 (w_mem w) (u64 (base s + offset)) = entry /\
  0 < w_brk w /\ disjoint_ranges (w_brk w) 24 (u64 (base s + offset)) 8.

(** Memory below the heap frontier is as before. *)
Definition old_memory_kept (w w' : World) : Prop :=
  forall a n, a + Z.of_nat n <= w_brk w ->
    load_bytes (w_mem w') a n = load_bytes (w_mem w) a n.

Lemma slot_guid_kept guid w : old_memory_kept w (slot_guid guid w).
Proof.
  intros a n Ha. unfold slot_guid. pose proof (alloc_size_ge (length (le_enc 8 0))).
  rewrite alloc_world_other by (rewrite alloc_world_brk; lia).
  by apply alloc_world_other.
Qed.

Lemma slot_unwritten guid w : load64 (w_mem (slot_guid guid w)) (w_brk w) = 0.
Proof.
  unfold slot_guid. rewrite alloc_world_load64.
  - by apply (load64_store64 _ _ 0).
  - right. rewrite alloc_world_brk, alloc_size_word. lia.
Qed.

(** A call that stores [a] in the slot, or refuses. *)
Lemma db_call errors fn args guid w (r : option Z) :
  load64 (w_mem (slot_guid guid w)) fn = load64 (w_mem w) fn ->
  (forall a, r = Some a -> is_word 64 a) -> SUCCESS ∉ errors ->
  (let answer := firmware (load64 (w_mem w) fn) args (w_mem (slot_guid guid w)) (w_fw w) in
   match r with
   | Some a => answer = (0, store64 (w_mem (slot_guid guid w)) (w_brk w) a, w_fw w)
   | None => refuses errors true (w_brk w) (w_mem (slot_guid guid w)) (w_fw w) answer
   end) ->
  let st := fw_step fn args (slot_guid guid w) in
  protocol_result errors r (load64 (w_mem st.2) (w_brk w), Core.parseStatus st.1) /\
  w_fw st.2 = w_fw w /\ old_memory_kept w st.2 /\ w_mux st.2 = w_mux w /\
  w_brk w <= w_brk st.2.
Proof.
  intros Hl Hr Herr Hf st. subst st. unfold fw_step.
  change (w_fw (slot_guid guid w)) with (w_fw w). rewrite Hl.
  assert (w_brk w <= w_brk (slot_guid guid w)) as Hb.
  { unfold slot_guid. rewrite !alloc_world_brk.
    pose proof (alloc_size_ge (length (Bytes guid))).
    pose proof (alloc_size_ge (length (le_enc 8 0))). lia. }
  destruct r as [a|]; cbv zeta in Hf.
  - rewrite Hf. cbn [fst snd w_mem w_fw w_mux w_brk].
    rewrite load64_store64 by auto. split; [done|]. split; [done|].
    split; [|done]. intros b n Hb'. rewrite <-(slot_guid_kept guid w b n Hb').
    apply load_store_other. right. lia.
  - destruct (firmware _ _ _ _) as [[st m] s']. destruct Hf as [(e & He & Hst) Hmem Hslot Hs].
    cbn [fst snd] in *. subst st s'. cbn [w_mem w_fw w_mux w_brk]. split.
    + exists e. split; [done|]. rewrite parseStatus_code by (intros ->; done). f_equal.
      rewrite slot_unwritten in Hslot. destruct (Hslot eq_refl); congruence.
    + split; [done|]. split; [|done]. intros b n Hb'. rewrite <-(slot_guid_kept guid w b n Hb').
      apply Hmem. right. lia.
Qed.

Lemma HandleProtocol_db s handle guid w :
  w_mux w = false -> table_entry s handleProtocol hp_entry w ->
  exists x w', HandleProtocol s handle guid w = (Ret x, w') /\
    protocol_result hp_errors (db_handle (w_fw w) handle (Bytes guid)) x /\
    w_fw w' = w_fw w /\ old_memory_kept w w' /\ w_mux w' = false /\ w_brk w <= w_brk w'.
Proof.
  intros Hm (He & Hpos & Hd). rewrite HandleProtocol_step by done.
  destruct (db_call hp_errors (u64 (base s + handleProtocol)) [handle; w_brk w + 8; w_brk w] guid w
              (db_handle (w_fw w) handle (Bytes guid))) as (E & ? & ? & ? & ?).
  - by apply slot_guid_load64.
  - intros a. apply db_handle_word.
  - by apply (bool_decide_unpack _).
  - cbv zeta. rewrite He, <-(slot_guid_guid guid w). apply hp_contract; lia.
  - eexists _, _. split; [reflexivity|]. rewrite Hm in *. auto.
Qed.

Lemma LocateProtocol_db s guid w :
  w_mux w = false -> table_entry s locateProtocol lp_entry w ->
  exists x w', LocateProtocol s guid w = (Ret x, w') /\
    protocol_result lp_errors (db_locate (w_fw w) (Bytes guid)) x /\
    w_fw w' = w_fw w /\ old_memory_kept w w' /\ w_mux w' = false /\ w_brk w <= w_brk w'.
Proof.
  intros Hm (He & Hpos & Hd). rewrite LocateProtocol_step by done.
  destruct (db_call lp_errors (u64 (base s + locateProtocol)) [w_brk w + 8; 0; w_brk w] guid w
              (db_locate (w_fw w) (Bytes guid))) as (E & ? & ? & ? & ?).
  - by apply slot_guid_load64.
  - intros a. apply db_locate_word.
  - by apply (bool_decide_unpack _).
  - cbv zeta. rewrite He, <-(slot_guid_guid guid w). apply lp_contract; lia.
  - eexists _, _. split; [reflexivity|]. rewrite Hm in *. auto.
Qed.
End Database.

(** ** The configuration table *)

Section Config.
Context `{Machine, !DmaLaws}.

Abbreviation CT := ConfigurationTable.t.

Definition encs (l : list CT) : list Z := concat (map enc l).

Lemma ct_size : bin_size CT = 24%nat.
Proof. reflexivity. Qed.

Lemma encs_length l : Forall bin_ok l -> length (encs l) = (24 * length l)%nat.
Proof.
  induction 1 as [|t l Ht _ IH]; [done|]. unfold encs in *. cbn [map concat length].
  rewrite length_app, IH, (enc_length t Ht), ct_size. lia.
Qed.

Lemma encs_sub pre t post :
  Forall bin_ok pre -> bin_ok t ->
  sub (24 * length pre) 24 (encs (pre ++ t :: post)) = enc t.
Proof.
  intros Hp Ht. unfold encs. rewrite map_app, concat_app. cbn [map concat].
  apply sub_app_exact; [by rewrite <-encs_length|by rewrite (enc_length t Ht)].
Qed.

Lemma ConfigurationTables_loop_ok fuel l post :
  Forall bin_ok (l ++ post) -> (length post < fuel)%nat ->
  ConfigurationTables_loop fuel (encs (l ++ post)) (24 * zlen l) (24 * zlen (l ++ post)) 24 l
  = Ret (l ++ post, None).
Proof.
  revert l post. induction fuel as [|fuel IH]; intros l post Hok Hf; [lia|].
  cbn [ConfigurationTables_loop]. rewrite zlen_app. destruct post as [|t post].
  { rewrite (proj2 (Z.ltb_ge _ _)) by (unfold zlen; simpl; lia). by rewrite app_nil_r. }
  pose proof (zlen_nonneg post). pose proof (zlen_nonneg l).
  apply Forall_app in Hok as Hok'. destruct Hok' as [Hl [Ht _]%Forall_cons].
  rewrite zlen_cons, (proj2 (Z.ltb_lt _ _)) by lia.
  rewrite (proj2 (Z.ltb_ge _ _)).
  2: { unfold zlen in *. rewrite encs_length, length_app by done. simpl. lia. }
  replace (Z.to_nat (24 * zlen l)) with (24 * length l)%nat by (unfold zlen; lia).
  change (Z.to_nat 24) with 24%nat. rewrite encs_sub by done.
  rewrite <-(app_nil_r (enc t)), unmarshal_enc by done.
  replace (24 * zlen l + 24) with (24 * zlen (l ++ [t])).
  2: { rewrite zlen_app. unfold zlen. simpl. lia. }
  rewrite (app_assoc l [t] post : l ++ t :: post = _) in *.
  replace (24 * (zlen l + (1 + zlen post))) with (24 * zlen ((l ++ [t]) ++ post)).
  2: { rewrite !zlen_app. unfold zlen. simpl. lia. }
  apply IH; [done|]. simpl in Hf. lia.
Qed.
End Config.

(** ** Properties *)

(** C12. [HandleProtocol] and [LocateProtocol] refine the handle database: on a
    firmware that keeps one and for any text as GUID, the result is what the
    database holds for the GUID's 16 bytes.  When it holds nothing, [HandleProtocol]
    returns the error EFI_UNSUPPORTED, or EFI_INVALID_PARAMETER for a bad handle, and
    [LocateProtocol] the error EFI_NOT_FOUND, both with a null interface.  Memory below the
    heap frontier and the firmware's state are unchanged. *)
Theorem protocols_refine `{HandleDatabase} s handle guid w :
  w_mux w = false ->
  table_entry s handleProtocol hp_entry w -> table_entry s locateProtocol lp_entry w ->
  (exists x w', HandleProtocol s handle guid w = (Ret x, w') /\
     protocol_result [UNSUPPORTED; INVALID_PARAMETER] (db_handle (w_fw w) handle (Bytes guid)) x /\
     w_fw w' = w_fw w /\ old_memory_kept w w' /\ w_mux w' = false) /\
  (exists x w', LocateProtocol s guid w = (Ret x, w') /\
     protocol_result [NOT_FOUND] (db_locate (w_fw w) (Bytes guid)) x /\
     w_fw w' = w_fw w /\ old_memory_kept w w' /\ w_mux w' = false).
Proof.
  intros Hm Hh Hl. split.
  - destruct (HandleProtocol_db s handle guid w Hm Hh) as (x & w' & ? & ? & ? & ? & ? & _). eauto 10.
  - destruct (LocateProtocol_db s guid w Hm Hl) as (x & w' & ? & ? & ? & ? & ? & _). eauto 10.
Qed.

(** [ConfigurationTables] returns exactly the entries the firmware's table
    holds, in order, for any non-empty table of consistent size; an empty or
    null table is an error.  Memory is not changed. *)
Theorem ConfigurationTables_correct `{Machine, !DmaLaws} d l w :
  Forall bin_ok l -> l <> [] -> 24 * zlen l < 2 ^ 63 ->
  SystemTable.NumberOfTableEntries d = zlen l ->
  SystemTable.ConfigurationTable d <> 0 ->
  dma_permits (SystemTable.ConfigurationTable d) ->
  load_bytes (w_mem w) (SystemTable.ConfigurationTable d) (24 * length l) = encs l ->
  ConfigurationTables d w = (Ret (l, None), w) /\
  forall d0, SystemTable.NumberOfTableEntries d0 = 0 \/ SystemTable.ConfigurationTable d0 = 0 ->
    ConfigurationTables d0 w =
    (Ret ([], Some (ErrNew "EFI Configuration Table is invalid")), w).
Proof.
  intros Hok Hne Hsz Hn Ha [Hal Hr] Hmem. split.
  2: { intros d0 [E|E]; unfold ConfigurationTables; rewrite E; [done|].
       by rewrite Bool.orb_true_r. }
  assert (0 < zlen l) as Hl by (destruct l; [done|unfold zlen; simpl; lia]).
  unfold ConfigurationTables. rewrite Hn, !(proj2 (Z.eqb_neq _ _)) by lia. cbn [orb].
  change (zlen (enc (bin_zero ConfigurationTable.t))) with 24.
  rewrite (swrap_small 64 (zlen l)), swrap_small by (change (2 ^ (64 - 1)) with (2 ^ 63); lia).
  rewrite Hr.
  erewrite bind_step by (unfold lift; by rewrite dma_reserve_aligned by (done || lia)).
  erewrite bind_step by reflexivity.
  replace (Z.to_nat (24 * zlen l)) with (24 * length l)%nat by (unfold zlen; lia).
  rewrite Hmem. unfold lift.
  pose proof (ConfigurationTables_loop_ok (S (24 * length l)) [] l Hok) as E.
  cbn [app] in E. change (24 * zlen []) with 0 in E. rewrite E by lia. done.
Qed.

(** [Services.Init] succeeds exactly when the system table is readable and
    carries the signature: it then sets the console, boot and runtime services
    from the table's pointers; otherwise it reports why and leaves these three
    as they were (nil on a fresh instance). *)
Theorem Init_correct `{Machine, !DmaLaws} s st handle addr w :
  bin_ok st -> dma_permits addr ->
  load_bytes (w_mem w) addr 120 = enc st ->
  exists s' err, Init s handle addr w = (Ret (s', err), w) /\
    ImageHandle s' = handle /\ Address s' = addr /\
    (err = None <-> addr <> 0 /\ TableHeader.Signature (SystemTable.Header st) = signature) /\
    (err = None ->
       s_SystemTable s' = Some st /\
       s_Console s' = Some (mkConsole true 8 (SystemTable.ConIn st) (SystemTable.ConOut st)) /\
       s_Boot s' = Some (mkBoot (SystemTable.BootServices st) handle) /\
       s_Runtime s' = Some (mkRuntime (SystemTable.RuntimeServices st))) /\
    (err <> None ->
       s_Console s' = s_Console s /\ s_Boot s' = s_Boot s /\ s_Runtime s' = s_Runtime s).
Proof.
  intros Hok Hd Hmem. unfold Init. destruct (decide (addr = 0)) as [->|Ha].
  { erewrite bind_step by apply decode_zero. do 2 eexists. split; [reflexivity|].
    split_and!; try done. split; [done|]. by intros []. }
  erewrite bind_step by (apply decode_step; [done| |vm_compute; lia|done];
                         vm_compute; repeat split; congruence).
  change (bin_size SystemTable.t) with 120%nat. rewrite Hmem.
  rewrite <-(app_nil_r (enc st)), unmarshal_enc by done.
  destruct (Z.eqb_spec (TableHeader.Signature (SystemTable.Header st)) signature) as [Hs|Hs];
    do 2 eexists; (split; [reflexivity|]); split_and!; try done.
  split; [done|]. by intros [_ ?].
Qed.

(** ** Concrete firmware *)

(** A firmware with the given protocols; its entry points are 0x9001 and
    0x9002. *)
Definition db_firmware (dbh : Z -> list Z -> option Z) (dbl : list Z -> option Z)
    (fn : Z) (args : list Z) (m : memory) (s : unit) : Z * memory * unit :=
  let answer e r out := match r with
                        | Some a => (0, store64 m out a, s)
                        | None => (Spec.code e, m, s)
                        end in
  match args with
  | [x; y; out] =>
      if fn =? 0x9001 then answer UNSUPPORTED (dbh x (load_bytes m y 16)) out
      else if fn =? 0x9002 then answer NOT_FOUND (dbl (load_bytes m x 16)) out
      else (Spec.code UNSUPPORTED, m, s)
  | _ => (Spec.code UNSUPPORTED, m, s)
  end.

(** One device handle, 7, with one protocol, also the only one located. *)
Definition demo_guid : gostring := EFI_GRAPHICS_OUTPUT_PROTOCOL_GUID.

Definition demo_handle (h : Z) (g : list Z) : option Z :=
  if decide (h = 7 /\ g = Bytes demo_guid) then Some 0x4000 else None.
Definition demo_locate (g : list Z) : option Z :=
  if decide (g = Bytes demo_guid) then Some 0x4000 else None.

Definition demo_machine : Machine := machine_with unit (db_firmware demo_handle demo_locate).

#[refine] Instance demo_database : HandleDatabase (H := demo_machine) := {
  db_handle _ := demo_handle;
  db_locate _ := demo_locate;
  hp_entry := 0x9001;
  lp_entry := 0x9002;
}.
Proof.
  - intros _ h g a. unfold demo_handle. case_decide; [intros [= <-]|done]. split; [done|reflexivity].
  - intros _ g a. unfold demo_locate. case_decide; [intros [= <-]|done]. split; [done|reflexivity].
  - intros h g out m s _ _. cbn. destruct (demo_handle _ _); [done|].
    apply (refuses_plain _ _ _ _ _ UNSUPPORTED). left.
  - intros g out m s _ _. cbn. destruct (demo_locate _); [done|].
    apply (refuses_plain _ _ _ _ _ NOT_FOUND). left.
Defined.

Definition demo_boot : BootServices := mkBoot 0x7000 1.

Definition demo_world : World (H := demo_machine) :=
  mkWorld demo_machine (store64 (store64 ∅ 0x7098 0x9001) 0x7140 0x9002) 0x10000 false [] tt.

(** Handle 8 has no protocol. *)
Lemma protocols_refine_witness :
  demo_handle 8 (Bytes demo_guid) = None /\
  (exists x w', HandleProtocol demo_boot 8 demo_guid demo_world = (Ret x, w') /\
     protocol_result [UNSUPPORTED; INVALID_PARAMETER] (demo_handle 8 (Bytes demo_guid)) x /\
     w_fw w' = w_fw demo_world /\ old_memory_kept demo_world w' /\ w_mux w' = false) /\
  (exists x w', LocateProtocol demo_boot demo_guid demo_world = (Ret x, w') /\
     protocol_result [NOT_FOUND] (demo_locate (Bytes demo_guid)) x /\
     w_fw w' = w_fw demo_world /\ old_memory_kept demo_world w' /\ w_mux w' = false).
Proof.
  split; [vm_compute; reflexivity|].
  apply (protocols_refine (H := demo_machine) (H0 := demo_database) demo_boot 8 demo_guid demo_world);
    [reflexivity|split; [vm_compute; reflexivity|split; [reflexivity|right; vm_compute; discriminate]]..].
Defined.

Definition demo_tables : list ConfigurationTable.t :=
  [ ConfigurationTable.mk (Bytes demo_guid) 0x1234; ConfigurationTable.mk (replicate 16 0) 0x5678 ].

Definition demo_system_table : SystemTable.t :=
  SystemTable.mk (TableHeader.mk signature 0x20000 120 0 0)
    0 0 0 0x1000 0 0x2000 0 0 0x6000 0x7000 2 0x8000.

Definition table_world : World (H := quiet_machine) :=
  mkWorld quiet_machine
    (store_bytes (store_bytes ∅ 0x8000 (encs demo_tables)) 0x5000 (enc demo_system_table))
    0x10000 false [] tt.

Lemma demo_tables_ok : Forall bin_ok demo_tables.
Proof.
  repeat apply Forall_cons_2; [..|apply Forall_nil_2];
    (split; [|split; [split; vm_compute; congruence|done]]);
    (split; [reflexivity|]); apply (bool_decide_unpack _); vm_compute; exact I.
Defined.

Lemma ConfigurationTables_correct_witness :
  ConfigurationTables demo_system_table table_world = (Ret (demo_tables, None), table_world) /\
  forall d0, SystemTable.NumberOfTableEntries d0 = 0 \/ SystemTable.ConfigurationTable d0 = 0 ->
    ConfigurationTables d0 table_world =
    (Ret ([], Some (ErrNew "EFI Configuration Table is invalid")), table_world).
Proof.
  apply (ConfigurationTables_correct (H := quiet_machine)
           (H0 := machine_with_dma _ _) demo_system_table demo_tables table_world).
  - exact demo_tables_ok.
  - discriminate.
  - reflexivity.
  - reflexivity.
  - discriminate.
  - split; [reflexivity|intros n; reflexivity].
  - vm_compute. reflexivity.
Defined.

Lemma Init_correct_witness :
  exists s' err, Init Services_zero 42 0x5000 table_world = (Ret (s', err), table_world) /\
    ImageHandle s' = 42 /\ Address s' = 0x5000 /\
    (err = None <-> 0x5000 <> 0 /\
       TableHeader.Signature (SystemTable.Header demo_system_table) = signature) /\
    (err = None ->
       s_SystemTable s' = Some demo_system_table /\
       s_Console s' = Some (mkConsole true 8 (SystemTable.ConIn demo_system_table)
                                      (SystemTable.ConOut demo_system_table)) /\
       s_Boot s' = Some (mkBoot (SystemTable.BootServices demo_system_table) 42) /\
       s_Runtime s' = Some (mkRuntime (SystemTable.RuntimeServices demo_system_table))) /\
    (err <> None ->
       s_Console s' = s_Console Services_zero /\ s_Boot s' = s_Boot Services_zero /\
       s_Runtime s' = s_Runtime Services_zero).
Proof.
  apply (Init_correct (H := quiet_machine) (H0 := machine_with_dma _ _)
           Services_zero demo_system_table 42 0x5000 table_world).
  - vm_compute. repeat split; congruence.
  - split; [reflexivity|intros n; reflexivity].
  - vm_compute. reflexivity.
Defined.
