(* ===== verification/MemMap.v ===== *)
(** * MemMap: the EFI memory map

    pkg/ueficore/mem.go: memory descriptors, their conversion to an x86 E820
    map, and [GetMemoryMap]; [ExitBootServices] of exit.go, which needs the
    map's key. *)

From S2P Require Import Prelude Binary Machine Status Tables Desc Boot.

Definition getMemoryMap : Z := 0x38.
Definition maxEntries : Z := 1000.
Definition AddressRangePersistentMemory : Z := 7.

Abbreviation MD := MemoryDescriptor.t.

(** The u-root package [bzimage] is not part of the repository: its memory type
    constants are parameters, and of its E820Entry only the three fields the
    code sets are known. *)
Class Bzimage := { RAM : Z; ACPI : Z; NVS : Z; Reserved : Z }.

Record E820Entry := mkE820 { Addr : Z; Size : Z; MemType : Z }.

#[export] Instance E820Entry_eq_dec : EqDecision E820Entry.
Proof. solve_decision. Defined.

(** ** Descriptors *)

Definition PhysicalEnd (d : MD) : Z :=
  u64 (MemoryDescriptor.PhysicalStart d + u64 (MemoryDescriptor.NumberOfPages d * PageSize)).

Definition Desc_Size (d : MD) : Z := i64 (u64 (MemoryDescriptor.NumberOfPages d * PageSize)).

Section E820.
Context `{Bzimage}.

Definition Desc_E820 (d : MD) : E820Entry :=
  let t := MemoryDescriptor.Type_ d in
  mkE820 (MemoryDescriptor.PhysicalStart d)
         (u64 (MemoryDescriptor.NumberOfPages d * PageSize))
         (if decide (t ∈ [EfiLoaderCode; EfiLoaderData; EfiBootServicesCode;
                          EfiBootServicesData; EfiConventionalMemory]) then RAM
          else if t =? EfiPersistentMemory then AddressRangePersistentMemory
          else if t =? EfiACPIReclaimMemory then ACPI
          else if t =? EfiACPIMemoryNVS then NVS
          else Reserved).

(** [runtime.MemRegion()] of the tamago runtime. *)
Variables ramStart ramEnd : Z.

Definition entry_end (e : E820Entry) : Z := u64 (Addr e + Size e).

Definition joins (prev entry : E820Entry) : bool :=
  (negb (Addr entry =? ramStart) && negb (entry_end prev =? ramEnd)) &&
  ((MemType prev =? MemType entry) && (entry_end prev =? Addr entry)).

Definition grow (n : Z) (e : E820Entry) : E820Entry :=
  mkE820 (Addr e) (u64 (Size e + n)) (MemType e).

(** The loop body.  [prev] points to the current entry or to the last element
    of the slice, which is then given its new size through the slice; either
    way it holds what the last element holds when it is next read. *)
Definition E820_step (st : list E820Entry * option E820Entry) (desc : MD) :
    list E820Entry * option E820Entry :=
  let '(e820, prev) := st in
  let entry := Desc_E820 desc in
  match prev with
  | Some p =>
      if joins p entry then
        let e820 := alter (grow (Size entry)) (pred (length e820)) e820 in
        (e820, last e820)
      else (e820 ++ [entry], Some entry)
  | None => (e820 ++ [entry], Some entry)
  end.

Definition E820 (descs : list MD) : list E820Entry :=
  fst (foldl E820_step ([], None) descs).
End E820.

(** ** GetMemoryMap and ExitBootServices *)

Record MemoryMap := mkMap {
  MapSize : Z;
  Descriptors : list MD;
  MapKey : Z;
  DescriptorSize : Z;
  DescriptorVersion : Z;
  buf : Z;                 (* address of the buffer's first byte *)
}.

(** [marshalBinary] of a zero descriptor: the step of the loop. *)
Definition md_len : Z := zlen (enc (bin_zero MD)).

(** The descriptors at [i], [i+n], ... of the buffer.  A round without error
    consumes [n] bytes of it, so one round more than it holds is enough. *)
Fixpoint descriptors_loop (fuel : nat) (b : list Z) (i size n : Z) (ds : list MD) :
    outcome (list MD * error) :=
  match fuel with
  | O => NoFuel
  | S fuel =>
      if i <? size then
        if zlen b <? i then Panic PSlice else
        let '(d, err) := unmarshalBinary (drop (Z.to_nat i) b) (bin_zero MD) in
        match err with
        | Some _ => Ret (ds, err)
        | None => descriptors_loop fuel b (i + n) size n (ds ++ [d])
        end
      else Ret (ds, None)
  end.

Section GetMemoryMap.
Context `{Machine}.

(** The MemoryMap struct the firmware fills: MapSize at 0, MapKey at 32,
    DescriptorSize at 40, DescriptorVersion at 48. *)
Definition GetMemoryMap (s : BootServices) : M (MemoryMap * error) :=
  let n := md_len in
  m ← alloc (le_enc 8 (n * maxEntries) ++ replicate 32 0 ++ le_enc 8 n ++ replicate 32 0);
  b ← alloc (replicate (Z.to_nat (n * maxEntries)) 0);
  p0 ← ptrval (PtrUint64 m);
  p1 ← ptrval (PtrByte b);
  p2 ← ptrval (PtrUint64 (m + 32));
  p3 ← ptrval (PtrUint64 (m + 40));
  p4 ← ptrval (PtrUint32 (m + 48));
  status ← CallService (u64 (base s + getMemoryMap)) [p0; p1; p2; p3; p4];
  size ← get64 m;
  key ← get64 (m + 32);
  dsize ← get64 (m + 40);
  dver ← get32 (m + 48);
  match Core.parseStatus status with
  | Some err => mret (mkMap size [] key dsize dver b, Some err)
  | None =>
      bytes ← get_bytes b (Z.to_nat (n * maxEntries));
      '(ds, err) ← lift (descriptors_loop (S (S (Z.to_nat maxEntries))) bytes 0 (i64 size) n []);
      mret (mkMap size ds key dsize dver b, err)
  end.

(** [MemoryMap.Address]: the buffer is never empty. *)
Definition Map_Address (m : MemoryMap) : M Z := ptrval (PtrByte (buf m)).

Definition ExitBootServices (s : BootServices) : M (MemoryMap * error) :=
  '(memoryMap, err) ← GetMemoryMap s;
  match err with
  | Some _ => mret (memoryMap, err)
  | None =>
      status ← CallService (u64 (base s + exitBootServices))
                 [imageHandle s; MapKey memoryMap];
      mret (memoryMap, Core.parseStatus status)
  end.
End GetMemoryMap.

(** ** Joining entries *)

Section Merge.
Context `{Bzimage}.
Variables ramStart ramEnd : Z.

#[local] Abbreviation step := (E820_step ramStart ramEnd).
#[local] Abbreviation run := (foldl step).
#[local] Abbreviation e820 := (E820 ramStart ramEnd).

(** What an entry says of each byte it covers. *)
Definition covered (e : E820Entry) : list (Z * Z) :=
  map (fun a => (a, MemType e)) (seqZ (Addr e) (Size e)).
Definition flat (l : list E820Entry) : list (Z * Z) := concat (map covered l).

Lemma flat_app l k : flat (l ++ k) = flat l ++ flat k.
Proof. unfold flat. by rewrite map_app, concat_app. Qed.

Lemma flat_snoc l e : flat (l ++ [e]) = flat l ++ covered e.
Proof. rewrite flat_app. unfold flat. simpl. by rewrite app_nil_r. Qed.

Lemma alter_last (f : E820Entry -> E820Entry) l p :
  alter f (pred (length (l ++ [p]))) (l ++ [p]) = l ++ [f p].
Proof.
  rewrite length_app, Nat.add_comm. simpl.
  rewrite <-(Nat.add_0_r (length l)). rewrite alter_app_r. done.
Qed.

(** The state in normal form: the entries before the last, and the last. *)
Lemma step_snoc l p d :
  step (l ++ [p], Some p) d =
  if joins ramStart ramEnd p (Desc_E820 d)
  then (l ++ [grow (Size (Desc_E820 d)) p], Some (grow (Size (Desc_E820 d)) p))
  else (l ++ [p; Desc_E820 d], Some (Desc_E820 d)).
Proof.
  unfold E820_step. case_match; [by rewrite alter_last, last_snoc|].
  by rewrite <-app_assoc.
Qed.

Lemma step_nil d : step ([], None) d = ([] ++ [Desc_E820 d], Some (Desc_E820 d)).
Proof. done. Qed.

(** Entries before the last are never touched again. *)
Lemma run_frame l p ds :
  run (l ++ [p], Some p) ds =
  (l ++ fst (run ([p], Some p) ds), snd (run ([p], Some p) ds)).
Proof.
  revert l p. induction ds as [|d ds IH]; intros l p; [done|]. cbn [foldl].
  rewrite step_snoc. pose proof (step_snoc [] p d) as E. cbn [app] in E. rewrite E.
  destruct (joins _ _ _ _).
  - by apply IH.
  - change [p; Desc_E820 d] with ([p] ++ [Desc_E820 d]).
    rewrite app_assoc, IH, (IH [p]). simpl. by rewrite <-app_assoc.
Qed.

(** A non-empty run ends in normal form. *)
Lemma run_last d ds :
  exists l p, run ([], None) (d :: ds) = (l ++ [p], Some p).
Proof.
  assert (forall l p, exists l' p', run (l ++ [p], Some p) ds = (l' ++ [p'], Some p')) as Hgen.
  2: { cbn [foldl]. rewrite step_nil. apply Hgen. }
  induction ds as [|d' ds IH]; intros l p; [by exists l, p|]. cbn [foldl].
  rewrite step_snoc. destruct (joins _ _ _ _); [apply IH|].
  change [p; Desc_E820 d'] with ([p] ++ [Desc_E820 d']). rewrite app_assoc. apply IH.
Qed.

Lemma e820_snoc pre d l p :
  run ([], None) pre = (l ++ [p], Some p) ->
  e820 (pre ++ [d]) =
  if joins ramStart ramEnd p (Desc_E820 d)
  then l ++ [grow (Size (Desc_E820 d)) p] else l ++ [p; Desc_E820 d].
Proof.
  intros E. unfold E820. rewrite foldl_app. cbn [foldl]. rewrite E, step_snoc.
  by destruct (joins _ _ _ _).
Qed.

(** Where an entry is not joined, the map splits. *)
Lemma e820_split pre d ds :
  (forall l p, run ([], None) pre = (l ++ [p], Some p) ->
     joins ramStart ramEnd p (Desc_E820 d) = false) ->
  e820 (pre ++ d :: ds) = e820 pre ++ e820 (d :: ds).
Proof.
  intros Hj. unfold E820. destruct pre as [|d0 pre]; [done|].
  destruct (run_last d0 pre) as (l & p & E). rewrite foldl_app, E. cbn [foldl].
  rewrite step_snoc, (Hj l p E), step_nil. cbn [app fst].
  change [p; Desc_E820 d] with ([p] ++ [Desc_E820 d]).
  by rewrite app_assoc, run_frame.
Qed.

(** A descriptor that starts the region, or follows its end, is not joined. *)
Lemma joins_start p d :
  MemoryDescriptor.PhysicalStart d = ramStart ->
  joins ramStart ramEnd p (Desc_E820 d) = false.
Proof. intros <-. unfold joins. simpl. by rewrite Z.eqb_refl. Qed.

Lemma joins_end p e : entry_end p = ramEnd -> joins ramStart ramEnd p e = false.
Proof. intros <-. unfold joins. rewrite Z.eqb_refl. simpl. by rewrite andb_false_r. Qed.

(** ** Coverage *)

(** A descriptor whose range ends below 2^64. *)
Definition md_in_range (d : MD) : Prop :=
  0 <= MemoryDescriptor.PhysicalStart d /\ 0 <= MemoryDescriptor.NumberOfPages d /\
  MemoryDescriptor.PhysicalStart d + MemoryDescriptor.NumberOfPages d * PageSize < 2 ^ 64.

Definition entry_in_range (e : E820Entry) : Prop :=
  0 <= Addr e /\ 0 <= Size e /\ Addr e + Size e < 2 ^ 64.

Lemma Desc_E820_in_range d : md_in_range d -> entry_in_range (Desc_E820 d).
Proof.
  unfold md_in_range, entry_in_range, Desc_E820, PageSize. intros (? & ? & ?).
  cbn [Addr Size]. unfold PageSize.
  rewrite wrap_small by (unfold is_word; lia). lia.
Qed.

Lemma covered_grow p e :
  entry_in_range p -> entry_in_range e -> joins ramStart ramEnd p e = true ->
  covered (grow (Size e) p) = covered p ++ covered e /\ entry_in_range (grow (Size e) p).
Proof.
  unfold entry_in_range. intros (? & ? & ?) (? & ? & ?) Hj.
  unfold joins in Hj. apply andb_true_iff in Hj as [_ [Ht He]%andb_true_iff].
  apply Z.eqb_eq in Ht, He. unfold entry_end in He.
  rewrite wrap_small in He by (unfold is_word; lia).
  unfold grow, covered. cbn [Addr Size MemType].
  rewrite wrap_small by (unfold is_word; lia).
  rewrite seqZ_app, map_app, He, Ht by lia. split; [done|lia].
Qed.

Lemma e820_flat ds :
  Forall md_in_range ds ->
  flat (e820 ds) = flat (map Desc_E820 ds) /\ Forall entry_in_range (e820 ds).
Proof.
  induction ds as [|d ds IH] using rev_ind; [done|].
  intros [Hds [Hd _]%Forall_cons]%Forall_app. destruct (IH Hds) as [IH1 IH2].
  pose proof (Desc_E820_in_range d Hd) as Hr.
  rewrite map_app. cbn [map]. rewrite flat_snoc, <-IH1.
  destruct ds as [|d0 ds].
  { unfold E820, flat. simpl. by rewrite app_nil_r, Forall_singleton. }
  destruct (run_last d0 ds) as (l & p & E). rewrite (e820_snoc _ _ _ _ E).
  unfold E820 in IH2 |- *. rewrite E in *. cbn [fst] in *.
  apply Forall_app in IH2 as [Hl [Hp _]%Forall_cons]. rewrite flat_snoc.
  destruct (joins ramStart ramEnd p (Desc_E820 d)) eqn:Ej.
  - destruct (covered_grow p _ Hp Hr Ej) as [Hc Hg].
    by rewrite flat_snoc, Hc, app_assoc, Forall_app, Forall_singleton.
  - change [p; Desc_E820 d] with ([p] ++ [Desc_E820 d]).
    by rewrite app_assoc, !flat_snoc, !Forall_app, !Forall_singleton.
Qed.

(** ** No further join is possible *)

Definition unjoinable (l : list E820Entry) : Prop :=
  forall l1 a b l2, l = l1 ++ a :: b :: l2 -> joins ramStart ramEnd a b = false.

Lemma unjoinable_grow l p n :
  unjoinable (l ++ [p]) -> unjoinable (l ++ [grow n p]).
Proof.
  intros Hu l1 a b l2 E. destruct l2 as [|c l2 _] using rev_ind.
  - change [a; b] with ([a] ++ [b]) in E. rewrite app_assoc in E.
    apply app_inj_tail in E as [-> <-].
    apply (Hu l1 a p []). by rewrite <-app_assoc.
  - change (a :: b :: l2 ++ [c]) with ((a :: b :: l2) ++ [c]) in E.
    rewrite app_assoc in E. apply app_inj_tail in E as [-> _].
    apply (Hu l1 a b (l2 ++ [p])). by rewrite <-app_assoc.
Qed.

Lemma unjoinable_snoc l p e :
  unjoinable (l ++ [p]) -> joins ramStart ramEnd p e = false ->
  unjoinable (l ++ [p; e]).
Proof.
  intros Hu Hj l1 a b l2 E. destruct l2 as [|c l2 _] using rev_ind.
  - change [p; e] with ([p] ++ [e]) in E. change [a; b] with ([a] ++ [b]) in E.
    rewrite !app_assoc in E. apply app_inj_tail in E as [E <-].
    by apply app_inj_tail in E as [_ <-].
  - change (a :: b :: l2 ++ [c]) with ((a :: b :: l2) ++ [c]) in E.
    change [p; e] with ([p] ++ [e]) in E.
    rewrite !app_assoc in E. apply app_inj_tail in E as [E _]. by eapply Hu.
Qed.

Lemma e820_unjoinable ds : unjoinable (e820 ds).
Proof.
  induction ds as [|d ds IH] using rev_ind; [by intros []|].
  destruct ds as [|d0 ds]; [by intros [|? []]|].
  destruct (run_last d0 ds) as (l & p & E). rewrite (e820_snoc _ _ _ _ E).
  unfold E820 in IH. rewrite E in IH. cbn [fst] in IH.
  destruct (joins ramStart ramEnd p (Desc_E820 d)) eqn:Ej.
  - by apply unjoinable_grow.
  - by apply unjoinable_snoc.
Qed.

(** ** The region of the running unikernel *)

(** Adjacent, non-empty descriptors of one type from address [a] to [e]. *)
Fixpoint chain (a e t : Z) (ds : list MD) : Prop :=
  match ds with
  | [] => a = e
  | d :: ds =>
      MemoryDescriptor.PhysicalStart d = a /\ 0 < MemoryDescriptor.NumberOfPages d /\
      MemType (Desc_E820 d) = t /\
      chain (a + MemoryDescriptor.NumberOfPages d * PageSize) e t ds
  end.

Lemma chain_le a e t ds : chain a e t ds -> a <= e /\ (ds <> [] -> a < e).
Proof.
  revert a. induction ds as [|d ds IH]; intros a; cbn [chain]; [intros ->; by split; [lia|]|].
  unfold PageSize. intros (_ & ? & _ & [? _]%IH). lia.
Qed.

Lemma chain_run a t ds :
  0 <= ramStart < a -> ramEnd < 2 ^ 64 -> chain a ramEnd t ds ->
  fst (run ([mkE820 ramStart (a - ramStart) t],
            Some (mkE820 ramStart (a - ramStart) t)) ds) =
  [mkE820 ramStart (ramEnd - ramStart) t].
Proof.
  intros Ha He. revert a Ha. induction ds as [|d ds IH]; intros a Ha; [by intros ->|].
  intros Hc. destruct (chain_le _ _ _ _ Hc) as [_ Hlt]. specialize (Hlt ltac:(done)).
  destruct Hc as (Hs & Hp & Ht & Hc). destruct (chain_le _ _ _ _ Hc) as [Hle _].
  cbn [foldl]. set (p := mkE820 _ _ _).
  assert (u64 (MemoryDescriptor.NumberOfPages d * PageSize) =
          MemoryDescriptor.NumberOfPages d * PageSize) as Hsz
    by (apply wrap_small; unfold is_word, PageSize in *; lia).
  assert (entry_end p = a) as Hend.
  { unfold entry_end, p. cbn [Addr Size]. rewrite wrap_small; [lia|unfold is_word; lia]. }
  pose proof (step_snoc [] p d) as E. cbn [app] in E. rewrite E.
  replace (joins ramStart ramEnd p (Desc_E820 d)) with true.
  2: { symmetry. unfold joins. rewrite Hend, Ht. unfold Desc_E820. cbn [Addr MemType p].
       rewrite Hs, !Z.eqb_refl, !(proj2 (Z.eqb_neq _ _)) by lia. done. }
  replace (grow (Size (Desc_E820 d)) p)
    with (mkE820 ramStart (a + MemoryDescriptor.NumberOfPages d * PageSize - ramStart) t).
  2: { unfold grow, p, Desc_E820. cbn [Addr Size MemType]. f_equal. rewrite Hsz.
       rewrite wrap_small; [lia|unfold is_word, PageSize in *; lia]. }
  apply IH; [unfold PageSize; lia|done].
Qed.

Lemma chain_e820 t ds :
  ds <> [] -> 0 <= ramStart -> ramEnd < 2 ^ 64 -> chain ramStart ramEnd t ds ->
  e820 ds = [mkE820 ramStart (ramEnd - ramStart) t].
Proof.
  intros Hne Hs He. destruct ds as [|d ds]; [done|].
  intros (Hd & Hp & Ht & Hc). destruct (chain_le _ _ _ _ Hc) as [Hle _].
  unfold E820. cbn [foldl]. rewrite step_nil. cbn [app].
  rewrite <-(chain_run (ramStart + MemoryDescriptor.NumberOfPages d * PageSize) t ds);
    [|unfold PageSize in *; lia|done|done].
  assert (Desc_E820 d = mkE820 ramStart
            (ramStart + MemoryDescriptor.NumberOfPages d * PageSize - ramStart) t) as ->; [|done].
  unfold Desc_E820 in *. cbn [MemType] in Ht. rewrite Hd, Ht. f_equal.
  rewrite wrap_small; [lia|unfold is_word, PageSize in *; lia].
Qed.

Lemma e820_isolated t pre mid post :
  mid <> [] -> 0 <= ramStart -> ramEnd < 2 ^ 64 -> chain ramStart ramEnd t mid ->
  e820 (pre ++ mid ++ post) =
  e820 pre ++ [mkE820 ramStart (ramEnd - ramStart) t] ++ e820 post.
Proof.
  intros Hne Hs He Hc. pose proof (chain_e820 t mid Hne Hs He Hc) as Hm.
  destruct mid as [|d mid]; [done|].
  change ((d :: mid) ++ post) with (d :: mid ++ post).
  rewrite e820_split by (intros; apply joins_start; by destruct Hc). f_equal.
  rewrite <-Hm. destruct post as [|q post]; [by rewrite !app_nil_r|].
  change (d :: mid ++ q :: post) with ((d :: mid) ++ q :: post).
  apply e820_split. intros l p Er. apply joins_end.
  unfold E820 in Hm. rewrite Er in Hm. cbn [fst] in Hm.
  change [mkE820 ramStart (ramEnd - ramStart) t]
    with ([] ++ [mkE820 ramStart (ramEnd - ramStart) t]) in Hm.
  apply app_inj_tail in Hm as [_ ->]. unfold entry_end. cbn [Addr Size].
  destruct (chain_le _ _ _ _ Hc) as [Hle _].
  rewrite wrap_small; [lia|unfold is_word; lia].
Qed.
End Merge.

(** ** Properties of the E820 map *)

(** C2. The E820 map tells exactly what the EFI map tells: byte by byte and in
    the same order, every address is listed with the E820 type of the
    descriptor that covers it, whatever was joined, for descriptors whose
    ranges lie below 2^64; and no entry leaves this range. *)
Theorem E820_coverage `{Bzimage} ramStart ramEnd ds :
  Forall md_in_range ds ->
  flat (E820 ramStart ramEnd ds) = flat (map Desc_E820 ds) /\
  Forall entry_in_range (E820 ramStart ramEnd ds).
Proof. apply e820_flat. Qed.

(** C15. Joining is complete: two consecutive entries of the E820 map have
    different types or do not touch, unless their border is where the running
    unikernel's region starts or ends. *)
Theorem E820_complete `{Bzimage} ramStart ramEnd ds l1 a b l2 :
  E820 ramStart ramEnd ds = l1 ++ a :: b :: l2 ->
  MemType a <> MemType b \/ entry_end a <> Addr b \/
  Addr b = ramStart \/ entry_end a = ramEnd.
Proof.
  intros E. pose proof (e820_unjoinable ramStart ramEnd ds l1 a b l2 E) as Hj.
  unfold joins in Hj.
  destruct (Z.eqb_spec (Addr b) ramStart); [auto|].
  destruct (Z.eqb_spec (entry_end a) ramEnd); [auto|].
  destruct (Z.eqb_spec (MemType a) (MemType b)); [|auto].
  destruct (Z.eqb_spec (entry_end a) (Addr b)); [done|auto].
Qed.

(** The running unikernel is one entry of its own: when its region is made
    of adjacent descriptors of one type, the E820 map holds exactly the region
    between what becomes of the descriptors before and after it. *)
Theorem E820_isolates `{Bzimage} ramStart ramEnd t pre mid post :
  mid <> [] -> 0 <= ramStart -> ramEnd < 2 ^ 64 -> chain ramStart ramEnd t mid ->
  E820 ramStart ramEnd (pre ++ mid ++ post) =
  E820 ramStart ramEnd pre ++ [mkE820 ramStart (ramEnd - ramStart) t] ++
  E820 ramStart ramEnd post.
Proof. apply e820_isolated. Qed.

(** A map with a unikernel of two descriptors among other usable memory. *)
Definition demo_bzimage : Bzimage := {| RAM := 1; Reserved := 2; ACPI := 3; NVS := 4 |}.

Definition demo_pre : list MD :=
  [ MemoryDescriptor.mk 7 0 0 16 15; MemoryDescriptor.mk 4 0x10000 0 16 15 ].
Definition demo_mid : list MD :=
  [ MemoryDescriptor.mk 1 0x20000 0 16 15; MemoryDescriptor.mk 2 0x30000 0 16 15 ].
Definition demo_post : list MD :=
  [ MemoryDescriptor.mk 7 0x40000 0 16 15; MemoryDescriptor.mk 9 0x50000 0 1 15 ].

Lemma demo_in_range : Forall md_in_range (demo_pre ++ demo_mid ++ demo_post).
Proof. repeat apply Forall_cons_2; try apply Forall_nil_2; vm_compute; repeat split; congruence. Defined.

Lemma E820_coverage_witness :
  flat (E820 (H := demo_bzimage) 0x20000 0x40000 (demo_pre ++ demo_mid ++ demo_post)) =
  flat (map (Desc_E820 (H := demo_bzimage)) (demo_pre ++ demo_mid ++ demo_post)) /\
  Forall entry_in_range
    (E820 (H := demo_bzimage) 0x20000 0x40000 (demo_pre ++ demo_mid ++ demo_post)).
Proof. apply (E820_coverage (H := demo_bzimage)). exact demo_in_range. Defined.

Lemma E820_complete_witness :
  MemType (mkE820 0 0x20000 1) <> MemType (mkE820 0x20000 0x20000 1) \/
  entry_end (mkE820 0 0x20000 1) <> Addr (mkE820 0x20000 0x20000 1) \/
  Addr (mkE820 0x20000 0x20000 1) = 0x20000 \/ entry_end (mkE820 0 0x20000 1) = 0x40000.
Proof.
  apply (E820_complete (H := demo_bzimage) 0x20000 0x40000
           (demo_pre ++ demo_mid ++ demo_post) [] _ _
           [mkE820 0x40000 0x10000 1; mkE820 0x50000 0x1000 3]).
  vm_compute. reflexivity.
Defined.

Lemma E820_isolates_witness :
  E820 (H := demo_bzimage) 0x20000 0x40000 (demo_pre ++ demo_mid ++ demo_post) =
  E820 (H := demo_bzimage) 0x20000 0x40000 demo_pre ++
  [mkE820 0x20000 (0x40000 - 0x20000) 1] ++
  E820 (H := demo_bzimage) 0x20000 0x40000 demo_post.
Proof.
  apply (E820_isolates (H := demo_bzimage) 0x20000 0x40000 1 demo_pre demo_mid demo_post);
    [discriminate|lia|reflexivity|].
  vm_compute. repeat split.
Defined.

(** ** The descriptor loop *)

Section Loop.
Lemma md_size : bin_size MD = 48%nat.
Proof. reflexivity. Qed.

Lemma md_len_eq : md_len = 48.
Proof. reflexivity. Qed.

(** What the loop leaves for a buffer of [k] descriptors, at the [j]-th. *)
Lemma descriptors_loop_total fuel b (j k : nat) size ds :
  length b = (48 * k)%nat -> (j <= k)%nat -> (k - j < fuel - 1)%nat ->
  exists new err, descriptors_loop fuel b (48 * Z.of_nat j) size 48 ds = Ret (ds ++ new, err) /\
    (size <= 48 * Z.of_nat k -> err = None /\
       zlen new = Z.max 0 ((size - 48 * Z.of_nat j + 47) / 48)) /\
    (48 * Z.of_nat k < size -> err = Some (ErrNew "buffer too small") /\
       length new = (k - j)%nat).
Proof.
  revert j ds. induction fuel as [|fuel IH]; intros j ds Hl Hj Hf; [lia|].
  cbn [descriptors_loop]. destruct (Z.ltb_spec (48 * Z.of_nat j) size) as [Hlt|Hge].
  2: { exists [], None. rewrite app_nil_r. split; [done|]. split; [|lia]. intros _.
       split; [done|]. unfold zlen. simpl. Z.div_mod_to_equations; lia. }
  rewrite (proj2 (Z.ltb_ge _ _)) by (unfold zlen; lia).
  replace (Z.to_nat (48 * Z.of_nat j)) with (48 * j)%nat by lia.
  destruct (decide (j = k)) as [->|Hne].
  { rewrite drop_ge, unmarshal_short by (rewrite ?md_size; simpl; lia).
    exists [], (Some (ErrNew "buffer too small")). rewrite app_nil_r.
    split; [done|]. split; [lia|]. intros _. split; [done|simpl; lia]. }
  assert (exists d, unmarshalBinary (drop (48 * j) b) (bin_zero MD) = (d, None)) as [d ->].
  { unfold unmarshalBinary. rewrite decide_False; [by eexists|].
    rewrite length_drop, md_size. lia. }
  replace (48 * Z.of_nat j + 48) with (48 * Z.of_nat (S j)) by lia.
  destruct (IH (S j) (ds ++ [d])) as (new & err & E & H1 & H2); [done|lia|lia|].
  exists (d :: new), err. rewrite E, <-app_assoc. split; [done|]. split; intros Hs.
  - destruct (H1 Hs) as [-> Hz]. split; [done|]. rewrite zlen_cons, Hz.
    Z.div_mod_to_equations; lia.
  - destruct (H2 Hs) as [-> Hn]. split; [done|]. simpl. lia.
Qed.

(** On a buffer that starts with encoded descriptors it returns these. *)
Lemma descriptors_loop_encs fuel pre l rest :
  Forall bin_ok (pre ++ l) -> (length l < fuel)%nat ->
  descriptors_loop fuel (concat (map enc (pre ++ l)) ++ rest) (48 * zlen pre)
    (48 * zlen (pre ++ l)) 48 pre = Ret (pre ++ l, None).
Proof.
  revert pre l. induction fuel as [|fuel IH]; intros pre l Hok Hf; [lia|].
  cbn [descriptors_loop]. rewrite zlen_app. destruct l as [|d l].
  { rewrite (proj2 (Z.ltb_ge _ _)) by (unfold zlen; simpl; lia). by rewrite app_nil_r. }
  pose proof (zlen_nonneg l). pose proof (zlen_nonneg pre).
  apply Forall_app in Hok as Hok'. destruct Hok' as [Hp [Hd _]%Forall_cons].
  rewrite zlen_cons, (proj2 (Z.ltb_lt _ _)) by lia.
  assert (length (concat (map enc pre)) = (48 * length pre)%nat) as Hlen.
  { clear -Hp. induction Hp as [|x xs Hx _ IH]; [done|]. cbn [map concat length].
    rewrite length_app, IH, (enc_length x Hx), md_size. lia. }
  rewrite map_app, concat_app, <-app_assoc.
  rewrite (proj2 (Z.ltb_ge _ _)).
  2: { unfold zlen. rewrite length_app, Hlen. lia. }
  replace (Z.to_nat (48 * zlen pre)) with (length (concat (map enc pre)))
    by (rewrite Hlen; unfold zlen; lia).
  rewrite drop_app_length. cbn [map concat]. rewrite <-app_assoc, unmarshal_enc by done.
  replace (48 * zlen pre + 48) with (48 * zlen (pre ++ [d])).
  2: { rewrite zlen_app. unfold zlen. simpl. lia. }
  replace (48 * (zlen pre + (1 + zlen l))) with (48 * zlen ((pre ++ [d]) ++ l)).
  2: { rewrite !zlen_app. unfold zlen. simpl. lia. }
  specialize (IH (pre ++ [d]) l). rewrite <-!app_assoc in IH. cbn [app] in IH. simpl in Hf.
  rewrite <-IH by (done || lia). f_equal.
  - rewrite map_app, concat_app. cbn [map concat]. by rewrite <-!app_assoc.
  - by rewrite <-app_assoc.
Qed.
End Loop.

(** ** The call *)

Section MapCall.
Context `{Machine}.

Definition buf_len : nat := Z.to_nat (md_len * maxEntries).

Lemma buf_len_eq : Z.of_nat buf_len = 48000.
Proof. unfold buf_len. rewrite Z2Nat.id; [reflexivity|by vm_compute]. Qed.

(** The world in which the firmware is called. *)
Definition map_world (w : World) : World :=
  alloc_world (replicate buf_len 0)
    (alloc_world (le_enc 8 (md_len * maxEntries) ++ replicate 32 0 ++
                  le_enc 8 md_len ++ replicate 32 0) w).

Definition map_args (w : World) : list Z :=
  let m := w_brk w in [m; m + 80; m + 32; m + 40; m + 48].

Definition map_result (w : World) (ds : list MD) (b : Z) (w' : World) : MemoryMap :=
  let m := w_brk w in
  mkMap (load64 (w_mem w') m) ds (load64 (w_mem w') (m + 32))
        (load64 (w_mem w') (m + 40)) (load32 (w_mem w') (m + 48)) b.

Lemma GetMemoryMap_step s w :
  w_mux w = false ->
  let r := fw_step (u64 (base s + getMemoryMap)) (map_args w) (map_world w) in
  GetMemoryMap s w =
  match Core.parseStatus r.1 with
  | Some err => (Ret (map_result w [] (w_brk w + 80) r.2, Some err), r.2)
  | None =>
      match descriptors_loop 1002 (load_bytes (w_mem r.2) (w_brk w + 80) buf_len) 0
              (i64 (load64 (w_mem r.2) (w_brk w))) md_len [] with
      | Ret (ds, err) => (Ret (map_result w ds (w_brk w + 80) r.2, err), r.2)
      | Panic p => (Panic p, r.2)
      | Deadlock => (Deadlock, r.2)
      | NoFuel => (NoFuel, r.2)
      end
  end.
Proof.
  intros Hm r. unfold GetMemoryMap.
  erewrite bind_step by reflexivity. erewrite bind_step by reflexivity.
  do 5 erewrite bind_step by reflexivity.
  erewrite bind_step by by apply CallService_step.
  change (w_brk (alloc_world _ w)) with (w_brk w + 80).
  change (alloc_world _ (alloc_world _ w)) with (map_world w).
  fold (map_args w). fold r.
  do 4 erewrite bind_step by reflexivity.
  destruct (Core.parseStatus r.1); [done|].
  erewrite bind_step by reflexivity.
  change (S (S (Z.to_nat maxEntries))) with 1002%nat. unfold lift, mbind at 1, M_bind at 1.
  destruct (descriptors_loop _ _ _ _ _ _) as [[ds err]| | |]; reflexivity.
Qed.

(** Whatever the firmware answers, the loop ends and no index is out of
    bounds. *)
Lemma GetMemoryMap_total_aux s w :
  w_mux w = false ->
  let r := fw_step (u64 (base s + getMemoryMap)) (map_args w) (map_world w) in
  exists m err, GetMemoryMap s w = (Ret (m, err), r.2) /\
    MapSize m = load64 (w_mem r.2) (w_brk w) /\
    (r.1 <> 0 -> err = Core.parseStatus r.1 /\ Descriptors m = []) /\
    (r.1 = 0 -> i64 (MapSize m) <= 48000 -> err = None /\
       zlen (Descriptors m) = Z.max 0 ((i64 (MapSize m) + 47) / 48)) /\
    (r.1 = 0 -> 48000 < i64 (MapSize m) -> err = Some (ErrNew "buffer too small") /\
       length (Descriptors m) = 1000%nat).
Proof.
  intros Hm r. rewrite GetMemoryMap_step by done. fold r.
  destruct (Z.eq_dec r.1 0) as [E0|E0].
  - replace (Core.parseStatus r.1) with (@None goerror) by by rewrite E0.
    destruct (descriptors_loop_total 1002
                (load_bytes (w_mem r.2) (w_brk w + 80) buf_len) 0 1000
                (i64 (load64 (w_mem r.2) (w_brk w))) [])
      as (new & err & E & H1 & H2); [by rewrite length_load_bytes|lia|lia|].
    change (48 * Z.of_nat 0) with 0 in E. rewrite md_len_eq, E.
    do 2 eexists. split; [done|]. cbn [MapSize Descriptors map_result].
    split; [done|]. split; [done|].
    change (48 * Z.of_nat 1000) with 48000 in *. change (48 * Z.of_nat 0) with 0 in *.
    rewrite Z.sub_0_r in H1. auto.
  - rewrite Core.parseStatus_err by done. do 2 eexists. split; [done|].
    split_and!; done.
Qed.
End MapCall.

(** ** The memory map services *)

(** What the UEFI specification promises of GetMemoryMap and ExitBootServices,
    for a firmware with descriptors of 48 bytes: the map is written to a buffer
    that is large enough, with its size and its key; ExitBootServices accepts
    the key of the current map and no other. *)
Class MapServices `{Machine} := {
  mm_descs : fwstate -> list MD;
  mm_key : fwstate -> Z;
  mm_exited : fwstate -> fwstate;
  mm_entry : Z;
  eb_entry : Z;
  mm_descs_ok : forall s, Forall bin_ok (mm_descs s) /\ zlen (mm_descs s) <= 1000;
  mm_key_word : forall s, is_word 64 (mm_key s);
  mm_contract : forall size b key dsz dver m s,
    48 * zlen (mm_descs s) <= load64 m size ->
    firmware mm_entry [size; b; key; dsz; dver] m s =
    (0, store32 (store64 (store64 (store64
          (store_bytes m b (concat (map enc (mm_descs s))))
          size (48 * zlen (mm_descs s))) key (mm_key s)) dsz 48) dver 1, s);
  eb_contract : forall h key m s,
    firmware eb_entry [h; key] m s =
    if key =? mm_key s then (0, m, mm_exited s) else (Spec.code INVALID_PARAMETER, m, s);
}.

Section MapRefines.
Context `{MapServices}.

(** Both table entries hold the services and lie below the Go heap. *)
Definition map_entries (s : BootServices) (w : World) : Prop :=
  load64 (w_mem w) (u64 (base s + getMemoryMap)) = mm_entry /\
  load64 (w_mem w) (u64 (base s + exitBootServices)) = eb_entry /\
  u64 (base s + getMemoryMap) + 8 <= w_brk w /\
  u64 (base s + exitBootServices) + 8 <= w_brk w.

Lemma map_world_low w a n :
  a + Z.of_nat n <= w_brk w ->
  load_bytes (w_mem (map_world w)) a n = load_bytes (w_mem w) a n.
Proof.
  intros Ha. unfold map_world.
  rewrite alloc_world_other; [by apply alloc_world_other|].
  rewrite alloc_world_brk.
  match goal with |- context [alloc_size ?k] => pose proof (alloc_size_ge k) end. lia.
Qed.

Lemma map_world_brk w : w_brk w <= w_brk (map_world w).
Proof.
  unfold map_world. rewrite !alloc_world_brk.
  match goal with |- _ <= _ + alloc_size ?a + alloc_size ?b =>
    pose proof (alloc_size_ge a); pose proof (alloc_size_ge b) end. lia.
Qed.

Lemma map_world_size w : load64 (w_mem (map_world w)) (w_brk w) = 48000.
Proof.
  unfold map_world. rewrite alloc_world_load64.
  2: { right. rewrite alloc_world_brk. change (alloc_size _) with 80. lia. }
  unfold load64. cbn [w_mem alloc_world].
  rewrite <-(take_load_bytes _ _ 80) by lia.
  match goal with |- context [store_bytes _ _ ?bs] =>
    change 80%nat with (length bs) end.
  by rewrite load_store_same.
Qed.

Lemma map_descs_length s : length (concat (map enc (mm_descs s))) = (48 * length (mm_descs s))%nat.
Proof.
  destruct (mm_descs_ok s) as [Hok _].
  induction Hok as [|x xs Hx _ IH]; [done|]. cbn [map concat length].
  rewrite length_app, IH, (enc_length x Hx), md_size. lia.
Qed.

(** The firmware's answer, field by field. *)
Lemma map_call s w :
  w_mux w = false -> map_entries s w -> 0 <= w_brk w ->
  let r := fw_step (u64 (base s + getMemoryMap)) (map_args w) (map_world w) in
  r.1 = 0 /\ w_fw r.2 = w_fw w /\ w_mux r.2 = false /\
  load64 (w_mem r.2) (w_brk w) = 48 * zlen (mm_descs (w_fw w)) /\
  load64 (w_mem r.2) (w_brk w + 32) = mm_key (w_fw w) /\
  load64 (w_mem r.2) (w_brk w + 40) = 48 /\
  (exists rest, load_bytes (w_mem r.2) (w_brk w + 80) buf_len =
     concat (map enc (mm_descs (w_fw w))) ++ rest) /\
  (forall a n, a + Z.of_nat n <= w_brk w ->
     load_bytes (w_mem r.2) a n = load_bytes (w_mem w) a n).
Proof.
  intros Hm (Hmm & _ & Hlow & _) Hb.
  assert (load64 (w_mem (map_world w)) (u64 (base s + getMemoryMap)) = mm_entry) as He.
  { rewrite <-Hmm. unfold load64. by rewrite map_world_low by lia. }
  assert (w_fw (map_world w) = w_fw w) as Hfw by reflexivity.
  assert (w_mux (map_world w) = false) as Hmx by exact Hm.
  pose proof (map_world_size w) as Hsz. pose proof (map_world_low w) as Hold.
  revert He Hfw Hmx Hsz Hold. generalize (map_world w) as w1.
  intros w1 He Hfw Hmx Hsz Hold r. subst r.
  unfold fw_step. rewrite He, Hfw.
  destruct (mm_descs_ok (w_fw w)) as [Hok Hn].
  unfold map_args. rewrite mm_contract by (rewrite Hsz; lia).
  pose proof (map_descs_length (w_fw w)) as Hlen.
  pose proof (zlen_nonneg (mm_descs (w_fw w))) as Hz.
  cbn [fst snd w_mem w_fw w_mux]. unfold store32.
  split; [done|]. split; [done|]. split; [done|].
  assert (forall v : Z, length (le_enc 8 v) = 8%nat) as L8 by (intros; apply length_le_enc).
  assert (forall v : Z, length (le_enc 4 v) = 4%nat) as L4 by (intros; apply length_le_enc).
  split_and!.
  - unfold store64. do 3 rewrite load64_store_other by (rewrite ?L8, ?L4; unfold disjoint_ranges; lia).
    apply load64_store64. split; [lia|]. change (2 ^ 64) with 18446744073709551616. lia.
  - unfold store64. do 2 rewrite load64_store_other by (rewrite ?L8, ?L4; unfold disjoint_ranges; lia).
    apply load64_store64, mm_key_word.
  - rewrite load64_store_other by (rewrite ?L8, ?L4; unfold disjoint_ranges; lia).
    by apply load64_store64.
  - assert (buf_len = (48 * length (mm_descs (w_fw w)) +
                       (buf_len - 48 * length (mm_descs (w_fw w))))%nat) as ->.
    { pose proof buf_len_eq. unfold zlen in *. lia. }
    rewrite load_bytes_app. eexists. f_equal.
    unfold store64. do 4 rewrite load_store_other by (rewrite ?L8, ?L4; unfold disjoint_ranges; lia).
    rewrite <-Hlen. apply load_store_same.
  - intros a n Ha. unfold store64.
    do 5 rewrite load_store_other by (rewrite ?L8, ?L4, ?Hlen; unfold disjoint_ranges; lia).
    by apply Hold.
Qed.

Lemma GetMemoryMap_ok s w :
  w_mux w = false -> map_entries s w -> 0 <= w_brk w ->
  exists m w', GetMemoryMap s w = (Ret (m, None), w') /\
    Descriptors m = mm_descs (w_fw w) /\ MapKey m = mm_key (w_fw w) /\
    MapSize m = 48 * zlen (Descriptors m) /\ DescriptorSize m = 48 /\
    w_fw w' = w_fw w /\ w_mux w' = false /\
    (forall a n, a + Z.of_nat n <= w_brk w ->
       load_bytes (w_mem w') a n = load_bytes (w_mem w) a n).
Proof.
  intros Hm He Hb. destruct (map_call s w Hm He Hb) as (E0 & ? & ? & Hs & Hk & Hd & [rest Hr] & ?).
  rewrite GetMemoryMap_step by done. rewrite E0, Core.parseStatus_0, Hr, Hs.
  destruct (mm_descs_ok (w_fw w)) as [Hok Hn]. pose proof (zlen_nonneg (mm_descs (w_fw w))).
  rewrite (swrap_small 64) by (change (2 ^ (64 - 1)) with 9223372036854775808; lia).
  rewrite md_len_eq.
  pose proof (descriptors_loop_encs 1002 [] (mm_descs (w_fw w)) rest) as E. cbn [app] in E.
  change (48 * zlen []) with 0 in E. rewrite E by (done || (unfold zlen in *; lia)).
  do 2 eexists. split; [reflexivity|]. unfold map_result. cbn [Descriptors MapKey MapSize DescriptorSize].
  auto 9.
Qed.
End MapRefines.

(** ** Properties of the calls *)

(** C14. Whatever the firmware answers, [GetMemoryMap] returns: no index of the
    buffer is out of bounds and the loop ends.  A failing status is the error
    and no descriptor is read; with success there is a descriptor for every 48
    bytes (begun) of the size the firmware reports, at most 1000, and the error
    "buffer too small" exactly when it reports more than the buffer holds. *)
Theorem GetMemoryMap_total `{Machine} s w :
  w_mux w = false ->
  let r := fw_step (u64 (base s + getMemoryMap)) (map_args w) (map_world w) in
  exists m err, GetMemoryMap s w = (Ret (m, err), r.2) /\
    MapSize m = load64 (w_mem r.2) (w_brk w) /\
    (r.1 <> 0 -> err = Core.parseStatus r.1 /\ Descriptors m = []) /\
    (r.1 = 0 -> i64 (MapSize m) <= 48000 -> err = None /\
       zlen (Descriptors m) = Z.max 0 ((i64 (MapSize m) + 47) / 48)) /\
    (r.1 = 0 -> 48000 < i64 (MapSize m) -> err = Some (ErrNew "buffer too small") /\
       length (Descriptors m) = 1000%nat).
Proof. apply GetMemoryMap_total_aux. Qed.

(** C3. On a firmware that implements the memory map services, [GetMemoryMap]
    returns exactly its descriptors, in order, with their total size, the
    current map key, and what lies below the Go heap untouched. *)
Theorem GetMemoryMap_refines `{MapServices} s w :
  w_mux w = false -> map_entries s w -> 0 <= w_brk w ->
  exists m w', GetMemoryMap s w = (Ret (m, None), w') /\
    Descriptors m = mm_descs (w_fw w) /\ MapKey m = mm_key (w_fw w) /\
    MapSize m = 48 * zlen (Descriptors m) /\ DescriptorSize m = 48 /\
    w_fw w' = w_fw w /\ w_mux w' = false /\
    (forall a n, a + Z.of_nat n <= w_brk w ->
       load_bytes (w_mem w') a n = load_bytes (w_mem w) a n).
Proof. apply GetMemoryMap_ok. Qed.

(** C4. [ExitBootServices] succeeds on such a firmware: the key it passes is
    the one of the map it has just read, so the firmware leaves boot services,
    and the map it returns is the final one. *)
Theorem ExitBootServices_refines `{MapServices} s w :
  w_mux w = false -> map_entries s w -> 0 <= w_brk w ->
  exists m w', ExitBootServices s w = (Ret (m, None), w') /\
    Descriptors m = mm_descs (w_fw w) /\ w_fw w' = mm_exited (w_fw w) /\ w_mux w' = false.
Proof.
  intros Hm He Hb.
  destruct (GetMemoryMap_ok s w Hm He Hb) as (m & w1 & E & Hd & Hk & _ & _ & Hf & Hm1 & Hold).
  unfold ExitBootServices. erewrite bind_step by exact E. cbv beta iota.
  erewrite bind_step by by apply CallService_step.
  destruct He as (_ & Heb & _ & Hlow).
  assert (fw_step (u64 (base s + exitBootServices)) [imageHandle s; MapKey m] w1 =
          (0, mkWorld _ (w_mem w1) (w_brk w1) (w_mux w1) (w_log w1) (mm_exited (w_fw w1)))) as ->.
  { unfold fw_step. unfold load64 at 1. rewrite Hold by lia.
    change (le_dec _) with (load64 (w_mem w) (u64 (base s + exitBootServices))).
    by rewrite Heb, eb_contract, Hk, Hf, Z.eqb_refl. }
  do 2 eexists. split; [reflexivity|]. cbn [snd w_fw w_mux]. by rewrite Hf.
Qed.

(** ** A firmware with two descriptors *)

(** Its state counts how often boot services were left; the key is 77. *)
Definition demo_map : list MD :=
  [ MemoryDescriptor.mk 1 0x100000 0 16 15; MemoryDescriptor.mk 7 0x110000 0 240 15 ].

Definition map_firmware (fn : Z) (args : list Z) (m : memory) (s : nat) : Z * memory * nat :=
  if fn =? 0x9001 then
    match args with
    | [size; b; key; dsz; dver] =>
        (0, store32 (store64 (store64 (store64
              (store_bytes m b (concat (map enc demo_map)))
              size (48 * zlen demo_map)) key 77) dsz 48) dver 1, s)
    | _ => (Spec.code UNSUPPORTED, m, s)
    end
  else
    match args with
    | [h; key] => if key =? 77 then (0, m, S s) else (Spec.code INVALID_PARAMETER, m, s)
    | _ => (Spec.code UNSUPPORTED, m, s)
    end.

Definition map_machine : Machine := machine_with nat map_firmware.

#[refine] Instance demo_map_services : MapServices (H := map_machine) := {
  mm_descs _ := demo_map;
  mm_key _ := 77;
  mm_exited := S;
  mm_entry := 0x9001;
  eb_entry := 0x9002;
}.
Proof.
  - intros _. split; [|vm_compute; congruence].
    repeat apply Forall_cons_2; try apply Forall_nil_2; vm_compute; repeat split; congruence.
  - intros _. split; [vm_compute; congruence|reflexivity].
  - intros. reflexivity.
  - intros. reflexivity.
Defined.

Definition map_boot_world : World (H := map_machine) :=
  mkWorld map_machine (store64 (store64 ∅ 0x7038 0x9001) 0x70e8 0x9002) 0x10000 false [] 0%nat.

Lemma map_boot_entries : map_entries (H := map_machine) demo_boot map_boot_world.
Proof. split_and!; vm_compute; congruence. Defined.

Lemma GetMemoryMap_total_witness :
  let w := map_boot_world in
  let r := fw_step (u64 (base demo_boot + getMemoryMap)) (map_args w) (map_world w) in
  exists m err, GetMemoryMap demo_boot w = (Ret (m, err), r.2) /\
    MapSize m = load64 (w_mem r.2) (w_brk w) /\
    (r.1 <> 0 -> err = Core.parseStatus r.1 /\ Descriptors m = []) /\
    (r.1 = 0 -> i64 (MapSize m) <= 48000 -> err = None /\
       zlen (Descriptors m) = Z.max 0 ((i64 (MapSize m) + 47) / 48)) /\
    (r.1 = 0 -> 48000 < i64 (MapSize m) -> err = Some (ErrNew "buffer too small") /\
       length (Descriptors m) = 1000%nat).
Proof. apply (GetMemoryMap_total (H := map_machine) demo_boot map_boot_world). reflexivity. Defined.

Lemma GetMemoryMap_refines_witness :
  exists m w', GetMemoryMap (H := map_machine) demo_boot map_boot_world = (Ret (m, None), w') /\
    Descriptors m = demo_map /\ MapKey m = 77 /\
    MapSize m = 48 * zlen (Descriptors m) /\ DescriptorSize m = 48 /\
    w_fw w' = 0%nat /\ w_mux w' = false /\
    (forall a n, a + Z.of_nat n <= 0x10000 ->
       load_bytes (w_mem w') a n = load_bytes (w_mem map_boot_world) a n).
Proof.
  apply (GetMemoryMap_refines (H := map_machine) (H0 := demo_map_services) demo_boot map_boot_world);
    [reflexivity|exact map_boot_entries|vm_compute; congruence].
Defined.

Lemma ExitBootServices_refines_witness :
  exists m w', ExitBootServices (H := map_machine) demo_boot map_boot_world =
      (Ret (m, None), w') /\
    Descriptors m = demo_map /\ w_fw w' = 1%nat /\ w_mux w' = false.
Proof.
  apply (ExitBootServices_refines (H := map_machine) (H0 := demo_map_services) demo_boot map_boot_world);
    [reflexivity|exact map_boot_entries|vm_compute; congruence].
Defined.
