(* ===== verification/Heap.v ===== *)
(** * Heap: the runtime heap of the unikernel

    pkg/ueficore/x64: [allocateHeap] of mem.go, which claims the memory after
    the unikernel's image from the firmware, and x64.go: the package's [init],
    and the two functions that it gives to the runtime.  The drivers of tamago
    are the class [Tamago]. *)

From S2P Require Import Prelude Binary Machine Status Tables Desc Console Boot MemMap.

(** The loop over the memory map: the heap's start, the end of the runtime's
    memory and [RamSize].  [ramStart] and the first [ramEnd] are
    [runtime.MemRegion()] of the tamago runtime. *)
Fixpoint heap_loop (ramStart : Z) (descs : list MD) (heapStart ramEnd RamSize : Z) : Z * Z * Z :=
  match descs with
  | [] => (heapStart, ramEnd, RamSize)
  | desc :: descs =>
      if 0 <? heapStart then
        let ramEnd := u64 (heapStart + u64 (Desc_Size desc)) in
        (heapStart, ramEnd, u64 (ramEnd - ramStart))
      else
        let heapStart :=
          if (MemoryDescriptor.Type_ desc =? EfiLoaderCode) &&
             (MemoryDescriptor.PhysicalStart desc =? ramStart)
          then PhysicalEnd desc else heapStart in
        heap_loop ramStart descs heapStart ramEnd RamSize
  end.

Section Heap.
Context `{Machine}.

(** The new value of [RamSize]. *)
Definition allocateHeap (UEFI : Services) (ramStart ramEnd RamSize : Z) : M Z :=
  boot ← deref (s_Boot UEFI);
  '(memoryMap, err) ← GetMemoryMap boot;
  match err with
  | Some _ => _ ← println "WARNING: could not get memory map"; mret RamSize
  | None =>
      let '(heapStart, ramEnd, RamSize) :=
        heap_loop ramStart (Descriptors memoryMap) 0 ramEnd RamSize in
      _ ← (if heapStart =? 0 then println "WARNING: could not find heap offset" else mret tt);
      boot ← deref (s_Boot UEFI);
      err ← AllocatePages boot AllocateAddress EfiLoaderData
              (i64 (u64 (ramEnd - heapStart))) heapStart;
      match err with
      | Some _ => _ ← println "WARNING: could not allocate heap"; mret RamSize
      | None => mret RamSize
      end
  end.

(** ** x64.go *)

(** The CPU, serial port and clock of tamago; the clock's time in nanoseconds
    since 1970. *)
Class Tamago := {
  AMD64_Init : M unit;
  AMD64_GetTime : M Z;
  AMD64_SetTime : Z -> M unit;
  UART0_Init : M unit;
  RTC_Now : M (Z * error);
}.

Definition nanotime1 `{Tamago} : M Z := AMD64_GetTime.

(** [Init], which the runtime calls before anything else. *)
Definition hwinit `{Tamago} : M unit :=
  _ ← AMD64_Init;
  UART0_Init.

Definition set_clock `{Tamago} : M unit :=
  '(t, err) ← RTC_Now;
  match err with None => AMD64_SetTime t | Some _ => mret tt end.

(** [init]: the instance and [RamSize] afterwards. *)
Definition init `{Tamago} (UEFI : Services) (imageHandle systemTable ramStart ramEnd RamSize : Z) :
    M (Services * Z) :=
  _ ← set_clock;
  _ ← println "initializing EFI services";
  '(UEFI, err) ← Init UEFI imageHandle systemTable;
  _ ← match err with
      | Some _ => println "could not initialize EFI services"
      | None => mret tt
      end;
  RamSize ← allocateHeap UEFI ramStart ramEnd RamSize;
  mret (UEFI, RamSize).
End Heap.

(** ** The loop *)

(** The descriptor that holds the unikernel's image. *)
Definition is_image (ramStart : Z) (d : MD) : bool :=
  (MemoryDescriptor.Type_ d =? EfiLoaderCode) && (MemoryDescriptor.PhysicalStart d =? ramStart).

Lemma heap_loop_skip ramStart pre ds ramEnd RamSize :
  Forall (fun d => is_image ramStart d = false) pre ->
  heap_loop ramStart (pre ++ ds) 0 ramEnd RamSize = heap_loop ramStart ds 0 ramEnd RamSize.
Proof.
  induction 1 as [|d pre Hd _ IH]; [done|]. cbn [app heap_loop].
  unfold is_image in Hd. by rewrite Hd.
Qed.

Lemma heap_loop_found ramStart pre d next post ramEnd RamSize :
  Forall (fun d => is_image ramStart d = false) pre ->
  is_image ramStart d = true -> 0 < PhysicalEnd d ->
  heap_loop ramStart (pre ++ d :: next :: post) 0 ramEnd RamSize =
  (PhysicalEnd d, u64 (PhysicalEnd d + u64 (Desc_Size next)),
   u64 (u64 (PhysicalEnd d + u64 (Desc_Size next)) - ramStart)).
Proof.
  intros Hp Hd Hpos. rewrite heap_loop_skip by done. unfold is_image in Hd.
  cbn [heap_loop]. rewrite Hd. change (0 <? 0) with false. cbn iota.
  by rewrite (proj2 (Z.ltb_lt _ _)).
Qed.

Lemma Desc_Size_small d :
  md_in_range d -> u64 (Desc_Size d) = MemoryDescriptor.NumberOfPages d * PageSize.
Proof.
  intros (H1 & H2 & H3). unfold Desc_Size. rewrite wrap_swrap, wrap_wrap by lia.
  apply wrap_small. unfold is_word, PageSize in *. lia.
Qed.

Lemma PhysicalEnd_small d :
  md_in_range d ->
  PhysicalEnd d = MemoryDescriptor.PhysicalStart d + MemoryDescriptor.NumberOfPages d * PageSize.
Proof.
  intros (H1 & H2 & H3). unfold PhysicalEnd, PageSize in *.
  rewrite (wrap_small 64 (MemoryDescriptor.NumberOfPages d * 4096)), wrap_small; unfold is_word; lia.
Qed.

(** ** The request *)

Section Request.
Context `{MapServices}.

Lemma AllocatePages_step s t m size addr w :
  w_mux w = false ->
  let r := fw_step (u64 (base s + allocatePages))
             [u64 t; u64 m; u64 size / PageSize; w_brk w] (alloc_world (le_enc 8 addr) w) in
  AllocatePages s t m size addr w = (Ret (Core.parseStatus r.1), r.2).
Proof.
  intros Hm r. unfold AllocatePages. erewrite bind_step by reflexivity.
  erewrite bind_step by reflexivity. by erewrite bind_step by by apply CallService_step.
Qed.

Lemma GetMemoryMap_brk s w a w' :
  w_mux w = false -> GetMemoryMap s w = (Ret a, w') -> w_brk w <= w_brk w'.
Proof.
  intros Hm E. destruct (GetMemoryMap_total_aux s w Hm) as (m & err & E' & _).
  rewrite E in E'. injection E' as _ ->. rewrite fw_step_brk. apply map_world_brk.
Qed.

(** The world in which AllocatePages is called goes on from [w]. *)
Record before_request (w w1 : World) : Prop := {
  br_fw : w_fw w1 = w_fw w;
  br_mux : w_mux w1 = false;
  br_brk : w_brk w <= w_brk w1;
  br_mem : agree_below (w_brk w) (w_mem w) (w_mem w1);
}.

(** What [allocateHeap] asks for, given what the loop finds; it ends in the world that
    AllocatePages leaves, apart from the console log. *)
Lemma allocateHeap_call UEFI boot ramStart ramEnd RamSize heapStart ramEnd' RamSize' w :
  s_Boot UEFI = Some boot -> w_mux w = false -> map_entries boot w -> 0 <= w_brk w ->
  is_word 64 heapStart ->
  heap_loop ramStart (mm_descs (w_fw w)) 0 ramEnd RamSize = (heapStart, ramEnd', RamSize') ->
  exists slot w1 log, before_request w w1 /\ load64 (w_mem w1) slot = heapStart /\
    let r := fw_step (u64 (base boot + allocatePages))
      [AllocateAddress; EfiLoaderData; u64 (ramEnd' - heapStart) / PageSize; slot] w1 in
    allocateHeap UEFI ramStart ramEnd RamSize w =
      (Ret RamSize', mkWorld _ (w_mem r.2) (w_brk r.2) (w_mux r.2) log (w_fw r.2)).
Proof.
  intros Hs Hm He Hb Hw Hl.
  destruct (GetMemoryMap_ok boot w Hm He Hb) as (m & w' & E & Hd & _ & _ & _ & Hf & Hm' & Hk).
  pose proof (GetMemoryMap_brk _ _ _ _ Hm E) as Hbrk.
  unfold allocateHeap. rewrite Hs. erewrite bind_step by reflexivity.
  erewrite bind_step by exact E. cbv beta iota. rewrite Hd, Hl.
  set (w3 := if heapStart =? 0
             then mkWorld _ (w_mem w') (w_brk w') (w_mux w')
                    ("WARNING: could not find heap offset"%string :: w_log w') (w_fw w')
             else w').
  assert (before_request w w3) as B
    by (unfold w3; destruct (heapStart =? 0); by split).
  erewrite bind_step with (w' := w3) (a := tt) by (unfold w3; by destruct (heapStart =? 0)).
  erewrite bind_step by reflexivity. erewrite bind_step by (apply AllocatePages_step, B).
  rewrite wrap_swrap, wrap_wrap by lia. set (w1 := alloc_world (le_enc 8 heapStart) w3).
  assert (before_request w w1) as B1.
  { destruct B as [F X K A]. split; [done|done| |].
    - unfold w1. rewrite alloc_world_brk. pose proof (alloc_size_ge (length (le_enc 8 heapStart))). lia.
    - eapply agree_trans; [exact A|]. eapply agree_le; [exact K|]. apply alloc_agree. }
  change (u64 AllocateAddress) with AllocateAddress. change (u64 EfiLoaderData) with EfiLoaderData.
  set (r := fw_step _ _ _).
  exists (w_brk w3), w1, (match Core.parseStatus r.1 with
                          | Some _ => "WARNING: could not allocate heap"%string :: w_log r.2 | None => w_log r.2 end).
  split; [exact B1|]. split; [by apply alloc_world_word|]. cbv zeta.
  destruct (Core.parseStatus r.1); [reflexivity|]. fold r. clearbody r. by destruct r as [? []].
Qed.

Lemma allocateHeap_request UEFI boot ramStart ramEnd RamSize heapStart ramEnd' RamSize' w :
  s_Boot UEFI = Some boot -> w_mux w = false -> map_entries boot w -> 0 <= w_brk w ->
  is_word 64 heapStart ->
  heap_loop ramStart (mm_descs (w_fw w)) 0 ramEnd RamSize = (heapStart, ramEnd', RamSize') ->
  exists slot w1 w2, allocateHeap UEFI ramStart ramEnd RamSize w = (Ret RamSize', w2) /\
    w_fw w1 = w_fw w /\ load64 (w_mem w1) slot = heapStart /\
    w_fw w2 = w_fw (fw_step (u64 (base boot + allocatePages))
      [AllocateAddress; EfiLoaderData; u64 (ramEnd' - heapStart) / PageSize; slot] w1).2.
Proof.
  intros Hs Hm He Hb Hw Hl.
  destruct (allocateHeap_call _ _ _ _ _ _ _ _ _ Hs Hm He Hb Hw Hl) as (slot & w1 & log & B & Hslot & E).
  exists slot, w1. eexists. split; [exact E|]. split; [apply B|]. by split.
Qed.
End Request.

(** ** Properties *)

(** The request when the memory map holds the unikernel's image, followed by a further
    descriptor next to it. *)
Lemma allocateHeap_next `{MapServices} UEFI boot ramStart ramEnd RamSize pre d next post w :
  s_Boot UEFI = Some boot -> w_mux w = false -> map_entries boot w -> 0 <= w_brk w ->
  mm_descs (w_fw w) = pre ++ d :: next :: post ->
  Forall (fun d => is_image ramStart d = false) pre -> is_image ramStart d = true ->
  md_in_range d -> md_in_range next -> 0 < MemoryDescriptor.NumberOfPages d -> 0 <= ramStart ->
  MemoryDescriptor.PhysicalStart next = PhysicalEnd d ->
  exists slot w1 log, before_request w w1 /\
    load64 (w_mem w1) slot = MemoryDescriptor.PhysicalStart next /\
    let r := fw_step (u64 (base boot + allocatePages))
      [AllocateAddress; EfiLoaderData; MemoryDescriptor.NumberOfPages next; slot] w1 in
    allocateHeap UEFI ramStart ramEnd RamSize w =
      (Ret (PhysicalEnd next - ramStart), mkWorld _ (w_mem r.2) (w_brk r.2) (w_mux r.2) log (w_fw r.2)).
Proof.
  intros Hs Hm He Hb Hds Hpre Him Hrd Hrn Hp Hr0 Hadj.
  pose proof (PhysicalEnd_small d Hrd) as Hde. pose proof (PhysicalEnd_small next Hrn) as Hne.
  pose proof (Desc_Size_small next Hrn) as Hsz.
  assert (MemoryDescriptor.PhysicalStart d = ramStart) as Hst.
  { unfold is_image in Him. apply andb_true_iff in Him as [_ ?]. by apply Z.eqb_eq. }
  destruct Hrd as (Hd1 & Hd2 & Hd3). destruct Hrn as (Hn1 & Hn2 & Hn3).
  change (2 ^ 64) with 18446744073709551616 in *.
  assert (is_word 64 (PhysicalEnd d)) as Hw.
  { rewrite <-Hadj. unfold is_word. change (2 ^ 64) with 18446744073709551616.
    unfold PageSize in *. lia. }
  pose proof (heap_loop_found ramStart pre d next post ramEnd RamSize Hpre Him) as E.
  rewrite <-Hds, Hsz in E.
  assert (u64 (PhysicalEnd d + MemoryDescriptor.NumberOfPages next * PageSize) = PhysicalEnd next)
    as Hend.
  { rewrite Hne, <-Hadj. apply wrap_small. unfold is_word.
    change (2 ^ 64) with 18446744073709551616. unfold PageSize in *. lia. }
  rewrite Hend in E.
  rewrite (wrap_small 64 (PhysicalEnd next - ramStart)) in E.
  2: { unfold is_word. change (2 ^ 64) with 18446744073709551616. unfold PageSize in *. lia. }
  destruct (allocateHeap_call UEFI boot ramStart ramEnd RamSize _ _ _ w Hs Hm He Hb Hw
              (E ltac:(unfold PageSize in *; lia))) as (slot & w1 & log & B & Hl & Ea).
  assert (u64 (PhysicalEnd next - PhysicalEnd d) / PageSize = MemoryDescriptor.NumberOfPages next) as En.
  { rewrite Hne, Hadj. unfold PageSize.
    replace (PhysicalEnd d + MemoryDescriptor.NumberOfPages next * 4096 - PhysicalEnd d)
      with (MemoryDescriptor.NumberOfPages next * 4096) by lia.
    rewrite (wrap_small 64 (MemoryDescriptor.NumberOfPages next * 4096)), Z.div_mul by
      (first [ lia | unfold is_word; change (2 ^ 64) with 18446744073709551616;
                     unfold PageSize in *; lia ]). done. }
  rewrite En in Ea. exists slot, w1, log. rewrite Hl, Hadj. by split_and!.
Qed.

(** When the memory map holds the unikernel's image, followed by a further
    descriptor, [allocateHeap] asks the firmware for exactly the pages of that
    descriptor at its address (they are adjacent), as loader data, and
    [RamSize] grows to reach from the image's start to the descriptor's end. *)
Theorem allocateHeap_correct `{MapServices} UEFI boot ramStart ramEnd RamSize pre d next post w :
  s_Boot UEFI = Some boot -> w_mux w = false -> map_entries boot w -> 0 <= w_brk w ->
  mm_descs (w_fw w) = pre ++ d :: next :: post ->
  Forall (fun d => is_image ramStart d = false) pre -> is_image ramStart d = true ->
  md_in_range d -> md_in_range next -> 0 < MemoryDescriptor.NumberOfPages d -> 0 <= ramStart ->
  MemoryDescriptor.PhysicalStart next = PhysicalEnd d ->
  exists slot w1 w2,
    allocateHeap UEFI ramStart ramEnd RamSize w = (Ret (PhysicalEnd next - ramStart), w2) /\
    w_fw w1 = w_fw w /\
    load64 (w_mem w1) slot = MemoryDescriptor.PhysicalStart next /\
    w_fw w2 = w_fw (fw_step (u64 (base boot + allocatePages))
      [AllocateAddress; EfiLoaderData; MemoryDescriptor.NumberOfPages next; slot] w1).2.
Proof.
  intros Hs Hm He Hb Hds Hpre Him Hrd Hrn Hp Hr0 Hadj.
  destruct (allocateHeap_next UEFI boot ramStart ramEnd RamSize pre d next post w)
    as (slot & w1 & log & B & Hl & E); try done.
  exists slot, w1. eexists. split; [exact E|]. split; [apply B|]. by split.
Qed.

(** When the image is not in the memory map, [allocateHeap] does not stop: it
    asks for all pages from address 0 up to the end of the runtime's memory. *)
Theorem allocateHeap_not_found `{MapServices} UEFI boot ramStart ramEnd RamSize w :
  s_Boot UEFI = Some boot -> w_mux w = false -> map_entries boot w -> 0 <= w_brk w ->
  Forall (fun d => is_image ramStart d = false) (mm_descs (w_fw w)) -> is_word 64 ramEnd ->
  exists slot w1 w2,
    allocateHeap UEFI ramStart ramEnd RamSize w = (Ret RamSize, w2) /\
    w_fw w1 = w_fw w /\ load64 (w_mem w1) slot = 0 /\
    w_fw w2 = w_fw (fw_step (u64 (base boot + allocatePages))
      [AllocateAddress; EfiLoaderData; ramEnd / PageSize; slot] w1).2.
Proof.
  intros Hs Hm He Hb Hno Hw.
  destruct (allocateHeap_request UEFI boot ramStart ramEnd RamSize 0 ramEnd RamSize w Hs Hm He Hb)
    as (slot & w1 & w2 & Ea & Hf1 & Hl & Hf2).
  - split; [lia|reflexivity].
  - rewrite <-(app_nil_r (mm_descs (w_fw w))). by rewrite heap_loop_skip.
  - exists slot, w1, w2. rewrite Z.sub_0_r, (wrap_small 64 ramEnd) in Hf2 by done. auto.
Qed.

(** The start of a unikernel.  With a readable system table of the right
    signature and a memory map that holds its image, followed by a further
    descriptor, [init] makes an instance on the table's pointers, asks the
    firmware for exactly the pages of that descriptor, as loader data, and
    lets [RamSize] reach from the image's start to the descriptor's end.  An
    instance that could not be initialised is used all the same: with a table that
    is not readable or has another signature [init] reports it and then
    dereferences the nil boot services. *)
Theorem init_correct `{MapServices, !DmaLaws, !Tamago} st handle addr ramStart ramEnd RamSize w w0 :
  set_clock w = (Ret tt, w0) ->
  bin_ok st -> dma_permits addr -> load_bytes (w_mem w0) addr 120 = enc st ->
  (addr <> 0 -> TableHeader.Signature (SystemTable.Header st) = signature ->
   forall pre d next post,
   let boot := mkBoot (SystemTable.BootServices st) handle in
   w_mux w0 = false -> map_entries boot w0 -> 0 <= w_brk w0 ->
   mm_descs (w_fw w0) = pre ++ d :: next :: post ->
   Forall (fun d => is_image ramStart d = false) pre -> is_image ramStart d = true ->
   md_in_range d -> md_in_range next -> 0 < MemoryDescriptor.NumberOfPages d -> 0 <= ramStart ->
   MemoryDescriptor.PhysicalStart next = PhysicalEnd d ->
   exists UEFI slot w1 w2,
     init Services_zero handle addr ramStart ramEnd RamSize w =
       (Ret (UEFI, PhysicalEnd next - ramStart), w2) /\
     s_Boot UEFI = Some boot /\ s_Runtime UEFI = Some (mkRuntime (SystemTable.RuntimeServices st)) /\
     s_Console UEFI = Some (mkConsole true 8 (SystemTable.ConIn st) (SystemTable.ConOut st)) /\
     w_fw w1 = w_fw w0 /\ load64 (w_mem w1) slot = MemoryDescriptor.PhysicalStart next /\
     w_fw w2 = w_fw (fw_step (u64 (base boot + allocatePages))
       [AllocateAddress; EfiLoaderData; MemoryDescriptor.NumberOfPages next; slot] w1).2) /\
  (addr = 0 \/ TableHeader.Signature (SystemTable.Header st) <> signature ->
   exists w', init Services_zero handle addr ramStart ramEnd RamSize w = (Panic PNil, w')).
Proof.
  intros Hclock Hok Hd Hmem. set (wl := mkWorld _ (w_mem w0) (w_brk w0) (w_mux w0)
    ("initializing EFI services"%string :: w_log w0) (w_fw w0)).
  destruct (Init_correct Services_zero st handle addr wl Hok Hd Hmem)
    as (UEFI & err & E & _ & _ & Herr & Hgood & Hbad).
  assert (forall r, (_ ← match err with Some _ => println "could not initialize EFI services" | None => mret tt end;
    RamSize ← allocateHeap UEFI ramStart ramEnd RamSize; mret (UEFI, RamSize)) wl = r ->
    init Services_zero handle addr ramStart ramEnd RamSize w = r) as Hinit.
  { intros r <-. unfold init. erewrite bind_step by exact Hclock. erewrite bind_step by reflexivity.
    by erewrite bind_step by exact E. }
  split.
  - intros Ha Hs pre d next post boot Hm He Hb Hds Hpre Him Hrd Hrn Hp Hr0 Hadj.
    assert (err = None) as -> by (by apply Herr). destruct (Hgood eq_refl) as (_ & Hcon & Hboot & Hrt).
    destruct (allocateHeap_correct UEFI boot ramStart ramEnd RamSize pre d next post wl)
      as (slot & w1 & w2 & Eheap & Hf1 & Hl & Hf2); try done.
    exists UEFI, slot, w1, w2. split; [|by split_and!]. apply Hinit.
    erewrite bind_step by reflexivity. by erewrite bind_step by exact Eheap.
  - intros Hfail. assert (err <> None) as Hsome by (intros ->; destruct Herr as [[] _]; tauto).
    destruct (Hbad Hsome) as (_ & Hboot & _). destruct err as [e|]; [|done].
    eexists. apply Hinit. erewrite bind_step by reflexivity. apply bind_panic.
    unfold allocateHeap. rewrite Hboot. by apply bind_panic.
Qed.

(** ** On the firmware with two descriptors *)

Definition heap_services : Services := mkServices None None (Some demo_boot) None 0 0.

Lemma allocateHeap_correct_witness :
  exists slot w1 w2,
    allocateHeap (H := map_machine) heap_services 0x100000 0x2c100000 0x2c000000 map_boot_world =
      (Ret (PhysicalEnd (MemoryDescriptor.mk 7 0x110000 0 240 15) - 0x100000), w2) /\
    w_fw w1 = w_fw map_boot_world /\
    load64 (w_mem w1) slot = 0x110000 /\
    w_fw w2 = w_fw (fw_step (H := map_machine) (u64 (base demo_boot + allocatePages))
      [AllocateAddress; EfiLoaderData; 240; slot] w1).2.
Proof.
  apply (allocateHeap_correct (H := map_machine) (H0 := demo_map_services) heap_services demo_boot
           0x100000 0x2c100000 0x2c000000 [] (MemoryDescriptor.mk 1 0x100000 0 16 15)
           (MemoryDescriptor.mk 7 0x110000 0 240 15) [] map_boot_world);
    try reflexivity; try (vm_compute; congruence).
  - exact map_boot_entries.
  - apply Forall_nil_2.
  - vm_compute. repeat split; congruence.
  - vm_compute. repeat split; congruence.
Defined.

Lemma allocateHeap_not_found_witness :
  exists slot w1 w2,
    allocateHeap (H := map_machine) heap_services 0x200000 0x2c200000 0x2c000000 map_boot_world =
      (Ret 0x2c000000, w2) /\
    w_fw w1 = w_fw map_boot_world /\ load64 (w_mem w1) slot = 0 /\
    w_fw w2 = w_fw (fw_step (H := map_machine) (u64 (base demo_boot + allocatePages))
      [AllocateAddress; EfiLoaderData; 0x2c200000 / PageSize; slot] w1).2.
Proof.
  apply (allocateHeap_not_found (H := map_machine) (H0 := demo_map_services) heap_services
           demo_boot 0x200000 0x2c200000 0x2c000000 map_boot_world);
    try reflexivity; try (vm_compute; congruence).
  - exact map_boot_entries.
  - repeat (apply Forall_cons_2; [reflexivity|]). apply Forall_nil_2.
  - vm_compute. split; congruence.
Defined.

(** A clock that is read and set. *)
Definition demo_tamago : Tamago (H := map_machine) :=
  {| AMD64_Init := mret tt; AMD64_GetTime := mret 0; AMD64_SetTime t := println "time set";
     UART0_Init := mret tt; RTC_Now := mret (1700000000000000000, None) |}.

Definition init_world : World (H := map_machine) :=
  mkWorld map_machine (store_bytes (w_mem map_boot_world) 0x5000 (enc demo_system_table))
    0x10000 false [] 0%nat.

Lemma init_correct_witness :
  exists UEFI slot w1 w2,
    init (H := map_machine) (H0 := demo_tamago) Services_zero 1 0x5000 0x100000 0x2c100000 0x2c000000
      init_world = (Ret (UEFI, 0x100000), w2) /\
    s_Boot UEFI = Some demo_boot /\ s_Runtime UEFI = Some (mkRuntime 0x6000) /\
    s_Console UEFI = Some (mkConsole true 8 0x1000 0x2000) /\
    w_fw w1 = w_fw init_world /\ load64 (w_mem w1) slot = 0x110000 /\
    w_fw w2 = w_fw (fw_step (H := map_machine) (u64 (base demo_boot + allocatePages))
      [AllocateAddress; EfiLoaderData; 240; slot] w1).2.
Proof.
  edestruct (init_correct (H := map_machine) (H0 := demo_map_services) (H1 := machine_with_dma _ _)
    (H2 := demo_tamago) demo_system_table 1 0x5000 0x100000 0x2c100000 0x2c000000 init_world)
    as [Hgood _]; [reflexivity|..].
  - vm_compute. repeat split; congruence.
  - split; [reflexivity|intros n; reflexivity].
  - vm_compute. reflexivity.
  - apply (Hgood ltac:(discriminate) eq_refl [] (MemoryDescriptor.mk 1 0x100000 0 16 15)
      (MemoryDescriptor.mk 7 0x110000 0 240 15) []);
      try reflexivity; try (vm_compute; congruence).
    + split_and!; vm_compute; congruence.
    + apply Forall_nil_2.
    + vm_compute. repeat split; congruence.
    + vm_compute. repeat split; congruence.
Defined.
