(* ===== verification/Entry.v ===== *)
(** * Entry: the first instructions of the unikernel

    [cpuinit] of ueficore/x64/x64.s, which the firmware enters with the image
    handle in CX and the system table in DX, instruction by instruction: it fills
    the variables that x64.go and x64/console.go read, and sets up the stack in
    the memory that the image describes.  [sse_enable] is tamago's. *)

From S2P Require Import Prelude Binary Machine Tables Desc Console Boot Heap.

(** ** Instructions *)

Inductive reg := AX | BX | CX | DX | SP.

(** The data symbols of x64.s. *)
Inductive symbol := imageHandle | systemTable | conIn | conOut | ramStart | ramSize | ramStackOffset.

#[export] Instance symbol_eq_dec : EqDecision symbol.
Proof. solve_decision. Defined.

(** Source first, as in the file.  All are 64-bit. *)
Inductive instr :=
| MovToSymbol (src : reg) (dst : symbol)         (* MOVQ CX, ·imageHandle(SB) *)
| MovFromSymbol (src : symbol) (dst : reg)       (* MOVQ runtime·ramSize(SB), AX *)
| MovLoad (off : Z) (base dst : reg)             (* MOVQ 48(DX), AX *)
| MovText (dst : reg)                            (* MOVQ $runtime·text(SB), AX *)
| SubImm (i : Z) (dst : reg)
| Add (src dst : reg) | Sub (src dst : reg)
| CallSseEnable
| JmpRt0.

Definition cpuinit : list instr :=
  [ MovToSymbol CX imageHandle;
    MovToSymbol DX systemTable;
    MovLoad 48 DX AX;
    MovToSymbol AX conIn;
    MovLoad 64 DX AX;
    MovToSymbol AX conOut;
    CallSseEnable;
    MovText AX;
    SubImm (64 * 1024) AX;
    MovToSymbol AX ramStart;
    MovFromSymbol ramStart SP;
    MovFromSymbol ramSize AX;
    MovFromSymbol ramStackOffset BX;
    Add AX SP;
    Sub BX SP;
    JmpRt0 ].

Definition regs : Type := reg -> Z.

Definition reg_eqb (a b : reg) : bool :=
  match a, b with AX, AX | BX, BX | CX, CX | DX, DX | SP, SP => true | _, _ => false end.

Definition set (r : reg) (v : Z) (s : regs) : regs := fun q => if reg_eqb r q then v else s q.

(** What the linker supplies: the address of each symbol, that of
    [runtime·text], the return address of the call, and tamago's [sse_enable],
    which works on registers and returns. *)
Class Linked := {
  address : symbol -> Z;
  text : Z;
  ret : Z;
  sse_enable : regs -> regs;
  (** Each symbol has eight bytes of its own. *)
  address_apart a b : a <> b -> disjoint_ranges (address a) 8 (address b) 8;
}.

Section Steps.
Context `{Linked}.

Definition step (i : instr) (st : regs * memory) : regs * memory :=
  let '(s, m) := st in
  match i with
  | MovToSymbol a x => (s, store64 m (address x) (s a))
  | MovFromSymbol x a => (set a (load64 m (address x)) s, m)
  | MovLoad off b a => (set a (load64 m (u64 (s b + off))) s, m)
  | MovText a => (set a text s, m)
  | SubImm i a => (set a (u64 (s a - i)) s, m)
  | Add a b => (set b (u64 (s b + s a)) s, m)
  | Sub a b => (set b (u64 (s b - s a)) s, m)
  | CallSseEnable =>
      let m := store64 m (s SP - 8) ret in
      let s := sse_enable (set SP (s SP - 8) s) in
      (set SP (s SP + 8) s, m)
  | JmpRt0 => st
  end.

(** Up to the jump into the runtime. *)
Fixpoint run (l : list instr) (st : regs * memory) : option (regs * memory) :=
  match l with
  | [] => None
  | JmpRt0 :: _ => Some st
  | i :: l => run l (step i st)
  end.

Definition variable (m : memory) (x : symbol) : Z := load64 m (address x).

(** x64/console.go: [Console], initialised from the variables. *)
Definition Console (m : memory) : Console.Console :=
  mkConsole true 0 (variable m conIn) (variable m conOut).
End Steps.

(** x64/mem.go: the value of [RamSize] in the image, 704MB, and of the variable
    linked to [ramStart]. *)
Definition RamSize : Z := 0x2c000000.
Definition _unused : Z := 0x00100000.

(** ** What the runtime finds *)

(** The words that the entry code stores to. *)
Definition untouched `{Linked} (s : regs) (a : Z) (n : nat) : Prop :=
  (forall x, disjoint_ranges (address x) 8 a n) /\ disjoint_ranges (s SP - 8) 8 a n.

(** The words of the system table at the offsets of x64.s. *)
Lemma table_words (m : memory) a (st : SystemTable.t) :
  bin_ok st -> load_bytes m a 120 = enc st ->
  load64 m (a + 48) = SystemTable.ConIn st /\ load64 m (a + 64) = SystemTable.ConOut st.
Proof.
  intros Hok Hm. unfold load64. change 48 with (Z.of_nat 48). change 64 with (Z.of_nat 64).
  rewrite <-!(sub_load_bytes m a 120) by lia. rewrite Hm.
  destruct st as [[]], Hok as (_ & _ & _ & _ & _ & _ & _ & _ & Hin & _ & Hout & _).
  cbn [SystemTable.ConIn SystemTable.ConOut].
  split; (etrans; [|apply (le_dec_enc_word 8); eassumption]); reflexivity.
Qed.

Section Cpuinit.
Context `{Linked} (s : regs) (m : memory) (st : SystemTable.t).
Context (Hstack : forall x, disjoint_ranges (address x) 8 (s SP - 8) 8).
Context (Htable : untouched s (s DX) 120) (Hst : load_bytes m (s DX) 120 = enc st) (Hok : bin_ok st).
Context (HCX : is_word 64 (s CX)) (HDX : 0 <= s DX /\ s DX + 120 <= 2 ^ 64).

(** Reads of one symbol through stores to others, to the stack slot, and of the
    table through both. *)
Lemma variable_other x y v m0 : x <> y -> variable (store64 m0 (address y) v) x = variable m0 x.
Proof using.
  intros Hne. apply load64_store_other. rewrite length_le_enc. apply address_apart. congruence.
Qed.

Lemma variable_same x v m0 : is_word 64 v -> variable (store64 m0 (address x) v) x = v.
Proof using. apply load64_store64. Qed.

Lemma variable_stack x v m0 : variable (store64 m0 (s SP - 8) v) x = variable m0 x.
Proof using Hstack.
  apply load64_store_other. rewrite length_le_enc. destruct (Hstack x); [right|left]; done.
Qed.

Lemma untouched_variable a n x v m0 :
  untouched s a n -> load_bytes (store64 m0 (address x) v) a n = load_bytes m0 a n.
Proof using. intros [Hx _]. apply load_store_other. by rewrite length_le_enc. Qed.

Lemma untouched_stack a n v m0 :
  untouched s a n -> load_bytes (store64 m0 (s SP - 8) v) a n = load_bytes m0 a n.
Proof using. intros [_ Hsp]. apply load_store_other. by rewrite length_le_enc. Qed.
End Cpuinit.

(** Reads of variables through the stores of the entry code. *)
Ltac variables :=
  repeat first [rewrite variable_same by first [done | by apply wrap_range | assumption]
               | rewrite variable_other by done | rewrite variable_stack by done].

Section Entry.
Context `{Linked}.

(** The entry code runs to its jump. *)
Lemma cpuinit_run s m st :
  (forall x, disjoint_ranges (address x) 8 (s SP - 8) 8) ->
  untouched s (s DX) 120 -> load_bytes m (s DX) 120 = enc st -> bin_ok st ->
  is_word 64 (s CX) -> 0 <= s DX /\ s DX + 120 <= 2 ^ 64 ->
  exists s' m', run cpuinit (s, m) = Some (s', m') /\
    variable m' imageHandle = s CX /\ variable m' systemTable = s DX /\
    variable m' conIn = SystemTable.ConIn st /\ variable m' conOut = SystemTable.ConOut st /\
    variable m' ramStart = u64 (text - 64 * 1024) /\
    s' SP = u64 (variable m' ramStart + variable m ramSize - variable m ramStackOffset) /\
    forall a n, untouched s a n -> load_bytes m' a n = load_bytes m a n.
Proof.
  intros Hstack Htable Hst Hok HCX HDX.
  assert (is_word 64 (s DX)) as HwDX by (unfold is_word; lia).
  assert (is_word 64 (SystemTable.ConIn st) /\ is_word 64 (SystemTable.ConOut st)) as [Hwin Hwout].
  { clear - Hok. destruct st as [[]], Hok as (_ & _ & _ & _ & _ & _ & _ & _ & ? & _ & ? & _). done. }
  set (m2 := store64 (store64 m (address imageHandle) (s CX)) (address systemTable) (s DX)).
  set (m3 := store64 m2 (address conIn) (SystemTable.ConIn st)).
  set (m4 := store64 m3 (address conOut) (SystemTable.ConOut st)).
  assert (load_bytes m2 (s DX) 120 = enc st /\ load_bytes m3 (s DX) 120 = enc st) as [Hm2 Hm3]
    by (unfold m3, m2; by rewrite !(untouched_variable s) by done).
  destruct (table_words m2 _ st Hok Hm2) as [Hin _], (table_words m3 _ st Hok Hm3) as [_ Hout].
  set (m5 := store64 m4 (s SP - 8) ret).
  set (m6 := store64 m5 (address ramStart) (u64 (text - 64 * 1024))).
  assert (variable m6 ramStart = u64 (text - 64 * 1024) /\ variable m6 ramSize = variable m ramSize /\
    variable m6 ramStackOffset = variable m ramStackOffset) as (E1 & E2 & E3).
  { unfold m6, m5, m4, m3, m2. split_and!; by variables. }
  eexists _, m6. split_and!.
  - cbn [cpuinit run step set reg_eqb]. rewrite !(wrap_small 64 (s DX + _)) by (unfold is_word; lia).
    fold m2. rewrite Hin. fold m3. rewrite Hout. fold m4 m5 m6. reflexivity.
  - unfold m6, m5, m4, m3, m2. by variables.
  - unfold m6, m5, m4, m3, m2. by variables.
  - unfold m6, m5, m4, m3. by variables.
  - unfold m6, m5, m4. by variables.
  - exact E1.
  - cbn [set reg_eqb]. fold (variable m6 ramStart) (variable m6 ramSize) (variable m6 ramStackOffset).
    rewrite E2, E3. apply Zminus_mod_idemp_l.
  - intros a n Ha. unfold m6, m5, m4, m3, m2.
    by rewrite ?(untouched_variable s), (untouched_stack s), ?(untouched_variable s) by done.
Qed.
End Entry.

(** C16. From the firmware's jump into the image to [UEFI.Init]: [cpuinit] runs
    to the runtime; the stack it sets up ends [ramStackOffset] below the end of the
    memory of the image; and when x64's [init] later hands the two variables to
    [Init], the instance has the firmware's image handle and table, and its console is
    on the same input and output protocols as the early [Console] that [printk]
    used before.  The memory outside the variables and the word of the call is as the
    firmware left it. *)
Theorem entry_hands_over `{Machine, !DmaLaws, Linked} s st (w : World) :
  (forall x, disjoint_ranges (address x) 8 (s SP - 8) 8) ->
  untouched s (s DX) 120 -> load_bytes (w_mem w) (s DX) 120 = enc st -> bin_ok st ->
  is_word 64 (s CX) -> 0 < s DX /\ s DX + 120 <= 2 ^ 64 -> dma_permits (s DX) ->
  TableHeader.Signature (SystemTable.Header st) = signature ->
  exists s' m', run cpuinit (s, w_mem w) = Some (s', m') /\
    s' SP = u64 (u64 (text - 64 * 1024) + variable (w_mem w) ramSize - variable (w_mem w) ramStackOffset) /\
    (forall a n, untouched s a n -> load_bytes m' a n = load_bytes (w_mem w) a n) /\
    forall w1, (forall x, variable (w_mem w1) x = variable m' x) ->
      load_bytes (w_mem w1) (s DX) 120 = load_bytes m' (s DX) 120 ->
      exists UEFI c, Init Services_zero (variable (w_mem w1) imageHandle)
          (variable (w_mem w1) systemTable) w1 = (Ret (UEFI, None), w1) /\
        ImageHandle UEFI = s CX /\ s_SystemTable UEFI = Some st /\ s_Console UEFI = Some c /\
        In c = In (Console (w_mem w1)) /\ Out c = Out (Console (w_mem w1)).
Proof.
  intros Hstack Htable Hst Hok HCX HDX Hd Hsig.
  destruct (cpuinit_run s (w_mem w) st Hstack Htable Hst Hok HCX ltac:(lia))
    as (s' & m' & Hrun & Eh & Et & Ei & Eo & Er & Esp & Hother).
  exists s', m'. split; [done|]. split; [by rewrite Esp, Er|]. split; [done|].
  intros w1 Hv Hm1. unfold Console. rewrite !Hv, Eh, Et, Ei, Eo.
  rewrite Hother, Hst in Hm1 by done.
  destruct (Init_correct Services_zero st (s CX) (s DX) w1 Hok Hd Hm1)
    as (UEFI & err & E & Hh & _ & Herr & Hgood & _).
  assert (err = None) as -> by (apply Herr; split; [lia|done]).
  destruct (Hgood eq_refl) as (Htab & Hcon & _). eexists UEFI, _. by split_and!.
Qed.

(** An image linked at 4MB, entered with the table of [demo_system_table]. *)
#[refine] Instance demo_linked : Linked := {
  address x := match x with
               | imageHandle => 0x500000 | systemTable => 0x500008 | conIn => 0x500010
               | conOut => 0x500018 | ramStart => 0x500020 | ramSize => 0x500028
               | ramStackOffset => 0x500030
               end;
  text := 0x410000;
  ret := 0x410040;
  sse_enable s := set AX 0x600 s;
}.
Proof. intros [] []; try done; intros _; unfold disjoint_ranges; lia. Defined.

Definition entry_regs : regs := fun r =>
  match r with CX => 42 | DX => 0x5000 | SP => 0x9000 | _ => 0 end.

Definition entry_world : World (H := quiet_machine) :=
  mkWorld quiet_machine
    (store64 (store64 (store64 (store_bytes ∅ 0x5000 (enc demo_system_table))
       0x500028 RamSize) 0x500030 0x100) 0x500020 _unused)
    0x10000 false [] tt.

Lemma entry_hands_over_witness :
  exists s' m', run cpuinit (entry_regs, w_mem entry_world) = Some (s', m') /\
    s' SP = 0x2c3fff00 /\
    let w1 := set_mem (H := quiet_machine) m' entry_world in
    exists UEFI c, Init (H := quiet_machine) Services_zero (variable m' imageHandle)
      (variable m' systemTable) w1 = (Ret (UEFI, None), w1) /\
    ImageHandle UEFI = 42 /\ s_SystemTable UEFI = Some demo_system_table /\
    s_Console UEFI = Some c /\ In c = In (Console m') /\ Out c = Out (Console m').
Proof.
  destruct (entry_hands_over (H := quiet_machine) (H0 := machine_with_dma _ _) entry_regs
    demo_system_table entry_world) as (s' & m' & E & Hsp & Hother & Hinit).
  - intros []; vm_compute; right; congruence.
  - split; [intros []|]; vm_compute; right; congruence.
  - vm_compute. reflexivity.
  - vm_compute. repeat split; congruence.
  - vm_compute. split; congruence.
  - vm_compute. split; congruence.
  - split; [reflexivity|intros n; reflexivity].
  - reflexivity.
  - exists s', m'. split; [exact E|]. split; [rewrite Hsp; vm_compute; reflexivity|].
    exact (Hinit (set_mem (H := quiet_machine) m' entry_world) (fun x => eq_refl) eq_refl).
Defined.
