(* ===== verification/FileSys.v ===== *)
(** * FileSys: files on the EFI simple file system

    pkg/ueficore/file.go and fs.go.  A protocol instance that the firmware
    returns is copied into a Go struct, and its functions are then called
    through the entries of the copy: the copies are objects on the Go heap. *)

From S2P Require Import Prelude Binary Machine Status Text Guid Tables Desc Boot.

(** ** Constants *)

Definition EFI_FILE_INFO_ID : gostring :=
  bytes_of_string "09576e92-6d3f-11d2-8e39-00a0c969723b".

Definition EFI_FILE_PROTOCOL_REVISION : Z := 0x00010000.
Definition EFI_FILE_PROTOCOL_REVISION2 : Z := 0x00020000.
Definition EFI_FILE_MODE_READ : Z := 1.
Definition EFI_FILE_DIRECTORY : Z := 0x10.

Definition EFI_LOADED_IMAGE_PROTOCOL_GUID : gostring :=
  bytes_of_string "5b1b31a1-9562-11d2-8e3f-00a0c969723b".
Definition EFI_LOADED_IMAGE_DEVICE_PATH_PROTOCOL_GUID : gostring :=
  bytes_of_string "09576e91-6d3f-11d2-8e39-00a0c969723b".
Definition EFI_SIMPLE_FILE_SYSTEM_PROTOCOL_GUID : gostring :=
  bytes_of_string "964e5b22-6459-11d2-8e39-00a0c969723b".

Definition EFI_LOADED_IMAGE_PROTOCOL_REVISION : Z := 0x1000.
Definition EFI_SIMPLE_FILE_SYSTEM_PROTOCOL_REVISION : Z := 0x10000.

(** Field offsets of the Go structs whose entries are called. *)
Definition off_Open : Z := 8.
Definition off_Close : Z := 16.
Definition off_Read : Z := 32.
Definition off_GetInfo : Z := 64.
Definition off_OpenVolume : Z := 8.

(** ** Go values *)

(** [*fileProtocol] is the address of the copy, [None] for nil. *)
Record File := mkFile { f_file : option Z; f_addr : Z; f_name : gostring }.

Record FileInfo := mkFileInfo { fi_info : fileInfo.t; fi_addr : Z; fi_name : gostring }.

Record FS := mkFS {
  fs_image : option LoadedImage.t;
  fs_device : Z;
  fs_addr : Z;
  fs_fs : Z;                      (* the simpleFileSystem copy *)
  fs_volume : option File;
}.

(** ** FileInfo *)

Definition Name (fi : FileInfo) : gostring := fi_name fi.
Definition FileInfo_Size (fi : FileInfo) : Z := i64 (fileInfo.FileSize (fi_info fi)).
Definition IsDir (fi : FileInfo) : bool :=
  0 <? Z.land (fileInfo.Attribute (fi_info fi)) EFI_FILE_DIRECTORY.
(** [fs.ModeDir] of the standard library. *)
Definition ModeDir : Z := Z.shiftl 1 31.
Definition Mode (fi : FileInfo) : Z := if IsDir fi then ModeDir else 0.
Definition Sys (fi : FileInfo) : Z := fi_addr fi.

Definition invalid_file : error := Some (ErrNew "invalid file instance").
Definition invalid_revision : error := Some (ErrNew "invalid protocol revision").

Definition revision_ok (r : Z) : bool :=
  (r =? EFI_FILE_PROTOCOL_REVISION) || (r =? EFI_FILE_PROTOCOL_REVISION2).

Section FileSys.
Context `{Machine}.

(** [o = &T{}; err = decode(o, addr)]: the new object, its value, the error. *)
Definition decode_new (A : Type) `{Binary A} (addr : Z) : M (Z * A * error) :=
  o ← alloc (enc (bin_zero A));
  '(v, err) ← decode (bin_zero A) addr;
  _ ← put_bytes o (enc v);
  mret (o, v, err).

(** ** fileProtocol *)

(** The tail of [open] and [openVolume]: copy the instance, check it. *)
Definition file_instance (addr : Z) : M (option Z * Z * error) :=
  '(o, v, err) ← decode_new fileProtocol.t addr;
  match err with
  | Some _ => mret (Some o, addr, err)
  | None =>
      if negb (revision_ok (fileProtocol.Revision v)) then mret (None, 0, invalid_revision)
      else mret (Some o, addr, None)
  end.

Definition open (f : Z) (handle : Z) (name : gostring) (mode : Z) :
    M (option Z * Z * error) :=
  addr ← alloc64 0;
  fileName ← addr_of_bytes (toUTF16 name);
  p0 ← ptrval (PtrUint64 (f + off_Open));
  p1 ← ptrval (PtrUint64 addr);
  p2 ← ptrval (PtrByte fileName);
  status ← CallService p0 [handle; p1; p2; mode; 0];
  a ← get64 addr;
  match Core.parseStatus status with
  | Some err => mret (None, a, Some err)
  | None => file_instance a
  end.

Definition close (f : Z) (handle : Z) : M error :=
  p ← ptrval (PtrUint64 (f + off_Close));
  status ← CallService p [handle];
  mret (Core.parseStatus status).

(** Into the slice of length [len] at [ptr].  The comparison is with the bare
    code EFI_DEVICE_ERROR of error.go. *)
Definition read (f : Z) (handle ptr len : Z) : M (Z * error) :=
  size ← alloc64 len;
  if len =? 0 then mret (0, None) else
  p0 ← ptrval (PtrUint64 (f + off_Read));
  p1 ← ptrval (PtrUint64 size);
  p2 ← ptrval (PtrByte ptr);
  status ← CallService p0 [handle; p1; p2];
  n ← get64 size;
  if (status =? Core.EFI_DEVICE_ERROR) || (n =? 0) then mret (0, Some ErrEOF)
  else mret (i64 n, Core.parseStatus status).

Definition info_len : Z := 8 * 7 + 512.

Definition getInfo (f : Z) (handle : Z) (guid : list Z) : M (option fileInfo.t * error) :=
  buf ← alloc (replicate (Z.to_nat info_len) 0);
  size ← alloc64 info_len;
  p0 ← ptrval (PtrUint64 (f + off_GetInfo));
  g ← addr_of_bytes guid;
  status ← CallService p0 [handle; g; size; buf];
  match Core.parseStatus status with
  | Some err => mret (None, Some err)
  | None =>
      n ← get64 size;
      if info_len <? n then gopanic PSlice else
      bytes ← get_bytes buf (Z.to_nat n);
      let '(info, err) := unmarshalBinary bytes (bin_zero fileInfo.t) in
      mret (Some info, err)
  end.

(** ** File *)

Definition Stat (f : File) : M (option FileInfo * error) :=
  if f_addr f =? 0 then mret (None, invalid_file) else
  file ← deref (f_file f);
  '(info, err) ← getInfo file (f_addr f) (Bytes EFI_FILE_INFO_ID);
  match err, info with
  | Some _, _ => mret (None, err)
  | None, Some info => mret (Some (mkFileInfo info (f_addr f) (f_name f)), None)
  | None, None => gopanic PNil
  end.

Definition File_Read (f : File) (ptr len : Z) : M (Z * error) :=
  if f_addr f =? 0 then mret (0, invalid_file) else
  file ← deref (f_file f);
  read file (f_addr f) ptr len.

Definition File_Close (f : File) : M error :=
  if f_addr f =? 0 then mret invalid_file else
  file ← deref (f_file f);
  close file (f_addr f).

(** ** FS *)

Definition openVolume (root : Z) (handle : Z) : M (option Z * Z * error) :=
  addr ← alloc64 0;
  p0 ← ptrval (PtrUint64 (root + off_OpenVolume));
  p1 ← ptrval (PtrUint64 addr);
  status ← CallService p0 [handle; p1];
  a ← get64 addr;
  match Core.parseStatus status with
  | Some err => mret (None, a, Some err)
  | None => file_instance a
  end.

Definition FS_Open (root : FS) (name : gostring) : M (option File * error) :=
  let invalid := mret (None, Some (ErrNew "invalid file system instance")) in
  match fs_volume root with
  | None | Some (mkFile None _ _) => invalid
  | Some (mkFile (Some file) addr _) =>
      if addr =? 0 then invalid else
      '(o, a, err) ← open file addr name EFI_FILE_MODE_READ;
      match err with
      | Some _ => mret (None, err)
      | None => mret (Some (mkFile o a name), None)
      end
  end.

Definition LoadImageHandle (s : BootServices) (imageHandle : Z) :
    M (option LoadedImage.t * Z * error) :=
  '(addr, err) ← HandleProtocol s imageHandle EFI_LOADED_IMAGE_PROTOCOL_GUID;
  match err with
  | Some _ => mret (None, addr, err)
  | None =>
      '(image, err) ← decode (bin_zero LoadedImage.t) addr;
      match err with
      | Some _ => mret (Some image, addr, err)
      | None =>
          if negb (LoadedImage.Revision image =? EFI_LOADED_IMAGE_PROTOCOL_REVISION)
          then mret (None, 0, invalid_revision)
          else mret (Some image, addr, None)
      end
  end.

(** The instance is returned with each error but the last, half filled. *)
Definition Root (s : Services) : M (option FS * error) :=
  fs ← alloc (enc (bin_zero simpleFileSystem.t));
  let volume := mkFile None 0 [] in
  boot ← deref (s_Boot s);
  '(image, _, err) ← LoadImageHandle boot (s_imageHandle s);
  match err with
  | Some _ => mret (Some (mkFS image 0 0 fs (Some volume)), err)
  | None =>
  li ← deref image;
  '(device, err) ← HandleProtocol boot (LoadedImage.DeviceHandle li)
                     EFI_LOADED_IMAGE_DEVICE_PATH_PROTOCOL_GUID;
  match err with
  | Some _ => mret (Some (mkFS image device 0 fs (Some volume)), err)
  | None =>
  '(addr, err) ← HandleProtocol boot (LoadedImage.DeviceHandle li)
                   EFI_SIMPLE_FILE_SYSTEM_PROTOCOL_GUID;
  match err with
  | Some _ => mret (Some (mkFS image device addr fs (Some volume)), err)
  | None =>
  '(v, err) ← decode (bin_zero simpleFileSystem.t) addr;
  _ ← put_bytes fs (enc v);
  match err with
  | Some _ => mret (Some (mkFS image device addr fs (Some volume)), err)
  | None =>
  if negb (simpleFileSystem.Revision v =? EFI_SIMPLE_FILE_SYSTEM_PROTOCOL_REVISION)
  then mret (None, invalid_revision)
  else
    '(file, vaddr, err) ← openVolume fs addr;
    mret (Some (mkFS image device addr fs (Some (mkFile file vaddr []))), err)
  end end end end.
End FileSys.

(** ** Readers

    The standard library's io.Reader, and what io.ReadAll and fs.ReadFile do
    with it. *)

Class Reader (R : Type) `{Machine} := Reader_Read : R -> Z -> Z -> M (Z * error).

#[export] Instance File_Reader `{Machine} : Reader File := File_Read.

(** The capacity [append] gives a full slice: the language only says that the
    new element fits; a capacity is an int. *)
Class Append := {
  growslice : Z -> Z;
  growslice_range : forall c, 0 <= c < 2 ^ 62 -> c < growslice c < 2 ^ 63;
}.

Section ReadAll.
Context `{Machine, Append} {R : Type} `{!Reader R}.

(** [append(b, 0)[:len(b)]] of a full slice of [cap] bytes at [ptr]. *)
Definition grow_full (ptr cap : Z) : M Z :=
  bytes ← get_bytes ptr (Z.to_nat cap);
  alloc (bytes ++ replicate (Z.to_nat (growslice cap - cap)) 0).

(** [io.ReadAll]'s loop on the slice of [len] of [cap] bytes at [ptr]. *)
Fixpoint ReadAll_loop (fuel : nat) (r : R) (ptr len cap : Z) : M (list Z * error) :=
  match fuel with
  | O => lift NoFuel
  | S fuel =>
      '(n, err) ← Reader_Read r (ptr + len) (cap - len);
      let len := len + n in
      if (len <? 0) || (cap <? len) then gopanic PSlice else
      match err with
      | Some e =>
          bytes ← get_bytes ptr (Z.to_nat len);
          mret (bytes, if decide (e = ErrEOF) then None else Some e)
      | None =>
          if len =? cap then
            ptr ← grow_full ptr cap;
            ReadAll_loop fuel r ptr len (growslice cap)
          else ReadAll_loop fuel r ptr len cap
      end
  end.

Definition ReadAll (fuel : nat) (r : R) : M (list Z * error) :=
  ptr ← alloc (replicate 512 0);
  ReadAll_loop fuel r ptr 0 512.
End ReadAll.

Section ReadFile.
Context `{Machine, Append}.

(** [fs.ReadFile]: the file is opened, its size is the first capacity, and it
    is closed whatever happens. *)
Fixpoint ReadFile_loop (fuel : nat) (f : File) (ptr len cap : Z) : M (list Z * error) :=
  match fuel with
  | O => lift NoFuel
  | S fuel =>
      '(ptr, cap) ← (if cap <=? len
                     then ptr ← grow_full ptr cap; mret (ptr, growslice cap)
                     else mret (ptr, cap));
      '(n, err) ← File_Read f (ptr + len) (cap - len);
      let len := len + n in
      if (len <? 0) || (cap <? len) then gopanic PSlice else
      match err with
      | Some e =>
          bytes ← get_bytes ptr (Z.to_nat len);
          mret (bytes, if decide (e = ErrEOF) then None else Some e)
      | None => ReadFile_loop fuel f ptr len cap
      end
  end.

Definition ReadFile (fuel : nat) (root : FS) (name : gostring) : M (list Z * error) :=
  '(file, err) ← FS_Open root name;
  match err, file with
  | Some _, _ => mret ([], err)
  | None, None => gopanic PNil
  | None, Some f =>
      '(info, err) ← Stat f;
      let size := match err, info with None, Some fi => FileInfo_Size fi | _, _ => 0 end in
      if (size + 1 <? 0) || (2 ^ 63 <=? size + 1) then gopanic PMakeslice else
      ptr ← alloc (replicate (Z.to_nat (size + 1)) 0);
      r ← ReadFile_loop fuel f ptr 0 (size + 1);
      _ ← File_Close f;
      mret r
  end.
End ReadFile.

(** ** The reader contract

    [stream r rest lo w]: in world [w] the reader [r] has the bytes [rest] still
    to deliver, and what it keeps in memory lies below [lo]. *)

Definition kept_below `{Machine} (lo : Z) (w w' : World) : Prop :=
  agree_below lo (w_mem w) (w_mem w').

Class StreamReader (R : Type) `{Machine, !Reader R} := {
  stream : R -> list Z -> Z -> World -> Prop;
  stream_local : forall r rest lo w w',
    stream r rest lo w -> w_fw w' = w_fw w -> kept_below lo w w' -> stream r rest lo w';
  stream_length : forall r rest lo w, stream r rest lo w -> zlen rest < 2 ^ 62;
  stream_read : forall r rest lo p n w,
    stream r rest lo w -> w_mux w = false ->
    0 < n < 2 ^ 63 -> lo <= p -> p + n <= w_brk w ->
    exists k err w',
      Reader_Read r p n w = (Ret (k, err), w') /\
      (if decide (rest = []) then k = 0 /\ err = Some ErrEOF
       else 0 < k <= n /\ k <= zlen rest /\ err = None) /\
      load_bytes (w_mem w') p (Z.to_nat k) = take (Z.to_nat k) rest /\
      stream r (drop (Z.to_nat k) rest) lo w' /\
      kept_below p w w' /\ w_mux w' = false /\ w_brk w <= w_brk w';
}.

Section ReadAllCorrect.
Context `{Machine, Append} {R : Type} `{!Reader R, !StreamReader R}.

Lemma kept_below_trans lo w1 w2 w3 :
  kept_below lo w1 w2 -> kept_below lo w2 w3 -> kept_below lo w1 w3.
Proof. apply agree_trans. Qed.

Lemma kept_below_le lo lo' w w' : lo <= lo' -> kept_below lo' w w' -> kept_below lo w w'.
Proof. apply agree_le. Qed.

Lemma alloc_kept bs w : kept_below (w_brk w) w (alloc_world bs w).
Proof. apply alloc_agree. Qed.

(** Growing moves the bytes to a larger slice above everything. *)
Lemma grow_full_step ptr cap w :
  0 <= cap -> cap < growslice cap ->
  exists w', grow_full ptr cap w = (Ret (w_brk w), w') /\
    load_bytes (w_mem w') (w_brk w) (Z.to_nat cap) = load_bytes (w_mem w) ptr (Z.to_nat cap) /\
    kept_below (w_brk w) w w' /\ w_fw w' = w_fw w /\ w_mux w' = w_mux w /\
    w_brk w + growslice cap <= w_brk w'.
Proof.
  intros Hc Hg. unfold grow_full. erewrite bind_step by reflexivity.
  eexists. split; [reflexivity|]. set (bs := _ ++ _).
  assert (zlen bs = growslice cap) as Hl.
  { unfold bs, zlen. rewrite length_app, length_load_bytes, length_replicate. lia. }
  split; [|split_and!; try done; [apply alloc_kept|]].
  - rewrite <-(take_load_bytes _ _ (length bs)) by (unfold zlen in Hl; lia).
    rewrite alloc_world_load. unfold bs. apply take_app_exact. by rewrite length_load_bytes.
  - rewrite alloc_world_brk. pose proof (alloc_size_ge (length bs)). unfold zlen in Hl. lia.
Qed.

Lemma ReadAll_loop_stream fuel r rest lo ptr len cap acc w :
  stream r rest lo w -> w_mux w = false -> lo <= ptr ->
  0 <= len < cap -> cap < 2 ^ 63 -> ptr + cap <= w_brk w ->
  load_bytes (w_mem w) ptr (Z.to_nat len) = acc ->
  zlen rest + len < 2 ^ 62 -> zlen rest < Z.of_nat fuel ->
  exists w', ReadAll_loop fuel r ptr len cap w = (Ret (acc ++ rest, None), w') /\
    stream r [] lo w' /\ kept_below lo w w' /\ w_mux w' = false.
Proof.
  revert rest ptr len cap acc w.
  induction fuel as [|fuel IH];
    intros rest ptr len cap acc w Hs Hm Hlo Hlen Hcap Hbrk Hacc Hsz Hf.
  { pose proof (zlen_nonneg rest). lia. }
  cbn [ReadAll_loop].
  destruct (stream_read r rest lo (ptr + len) (cap - len) w)
    as (k & err & w1 & E & Hk & Hb & Hs1 & Hkeep & Hm1 & Hbrk1); [done|done|lia..|].
  erewrite bind_step by exact E. cbv beta iota zeta.
  assert (0 <= k <= cap - len /\ k <= zlen rest) as [Hk1 Hk2].
  { pose proof (zlen_nonneg rest). case_decide; lia. }
  rewrite (proj2 (Z.ltb_ge (len + k) 0)), (proj2 (Z.ltb_ge cap (len + k))) by lia. cbn [orb].
  assert (load_bytes (w_mem w1) ptr (Z.to_nat (len + k)) = acc ++ take (Z.to_nat k) rest) as Hacc1.
  { rewrite Z2Nat.inj_add, load_bytes_app, Z2Nat.id, Hb, (Hkeep ptr), Hacc by lia. done. }
  case_decide as Hr.
  - destruct Hk as [-> ->]. erewrite bind_step by reflexivity. rewrite Hr in *.
    rewrite Hacc1. exists w1. split; [done|]. split; [done|]. split; [|done].
    eapply kept_below_le; [|exact Hkeep]. lia.
  - destruct Hk as (Hk0 & _ & ->).
    assert (zlen (drop (Z.to_nat k) rest) = zlen rest - k) as Hdrop.
    { unfold zlen in *. rewrite length_drop. lia. }
    assert (kept_below lo w w1) as Hlo1 by (eapply kept_below_le; [|exact Hkeep]; lia).
    replace (acc ++ rest) with ((acc ++ take (Z.to_nat k) rest) ++ drop (Z.to_nat k) rest)
      by by rewrite <-app_assoc, take_drop.
    destruct (Z.eqb_spec (len + k) cap) as [Hfull|Hnot].
    + destruct (growslice_range cap) as [Hg1 Hg2]; [lia|].
      destruct (grow_full_step ptr cap w1) as (w2 & Eg & Hb2 & Hk2' & Hf2 & Hm2 & Hbrk2);
        [lia|lia|].
      erewrite bind_step by exact Eg. rewrite Hfull in Hacc1 |- *.
      destruct (IH (drop (Z.to_nat k) rest) (w_brk w1) cap (growslice cap)
                   (acc ++ take (Z.to_nat k) rest) w2) as (w3 & ? & ? & ? & ?);
        try lia; try congruence.
      { apply (stream_local r _ lo w1); [done|done|].
        eapply kept_below_le; [|exact Hk2']. lia. }
      exists w3. split_and!; try done. eapply kept_below_trans; [exact Hlo1|].
      eapply kept_below_trans; [|done]. eapply kept_below_le; [|exact Hk2']. lia.
    + destruct (IH (drop (Z.to_nat k) rest) ptr (len + k) cap
                   (acc ++ take (Z.to_nat k) rest) w1) as (w3 & ? & ? & ? & ?);
        try lia; try done.
      exists w3. split_and!; try done. by eapply kept_below_trans.
Qed.

Lemma ReadAll_stream fuel r rest lo w :
  stream r rest lo w -> w_mux w = false -> lo <= w_brk w -> zlen rest < Z.of_nat fuel ->
  exists w', ReadAll fuel r w = (Ret (rest, None), w') /\
    stream r [] lo w' /\ kept_below lo w w' /\ w_mux w' = false.
Proof.
  intros Hs Hm Hlo Hf. unfold ReadAll. erewrite bind_step by reflexivity.
  pose proof (alloc_kept (replicate 512 0) w) as Hk.
  destruct (ReadAll_loop_stream fuel r rest lo (w_brk w) 0 512 []
              (alloc_world (replicate 512 0) w)) as (w' & ? & ? & ? & ?); try done; try lia.
  - eapply stream_local; [done|done|]. by eapply kept_below_le.
  - rewrite Z.add_0_r. by eapply stream_length.
  - exists w'. split_and!; try done. eapply kept_below_trans; [|done]. by eapply kept_below_le.
Qed.
End ReadAllCorrect.

(** ** The file service

    What the UEFI specification promises of EFI_FILE_PROTOCOL.Read() on a
    regular file: it transfers what is left, up to the size asked for, advances
    the position, and reports the number of bytes; at the end of the file it
    succeeds with zero bytes. *)

Class FileService `{Machine} := {
  file_rest : fwstate -> Z -> list Z;
  file_advance : fwstate -> Z -> Z -> fwstate;
  read_entry : Z;
  file_rest_advance : forall s h k,
    0 <= k -> file_rest (file_advance s h k) h = drop (Z.to_nat k) (file_rest s h);
  read_contract : forall h psize p m s,
    firmware read_entry [h; psize; p] m s =
    let k := Z.min (load64 m psize) (zlen (file_rest s h)) in
    (0, store64 (store_bytes m p (take (Z.to_nat k) (file_rest s h))) psize k,
     file_advance s h k);
}.

Section FileStream.
Context `{FileService}.

(** The copy's Read entry, below [lo], is the firmware's. *)
Definition file_stream (f : File) (rest : list Z) (lo : Z) (w : World) : Prop :=
  exists o, f_file f = Some o /\ f_addr f <> 0 /\
    o + off_Read + 8 <= lo /\ load64 (w_mem w) (o + off_Read) = read_entry /\
    file_rest (w_fw w) (f_addr f) = rest /\ zlen rest < 2 ^ 62.

Lemma read_step f rest lo p n w :
  file_stream f rest lo w -> w_mux w = false -> 0 < n < 2 ^ 63 -> lo <= p -> p + n <= w_brk w ->
  let k := Z.min n (zlen rest) in
  exists w', File_Read f p n w =
      (Ret (k, if decide (rest = []) then Some ErrEOF else None), w') /\
    load_bytes (w_mem w') p (Z.to_nat k) = take (Z.to_nat k) rest /\
    w_fw w' = file_advance (w_fw w) (f_addr f) k /\
    kept_below p w w' /\ w_mux w' = false /\ w_brk w <= w_brk w'.
Proof.
  intros (o & Ho & Ha & Hlow & He & Hr & Hsz) Hm Hn Hlo Hp k.
  pose proof (zlen_nonneg rest) as Hz.
  assert (is_word 64 n /\ is_word 64 k) as [Hwn Hwk].
  { unfold is_word, k. change (2 ^ 64) with 18446744073709551616.
    change (2 ^ 63) with 9223372036854775808 in Hn.
    change (2 ^ 62) with 4611686018427387904 in Hsz. lia. }
  unfold File_Read. rewrite (proj2 (Z.eqb_neq _ _)) by done. rewrite Ho.
  erewrite bind_step by reflexivity. unfold read.
  erewrite bind_step by reflexivity. rewrite (proj2 (Z.eqb_neq _ _)) by lia.
  do 3 erewrite bind_step by reflexivity.
  erewrite bind_step by by apply CallService_step.
  set (w1 := alloc_world (le_enc 8 n) w).
  set (w2 := mkWorld _ (store64 (store_bytes (w_mem w1) p (take (Z.to_nat k) rest)) (w_brk w) k)
               (w_brk w1) false (w_log w1) (file_advance (w_fw w) (f_addr f) k)).
  assert (fw_step (o + off_Read) [f_addr f; w_brk w; p] w1 = (0, w2)) as ->.
  { unfold fw_step, w2, w1. rewrite alloc_world_load64 by (right; lia).
    rewrite alloc_world_fw, He, read_contract.
    replace (load64 (w_mem (alloc_world (le_enc 8 n) w)) (w_brk w)) with n
      by (symmetry; by apply load64_store64).
    rewrite Hr. fold k. cbn [w_mux alloc_world]. by rewrite Hm. }
  cbn [fst snd]. erewrite bind_step by (unfold get64, w2; cbn [w_mem]; by rewrite load64_store64).
  assert (length (take (Z.to_nat k) rest) = Z.to_nat k) as Hlen.
  { rewrite length_take. unfold k, zlen in *. lia. }
  exists w2. unfold w2. split; [|split_and!].
  - change (0 =? Core.EFI_DEVICE_ERROR) with false. cbn [orb].
    destruct (decide (rest = [])) as [->|Hne].
    + unfold k. change (zlen []) with 0. rewrite Z.min_r by lia. reflexivity.
    + assert (0 < zlen rest) by (destruct rest; [done|unfold zlen; simpl; lia]).
      rewrite (proj2 (Z.eqb_neq _ _)), swrap_small by
        (first [ lia | change (2 ^ (64 - 1)) with 9223372036854775808;
                       change (2 ^ 63) with 9223372036854775808 in Hn; lia ]).
      reflexivity.
  - cbn [w_mem]. unfold store64. rewrite load_store_other.
    + pose proof (load_store_same (w_mem w1) p (take (Z.to_nat k) rest)) as E.
      by rewrite Hlen in E.
    + right. unfold k. lia.
  - done.
  - intros a j Hj. cbn [w_mem]. unfold store64.
    rewrite !load_store_other by (unfold disjoint_ranges; rewrite ?length_le_enc, ?Hlen; lia).
    apply alloc_kept. lia.
  - done.
  - cbn [w_brk]. unfold w1. rewrite alloc_world_brk, alloc_size_word. lia.
Qed.

#[export, refine] Instance File_stream_reader : StreamReader File := {
  stream := file_stream;
}.
Proof.
  - intros f rest lo w w' (o & Ho & Ha & Hlow & He & Hr & Hsz) Hf Hk.
    exists o. split_and!; try done.
    + unfold load64. by rewrite (Hk (o + off_Read) 8%nat) by lia.
    + by rewrite Hf.
  - by intros f rest lo w (o & ? & ? & ? & ? & ? & ?).
  - intros f rest lo p n w Hs Hm Hn Hlo Hp.
    destruct (read_step f rest lo p n w Hs Hm Hn Hlo Hp) as (w' & E & Hb & Hf & Hk & Hm' & Hbrk).
    destruct Hs as (o & Ho & Ha & Hlow & He & Hr & Hsz). pose proof (zlen_nonneg rest).
    exists (Z.min n (zlen rest)). eexists. exists w'. split; [exact E|].
    split_and!; try done.
    + case_decide as Hd; [rewrite Hd; change (zlen []) with 0; split; [lia|done]|].
      assert (0 < zlen rest) by (destruct rest; [done|unfold zlen; simpl; lia]).
      split_and!; lia || done.
    + exists o. split_and!; try done.
      * unfold load64. by rewrite (Hk (o + off_Read) 8%nat) by lia.
      * rewrite Hf, file_rest_advance, Hr by lia. done.
      * unfold zlen in *. rewrite length_drop. lia.
Defined.
End FileStream.

#[export] Existing Instance File_stream_reader.

(** ** Opening *)

(** The entry at [8 * i] of a copied table of 8-byte fields. *)
Lemma table_sub i (l : list Z) z :
  l !! i = Some z -> sub (8 * i) 8 (concat (map (le_enc 8) l)) = le_enc 8 z.
Proof.
  revert i. induction l as [|x l IH]; intros i Hi; [done|]. cbn [map concat].
  destruct i as [|i].
  - injection Hi as ->. rewrite sub_0. apply take_app_exact. by rewrite length_le_enc.
  - rewrite <-(IH i Hi). unfold sub.
    replace (8 * S i)%nat with (length (le_enc 8 x) + 8 * i)%nat
      by (rewrite length_le_enc; lia).
    by rewrite <-drop_drop, drop_app_length.
Qed.

Definition file_entries (v : fileProtocol.t) : list Z :=
  [ fileProtocol.Revision v; fileProtocol.Open v; fileProtocol.Close v; fileProtocol.Delete v;
    fileProtocol.Read v; fileProtocol.Write v; fileProtocol.GetPosition v;
    fileProtocol.SetPosition v; fileProtocol.GetInfo v; fileProtocol.SetInfo v;
    fileProtocol.Flush v ].

Lemma enc_file v : enc v = concat (map (le_enc 8) (file_entries v)).
Proof. by destruct v. Qed.

Lemma load_entry {A} `{Machine, Binary A} (v : A) entries o i z m :
  enc v = concat (map (le_enc 8) entries) -> entries !! i = Some z -> is_word 64 z ->
  bin_size A = (8 * length entries)%nat ->
  load_bytes m o (bin_size A) = enc v -> load64 m (o + 8 * Z.of_nat i) = z.
Proof.
  intros Henc Hi Hz Hsz Hb. unfold load64. apply lookup_lt_Some in Hi as Hlt.
  replace (o + 8 * Z.of_nat i) with (o + Z.of_nat (8 * i)) by lia.
  rewrite <-(sub_load_bytes m o (bin_size A)) by lia.
  rewrite Hb, Henc, (table_sub i entries z Hi). by apply le_dec_enc_word.
Qed.

(** The file protocol's words are 64-bit. *)
Lemma file_entries_word v : bin_ok v -> Forall (is_word 64) (file_entries v).
Proof.
  unfold bin_ok. destruct v. cbn. intros.
  repeat match goal with H : _ /\ _ |- _ => destruct H end.
  repeat (apply Forall_cons_2; [assumption|]). apply Forall_nil_2.
Qed.

Section Decode.
Context `{Machine, !DmaLaws} {A : Type} `{Binary A}.

(** [decode_new] copies the struct at [addr] to a new object. *)
Lemma decode_new_step (v : A) addr w :
  addr <> 0 -> bin_ok (bin_zero A) -> bin_ok v -> (0 < bin_size A)%nat -> dma_permits addr ->
  addr + Z.of_nat (bin_size A) <= w_brk w ->
  load_bytes (w_mem w) addr (bin_size A) = enc v ->
  exists w', decode_new A addr w = (Ret (w_brk w, v, None), w') /\
    load_bytes (w_mem w') (w_brk w) (bin_size A) = enc v /\
    kept_below (w_brk w) w w' /\ w_fw w' = w_fw w /\ w_mux w' = w_mux w /\
    w_brk w + Z.of_nat (bin_size A) <= w_brk w'.
Proof.
  intros Ha Hz Hv Hs Hd Hb Hm. unfold decode_new.
  erewrite bind_step by reflexivity. erewrite bind_step by by apply decode_step.
  rewrite alloc_world_other, Hm by done.
  rewrite unmarshal_exact by done. cbv beta iota.
  erewrite bind_step by reflexivity. eexists. split; [reflexivity|].
  cbn [w_mem set_mem w_fw w_mux w_brk].
  split; [rewrite <-(enc_length v) by done; apply load_store_same|].
  split_and!; try done.
  - intros a n Han. cbn [w_mem set_mem]. rewrite load_store_other by (right; lia).
    by apply alloc_kept.
  - rewrite alloc_world_brk, <-(enc_length _ Hz). pose proof (alloc_size_ge (length (enc (bin_zero A)))).
    lia.
Qed.
End Decode.

(** What the specification promises of EFI_FILE_PROTOCOL.Open() in read mode:
    the name is a NUL-terminated UTF-16 text, and the instance of the file it
    names is stored. *)
Class OpenService `{FileService} := {
  open_file : fwstate -> Z -> list Z -> option (Z * fwstate);
  open_entry : Z;
  open_word : forall s h us a s', open_file s h us = Some (a, s') -> is_word 64 a;
  open_contract : forall h slot pname us m s,
    Forall (is_word 16) us -> Forall (fun u => u <> 0) us ->
    load_bytes m pname (2 * (length us + 1)) = concat (map (le_enc 2) (us ++ [0])) ->
    firmware open_entry [h; slot; pname; EFI_FILE_MODE_READ; 0] m s =
    match open_file s h us with
    | Some (a, s') => (0, store64 m slot a, s')
    | None => (Spec.code NOT_FOUND, m, s)
    end;
}.

Section Open.
Context `{OpenService, !DmaLaws}.

(** [v] is the instance the firmware keeps at [a]. *)
Definition instance_at (a : Z) (v : fileProtocol.t) (w : World) : Prop :=
  a <> 0 /\ bin_ok v /\ dma_permits a /\ a + 88 <= w_brk w /\
  load_bytes (w_mem w) a 88 = enc v.

(** The world and the arguments of the call. *)
Definition open_world (rs : list Z) (w : World) : World :=
  alloc_world (toUTF16 (utf8 rs)) (alloc_world (le_enc 8 0) w).

Lemma open_world_kept rs w : kept_below (w_brk w) w (open_world rs w).
Proof.
  eapply kept_below_trans; [apply alloc_kept|]. unfold open_world.
  eapply kept_below_le; [|apply alloc_kept].
  rewrite alloc_world_brk, alloc_size_word. lia.
Qed.

Lemma open_world_name rs w :
  Forall scalar rs ->
  load_bytes (w_mem (open_world rs w)) (w_brk w + 8) (2 * (length (utf16_Encode rs) + 1)) =
  concat (map (le_enc 2) (utf16_Encode rs ++ [0])).
Proof.
  intros Hs.
  assert (toUTF16 (utf8 rs) = concat (map (le_enc 2) (utf16_Encode rs ++ [0]))) as E.
  { by rewrite toUTF16_eq; unfold stringToUTF16; rewrite runes_utf8. }
  rewrite <-E.
  replace (2 * (length (utf16_Encode rs) + 1))%nat with (length (toUTF16 (utf8 rs)))
    by (rewrite length_toUTF16, runes_utf8 by done; lia).
  apply (alloc_world_load (toUTF16 (utf8 rs)) (alloc_world (le_enc 8 0) w)).
Qed.

Lemma toUTF16_nonempty s : toUTF16 s <> [].
Proof. intros E. pose proof (length_toUTF16 s) as L. rewrite E in L. simpl in L. lia. Qed.

(** A file that is found: a copy of its instance is made. *)
Lemma open_found o h rs a s' v w :
  Forall scalar rs -> Forall (fun r => r <> 0) rs -> w_mux w = false ->
  load64 (w_mem w) (o + off_Open) = open_entry -> o + off_Open + 8 <= w_brk w ->
  open_file (w_fw w) h (utf16_Encode rs) = Some (a, s') ->
  instance_at a v w -> revision_ok (fileProtocol.Revision v) = true ->
  exists o' w', open o h (utf8 rs) EFI_FILE_MODE_READ w = (Ret (Some o', a, None), w') /\
    load_bytes (w_mem w') o' 88 = enc v /\ w_brk w <= o' /\ o' + 88 <= w_brk w' /\
    kept_below (w_brk w) w w' /\ w_fw w' = s' /\ w_mux w' = false.
Proof.
  intros Hs Hn Hm He Hlow Hf (Ha & Hv & Hd & Hab & Hi) Hrev.
  unfold open. erewrite bind_step by reflexivity.
  erewrite bind_step by apply addr_of_bytes_step, toUTF16_nonempty.
  do 3 erewrite bind_step by reflexivity.
  erewrite bind_step by by apply CallService_step.
  change (alloc_world _ (alloc_world _ w)) with (open_world rs w).
  change (w_brk (alloc_world _ w)) with (w_brk w + 8).
  pose proof (open_world_kept rs w) as Hk. pose proof (open_world_name rs w Hs) as Hname.
  assert (w_brk w + 8 <= w_brk (open_world rs w)) as Hb1.
  { unfold open_world. rewrite !alloc_world_brk, alloc_size_word.
    pose proof (alloc_size_ge (length (toUTF16 (utf8 rs)))). lia. }
  assert (w_fw (open_world rs w) = w_fw w /\ w_mux (open_world rs w) = false) as [Hfw Hmx]
    by (split; [reflexivity|exact Hm]).
  revert Hk Hname Hb1 Hfw Hmx. generalize (open_world rs w) as w1.
  intros w1 Hk Hname Hb1 Hfw Hmx.
  set (w2 := mkWorld _ (store64 (w_mem w1) (w_brk w) a) (w_brk w1) false (w_log w1) s').
  assert (fw_step (o + off_Open) [h; w_brk w; w_brk w + 8; EFI_FILE_MODE_READ; 0] w1 = (0, w2)) as ->.
  { unfold fw_step, w2, load64. rewrite (Hk (o + off_Open) 8%nat) by lia.
    change (le_dec (load_bytes (w_mem w) (o + off_Open) 8)) with (load64 (w_mem w) (o + off_Open)).
    rewrite He, Hfw, open_contract with (us := utf16_Encode rs).
    - by rewrite Hf, Hmx.
    - apply utf16_Encode_word.
    - by apply units_nonzero.
    - exact Hname. }
  cbn [fst snd]. pose proof (open_word _ _ _ _ _ Hf) as Hw.
  erewrite bind_step by (unfold get64, w2; cbn [w_mem]; by rewrite load64_store64).
  rewrite Core.parseStatus_0. unfold file_instance.
  assert (kept_below (w_brk w) w w2) as Hk2.
  { intros b n Hbn. cbn [w2 w_mem]. unfold store64.
    rewrite load_store_other by (right; lia). by apply Hk. }
  destruct (decode_new_step v a w2) as (w3 & E & Hl & Hk3 & Hf3 & Hm3 & Hb3);
    [done|vm_compute; repeat split; congruence|done|vm_compute; lia|done
    |change (bin_size fileProtocol.t) with 88%nat; cbn [w2 w_brk]; lia
    |change (bin_size fileProtocol.t) with 88%nat; by rewrite Hk2|].
  erewrite bind_step by exact E. cbv beta iota. rewrite Hrev. cbn [negb].
  change (bin_size fileProtocol.t) with 88%nat in *. cbn [w2 w_brk] in Hl, Hb3, Hk3.
  exists (w_brk w1), w3. split; [done|]. split_and!; try done; try lia.
  eapply kept_below_trans; [exact Hk2|]. eapply kept_below_le; [|exact Hk3]. lia.
Qed.
End Open.

(** ** Properties *)

(** [io.ReadAll] over any lawful reader returns exactly the bytes the reader
    has left, with no error, however the reads are split, and leaves the
    reader's memory as it was: the loop makes progress in every round, so one
    round more than there are bytes is enough. *)
Theorem ReadAll_correct `{Machine, Append} {R} `{!Reader R, !StreamReader R} fuel r rest lo w :
  stream r rest lo w -> w_mux w = false -> lo <= w_brk w -> zlen rest < Z.of_nat fuel ->
  exists w', ReadAll fuel r w = (Ret (rest, None), w') /\
    stream r [] lo w' /\ kept_below lo w w' /\ w_mux w' = false.
Proof. apply ReadAll_stream. Qed.

(** [File.Read] on a regular file reads the next bytes, as many as fit and
    are left, into the slice and nowhere else below the heap, and reports
    io.EOF exactly at the end of the file. *)
Theorem File_Read_correct `{FileService} f rest lo p n w :
  file_stream f rest lo w -> w_mux w = false -> 0 < n < 2 ^ 63 -> lo <= p -> p + n <= w_brk w ->
  let k := Z.min n (zlen rest) in
  exists w', File_Read f p n w =
      (Ret (k, if decide (rest = []) then Some ErrEOF else None), w') /\
    load_bytes (w_mem w') p (Z.to_nat k) = take (Z.to_nat k) rest /\
    file_stream f (drop (Z.to_nat k) rest) lo w' /\ kept_below p w w' /\ w_mux w' = false.
Proof.
  intros Hs Hm Hn Hlo Hp k. pose proof (zlen_nonneg rest) as Hz.
  destruct (read_step f rest lo p n w Hs Hm Hn Hlo Hp) as (w' & E & Hb & Hf & Hk & Hm' & _).
  exists w'. split; [exact E|]. split; [exact Hb|]. split; [|done].
  destruct Hs as (o & Ho & Ha & Hlow & He & Hr & Hsz). exists o. split_and!; try done.
  - unfold load64. by rewrite (Hk (o + off_Read) 8%nat) by lia.
  - by rewrite Hf, file_rest_advance, Hr by (unfold k; lia).
  - unfold zlen in *. rewrite length_drop. lia.
Qed.

(** C8. Opening a file by name and reading it all yields the file's content: for
    a valid UTF-8 name the volume is asked for its UTF-16 form, the instance the
    firmware answers with is copied, and reading goes through the copy. *)
Theorem FS_Open_ReadAll `{OpenService, !DmaLaws, Append} fuel root o h vn rs a s' v content w :
  fs_volume root = Some (mkFile (Some o) h vn) -> h <> 0 ->
  Forall scalar rs -> Forall (fun r => r <> 0) rs -> w_mux w = false ->
  load64 (w_mem w) (o + off_Open) = open_entry -> o + off_Open + 8 <= w_brk w ->
  open_file (w_fw w) h (utf16_Encode rs) = Some (a, s') ->
  instance_at a v w -> revision_ok (fileProtocol.Revision v) = true ->
  fileProtocol.Read v = read_entry -> file_rest s' a = content ->
  zlen content < 2 ^ 62 -> zlen content < Z.of_nat fuel ->
  exists f w1, FS_Open root (utf8 rs) w = (Ret (Some f, None), w1) /\
    Name (mkFileInfo (bin_zero fileInfo.t) (f_addr f) (f_name f)) = utf8 rs /\
    exists w2, ReadAll fuel f w1 = (Ret (content, None), w2) /\ w_mux w2 = false.
Proof.
  intros Hvol Hh Hs Hn Hm He Hlow Hf Hi Hrev Hread Hc Hsz Hfuel.
  destruct (open_found o h rs a s' v w Hs Hn Hm He Hlow Hf Hi Hrev)
    as (o' & w1 & E & Hl & Hb1 & Hb2 & _ & Hf1 & Hm1).
  exists (mkFile (Some o') a (utf8 rs)), w1. unfold FS_Open. rewrite Hvol.
  rewrite (proj2 (Z.eqb_neq _ _)) by done. erewrite bind_step by exact E.
  split; [done|]. split; [done|]. destruct Hi as (Ha & Hv & _).
  assert (stream (mkFile (Some o') a (utf8 rs)) content (o' + 88) w1) as Hstream.
  { exists o'. split_and!; try done; [unfold off_Read; cbn [f_addr]; lia| |by rewrite Hf1].
    rewrite <-Hread. pose proof (file_entries_word v Hv) as Hwd.
    apply (load_entry v (file_entries v) o' 4 _ _ (enc_file v)); try done.
    by apply (Forall_lookup_1 _ _ 4%nat _ Hwd). }
  destruct (ReadAll_stream fuel _ content (o' + 88) w1 Hstream Hm1 Hb2 Hfuel)
    as (w2 & ? & _ & _ & ?). eauto.
Qed.

(** A device error is not reported as one by [read] when the firmware leaves
    the size alone: the number of bytes is the size of the whole slice although
    none was read, and since the status is compared with the bare code, without
    the error bit, it is not turned into io.EOF either. *)
Theorem read_device_error `{Machine} f h p n w :
  w_mux w = false -> 0 < n < 2 ^ 63 -> f + off_Read + 8 <= w_brk w ->
  (forall args m, firmware (load64 (w_mem w) (f + off_Read)) args m (w_fw w) =
                  (Spec.code DEVICE_ERROR, m, w_fw w)) ->
  exists w', read f h p n w = (Ret (n, Some (ErrStatus (Spec.code DEVICE_ERROR) 7)), w') /\
    kept_below (w_brk w) w w'.
Proof.
  intros Hm Hn Hlow Hfw. unfold read. erewrite bind_step by reflexivity.
  rewrite (proj2 (Z.eqb_neq _ _)) by lia. do 3 erewrite bind_step by reflexivity.
  erewrite bind_step by by apply CallService_step.
  unfold fw_step. rewrite alloc_world_load64 by (right; lia).
  rewrite alloc_world_fw, Hfw. cbn [fst snd].
  change (2 ^ 63) with 9223372036854775808 in Hn.
  assert (is_word 64 n) as Hw by (unfold is_word; change (2 ^ 64) with 18446744073709551616; lia).
  erewrite bind_step by (unfold get64; cbn [w_mem]; by rewrite alloc_world_word).
  change (Spec.code DEVICE_ERROR =? Core.EFI_DEVICE_ERROR) with false.
  rewrite (proj2 (Z.eqb_neq n 0)) by lia. cbn [orb].
  rewrite swrap_small by (try lia; change (2 ^ (64 - 1)) with 9223372036854775808; lia).
  eexists. split; [reflexivity|]. intros b j Hb. cbn [w_mem]. by apply alloc_kept.
Qed.

(** ** A one-file volume

    The handle of the volume is 5; a name that starts with K opens the file,
    whose instance is at 0x6000.  The state is what is left to read. *)

Definition file_firmware (fn : Z) (args : list Z) (m : memory) (s : list Z) :
    Z * memory * list Z :=
  if fn =? 0x9001 then
    match args with
    | [h; psize; p] =>
        let rest := if h =? 0x6000 then s else [] in
        let k := Z.min (load64 m psize) (zlen rest) in
        (0, store64 (store_bytes m p (take (Z.to_nat k) rest)) psize k,
         if h =? 0x6000 then drop (Z.to_nat k) s else s)
    | _ => (Spec.code UNSUPPORTED, m, s)
    end
  else if fn =? 0x9003 then (Spec.code DEVICE_ERROR, m, s)
  else
    match args with
    | [h; slot; pname; mode; attributes] =>
        if le_dec (load_bytes m pname 2) =? 0x4b then (0, store64 m slot 0x6000, s)
        else (Spec.code NOT_FOUND, m, s)
    | _ => (Spec.code UNSUPPORTED, m, s)
    end.

Definition file_machine : Machine := machine_with (list Z) file_firmware.

#[refine] Instance demo_file_service : FileService (H := file_machine) := {
  file_rest s h := if h =? 0x6000 then s else [];
  file_advance s h k := if h =? 0x6000 then drop (Z.to_nat k) s else s;
  read_entry := 0x9001;
}.
Proof.
  - intros s h k Hk. destruct (h =? 0x6000); [done|by rewrite drop_nil].
  - reflexivity.
Defined.

#[refine] Instance demo_open_service : OpenService (H := file_machine) := {
  open_file s h us := if hd 0 us =? 0x4b then Some (0x6000, s) else None;
  open_entry := 0x9002;
}.
Proof.
  - intros s h us a s'. case_match; [|done]. intros [= <- _].
    split; [discriminate|reflexivity].
  - intros h slot pname us m s Hw _ Hm. cbn [firmware file_machine machine_with].
    unfold file_firmware. change (0x9002 =? 0x9001) with false. cbn iota.
    change (0x9002 =? 0x9003) with false. cbn iota.
    replace (le_dec (load_bytes m pname 2)) with (hd 0 us); [by destruct (hd 0 us =? 0x4b)|].
    rewrite <-(take_load_bytes m pname (2 * (length us + 1))), Hm by lia.
    destruct us as [|u us]; [reflexivity|]. cbn [app map concat hd].
    rewrite take_app_exact by (by rewrite length_le_enc).
    apply Forall_cons in Hw as [Hu _]. by rewrite le_dec_enc_word.
Defined.

Definition demo_instance : fileProtocol.t :=
  fileProtocol.mk 0x20000 0x9002 0 0 0x9001 0 0 0 0 0 0.

(** The volume's own copy is at 0x5000. *)
Definition file_world : World (H := file_machine) :=
  mkWorld file_machine
    (store_bytes (store_bytes ∅ 0x6000 (enc demo_instance)) 0x5000 (enc demo_instance))
    0x10000 false [] (bytes_of_string "MZ kernel").

Definition demo_append : Append.
Proof.
  refine {| growslice c := 2 * c + 1 |}.
  intros c Hc. change (2 ^ 62) with 4611686018427387904 in Hc.
  change (2 ^ 63) with 9223372036854775808. lia.
Defined.

Definition demo_file : File := mkFile (Some 0x5000) 0x6000 [].

Lemma demo_stream :
  file_stream (H := file_machine) demo_file (bytes_of_string "MZ kernel") 0x8000 file_world.
Proof. exists 0x5000. split_and!; try reflexivity; try (vm_compute; congruence). Defined.

Lemma ReadAll_correct_witness :
  exists w', ReadAll (H := file_machine) (H0 := demo_append) 10 demo_file file_world =
      (Ret (bytes_of_string "MZ kernel", None), w') /\
    stream (H := file_machine) demo_file [] 0x8000 w' /\
    kept_below (H := file_machine) 0x8000 file_world w' /\ w_mux w' = false.
Proof.
  apply (ReadAll_correct (H := file_machine) (H0 := demo_append) 10 demo_file
           (bytes_of_string "MZ kernel") 0x8000 file_world);
    [exact demo_stream|reflexivity|vm_compute; congruence|reflexivity].
Defined.

Lemma File_Read_correct_witness :
  exists w', File_Read (H := file_machine) demo_file 0x9000 4 file_world =
      (Ret (4, if decide (bytes_of_string "MZ kernel" = []) then Some ErrEOF else None), w') /\
    load_bytes (w_mem w') 0x9000 4 = take 4 (bytes_of_string "MZ kernel") /\
    file_stream (H := file_machine) demo_file (drop 4 (bytes_of_string "MZ kernel")) 0x8000 w' /\
    kept_below (H := file_machine) 0x9000 file_world w' /\ w_mux w' = false.
Proof.
  apply (File_Read_correct (H := file_machine) demo_file
           (bytes_of_string "MZ kernel") 0x8000 0x9000 4 file_world);
    [exact demo_stream|reflexivity|lia|lia|vm_compute; congruence].
Defined.

Definition demo_fs : FS := mkFS None 0 0 0 (Some (mkFile (Some 0x5000) 5 [])).

Lemma FS_Open_ReadAll_witness :
  exists f w1, FS_Open (H := file_machine) demo_fs (utf8 [0x4b]) file_world =
      (Ret (Some f, None), w1) /\
    Name (mkFileInfo (bin_zero fileInfo.t) (f_addr f) (f_name f)) = utf8 [0x4b] /\
    exists w2, ReadAll (H := file_machine) (H0 := demo_append) 10 f w1 =
      (Ret (bytes_of_string "MZ kernel", None), w2) /\ w_mux w2 = false.
Proof.
  apply (FS_Open_ReadAll (H := file_machine) (H2 := machine_with_dma _ _) (H3 := demo_append)
           10 demo_fs 0x5000 5 [] [0x4b] 0x6000 (bytes_of_string "MZ kernel")
           demo_instance (bytes_of_string "MZ kernel") file_world); try reflexivity.
  - discriminate.
  - apply (bool_decide_unpack _). vm_compute. exact I.
  - apply (bool_decide_unpack _). vm_compute. exact I.
  - vm_compute. congruence.
  - split_and!; [discriminate|vm_compute; repeat split; congruence|split; [reflexivity|intros n; reflexivity]
                |vm_compute; congruence|vm_compute; reflexivity].
Defined.

Lemma read_device_error_witness :
  let w := mkWorld file_machine (store64 ∅ (0x5000 + off_Read) 0x9003) 0x10000 false [] [] in
  exists w', read (H := file_machine) 0x5000 0x6000 0x9000 16 w =
      (Ret (16, Some (ErrStatus (Spec.code DEVICE_ERROR) 7)), w') /\
    kept_below (H := file_machine) (w_brk w) w w'.
Proof.
  intros w. apply (read_device_error (H := file_machine) 0x5000 0x6000 0x9000 16 w);
    [reflexivity|lia|vm_compute; congruence|].
  intros args m. replace (load64 _ _) with 0x9003 by (vm_compute; reflexivity). reflexivity.
Defined.

