(* ===== verification/DevicePath.v ===== *)
(** * DevicePath: EFI device paths

    pkg/ueficore/path.go: the parser of the boot device's path, and the path of
    a file on it, as LoadImage takes it. *)

From S2P Require Import Prelude Binary Machine Text Tables Desc Console Boot FileSys.

Definition bufferSize : Z := 65536.
Definition maxDepth : Z := 16.

Abbreviation Node := DevicePathNode.t.

(** [DevicePath] and [FilePath]: a node header and its data. *)
Record DevicePath := mkDevicePath { dp_node : Node; Data : list Z }.

(** [DevicePathNode.Bytes] *)
Definition Node_Bytes (d : Node) : list Z :=
  le_enc 1 (DevicePathNode.Type_ d) ++ le_enc 1 (DevicePathNode.SubType d) ++
  le_enc 2 (DevicePathNode.Length d).

(** [FilePath.Bytes] *)
Definition FilePath_Bytes (d : DevicePath) : list Z := Node_Bytes (dp_node d) ++ Data d.

Definition is_end (node : Node) : bool :=
  (DevicePathNode.Type_ node =? 0x7f) && (DevicePathNode.SubType node =? 0xff).

(** The parser's loop: the nodes and the offset reached.  It stops at [i =
    maxDepth], so [maxDepth + 1] rounds are enough. *)
Fixpoint devicePath_loop (fuel : nat) (buf : list Z) (i off : Z) (devicePath : list DevicePath) :
    outcome (list DevicePath * Z * error) :=
  match fuel with
  | O => NoFuel
  | S fuel =>
      if i =? maxDepth
      then Ret ([], off, Some (ErrNew "device path nodes limit exceeded")) else
      if zlen buf <? off + 4 then Panic PSlice else
      let '(node, err) := unmarshalBinary (sub (Z.to_nat off) 4 buf) (bin_zero Node) in
      match err with
      | Some _ => Ret ([], off, err)
      | None =>
          if is_end node then Ret (devicePath, off, None) else
          let len := DevicePathNode.Length node in
          if (len =? 0) || (0xff <? len) then Ret ([], off, Some (ErrNew "invalid length")) else
          let off := off + 4 in
          let dataSize := u16 (len - 4) in
          if zlen buf <? off + dataSize then Panic PSlice else
          let d := mkDevicePath node (sub (Z.to_nat off) (Z.to_nat dataSize) buf) in
          devicePath_loop fuel buf (i + 1) (off + dataSize) (devicePath ++ [d])
      end
  end.

(** The whole parse: nodes and descriptor, [nil] with an error. *)
Definition parse_path (buf : list Z) : outcome (list DevicePath * list Z * error) :=
  match devicePath_loop (S (Z.to_nat maxDepth)) buf 0 0 [] with
  | Ret (devicePath, off, None) => Ret (devicePath, take (Z.to_nat off) buf, None)
  | Ret (_, _, Some err) => Ret ([], [], Some err)
  | Panic p => Panic p
  | Deadlock => Deadlock
  | NoFuel => NoFuel
  end.

Definition file_node (pathName : list Z) : DevicePath :=
  mkDevicePath (DevicePathNode.mk 0x04 0x04 (u16 (4 + zlen pathName))) pathName.

Definition devicePathEnd : Node := DevicePathNode.mk 0x7f 0xff 4.

Section Path.
Context `{Machine}.

Definition devicePath (root : FS) : M (list DevicePath * list Z * error) :=
  let addr := fs_device root in
  match dma_NewRegion addr bufferSize false with
  | Some err => mret ([], [], Some err)
  | None =>
      ptr ← lift (dma_Reserve (addr, bufferSize) bufferSize 0);
      buf ← get_bytes ptr (Z.to_nat bufferSize);
      lift (parse_path buf)
  end.

Definition FilePath (root : FS) (name : gostring) :
    M (list DevicePath * DevicePath * list Z * error) :=
  let filePath := file_node (toUTF16 name) in
  '(devicePath, desc, err) ← devicePath root;
  match err with
  | Some _ => mret (devicePath, filePath, desc, err)
  | None =>
      let desc := desc ++ FilePath_Bytes filePath in
      let desc := desc ++ Node_Bytes devicePathEnd in
      mret (devicePath, filePath, desc, None)
  end.
End Path.

(** ** Well-formed nodes *)

Definition node_ok (d : DevicePath) : Prop :=
  bin_ok (dp_node d) /\ is_end (dp_node d) = false /\ Forall is_byte (Data d) /\
  DevicePathNode.Length (dp_node d) = 4 + zlen (Data d) /\
  DevicePathNode.Length (dp_node d) <= 255.

Definition path_bytes (l : list DevicePath) : list Z := concat (map FilePath_Bytes l).

Lemma Node_Bytes_enc d : Node_Bytes d = enc d.
Proof. destruct d. unfold Node_Bytes, enc, marshalBinary. cbn. by rewrite app_nil_r. Qed.

Lemma Node_Bytes_length d : length (Node_Bytes d) = 4%nat.
Proof. unfold Node_Bytes. by rewrite !length_app, !length_le_enc. Qed.

Lemma FilePath_Bytes_length d : length (FilePath_Bytes d) = (4 + length (Data d))%nat.
Proof. unfold FilePath_Bytes. by rewrite length_app, Node_Bytes_length. Qed.

Lemma path_bytes_snoc l d : path_bytes (l ++ [d]) = path_bytes l ++ FilePath_Bytes d.
Proof. unfold path_bytes. rewrite map_app, concat_app. simpl. by rewrite app_nil_r. Qed.

Lemma path_bytes_app l k : path_bytes (l ++ k) = path_bytes l ++ path_bytes k.
Proof. unfold path_bytes. by rewrite map_app, concat_app. Qed.

(** The node read at an offset where its bytes are. *)
Lemma read_node pre d rest z :
  bin_ok d ->
  unmarshalBinary (sub (length pre) 4 (pre ++ Node_Bytes d ++ rest)) z = (d, None).
Proof.
  intros Hd. rewrite sub_app_exact by (by rewrite ?Node_Bytes_length).
  rewrite Node_Bytes_enc. by apply unmarshal_exact.
Qed.

Section Parse.
(** One round over a well-formed node. *)
Lemma loop_node fuel pre d rest i acc :
  node_ok d -> i <> maxDepth ->
  devicePath_loop (S fuel) (pre ++ FilePath_Bytes d ++ rest) i (zlen pre) acc =
  devicePath_loop fuel (pre ++ FilePath_Bytes d ++ rest) (i + 1)
    (zlen (pre ++ FilePath_Bytes d)) (acc ++ [d]).
Proof.
  intros (Hok & Hend & Hb & Hlen & H255) Hi. cbn [devicePath_loop].
  rewrite (proj2 (Z.eqb_neq _ _)) by done.
  assert (zlen (FilePath_Bytes d) = 4 + zlen (Data d)) as Hfl.
  { unfold zlen. rewrite FilePath_Bytes_length. lia. }
  pose proof (zlen_nonneg (Data d)). pose proof (zlen_nonneg rest). pose proof (zlen_nonneg pre).
  rewrite (proj2 (Z.ltb_ge _ (zlen pre + 4))) by (rewrite !zlen_app, Hfl; lia).
  replace (Z.to_nat (zlen pre)) with (length pre) by (unfold zlen; lia).
  assert (unmarshalBinary (sub (length pre) 4 (pre ++ FilePath_Bytes d ++ rest)) (bin_zero Node)
          = (dp_node d, None)) as ->.
  { unfold FilePath_Bytes. rewrite <-app_assoc. by apply read_node. }
  rewrite Hend, Hlen. rewrite (proj2 (Z.eqb_neq _ 0)), (proj2 (Z.ltb_ge 255 _)) by lia. cbn [orb].
  rewrite wrap_small by (unfold is_word; change (2 ^ 16) with 65536; lia).
  rewrite (proj2 (Z.ltb_ge _ _)) by (rewrite !zlen_app, Hfl; lia).
  f_equal.
  - rewrite zlen_app, Hfl. lia.
  - do 2 f_equal. destruct d as [nd data]. cbn [dp_node Data] in *. f_equal.
    unfold FilePath_Bytes. cbn [dp_node Data]. rewrite <-app_assoc, (app_assoc pre).
    apply sub_app_exact; [|unfold zlen; lia].
    rewrite length_app, Node_Bytes_length. unfold zlen. lia.
Qed.

Lemma loop_nodes fuel pre ds rest i acc :
  Forall node_ok ds -> 0 <= i -> i + zlen ds <= maxDepth ->
  devicePath_loop (length ds + fuel) (pre ++ path_bytes ds ++ rest) i (zlen pre) acc =
  devicePath_loop fuel (pre ++ path_bytes ds ++ rest) (i + zlen ds)
    (zlen (pre ++ path_bytes ds)) (acc ++ ds).
Proof.
  revert pre i acc. induction ds as [|d ds IH]; intros pre i acc Hok Hi Hd.
  { unfold path_bytes. cbn. by rewrite !app_nil_r, Z.add_0_r. }
  apply Forall_cons in Hok as [Hd1 Hok]. rewrite zlen_cons in *.
  pose proof (zlen_nonneg ds). change (path_bytes (d :: ds)) with (FilePath_Bytes d ++ path_bytes ds).
  cbn [length Nat.add]. rewrite <-!app_assoc, loop_node by (done || lia).
  specialize (IH (pre ++ FilePath_Bytes d) (i + 1) (acc ++ [d]) Hok).
  rewrite <-!app_assoc in IH. rewrite IH by lia.
  replace (i + 1 + zlen ds) with (i + (1 + zlen ds)) by lia.
  reflexivity.
Qed.

Lemma loop_end fuel pre rest i acc :
  i <> maxDepth ->
  devicePath_loop (S fuel) (pre ++ Node_Bytes devicePathEnd ++ rest) i (zlen pre) acc =
  Ret (acc, zlen pre, None).
Proof.
  intros Hi. cbn [devicePath_loop]. rewrite (proj2 (Z.eqb_neq _ _)) by done.
  pose proof (zlen_nonneg rest).
  rewrite (proj2 (Z.ltb_ge _ _)).
  2: { unfold zlen in *. rewrite !length_app, Node_Bytes_length. lia. }
  replace (Z.to_nat (zlen pre)) with (length pre) by (unfold zlen; lia).
  rewrite read_node by (vm_compute; repeat split; congruence). reflexivity.
Qed.

Lemma parse_nodes ds rest :
  Forall node_ok ds -> zlen ds < maxDepth ->
  parse_path (path_bytes ds ++ Node_Bytes devicePathEnd ++ rest) =
  Ret (ds, path_bytes ds, None).
Proof.
  intros Hok Hd. unfold parse_path.
  assert (S (Z.to_nat maxDepth) = length ds + S (16 - length ds))%nat as ->.
  { unfold zlen, maxDepth in *. lia. }
  pose proof (loop_nodes (S (16 - length ds)) [] ds (Node_Bytes devicePathEnd ++ rest) 0 [] Hok) as E.
  cbn [app] in E. change (zlen []) with 0 in E. rewrite E by lia.
  rewrite loop_end by lia. unfold zlen. rewrite Nat2Z.id. by rewrite take_app_exact.
Qed.
End Parse.

Lemma devicePath_step `{Machine, !DmaLaws} root ds rest w :
  Forall node_ok ds -> zlen ds < maxDepth ->
  dma_aligned (fs_device root) -> dma_NewRegion (fs_device root) bufferSize false = None ->
  load_bytes (w_mem w) (fs_device root) (Z.to_nat bufferSize) =
    path_bytes ds ++ Node_Bytes devicePathEnd ++ rest ->
  devicePath root w = (Ret (ds, path_bytes ds, None), w).
Proof.
  intros Hok Hd Hal Hr Hm. unfold devicePath. rewrite Hr.
  erewrite bind_step by (unfold lift; rewrite dma_reserve_aligned by (done || unfold bufferSize; lia); reflexivity).
  erewrite bind_step by reflexivity. rewrite Hm. unfold lift. by rewrite parse_nodes.
Qed.

Lemma FilePath_step `{Machine, !DmaLaws} root ds rest name w :
  Forall node_ok ds -> zlen ds < maxDepth ->
  dma_aligned (fs_device root) -> dma_NewRegion (fs_device root) bufferSize false = None ->
  load_bytes (w_mem w) (fs_device root) (Z.to_nat bufferSize) =
    path_bytes ds ++ Node_Bytes devicePathEnd ++ rest ->
  let fp := file_node (toUTF16 name) in
  FilePath root name w =
  (Ret (ds, fp, (path_bytes ds ++ FilePath_Bytes fp) ++ Node_Bytes devicePathEnd, None), w).
Proof.
  intros Hok Hd Hal Hr Hm fp. unfold FilePath.
  by erewrite bind_step by (by apply (devicePath_step root ds rest)).
Qed.

(** The size computed for the data of a node shorter than its header. *)
Lemma short_data_size len : 1 <= len <= 3 -> u16 (len - 4) = len + 65532.
Proof.
  intros. unfold wrap. change (2 ^ 16) with 65536. rewrite <-(Z.mod_add _ 1) by lia.
  rewrite Z.mod_small; lia.
Qed.

(** ** Safety on any buffer *)

Section Safe.
Variable buf : list Z.
Hypothesis buf_len : zlen buf = bufferSize.
Hypothesis buf_bytes : Forall is_byte buf.

(** The node header at an offset. *)
Definition header (off : Z) : Node := (unmarshalBinary (sub (Z.to_nat off) 4 buf) (bin_zero Node)).1.

(** The headers that the parser meets: the first, and the one after a node that is not the
    end and has a length from 4 to 255, up to the limit on nodes. *)
Inductive meets : Z -> Z -> Prop :=
| meets_first : meets 0 0
| meets_next i off : meets i off -> is_end (header off) = false ->
    4 <= DevicePathNode.Length (header off) <= 255 -> i + 1 < maxDepth ->
    meets (i + 1) (off + DevicePathNode.Length (header off)).

(** A header whose length is too small for the header itself. *)
Definition short_node (off : Z) : Prop :=
  is_end (header off) = false /\ 1 <= DevicePathNode.Length (header off) <= 3.

Lemma meets_range i off : meets i off -> 0 <= i < maxDepth /\ 0 <= off <= 255 * i.
Proof using. clear buf_len buf_bytes. induction 1; unfold maxDepth in *; lia. Qed.

(** One round of the loop, by the header's length. *)
Lemma loop_round fuel i off acc : 0 <= i < maxDepth -> 0 <= off <= 255 * i ->
  let len := DevicePathNode.Length (header off) in 0 <= len /\
  devicePath_loop (S fuel) buf i off acc =
    if is_end (header off) then Ret (acc, off, None)
    else if (len =? 0) || (255 <? len) then Ret ([], off, Some (ErrNew "invalid length"))
    else if len <=? 3 then Panic PSlice
    else devicePath_loop fuel buf (i + 1) (off + len)
           (acc ++ [mkDevicePath (header off) (sub (Z.to_nat (off + 4)) (Z.to_nat (u16 (len - 4))) buf)]).
Proof.
  intros Hi Ho len. subst len. cbn [devicePath_loop]. unfold maxDepth, bufferSize in *.
  rewrite (proj2 (Z.eqb_neq i _)) by lia. rewrite (proj2 (Z.ltb_ge _ _)) by lia.
  destruct (unmarshal_ok (sub (Z.to_nat off) 4 buf) (bin_zero Node)) as (node & E & Hok).
  { rewrite length_sub; [reflexivity|]. unfold zlen in buf_len. lia. }
  { by apply Forall_sub. }
  assert (header off = node) as -> by (unfold header; by rewrite E). rewrite E.
  set (len := DevicePathNode.Length node).
  assert (0 <= len) as Hpos.
  { unfold bin_ok in Hok. destruct node. cbn in Hok. unfold len. cbn. unfold is_word in Hok. lia. }
  split; [done|]. destruct (is_end node); [done|].
  destruct ((len =? 0) || (255 <? len)) eqn:Hlen; [done|].
  apply orb_false_iff in Hlen as [H0%Z.eqb_neq H255%Z.ltb_ge].
  destruct (Z.leb_spec len 3).
  - rewrite (proj2 (Z.ltb_lt _ _)); [done|]. rewrite short_data_size; lia.
  - assert (u16 (len - 4) = len - 4) as Hw
      by (apply wrap_small; unfold is_word; change (2 ^ 16) with 65536; lia).
    rewrite Hw, (proj2 (Z.ltb_ge _ _)) by lia. f_equal. lia.
Qed.

(** The loop from a header that is met ends: at that header or a later one that is short. *)
Lemma loop_safe fuel i off acc : meets i off -> maxDepth - i < Z.of_nat fuel ->
  (exists r, devicePath_loop fuel buf i off acc = Ret r) \/
  (devicePath_loop fuel buf i off acc = Panic PSlice /\ exists j o, meets j o /\ short_node o).
Proof.
  revert i off acc. induction fuel as [|fuel IH]; intros i off acc Hm Hf;
    destruct (meets_range i off Hm) as [Hi Ho]; [lia|].
  destruct (loop_round fuel i off acc Hi Ho) as [Hpos ->]. set (len := DevicePathNode.Length _) in *.
  destruct (is_end (header off)) eqn:Hend; [eauto|].
  destruct ((len =? 0) || (255 <? len)) eqn:Hlen; [eauto|].
  apply orb_false_iff in Hlen as [H0%Z.eqb_neq H255%Z.ltb_ge].
  destruct (Z.leb_spec len 3).
  - right. split; [done|]. exists i, off. split; [done|]. split; [done|]. fold len. lia.
  - destruct (decide (i + 1 < maxDepth)) as [Hi'|Hi'].
    + apply IH; [|lia]. apply meets_next; [done|done|fold len; lia|done].
    + destruct fuel; [lia|]. cbn [devicePath_loop]. rewrite (proj2 (Z.eqb_eq (i + 1) _)) by lia. eauto.
Qed.

(** The loop gets to every header that [meets] names. *)
Lemma loop_meets i off : meets i off -> exists acc,
  devicePath_loop (S (Z.to_nat maxDepth)) buf 0 0 [] =
  devicePath_loop (S (Z.to_nat (maxDepth - i))) buf i off acc.
Proof.
  induction 1 as [|i off Hm [acc IH] Hend Hlen Hi]; [by exists []|].
  destruct (meets_range i off Hm) as [Hi' Ho]. rewrite IH.
  destruct (loop_round (Z.to_nat (maxDepth - i)) i off acc Hi' Ho) as [_ ->].
  rewrite Hend, (proj2 (Z.eqb_neq _ 0)), (proj2 (Z.ltb_ge 255 _)), (proj2 (Z.leb_gt _ 3)) by lia. cbn [orb].
  eexists. f_equal. lia.
Qed.

Lemma short_panics i off : meets i off -> short_node off -> parse_path buf = Panic PSlice.
Proof.
  intros Hm [Hend Hlen]. unfold parse_path. destruct (loop_meets i off Hm) as [acc ->].
  destruct (meets_range i off Hm) as [Hi Ho].
  destruct (loop_round (Z.to_nat (maxDepth - i)) i off acc Hi Ho) as [_ ->].
  by rewrite Hend, (proj2 (Z.eqb_neq _ 0)), (proj2 (Z.ltb_ge 255 _)), (proj2 (Z.leb_le _ 3)) by lia.
Qed.

Lemma parse_safe :
  (exists r, parse_path buf = Ret r) \/
  (parse_path buf = Panic PSlice /\ exists i off, meets i off /\ short_node off).
Proof.
  unfold parse_path.
  destruct (loop_safe (S (Z.to_nat maxDepth)) 0 0 []) as [[[[l o] err] ->]|[-> ?]];
    [apply meets_first|unfold maxDepth; lia| |auto].
  left. destruct err; eauto.
Qed.
End Safe.

(** ** Properties *)

(** [devicePath] returns the nodes of the boot device's path and their bytes,
    for every path of at most 15 well-formed nodes that ends with the end
    node, whatever follows it in the 64 KiB that are mapped. *)
Theorem devicePath_correct `{Machine, !DmaLaws} root ds rest w :
  Forall node_ok ds -> zlen ds < maxDepth ->
  dma_aligned (fs_device root) -> dma_NewRegion (fs_device root) bufferSize false = None ->
  load_bytes (w_mem w) (fs_device root) (Z.to_nat bufferSize) =
    path_bytes ds ++ Node_Bytes devicePathEnd ++ rest ->
  devicePath root w = (Ret (ds, path_bytes ds, None), w).
Proof. apply devicePath_step. Qed.

(** C10. The path of a file is the device's path with one file path node before
    the end node; when the name is short enough for one node of at most 255
    bytes, the package's own parser reads this path back as the device's nodes
    and the file's node, whose data is the UTF-16 name. *)
Theorem FilePath_roundtrip `{Machine, !DmaLaws} root ds rest name w :
  Forall node_ok ds -> zlen ds < maxDepth - 1 ->
  dma_aligned (fs_device root) -> dma_NewRegion (fs_device root) bufferSize false = None ->
  load_bytes (w_mem w) (fs_device root) (Z.to_nat bufferSize) =
    path_bytes ds ++ Node_Bytes devicePathEnd ++ rest ->
  4 + zlen (toUTF16 name) <= 255 ->
  exists fp desc, FilePath root name w = (Ret (ds, fp, desc, None), w) /\
    Data fp = toUTF16 name /\
    DevicePathNode.Length (dp_node fp) = 4 + zlen (Data fp) /\
    forall pad, parse_path (desc ++ pad) = Ret (ds ++ [fp], path_bytes (ds ++ [fp]), None).
Proof.
  intros Hok Hd Hal Hr Hm Hname. do 2 eexists.
  split; [apply (FilePath_step root ds rest); done || lia|]. split; [done|].
  pose proof (zlen_nonneg (toUTF16 name)) as Hz.
  assert (u16 (4 + zlen (toUTF16 name)) = 4 + zlen (toUTF16 name)) as Hw
    by (apply wrap_small; unfold is_word; change (2 ^ 16) with 65536; lia).
  split; [exact Hw|]. intros pad. rewrite <-path_bytes_snoc, <-app_assoc.
  apply parse_nodes.
  - apply Forall_app. split; [done|]. apply Forall_cons_2; [|apply Forall_nil_2].
    unfold file_node. split_and!; cbn [dp_node Data DevicePathNode.Length].
    + unfold bin_ok. cbn. rewrite Hw. unfold is_word.
      change (2 ^ (8 * Z.of_nat 1)) with 256. change (2 ^ (8 * Z.of_nat 2)) with 65536.
      split_and!; lia || done.
    + reflexivity.
    + apply toUTF16_byte.
    + exact Hw.
    + lia.
  - rewrite zlen_app. unfold zlen at 2. simpl. lia.
Qed.

(** C24. On any 64 KiB of bytes the parser returns, with the nodes or an error, or it panics
    with a slice out of range; it panics exactly if one of the at most 16 headers that it
    meets, the first or the one after a well-formed node, has the length 1, 2 or 3 and is
    not the end. *)
Theorem parse_path_safe buf :
  zlen buf = bufferSize -> Forall is_byte buf ->
  ((exists r, parse_path buf = Ret r) \/ parse_path buf = Panic PSlice) /\
  (parse_path buf = Panic PSlice <-> exists i off, meets buf i off /\ short_node buf off).
Proof.
  intros Hl Hb. destruct (parse_safe buf Hl Hb) as [[r E]|[E Hs]]; (split; [eauto|]); split; [|..|done].
  - rewrite E. discriminate.
  - intros (i & off & Hm & Hs). eapply (short_panics buf Hl Hb); eauto.
  - done.
Qed.

(** A node with a length of 1, 2 or 3 after well-formed nodes makes the
    parser panic, although it means to refuse invalid lengths: the size of the
    node's data, [Length - 4], wraps around to nearly 64 KiB. *)
Theorem parse_path_short_node ds node rest :
  Forall node_ok ds -> zlen ds < maxDepth -> bin_ok node -> is_end node = false ->
  1 <= DevicePathNode.Length node <= 3 ->
  zlen (path_bytes ds ++ Node_Bytes node ++ rest) = bufferSize ->
  parse_path (path_bytes ds ++ Node_Bytes node ++ rest) = Panic PSlice.
Proof.
  intros Hok Hd Hn Hend Hlen Hsz. unfold parse_path.
  assert (S (Z.to_nat maxDepth) = length ds + S (16 - length ds))%nat as ->.
  { unfold zlen, maxDepth in *. lia. }
  pose proof (loop_nodes (S (16 - length ds)) [] ds (Node_Bytes node ++ rest) 0 [] Hok) as E.
  cbn [app] in E. change (zlen []) with 0 in E. rewrite E by lia. clear E.
  cbn [devicePath_loop]. rewrite (proj2 (Z.eqb_neq _ _)) by lia.
  pose proof (zlen_nonneg rest). pose proof (zlen_nonneg (path_bytes ds)).
  assert (zlen (Node_Bytes node) = 4) as Hnl by (unfold zlen; by rewrite Node_Bytes_length).
  rewrite (proj2 (Z.ltb_ge _ _)) by (rewrite !zlen_app, Hnl; lia).
  replace (Z.to_nat (zlen (path_bytes ds))) with (length (path_bytes ds)) by (unfold zlen; lia).
  rewrite read_node, Hend by done.
  rewrite (proj2 (Z.eqb_neq _ 0)), (proj2 (Z.ltb_ge 255 _)) by lia. cbn [orb].
  rewrite (proj2 (Z.ltb_lt _ _)); [done|].
  rewrite short_data_size, Hsz by done. unfold bufferSize. lia.
Qed.

(** ** A path of two nodes *)

Definition demo_nodes : list DevicePath :=
  [ mkDevicePath (DevicePathNode.mk 1 1 6) [2; 31];
    mkDevicePath (DevicePathNode.mk 4 1 8) [1; 0; 0; 8] ].

Definition path_world : World (H := quiet_machine) :=
  mkWorld quiet_machine
    (store_bytes ∅ 0x8000 (path_bytes demo_nodes ++ Node_Bytes devicePathEnd))
    0x100000 false [] tt.

Definition path_fs : FS := mkFS None 0x8000 0 0 None.

Lemma demo_nodes_ok : Forall node_ok demo_nodes.
Proof.
  repeat (apply Forall_cons_2; [split_and!|]); try apply Forall_nil_2;
    try reflexivity; try (vm_compute; congruence);
    try (apply (bool_decide_unpack _); vm_compute; exact I).
  all: vm_compute; repeat split; congruence.
Defined.

Definition path_rest : list Z :=
  load_bytes (w_mem path_world) (0x8000 + 18) (Z.to_nat 65518).

Lemma path_memory :
  load_bytes (w_mem path_world) (fs_device path_fs) (Z.to_nat bufferSize) =
  path_bytes demo_nodes ++ Node_Bytes devicePathEnd ++ path_rest.
Proof.
  replace (Z.to_nat bufferSize) with (18 + Z.to_nat 65518)%nat by (unfold bufferSize; lia).
  rewrite load_bytes_app, app_assoc. f_equal.
Defined.

Lemma devicePath_correct_witness :
  devicePath path_fs path_world = (Ret (demo_nodes, path_bytes demo_nodes, None), path_world).
Proof.
  apply (devicePath_correct (H := quiet_machine) (H0 := machine_with_dma _ _)
           path_fs demo_nodes path_rest path_world);
    [exact demo_nodes_ok|reflexivity|reflexivity|reflexivity|exact path_memory].
Defined.

Lemma FilePath_roundtrip_witness :
  exists fp desc, FilePath path_fs (utf8 [0x5c; 0x4b]) path_world =
      (Ret (demo_nodes, fp, desc, None), path_world) /\
    Data fp = toUTF16 (utf8 [0x5c; 0x4b]) /\
    DevicePathNode.Length (dp_node fp) = 4 + zlen (Data fp) /\
    forall pad, parse_path (desc ++ pad) =
      Ret (demo_nodes ++ [fp], path_bytes (demo_nodes ++ [fp]), None).
Proof.
  apply (FilePath_roundtrip (H := quiet_machine) (H0 := machine_with_dma _ _)
           path_fs demo_nodes path_rest (utf8 [0x5c; 0x4b]) path_world);
    [exact demo_nodes_ok|reflexivity|reflexivity|reflexivity|exact path_memory|vm_compute; congruence].
Defined.

Lemma zero_buffer : zlen (replicate (Z.to_nat bufferSize) 0) = bufferSize.
Proof. unfold zlen, bufferSize. rewrite length_replicate. lia. Defined.

(** A buffer of zeros has a node of length 0, which is refused. *)
Lemma parse_path_safe_witness :
  ~ exists i off, meets (replicate (Z.to_nat bufferSize) 0) i off /\
                  short_node (replicate (Z.to_nat bufferSize) 0) off.
Proof.
  intros Hs. apply (parse_path_safe (replicate (Z.to_nat bufferSize) 0)) in Hs.
  - revert Hs. vm_compute. discriminate.
  - exact zero_buffer.
  - apply Forall_replicate. split; [lia|reflexivity].
Defined.

Lemma parse_path_short_node_witness :
  parse_path (path_bytes demo_nodes ++ Node_Bytes (DevicePathNode.mk 1 1 2) ++
              replicate (Z.to_nat 65518) 0) = Panic PSlice.
Proof.
  apply (parse_path_short_node demo_nodes (DevicePathNode.mk 1 1 2)
           (replicate (Z.to_nat 65518) 0)).
  - exact demo_nodes_ok.
  - reflexivity.
  - vm_compute. repeat split; congruence.
  - reflexivity.
  - vm_compute. split; congruence.
  - rewrite !zlen_app. unfold zlen at 3. rewrite length_replicate. reflexivity.
Defined.
