(* ===== verification/Image.v ===== *)
(** * Image: loading and starting EFI images

    pkg/ueficore/image.go, and the boot program cmd/efi-verify/main.go: the
    configuration it reads from memory, and [executeKernel]. *)

From S2P Require Import Prelude Binary Machine Status Text Guid Tables Desc Boot FileSys DevicePath.

Definition loadImage : Z := 0xc8.
Definition startImage : Z := 0xd0.

(** A byte slice in memory; the nil slice is [None] where it matters. *)
Record slice := mkSlice { sl_ptr : Z; sl_len : Z }.

Section Image.
Context `{Machine}.

(** The common tail of [LoadImage] and [LoadImageMem]. *)
Definition load_image (s : BootServices) (boot : Z) (desc : list Z) (buf : slice) :
    M (Z * error) :=
  imageHandle_ ← alloc64 0;
  d ← addr_of_bytes desc;
  b ← elem0 (sl_ptr buf) (sl_len buf);
  status ← CallService (u64 (base s + loadImage))
             [u64 boot; imageHandle s; d; b; u64 (sl_len buf); imageHandle_];
  h ← get64 imageHandle_;
  mret (h, Core.parseStatus status).

Definition LoadImageMem (s : BootServices) (boot : Z) (root : FS) (name : gostring)
    (buf : slice) : M (Z * error) :=
  '(_, _, devicePath, err) ← FilePath root name;
  match err with
  | Some _ => mret (0, err)
  | None => load_image s boot devicePath buf
  end.

Definition StartImage (s : BootServices) (imageHandle : Z) : M error :=
  status ← CallService (u64 (base s + startImage)) [imageHandle; 0; 0];
  mret (Core.parseStatus status).

(** Bytes as a slice: the data is placed on the heap. *)
Definition slice_of (bytes : list Z) : M slice :=
  ptr ← alloc bytes; mret (mkSlice ptr (zlen bytes)).
End Image.

Section LoadImage.
Context `{Machine, Append}.

Definition LoadImage (fuel : nat) (s : BootServices) (boot : Z) (root : FS) (name : gostring) :
    M (Z * error) :=
  '(bytes, err) ← ReadFile fuel root name;
  match err with
  | Some _ => mret (0, err)
  | None =>
      buf ← slice_of bytes;
      LoadImageMem s boot root name buf
  end.
End LoadImage.

(** ** The configuration in memory *)

Definition kernelPath : gostring := bytes_of_string "\EFI\linux\kernel.efi".
Definition kerOff : Z := 0x30000000.
Definition cfgOff : Z := 0x20000000.
Definition cfgLen : Z := 10240.

(** The text before the first newline and, if there is one, the text after. *)
Fixpoint cut_newline (s : list Z) : list Z * option (list Z) :=
  match s with
  | [] => ([], None)
  | 10 :: s => ([], Some s)
  | c :: s => let '(a, b) := cut_newline s in (c :: a, b)
  end.

(** [bytes.SplitN(s, []byte{'\n'}, n)] for [n > 0]. *)
Fixpoint SplitN (s : list Z) (n : nat) : list (list Z) :=
  match n with
  | O => []
  | S O => [s]
  | S n => match cut_newline s with
           | (a, None) => [a]
           | (a, Some b) => a :: SplitN b n
           end
  end.

Definition is_digit (c : Z) : bool := (48 <=? c) && (c <=? 57).

(** [strconv.Atoi]'s value, its error dropped: 0 for text that is not a number,
    the nearest int for one that does not fit. *)
Definition Atoi (s : gostring) : Z :=
  let '(neg, digits) :=
    match s with
    | 43 :: s => (false, s)
    | 45 :: s => (true, s)
    | _ => (false, s)
    end in
  match digits with
  | [] => 0
  | _ =>
      if forallb is_digit digits then
        let v := foldl (fun acc c => 10 * acc + (c - 48)) 0 digits in
        if neg then Z.max (- 2 ^ 63) (- v) else Z.min (2 ^ 63 - 1) v
      else 0
  end.

Section Main.
Context `{Machine, Append}.

(** [unsafe.Slice] of a byte pointer *)
Definition unsafe_Slice (ptr len : Z) : M slice :=
  if len <? 0 then gopanic (PMsg "unsafe.Slice: len out of range")
  else mret (mkSlice ptr len).

(** [stringToUTF16Ptr]: the units on the heap. *)
Definition stringToUTF16Ptr (s : gostring) : M Z :=
  alloc (concat (map (le_enc 2) (stringToUTF16 s))).

(** [load].  The text of the read error also holds the path, which is left
    out here. *)
Definition load (fuel : nat) (UEFI : Services) (path : gostring) : M (option slice * error) :=
  '(root, err) ← Root UEFI;
  match err with
  | Some e => mret (None, Some (ErrWrap "could not open root volume " e))
  | None =>
      root ← deref root;
      '(bf, err) ← FS_Open root path;
      match err with
      | Some e => mret (None, Some (ErrWrap "could not open kernel " e))
      | None =>
          bf ← deref bf;
          '(data, err) ← ReadAll fuel bf;
          match err with
          | Some e => mret (None, Some (ErrWrap "Error reading " e))
          | None => data ← slice_of data; mret (Some data, None)
          end
      end
  end.

(** The command line of the loaded image at [raw], through pointers that are
    not checked. *)
Definition set_load_options (raw : Z) (cmdline : gostring) : M unit :=
  ptr ← stringToUTF16Ptr cmdline;
  _ ← put_bytes (u64 (raw + 48)) (le_enc 4 (u32 (zlen cmdline * 2)));
  p ← Ptrval (PtrUint16 ptr);
  put_bytes (u64 (raw + 56)) (le_enc 8 p).

Definition executeKernel (fuel : nat) (UEFI : Services) (path : gostring)
    (data : option slice) (cmdline : gostring) : M (gostring * error) :=
  '(root, err) ← Root UEFI;
  match err with
  | Some e => mret ([], Some (ErrWrap "could not open root volume " e))
  | None =>
      '(data, err) ← (match data with
                      | None => load fuel UEFI path
                      | Some _ => mret (data, None)
                      end);
      match err with
      | Some _ => mret ([], err)
      | None =>
          boot ← deref (s_Boot UEFI);
          root ← deref root;
          '(h, err) ← LoadImageMem boot 0 root path (default (mkSlice 0 0) data);
          match err with
          | Some e => mret ([], Some (ErrWrap "could not load image " e))
          | None =>
              '(_, rawMemoryAddress, _) ← LoadImageHandle boot h;
              _ ← set_load_options rawMemoryAddress cmdline;
              err ← StartImage boot h;
              mret ([], err)
          end
      end
  end.

(** [main]: [Some code] when it ends in [os.Exit(code)]. *)
Definition main (fuel : nat) (UEFI : Services) : M (option Z) :=
  cfg ← get_bytes cfgOff (Z.to_nat cfgLen);
  let parts := SplitN cfg 3 in
  let kerLen := Atoi (nth 0 parts []) in
  kerData ← unsafe_Slice kerOff kerLen;
  cmdline ← match parts !! 1%nat with Some c => mret c | None => gopanic PIndex end;
  '(_, err) ← executeKernel fuel UEFI kernelPath (Some kerData) cmdline;
  match err with
  | Some _ => mret (Some 1)
  | None =>
      boot ← deref (s_Boot UEFI);
      err ← Exit boot 0;
      match err with
      | Some _ =>
          rt ← deref (s_Runtime UEFI);
          _ ← ResetSystem rt EfiResetShutdown;
          mret None
      | None => mret None
      end
  end.
End Main.

(** ** Parsing the configuration *)

Lemma cut_newline_text a b : Forall (fun c => c <> 10) a -> cut_newline (a ++ 10 :: b) = (a, Some b).
Proof.
  induction 1 as [|c a Hc _ IH]; [done|]. cbn [app cut_newline]. rewrite IH.
  destruct c as [|p|p]; try done. repeat (destruct p as [p|p|]; try done).
Qed.

Lemma cut_newline_none a : Forall (fun c => c <> 10) a -> cut_newline a = (a, None).
Proof.
  induction 1 as [|c a Hc _ IH]; [done|]. cbn [cut_newline]. rewrite IH.
  destruct c as [|p|p]; try done. repeat (destruct p as [p|p|]; try done).
Qed.

(** The decimal digits of a number, as the tool that writes the configuration
    prints them. *)
Fixpoint digits (fuel : nat) (n : Z) (acc : list Z) : list Z :=
  match fuel with
  | O => acc
  | S fuel =>
      let acc := (48 + n mod 10) :: acc in
      if n <? 10 then acc else digits fuel (n / 10) acc
  end.

Definition decimal (n : Z) : gostring := digits 20 n [].

Definition digits_value (v : Z) (l : list Z) : Z := foldl (fun acc c => 10 * acc + (c - 48)) v l.

Lemma digits_spec fuel n acc :
  0 <= n < 10 ^ Z.of_nat fuel -> (0 < fuel)%nat ->
  exists ds, digits fuel n acc = ds ++ acc /\ ds <> [] /\
    forallb is_digit ds = true /\ digits_value 0 ds = n.
Proof.
  revert n acc. induction fuel as [|fuel IH]; intros n acc Hn Hf; [lia|]. cbn [digits].
  assert (is_digit (48 + n mod 10) = true) as Hd.
  { unfold is_digit. pose proof (Z.mod_pos_bound n 10). lia. }
  destruct (Z.ltb_spec n 10) as [Hlt|Hge].
  - exists [48 + n mod 10]. split_and!; try done; [by simpl; rewrite Hd|].
    unfold digits_value. simpl. rewrite Z.mod_small; lia.
  - rewrite Nat2Z.inj_succ, Z.pow_succ_r in Hn by lia.
    assert (0 <= n / 10 < 10 ^ Z.of_nat fuel) as Hq.
    { split; [apply Z.div_pos; lia|]. apply Z.div_lt_upper_bound; lia. }
    destruct (decide (fuel = 0%nat)) as [->|Hf0]; [simpl in Hq; Z.div_mod_to_equations; lia|].
    destruct (IH (n / 10) ((48 + n mod 10) :: acc) Hq) as (ds & E & Hne & Hall & Hv); [lia|].
    exists (ds ++ [48 + n mod 10]). rewrite E, <-app_assoc. split_and!; try done.
    + by destruct ds.
    + rewrite forallb_app, Hall. simpl. by rewrite Hd.
    + unfold digits_value in *. rewrite foldl_app, Hv. simpl. pose proof (Z.div_mod n 10). lia.
Qed.

Lemma Atoi_decimal n : 0 <= n < 2 ^ 63 -> Atoi (decimal n) = n /\ Forall (fun c => c <> 10) (decimal n).
Proof.
  intros Hn. change (2 ^ 63) with 9223372036854775808 in Hn.
  destruct (digits_spec 20 n []) as (ds & E & Hne & Hall & Hv).
  { change (10 ^ Z.of_nat 20) with 100000000000000000000. lia. }
  { lia. }
  rewrite app_nil_r in E. unfold decimal. rewrite E.
  assert (Forall (fun c => is_digit c = true) ds) as Hd.
  { apply Forall_forall. intros c Hc. rewrite forallb_forall in Hall.
    by apply Hall, list_elem_of_In. }
  split.
  - unfold Atoi. destruct ds as [|c ds]; [done|].
    apply Forall_cons in Hd as [Hc _].
    assert (c <> 43 /\ c <> 45) as [H43 H45] by (unfold is_digit in Hc; lia).
    assert ((match c :: ds with 43 :: s => (false, s) | 45 :: s => (true, s) | _ => (false, c :: ds) end)
            = (false, c :: ds)) as ->.
    { destruct c as [|p|p]; try done. repeat (destruct p as [p|p|]; try done). }
    rewrite Hall. fold (digits_value 0 (c :: ds)). rewrite Hv.
    change (2 ^ 63) with 9223372036854775808. lia.
  - eapply Forall_impl; [exact Hd|]. intros c Hc. unfold is_digit in Hc. simpl in Hc. lia.
Qed.

(** The two parts of a configuration. *)
Lemma config_parts n cmdline rest :
  0 <= n < 2 ^ 63 -> Forall (fun c => c <> 10) cmdline ->
  let parts := SplitN (decimal n ++ 10 :: cmdline ++ 10 :: rest) 3 in
  Atoi (nth 0 parts []) = n /\ parts !! 1%nat = Some cmdline.
Proof.
  intros Hn Hc. destruct (Atoi_decimal n Hn) as [Ha Hd].
  cbn [SplitN]. rewrite cut_newline_text by done. rewrite cut_newline_text by done. done.
Qed.

(** ** executeKernel *)

Section Execute.
Context `{Machine, Append}.

Definition options_world (raw : Z) (cmdline : gostring) (w : World) : World :=
  let w1 := alloc_world (toUTF16 cmdline) w in
  let w2 := set_mem (store_bytes (w_mem w1) (u64 (raw + 48)) (le_enc 4 (u32 (zlen cmdline * 2)))) w1 in
  set_mem (store_bytes (w_mem w2) (u64 (raw + 56)) (le_enc 8 (w_brk w))) w2.

Lemma set_load_options_step raw cmdline w :
  set_load_options raw cmdline w = (Ret tt, options_world raw cmdline w).
Proof. unfold set_load_options, stringToUTF16Ptr. by rewrite <-toUTF16_eq. Qed.

Lemma executeKernel_step fuel UEFI boot path data cmdline root h img raw err w w1 w2 w3 :
  s_Boot UEFI = Some boot ->
  Root UEFI w = (Ret (Some root, None), w1) ->
  LoadImageMem boot 0 root path data w1 = (Ret (h, None), w2) ->
  LoadImageHandle boot h w2 = (Ret (img, raw, err), w3) ->
  w_mux w3 = false ->
  let r := fw_step (u64 (base boot + startImage)) [h; 0; 0] (options_world raw cmdline w3) in
  executeKernel fuel UEFI path (Some data) cmdline w = (Ret ([], Core.parseStatus r.1), r.2).
Proof.
  intros Hs Hr Hl Hh Hm r. unfold executeKernel.
  erewrite bind_step by exact Hr. cbv beta iota. erewrite bind_step by reflexivity.
  cbv beta iota. rewrite Hs. erewrite bind_step by reflexivity. erewrite bind_step by reflexivity.
  cbn [default]. erewrite bind_step by exact Hl. cbv beta iota.
  erewrite bind_step by exact Hh. cbv beta iota.
  erewrite bind_step by apply set_load_options_step.
  unfold StartImage. rewrite bind_assoc. by erewrite bind_step by by apply CallService_step.
Qed.

(** What the started image finds through its loaded image protocol at [raw]. *)
Lemma options_world_spec raw rs w :
  Forall scalar rs -> 0 <= raw -> raw + 104 <= w_brk w -> is_word 64 (w_brk w) ->
  zlen (utf8 rs) * 2 < 2 ^ 32 ->
  let w' := options_world raw (utf8 rs) w in
  let ptr := load64 (w_mem w') (raw + 56) in
  ptr = w_brk w /\
  load_bytes (w_mem w') ptr (length (toUTF16 (utf8 rs))) = toUTF16 (utf8 rs) /\
  load32 (w_mem w') (raw + 48) = 2 * zlen (utf8 rs) /\
  (forall a n, a + Z.of_nat n <= w_brk w -> disjoint_ranges (raw + 48) 16 a n ->
     load_bytes (w_mem w') a n = load_bytes (w_mem w) a n).
Proof.
  intros Hs Hraw Hb Hw Hsz w' ptr. subst ptr w'. unfold options_world.
  pose proof (zlen_nonneg (utf8 rs)) as Hz.
  assert (u64 (raw + 48) = raw + 48 /\ u64 (raw + 56) = raw + 56) as [-> ->].
  { unfold is_word in Hw. split; apply wrap_small; unfold is_word; lia. }
  rewrite (wrap_small 32) by (unfold is_word; lia). cbn [w_mem set_mem w_brk].
  assert (forall v, length (le_enc 8 v) = 8%nat) as L8 by (intros; apply length_le_enc).
  assert (forall v, length (le_enc 4 v) = 4%nat) as L4 by (intros; apply length_le_enc).
  match goal with |- context [store_bytes ?m (raw + 56) _] =>
    pose proof (load64_store64 m (raw + 56) (w_brk w) Hw) as E end.
  unfold store64 in E. rewrite E. split; [done|]. split_and!.
  - rewrite !load_store_other by (rewrite ?L8, ?L4; unfold disjoint_ranges; lia).
    apply alloc_world_load.
  - unfold load32. rewrite load_store_other by (rewrite L8; unfold disjoint_ranges; lia).
    rewrite (Z.mul_comm 2). apply load32_store32. unfold is_word. lia.
  - intros a n Ha Hd. rewrite !load_store_other
      by (rewrite ?L8, ?L4; unfold disjoint_ranges in *; lia).
    by apply alloc_world_other.
Qed.

(** The command line as the started image finds it. *)
Lemma options_world_cmdline raw rs w :
  Forall scalar rs -> 0 <= raw -> raw + 104 <= w_brk w -> is_word 64 (w_brk w) ->
  zlen (utf8 rs) * 2 < 2 ^ 32 ->
  let w' := options_world raw (utf8 rs) w in
  load_bytes (w_mem w') (load64 (w_mem w') (raw + 56)) (length (toUTF16 (utf8 rs))) = toUTF16 (utf8 rs) /\
  (forall a n, a + Z.of_nat n <= w_brk w -> disjoint_ranges (raw + 48) 16 a n ->
     load_bytes (w_mem w') a n = load_bytes (w_mem w) a n) /\
  zlen (toUTF16 (utf8 rs)) - 2 <= load32 (w_mem w') (raw + 48) /\
  (load32 (w_mem w') (raw + 48) = zlen (toUTF16 (utf8 rs)) - 2 <-> Forall (fun r => r < 0x80) rs).
Proof.
  intros Hrs Hraw Hb Hw Hsz w'.
  destruct (options_world_spec raw rs w Hrs Hraw Hb Hw Hsz) as (_ & Htext & Hsize & Hrest).
  fold w' in Htext, Hsize, Hrest. split; [exact Htext|]. split; [exact Hrest|]. rewrite Hsize.
  destruct (units_le_utf8 rs Hrs) as [Hle Hiff]. rewrite <-Hiff.
  unfold zlen. rewrite length_toUTF16, runes_utf8 by done. lia.
Qed.

(** What [main] does once the image has returned with [err]. *)
Definition after_kernel (UEFI : Services) (boot : BootServices) (err : error) (w : World) :
    outcome (option Z) * World :=
  match err with
  | Some _ => (Ret (Some 1), w)
  | None =>
      let r := fw_step (u64 (base boot + exit)) [imageHandle boot; 0; 0; 0] w in
      match Core.parseStatus r.1, s_Runtime UEFI with
      | None, _ => (Ret None, r.2)
      | Some _, None => (Panic PNil, r.2)
      | Some _, Some rt =>
          (Ret None, (fw_step (u64 (rt_base rt + resetSystem))
             [u64 EfiResetShutdown; Core.EFI_SUCCESS; 0; 0] r.2).2)
      end
  end.

Lemma main_step fuel UEFI boot n cmdline rest w err w' :
  0 <= n < 2 ^ 63 -> Forall (fun c => c <> 10) cmdline ->
  load_bytes (w_mem w) cfgOff (Z.to_nat cfgLen) = decimal n ++ 10 :: cmdline ++ 10 :: rest ->
  s_Boot UEFI = Some boot -> w_mux w' = false ->
  executeKernel fuel UEFI kernelPath (Some (mkSlice kerOff n)) cmdline w = (Ret ([], err), w') ->
  main fuel UEFI w = after_kernel UEFI boot err w'.
Proof.
  intros Hn Hc Hcfg Hs Hm E. destruct (config_parts n cmdline rest Hn Hc) as [Ha Hp].
  unfold main, after_kernel. erewrite bind_step by reflexivity. rewrite Hcfg. cbv zeta. rewrite Ha, Hp.
  unfold unsafe_Slice. rewrite (proj2 (Z.ltb_ge n 0)) by lia. do 2 erewrite bind_step by reflexivity.
  erewrite bind_step by exact E. cbv beta iota. destruct err as [e|]; [done|].
  rewrite Hs. erewrite bind_step by reflexivity.
  unfold Exit. rewrite bind_assoc. erewrite bind_step by by apply CallService_step.
  erewrite bind_step by reflexivity.
  destruct (Core.parseStatus _) as [e|]; [|done]. destruct (s_Runtime UEFI) as [rt|]; [|done].
  erewrite bind_step by reflexivity. unfold ResetSystem. rewrite bind_assoc.
  by erewrite bind_step by (apply CallService_step; [by rewrite fw_step_mux|done]).
Qed.
End Execute.

(** ** Properties *)

(** A configuration that consists of a decimal length, a newline, a command
    line and a newline is read back as that length and that command line, for
    every length an int can hold and every line without a newline. *)
Theorem config_roundtrip n cmdline rest :
  0 <= n < 2 ^ 63 -> Forall (fun c => c <> 10) cmdline ->
  let parts := SplitN (decimal n ++ 10 :: cmdline ++ 10 :: rest) 3 in
  Atoi (nth 0 parts []) = n /\ parts !! 1%nat = Some cmdline.
Proof. apply config_parts. Qed.

(** [executeKernel] starts the image it loaded with the command line: when
    the volume, the image and its loaded image protocol (at [raw], below the
    heap) are obtained, StartImage is called with the image's handle in a
    world where LoadOptions points to the NUL-terminated UTF-16 command line
    and nothing else below the heap has changed; the result is its status.
    LoadOptionsSize is twice the length of the UTF-8 text: the size of the
    UTF-16 text without its terminator exactly for an ASCII command line, and
    too large for any other. *)
Theorem executeKernel_starts `{Machine, Append} fuel UEFI boot path data root h img raw rs w w1 w2 w3 :
  s_Boot UEFI = Some boot ->
  Root UEFI w = (Ret (Some root, None), w1) ->
  LoadImageMem boot 0 root path data w1 = (Ret (h, None), w2) ->
  LoadImageHandle boot h w2 = (Ret (Some img, raw, None), w3) ->
  w_mux w3 = false -> 0 <= raw -> raw + 104 <= w_brk w3 -> is_word 64 (w_brk w3) ->
  Forall scalar rs -> zlen (utf8 rs) * 2 < 2 ^ 32 ->
  exists w4,
    (let r := fw_step (u64 (base boot + startImage)) [h; 0; 0] w4 in
     executeKernel fuel UEFI path (Some data) (utf8 rs) w = (Ret ([], Core.parseStatus r.1), r.2)) /\
    load_bytes (w_mem w4) (load64 (w_mem w4) (raw + 56)) (length (toUTF16 (utf8 rs))) =
      toUTF16 (utf8 rs) /\
    (forall a n, a + Z.of_nat n <= w_brk w3 -> disjoint_ranges (raw + 48) 16 a n ->
       load_bytes (w_mem w4) a n = load_bytes (w_mem w3) a n) /\
    zlen (toUTF16 (utf8 rs)) - 2 <= load32 (w_mem w4) (raw + 48) /\
    (load32 (w_mem w4) (raw + 48) = zlen (toUTF16 (utf8 rs)) - 2 <->
     Forall (fun r => r < 0x80) rs).
Proof.
  intros Hs Hr Hl Hh Hm Hraw Hb Hw Hrs Hsz.
  pose proof (executeKernel_step fuel UEFI boot path data (utf8 rs) root h (Some img) raw None
                w w1 w2 w3 Hs Hr Hl Hh Hm) as E.
  exists (options_world raw (utf8 rs) w3). split; [exact E|]. by apply options_world_cmdline.
Qed.

(** efi-verify, from its configuration to its end.  When the memory at the
    configuration's address holds a length, a command line and whatever follows,
    and the volume, the image and its loaded image protocol (at [raw], below the
    heap) are obtained, [main] loads the kernel of that length from the kernel's
    address and calls StartImage with the image's handle in a world where
    LoadOptions points to the NUL-terminated UTF-16 command line and nothing else
    below the heap has changed.  If the image returns with an error the program
    exits with code 1; otherwise it calls Exit, and if Exit fails ResetSystem, which
    needs the runtime services to be there.  LoadOptionsSize is twice the
    length of the UTF-8 text: the size of the UTF-16 text without its
    terminator exactly for an ASCII command line, and too large for any other. *)
Theorem main_starts `{Machine, Append} fuel UEFI boot n rs rest root h img raw w w1 w2 w3 :
  0 <= n < 2 ^ 63 -> Forall scalar rs -> Forall (fun c => c <> 10) (utf8 rs) ->
  load_bytes (w_mem w) cfgOff (Z.to_nat cfgLen) = decimal n ++ 10 :: utf8 rs ++ 10 :: rest ->
  s_Boot UEFI = Some boot ->
  Root UEFI w = (Ret (Some root, None), w1) ->
  LoadImageMem boot 0 root kernelPath (mkSlice kerOff n) w1 = (Ret (h, None), w2) ->
  LoadImageHandle boot h w2 = (Ret (Some img, raw, None), w3) ->
  w_mux w3 = false -> 0 <= raw -> raw + 104 <= w_brk w3 -> is_word 64 (w_brk w3) ->
  zlen (utf8 rs) * 2 < 2 ^ 32 ->
  exists w4,
    (let r := fw_step (u64 (base boot + startImage)) [h; 0; 0] w4 in
     main fuel UEFI w = after_kernel UEFI boot (Core.parseStatus r.1) r.2) /\
    load_bytes (w_mem w4) (load64 (w_mem w4) (raw + 56)) (length (toUTF16 (utf8 rs))) =
      toUTF16 (utf8 rs) /\
    (forall a k, a + Z.of_nat k <= w_brk w3 -> disjoint_ranges (raw + 48) 16 a k ->
       load_bytes (w_mem w4) a k = load_bytes (w_mem w3) a k) /\
    zlen (toUTF16 (utf8 rs)) - 2 <= load32 (w_mem w4) (raw + 48) /\
    (load32 (w_mem w4) (raw + 48) = zlen (toUTF16 (utf8 rs)) - 2 <-> Forall (fun r => r < 0x80) rs).
Proof.
  intros Hn Hrs Hc Hcfg Hs Hr Hl Hh Hm Hraw Hb Hw Hsz.
  pose proof (executeKernel_step fuel UEFI boot kernelPath (mkSlice kerOff n) (utf8 rs) root h (Some img) raw None
                w w1 w2 w3 Hs Hr Hl Hh Hm) as E.
  exists (options_world raw (utf8 rs) w3). split; [|by apply options_world_cmdline].
  eapply main_step; [exact Hn|exact Hc|exact Hcfg|exact Hs| |exact E]. by rewrite fw_step_mux.
Qed.

(** The error of [LoadImageHandle] is not checked: when the loaded image's
    protocol has another revision, the handle's address is 0, and
    [executeKernel] overwrites low memory at 48 and 56 and starts the image all
    the same, without a command line. *)
Theorem executeKernel_unchecked_handle `{Machine, Append}
    fuel UEFI boot path data root h err rs w w1 w2 w3 :
  s_Boot UEFI = Some boot ->
  Root UEFI w = (Ret (Some root, None), w1) ->
  LoadImageMem boot 0 root path data w1 = (Ret (h, None), w2) ->
  LoadImageHandle boot h w2 = (Ret (None, 0, Some err), w3) ->
  w_mux w3 = false -> 104 <= w_brk w3 -> is_word 64 (w_brk w3) ->
  Forall scalar rs -> zlen (utf8 rs) * 2 < 2 ^ 32 ->
  exists w4,
    (let r := fw_step (u64 (base boot + startImage)) [h; 0; 0] w4 in
     executeKernel fuel UEFI path (Some data) (utf8 rs) w = (Ret ([], Core.parseStatus r.1), r.2)) /\
    load32 (w_mem w4) 48 = 2 * zlen (utf8 rs) /\ load64 (w_mem w4) 56 = w_brk w3.
Proof.
  intros Hs Hr Hl Hh Hm Hb Hw Hrs Hsz.
  pose proof (executeKernel_step fuel UEFI boot path data (utf8 rs) root h None 0 (Some err)
                w w1 w2 w3 Hs Hr Hl Hh Hm) as E.
  destruct (options_world_spec 0 rs w3 Hrs ltac:(lia) Hb Hw Hsz) as (Hptr & _ & Hsize & _).
  exists (options_world 0 (utf8 rs) w3). split; [exact E|]. by split.
Qed.

(** A configuration without a newline makes [main] panic before anything is
    started, whatever length it holds. *)
Theorem main_without_cmdline `{Machine, Append} fuel UEFI w :
  Forall (fun c => c <> 10) (load_bytes (w_mem w) cfgOff (Z.to_nat cfgLen)) ->
  exists p, main fuel UEFI w = (Panic p, w).
Proof.
  intros Hc. unfold main. erewrite bind_step by reflexivity.
  set (cfg := load_bytes _ _ _) in *. cbn [SplitN]. rewrite cut_newline_none by done.
  cbn [nth]. unfold unsafe_Slice. destruct (Atoi cfg <? 0).
  - eexists. by apply bind_panic.
  - erewrite bind_step by reflexivity. eexists. by apply bind_panic.
Qed.

(** ** A machine that boots *)

(** The handles are 1 (the running program), 2 (its device) and 9 (the loaded
    image); the state counts the images started. *)
Definition boot_protocol (h : Z) (g : list Z) : option Z :=
  if decide (g = Bytes EFI_LOADED_IMAGE_PROTOCOL_GUID) then
    if h =? 1 then Some 0xA000 else if h =? 9 then Some 0xB000 else None
  else if decide (g = Bytes EFI_LOADED_IMAGE_DEVICE_PATH_PROTOCOL_GUID) then
    if h =? 2 then Some 0x8000 else None
  else if decide (g = Bytes EFI_SIMPLE_FILE_SYSTEM_PROTOCOL_GUID) then
    if h =? 2 then Some 0xC000 else None
  else None.

Definition boot_firmware (fn : Z) (args : list Z) (m : memory) (s : nat) : Z * memory * nat :=
  match args with
  | [h; g; out] =>
      if fn =? 0x9001 then
        match boot_protocol h (load_bytes m g 16) with
        | Some a => (0, store64 m out a, s)
        | None => (Spec.code UNSUPPORTED, m, s)
        end
      else if fn =? 0x9004 then (0, m, S s) else (Spec.code UNSUPPORTED, m, s)
  | [h; out] => if fn =? 0x9002 then (0, store64 m out 0xD000, s) else (Spec.code UNSUPPORTED, m, s)
  | [boot; parent; path; buf; size; out] =>
      if fn =? 0x9003 then (0, store64 m out 9, s) else (Spec.code UNSUPPORTED, m, s)
  | _ => (Spec.code UNSUPPORTED, m, s)
  end.

Definition boot_machine : Machine := machine_with nat boot_firmware.

Definition image_at (revision device : Z) : list Z :=
  enc (LoadedImage.mk revision 0 0 device 0 0 0 0 0 0 0 0).

Definition boot_world (revision : Z) : World (H := boot_machine) :=
  let m := foldl (fun m '(a, bs) => store_bytes m a bs) ∅
    [ (0x7098, le_enc 8 0x9001); (0x70c8, le_enc 8 0x9003); (0x70d0, le_enc 8 0x9004);
      (0x8000, path_bytes demo_nodes ++ Node_Bytes devicePathEnd);
      (0xA000, image_at 0x1000 2); (0xB000, image_at revision 0);
      (0xC000, enc (simpleFileSystem.mk 0x10000 0x9002));
      (0xD000, enc (fileProtocol.mk 0x10000 0 0 0 0 0 0 0 0 0 0)) ] in
  mkWorld boot_machine m 0x100000 false [] 0%nat.

Definition boot_services : Services := mkServices None None (Some demo_boot) (Some (mkRuntime 0x6000)) 1 0.

Definition boot_w1 (w : World) := (Root (H := boot_machine) boot_services w).2.
Definition boot_root : FS :=
  match (Root (H := boot_machine) boot_services (boot_world 0x1000)).1 with
  | Ret (Some root, _) => root
  | _ => mkFS None 0 0 0 None
  end.
Definition boot_kernel : slice := mkSlice kerOff 4096.
Definition boot_w2 (w : World) :=
  (load_image (H := boot_machine) demo_boot 0
     ((path_bytes demo_nodes ++ FilePath_Bytes (file_node (toUTF16 kernelPath))) ++
      Node_Bytes devicePathEnd) boot_kernel (boot_w1 w)).2.
Definition boot_w3 (w : World) :=
  (LoadImageHandle (H := boot_machine) demo_boot 9 (boot_w2 w)).2.

(** With the configuration of efi-verify in place. *)
Definition verify_world : World (H := boot_machine) :=
  set_mem (H := boot_machine) (store_bytes (w_mem (boot_world 0x1000)) cfgOff
    (decimal 4096 ++ 10 :: bytes_of_string "quiet" ++ [10])) (boot_world 0x1000).

Lemma boot_load w : w = boot_world 0x1000 \/ w = boot_world 0x2000 \/ w = verify_world ->
  LoadImageMem (H := boot_machine) demo_boot 0 boot_root kernelPath boot_kernel (boot_w1 w) =
  (Ret (9, None), boot_w2 w).
Proof.
  intros Hw. unfold LoadImageMem.
  erewrite bind_step.
  2: { apply (FilePath_step (H := boot_machine) boot_root demo_nodes
                (load_bytes (w_mem (boot_w1 w)) (0x8000 + 18) (Z.to_nat 65518)));
         [exact demo_nodes_ok|reflexivity|destruct Hw as [->|[-> | ->]]; reflexivity..|].
       replace (Z.to_nat bufferSize) with (18 + Z.to_nat 65518)%nat by (unfold bufferSize; lia).
       rewrite load_bytes_app, app_assoc. f_equal. destruct Hw as [->|[-> | ->]]; reflexivity. }
  cbv beta iota. unfold boot_w2.
  match goal with |- ?p = (_, _) => apply (fst_eq p) end. destruct Hw as [->|[-> | ->]]; vm_compute; reflexivity.
Defined.

(** The kernel is started: the state is 1 afterwards. *)
Lemma executeKernel_starts_witness :
  exists w4,
    (let r := fw_step (H := boot_machine) (u64 (base demo_boot + startImage)) [9; 0; 0] w4 in
     executeKernel (H := boot_machine) (H0 := demo_append) 10 boot_services kernelPath
       (Some boot_kernel) (utf8 [0x71; 0x75; 0x69; 0x65; 0x74]) (boot_world 0x1000) =
     (Ret ([], Core.parseStatus r.1), r.2)) /\
    load_bytes (w_mem w4) (load64 (w_mem w4) (0xB000 + 56))
      (length (toUTF16 (utf8 [0x71; 0x75; 0x69; 0x65; 0x74]))) =
      toUTF16 (utf8 [0x71; 0x75; 0x69; 0x65; 0x74]) /\
    (forall a n, a + Z.of_nat n <= w_brk (boot_w3 (boot_world 0x1000)) -> disjoint_ranges (0xB000 + 48) 16 a n ->
       load_bytes (w_mem w4) a n = load_bytes (w_mem (boot_w3 (boot_world 0x1000))) a n) /\
    zlen (toUTF16 (utf8 [0x71; 0x75; 0x69; 0x65; 0x74])) - 2 <= load32 (w_mem w4) (0xB000 + 48) /\
    (load32 (w_mem w4) (0xB000 + 48) = zlen (toUTF16 (utf8 [0x71; 0x75; 0x69; 0x65; 0x74])) - 2 <->
     Forall (fun r => r < 0x80) [0x71; 0x75; 0x69; 0x65; 0x74]).
Proof.
  apply (executeKernel_starts (H := boot_machine) (H0 := demo_append) 10 boot_services demo_boot
           kernelPath boot_kernel boot_root 9 (LoadedImage.mk 0x1000 0 0 0 0 0 0 0 0 0 0 0) 0xB000
           [0x71; 0x75; 0x69; 0x65; 0x74] (boot_world 0x1000) (boot_w1 (boot_world 0x1000))
           (boot_w2 (boot_world 0x1000)) (boot_w3 (boot_world 0x1000))).
  - reflexivity.
  - unfold boot_w1. apply (fst_eq (Root _ _)). vm_compute. reflexivity.
  - apply boot_load. by left.
  - unfold boot_w3. apply (fst_eq (LoadImageHandle _ _ _)). vm_compute. reflexivity.
  - vm_compute. reflexivity.
  - lia.
  - vm_compute. congruence.
  - vm_compute. split; congruence.
  - apply (bool_decide_unpack _). vm_compute. exact I.
  - vm_compute. reflexivity.
Defined.

(** The whole of efi-verify; its Exit is not supported, so it resets. *)
Lemma main_starts_witness :
  exists w4,
    (let r := fw_step (H := boot_machine) (u64 (base demo_boot + startImage)) [9; 0; 0] w4 in
     main (H := boot_machine) (H0 := demo_append) 10 boot_services verify_world =
     after_kernel (H := boot_machine) boot_services demo_boot (Core.parseStatus r.1) r.2) /\
    load_bytes (w_mem w4) (load64 (w_mem w4) (0xB000 + 56)) 12 = toUTF16 (bytes_of_string "quiet").
Proof.
  destruct (main_starts (H := boot_machine) (H0 := demo_append) 10 boot_services demo_boot 4096
    [0x71; 0x75; 0x69; 0x65; 0x74] (replicate (Z.to_nat cfgLen - 11) 0) boot_root 9
    (LoadedImage.mk 0x1000 0 0 0 0 0 0 0 0 0 0 0) 0xB000 verify_world (boot_w1 verify_world)
    (boot_w2 verify_world) (boot_w3 verify_world)) as (w4 & E & Htext & _).
  - lia.
  - apply (bool_decide_unpack _). vm_compute. exact I.
  - apply (bool_decide_unpack _). vm_compute. exact I.
  - vm_compute. reflexivity.
  - reflexivity.
  - unfold boot_w1. apply (fst_eq (Root _ _)). vm_compute. reflexivity.
  - apply boot_load. by right; right.
  - unfold boot_w3. apply (fst_eq (LoadImageHandle _ _ _)). vm_compute. reflexivity.
  - vm_compute. reflexivity.
  - lia.
  - vm_compute. congruence.
  - vm_compute. split; congruence.
  - vm_compute. reflexivity.
  - exists w4. split; [exact E|exact Htext].
Defined.

(** The loaded image has another revision: it is started with low memory
    overwritten. *)
Lemma executeKernel_unchecked_handle_witness :
  exists w4,
    (let r := fw_step (H := boot_machine) (u64 (base demo_boot + startImage)) [9; 0; 0] w4 in
     executeKernel (H := boot_machine) (H0 := demo_append) 10 boot_services kernelPath
       (Some boot_kernel) (utf8 [0x71]) (boot_world 0x2000) =
     (Ret ([], Core.parseStatus r.1), r.2)) /\
    load32 (w_mem w4) 48 = 2 * zlen (utf8 [0x71]) /\
    load64 (w_mem w4) 56 = w_brk (boot_w3 (boot_world 0x2000)).
Proof.
  apply (executeKernel_unchecked_handle (H := boot_machine) (H0 := demo_append) 10 boot_services
           demo_boot kernelPath boot_kernel boot_root 9 (ErrNew "invalid protocol revision") [0x71]
           (boot_world 0x2000) (boot_w1 (boot_world 0x2000)) (boot_w2 (boot_world 0x2000)) (boot_w3 (boot_world 0x2000))).
  - reflexivity.
  - unfold boot_w1. apply (fst_eq (Root _ _)). vm_compute. reflexivity.
  - apply boot_load. by right; left.
  - unfold boot_w3. apply (fst_eq (LoadImageHandle _ _ _)). vm_compute. reflexivity.
  - vm_compute. reflexivity.
  - vm_compute. congruence.
  - vm_compute. split; congruence.
  - apply (bool_decide_unpack _). vm_compute. exact I.
  - vm_compute. reflexivity.
Defined.

Lemma config_roundtrip_witness :
  let parts := SplitN (decimal 8388608 ++ 10 :: bytes_of_string "quiet" ++ 10 :: [0]) 3 in
  Atoi (nth 0 parts []) = 8388608 /\ parts !! 1%nat = Some (bytes_of_string "quiet").
Proof.
  apply (config_roundtrip 8388608 (bytes_of_string "quiet") [0]); [lia|].
  apply (bool_decide_unpack _). vm_compute. exact I.
Defined.

Lemma main_without_cmdline_witness :
  exists p, main (H := boot_machine) (H0 := demo_append) 10 boot_services (boot_world 0x1000) =
    (Panic p, boot_world 0x1000).
Proof.
  apply (main_without_cmdline (H := boot_machine) (H0 := demo_append)).
  apply (bool_decide_unpack _). vm_compute. exact I.
Defined.
