(* ===== verification/Verify.v ===== *)
(** * Verify: efi-verify on a firmware that keeps its promises

    The whole of cmd/efi-verify/main.go, from the configuration in memory to the
    start of the kernel, on a firmware with a handle database, a boot volume and
    an image loader.  Image proves what the program does with the results of its
    lookups; here the lookups are carried out. *)

From S2P Require Import Prelude Binary Machine Status Text Guid Tables Desc Boot FileSys DevicePath Image.

(** ** Going on without touching what was there *)

Section Later.
Context `{Machine}.

(** The firmware's state and the memory below the heap are as before. *)
Record later (w w' : World) : Prop := {
  la_fw : w_fw w' = w_fw w;
  la_mem : kept_below (w_brk w) w w';
  la_mux : w_mux w' = w_mux w;
  la_brk : w_brk w <= w_brk w';
}.

#[export] Instance later_preorder : PreOrder later.
Proof.
  split.
  - intros w. split; [done|intros a n _; done|done|lia].
  - intros w1 w2 w3 [F1 M1 X1 B1] [F2 M2 X2 B2]. split; [congruence| |congruence|lia].
    eapply kept_below_trans; [exact M1|]. by eapply kept_below_le.
Qed.

Lemma later_alloc bs w : later w (alloc_world bs w).
Proof.
  split; [done|apply alloc_kept|done|]. rewrite alloc_world_brk. pose proof (alloc_size_ge (length bs)). lia.
Qed.

(** A store to an object allocated since. *)
Lemma later_store w w' a bs : later w w' -> w_brk w <= a -> later w (set_mem (store_bytes (w_mem w') a bs) w').
Proof.
  intros [F M X B] Ha. split; try done. intros b n Hb. cbn [w_mem set_mem].
  rewrite load_store_other by (right; lia). by apply M.
Qed.

(** A call that leaves what is below the heap. *)
Lemma later_writes w1 m w : later w w1 ->
  (forall a n, a + Z.of_nat n <= w_brk w -> load_bytes m a n = load_bytes (w_mem w1) a n) ->
  later w (mkWorld _ m (w_brk w1) (w_mux w1) (w_log w1) (w_fw w)).
Proof.
  intros [F M X B] Hm. split; try done. intros a n Ha. cbn [w_mem]. by rewrite Hm, M.
Qed.

(** The word [e] at [a], below the heap. *)
Definition entry_at (a e : Z) (w : World) : Prop := load64 (w_mem w) a = e /\ a + 8 <= w_brk w.

Lemma entry_later a e w w' : later w w' -> entry_at a e w -> entry_at a e w'.
Proof.
  intros [F M X B] [He Ha]. split; [|lia]. rewrite <-He. by eapply agree_load64.
Qed.

(** The heap starts above a table entry. *)
Lemma entry_brk a e w : entry_at (u64 a) e w -> 0 < w_brk w.
Proof. intros [_ Ha]. pose proof (wrap_range 64 a ltac:(lia)) as [? _]. lia. Qed.

(** The struct [v] at [a], below the heap, where DMA may read it. *)
Definition placed {A} `{Binary A} (a : Z) (v : A) (w : World) : Prop :=
  a <> 0 /\ a + Z.of_nat (bin_size A) <= w_brk w /\ bin_ok v /\ dma_permits a /\
  load_bytes (w_mem w) a (bin_size A) = enc v.

Lemma placed_later {A} `{Binary A} a (v : A) w w' : later w w' -> placed a v w -> placed a v w'.
Proof.
  intros [F M X B] (Ha & Hb & Hv & Hd & Hm). split_and!; try done; [lia|]. by rewrite M.
Qed.
End Later.

Section Decode.
Context `{Machine, !DmaLaws} {A : Type} `{Binary A}.
Context (Hzero : bin_ok (bin_zero A)) (Hsize : (0 < bin_size A)%nat).

Lemma decode_placed a (v : A) w : placed a v w -> decode (bin_zero A) a w = (Ret (v, None), w).
Proof using Type*.
  intros (Ha & _ & Hv & Hd & Hm). rewrite decode_step by done. by rewrite Hm, unmarshal_exact.
Qed.

Lemma decode_new_placed a (v : A) w : placed a v w ->
  exists w', decode_new A a w = (Ret (w_brk w, v, None), w') /\ later w w' /\
    load_bytes (w_mem w') (w_brk w) (bin_size A) = enc v /\ w_brk w + Z.of_nat (bin_size A) <= w_brk w'.
Proof using Type*.
  intros (Ha & Hb & Hv & Hd & Hm).
  destruct (decode_new_step v a w) as (w' & E & Hl & Hk & Hf & Hx & Hbrk); try done.
  exists w'. split_and!; try done. split; try done. lia.
Qed.
End Decode.

(** ** Lookups *)

Section Lookups.
Context `{HandleDatabase, !DmaLaws}.

(** The boot services' entry for HandleProtocol, below the heap: a lookup of any
    handle. *)
Lemma HandleProtocol_later_db boot h guid w :
  w_mux w = false -> entry_at (u64 (base boot + handleProtocol)) hp_entry w ->
  exists x w', HandleProtocol boot h guid w = (Ret x, w') /\
    protocol_result hp_errors (db_handle (w_fw w) h (Bytes guid)) x /\ later w w'.
Proof.
  intros Hm [He Hb].
  destruct (HandleProtocol_db boot h guid w) as (x & w' & E & Hx & Hf & Hk & Hm' & Hbrk); [done| |].
  - pose proof (wrap_range 64 (base boot + handleProtocol) ltac:(lia)) as [? _].
    split; [done|]. split; [lia|]. right. lia.
  - exists x, w'. split; [done|]. split; [done|]. split; try done. congruence.
Qed.

Lemma HandleProtocol_later boot h guid a w :
  w_mux w = false -> entry_at (u64 (base boot + handleProtocol)) hp_entry w ->
  db_handle (w_fw w) h (Bytes guid) = Some a ->
  exists w', HandleProtocol boot h guid w = (Ret (a, None), w') /\ later w w'.
Proof.
  intros Hm He Hdb. destruct (HandleProtocol_later_db boot h guid w Hm He) as (x & w' & E & Hx & L).
  rewrite Hdb in Hx. cbn in Hx. subst x. by exists w'.
Qed.

Lemma LoadImageHandle_placed boot h a li w :
  w_mux w = false -> entry_at (u64 (base boot + handleProtocol)) hp_entry w ->
  db_handle (w_fw w) h (Bytes EFI_LOADED_IMAGE_PROTOCOL_GUID) = Some a -> placed a li w ->
  LoadedImage.Revision li = EFI_LOADED_IMAGE_PROTOCOL_REVISION ->
  exists w', LoadImageHandle boot h w = (Ret (Some li, a, None), w') /\ later w w'.
Proof.
  intros Hm He Hdb Hp Hrev. destruct (HandleProtocol_later boot h _ a w Hm He Hdb) as (w' & E & Hl).
  exists w'. split; [|done]. unfold LoadImageHandle. erewrite bind_step by exact E. cbv beta iota.
  erewrite bind_step.
  2: { apply decode_placed; [vm_compute; repeat split; congruence|vm_compute; lia|by eapply placed_later]. }
  cbv beta iota. by rewrite Hrev.
Qed.
End Lookups.

(** ** The firmware

    What the UEFI specification promises of OpenVolume() and of LoadImage() for
    an image that is in memory: the volume's root directory is stored; the image is
    loaded under the device path that it is given, whatever follows the path's
    end, which changes the firmware's state and memory, and its handle is
    stored.  An image whose start the platform's policy forbids is loaded all the same, with the
    status EFI_SECURITY_VIOLATION.  Otherwise the call fails with one of its documented
    errors. *)

Definition ov_errors : list efi_status :=
  [UNSUPPORTED; NO_MEDIA; DEVICE_ERROR; VOLUME_CORRUPTED; ACCESS_DENIED; OUT_OF_RESOURCES; MEDIA_CHANGED].
Definition li_errors : list efi_status :=
  [NOT_FOUND; INVALID_PARAMETER; UNSUPPORTED; OUT_OF_RESOURCES; LOAD_ERROR; DEVICE_ERROR; ACCESS_DENIED].

Fixpoint write_all (m : memory) (l : list (Z * list Z)) : memory :=
  match l with
  | [] => m
  | (a, bs) :: l => write_all (store_bytes m a bs) l
  end.

Class BootVolumeService `{HandleDatabase} := {
  volume_root : fwstate -> Z -> option Z;
  (** The handle of the loaded image, what is written to load it, the new state, and
      whether the image may be started. *)
  load_from_memory : fwstate -> list DevicePath -> list Z ->
    option (Z * list (Z * list Z) * fwstate * bool);
  ov_entry : Z;
  li_entry : Z;
  volume_root_word : forall s h a, volume_root s h = Some a -> is_word 64 a;
  load_word : forall s nodes image h ws s',
    load_from_memory s nodes image = Some (h, ws, s', true) \/
    load_from_memory s nodes image = Some (h, ws, s', false) -> is_word 64 h;
  ov_contract : forall h out m s, 0 < out ->
    match volume_root s h with
    | Some a => firmware ov_entry [h; out] m s = (0, store64 m out a, s)
    | None => refuses ov_errors false out m s (firmware ov_entry [h; out] m s)
    end;
  li_contract : forall parent path nodes buf size out m s,
    Forall node_ok nodes -> 0 < path -> 0 < buf -> 0 < out ->
    load_bytes m path (length (path_bytes nodes) + 4) = path_bytes nodes ++ Node_Bytes devicePathEnd ->
    let answer := firmware li_entry [0; parent; path; buf; size; out] m s in
    match load_from_memory s nodes (load_bytes m buf (Z.to_nat size)) with
    | Some (h, ws, s', allowed) =>
        answer = (if allowed then 0 else Spec.code SECURITY_VIOLATION, store64 (write_all m ws) out h, s')
    | None => refuses li_errors false out m s answer
    end;
}.

(** What the boot services keep for a program that was started from a volume:
    its loaded image, the path of the volume's device and its file system, and the
    root directory. *)
Record boot_volume := mkVolume {
  v_image : Z; v_li : LoadedImage.t;
  v_path : Z; v_nodes : list DevicePath; v_rest : list Z;
  v_fs : Z; v_sfs : simpleFileSystem.t;
  v_root : Z; v_dir : fileProtocol.t;
}.

Section Boot.
Context `{BootVolumeService, !DmaLaws}.

Record has_volume (boot : BootServices) (handle : Z) (v : boot_volume) (w : World) : Prop := {
  hv_entry : entry_at (u64 (base boot + handleProtocol)) hp_entry w;
  hv_image : db_handle (w_fw w) handle (Bytes EFI_LOADED_IMAGE_PROTOCOL_GUID) = Some (v_image v);
  hv_li : placed (v_image v) (v_li v) w;
  hv_li_rev : LoadedImage.Revision (v_li v) = EFI_LOADED_IMAGE_PROTOCOL_REVISION;
  hv_path : db_handle (w_fw w) (LoadedImage.DeviceHandle (v_li v))
    (Bytes EFI_LOADED_IMAGE_DEVICE_PATH_PROTOCOL_GUID) = Some (v_path v);
  hv_nodes : Forall node_ok (v_nodes v) /\ zlen (v_nodes v) < maxDepth;
  hv_permits : dma_aligned (v_path v) /\ dma_NewRegion (v_path v) bufferSize false = None;
  hv_nodes_at : load_bytes (w_mem w) (v_path v) (Z.to_nat bufferSize) =
    path_bytes (v_nodes v) ++ Node_Bytes devicePathEnd ++ v_rest v;
  hv_path_low : v_path v + bufferSize <= w_brk w;
  hv_fs : db_handle (w_fw w) (LoadedImage.DeviceHandle (v_li v))
    (Bytes EFI_SIMPLE_FILE_SYSTEM_PROTOCOL_GUID) = Some (v_fs v);
  hv_sfs : placed (v_fs v) (v_sfs v) w;
  hv_sfs_rev : simpleFileSystem.Revision (v_sfs v) = EFI_SIMPLE_FILE_SYSTEM_PROTOCOL_REVISION;
  hv_root : volume_root (w_fw w) (v_fs v) = Some (v_root v);
  hv_dir : placed (v_root v) (v_dir v) w;
  hv_dir_rev : revision_ok (fileProtocol.Revision (v_dir v)) = true;
  hv_open : simpleFileSystem.OpenVolume (v_sfs v) = ov_entry;
}.

(** The call of OpenVolume(), up to the use of its result. *)
Lemma openVolume_call o h w :
  w_mux w = false -> 0 < w_brk w -> entry_at (o + off_OpenVolume) ov_entry w ->
  exists w', later w w' /\
    match volume_root (w_fw w) h with
    | Some a => openVolume o h w = file_instance a w'
    | None => exists r e, openVolume o h w = (Ret (None, r, Some e), w')
    end.
Proof.
  intros Hm Hpos He. unfold openVolume.
  do 3 erewrite bind_step by reflexivity. erewrite bind_step by by apply CallService_step.
  set (w1 := alloc_world (le_enc 8 0) w). pose proof (later_alloc (le_enc 8 0) w : later w w1) as L1.
  destruct (entry_later _ _ _ _ L1 He) as [He1 _].
  pose proof (ov_contract h (w_brk w) (w_mem w1) (w_fw w) Hpos) as Hov.
  unfold fw_step. rewrite He1. change (w_fw w1) with (w_fw w).
  destruct (volume_root (w_fw w) h) as [a|] eqn:Hv; cbn [fst snd].
  - rewrite Hov. cbn [fst snd]. pose proof (volume_root_word _ _ _ Hv) as Hw.
    exists (set_mem (store64 (w_mem w1) (w_brk w) a) w1). split; [by apply later_store|].
    erewrite bind_step by (unfold get64; cbn [w_mem]; by rewrite load64_store64).
    by rewrite Core.parseStatus_0.
  - destruct (firmware _ _ _ _) as [[st m] s']. destruct Hov as [(e & He' & Hst) Hmem _ Hs].
    cbn [fst snd] in *. subst st s'. eexists. split; [|erewrite bind_step by reflexivity].
    2: { rewrite parseStatus_code; [by eexists _, _|intros ->; revert He'; by apply (bool_decide_unpack _)]. }
    apply (later_writes w1); [done|]. intros a n Ha. apply Hmem. right. lia.
Qed.

Lemma openVolume_placed o h a dir w :
  w_mux w = false -> 0 < w_brk w -> entry_at (o + off_OpenVolume) ov_entry w ->
  volume_root (w_fw w) h = Some a -> placed a dir w -> revision_ok (fileProtocol.Revision dir) = true ->
  exists o' w', openVolume o h w = (Ret (Some o', a, None), w') /\ later w w'.
Proof.
  intros Hm Hpos He Hv Hp Hrev. destruct (openVolume_call o h w Hm Hpos He) as (w2 & L2 & E2).
  rewrite Hv in E2. rewrite E2. unfold file_instance.
  destruct (decode_new_placed (A := fileProtocol.t)) with (a := a) (v := dir) (w := w2)
    as (w3 & E & L3 & _); [vm_compute; repeat split; congruence|vm_compute; lia|by eapply placed_later|].
  erewrite bind_step by exact E. cbv beta iota. rewrite Hrev. cbn [negb].
  eexists _, w3. split; [reflexivity|]. by transitivity w2.
Qed.

Lemma has_volume_later boot h v w w' : later w w' -> has_volume boot h v w -> has_volume boot h v w'.
Proof.
  intros L Hv. pose proof (la_fw _ _ L) as F. pose proof (la_brk _ _ L) as B. pose proof (la_mem _ _ L) as K.
  destruct Hv as [V1 V2 V3 V4 V5 V6 V7 V8 V9 V10 V11 V12 V13 V14 V15 V16]. split; rewrite ?F.
  - exact (entry_later _ _ _ _ L V1).
  - exact V2.
  - exact (placed_later _ _ _ _ L V3).
  - exact V4.
  - exact V5.
  - exact V6.
  - exact V7.
  - rewrite K; [exact V8|]. unfold bufferSize in *. lia.
  - lia.
  - exact V10.
  - exact (placed_later _ _ _ _ L V11).
  - exact V12.
  - exact V13.
  - exact (placed_later _ _ _ _ L V14).
  - exact V15.
  - exact V16.
Qed.

(** The copy of the file system's instance that [Root] makes. *)
Lemma sfs_entry (v : simpleFileSystem.t) o m : bin_ok v ->
  load64 (store_bytes m o (enc v)) (o + off_OpenVolume) = simpleFileSystem.OpenVolume v.
Proof.
  intros Hv. apply (load_entry v [simpleFileSystem.Revision v; simpleFileSystem.OpenVolume v] o 1).
  - by destruct v.
  - done.
  - destruct v. unfold bin_ok in Hv. cbn -[Z.pow] in Hv. tauto.
  - done.
  - rewrite <-(enc_length v Hv). apply load_store_same.
Qed.

(** [Root] finds the volume. *)
Lemma Root_volume UEFI boot v w :
  s_Boot UEFI = Some boot -> w_mux w = false -> has_volume boot (s_imageHandle UEFI) v w ->
  exists root w', Root UEFI w = (Ret (Some root, None), w') /\ later w w' /\ fs_device root = v_path v.
Proof.
  intros Hs Hm Hv. unfold Root. erewrite bind_step by reflexivity. rewrite Hs. erewrite bind_step by reflexivity.
  set (o := w_brk w). set (w1 := alloc_world (enc (bin_zero simpleFileSystem.t)) w).
  assert (later w w1) as L1 by apply later_alloc. pose proof (has_volume_later _ _ _ _ _ L1 Hv) as V1.
  destruct (LoadImageHandle_placed boot (s_imageHandle UEFI) (v_image v) (v_li v) w1 Hm (hv_entry _ _ _ _ V1)
    (hv_image _ _ _ _ V1) (hv_li _ _ _ _ V1) (hv_li_rev _ _ _ _ V1)) as (w2 & E2 & L2).
  erewrite bind_step by exact E2. cbv beta iota. erewrite bind_step by reflexivity.
  pose proof (has_volume_later _ _ _ _ _ L2 V1) as V2. assert (w_mux w2 = false) as M2 by (by rewrite (la_mux _ _ L2)).
  destruct (HandleProtocol_later boot _ _ _ w2 M2 (hv_entry _ _ _ _ V2) (hv_path _ _ _ _ V2)) as (w3 & E3 & L3).
  erewrite bind_step by exact E3. cbv beta iota.
  pose proof (has_volume_later _ _ _ _ _ L3 V2) as V3. assert (w_mux w3 = false) as M3 by (by rewrite (la_mux _ _ L3)).
  destruct (HandleProtocol_later boot _ _ _ w3 M3 (hv_entry _ _ _ _ V3) (hv_fs _ _ _ _ V3)) as (w4 & E4 & L4).
  erewrite bind_step by exact E4. cbv beta iota.
  pose proof (has_volume_later _ _ _ _ _ L4 V3) as V4. assert (w_mux w4 = false) as M4 by (by rewrite (la_mux _ _ L4)).
  erewrite bind_step.
  2: { apply decode_placed; [vm_compute; repeat split; congruence|vm_compute; lia|exact (hv_sfs _ _ _ _ V4)]. }
  cbv beta iota. erewrite bind_step by reflexivity. rewrite (hv_sfs_rev _ _ _ _ V4), Z.eqb_refl. cbn [negb].
  set (w5 := set_mem (store_bytes (w_mem w4) o (enc (v_sfs v))) w4).
  assert (later w w4) as L14 by (etransitivity; [exact L1|]; etransitivity; [exact L2|]; by etransitivity).
  assert (later w w5) as L5 by (apply later_store; [done|unfold o; lia]).
  pose proof (has_volume_later _ _ _ _ _ L5 Hv) as V5.
  destruct (openVolume_placed o (v_fs v) (v_root v) (v_dir v) w5) as (o' & w6 & E6 & L6).
  { exact M4. }
  { exact (entry_brk _ _ _ (hv_entry _ _ _ _ V5)). }
  { split.
    - rewrite <-(hv_open _ _ _ _ Hv). destruct (hv_sfs _ _ _ _ Hv) as (_ & _ & Hok & _). exact (sfs_entry _ o (w_mem w4) Hok).
    - pose proof (la_brk _ _ L2) as B2. pose proof (la_brk _ _ L3) as B3. pose proof (la_brk _ _ L4) as B4.
      change (w_brk w5) with (w_brk w4). unfold off_OpenVolume.
      assert (w_brk w1 = o + 16) as B1 by reflexivity. lia. }
  { exact (hv_root _ _ _ _ V5). } { exact (hv_dir _ _ _ _ V5). } { exact (hv_dir_rev _ _ _ _ V5). }
  erewrite bind_step by exact E6. cbv beta iota.
  eexists _, w6. split; [reflexivity|]. split; [by transitivity w5|done].
Qed.

(** The same writes to memories that agree. *)
Lemma agree_store_same B m m' a bs : agree_below B m m' -> agree_below B (store_bytes m a bs) (store_bytes m' a bs).
Proof.
  intros Hm b n Hb. rewrite !load_bytes_map. apply map_ext_in. intros i Hi%in_seq.
  rewrite !load8_store_bytes. case_decide; [done|].
  specialize (Hm (b + Z.of_nat i) 1%nat ltac:(lia)). rewrite !load_bytes_map in Hm. cbn in Hm.
  rewrite Z.add_0_r in Hm. by injection Hm.
Qed.

Lemma write_all_agree B m m' l : agree_below B m m' -> agree_below B (write_all m l) (write_all m' l).
Proof. revert m m'. induction l as [|[a bs] l IH]; intros m m' Hm; cbn; [done|]. by apply IH, agree_store_same. Qed.

(** What the firmware is asked to load: the file's path and the bytes of the
    kernel. *)
Definition loads (v : boot_volume) (name : gostring) (buf : slice) (w : World) :
    option (Z * list (Z * list Z) * fwstate * bool) :=
  load_from_memory (w_fw w) (v_nodes v ++ [file_node (toUTF16 name)])
    (load_bytes (w_mem w) (sl_ptr buf) (Z.to_nat (sl_len buf))).

Lemma LoadImageMem_volume boot handle root v name buf w :
  w_mux w = false -> has_volume boot handle v w -> fs_device root = v_path v ->
  node_ok (file_node (toUTF16 name)) ->
  entry_at (u64 (base boot + loadImage)) li_entry w ->
  0 < sl_len buf < 2 ^ 63 -> 0 < sl_ptr buf -> sl_ptr buf + sl_len buf <= w_brk w ->
  match loads v name buf w with
  | Some (h, ws, s', allowed) =>
      exists w', LoadImageMem boot 0 root name buf w =
          (Ret (h, if allowed then None else status_error SECURITY_VIOLATION), w') /\
        w_fw w' = s' /\ agree_below (w_brk w) (write_all (w_mem w) ws) (w_mem w') /\
        w_mux w' = false /\ w_brk w <= w_brk w'
  | None =>
      exists h e w', LoadImageMem boot 0 root name buf w = (Ret (h, Some e), w') /\ later w w'
  end.
Proof.
  intros Hm Hv Hdev Hnode He Hlen Hptr Hbuf. destruct (hv_nodes _ _ _ _ Hv) as [Hok Hmax].
  unfold loads. set (fp := file_node (toUTF16 name)) in *. set (nodes := v_nodes v ++ [fp]).
  set (desc := path_bytes nodes ++ Node_Bytes devicePathEnd).
  assert (Forall node_ok nodes) as Hnodes by (apply Forall_app; split; [done|by apply Forall_singleton]).
  assert (FilePath root name w = (Ret (v_nodes v, fp, desc, None), w)) as Efp.
  { unfold desc, nodes. rewrite path_bytes_snoc.
    apply (FilePath_step root (v_nodes v) (v_rest v) name w Hok Hmax); rewrite Hdev;
      [exact (proj1 (hv_permits _ _ _ _ Hv))|exact (proj2 (hv_permits _ _ _ _ Hv))|exact (hv_nodes_at _ _ _ _ Hv)]. }
  pose proof (entry_brk _ _ _ He) as Hbrk.
  assert (length desc = length (path_bytes nodes) + 4)%nat as Hl
    by (unfold desc; by rewrite length_app, Node_Bytes_length).
  set (w1 := alloc_world (le_enc 8 0) w). set (w2 := alloc_world desc w1).
  assert (later w w2) as L2 by (transitivity w1; apply later_alloc).
  assert (LoadImageMem boot 0 root name buf w =
    let r := fw_step (u64 (base boot + loadImage))
      [0; imageHandle boot; w_brk w1; sl_ptr buf; sl_len buf; w_brk w] w2 in
    (Ret (load64 (w_mem r.2) (w_brk w), Core.parseStatus r.1), r.2)) as E.
  { unfold LoadImageMem. erewrite bind_step by exact Efp. cbv beta iota. unfold load_image.
    erewrite bind_step by reflexivity.
    erewrite bind_step by (apply addr_of_bytes_step; intros Hd; rewrite Hd in Hl; simpl in Hl; lia).
    unfold elem0. rewrite (proj2 (Z.ltb_lt 0 _)) by lia. erewrite bind_step by reflexivity.
    rewrite (wrap_small 64 (sl_len buf)) by (unfold is_word; lia). change (u64 0) with 0.
    by erewrite bind_step by by apply CallService_step. }
  assert (load_bytes (w_mem w2) (w_brk w1) (length (path_bytes nodes) + 4) = desc) as Hdesc
    by (rewrite <-Hl; apply alloc_world_load).
  assert (load_bytes (w_mem w2) (sl_ptr buf) (Z.to_nat (sl_len buf)) =
    load_bytes (w_mem w) (sl_ptr buf) (Z.to_nat (sl_len buf))) as Hbytes by (apply (la_mem _ _ L2); lia).
  destruct (entry_later _ _ _ _ L2 He) as [He2 _].
  pose proof (li_contract (imageHandle boot) (w_brk w1) nodes (sl_ptr buf) (sl_len buf) (w_brk w)
    (w_mem w2) (w_fw w) Hnodes) as Hli.
  specialize (Hli ltac:(change (w_brk w1) with (w_brk w + 8); lia) Hptr ltac:(lia) Hdesc). rewrite Hbytes in Hli.
  rewrite E. unfold fw_step. rewrite He2. change (w_fw w2) with (w_fw w). cbv zeta in Hli |- *.
  destruct (load_from_memory _ _ _) as [[[[h ws] s'] allowed]|] eqn:El; cbv beta iota zeta; cbn [fst snd w_mem].
  - rewrite Hli. cbn [fst snd w_mem]. rewrite load64_store64 by (destruct allowed; eapply load_word; eauto).
    assert (Core.parseStatus (if allowed then 0 else Spec.code SECURITY_VIOLATION) =
      if allowed then None else status_error SECURITY_VIOLATION) as -> by (by destruct allowed).
    eexists. split; [reflexivity|]. cbn [w_fw w_mem w_mux w_brk]. split; [done|].
    split; [|split; [exact Hm|apply L2]].
    eapply agree_trans; [apply write_all_agree, L2|]. apply agree_store. lia.
  - destruct (firmware _ _ _ _) as [[st m] s']. destruct Hli as [(e & He' & Hst) Hmem _ Hs].
    cbn [fst snd w_mem] in *. subst st s'.
    rewrite parseStatus_code by (intros ->; revert He'; by apply (bool_decide_unpack _)).
    eexists _, _, _. split; [reflexivity|]. apply (later_writes w2); [done|].
    intros a n Ha. apply Hmem. right. lia.
Qed.
End Boot.

(** ** The program *)

Lemma kernel_node_ok : node_ok (file_node (toUTF16 kernelPath)).
Proof. apply (bool_decide_unpack _). vm_compute. exact I. Qed.

Lemma executeKernel_refused `{Machine, Append} fuel UEFI boot path data cmdline root h e w w1 w2 :
  s_Boot UEFI = Some boot -> Root UEFI w = (Ret (Some root, None), w1) ->
  LoadImageMem boot 0 root path data w1 = (Ret (h, Some e), w2) ->
  executeKernel fuel UEFI path (Some data) cmdline w =
    (Ret ([], Some (ErrWrap "could not load image " e)), w2).
Proof.
  intros Hs Hr Hl. unfold executeKernel. erewrite bind_step by exact Hr. cbv beta iota.
  erewrite bind_step by reflexivity. cbv beta iota. rewrite Hs. erewrite bind_step by reflexivity.
  erewrite bind_step by reflexivity. cbn [default]. by erewrite bind_step by exact Hl.
Qed.

(** The program exits when the image is not to be started. *)
Lemma refused_exits `{Machine, Append} fuel UEFI boot n cmdline rest root h e w w1 w2 :
  s_Boot UEFI = Some boot -> 0 < n < 2 ^ 63 -> Forall (fun c => c <> 10) cmdline ->
  load_bytes (w_mem w) cfgOff (Z.to_nat cfgLen) = decimal n ++ 10 :: cmdline ++ 10 :: rest ->
  Root UEFI w = (Ret (Some root, None), w1) ->
  LoadImageMem boot 0 root kernelPath (mkSlice kerOff n) w1 = (Ret (h, Some e), w2) -> w_mux w2 = false ->
  main fuel UEFI w = (Ret (Some 1), w2).
Proof.
  intros Hs Hn Hc Hcfg Er El Hm.
  pose proof (executeKernel_refused fuel UEFI boot kernelPath (mkSlice kerOff n) cmdline root h e w w1 w2
    Hs Er El) as Ex.
  eapply (main_step _ _ _ n) in Ex; [exact Ex|lia|exact Hc|exact Hcfg|exact Hs|done].
Qed.

Section Program.
Context `{BootVolumeService, !DmaLaws, Append}.

(** The configuration of efi-verify in memory, the boot services' entries it
    calls and the volume it was started from. *)
Record verify_ready (UEFI : Services) (boot : BootServices) (v : boot_volume) (n : Z) (cmdline : gostring)
    (w : World) : Prop := {
  vr_boot : s_Boot UEFI = Some boot;
  vr_mux : w_mux w = false;
  vr_config : exists rest,
    load_bytes (w_mem w) cfgOff (Z.to_nat cfgLen) = decimal n ++ 10 :: cmdline ++ 10 :: rest;
  vr_length : 0 < n < 2 ^ 63 /\ kerOff + n <= w_brk w;
  vr_volume : has_volume boot (s_imageHandle UEFI) v w;
  vr_load : entry_at (u64 (base boot + loadImage)) li_entry w;
}.

(** [Root] and the request to load the kernel. *)
Lemma request_kernel UEFI boot v n cmdline w : verify_ready UEFI boot v n cmdline w ->
  exists root w1, Root UEFI w = (Ret (Some root, None), w1) /\ later w w1 /\
    match loads v kernelPath (mkSlice kerOff n) w with
    | Some (h, ws, s', allowed) =>
        exists w2, LoadImageMem boot 0 root kernelPath (mkSlice kerOff n) w1 =
            (Ret (h, if allowed then None else status_error SECURITY_VIOLATION), w2) /\
          w_fw w2 = s' /\ agree_below (w_brk w) (write_all (w_mem w) ws) (w_mem w2) /\
          w_mux w2 = false /\ w_brk w <= w_brk w2
    | None =>
        exists h e w2, LoadImageMem boot 0 root kernelPath (mkSlice kerOff n) w1 = (Ret (h, Some e), w2) /\
          later w w2
    end.
Proof.
  intros [Hs Hm _ [Hn Hker] Hv He].
  destruct (Root_volume UEFI boot v w Hs Hm Hv) as (root & w1 & Er & L & Hdev).
  exists root, w1. split; [exact Er|]. split; [exact L|].
  pose proof (LoadImageMem_volume boot (s_imageHandle UEFI) root v kernelPath (mkSlice kerOff n) w1) as Hload.
  rewrite (la_mux _ _ L) in Hload. cbn [sl_ptr sl_len] in Hload.
  assert (loads v kernelPath (mkSlice kerOff n) w1 = loads v kernelPath (mkSlice kerOff n) w) as El.
  { unfold loads. rewrite (la_fw _ _ L). cbn [sl_ptr sl_len]. by rewrite (la_mem _ _ L) by lia. }
  rewrite El in Hload. pose proof (la_brk _ _ L) as B.
  specialize (Hload Hm (has_volume_later _ _ _ _ _ L Hv) Hdev kernel_node_ok (entry_later _ _ _ _ L He) Hn
    ltac:(done) ltac:(lia)).
  destruct (loads _ _ _ _) as [[[[h ws] s'] allowed]|].
  - destruct Hload as (w2 & E & Hf & Ha & Hm2 & Hb). exists w2. split; [exact E|]. split; [exact Hf|].
    split; [|split; [exact Hm2|lia]].
    eapply agree_trans; [apply write_all_agree, L|]. by eapply agree_le.
  - destruct Hload as (h & e & w2 & E & L2). exists h, e, w2. split; [exact E|]. by transitivity w1.
Qed.
End Program.

(** How efi-verify ends when it is started in the world [w]: the run [run] of a
    program that asks the firmware to load [n] bytes at the kernel's address and goes
    on as the answer tells. *)
Definition boots_as `{BootVolumeService} (UEFI : Services) (boot : BootServices) (v : boot_volume)
    (n : Z) (rs : list Z) (w : World) (run : outcome (option Z) * World) : Prop :=
  match loads v kernelPath (mkSlice kerOff n) w with
  | None => exists w', run = (Ret (Some 1), w') /\ later w w'
  | Some (h, ws, s', false) =>
      exists w', run = (Ret (Some 1), w') /\ w_fw w' = s' /\
        agree_below (w_brk w) (write_all (w_mem w) ws) (w_mem w')
  | Some (h, ws, s', true) =>
      let loaded := set_mem (write_all (w_mem w) ws) w in
      forall raw li, entry_at (u64 (base boot + handleProtocol)) hp_entry loaded ->
      db_handle s' h (Bytes EFI_LOADED_IMAGE_PROTOCOL_GUID) = Some raw -> placed raw li loaded ->
      LoadedImage.Revision li = EFI_LOADED_IMAGE_PROTOCOL_REVISION ->
      exists w4, w_fw w4 = s' /\
        (let r := fw_step (u64 (base boot + startImage)) [h; 0; 0] w4 in
         run = after_kernel UEFI boot (Core.parseStatus r.1) r.2) /\
        (is_word 64 (w_brk w4) ->
         load_bytes (w_mem w4) (load64 (w_mem w4) (raw + 56)) (length (toUTF16 (utf8 rs))) =
           toUTF16 (utf8 rs) /\
         (load32 (w_mem w4) (raw + 48) = zlen (toUTF16 (utf8 rs)) - 2 <-> Forall (fun r => r < 0x80) rs) /\
         forall a k, a + Z.of_nat k <= w_brk w -> disjoint_ranges (raw + 48) 16 a k ->
           load_bytes (w_mem w4) a k = load_bytes (write_all (w_mem w) ws) a k)
  end.

(** efi-verify on a firmware that keeps its promises.  When the memory holds a
    configuration with the length of a kernel and a command line, and the program
    was started from a volume, [main] asks the firmware to load the kernel, that
    many bytes at the kernel's address, under the path of the volume's device
    followed by the kernel's file.  If the firmware refuses, nothing is started:
    the program exits with code 1, and the firmware and the memory below the heap
    are as they were; if it loads the image but its policy forbids the start, nothing
    is started either.  If it loads the image, the handle it gives is
    started, in the state the firmware has reached, with LoadOptions pointing to the
    NUL-terminated UTF-16 command line (as long as the heap lies within the
    address space), and with the memory below the heap as the firmware has left
    it but for the two fields of the command line; [after_kernel] says how the
    program ends when the image returns. *)
Theorem efi_verify_boots `{BootVolumeService, !DmaLaws, Append} fuel UEFI boot v n rs w :
  Forall scalar rs -> Forall (fun c => c <> 10) (utf8 rs) -> zlen (utf8 rs) * 2 < 2 ^ 32 ->
  verify_ready UEFI boot v n (utf8 rs) w -> boots_as UEFI boot v n rs w (main fuel UEFI w).
Proof.
  intros Hrs Hc Hsz Hready. cbv beta delta [boots_as].
  destruct (request_kernel _ _ _ _ _ _ Hready) as (root & w1 & Er & L1 & Hload).
  destruct Hready as [Hs Hm (rest & Hcfg) [Hn Hker] Hv He].
  destruct (loads _ _ _ _) as [[[[h ws] s'] []]|].
  - destruct Hload as (w2 & El & Hf & Hagree & Hm2 & Hb2). intros loaded raw li Hhp Hdb Hli Hrev.
    assert (entry_at (u64 (base boot + handleProtocol)) hp_entry w2) as Hhp2.
    { destruct Hhp as [Hhp Hb]. change (w_brk loaded) with (w_brk w) in Hb. split; [|lia]. rewrite <-Hhp. by eapply agree_load64. }
    assert (placed raw li w2) as Hli2.
    { destruct Hli as (H0' & Hb & Hok & Hd & Hat). change (w_brk loaded) with (w_brk w) in Hb.
      split_and!; try done; [lia|]. by rewrite Hagree. }
    rewrite <-Hf in Hdb.
    destruct (LoadImageHandle_placed boot h raw li w2 Hm2 Hhp2 Hdb Hli2 Hrev) as (w3 & Eh & L3).
    pose proof (la_mux _ _ L3) as Hm3. rewrite Hm2 in Hm3.
    pose proof (executeKernel_step fuel UEFI boot kernelPath (mkSlice kerOff n) (utf8 rs) root h (Some li) raw
      None w w1 w2 w3 Hs Er El Eh Hm3) as Ex.
    exists (options_world raw (utf8 rs) w3). split; [by rewrite <-Hf, <-(la_fw _ _ L3)|]. split.
    { eapply (main_step _ _ _ n); [|exact Hc|exact Hcfg|exact Hs| |exact Ex]; [lia|by rewrite fw_step_mux]. }
    intros Hw. pose proof (la_brk _ _ L3) as Hb3. pose proof (db_handle_word _ _ _ _ Hdb) as [Hraw _].
    destruct Hli as (_ & Hlow & _). change (w_brk loaded) with (w_brk w) in Hlow. change (Z.of_nat (bin_size LoadedImage.t)) with 104 in Hlow.
    assert (is_word 64 (w_brk w3)) as Hw3.
    { change (w_brk (options_world raw (utf8 rs) w3)) with (w_brk w3 + alloc_size (length (toUTF16 (utf8 rs)))) in Hw.
      pose proof (alloc_size_ge (length (toUTF16 (utf8 rs)))). unfold is_word in *. lia. }
    destruct (options_world_cmdline raw rs w3 Hrs Hraw ltac:(lia) Hw3 Hsz) as (Htext & Hrest & _ & Hascii).
    split; [exact Htext|]. split; [exact Hascii|]. intros a k Ha Hd.
    rewrite Hrest by (done || lia). rewrite (la_mem _ _ L3) by lia. by apply Hagree.
  - destruct Hload as (w2 & El & Hf & Hagree & Hm2 & _). exists w2. split; [|done].
    by eapply (refused_exits fuel UEFI boot n).
  - destruct Hload as (h & e & w2 & El & L2). exists w2. split; [|exact L2].
    eapply (refused_exits fuel UEFI boot n); try done. by rewrite (la_mux _ _ L2).
Qed.

(** The case of a kernel that is loaded. *)
Lemma boots_as_loaded `{BootVolumeService} UEFI boot v n rs w run h ws s' raw li :
  boots_as UEFI boot v n rs w run -> loads v kernelPath (mkSlice kerOff n) w = Some (h, ws, s', true) ->
  entry_at (u64 (base boot + handleProtocol)) hp_entry (set_mem (write_all (w_mem w) ws) w) ->
  db_handle s' h (Bytes EFI_LOADED_IMAGE_PROTOCOL_GUID) = Some raw ->
  placed raw li (set_mem (write_all (w_mem w) ws) w) ->
  LoadedImage.Revision li = EFI_LOADED_IMAGE_PROTOCOL_REVISION ->
  exists w4, w_fw w4 = s' /\ let r := fw_step (u64 (base boot + startImage)) [h; 0; 0] w4 in
    run = after_kernel UEFI boot (Core.parseStatus r.1) r.2.
Proof.
  unfold boots_as. intros Hrun Hl Hhp Hdb Hli Hrev. rewrite Hl in Hrun.
  destruct (Hrun raw li Hhp Hdb Hli Hrev) as (w4 & Hf & Hmain & _). by exists w4.
Qed.

(** The same run, seen from an earlier world. *)
Lemma boots_as_earlier `{BootVolumeService} UEFI boot v n rs w w' run :
  later w w' -> kerOff + n <= w_brk w -> 0 <= n ->
  boots_as UEFI boot v n rs w' run -> boots_as UEFI boot v n rs w run.
Proof.
  intros L Hker Hn. unfold boots_as. pose proof (la_brk _ _ L) as B.
  assert (loads v kernelPath (mkSlice kerOff n) w' = loads v kernelPath (mkSlice kerOff n) w) as ->.
  { unfold loads. rewrite (la_fw _ _ L). cbn [sl_ptr sl_len]. by rewrite (la_mem _ _ L) by lia. }
  destruct (loads _ _ _ _) as [[[[h ws] s'] []]|].
  - intros Hrun raw li Hhp Hdb Hli Hrev.
    assert (later (set_mem (write_all (w_mem w) ws) w) (set_mem (write_all (w_mem w') ws) w')) as L'.
    { destruct L as [F K X B']. split; try done. by apply write_all_agree. }
    destruct (Hrun raw li) as (w4 & Hf & Hmain & Hrest); [by eapply entry_later|done|by eapply placed_later|done|].
    exists w4. split; [exact Hf|]. split; [exact Hmain|]. intros Hw. destruct (Hrest Hw) as (Htext & Hascii & Hmem).
    split; [exact Htext|]. split; [exact Hascii|]. intros a k Ha Hd. rewrite Hmem by (done || lia).
    apply (write_all_agree (w_brk w)); [apply L|done].
  - intros (w1 & E & Hf & Ha). exists w1. split; [exact E|]. split; [exact Hf|].
    eapply agree_trans; [apply write_all_agree, L|]. by eapply agree_le.
  - intros (w1 & E & L1). exists w1. split; [exact E|by transitivity w'].
Qed.

(** ** A firmware that boots *)

(** The handles are those of [boot_protocol]: 1 is the program, 2 its device, 9
    the kernel's.  Only an image that starts with "MZ" is loaded; the state counts
    the images started. *)
Definition loaded_image : LoadedImage.t := LoadedImage.mk 0x1000 0 0 2 0 0 0 kerOff 4096 0 0 0.

Definition verify_load (s : nat) (image : list Z) : option (Z * list (Z * list Z) * nat * bool) :=
  if decide (take 2 image = [0x4d; 0x5a]) then Some (9, [(0xB000, enc loaded_image)], s, true) else None.

Definition verify_firmware (fn : Z) (args : list Z) (m : memory) (s : nat) : Z * memory * nat :=
  if fn =? 0x9001 then
    match args with
    | [h; g; out] =>
        match boot_protocol h (load_bytes m g 16) with
        | Some a => (0, store64 m out a, s)
        | None => (Spec.code UNSUPPORTED, m, s)
        end
    | _ => (Spec.code INVALID_PARAMETER, m, s)
    end
  else if fn =? 0x9002 then
    match args with
    | [h; out] => if h =? 0xC000 then (0, store64 m out 0xD000, s) else (Spec.code NO_MEDIA, m, s)
    | _ => (Spec.code INVALID_PARAMETER, m, s)
    end
  else if fn =? 0x9003 then
    match args with
    | [_; parent; path; buf; size; out] =>
        match verify_load s (load_bytes m buf (Z.to_nat size)) with
        | Some (h, ws, s', _) => (0, store64 (write_all m ws) out h, s')
        | None => (Spec.code LOAD_ERROR, m, s)
        end
    | _ => (Spec.code INVALID_PARAMETER, m, s)
    end
  else if fn =? 0x9004 then (0, m, S s)
  else if fn =? 0x9005 then (Spec.code NOT_FOUND, m, s)
  else (Spec.code NOT_FOUND, m, s).

Definition verify_machine : Machine := machine_with nat verify_firmware.

Lemma boot_protocol_word h g a : boot_protocol h g = Some a -> is_word 64 a.
Proof. unfold boot_protocol, is_word. repeat case_match; intros; simplify_eq; lia. Qed.

#[export, refine] Instance verify_database : HandleDatabase (H := verify_machine) := {
  db_handle _ h g := boot_protocol h g;
  db_locate _ _ := None;
  hp_entry := 0x9001;
  lp_entry := 0x9005;
}.
Proof.
  - intros _ h g a. apply boot_protocol_word.
  - done.
  - intros h g out m s _ _. unfold firmware, verify_machine, machine_with, verify_firmware.
    change (0x9001 =? 0x9001) with true. cbv iota. destruct (boot_protocol _ _); [done|].
    apply refuses_plain. left.
  - intros g out m s _ _. apply (refuses_plain lp_errors true out m s NOT_FOUND). left.
Defined.

Lemma verify_load_word s (nodes : list DevicePath) image h ws s' :
  verify_load s image = Some (h, ws, s', true) \/ verify_load s image = Some (h, ws, s', false) -> is_word 64 h.
Proof. unfold verify_load, is_word. intros [E|E]; case_decide; simplify_eq; lia. Qed.

#[export, refine] Instance verify_service : BootVolumeService (H := verify_machine) := {
  volume_root _ h := if h =? 0xC000 then Some 0xD000 else None;
  load_from_memory s _ image := verify_load s image;
  ov_entry := 0x9002;
  li_entry := 0x9003;
}.
Proof.
  - intros _ h a. unfold is_word. destruct (h =? 0xC000); intros; simplify_eq. lia.
  - apply verify_load_word.
  - intros h out m s _. unfold firmware, verify_machine, machine_with, verify_firmware.
    change (0x9002 =? 0x9001) with false. change (0x9002 =? 0x9002) with true. cbv iota.
    destruct (h =? 0xC000); [done|]. apply refuses_plain. by apply (bool_decide_unpack _).
  - intros parent path nodes buf size out m s _ _ _ _ _ answer. subst answer.
    unfold firmware, verify_machine, machine_with, verify_firmware.
    change (0x9003 =? 0x9001) with false. change (0x9003 =? 0x9002) with false.
    change (0x9003 =? 0x9003) with true. cbv iota. unfold verify_load. case_decide; [done|].
    apply refuses_plain. by apply (bool_decide_unpack _).
Defined.

Definition kernel_memory : memory :=
  foldl (fun m '(a, bs) => store_bytes m a bs) ∅
    [ (0x7098, le_enc 8 0x9001); (0x70c8, le_enc 8 0x9003); (0x70d0, le_enc 8 0x9004);
      (0x8000, path_bytes demo_nodes ++ Node_Bytes devicePathEnd);
      (0xA000, image_at 0x1000 2); (0xC000, enc (simpleFileSystem.mk 0x10000 0x9002));
      (0xD000, enc (fileProtocol.mk 0x10000 0 0 0 0 0 0 0 0 0 0));
      (cfgOff, decimal 4096 ++ 10 :: bytes_of_string "quiet" ++ [10]); (kerOff, [0x4d; 0x5a]) ].

Definition kernel_world : World (H := verify_machine) := mkWorld verify_machine kernel_memory 0x40000000 false [] 0%nat.

Definition kernel_volume : boot_volume :=
  mkVolume 0xA000 (LoadedImage.mk 0x1000 0 0 2 0 0 0 0 0 0 0 0) 0x8000 demo_nodes
    (load_bytes kernel_memory (0x8000 + 18) (Z.to_nat 65518)) 0xC000 (simpleFileSystem.mk 0x10000 0x9002)
    0xD000 (fileProtocol.mk 0x10000 0 0 0 0 0 0 0 0 0 0).

Lemma placed_demo {A} `{Binary A} S fw (s : S) a (v : A) m :
  bool_decide (a <> 0 /\ a + Z.of_nat (bin_size A) <= 0x40000000 /\ a mod 8 = 0 /\ load_bytes m a (bin_size A) = enc v) = true ->
  bin_ok v ->
  placed (H := machine_with S fw) a v (mkWorld (machine_with S fw) m 0x40000000 false [] s).
Proof. intros (? & ? & ? & ?)%bool_decide_eq_true Hv. by split_and!. Qed.

Lemma kernel_has_volume :
  has_volume (H := verify_machine) demo_boot 1 kernel_volume kernel_world.
Proof.
  split.
  - vm_compute. split; congruence.
  - reflexivity.
  - apply placed_demo; [vm_compute; reflexivity|vm_compute; repeat split; congruence].
  - reflexivity.
  - reflexivity.
  - split; [exact demo_nodes_ok|vm_compute; reflexivity].
  - split; reflexivity.
  - replace (Z.to_nat bufferSize) with (18 + Z.to_nat 65518)%nat by (unfold bufferSize; lia).
    rewrite load_bytes_app, app_assoc. f_equal.
  - vm_compute. congruence.
  - reflexivity.
  - apply placed_demo; [vm_compute; reflexivity|vm_compute; repeat split; congruence].
  - reflexivity.
  - reflexivity.
  - apply placed_demo; [vm_compute; reflexivity|vm_compute; repeat split; congruence].
  - reflexivity.
  - reflexivity.
Qed.

Lemma kernel_ready :
  verify_ready (H := verify_machine) boot_services demo_boot kernel_volume 4096 (utf8 [0x71; 0x75; 0x69; 0x65; 0x74])
    kernel_world.
Proof.
  split.
  - done.
  - done.
  - exists (replicate (Z.to_nat cfgLen - 11) 0). vm_compute. reflexivity.
  - vm_compute. split; [split|]; congruence.
  - apply kernel_has_volume.
  - vm_compute. split; congruence.
Qed.

(** The kernel is started with the command line. *)
Lemma efi_verify_boots_witness :
  exists w4 : World (H := verify_machine), w_fw w4 = 0%nat /\
    (let r := fw_step (H := verify_machine) (u64 (base demo_boot + startImage)) [9; 0; 0] w4 in
     main (H := verify_machine) (H0 := demo_append) 10 boot_services kernel_world =
     after_kernel (H := verify_machine) boot_services demo_boot (Core.parseStatus r.1) r.2).
Proof.
  apply (boots_as_loaded (H := verify_machine) boot_services demo_boot kernel_volume 4096
    [0x71; 0x75; 0x69; 0x65; 0x74] kernel_world _ 9 [(0xB000, enc loaded_image)] 0%nat 0xB000 loaded_image).
  - apply (efi_verify_boots (H := verify_machine) (H3 := demo_append) 10 boot_services demo_boot kernel_volume 4096
      [0x71; 0x75; 0x69; 0x65; 0x74] kernel_world).
    + apply (bool_decide_unpack _). vm_compute. exact I.
    + apply (bool_decide_unpack _). vm_compute. exact I.
    + vm_compute. reflexivity.
    + exact kernel_ready.
  - vm_compute. reflexivity.
  - vm_compute. split; congruence.
  - vm_compute. reflexivity.
  - apply placed_demo; [vm_compute; reflexivity|vm_compute; repeat split; congruence].
  - reflexivity.
Defined.
