(* ===== verification/Refuse.v ===== *)
(** * Refuse: efi-verify when its boot volume cannot be used

    [Root] goes through six steps, each of which can fail: the loaded image, the
    device path and the file system of its device, the file system's revision,
    the volume, its root directory.  [bad_image] lists the ways; whichever it is, efi-verify exits with code
    1 and the firmware has been asked for nothing but lookups. *)

From S2P Require Import Prelude Binary Machine Status Text Guid Tables Desc Boot FileSys DevicePath Image.
From S2P Require Import Verify.

Section Bad.
Context `{BootVolumeService, !DmaLaws}.

(** No interface, or a null one. *)
Definition missing (h : Z) (guid : gostring) (w : World) : Prop :=
  db_handle (w_fw w) h (Bytes guid) = None \/ db_handle (w_fw w) h (Bytes guid) = Some 0.

(** The volume behind the file system interface [a] cannot be opened. *)
Inductive bad_volume (a : Z) (w : World) : Prop :=
| volume_refused : volume_root (w_fw w) a = None -> bad_volume a w
| volume_null : volume_root (w_fw w) a = Some 0 -> bad_volume a w
| volume_revision r dir :
    volume_root (w_fw w) a = Some r -> placed r dir w ->
    revision_ok (fileProtocol.Revision dir) = false -> bad_volume a w.

(** The device [d] has no usable file system. *)
Inductive bad_device (d : Z) (w : World) : Prop :=
| device_path :
    db_handle (w_fw w) d (Bytes EFI_LOADED_IMAGE_DEVICE_PATH_PROTOCOL_GUID) = None -> bad_device d w
| device_fs p :
    db_handle (w_fw w) d (Bytes EFI_LOADED_IMAGE_DEVICE_PATH_PROTOCOL_GUID) = Some p ->
    missing d EFI_SIMPLE_FILE_SYSTEM_PROTOCOL_GUID w -> bad_device d w
| device_revision p a sfs :
    db_handle (w_fw w) d (Bytes EFI_LOADED_IMAGE_DEVICE_PATH_PROTOCOL_GUID) = Some p ->
    db_handle (w_fw w) d (Bytes EFI_SIMPLE_FILE_SYSTEM_PROTOCOL_GUID) = Some a -> placed a sfs w ->
    simpleFileSystem.Revision sfs <> EFI_SIMPLE_FILE_SYSTEM_PROTOCOL_REVISION -> bad_device d w
| device_volume p a sfs :
    db_handle (w_fw w) d (Bytes EFI_LOADED_IMAGE_DEVICE_PATH_PROTOCOL_GUID) = Some p ->
    db_handle (w_fw w) d (Bytes EFI_SIMPLE_FILE_SYSTEM_PROTOCOL_GUID) = Some a -> placed a sfs w ->
    simpleFileSystem.Revision sfs = EFI_SIMPLE_FILE_SYSTEM_PROTOCOL_REVISION ->
    simpleFileSystem.OpenVolume sfs = ov_entry -> bad_volume a w -> bad_device d w.

(** The program's image handle [h] does not lead to a volume. *)
Inductive bad_image (h : Z) (w : World) : Prop :=
| image_missing : missing h EFI_LOADED_IMAGE_PROTOCOL_GUID w -> bad_image h w
| image_revision a li :
    db_handle (w_fw w) h (Bytes EFI_LOADED_IMAGE_PROTOCOL_GUID) = Some a -> placed a li w ->
    LoadedImage.Revision li <> EFI_LOADED_IMAGE_PROTOCOL_REVISION -> bad_image h w
| image_device a li :
    db_handle (w_fw w) h (Bytes EFI_LOADED_IMAGE_PROTOCOL_GUID) = Some a -> placed a li w ->
    LoadedImage.Revision li = EFI_LOADED_IMAGE_PROTOCOL_REVISION ->
    bad_device (LoadedImage.DeviceHandle li) w -> bad_image h w.

Lemma bad_volume_later a w w' : later w w' -> bad_volume a w -> bad_volume a w'.
Proof.
  intros L B. pose proof (la_fw _ _ L) as F.
  destruct B; [eapply volume_refused|eapply volume_null|eapply volume_revision];
    rewrite ?F; eauto using placed_later.
Qed.

(** ** The lookups *)

Lemma HandleProtocol_none boot h guid w :
  w_mux w = false -> entry_at (u64 (base boot + handleProtocol)) hp_entry w ->
  db_handle (w_fw w) h (Bytes guid) = None ->
  exists a e w', HandleProtocol boot h guid w = (Ret (a, Some e), w') /\ later w w'.
Proof.
  intros Hm He Hdb. destruct (HandleProtocol_later_db boot h guid w Hm He) as (x & w' & E & Hx & L).
  rewrite Hdb in Hx. destruct Hx as (e & _ & ->). by eexists _, _, w'.
Qed.

Lemma LoadImageHandle_bad boot h w :
  w_mux w = false -> entry_at (u64 (base boot + handleProtocol)) hp_entry w ->
  missing h EFI_LOADED_IMAGE_PROTOCOL_GUID w \/
  (exists a li, db_handle (w_fw w) h (Bytes EFI_LOADED_IMAGE_PROTOCOL_GUID) = Some a /\ placed a li w /\
     LoadedImage.Revision li <> EFI_LOADED_IMAGE_PROTOCOL_REVISION) ->
  exists i a e w', LoadImageHandle boot h w = (Ret (i, a, Some e), w') /\ later w w'.
Proof.
  intros Hm He Hbad. unfold LoadImageHandle. destruct Hbad as [[Hn|Hz]|(a & li & Hdb & Hp & Hrev)].
  - destruct (HandleProtocol_none boot h _ w Hm He Hn) as (a & e & w' & E & L).
    erewrite bind_step by exact E. by eexists _, _, _, w'.
  - destruct (HandleProtocol_later boot h _ 0 w Hm He Hz) as (w' & E & L).
    erewrite bind_step by exact E. cbv beta iota. erewrite bind_step by apply decode_zero.
    by eexists _, _, _, w'.
  - destruct (HandleProtocol_later boot h _ a w Hm He Hdb) as (w' & E & L).
    erewrite bind_step by exact E. cbv beta iota.
    erewrite bind_step.
    2: { apply decode_placed; [vm_compute; repeat split; congruence|vm_compute; lia|by eapply placed_later]. }
    cbv beta iota. rewrite (proj2 (Z.eqb_neq _ _) Hrev). by eexists _, _, _, w'.
Qed.

Lemma decode_new_zero A `{Binary A} w :
  exists o v e w', decode_new A 0 w = (Ret (o, v, Some e), w') /\ later w w'.
Proof.
  unfold decode_new. erewrite bind_step by reflexivity. erewrite bind_step by apply decode_zero.
  cbv beta iota. erewrite bind_step by reflexivity. eexists _, _, _, _. split; [reflexivity|].
  apply later_store; [apply later_alloc|lia].
Qed.

Lemma openVolume_bad o a w :
  w_mux w = false -> 0 < w_brk w -> entry_at (o + off_OpenVolume) ov_entry w -> bad_volume a w ->
  exists f r e w', openVolume o a w = (Ret (f, r, Some e), w') /\ later w w'.
Proof.
  intros Hm Hpos He Hbad. destruct (openVolume_call o a w Hm Hpos He) as (w2 & L2 & E2).
  destruct Hbad as [Hv|Hv|r dir Hv Hp Hrev]; rewrite Hv in E2.
  - destruct E2 as (r & e & E2). by eexists _, _, _, w2.
  - rewrite E2. unfold file_instance.
    destruct (decode_new_zero fileProtocol.t w2) as (o' & v & e & w3 & E & L3).
    erewrite bind_step by exact E. eexists _, _, _, w3. split; [reflexivity|by transitivity w2].
  - rewrite E2. unfold file_instance.
    destruct (decode_new_placed (A := fileProtocol.t)) with (a := r) (v := dir) (w := w2)
      as (w3 & E & L3 & _); [vm_compute; repeat split; congruence|vm_compute; lia|by eapply placed_later|].
    erewrite bind_step by exact E. cbv beta iota. rewrite Hrev. cbn [negb].
    eexists _, _, _, w3. split; [reflexivity|by transitivity w2].
Qed.

(** The rest of [Root] after the loaded image, with the device [d] and the copy of the
    file system's instance at [o]. *)
Definition Root_device (boot : BootServices) (image : option LoadedImage.t) (o d : Z) : M (option FS * error) :=
  let volume := mkFile None 0 [] in
  '(device, err) ← HandleProtocol boot d EFI_LOADED_IMAGE_DEVICE_PATH_PROTOCOL_GUID;
  match err with
  | Some _ => mret (Some (mkFS image device 0 o (Some volume)), err)
  | None =>
  '(addr, err) ← HandleProtocol boot d EFI_SIMPLE_FILE_SYSTEM_PROTOCOL_GUID;
  match err with
  | Some _ => mret (Some (mkFS image device addr o (Some volume)), err)
  | None =>
  '(v, err) ← decode (bin_zero simpleFileSystem.t) addr;
  _ ← put_bytes o (enc v);
  match err with
  | Some _ => mret (Some (mkFS image device addr o (Some volume)), err)
  | None =>
  if negb (simpleFileSystem.Revision v =? EFI_SIMPLE_FILE_SYSTEM_PROTOCOL_REVISION)
  then mret (None, invalid_revision)
  else
    '(file, vaddr, err) ← openVolume o addr;
    mret (Some (mkFS image device addr o (Some (mkFile file vaddr []))), err)
  end end end.

Lemma device_bad boot image o d w0 w :
  w_mux w = false -> w_brk w0 <= o -> o + 16 <= w_brk w -> later w0 w ->
  entry_at (u64 (base boot + handleProtocol)) hp_entry w -> bad_device d w0 ->
  exists r e w', Root_device boot image o d w = (Ret (r, Some e), w') /\ later w0 w'.
Proof.
  intros Hm Ho0 Ho L He Hbad. unfold Root_device. cbv zeta.
  assert (db_handle (w_fw w) d (Bytes EFI_LOADED_IMAGE_DEVICE_PATH_PROTOCOL_GUID) = None \/
    exists p, db_handle (w_fw w) d (Bytes EFI_LOADED_IMAGE_DEVICE_PATH_PROTOCOL_GUID) = Some p)
    as [Hp|[p Hp]] by (destruct (db_handle _ _ _); eauto).
  { destruct (HandleProtocol_none boot d _ w Hm He Hp) as (a & e & w1 & E & L1).
    erewrite bind_step by exact E. eexists _, _, w1. split; [reflexivity|by transitivity w]. }
  destruct (HandleProtocol_later boot d _ p w Hm He Hp) as (w1 & E1 & L1).
  erewrite bind_step by exact E1. cbv beta iota. apply (entry_later _ _ _ _ L1) in He. rewrite <-(la_mux _ _ L1) in Hm.
  pose proof (la_brk _ _ L1) as B1. rewrite <-(la_fw _ _ L1) in Hp. assert (later w0 w1) as L01 by by transitivity w.
  assert (missing d EFI_SIMPLE_FILE_SYSTEM_PROTOCOL_GUID w1 \/
    exists a sfs, db_handle (w_fw w1) d (Bytes EFI_SIMPLE_FILE_SYSTEM_PROTOCOL_GUID) = Some a /\
      placed a sfs w1 /\ (simpleFileSystem.Revision sfs <> EFI_SIMPLE_FILE_SYSTEM_PROTOCOL_REVISION \/
        simpleFileSystem.Revision sfs = EFI_SIMPLE_FILE_SYSTEM_PROTOCOL_REVISION /\
        simpleFileSystem.OpenVolume sfs = ov_entry /\ bad_volume a w0))
    as [[Hn|Hz]|(a & sfs & Ha & Hsfs & Hbad')]
    by (rewrite (la_fw _ _ L01) in Hp |- *; unfold missing; rewrite (la_fw _ _ L01);
        destruct Hbad; [congruence|by left|right|right]; eauto 10 using placed_later).
  { destruct (HandleProtocol_none boot d _ w1 Hm He Hn) as (a & e & w2 & E & L2).
    erewrite bind_step by exact E. eexists _, _, w2. split; [reflexivity|by transitivity w1]. }
  { destruct (HandleProtocol_later boot d _ 0 w1 Hm He Hz) as (w2 & E & L2).
    erewrite bind_step by exact E. cbv beta iota. erewrite bind_step by apply decode_zero. cbv beta iota.
    erewrite bind_step by reflexivity. eexists _, _, _. split; [reflexivity|].
    apply later_store; [by transitivity w1|done]. }
  destruct (HandleProtocol_later boot d _ a w1 Hm He Ha) as (w2 & E2 & L2).
  erewrite bind_step by exact E2. cbv beta iota. pose proof (placed_later _ _ _ _ L2 Hsfs) as Hsfs2.
  erewrite bind_step.
  2: { apply decode_placed; [vm_compute; repeat split; congruence|vm_compute; lia|exact Hsfs2]. }
  cbv beta iota. erewrite bind_step by reflexivity.
  set (w3 := set_mem (store_bytes (w_mem w2) o (enc sfs)) w2).
  assert (later w0 w3) as L03 by (apply later_store; [by transitivity w1|done]).
  destruct Hbad' as [Hrev|(Hrev & Hov & Hvol)].
  { rewrite (proj2 (Z.eqb_neq _ _) Hrev). eexists _, _, w3. split; [reflexivity|done]. }
  rewrite Hrev, Z.eqb_refl. cbn [negb].
  destruct (openVolume_bad o a w3) as (f & r & e & w4 & E4 & L4).
  - change (w_mux w3) with (w_mux w2). by rewrite (la_mux _ _ L2).
  - change (w_brk w3) with (w_brk w2). pose proof (entry_brk _ _ _ He). pose proof (la_brk _ _ L2). lia.
  - split; [|pose proof (la_brk _ _ L2); change (w_brk w3) with (w_brk w2); unfold off_OpenVolume; lia].
    rewrite <-Hov. destruct Hsfs as (_ & _ & Hok & _). exact (sfs_entry _ o (w_mem w2) Hok).
  - by eapply bad_volume_later.
  - erewrite bind_step by exact E4. eexists _, _, w4. split; [reflexivity|by transitivity w3].
Qed.

(** [Root] fails, whichever step it is. *)
Lemma Root_bad UEFI boot w :
  s_Boot UEFI = Some boot -> w_mux w = false -> entry_at (u64 (base boot + handleProtocol)) hp_entry w ->
  bad_image (s_imageHandle UEFI) w ->
  exists r e w', Root UEFI w = (Ret (r, Some e), w') /\ later w w'.
Proof.
  intros Hs Hm He Hbad. unfold Root. erewrite bind_step by reflexivity. rewrite Hs. erewrite bind_step by reflexivity.
  set (o := w_brk w). set (w1 := alloc_world (enc (bin_zero simpleFileSystem.t)) w).
  assert (later w w1) as L1 by apply later_alloc.
  pose proof (entry_later _ _ _ _ L1 He) as He1.
  assert ((missing (s_imageHandle UEFI) EFI_LOADED_IMAGE_PROTOCOL_GUID w1 \/
    exists a li, db_handle (w_fw w1) (s_imageHandle UEFI) (Bytes EFI_LOADED_IMAGE_PROTOCOL_GUID) = Some a /\
      placed a li w1 /\ LoadedImage.Revision li <> EFI_LOADED_IMAGE_PROTOCOL_REVISION) \/
    exists a li, db_handle (w_fw w1) (s_imageHandle UEFI) (Bytes EFI_LOADED_IMAGE_PROTOCOL_GUID) = Some a /\
      placed a li w1 /\ LoadedImage.Revision li = EFI_LOADED_IMAGE_PROTOCOL_REVISION /\
      bad_device (LoadedImage.DeviceHandle li) w) as [Hi|(a & li & Hdb & Hli & Hrev & Hdev)].
  { change (w_fw w1) with (w_fw w). destruct Hbad as [|a li|a li]; [by left; left|left; right|right];
      exists a, li; split_and!; eauto using placed_later. }
  { destruct (LoadImageHandle_bad boot _ w1 Hm He1 Hi) as (i & a & e & w2 & E2 & L2).
    erewrite bind_step by exact E2. eexists _, _, w2. split; [reflexivity|by transitivity w1]. }
  destruct (LoadImageHandle_placed boot _ a li w1 Hm He1 Hdb Hli Hrev) as (w2 & E2 & L2).
  erewrite bind_step by exact E2. cbv beta iota. erewrite bind_step by reflexivity.
  assert (later w w2) as L12 by by transitivity w1.
  destruct (device_bad boot (Some li) o (LoadedImage.DeviceHandle li) w w2) as (r & e & w' & E & L); try done.
  - by rewrite (la_mux _ _ L12).
  - pose proof (la_brk _ _ L2) as B. assert (w_brk w1 = o + 16) as B1 by reflexivity. lia.
  - by eapply entry_later.
  - exists r, e, w'. split; [exact E|done].
Qed.
End Bad.

Lemma executeKernel_no_root `{Machine, Append} fuel UEFI path data cmdline r e w w1 :
  Root UEFI w = (Ret (r, Some e), w1) ->
  executeKernel fuel UEFI path data cmdline w = (Ret ([], Some (ErrWrap "could not open root volume " e)), w1).
Proof. intros Hr. unfold executeKernel. by erewrite bind_step by exact Hr. Qed.

(** C9. efi-verify that cannot use the volume it was started from, in any of the
    ways of [bad_image]: no or a null loaded image, a loaded image of another revision, a device
    without a path or a file system, a file system of another revision, a volume that is
    refused, null or has a root directory of another revision.  The program exits with code 1,
    and the firmware's state and the memory below the heap are as before: no
    image was loaded or started, and nothing was exited or reset. *)
Theorem efi_verify_refuses `{BootVolumeService, !DmaLaws, Append} fuel UEFI boot n cmdline rest w :
  0 <= n < 2 ^ 63 -> Forall (fun c => c <> 10) cmdline ->
  load_bytes (w_mem w) cfgOff (Z.to_nat cfgLen) = decimal n ++ 10 :: cmdline ++ 10 :: rest ->
  s_Boot UEFI = Some boot -> w_mux w = false -> entry_at (u64 (base boot + handleProtocol)) hp_entry w ->
  bad_image (s_imageHandle UEFI) w ->
  exists w', main fuel UEFI w = (Ret (Some 1), w') /\ later w w'.
Proof.
  intros Hn Hc Hcfg Hs Hm He Hbad. destruct (Root_bad UEFI boot w Hs Hm He Hbad) as (r & e & w' & E & L).
  exists w'. split; [|done].
  pose proof (executeKernel_no_root fuel UEFI kernelPath (Some (mkSlice kerOff n)) cmdline r e w w' E) as Ex.
  eapply (main_step _ _ _ n) in Ex; [exact Ex|exact Hn|exact Hc|exact Hcfg|exact Hs|by rewrite (la_mux _ _ L)].
Qed.

(** A program whose handle has no loaded image. *)
Lemma efi_verify_refuses_witness :
  let UEFI := mkServices None None (Some demo_boot) None 5 0 in
  exists w', main (H := verify_machine) (H0 := demo_append) 10 UEFI kernel_world = (Ret (Some 1), w') /\
    later (H := verify_machine) kernel_world w'.
Proof.
  destruct kernel_ready as [_ _ [rest Hcfg] _ _ _].
  apply (efi_verify_refuses (H := verify_machine) (H3 := demo_append) 10
    (mkServices None None (Some demo_boot) None 5 0) demo_boot 4096 (utf8 [0x71; 0x75; 0x69; 0x65; 0x74]) rest
    kernel_world).
  - lia.
  - apply (bool_decide_unpack _). vm_compute. exact I.
  - exact Hcfg.
  - reflexivity.
  - reflexivity.
  - vm_compute. split; congruence.
  - apply image_missing. left. reflexivity.
Defined.
