(* ===== verification/Runs.v ===== *)
(** * Runs: what every use of ueficore keeps

    A predicate on effectful code, [Behaves], with a rule for each way the code is put
    together and an instance for each operation of the package: whatever the firmware answers,
    an operation that starts with the mutex free ends, by returning or by a panic,
    with the mutex free again; it never waits for the mutex; the Go heap only grows and
    what was printed stays printed.  The one operation that may run on is [LoadImage], which
    reads a file to its end.  All this carries over to every program that uses the
    package through its operations, here [program], and to efi-verify. *)

From S2P Require Import Prelude Binary Machine Guid Tables Desc Console Boot MemMap Heap.
From S2P Require Import FileSys DevicePath Image.

(** ** The predicate *)

(** tamago/dma returns or panics. *)
Class DmaReturns `{Machine} := {
  dma_reserve_returns r n a : dma_Reserve r n a <> Deadlock /\ dma_Reserve r n a <> NoFuel;
  dma_alloc_returns r b a m : dma_Alloc r b a m <> Deadlock /\ dma_Alloc r b a m <> NoFuel;
}.

(** What may have happened between two worlds, seen between two operations. *)
Record extends `{Machine} (w w' : World) : Prop := {
  ext_mux : w_mux w' = w_mux w;
  ext_brk : w_brk w <= w_brk w';
  ext_log : w_log w `suffix_of` w_log w';
}.

#[export] Instance extends_preorder `{Machine} : PreOrder extends.
Proof.
  split.
  - intros w. by split.
  - intros w1 w2 w3 [M1 B1 L1] [M2 B2 L2]. split; [congruence|lia|by etrans].
Qed.

(** The way a run ends: a loop of the model may also end for lack of fuel where the
    caller chooses it. *)
Definition ends (fuelled : bool) {A} (o : outcome A) : Prop :=
  match o with Ret _ | Panic _ => True | Deadlock => False | NoFuel => fuelled = true end.

Lemma alloc_world_extends `{Machine} bs w : extends w (alloc_world bs w).
Proof.
  split; [done| |done]. rewrite alloc_world_brk. pose proof (alloc_size_ge (length bs)). lia.
Qed.

Lemma set_mem_extends `{Machine} m w : extends w (set_mem m w).
Proof. by split. Qed.

Lemma extends_refl `{Machine} w : extends w w.
Proof. done. Qed.

Lemma fw_step_extends `{Machine} fn args w : extends w (fw_step fn args w).2.
Proof. unfold fw_step. destruct (firmware _ _ _ _) as [[st m] s]. by split. Qed.

Class Behaves `{Machine} (fuelled : bool) {A} (m : M A) : Prop :=
  behaves w : w_mux w = false -> ends fuelled (m w).1 /\ extends w (m w).2.

#[export] Hint Mode Behaves - - - + : typeclass_instances.

Section Rules.
Context `{Machine} {fuelled : bool}.

#[export] Instance ret_behaves {A} (a : A) : Behaves fuelled (mret a).
Proof. intros w _. by split. Qed.

#[export] Instance bind_behaves {A B} (m : M A) (f : A -> M B) :
  Behaves fuelled m -> (forall a, Behaves fuelled (f a)) -> Behaves fuelled (m ≫= f).
Proof.
  intros Hm Hf w Hw. destruct (Hm w Hw) as [He Hx]. unfold mbind, M_bind.
  destruct (m w) as [[a|p| |] w1]; cbn in *; try done.
  destruct (Hf a w1) as [He' Hx']; [by rewrite (ext_mux _ _ Hx)|]. split; [done|by etrans].
Qed.

#[export] Instance gopanic_behaves {A} p : Behaves fuelled (gopanic (A := A) p).
Proof. intros w _. by split. Qed.

Lemma lift_behaves {A} (o : outcome A) : ends fuelled o -> Behaves fuelled (lift o).
Proof. intros Ho w _. by split. Qed.

#[export] Instance get_bytes_behaves a n : Behaves fuelled (get_bytes a n).
Proof. intros w _. by split. Qed.

#[export] Instance get64_behaves a : Behaves fuelled (get64 a).
Proof. intros w _. by split. Qed.

#[export] Instance get32_behaves a : Behaves fuelled (get32 a).
Proof. intros w _. by split. Qed.

#[export] Instance put_bytes_behaves a bs : Behaves fuelled (put_bytes a bs).
Proof. intros w _. split; [done|]. apply set_mem_extends. Qed.

#[export] Instance alloc_behaves bs : Behaves fuelled (alloc bs).
Proof. intros w _. split; [done|]. apply alloc_world_extends. Qed.

#[export] Instance println_behaves s : Behaves fuelled (println s).
Proof. intros w _. split; [done|]. split; [done|done|]. by exists [s]. Qed.

#[export] Instance CallService_behaves fn args : Behaves fuelled (CallService fn args).
Proof.
  intros w Hw. unfold CallService, mux_Lock, mux_Unlock, callFn, mbind, M_bind. rewrite Hw.
  destruct args; [by split|]. cbn [w_mux set_mux]. destruct (firmware _ _ _ _) as [[st m] s].
  split; [done|]. by split.
Qed.

#[export] Instance CallServiceTable_behaves t i args : Behaves fuelled (CallServiceTable t i args).
Proof. apply (CallService_behaves (u64 (t + 24 + u64 (8 * i)))). Qed.

(** A run of a loop that computes its fuel. *)
Lemma behaves_weaken {A} (m : M A) : Behaves false m -> Behaves fuelled m.
Proof.
  intros Hm w Hw. destruct (Hm w Hw) as [He Hx]. split; [|done]. by destruct (m w) as [[] ?], fuelled.
Qed.
End Rules.

(** [behaves] takes code apart: binds and case distinctions by rule, what is left by
    instance. *)
Ltac behave :=
  repeat (intros;
    cbv match;
    lazymatch goal with
    | |- Behaves _ (mbind _ _) => apply bind_behaves
    | |- Behaves _ (match ?x with _ => _ end) => destruct x
    | |- Behaves _ (if ?x then _ else _) => destruct x
    | |- Behaves _ _ => first [apply _ | assumption]
    end); intros.

(** GetMemoryMap's two allocations and its call. *)
Lemma map_call_extends `{Machine} fn args w : extends w (fw_step fn args (map_world w)).2.
Proof. etrans; [|apply fw_step_extends]. unfold map_world. etrans; apply alloc_world_extends. Qed.

(** ** The operations *)

(** An instance is found by the name of the operation. *)
#[local] Hint Constants Opaque : typeclass_instances.

Section Operations.
Context `{DmaReturns} {fuelled : bool}.

#[export] Instance ptrval_behaves p : Behaves fuelled (ptrval p).
Proof. unfold ptrval. behave. Qed.

#[export] Instance Ptrval_behaves p : Behaves fuelled (Ptrval p).
Proof. apply ptrval_behaves. Qed.

#[export] Instance alloc64_behaves v : Behaves fuelled (alloc64 v).
Proof. apply alloc_behaves. Qed.

#[export] Instance addr_of_bytes_behaves bs : Behaves fuelled (addr_of_bytes bs).
Proof. unfold addr_of_bytes. behave. Qed.

#[export] Instance deref_behaves {A} (p : option A) : Behaves fuelled (deref p).
Proof. unfold deref. behave. Qed.

#[export] Instance guid_ptrval_behaves g : Behaves fuelled (guid_ptrval g).
Proof. unfold guid_ptrval. behave. Qed.

#[export] Instance reserve_behaves r n a : Behaves fuelled (lift (dma_Reserve r n a)).
Proof. apply lift_behaves. destruct (dma_reserve_returns r n a). by destruct (dma_Reserve r n a). Qed.

#[export] Instance encode_behaves {A} `{Binary A} (v : A) a : Behaves fuelled (encode v a).
Proof.
  unfold encode. behave. intros w _. destruct (dma_alloc_returns (a, zlen l) l 0 (w_mem w)).
  destruct (dma_Alloc _ _ _ _) as [[p m]|p| |]; (split; [done|]);
    first [apply set_mem_extends|apply extends_refl].
Qed.

#[export] Instance decode_behaves {A} `{Binary A} (v : A) a : Behaves fuelled (decode v a).
Proof. unfold decode. behave. Qed.

#[export] Instance decode_new_behaves A `{Binary A} a : Behaves fuelled (decode_new A a).
Proof. unfold decode_new. behave. Qed.

#[export] Instance elem0_behaves p n : Behaves fuelled (elem0 p n).
Proof. unfold elem0. behave. Qed.

(** Console. *)
#[export] Instance ClearScreen_behaves c : Behaves fuelled (ClearScreen c).
Proof. unfold ClearScreen. behave. Qed.

#[export] Instance SetMode_behaves c mode : Behaves fuelled (SetMode c mode).
Proof. unfold SetMode. behave. Qed.

#[export] Instance SetAttribute_behaves c a : Behaves fuelled (SetAttribute c a).
Proof. unfold SetAttribute. behave. Qed.

#[export] Instance Input_behaves c k : Behaves fuelled (Input c k).
Proof. unfold Input. behave. Qed.

#[export] Instance Output_behaves c p : Behaves fuelled (Output c p).
Proof. unfold Output. behave. Qed.

(** [Read] has a round for every byte of the slice. *)
Lemma Read_loop_behaves n c p len k i :
  (0 < n)%nat -> len - i < Z.of_nat n -> Behaves fuelled (Read_loop n c p len k i).
Proof.
  revert i. induction n as [|n IH]; intros i Hpos Hn; [lia|]. cbn [Read_loop].
  destruct (Z.ltb_spec i len); [|apply _].
  assert (Behaves fuelled (Read_loop n c p len k (i + 2))) by (apply IH; lia). behave.
Qed.

#[export] Instance Read_behaves c p len : Behaves fuelled (Read c p len).
Proof. unfold Read. behave. apply Read_loop_behaves; lia. Qed.

#[export] Instance Write_behaves c p : Behaves fuelled (Write c p).
Proof. unfold Write. behave. Qed.

#[export] Instance printk_behaves c b : Behaves fuelled (printk c b).
Proof. unfold printk. behave. Qed.

(** Boot and runtime services. *)
#[export] Instance HandleProtocol_behaves s h g : Behaves fuelled (HandleProtocol s h g).
Proof. unfold HandleProtocol. behave. Qed.

#[export] Instance LocateProtocol_behaves s g : Behaves fuelled (LocateProtocol s g).
Proof. unfold LocateProtocol. behave. Qed.

#[export] Instance AllocatePages_behaves s t m n a : Behaves fuelled (AllocatePages s t m n a).
Proof. unfold AllocatePages. behave. Qed.

#[export] Instance FreePages_behaves s a n : Behaves fuelled (FreePages s a n).
Proof. unfold FreePages. behave. Qed.

#[export] Instance SetWatchdogTimer_behaves s n : Behaves fuelled (SetWatchdogTimer s n).
Proof. unfold SetWatchdogTimer. behave. Qed.

#[export] Instance Exit_behaves s c : Behaves fuelled (Exit s c).
Proof. unfold Exit. behave. Qed.

#[export] Instance ResetSystem_behaves s t : Behaves fuelled (ResetSystem s t).
Proof. unfold ResetSystem. behave. Qed.

#[export] Instance GetVariable_behaves s n nl g gl : Behaves fuelled (GetVariable s n nl g gl).
Proof. unfold GetVariable. behave. Qed.

#[export] Instance GetInfo_behaves d : Behaves fuelled (GetInfo d).
Proof. unfold GetInfo. behave. Qed.

#[export] Instance GetMode_behaves g : Behaves fuelled (GetMode g).
Proof. unfold GetMode. behave. Qed.

#[export] Instance Blt_behaves g b op a1 a2 a3 a4 a5 a6 a7 : Behaves fuelled (Blt g b op a1 a2 a3 a4 a5 a6 a7).
Proof. unfold Blt. behave. Qed.

#[export] Instance GetGraphicsOutput_behaves s : Behaves fuelled (GetGraphicsOutput s).
Proof. unfold GetGraphicsOutput. behave. Qed.

(** One round for every [entrySize] bytes: the fuel is enough for a table of any
    size, negative ones included. *)
Lemma ConfigurationTables_loop_ends n buf i size c :
  (0 < n)%nat -> size - i < Z.of_nat n -> ends fuelled (ConfigurationTables_loop n buf i size 24 c).
Proof.
  revert i c. induction n as [|n IH]; intros i c Hpos Hn; [lia|]. cbn [ConfigurationTables_loop].
  destruct (Z.ltb_spec i size); [|done]. destruct (_ <? _); [done|].
  destruct (unmarshalBinary _ _) as [t [e|]]; [done|]. apply IH; lia.
Qed.

#[export] Instance ConfigurationTables_behaves d : Behaves fuelled (ConfigurationTables d).
Proof.
  unfold ConfigurationTables. change (zlen (enc (bin_zero ConfigurationTable.t))) with 24. behave.
  apply lift_behaves, ConfigurationTables_loop_ends; lia.
Qed.

#[export] Instance Init_behaves s h t : Behaves fuelled (Init s h t).
Proof. unfold Init. behave. Qed.

(** Memory map and exit. *)
#[export] Instance GetMemoryMap_behaves s : Behaves fuelled (GetMemoryMap s).
Proof.
  intros w Hw. destruct (GetMemoryMap_total_aux s w Hw) as (m & err & -> & _). split; [done|].
  apply map_call_extends.
Qed.

#[export] Instance ExitBootServices_behaves s : Behaves fuelled (ExitBootServices s).
Proof. unfold ExitBootServices. behave. Qed.

#[export] Instance Map_Address_behaves m : Behaves fuelled (Map_Address m).
Proof. unfold Map_Address. behave. Qed.

#[export] Instance allocateHeap_behaves s a b c : Behaves fuelled (allocateHeap s a b c).
Proof. unfold allocateHeap. behave. Qed.

(** Files. *)
#[export] Instance file_instance_behaves a : Behaves fuelled (file_instance a).
Proof. unfold file_instance. behave. Qed.

#[export] Instance open_behaves f h n m : Behaves fuelled (open f h n m).
Proof. unfold open. behave. Qed.

#[export] Instance close_behaves f h : Behaves fuelled (close f h).
Proof. unfold close. behave. Qed.

#[export] Instance read_behaves f h p n : Behaves fuelled (read f h p n).
Proof. unfold read. behave. Qed.

#[export] Instance getInfo_behaves f h g : Behaves fuelled (getInfo f h g).
Proof. unfold getInfo. behave. Qed.

#[export] Instance Stat_behaves f : Behaves fuelled (Stat f).
Proof. unfold Stat. behave. Qed.

#[export] Instance File_Read_behaves f p n : Behaves fuelled (File_Read f p n).
Proof. unfold File_Read. behave. Qed.

#[export] Instance File_Close_behaves f : Behaves fuelled (File_Close f).
Proof. unfold File_Close. behave. Qed.

#[export] Instance openVolume_behaves r h : Behaves fuelled (openVolume r h).
Proof. unfold openVolume. behave. Qed.

#[export] Instance FS_Open_behaves r n : Behaves fuelled (FS_Open r n).
Proof. unfold FS_Open. behave. Qed.

#[export] Instance LoadImageHandle_behaves s h : Behaves fuelled (LoadImageHandle s h).
Proof. unfold LoadImageHandle. behave. Qed.

#[export] Instance Root_behaves s : Behaves fuelled (Root s).
Proof. unfold Root. behave. Qed.

(** Device paths: at most [maxDepth] nodes. *)
Lemma devicePath_loop_ends n buf i off ds :
  maxDepth - i < Z.of_nat n -> i <= maxDepth -> ends fuelled (devicePath_loop n buf i off ds).
Proof.
  revert i off ds. induction n as [|n IH]; intros i off ds Hn Hi; [lia|]. cbn [devicePath_loop].
  destruct (Z.eqb_spec i maxDepth); [done|]. destruct (_ <? _); [done|].
  destruct (unmarshalBinary _ _) as [node [e|]]; [done|]. destruct (is_end node); [done|].
  destruct (_ || _); [done|]. destruct (_ <? _); [done|]. apply IH; lia.
Qed.

Lemma parse_path_ends buf : ends fuelled (parse_path buf).
Proof.
  unfold parse_path. pose proof (devicePath_loop_ends (S (Z.to_nat maxDepth)) buf 0 0 []) as E.
  destruct (devicePath_loop _ _ _ _ _) as [[[ds off] [e|]]|p| |]; try done; apply E; done.
Qed.

#[export] Instance devicePath_behaves r : Behaves fuelled (devicePath r).
Proof. unfold devicePath. behave. apply lift_behaves, parse_path_ends. Qed.

#[export] Instance FilePath_behaves r n : Behaves fuelled (FilePath r n).
Proof. unfold FilePath. behave. Qed.

(** Images. *)
#[export] Instance load_image_behaves s b d buf : Behaves fuelled (load_image s b d buf).
Proof. unfold load_image. behave. Qed.

#[export] Instance LoadImageMem_behaves s b r n buf : Behaves fuelled (LoadImageMem s b r n buf).
Proof. unfold LoadImageMem. behave. Qed.

#[export] Instance StartImage_behaves s h : Behaves fuelled (StartImage s h).
Proof. unfold StartImage. behave. Qed.

(** x64, with drivers that behave. *)
#[export] Instance init_behaves `{!Tamago} s h t a b c :
  Behaves fuelled RTC_Now -> (forall t, Behaves fuelled (AMD64_SetTime t)) ->
  Behaves fuelled (init s h t a b c).
Proof. intros Hnow Hset. unfold init, set_clock. behave. Qed.

Section Appends.
Context `{!Append}.

#[export] Instance unsafe_Slice_behaves p n : Behaves fuelled (unsafe_Slice p n).
Proof. unfold unsafe_Slice. behave. Qed.

#[export] Instance stringToUTF16Ptr_behaves s : Behaves fuelled (stringToUTF16Ptr s).
Proof. unfold stringToUTF16Ptr. behave. Qed.

#[export] Instance slice_of_behaves bs : Behaves fuelled (slice_of bs).
Proof. unfold slice_of. behave. Qed.

#[export] Instance set_load_options_behaves r c : Behaves fuelled (set_load_options r c).
Proof. unfold set_load_options. behave. Qed.

#[export] Instance grow_full_behaves p c : Behaves fuelled (grow_full p c).
Proof. unfold grow_full. behave. Qed.
End Appends.
End Operations.

(** Loops whose end is the firmware's business: the fuel may run out. *)
Section Fuelled.
Context `{DmaReturns, !Append}.

Lemma ReadAll_loop_behaves {R} `{!Reader R} fuel (r : R) p len cap :
  (forall p n, Behaves true (Reader_Read r p n)) -> Behaves true (ReadAll_loop fuel r p len cap).
Proof.
  intros Hr. revert p len cap. induction fuel as [|fuel IH]; intros; [by apply lift_behaves|].
  cbn [ReadAll_loop]. behave; done.
Qed.

#[export] Instance ReadAll_behaves fuel (f : File) : Behaves true (ReadAll fuel f).
Proof.
  unfold ReadAll. behave. apply ReadAll_loop_behaves. intros. apply File_Read_behaves.
Qed.

Lemma ReadFile_loop_behaves fuel f p len cap : Behaves true (ReadFile_loop fuel f p len cap).
Proof.
  revert p len cap. induction fuel as [|fuel IH]; intros; [by apply lift_behaves|].
  cbn [ReadFile_loop]. behave; done.
Qed.

#[export] Instance ReadFile_behaves fuel r n : Behaves true (ReadFile fuel r n).
Proof.
  pose proof (ReadFile_loop_behaves fuel). unfold ReadFile. behave; done.
Qed.

#[export] Instance load_behaves fuel s p : Behaves true (load fuel s p).
Proof. unfold load. behave. Qed.

#[export] Instance LoadImage_behaves fuel s b r n : Behaves true (LoadImage fuel s b r n).
Proof. unfold LoadImage. behave. Qed.

#[export] Instance executeKernel_behaves fuel s p d c : Behaves true (executeKernel fuel s p d c).
Proof. unfold executeKernel. behave. Qed.
End Fuelled.

(** ** Programs *)

(** The operations that the package exports; with [reads] also [LoadImage], which reads a file
    as long as the firmware has more of it. *)
Inductive operation `{Machine, Append} (reads : bool) : forall A, M A -> Prop :=
| op_LoadImage fuel s b r n : reads = true -> operation reads _ (LoadImage fuel s b r n)
| op_CallServiceTable t i args : operation reads _ (CallServiceTable t i args)
| op_CallService fn args : operation reads _ (CallService fn args)
| op_Ptrval p : operation reads _ (Ptrval p)
| op_Init s h t : operation reads _ (Init s h t)
| op_ClearScreen c : operation reads _ (ClearScreen c)
| op_SetMode c mode : operation reads _ (SetMode c mode)
| op_SetAttribute c a : operation reads _ (SetAttribute c a)
| op_Input c k : operation reads _ (Input c k)
| op_Output c p : operation reads _ (Output c p)
| op_Read c p len : operation reads _ (Read c p len)
| op_Write c p : operation reads _ (Write c p)
| op_HandleProtocol s h g : operation reads _ (HandleProtocol s h g)
| op_LocateProtocol s g : operation reads _ (LocateProtocol s g)
| op_AllocatePages s t m n a : operation reads _ (AllocatePages s t m n a)
| op_FreePages s a n : operation reads _ (FreePages s a n)
| op_SetWatchdogTimer s n : operation reads _ (SetWatchdogTimer s n)
| op_Exit s c : operation reads _ (Exit s c)
| op_GetMemoryMap s : operation reads _ (GetMemoryMap s)
| op_Address m : operation reads _ (Map_Address m)
| op_ExitBootServices s : operation reads _ (ExitBootServices s)
| op_LoadImageHandle s h : operation reads _ (LoadImageHandle s h)
| op_LoadImageMem s b r n buf : operation reads _ (LoadImageMem s b r n buf)
| op_StartImage s h : operation reads _ (StartImage s h)
| op_GetGraphicsOutput s : operation reads _ (GetGraphicsOutput s)
| op_GetMode g : operation reads _ (GetMode g)
| op_GetInfo d : operation reads _ (GetInfo d)
| op_Blt g b op a1 a2 a3 a4 a5 a6 a7 : operation reads _ (Blt g b op a1 a2 a3 a4 a5 a6 a7)
| op_ResetSystem s t : operation reads _ (ResetSystem s t)
| op_GetVariable s n nl g gl : operation reads _ (GetVariable s n nl g gl)
| op_ConfigurationTables d : operation reads _ (ConfigurationTables d)
| op_Root s : operation reads _ (Root s)
| op_Open r n : operation reads _ (FS_Open r n)
| op_FilePath r n : operation reads _ (FilePath r n)
| op_Stat f : operation reads _ (Stat f)
| op_File_Read f p n : operation reads _ (File_Read f p n)
| op_Close f : operation reads _ (File_Close f).

(** Go code over them: it also reads and writes memory, allocates, prints,
    panics, and decides what to do next from what it has got. *)
Inductive program `{Machine, Append} (reads : bool) : forall {A}, M A -> Prop :=
| prog_op {A} (m : M A) : operation reads A m -> program reads m
| prog_ret {A} (a : A) : program reads (mret a)
| prog_bind {A B} (m : M A) (f : A -> M B) :
    program reads m -> (forall a, program reads (f a)) -> program reads (m ≫= f)
| prog_panic {A} p : program reads (gopanic (A := A) p)
| prog_print s : program reads (println s)
| prog_read a n : program reads (get_bytes a n)
| prog_write a bs : program reads (put_bytes a bs)
| prog_alloc bs : program reads (alloc bs).

Section Programs.
Context `{DmaReturns, !Append} {reads : bool}.

#[export] Instance operation_behaves {A} (m : M A) : operation reads A m -> Behaves reads m.
Proof. destruct 1; subst; apply _. Qed.

Lemma program_behaves {A} (m : M A) : program reads m -> Behaves reads m.
Proof. induction 1; first [by apply operation_behaves|by apply bind_behaves|apply _]. Qed.

(** What [Behaves] says of code whose loops all end. *)
Lemma behaves_ends {A} (m : M A) w :
  Behaves false m -> w_mux w = false ->
  exists w', ((exists a, m w = (Ret a, w')) \/ (exists p, m w = (Panic p, w'))) /\ extends w w'.
Proof.
  intros Hm Hw. destruct (Hm w Hw) as [He Hx]. destruct (m w) as [[a|p| |] w']; try done;
    exists w'; (split; [|done]); eauto.
Qed.
End Programs.

(** Takes a program apart like [behave]. *)
Ltac program :=
  repeat (intros; cbv match;
    lazymatch goal with
    | |- program _ (mbind _ _) => apply prog_bind
    | |- program _ (match ?x with _ => _ end) => destruct x
    | |- program _ (if ?x then _ else _) => destruct x
    | |- program _ _ => first [apply prog_ret|apply prog_panic|apply prog_read|apply prog_write
                            |apply prog_alloc|apply prog_op; constructor]
    end).

(** efi-verify is one: it never needs the fuel of the read, since the kernel is
    in memory. *)
Lemma efi_verify_program `{Machine, Append} fuel UEFI : program false (main fuel UEFI).
Proof.
  unfold main, executeKernel, unsafe_Slice, set_load_options, stringToUTF16Ptr, deref. program.
Qed.

(** C6. Any program that uses ueficore through the operations that it exports, whatever the
    firmware answers and however the program goes on from it: started with the mutex free,
    it ends, with a result or a panic.  The exception is a program that calls [LoadImage]: it may
    also be still in the loop of fs.ReadFile under it, which goes on as long as the firmware
    reports more of the file, when the fuel chosen for that loop is spent.  It never waits for the
    mutex and no other loop of the package runs on; whenever it stops the mutex is free again,
    the Go heap has only grown, and what was printed before is still the beginning of the
    log. *)
Theorem programs_end `{DmaReturns, !Append} {A} reads (m : M A) (w : World) :
  program reads m -> w_mux w = false ->
  exists o w', m w = (o, w') /\
    ((exists a, o = Ret a) \/ (exists p, o = Panic p) \/ (reads = true /\ o = NoFuel)) /\
    w_mux w' = false /\ w_brk w <= w_brk w' /\ w_log w `suffix_of` w_log w'.
Proof.
  intros Hp Hw. destruct (program_behaves m Hp w Hw) as [He [E1 E2 E3]].
  exists (m w).1, (m w).2. split; [apply surjective_pairing|]. split; [|by rewrite E1].
  destruct (m w).1; cbn in He; eauto; done.
Qed.

(** C17. The unikernel of efi-verify, from the [init] of x64 to the end of [main]:
    with drivers that return, it ends, with a result or a panic, on every firmware and
    from every memory, and without any bound on the size of the kernel. *)
Theorem unikernel_ends `{DmaReturns, !Append, !Tamago} fuel imageHandle systemTable ramStart ramEnd RamSize
    (w : World) :
  Behaves false RTC_Now -> (forall t, Behaves false (AMD64_SetTime t)) -> w_mux w = false ->
  let unikernel :=
    '(UEFI, RamSize) ← init Services_zero imageHandle systemTable ramStart ramEnd RamSize;
    main fuel UEFI in
  exists w', ((exists r, unikernel w = (Ret r, w')) \/ (exists p, unikernel w = (Panic p, w'))) /\
    extends w w'.
Proof.
  intros Hnow Hset Hw unikernel. apply behaves_ends; [|done]. apply bind_behaves.
  - by apply init_behaves.
  - intros [UEFI size]. apply program_behaves, efi_verify_program.
Qed.

(** ** On a machine *)

#[export] Instance machine_with_returns S fw : DmaReturns (H := machine_with S fw).
Proof. split; intros; cbn; by case_decide. Qed.

Lemma programs_end_witness :
  exists o w', main (H := quiet_machine) (H0 := demo_append) 0 Services_zero table_world = (o, w') /\
    ((exists a, o = Ret a) \/ (exists p, o = Panic p) \/ (false = true /\ o = NoFuel)) /\
    w_mux w' = false /\ w_brk table_world <= w_brk w' /\ w_log table_world `suffix_of` w_log w'.
Proof.
  apply (programs_end (H := quiet_machine) (H0 := machine_with_returns _ _) (H1 := demo_append));
    [|reflexivity].
  exact (efi_verify_program (H := quiet_machine) (H0 := demo_append) 0 Services_zero).
Defined.

Lemma unikernel_ends_witness :
  let init := init (H := map_machine) (H0 := demo_tamago) in
  let unikernel := '(UEFI, RamSize) ← init Services_zero 1 0x5000 0x100000 0x2c100000 0x2c000000;
    main (H := map_machine) (H0 := demo_append) 0 UEFI in
  exists w', ((exists r, unikernel init_world = (Ret r, w')) \/ (exists p, unikernel init_world = (Panic p, w'))) /\
    extends (H := map_machine) init_world w'.
Proof.
  apply (unikernel_ends (H := map_machine) (H0 := machine_with_returns _ _) (H1 := demo_append)
    (H2 := demo_tamago)); [| |reflexivity].
  - apply (ret_behaves (H := map_machine)).
  - intros t. apply (println_behaves (H := map_machine)).
Defined.
