(* ===== verification/Unikernel.v ===== *)
(** * Unikernel: from the start of the image to the start of the kernel

    The composition of x64's [init] (Heap) and efi-verify's [main] (Image, Verify) on one
    firmware: the instance that [init] makes is the one [main] uses, and the memory
    that [init] asks for and allocates in leaves alone what [main] finds. *)

From S2P Require Import Prelude Binary Machine Status Text Guid Tables Desc Console Boot MemMap Heap.
From S2P Require Import FileSys DevicePath Image Verify.

(** What the UEFI specification promises of AllocatePages() at a given address: the
    pages are granted, which changes the firmware's state, or the call fails with one
    of its errors. *)
Definition ap_errors : list efi_status := [OUT_OF_RESOURCES; NOT_FOUND; INVALID_PARAMETER].

Class PageService `{Machine} := {
  allocate : fwstate -> Z -> Z -> Z -> option fwstate;
  ap_entry : Z;
  ap_contract : forall mt n slot m s,
    let answer := firmware ap_entry [AllocateAddress; mt; n; slot] m s in
    match allocate s mt n (load64 m slot) with
    | Some s' => answer = (0, m, s')
    | None => exists e, e ∈ ap_errors /\ answer = (Spec.code e, m, s)
    end;
}.

Section Unikernel.
Context `{BootVolumeService, !MapServices, !PageService, !DmaLaws, !Append, !Tamago}.

(** The image [d] in the firmware's memory map and the free memory after it. *)
Record has_heap (boot : BootServices) (ramStart : Z) (next : MD) (w : World) : Prop := {
  hh_entries : map_entries boot w;
  hh_pages : entry_at (u64 (base boot + allocatePages)) ap_entry w;
  hh_brk : 0 <= w_brk w;
  hh_start : 0 <= ramStart;
  hh_map : exists pre d post, mm_descs (w_fw w) = pre ++ d :: next :: post /\
    Forall (fun d => is_image ramStart d = false) pre /\ is_image ramStart d = true /\
    md_in_range d /\ md_in_range next /\ 0 < MemoryDescriptor.NumberOfPages d /\
    MemoryDescriptor.PhysicalStart next = PhysicalEnd d;
}.

(** The world with the pages of [next] granted, if they are. *)
Definition granted (next : MD) (w : World) : World :=
  mkWorld _ (w_mem w) (w_brk w) (w_mux w) (w_log w)
    (default (w_fw w) (allocate (w_fw w) EfiLoaderData (MemoryDescriptor.NumberOfPages next)
                         (MemoryDescriptor.PhysicalStart next))).

(** The instance on a system table. *)
Definition instance (st : SystemTable.t) (handle addr : Z) : Services :=
  mkServices (Some st) (Some (mkConsole true 8 (SystemTable.ConIn st) (SystemTable.ConOut st)))
    (Some (mkBoot (SystemTable.BootServices st) handle))
    (Some (mkRuntime (SystemTable.RuntimeServices st))) handle addr.

Lemma allocateHeap_granted UEFI boot ramStart ramEnd RamSize next w :
  s_Boot UEFI = Some boot -> w_mux w = false -> has_heap boot ramStart next w ->
  exists w', allocateHeap UEFI ramStart ramEnd RamSize w = (Ret (PhysicalEnd next - ramStart), w') /\
    later (granted next w) w'.
Proof.
  intros Hs Hm [He Hp Hb Hr0 (pre & d & post & Hds & Hpre & Him & Hrd & Hrn & Hn & Hadj)].
  destruct (allocateHeap_next UEFI boot ramStart ramEnd RamSize pre d next post w)
    as (slot & w1 & log & [Bf Bm Bb Ba] & Hslot & E); try done.
  eexists. split; [exact E|]. clear E.
  assert (load64 (w_mem w1) (u64 (base boot + allocatePages)) = ap_entry) as Hap
    by (destruct Hp as [<- Hp]; by eapply agree_load64).
  pose proof (ap_contract EfiLoaderData (MemoryDescriptor.NumberOfPages next) slot (w_mem w1) (w_fw w1)) as Hc.
  unfold fw_step. rewrite Hap. cbv zeta in Hc. rewrite Hslot, Bf in Hc. rewrite Bf.
  assert (exists st, firmware ap_entry
      [AllocateAddress; EfiLoaderData; MemoryDescriptor.NumberOfPages next; slot] (w_mem w1) (w_fw w) =
    (st, w_mem w1, w_fw (granted next w))) as (st & ->).
  { unfold granted. cbn [w_fw]. destruct (allocate _ _ _ _); [by exists 0|].
    destruct Hc as (e & _ & ->). by eexists. }
  split; cbn [granted w_fw w_mem w_mux w_brk fst snd]; first [done|by rewrite Bm|exact Ba].
Qed.

Lemma init_granted st handle addr ramStart ramEnd RamSize next w w0 :
  set_clock w = (Ret tt, w0) -> bin_ok st -> dma_permits addr -> addr <> 0 ->
  load_bytes (w_mem w0) addr 120 = enc st -> TableHeader.Signature (SystemTable.Header st) = signature ->
  w_mux w0 = false -> has_heap (mkBoot (SystemTable.BootServices st) handle) ramStart next w0 ->
  exists w', init Services_zero handle addr ramStart ramEnd RamSize w =
    (Ret (instance st handle addr, PhysicalEnd next - ramStart), w') /\ later (granted next w0) w'.
Proof.
  intros Hclock Hok Hd Ha Hmem Hsig Hm Hheap. set (wl := mkWorld _ (w_mem w0) (w_brk w0) (w_mux w0)
    ("initializing EFI services"%string :: w_log w0) (w_fw w0)).
  destruct (Init_correct Services_zero st handle addr wl Hok Hd Hmem)
    as (UEFI & err & E & Eh & Ea & Herr & Hgood & _).
  assert (err = None) as -> by by apply Herr. destruct (Hgood eq_refl) as (Htab & Hcon & Hboot & Hrt).
  assert (UEFI = instance st handle addr) as ->.
  { destruct UEFI. unfold ImageHandle, Address in *. cbn in *. unfold instance. congruence. }
  destruct (allocateHeap_granted (instance st handle addr) _ ramStart ramEnd RamSize next wl Hboot Hm)
    as (w' & Eheap & L).
  { destruct Hheap. by split. }
  exists w'. split; [|destruct L; by split]. unfold init. erewrite bind_step by exact Hclock. erewrite bind_step by reflexivity.
  erewrite bind_step by exact E. cbv beta iota. erewrite bind_step by reflexivity. by erewrite bind_step by exact Eheap.
Qed.

Lemma verify_ready_later UEFI boot v n cmdline w w' :
  later w w' -> verify_ready UEFI boot v n cmdline w -> verify_ready UEFI boot v n cmdline w'.
Proof.
  intros L [V1 V2 [rest V3] [V4 V4'] V5 V6]. pose proof (la_brk _ _ L) as B. split.
  - exact V1.
  - by rewrite (la_mux _ _ L).
  - exists rest. rewrite (la_mem _ _ L); [exact V3|]. unfold cfgOff, cfgLen, kerOff in *. lia.
  - split; [exact V4|lia].
  - by eapply has_volume_later.
  - by eapply entry_later.
Qed.
End Unikernel.

(** C5. A unikernel that boots: x64's [init] and then efi-verify's [main], on a firmware
    with a memory map, page allocation, a handle database, a boot volume and an image
    loader.  [init] makes the instance on the firmware's table and asks for the memory after
    the image; whether the pages are granted or not, [main] then ends as it does when it is
    started in the world with the firmware's answer: it loads and starts the configured
    kernel with the configured command line, or exits with code 1 when the firmware
    refuses the kernel or loads it but, by its security policy, does not let it start.  So nothing that [init] allocates or writes disturbs the
    configuration, the volume or the kernel. *)
Theorem unikernel_boots `{BootVolumeService, !MapServices, !PageService, !DmaLaws, !Append, !Tamago}
    fuel st handle addr ramStart ramEnd RamSize next v n rs w w0 :
  set_clock w = (Ret tt, w0) -> bin_ok st -> dma_permits addr -> addr <> 0 ->
  load_bytes (w_mem w0) addr 120 = enc st -> TableHeader.Signature (SystemTable.Header st) = signature ->
  let boot := mkBoot (SystemTable.BootServices st) handle in
  has_heap boot ramStart next w0 ->
  Forall scalar rs -> Forall (fun c => c <> 10) (utf8 rs) -> zlen (utf8 rs) * 2 < 2 ^ 32 ->
  verify_ready (instance st handle addr) boot v n (utf8 rs) (granted next w0) ->
  boots_as (instance st handle addr) boot v n rs (granted next w0)
    (('(UEFI, _) ← init Services_zero handle addr ramStart ramEnd RamSize; main fuel UEFI) w).
Proof.
  intros Hclock Hok Hd Ha Hmem Hsig boot Hheap Hrs Hc Hsz Hready.
  destruct (init_granted st handle addr ramStart ramEnd RamSize next w w0 Hclock Hok Hd Ha Hmem Hsig
    (vr_mux _ _ _ _ _ _ Hready) Hheap) as (w' & E & L).
  erewrite bind_step by exact E. cbv beta iota.
  apply (boots_as_earlier _ _ _ _ _ _ w' _ L); [apply Hready|destruct Hready as [_ _ _ [? _] _ _]; lia|].
  apply efi_verify_boots; [done..|]. by eapply verify_ready_later.
Qed.

(** ** A firmware that does all this *)

(** The firmware of Verify with a memory map of one image and free memory, which
    grants pages; the state counts the images started. *)
Definition uni_firmware (fn : Z) (args : list Z) (m : memory) (s : nat) : Z * memory * nat :=
  if (fn =? 0x9011) || (fn =? 0x9012) then map_firmware (fn - 0x10) args m s
  else if fn =? 0x9013 then (0, m, s) else verify_firmware fn args m s.

Definition uni_machine : Machine := machine_with nat uni_firmware.

#[export, refine] Instance uni_database : HandleDatabase (H := uni_machine) := {
  db_handle _ h g := boot_protocol h g; db_locate _ _ := None; hp_entry := 0x9001; lp_entry := 0x9005;
}.
Proof.
  - intros _ h g a. apply boot_protocol_word.
  - done.
  - intros h g out m s. exact (hp_contract (HandleDatabase := verify_database) h g out m s).
  - intros g out m s. exact (lp_contract (HandleDatabase := verify_database) g out m s).
Defined.

#[export, refine] Instance uni_volume : BootVolumeService (H := uni_machine) := {
  volume_root _ h := if h =? 0xC000 then Some 0xD000 else None;
  load_from_memory s _ image := verify_load s image;
  ov_entry := 0x9002; li_entry := 0x9003;
}.
Proof.
  - exact (volume_root_word (BootVolumeService := verify_service)).
  - apply verify_load_word.
  - intros h out m s. exact (ov_contract (BootVolumeService := verify_service) h out m s).
  - intros parent path nodes buf size out m s.
    exact (li_contract (BootVolumeService := verify_service) parent path nodes buf size out m s).
Defined.

#[export, refine] Instance uni_map : MapServices (H := uni_machine) := {
  mm_descs _ := demo_map; mm_key _ := 77; mm_exited := S; mm_entry := 0x9011; eb_entry := 0x9012;
}.
Proof.
  - exact (mm_descs_ok (MapServices := demo_map_services)).
  - exact (mm_key_word (MapServices := demo_map_services)).
  - done.
  - done.
Defined.

#[export, refine] Instance uni_pages : PageService (H := uni_machine) := {
  allocate s _ _ _ := Some s; ap_entry := 0x9013;
}.
Proof. done. Defined.

#[export] Instance uni_tamago : Tamago (H := uni_machine) :=
  {| AMD64_Init := mret tt; AMD64_GetTime := mret 0; AMD64_SetTime t := mret tt;
     UART0_Init := mret tt; RTC_Now := mret (1700000000000000000, None) |}.

Definition uni_memory : memory :=
  foldl (fun m '(a, bs) => store_bytes m a bs) kernel_memory
    [ (0x7038, le_enc 8 0x9011); (0x70e8, le_enc 8 0x9012); (0x7028, le_enc 8 0x9013);
      (0x5000, enc demo_system_table) ].

Definition uni_world : World (H := uni_machine) := mkWorld uni_machine uni_memory 0x40000000 false [] 0%nat.

Definition uni_boot_volume : boot_volume :=
  mkVolume 0xA000 (LoadedImage.mk 0x1000 0 0 2 0 0 0 0 0 0 0 0) 0x8000 demo_nodes
    (load_bytes uni_memory (0x8000 + 18) (Z.to_nat 65518)) 0xC000 (simpleFileSystem.mk 0x10000 0x9002)
    0xD000 (fileProtocol.mk 0x10000 0 0 0 0 0 0 0 0 0 0).

Definition uni_next : MD := MemoryDescriptor.mk 7 0x110000 0 240 15.

Lemma uni_has_volume : has_volume (H := uni_machine) demo_boot 1 uni_boot_volume (granted uni_next uni_world).
Proof.
  split.
  - vm_compute. split; congruence.
  - reflexivity.
  - apply placed_demo; [vm_compute; reflexivity|vm_compute; repeat split; congruence].
  - reflexivity.
  - reflexivity.
  - split; [exact demo_nodes_ok|vm_compute; reflexivity].
  - split; reflexivity.
  - replace (Z.to_nat bufferSize) with (18 + Z.to_nat 65518)%nat by (unfold bufferSize; lia).
    rewrite load_bytes_app, app_assoc. f_equal.
  - vm_compute. congruence.
  - reflexivity.
  - apply placed_demo; [vm_compute; reflexivity|vm_compute; repeat split; congruence].
  - reflexivity.
  - reflexivity.
  - apply placed_demo; [vm_compute; reflexivity|vm_compute; repeat split; congruence].
  - reflexivity.
  - reflexivity.
Qed.

Lemma uni_ready :
  verify_ready (H := uni_machine) (instance demo_system_table 1 0x5000) demo_boot uni_boot_volume 4096
    (utf8 [0x71; 0x75; 0x69; 0x65; 0x74]) (granted uni_next uni_world).
Proof.
  split.
  - done.
  - done.
  - exists (replicate (Z.to_nat cfgLen - 11) 0). vm_compute. reflexivity.
  - vm_compute. split; [split|]; congruence.
  - apply uni_has_volume.
  - vm_compute. split; congruence.
Qed.

Lemma uni_has_heap : has_heap (H := uni_machine) demo_boot 0x100000 uni_next uni_world.
Proof.
  split.
  - split_and!; vm_compute; congruence.
  - vm_compute. split; congruence.
  - vm_compute. congruence.
  - lia.
  - exists [], (MemoryDescriptor.mk 1 0x100000 0 16 15), [].
    split_and!; try reflexivity; try apply Forall_nil_2; vm_compute; repeat split; congruence.
Qed.

(** From the image's start to the start of the kernel. *)
Lemma unikernel_boots_witness :
  exists w4 : World (H := uni_machine), w_fw w4 = 0%nat /\
    let r := fw_step (H := uni_machine) (u64 (base demo_boot + startImage)) [9; 0; 0] w4 in
    ('(UEFI, _) ← init (H := uni_machine) (H0 := uni_tamago) Services_zero 1 0x5000 0x100000 0x2c100000 0x2c000000;
       main (H := uni_machine) (H0 := demo_append) 10 UEFI) uni_world =
    after_kernel (H := uni_machine) (instance demo_system_table 1 0x5000) demo_boot (Core.parseStatus r.1) r.2.
Proof.
  apply (boots_as_loaded (H := uni_machine) (instance demo_system_table 1 0x5000) demo_boot uni_boot_volume 4096
    [0x71; 0x75; 0x69; 0x65; 0x74] (granted uni_next uni_world) _ 9 [(0xB000, enc loaded_image)] 0%nat 0xB000 loaded_image).
  - apply (unikernel_boots (H := uni_machine) (H4 := machine_with_dma _ _) (H5 := demo_append) (H6 := uni_tamago)
      10 demo_system_table 1 0x5000 0x100000 0x2c100000 0x2c000000 uni_next uni_boot_volume 4096
      [0x71; 0x75; 0x69; 0x65; 0x74] uni_world uni_world).
    + reflexivity.
    + vm_compute. repeat split; congruence.
    + split; [reflexivity|intros n; reflexivity].
    + discriminate.
    + vm_compute. reflexivity.
    + reflexivity.
    + exact uni_has_heap.
    + apply (bool_decide_unpack _). vm_compute. exact I.
    + apply (bool_decide_unpack _). vm_compute. exact I.
    + vm_compute. reflexivity.
    + exact uni_ready.
  - vm_compute. reflexivity.
  - vm_compute. split; congruence.
  - vm_compute. reflexivity.
  - apply placed_demo; [vm_compute; reflexivity|vm_compute; repeat split; congruence].
  - reflexivity.
Defined.
