(* ===== verification/Stubs.v ===== *)
(** * Stubs: the assembly call stubs of pkg/uefi

    asm_amd64.S, one list of instructions per [uefiCallN], and a machine that
    runs them.  Both sides use the Microsoft convention: a stub receives the
    function and its N arguments, and calls the function with these arguments.
    Addresses are [Z]; the stack lies well inside the address space. *)

From S2P Require Import Prelude Binary Machine.

(** ** The machine *)

Inductive reg := RAX | RCX | RDX | RBP | RSP | R8 | R9 | R10.

(** AT&T order: source first. *)
Inductive instr :=
| Pushq (r : reg) | Popq (r : reg)
| Movq (src dst : reg) | Subq (i : Z) (r : reg)
| Load (off : Z) (base dst : reg)      (* movq off(base), dst *)
| Store (src : reg) (off : Z) (base : reg)
| Callq (r : reg) | Ret.

Record regs := mkRegs {
  rax : Z; rcx : Z; rdx : Z; rbp : Z; rsp : Z; r8 : Z; r9 : Z; r10 : Z;
}.

Definition get (r : reg) (s : regs) : Z :=
  match r with
  | RAX => rax s | RCX => rcx s | RDX => rdx s | RBP => rbp s | RSP => rsp s
  | R8 => r8 s | R9 => r9 s | R10 => r10 s
  end.

Definition set (r : reg) (v : Z) (s : regs) : regs :=
  let 'mkRegs a c d b p e f g := s in
  match r with
  | RAX => mkRegs v c d b p e f g | RCX => mkRegs a v d b p e f g
  | RDX => mkRegs a c v b p e f g | RBP => mkRegs a c d v p e f g
  | RSP => mkRegs a c d b v e f g | R8 => mkRegs a c d b p v f g
  | R9 => mkRegs a c d b p e v g | R10 => mkRegs a c d b p e f v
  end.

Definition state : Type := regs * memory.

Definition step (i : instr) (st : state) : state :=
  let '(s, m) := st in
  match i with
  | Pushq r => (set RSP (rsp s - 8) s, store64 m (rsp s - 8) (get r s))
  | Popq r => (set r (load64 m (rsp s)) (set RSP (rsp s + 8) s), m)
  | Movq a b => (set b (get a s) s, m)
  | Subq i r => (set r (get r s - i) s, m)
  | Load off b d => (set d (load64 m (get b s + off)) s, m)
  | Store a off b => (s, store64 m (get b s + off) (get a s))
  | Callq _ | Ret => st
  end.

(** Up to the call: the target, the state at the call and what follows it. *)
Fixpoint to_call (l : list instr) (st : state) : option (Z * state * list instr) :=
  match l with
  | [] => None
  | Callq r :: l => Some (get r st.1, st, l)
  | Ret :: _ => None
  | i :: l => to_call l (step i st)
  end.

(** After the call, up to the return: the address returned to and the state. *)
Fixpoint to_ret (l : list instr) (st : state) : option (Z * state) :=
  match l with
  | [] => None
  | Ret :: _ => Some (load64 st.2 (rsp st.1), (set RSP (rsp st.1 + 8) st.1, st.2))
  | i :: l => to_ret l (step i st)
  end.

(** ** asm_amd64.S *)

Definition uefiCall0 : list instr :=
  [ Pushq RBP; Movq RSP RBP; Subq 0x20 RSP; Callq RCX; Movq RBP RSP; Popq RBP; Ret ].

Definition uefiCall1 : list instr :=
  [ Pushq RBP; Movq RSP RBP; Subq 0x20 RSP; Movq RCX RAX; Movq RDX RCX; Callq RAX;
    Movq RBP RSP; Popq RBP; Ret ].

Definition uefiCall2 : list instr :=
  [ Pushq RBP; Movq RSP RBP; Subq 0x20 RSP; Movq RCX RAX; Movq RDX RCX; Movq R8 RDX; Callq RAX;
    Movq RBP RSP; Popq RBP; Ret ].

Definition uefiCall3 : list instr :=
  [ Pushq RBP; Movq RSP RBP; Subq 0x20 RSP; Movq RCX RAX; Movq RDX RCX; Movq R8 RDX;
    Movq R9 R8; Callq RAX; Movq RBP RSP; Popq RBP; Ret ].

Definition uefiCall4 : list instr :=
  [ Pushq RBP; Movq RSP RBP; Subq 0x20 RSP; Movq RCX RAX; Movq RDX RCX; Movq R8 RDX;
    Movq R9 R8; Load 0x30 RBP R9; Callq RAX; Movq RBP RSP; Popq RBP; Ret ].

Definition uefiCall5 : list instr :=
  [ Pushq RBP; Movq RSP RBP; Subq 0x28 RSP; Movq RCX RAX; Movq RDX RCX; Movq R8 RDX;
    Movq R9 R8; Load 0x30 RBP R9; Load 0x38 RBP R10; Store R10 0x20 RSP; Callq RAX;
    Movq RBP RSP; Popq RBP; Ret ].

Definition uefiCall6 : list instr :=
  [ Pushq RBP; Movq RSP RBP; Subq 0x28 RSP; Movq RCX RAX; Movq RDX RCX; Movq R8 RDX;
    Movq R9 R8; Load 0x30 RBP R9; Load 0x38 RBP R10; Store R10 0x20 RSP; Load 0x40 RBP R10;
    Store R10 0x28 RSP; Callq RAX; Movq RBP RSP; Popq RBP; Ret ].

Definition uefiCall7 : list instr :=
  [ Pushq RBP; Movq RSP RBP; Subq 0x38 RSP; Movq RCX RAX; Movq RDX RCX; Movq R8 RDX;
    Movq R9 R8; Load 0x30 RBP R9; Load 0x38 RBP R10; Store R10 0x20 RSP; Load 0x40 RBP R10;
    Store R10 0x28 RSP; Load 0x48 RBP R10; Store R10 0x30 RSP; Callq RAX; Movq RBP RSP;
    Popq RBP; Ret ].

Definition uefiCall8 : list instr :=
  [ Pushq RBP; Movq RSP RBP; Subq 0x40 RSP; Movq RCX RAX; Movq RDX RCX; Movq R8 RDX;
    Movq R9 R8; Load 0x30 RBP R9; Load 0x38 RBP R10; Store R10 0x20 RSP; Load 0x40 RBP R10;
    Store R10 0x28 RSP; Load 0x48 RBP R10; Store R10 0x30 RSP; Load 0x50 RBP R10;
    Store R10 0x38 RSP; Callq RAX; Movq RBP RSP; Popq RBP; Ret ].

Definition uefiCall9 : list instr :=
  [ Pushq RBP; Movq RSP RBP; Subq 0x48 RSP; Movq RCX RAX; Movq RDX RCX; Movq R8 RDX;
    Movq R9 R8; Load 0x30 RBP R9; Load 0x38 RBP R10; Store R10 0x20 RSP; Load 0x40 RBP R10;
    Store R10 0x28 RSP; Load 0x48 RBP R10; Store R10 0x30 RSP; Load 0x50 RBP R10;
    Store R10 0x38 RSP; Load 0x58 RBP R10; Store R10 0x40 RSP; Callq RAX; Movq RBP RSP;
    Popq RBP; Ret ].

Definition uefiCall10 : list instr :=
  [ Pushq RBP; Movq RSP RBP; Subq 0x50 RSP; Movq RCX RAX; Movq RDX RCX; Movq R8 RDX;
    Movq R9 R8; Load 0x30 RBP R9; Load 0x38 RBP R10; Store R10 0x20 RSP; Load 0x40 RBP R10;
    Store R10 0x28 RSP; Load 0x48 RBP R10; Store R10 0x30 RSP; Load 0x50 RBP R10;
    Store R10 0x38 RSP; Load 0x58 RBP R10; Store R10 0x40 RSP; Load 0x60 RBP R10;
    Store R10 0x48 RSP; Callq RAX; Movq RBP RSP; Popq RBP; Ret ].

Definition stubs : list (list instr) :=
  [ uefiCall0; uefiCall1; uefiCall2; uefiCall3; uefiCall4; uefiCall5; uefiCall6; uefiCall7;
    uefiCall8; uefiCall9; uefiCall10 ].

(** ** The calling convention *)

(** Argument [k] of a call, when [sp] is the stack pointer at the call: four
    registers, then the words above the 32 bytes of shadow space. *)
Definition arg (sp : Z) (st : state) (k : nat) : Z :=
  match k with
  | 0%nat => rcx st.1
  | 1%nat => rdx st.1
  | 2%nat => r8 st.1
  | 3%nat => r9 st.1
  | _ => load64 st.2 (sp + 8 * Z.of_nat k)
  end.

(** A state at the entry of a stub: the return address is on the stack, which
    was aligned at the call. *)
Definition entry_ok (st : state) : Prop :=
  (rsp st.1 + 8) mod 16 = 0 /\ is_word 64 (rbp st.1) /\
  forall k, (k <= 10)%nat -> is_word 64 (arg (rsp st.1 + 8) st k).

(** ** The shape of the stubs

    Every stub sets up its frame, moves the register arguments, and from five
    arguments on copies the stacked ones one by one. *)

Definition spill (k : nat) : list instr :=
  [ Load (0x38 + 8 * Z.of_nat k) RBP R10; Store R10 (0x20 + 8 * Z.of_nat k) RSP ].

Definition spills (j : nat) : list instr := concat (map spill (seq 0 j)).

(** Memory after [j] copies. *)
Fixpoint spilled (j : nat) (bp sp : Z) (m : memory) : memory :=
  match j with
  | O => m
  | S j => let m := spilled j bp sp m in
           store64 m (sp + (0x20 + 8 * Z.of_nat j)) (load64 m (bp + (0x38 + 8 * Z.of_nat j)))
  end.

Lemma spills_S j : spills (S j) = spills j ++ spill j.
Proof. unfold spills. rewrite seq_S, map_app, concat_app. reflexivity. Qed.

Lemma to_call_spills j l s m :
  exists v, to_call (spills j ++ l) (s, m) = to_call l (set R10 v s, spilled j (rbp s) (rsp s) m).
Proof.
  destruct s as [a c d b p e f g]. revert l. induction j as [|j IH]; intros l.
  - exists g. reflexivity.
  - rewrite spills_S, <-app_assoc. destruct (IH (spill j ++ l)) as [v ->].
    eexists. reflexivity.
Qed.

Section Spilled.
Context (j : nat) (bp sp : Z) (m : memory).
Hypothesis Hgap : sp + 0x20 + 8 * Z.of_nat j <= bp + 0x38.

(** Only the argument slots of the frame change. *)
Lemma spilled_other i x : (i <= j)%nat ->
  x + 8 <= sp + 0x20 \/ sp + 0x20 + 8 * Z.of_nat i <= x ->
  load64 (spilled i bp sp m) x = load64 m x.
Proof using.
  clear Hgap. induction i as [|i IH]; intros Hi Hx; [done|]. cbn [spilled].
  rewrite load64_store64_other by lia. apply IH; lia.
Qed.

Lemma spilled_arg i k : (i <= j)%nat -> (k < i)%nat ->
  is_word 64 (load64 m (bp + 0x38 + 8 * Z.of_nat k)) ->
  load64 (spilled i bp sp m) (sp + 0x20 + 8 * Z.of_nat k) =
  load64 m (bp + 0x38 + 8 * Z.of_nat k).
Proof using Hgap.
  intros Hi. revert k. induction i as [|i IH]; intros k Hk Hw; [lia|]. cbn [spilled].
  destruct (decide (k = i)) as [->|Hne].
  - replace (sp + 0x20 + 8 * Z.of_nat i) with (sp + (0x20 + 8 * Z.of_nat i)) by lia.
    rewrite spilled_other by lia.
    replace (bp + (0x38 + 8 * Z.of_nat i)) with (bp + 0x38 + 8 * Z.of_nat i) by lia.
    by apply load64_store64.
  - rewrite load64_store64_other by lia. apply IH; [lia|lia|done].
Qed.
End Spilled.

(** The frame of a stub and the number of arguments it copies. *)
Definition frame_size (n : nat) : Z := nth n [32; 32; 32; 32; 32; 40; 40; 56; 64; 72; 80] 0.

Definition moves (n : nat) : list instr :=
  take (n + 1) [ Movq RCX RAX; Movq RDX RCX; Movq R8 RDX; Movq R9 R8; Load 0x30 RBP R9 ].

Lemma moves_ge n : moves (S (S (S (S n)))) = moves 4.
Proof. unfold moves. rewrite !take_ge; simpl; (done || lia). Qed.

Lemma stub_shape n prog : stubs !! n = Some prog -> (1 <= n)%nat ->
  prog = [ Pushq RBP; Movq RSP RBP; Subq (frame_size n) RSP ] ++ moves n ++ spills (n - 4) ++
         [ Callq RAX; Movq RBP RSP; Popq RBP; Ret ].
Proof.
  intros Hn H1. destruct n as [|n]; [lia|].
  do 10 (destruct n as [|n]; [injection Hn as <-; reflexivity|]). discriminate Hn.
Qed.

(** ** What a stub does *)

(** The callee keeps the stack pointer, the frame pointer and the two words
    above the stub's frame. *)
Definition callee_ok (st1 st2 : state) : Prop :=
  rsp st2.1 = rsp st1.1 /\ rbp st2.1 = rbp st1.1 /\
  load64 st2.2 (rbp st1.1) = load64 st1.2 (rbp st1.1) /\
  load64 st2.2 (rbp st1.1 + 8) = load64 st1.2 (rbp st1.1 + 8).


(** The state at the call of the stub for [n] arguments. *)
Definition frame (n : nat) (st : state) : memory :=
  spilled (n - 4) (rsp st.1 - 8) (rsp st.1 - 8 - frame_size n)
    (store64 st.2 (rsp st.1 - 8) (rbp st.1)).

Definition regs_ok (n : nat) (st : state) (s : regs) : Prop :=
  rsp s = rsp st.1 - 8 - frame_size n /\ rbp s = rsp st.1 - 8 /\
  ((1 <= n)%nat -> rcx s = rdx st.1) /\ ((2 <= n)%nat -> rdx s = r8 st.1) /\
  ((3 <= n)%nat -> r8 s = r9 st.1) /\
  ((4 <= n)%nat -> r9 s = load64 (store64 st.2 (rsp st.1 - 8) (rbp st.1)) (rsp st.1 - 8 + 0x30)).

Lemma stub_call n prog st : stubs !! n = Some prog ->
  exists s, to_call prog st =
    Some (rcx st.1, (s, frame n st), [Movq RBP RSP; Popq RBP; Ret]) /\ regs_ok n st s.
Proof.
  intros Hn. destruct (decide (n = 0%nat)) as [->|H0].
  { injection Hn as <-. destruct st as [[a c d b p e f g] m].
    eexists. split; [reflexivity|]. split_and!; (reflexivity || lia). }
  rewrite (stub_shape n prog Hn) by lia. clear Hn. unfold frame. 
  destruct st as [[a c d b p e f g] m]. cbn [app to_call step get set fst snd rsp rbp rcx].
  assert (exists s, to_call (moves n ++ spills (n - 4) ++ [Callq RAX; Movq RBP RSP; Popq RBP; Ret])
    (mkRegs a c d (p - 8) (p - 8 - frame_size n) e f g, store64 m (p - 8) b) =
    to_call (spills (n - 4) ++ [Callq RAX; Movq RBP RSP; Popq RBP; Ret])
      (s, store64 m (p - 8) b) /\ rax s = c /\ regs_ok n (mkRegs a c d b p e f g, m) s)
    as (s & -> & Hc & Hs).
  { destruct n as [|[|[|[|n]]]]; [lia|..]; try rewrite moves_ge; (eexists; split; [reflexivity|]);
      (split; [reflexivity|split_and!; (reflexivity || (intros; first [reflexivity|lia]))]). }
  destruct (to_call_spills (n - 4) [Callq RAX; Movq RBP RSP; Popq RBP; Ret] s
    (store64 m (p - 8) b)) as [v ->].
  destruct Hs as (Hp & Hb & Hs). rewrite Hp, Hb.
  destruct s as [a' c' d' b' p' e' f' g']. cbn in *. subst.
  eexists. split; [reflexivity|]. split_and!; (reflexivity || apply Hs).
Qed.

Lemma frame_size_range n prog : stubs !! n = Some prog ->
  (n <= 10)%nat /\ 32 <= frame_size n /\
  8 * Z.of_nat (n - 4) + 32 <= frame_size n + (if decide (n = 6%nat) then 8 else 0) /\
  (frame_size n mod 16 = 0 <-> (n <> 5 /\ n <> 6 /\ n <> 7 /\ n <> 9)%nat).
Proof.
  intros Hn. do 11 (destruct n as [|n]; [clear Hn; cbn [frame_size nth Nat.sub];
    match goal with |- context [?a mod 16] =>
      let v := eval vm_compute in (a mod 16) in change (a mod 16) with v end;
    repeat case_decide; lia|]).
  discriminate Hn.
Qed.

(** The words the stub reads of its caller's frame. *)
Lemma caller_word st k : (4 <= k <= 10)%nat -> entry_ok st ->
  load64 (store64 st.2 (rsp st.1 - 8) (rbp st.1)) (rsp st.1 + 8 + 8 * Z.of_nat k) =
  arg (rsp st.1 + 8) st k /\ is_word 64 (arg (rsp st.1 + 8) st k).
Proof.
  intros Hk (_ & _ & Hw). split; [|apply Hw; lia].
  rewrite load64_store64_other by lia. by do 4 (destruct k as [|k]; [lia|]).
Qed.

Lemma stub_arg n prog st s k : stubs !! n = Some prog -> entry_ok st -> regs_ok n st s ->
  (k < n)%nat -> arg (rsp s) (s, frame n st) k = arg (rsp st.1 + 8) st (S k).
Proof.
  intros Hn Hok (Hp & Hb & Hc & Hd & H8 & H9) Hk.
  destruct (frame_size_range n prog Hn) as (Hmax & _ & Hsz & _).
  destruct k as [|[|[|[|k]]]]; [apply Hc; lia|apply Hd; lia|apply H8; lia|..].
  - transitivity (r9 s); [reflexivity|]. rewrite H9 by lia.
    destruct (caller_word st 4 ltac:(lia) Hok) as [<- _]. f_equal. lia.
  - change (arg _ _ (S (S (S (S k))))) with
      (load64 (frame n st) (rsp s + 8 * Z.of_nat (S (S (S (S k)))))).
    destruct (caller_word st (S (S (S (S (S k))))) ltac:(lia) Hok) as [Ha Hw].
    unfold frame. rewrite <-Ha. rewrite <-Ha in Hw. clear Ha. rewrite Hp.
    replace (rsp st.1 - 8 - frame_size n + 8 * Z.of_nat (S (S (S (S k)))))
      with (rsp st.1 - 8 - frame_size n + 0x20 + 8 * Z.of_nat k) by lia.
    replace (rsp st.1 + 8 + 8 * Z.of_nat (S (S (S (S (S k))))))
      with (rsp st.1 - 8 + 0x38 + 8 * Z.of_nat k) in * by lia.
    apply spilled_arg with (j := (n - 4)%nat); [case_decide; lia|lia|lia|exact Hw].
Qed.

(** The saved frame pointer and the return address: in place, but for the stub
    for six arguments, which stores its last argument over the former. *)
Lemma stub_saved n prog st : stubs !! n = Some prog -> entry_ok st ->
  load64 (frame n st) (rsp st.1 - 8) =
    (if decide (n = 6%nat) then arg (rsp st.1 + 8) st 6 else rbp st.1) /\
  load64 (frame n st) (rsp st.1) = load64 st.2 (rsp st.1).
Proof.
  intros Hn Hok. destruct (frame_size_range n prog Hn) as (_ & Hmin & Hsz & _). split.
  - case_decide as H6.
    + subst n. destruct (caller_word st 6 ltac:(lia) Hok) as [Ha Hw].
      rewrite <-Ha in Hw |- *. unfold frame. cbn [frame_size nth Nat.sub].
      replace (rsp st.1 + 8 + 8 * Z.of_nat 6) with (rsp st.1 - 8 + 0x38 + 8 * Z.of_nat 1) in * by lia.
      rewrite <-(spilled_arg 2 (rsp st.1 - 8) (rsp st.1 - 8 - 40) _ ltac:(lia) 2 1) by (lia || exact Hw).
      f_equal. lia.
    + unfold frame. rewrite spilled_other with (j := (n - 4)%nat) by lia.
      apply load64_store64, Hok.
  - unfold frame. rewrite spilled_other with (j := (n - 4)%nat) by (case_decide; lia).
    apply load64_store64_other. lia.
Qed.

(** C31. Every stub calls the function it is given with the arguments it is given,
    in order, and the stack is aligned at the call exactly for those with 0 to
    4, 8 and 10 arguments: the frames of the stubs for 5, 6, 7 and 9 arguments
    are an odd number of words. *)
Theorem stubs_pass_arguments n prog st : stubs !! n = Some prog -> entry_ok st ->
  exists st1 rest, to_call prog st = Some (arg (rsp st.1 + 8) st 0, st1, rest) /\
    (forall k, (k < n)%nat -> arg (rsp st1.1) st1 k = arg (rsp st.1 + 8) st (S k)) /\
    (rsp st1.1 mod 16 = 0 <-> (n <> 5 /\ n <> 6 /\ n <> 7 /\ n <> 9)%nat).
Proof.
  intros Hn Hok. destruct (stub_call n prog st Hn) as (s & E & Hs).
  eexists _, _. split; [exact E|]. split.
  - intros k Hk. by apply (stub_arg n prog).
  - cbn [fst]. destruct Hs as [-> _]. destruct Hok as [Hal _].
    destruct (frame_size_range n prog Hn) as (_ & _ & _ & <-). Z.div_mod_to_equations. lia.
Qed.

(** C32. When the service returns, a stub returns to its caller with the service's
    status and the stack pointer as the caller left it.  The frame pointer is
    restored too, except by the stub for six arguments, whose frame is one word
    too small: the sixth argument is stored over the saved frame pointer and
    ends up in RBP. *)
Theorem stubs_return n prog st st2 : stubs !! n = Some prog -> entry_ok st ->
  exists t st1 rest, to_call prog st = Some (t, st1, rest) /\
  (callee_ok st1 st2 ->
   exists st3, to_ret rest st2 = Some (load64 st.2 (rsp st.1), st3) /\
     rsp st3.1 = rsp st.1 + 8 /\ rax st3.1 = rax st2.1 /\
     rbp st3.1 = if decide (n = 6%nat) then arg (rsp st.1 + 8) st 6 else rbp st.1).
Proof.
  intros Hn Hok. destruct (stub_call n prog st Hn) as (s & E & Hs).
  eexists _, _, _. split; [exact E|]. destruct Hs as (_ & Hb & _).
  destruct (stub_saved n prog st Hn Hok) as [Hsv Hra].
  intros (_ & Hb2 & Hl & Hr). cbn [fst snd] in *. rewrite Hb in *.
  replace (rsp st.1 - 8 + 8) with (rsp st.1) in Hr by lia.
  destruct st2 as [[a c d b p e f g] m]. cbn [fst snd rbp rax] in *. subst b.
  eexists. split; [cbn [to_ret step get set fst snd rsp rbp]|].
  { replace (rsp st.1 - 8 + 8) with (rsp st.1) by lia. rewrite Hr, Hra. reflexivity. }
  cbn [fst set rsp rax rbp]. rewrite Hl, Hsv. split_and!; [lia|done|done].
Qed.

Definition demo_entry : state :=
  (mkRegs 0 0x9000 1 0x7000 0x7fe8 2 3 0,
   store64 (store64 (store64 (store64 ∅ 0x7fe8 0x4000) 0x8010 4) 0x8018 5) 0x8020 6).

Lemma demo_entry_ok : entry_ok demo_entry.
Proof.
  split; [reflexivity|]. split; [vm_compute; split; congruence|].
  intros k Hk. do 11 (destruct k as [|k]; [vm_compute; split; congruence|]). lia.
Qed.

Lemma stubs_pass_arguments_witness :
  exists st1 rest, to_call uefiCall6 demo_entry = Some (0x9000, st1, rest) /\
    (forall k, (k < 6)%nat -> arg (rsp st1.1) st1 k = Z.of_nat k + 1) /\
    rsp st1.1 mod 16 <> 0.
Proof.
  destruct (stubs_pass_arguments 6 uefiCall6 demo_entry eq_refl demo_entry_ok)
    as (st1 & rest & E & Hk & Hal).
  exists st1, rest. split; [exact E|]. split.
  - intros k Hlt. rewrite (Hk k Hlt).
    do 6 (destruct k as [|k]; [vm_compute; reflexivity|]). lia.
  - intros H0. apply Hal in H0. lia.
Defined.

Lemma stubs_return_witness :
  let st2 := (mkRegs 0 0 0 0x7fe0 0x7fb8 0 0 0, frame 6 demo_entry) in
  exists t st1 rest st3, to_call uefiCall6 demo_entry = Some (t, st1, rest) /\
    to_ret rest st2 = Some (0x4000, st3) /\ rbp st3.1 = 6.
Proof.
  intros st2.
  destruct (stubs_return 6 uefiCall6 demo_entry st2 eq_refl demo_entry_ok)
    as (t & st1 & rest & E & Hret).
  assert (callee_ok st1 st2) as Hc.
  { destruct (stub_call 6 uefiCall6 demo_entry eq_refl) as (s & E' & Hp & Hb & _).
    rewrite E in E'. injection E' as _ -> _. unfold callee_ok. cbn [fst snd].
    rewrite Hp, Hb. repeat split. }
  destruct (Hret Hc) as (st3 & Er & _ & _ & Eb). exists t, st1, rest, st3.
  split; [exact E|]. split; [exact Er|exact Eb].
Defined.
