(* ===== verification/SpecTables.v ===== *)
(** * SpecTables: the service tables of pkg/uefi

    uefi_spec.go declares the runtime and boot services tables and a method per
    service; call.go and the assembly stubs of asm_amd64.S make the calls.  The
    package has a mutex of its own, next to that of pkg/ueficore.  A parameter
    of a method is the 64-bit word it is converted to: the address for a
    pointer, the number itself for the integer types. *)

From S2P Require Import Prelude Binary Machine Boot MemMap Image.

(** ** Effects: the world and this package's mutex *)

Definition SM `{Machine} (A : Type) : Type := bool * World -> outcome A * (bool * World).

#[export] Instance SM_bind `{Machine} : MBind SM := fun _ _ f m s =>
  match m s with
  | (Ret a, s') => f a s'
  | (Panic p, s') => (Panic p, s')
  | (Deadlock, s') => (Deadlock, s')
  | (NoFuel, s') => (NoFuel, s')
  end.

#[export] Instance SM_ret `{Machine} : MRet SM := fun _ a s => (Ret a, s).

Lemma sm_step `{Machine} {A B} (m : SM A) (f : A -> SM B) s a s' :
  m s = (Ret a, s') -> (m ≫= f) s = f a s'.
Proof. intros E. unfold mbind, SM_bind. by rewrite E. Qed.

(** The largest allocation of the runtime. *)
Definition maxAlloc : Z := 2 ^ 48.

Section Calls.
Context `{Machine}.

Definition on_world {A} (m : M A) : SM A := fun '(mux, w) =>
  let '(r, w') := m w in (r, (mux, w')).

Definition sm_panic {A} (p : panic) : SM A := fun s => (Panic p, s).

(** [ptrval] and [Ptrval] of call.go, which takes a [*uintptr] and no
    [*InputKey]. *)
Definition spec_ptrval (ptr : goptr) : SM Z :=
  match ptr with
  | PtrUint64 v | PtrUint32 v | PtrUint16 v | PtrUintptr v | PtrByte v => on_world (mret v)
  | PtrInputKey _ | PtrOther => sm_panic (PMsg "internal error, invalid ptrval")
  end.

Definition spec_Ptrval (ptr : goptr) : SM Z := spec_ptrval ptr.

(** [callService] of call.go. *)
Definition callService (fn : Z) (args : list Z) : SM Z := fun '(mux, w) =>
  if mux then (Deadlock, (mux, w)) else
  let '(r, w') := callFn fn args w in
  (r, (match r with Ret _ | Panic _ => false | _ => true end, w')).

(** What jumping to [fn] does; the stubs of asm_amd64.S end in such a jump
    ([callq *%rax]), with their first argument as the target. *)
Definition call_entry (fn : Z) (args : list Z) (w : World) : Z * World :=
  let '(status, m, s) := firmware fn args (w_mem w) (w_fw w) in
  (status, mkWorld _ m (w_brk w) (w_mux w) (w_log w) s).

Definition stub (fn : Z) (args : list Z) : SM Z := fun '(mux, w) =>
  let '(status, w') := call_entry fn args w in (Ret status, (mux, w')).

Definition UefiCall0 (fn : Z) : SM Z := stub fn [].
Definition UefiCall1 (fn a : Z) : SM Z := stub fn [a].
Definition UefiCall2 (fn a b : Z) : SM Z := stub fn [a; b].
Definition UefiCall3 (fn a b c : Z) : SM Z := callService fn [a; b; c].
Definition UefiCall4 (fn a b c d : Z) : SM Z := stub fn [a; b; c; d].
Definition UefiCall5 (fn a b c d e : Z) : SM Z := on_world (callFn fn [a; b; c; d; e]).
Definition UefiCall6 (fn a b c d e f : Z) : SM Z := stub fn [a; b; c; d; e; f].

Definition convertBoolean (b : bool) : Z := if b then 1 else 0.

(** Fields follow the 24-byte header, 8 bytes each. *)
Fixpoint index (name : string) (fields : list string) : Z :=
  match fields with
  | [] => 0
  | f :: fields => if decide (f = name) then 0 else 1 + index name fields
  end.

Definition offset_of (fields : list string) (name : string) : Z := 24 + 8 * index name fields.

(** [p.name], and [uintptr(ptrval(&p.name))]. *)
Definition field (fields : list string) (name : string) (p : Z) : SM Z :=
  on_world (get64 (u64 (p + offset_of fields name))).
Definition field_addr (fields : list string) (name : string) (p : Z) : SM Z :=
  on_world (mret (u64 (p + offset_of fields name))).

(** [make([]T, n)], zeroed, for elements of [size] bytes. *)
Definition make (n size : Z) : SM Z :=
  if (n <? 0) || (maxAlloc <? n * size) then sm_panic PMakeslice
  else on_world (alloc (replicate (Z.to_nat (n * size)) 0)).

Lemma make_step n size w : 0 <= n -> n * size <= maxAlloc ->
  make n size (false, w) =
  (Ret (w_brk w), (false, alloc_world (replicate (Z.to_nat (n * size)) 0) w)).
Proof.
  intros Hn Hs. unfold make. rewrite (proj2 (Z.ltb_ge n 0)), (proj2 (Z.ltb_ge maxAlloc _)) by lia.
  reflexivity.
Qed.

(** The world after a service call. *)
Definition called (w : World) (r : Z * memory * fwstate) : outcome Z * (bool * World) :=
  let '(status, m, s) := r in (Ret status, (false, mkWorld _ m (w_brk w) (w_mux w) (w_log w) s)).

Definition bad_args : SM Z := fun s => (Panic PIndex, s).
End Calls.

(** ** Methods as data

    A method's function, as a curried function of its parameters after the
    receiver, with the offset of its field in the receiver, and what its service
    is to receive before and after these parameters: the receiver itself for
    a protocol, and constants. *)

Fixpoint words `{Machine} (n : nat) : Type :=
  match n with O => SM Z | S n => Z -> words n end.

Fixpoint apply `{Machine} {n} (f : words n) (args : list Z) : SM Z :=
  match n return words n -> SM Z with
  | O => fun f => f
  | S n => fun f => match args with [] => bad_args | a :: args => apply (f a) args end
  end f.

Record method `{Machine} := Method {
  m_offset : Z;
  m_self : bool;
  m_before : list Z;
  m_arity : nat;
  m_fun : Z -> words m_arity;
  m_after : list Z;
}.

#[global] Arguments Method {_} _ _ _ _ _ _.

Definition plain `{Machine} (offset : Z) (n : nat) (f : Z -> words n) : method :=
  Method offset false [] n f [].

(** The effect of a method of a table or protocol at [p]: the code at [target]
    is called with the method's arguments, and the package's mutex is free
    again. *)
Definition calls_target `{Machine} (target : memory -> Z -> Z) (x : method) : Prop :=
  forall p args w, length args = m_arity x ->
    apply (m_fun x p) args (false, w) =
    let sent := (if m_self x then [p] else []) ++ m_before x ++ args ++ m_after x in
    let r := call_entry (target (w_mem w) (u64 (p + m_offset x))) sent w in
    (Ret r.1, (false, r.2)).

(** Reading the entry point once, or reading through it once more. *)
Definition once (m : memory) (a : Z) : Z := load64 m a.
Definition twice (m : memory) (a : Z) : Z := load64 m (load64 m a).

(** One call, for the three ways a method makes it. *)
Section Steps.
Context `{Machine}.

Lemma stub_step a args w : is_word 64 a ->
  (fn ← on_world (get64 (u64 a)); stub fn args) (false, w) =
  called w (firmware (once (w_mem w) a) args (w_mem w) (w_fw w)).
Proof.
  intros Ha. erewrite sm_step by reflexivity. rewrite wrap_small by done.
  unfold stub, call_entry, called, once. by destruct (firmware _ _ _ _) as [[? ?] ?].
Qed.

Lemma callFn_step a b args w : is_word 64 a ->
  (fn ← on_world (get64 (u64 a)); on_world (callFn fn (b :: args))) (false, w) =
  called w (firmware (twice (w_mem w) a) (b :: args) (w_mem w) (w_fw w)).
Proof.
  intros Ha. erewrite sm_step by reflexivity. rewrite wrap_small by done.
  unfold on_world, callFn, called, twice. by destruct (firmware _ _ _ _) as [[? ?] ?].
Qed.

Lemma service_step a b args w : is_word 64 a ->
  (fn ← on_world (get64 (u64 a)); callService fn (b :: args)) (false, w) =
  called w (firmware (twice (w_mem w) a) (b :: args) (w_mem w) (w_fw w)).
Proof.
  intros Ha. erewrite sm_step by reflexivity. rewrite wrap_small by done.
  unfold callService, callFn, called, twice. by destruct (firmware _ _ _ _) as [[? ?] ?].
Qed.
End Steps.

(** Discharges [calls_target] for one method. *)
Ltac method_target :=
  unfold calls_target; intros p args w Hlen; cbn [m_arity] in Hlen;
  repeat (destruct args as [|? args]; [try discriminate Hlen|try discriminate Hlen]);
  cbv -[load64 u64 offset_of index firmware w_mem w_fw w_brk w_mux w_log Z.add Z.mul];
  repeat match goal with |- context [firmware ?a ?b ?c ?d] =>
    destruct (firmware a b c d) as [[? ?] ?] end;
  reflexivity.

(** ** EFI_RUNTIME_SERVICES *)

Module Runtime.
Definition fields : list string :=
  [ "getTime"; "setTime"; "getWakeupTime"; "setWakeupTime"; "setVirtualAddressMap";
    "convertPointer"; "getVariable"; "getNextVariableName"; "setVariable";
    "getNextHighMonotonicCount"; "resetSystem"; "updateCapsule";
    "queryCapsuleCapabilities"; "queryVariableInfo" ]%string.

Section Wrappers.
Context `{Machine}.

Definition GetTime (p Time Capabilities : Z) : SM Z :=
  fn ← field fields "getTime" p; UefiCall2 fn Time Capabilities.

Definition SetTime (p Time : Z) : SM Z :=
  fn ← field fields "setTime" p; UefiCall1 fn Time.

Definition GetWakeupTime (p Enabled Pending Time : Z) : SM Z :=
  fn ← field fields "getWakeupTime" p; UefiCall3 fn Enabled Pending Time.

Definition SetWakeupTime (p : Z) (Enable : bool) (Time : Z) : SM Z :=
  fn ← field fields "setWakeupTime" p; UefiCall2 fn (convertBoolean Enable) Time.

Definition SetVirtualAddressMap (p MemoryMapSize DescriptorSize DescriptorVersion VirtualMap
    : Z) : SM Z :=
  fn ← field fields "setVirtualAddressMap" p;
  UefiCall4 fn MemoryMapSize DescriptorSize DescriptorVersion VirtualMap.

Definition ConvertPointer (p DebugDisposition Address : Z) : SM Z :=
  fn ← field fields "convertPointer" p; UefiCall2 fn DebugDisposition Address.

Definition GetVariable (p VariableName VendorGuid Attributes DataSize Data_ : Z) : SM Z :=
  fn ← field_addr fields "getVariable" p;
  UefiCall5 fn VariableName VendorGuid Attributes DataSize Data_.

Definition GetNextVariableName (p VariableNameSize VariableName VendorGuid : Z) : SM Z :=
  fn ← field_addr fields "getNextVariableName" p;
  UefiCall3 fn VariableNameSize VariableName VendorGuid.

Definition SetVariable (p VariableName VendorGuid Attributes DataSize Data_ : Z) : SM Z :=
  fn ← field fields "setVariable" p;
  UefiCall5 fn VariableName VendorGuid Attributes DataSize Data_.

Definition GetNextHighMonotonicCount (p HighCount : Z) : SM Z :=
  fn ← field fields "getNextHighMonotonicCount" p; UefiCall1 fn HighCount.

Definition ResetSystem (p ResetType ResetStatus DataSize ResetData : Z) : SM Z :=
  fn ← field fields "resetSystem" p; UefiCall4 fn ResetType ResetStatus DataSize ResetData.

Definition UpdateCapsule (p CapsuleHeaderArray CapsuleCount ScatterGatherList : Z) : SM Z :=
  fn ← field fields "updateCapsule" p;
  UefiCall3 fn CapsuleHeaderArray CapsuleCount ScatterGatherList.

Definition QueryCapsuleCapabilities (p CapsuleHeaderArray CapsuleCount MaximumCapsuleSize
    ResetType : Z) : SM Z :=
  fn ← field fields "queryCapsuleCapabilities" p;
  UefiCall4 fn CapsuleHeaderArray CapsuleCount MaximumCapsuleSize ResetType.

Definition QueryVariableInfo (p Attributes MaximumVariableStorageSize
    RemainingVariableStorageSize MaximumVariableSize : Z) : SM Z :=
  fn ← field fields "queryVariableInfo" p;
  UefiCall4 fn Attributes MaximumVariableStorageSize RemainingVariableStorageSize MaximumVariableSize.

(** The methods whose service is called directly, and the others. *)
Definition direct : list method :=
  [ plain (offset_of fields "getTime") 2 GetTime;
    plain (offset_of fields "setTime") 1 SetTime;
    Method (offset_of fields "setWakeupTime") false [1] 1 (fun p => SetWakeupTime p true) [];
    Method (offset_of fields "setWakeupTime") false [0] 1 (fun p => SetWakeupTime p false) [];
    plain (offset_of fields "setVirtualAddressMap") 4 SetVirtualAddressMap;
    plain (offset_of fields "convertPointer") 2 ConvertPointer;
    plain (offset_of fields "getVariable") 5 GetVariable;
    plain (offset_of fields "getNextVariableName") 3 GetNextVariableName;
    plain (offset_of fields "getNextHighMonotonicCount") 1 GetNextHighMonotonicCount;
    plain (offset_of fields "resetSystem") 4 ResetSystem;
    plain (offset_of fields "queryCapsuleCapabilities") 4 QueryCapsuleCapabilities;
    plain (offset_of fields "queryVariableInfo") 4 QueryVariableInfo ].

Definition double : list method :=
  [ plain (offset_of fields "getWakeupTime") 3 GetWakeupTime;
    plain (offset_of fields "setVariable") 5 SetVariable;
    plain (offset_of fields "updateCapsule") 3 UpdateCapsule ].
End Wrappers.
End Runtime.

(** ** EFI_BOOT_SERVICES *)

Module BootTable.
Definition fields : list string :=
  [ "raiseTPL"; "restoreTPL"; "allocatePages"; "freePages"; "getMemoryMap";
    "allocatePool"; "freePool"; "createEvent"; "setTimer"; "waitForEvent";
    "signalEvent"; "closeEvent"; "checkEvent"; "installProtocolInterface";
    "reinstallProtocolInterface"; "uninstallProtocolInterface"; "handleProtocol";
    "Reserved"; "registerProtocolNotify"; "locateHandle"; "locateDevicePath";
    "installConfigurationTable"; "loadImage"; "startImage"; "exit"; "unloadImage";
    "exitBootServices"; "getNextMonotonicCount"; "stall"; "setWatchdogTimer";
    "connectController"; "disconnectController"; "openProtocol"; "closeProtocol";
    "openProtocolInformation"; "protocolsPerHandle"; "locateHandleBuffer";
    "locateProtocol"; "installMultipleProtocolInterfaces";
    "uninstallMultipleProtocolInterfaces"; "calculateCrc32"; "copyMem"; "setMem";
    "createEventEx" ]%string.

Section Wrappers.
Context `{Machine}.

Definition RaiseTPL (p NewTpl : Z) : SM Z :=
  fn ← field fields "raiseTPL" p; UefiCall1 fn NewTpl.

Definition RestoreTPL (p OldTpl : Z) : SM Z :=
  fn ← field fields "restoreTPL" p; UefiCall1 fn OldTpl.

Definition AllocatePages (p Type_ MemoryType Pages Memory : Z) : SM Z :=
  fn ← field fields "allocatePages" p; UefiCall4 fn Type_ MemoryType Pages Memory.

Definition FreePages (p Memory Pages : Z) : SM Z :=
  fn ← field fields "freePages" p; UefiCall2 fn Memory Pages.

Definition GetMemoryMap (p MemoryMapSize MemoryMap MapKey DescriptorSize DescriptorVersion :
    Z) : SM Z :=
  fn ← field fields "getMemoryMap" p;
  UefiCall5 fn MemoryMapSize MemoryMap MapKey DescriptorSize DescriptorVersion.

Definition AllocatePool (p PoolType Size Buffer : Z) : SM Z :=
  fn ← field fields "allocatePool" p; UefiCall3 fn PoolType Size Buffer.

Definition FreePool (p Buffer : Z) : SM Z :=
  fn ← field fields "freePool" p; UefiCall1 fn Buffer.

Definition CreateEvent (p Type_ NotifyTpl NotifyFunction NotifyContext Event : Z) : SM Z :=
  fn ← field fields "createEvent" p;
  UefiCall5 fn Type_ NotifyTpl NotifyFunction NotifyContext Event.

Definition SetTimer (p Event Type_ TriggerTime : Z) : SM Z :=
  fn ← field fields "setTimer" p; UefiCall3 fn Event Type_ TriggerTime.

Definition WaitForEvent (p NumberOfEvents Event Index : Z) : SM Z :=
  fn ← field fields "waitForEvent" p; UefiCall3 fn NumberOfEvents Event Index.

Definition SignalEvent (p Event : Z) : SM Z :=
  fn ← field fields "signalEvent" p; UefiCall1 fn Event.

Definition CloseEvent (p Event : Z) : SM Z :=
  fn ← field fields "closeEvent" p; UefiCall1 fn Event.

Definition CheckEvent (p Event : Z) : SM Z :=
  fn ← field fields "checkEvent" p; UefiCall1 fn Event.

Definition InstallProtocolInterface (p Handle Protocol InterfaceType Interface : Z) : SM Z :=
  fn ← field fields "installProtocolInterface" p;
  UefiCall4 fn Handle Protocol InterfaceType Interface.

Definition ReinstallProtocolInterface (p Handle Protocol OldInterface NewInterface : Z) : SM
    Z :=
  fn ← field fields "reinstallProtocolInterface" p;
  UefiCall4 fn Handle Protocol OldInterface NewInterface.

Definition UninstallProtocolInterface (p Handle Protocol Interface : Z) : SM Z :=
  fn ← field fields "uninstallProtocolInterface" p; UefiCall3 fn Handle Protocol Interface.

Definition HandleProtocol (p Handle Protocol Interface : Z) : SM Z :=
  fn ← field fields "handleProtocol" p; UefiCall3 fn Handle Protocol Interface.

Definition RegisterProtocolNotify (p Protocol Event Registration : Z) : SM Z :=
  fn ← field fields "registerProtocolNotify" p; UefiCall3 fn Protocol Event Registration.

Definition LocateHandle (p SearchType Protocol SearchKey BufferSize Buffer : Z) : SM Z :=
  fn ← field fields "locateHandle" p;
  UefiCall5 fn SearchType Protocol SearchKey BufferSize Buffer.

Definition LocateDevicePath (p Protocol DevicePath Device : Z) : SM Z :=
  fn ← field fields "locateDevicePath" p; UefiCall3 fn Protocol DevicePath Device.

Definition InstallConfigurationTable (p Guid Table : Z) : SM Z :=
  fn ← field fields "installConfigurationTable" p; UefiCall2 fn Guid Table.

Definition LoadImage (p : Z) (BootPolicy : bool) (ParentImageHandle DevicePath SourceBuffer
    SourceSize ImageHandle : Z) : SM Z :=
  fn ← field fields "loadImage" p;
  UefiCall6 fn (convertBoolean BootPolicy) ParentImageHandle DevicePath SourceBuffer SourceSize ImageHandle.

Definition StartImage (p ImageHandle ExitDataSize ExitData : Z) : SM Z :=
  fn ← field fields "startImage" p; UefiCall3 fn ImageHandle ExitDataSize ExitData.

Definition Exit (p ImageHandle ExitStatus ExitDataSize ExitData : Z) : SM Z :=
  fn ← field fields "exit" p; UefiCall4 fn ImageHandle ExitStatus ExitDataSize ExitData.

Definition UnloadImage (p ImageHandle : Z) : SM Z :=
  fn ← field fields "unloadImage" p; UefiCall1 fn ImageHandle.

Definition ExitBootServices (p ImageHandle MapKey : Z) : SM Z :=
  fn ← field fields "exitBootServices" p; UefiCall2 fn ImageHandle MapKey.

Definition GetNextMonotonicCount (p Count : Z) : SM Z :=
  fn ← field fields "getNextMonotonicCount" p; UefiCall1 fn Count.

Definition Stall (p Microseconds : Z) : SM Z :=
  fn ← field fields "stall" p; UefiCall1 fn Microseconds.

Definition SetWatchdogTimer (p Timeout WatchdogCode DataSize WatchdogData : Z) : SM Z :=
  fn ← field fields "setWatchdogTimer" p;
  UefiCall4 fn Timeout WatchdogCode DataSize WatchdogData.

Definition ConnectController (p ControllerHandle DriverImageHandle RemainingDevicePath : Z)
    (Recursive : bool) : SM Z :=
  fn ← field fields "connectController" p;
  UefiCall4 fn ControllerHandle DriverImageHandle RemainingDevicePath (convertBoolean Recursive).

Definition DisconnectController (p ControllerHandle DriverImageHandle ChildHandle : Z) : SM Z :=
  fn ← field fields "disconnectController" p;
  UefiCall3 fn ControllerHandle DriverImageHandle ChildHandle.

Definition OpenProtocol (p Handle Protocol Interface AgentHandle ControllerHandle Attributes
    : Z) : SM Z :=
  fn ← field fields "openProtocol" p;
  UefiCall6 fn Handle Protocol Interface AgentHandle ControllerHandle Attributes.

Definition CloseProtocol (p Handle Protocol AgentHandle ControllerHandle : Z) : SM Z :=
  fn ← field fields "closeProtocol" p;
  UefiCall4 fn Handle Protocol AgentHandle ControllerHandle.

Definition OpenProtocolInformation (p Handle Protocol EntryBuffer EntryCount : Z) : SM Z :=
  fn ← field fields "openProtocolInformation" p;
  UefiCall4 fn Handle Protocol EntryBuffer EntryCount.

Definition ProtocolsPerHandle (p Handle ProtocolBuffer ProtocolBufferCount : Z) : SM Z :=
  fn ← field fields "protocolsPerHandle" p;
  UefiCall3 fn Handle ProtocolBuffer ProtocolBufferCount.

Definition LocateHandleBuffer (p SearchType Protocol SearchKey NoHandles Buffer : Z) : SM Z :=
  fn ← field fields "locateHandleBuffer" p;
  UefiCall5 fn SearchType Protocol SearchKey NoHandles Buffer.

Definition LocateProtocol (p Protocol Registration InterfacePtr : Z) : SM Z :=
  fn ← field fields "locateProtocol" p; UefiCall3 fn Protocol Registration InterfacePtr.

Definition InstallMultipleProtocolInterfaces (p Handle : Z) : SM Z :=
  fn ← field fields "installMultipleProtocolInterfaces" p; UefiCall1 fn Handle.

Definition UninstallMultipleProtocolInterfaces (p Handle : Z) : SM Z :=
  fn ← field fields "uninstallMultipleProtocolInterfaces" p; UefiCall1 fn Handle.

Definition CalculateCrc32 (p Data_ DataSize Crc32 : Z) : SM Z :=
  fn ← field fields "calculateCrc32" p; UefiCall3 fn Data_ DataSize Crc32.

Definition CopyMem (p Destination Source Length : Z) : SM Z :=
  fn ← field fields "copyMem" p; UefiCall3 fn Destination Source Length.

Definition SetMem (p Buffer Size Value : Z) : SM Z :=
  fn ← field fields "setMem" p; UefiCall3 fn Buffer Size Value.

Definition CreateEventEx (p Type_ NotifyTpl NotifyFunction NotifyContext EventGroup Event :
    Z) : SM Z :=
  fn ← field fields "createEventEx" p;
  UefiCall6 fn Type_ NotifyTpl NotifyFunction NotifyContext EventGroup Event.

(** The methods whose service is called directly, and the others. *)
Definition direct : list method :=
  [ plain (offset_of fields "raiseTPL") 1 RaiseTPL;
    plain (offset_of fields "restoreTPL") 1 RestoreTPL;
    plain (offset_of fields "allocatePages") 4 AllocatePages;
    plain (offset_of fields "freePages") 2 FreePages;
    plain (offset_of fields "freePool") 1 FreePool;
    plain (offset_of fields "signalEvent") 1 SignalEvent;
    plain (offset_of fields "closeEvent") 1 CloseEvent;
    plain (offset_of fields "checkEvent") 1 CheckEvent;
    plain (offset_of fields "installProtocolInterface") 4 InstallProtocolInterface;
    plain (offset_of fields "reinstallProtocolInterface") 4 ReinstallProtocolInterface;
    plain (offset_of fields "installConfigurationTable") 2 InstallConfigurationTable;
    plain (offset_of fields "exit") 4 Exit;
    plain (offset_of fields "unloadImage") 1 UnloadImage;
    plain (offset_of fields "exitBootServices") 2 ExitBootServices;
    plain (offset_of fields "getNextMonotonicCount") 1 GetNextMonotonicCount;
    plain (offset_of fields "stall") 1 Stall;
    plain (offset_of fields "setWatchdogTimer") 4 SetWatchdogTimer;
    Method (offset_of fields "loadImage") false [1] 5 (fun p => LoadImage p true) [];
    Method (offset_of fields "loadImage") false [0] 5 (fun p => LoadImage p false) [];
    Method (offset_of fields "connectController") false [] 3
      (fun p a b c => ConnectController p a b c true) [1];
    Method (offset_of fields "connectController") false [] 3
      (fun p a b c => ConnectController p a b c false) [0];
    plain (offset_of fields "openProtocol") 6 OpenProtocol;
    plain (offset_of fields "closeProtocol") 4 CloseProtocol;
    plain (offset_of fields "openProtocolInformation") 4 OpenProtocolInformation;
    plain (offset_of fields "installMultipleProtocolInterfaces") 1 InstallMultipleProtocolInterfaces;
    plain (offset_of fields "uninstallMultipleProtocolInterfaces") 1 UninstallMultipleProtocolInterfaces;
    plain (offset_of fields "createEventEx") 6 CreateEventEx ].

Definition double : list method :=
  [ plain (offset_of fields "getMemoryMap") 5 GetMemoryMap;
    plain (offset_of fields "allocatePool") 3 AllocatePool;
    plain (offset_of fields "createEvent") 5 CreateEvent;
    plain (offset_of fields "setTimer") 3 SetTimer;
    plain (offset_of fields "waitForEvent") 3 WaitForEvent;
    plain (offset_of fields "uninstallProtocolInterface") 3 UninstallProtocolInterface;
    plain (offset_of fields "handleProtocol") 3 HandleProtocol;
    plain (offset_of fields "registerProtocolNotify") 3 RegisterProtocolNotify;
    plain (offset_of fields "locateHandle") 5 LocateHandle;
    plain (offset_of fields "locateDevicePath") 3 LocateDevicePath;
    plain (offset_of fields "startImage") 3 StartImage;
    plain (offset_of fields "disconnectController") 3 DisconnectController;
    plain (offset_of fields "protocolsPerHandle") 3 ProtocolsPerHandle;
    plain (offset_of fields "locateHandleBuffer") 5 LocateHandleBuffer;
    plain (offset_of fields "locateProtocol") 3 LocateProtocol;
    plain (offset_of fields "calculateCrc32") 3 CalculateCrc32;
    plain (offset_of fields "copyMem") 3 CopyMem;
    plain (offset_of fields "setMem") 3 SetMem ].
End Wrappers.
End BootTable.

(** ** Properties *)

(** The table offsets that pkg/ueficore writes out as constants are the
    offsets of the fields of those services in the table structs that pkg/uefi
    declares. *)
Theorem table_offsets_agree :
  Forall (fun '(c, name) => c = offset_of BootTable.fields name)
    [ (allocatePages, "allocatePages"); (freePages, "freePages");
      (getMemoryMap, "getMemoryMap"); (handleProtocol, "handleProtocol");
      (loadImage, "loadImage"); (startImage, "startImage"); (exit, "exit");
      (exitBootServices, "exitBootServices"); (setWatchdogTimer, "setWatchdogTimer");
      (locateProtocol, "locateProtocol") ]%string /\
  Forall (fun '(c, name) => c = offset_of Runtime.fields name)
    [ (getTime, "getTime"); (setTime, "setTime"); (getVariable, "getVariable");
      (getNextVariable, "getNextVariableName"); (setVariable, "setVariable");
      (getNextHighMonotonicCount, "getNextHighMonotonicCount"); (resetSystem, "resetSystem");
      (querVariableInfo, "queryVariableInfo") ]%string.
Proof. split; repeat (apply Forall_cons_2; [vm_compute; reflexivity|]); apply Forall_nil_2. Qed.

(** C23. Which methods of the service tables reach their service: those that go
    through the assembly stubs, and the two that pass the address of their
    field, call the entry point in the field; the other methods with three or
    five arguments take the entry point for a table entry and jump to whatever
    the first eight bytes of the service's code say. *)
Theorem wrapper_targets `{Machine} :
  Forall (calls_target once) Runtime.direct /\
  Forall (calls_target once) BootTable.direct /\
  Forall (calls_target twice) Runtime.double /\
  Forall (calls_target twice) BootTable.double.
Proof.
  unfold Runtime.direct, BootTable.direct, Runtime.double, BootTable.double.
  split_and!; repeat (apply Forall_cons_2; [method_target|]); apply Forall_nil_2.
Qed.
