(* ===== verification/Protocols.v ===== *)
(** * Protocols: the protocol bindings of pkg/uefi

    One module per protocol interface: the fields of the struct, which all lie
    at multiples of 8 bytes, and a definition per method.  A parameter is the
    64-bit word it is converted to, as in SpecTables. *)

From S2P Require Import Prelude Binary Machine SpecTables.

(** The offset of a field of a protocol struct. *)
Definition poffset (fields : list string) (name : string) : Z := 8 * index name fields.

Definition pfield `{Machine} (fields : list string) (name : string) (p : Z) : SM Z :=
  on_world (get64 (u64 (p + poffset fields name))).

Definition UefiCall7 `{Machine} (fn a b c d e f g : Z) : SM Z := stub fn [a; b; c; d; e; f; g].
Definition UefiCall8 `{Machine} (fn a b c d e f g h : Z) : SM Z := stub fn [a; b; c; d; e; f; g; h].
Definition UefiCall9 `{Machine} (fn a b c d e f g h i : Z) : SM Z :=
  stub fn [a; b; c; d; e; f; g; h; i].
Definition UefiCall10 `{Machine} (fn a b c d e f g h i j : Z) : SM Z :=
  stub fn [a; b; c; d; e; f; g; h; i; j].

Definition convertBool (b : bool) : Z := if b then 1 else 0.

(** EFI_SIMPLE_FILE_SYSTEM_PROTOCOL of simple_file_system_protocol.go. *)
Module SimpleFileSystem.
Definition fields : list string :=
  [ "Revision"; "openVolume" ]%string.

Section Methods.
Context `{Machine}.

Definition OpenVolume (p root : Z) : SM Z :=
  fn ← pfield fields "openVolume" p; UefiCall2 fn p root.

End Methods.
End SimpleFileSystem.

(** EFI_FILE_PROTOCOL of simple_file_system_protocol.go. *)
Module FileProtocol.
Definition fields : list string :=
  [ "Revision"; "open"; "close"; "delete"; "read"; "write"; "getPosition"; "setPosition"; "getInfo"; "setInfo"; "flush" ]%string.

Section Methods.
Context `{Machine}.

Definition Open (p newHandle fileName openMode attributes : Z) : SM Z :=
  fn ← pfield fields "open" p; UefiCall6 fn p newHandle fileName openMode attributes 0.

Definition Close (p : Z) : SM Z :=
  fn ← pfield fields "close" p; UefiCall1 fn p.

Definition Delete (p : Z) : SM Z :=
  fn ← pfield fields "delete" p; UefiCall1 fn p.

Definition Read (p bufferSize buffer : Z) : SM Z :=
  fn ← pfield fields "read" p; UefiCall3 fn p bufferSize buffer.

Definition Write (p bufferSize buffer : Z) : SM Z :=
  fn ← pfield fields "write" p; UefiCall3 fn p bufferSize buffer.

Definition GetPosition (p position : Z) : SM Z :=
  fn ← pfield fields "getPosition" p; UefiCall2 fn p position.

Definition SetPosition (p position : Z) : SM Z :=
  fn ← pfield fields "setPosition" p; UefiCall2 fn p position.

Definition GetInfo (p infoType bufferSize buffer : Z) : SM Z :=
  fn ← pfield fields "getInfo" p; UefiCall4 fn p infoType bufferSize buffer.

Definition SetInfo (p infoType bufferSize buffer : Z) : SM Z :=
  fn ← pfield fields "setInfo" p; UefiCall4 fn p infoType bufferSize buffer.

Definition Flush (p : Z) : SM Z :=
  fn ← pfield fields "flush" p; UefiCall1 fn p.

End Methods.
End FileProtocol.

(** EFI_BLOCK_IO_PROTOCOL of media_io_protocol.go. *)
Module BlockIo.
Definition fields : list string :=
  [ "Revision"; "Media"; "reset"; "readBlocks"; "writeBlocks"; "flushBlocks" ]%string.

Section Methods.
Context `{Machine}.

Definition Reset (p : Z) (extendedVerification : bool) : SM Z :=
  fn ← pfield fields "reset" p; UefiCall2 fn p (convertBool extendedVerification).

Definition ReadBlocks (p mediaId lba bufSize buffer : Z) : SM Z :=
  fn ← pfield fields "readBlocks" p; UefiCall5 fn p mediaId lba bufSize buffer.

Definition WriteBlocks (p mediaId lba bufSize buffer : Z) : SM Z :=
  fn ← pfield fields "writeBlocks" p; UefiCall5 fn p mediaId lba bufSize buffer.

Definition FlushBlocks (p : Z) : SM Z :=
  fn ← pfield fields "flushBlocks" p; UefiCall1 fn p.

End Methods.
End BlockIo.

(** EFI_DISK_IO_PROTOCOL of media_io_protocol.go. *)
Module DiskIo.
Definition fields : list string :=
  [ "Revision"; "readDisk"; "writeDisk" ]%string.

Section Methods.
Context `{Machine}.

Definition ReadDisk (p mediaId offset bufSize buffer : Z) : SM Z :=
  fn ← pfield fields "readDisk" p; UefiCall5 fn p mediaId offset bufSize buffer.

Definition WriteDisk (p mediaId offset bufSize buffer : Z) : SM Z :=
  fn ← pfield fields "writeDisk" p; UefiCall5 fn p mediaId offset bufSize buffer.

End Methods.
End DiskIo.

(** EFI_GRAPHICS_OUTPUT_PROTOCOL of graphics_output_protocol.go. *)
Module Gop.
Definition fields : list string :=
  [ "queryMode"; "setMode"; "blt"; "Mode" ]%string.

Section Methods.
Context `{Machine}.

Definition QueryMode (p ModeNumber SizeOfInfo Info : Z) : SM Z :=
  fn ← pfield fields "queryMode" p; UefiCall4 fn p ModeNumber SizeOfInfo Info.

Definition SetMode (p ModeNumber : Z) : SM Z :=
  fn ← pfield fields "setMode" p; UefiCall2 fn p ModeNumber.

Definition Blt (p BltBuffer BltOperation SourceX SourceY DestinationX DestinationY Width Height Delta : Z) : SM Z :=
  fn ← pfield fields "blt" p; UefiCall10 fn p BltBuffer BltOperation SourceX SourceY DestinationX DestinationY Width Height Delta.

End Methods.
End Gop.

(** EFI_SERIAL_IO_PROTOCOL of serial_io_protocol.go. *)
Module SerialIo.
Definition fields : list string :=
  [ "Revision"; "reset"; "setAttributes"; "setControl"; "getControl"; "write"; "read"; "Mode"; "deviceTypeGuid" ]%string.

Section Methods.
Context `{Machine}.

Definition Reset (p : Z) : SM Z :=
  fn ← pfield fields "reset" p; UefiCall1 fn p.

Definition SetAttributes (p baudRate receiveFifoDepth timeout parity dataBits stopBits : Z) : SM Z :=
  fn ← pfield fields "setAttributes" p; UefiCall7 fn p baudRate receiveFifoDepth timeout parity dataBits stopBits.

Definition SetControl (p control : Z) : SM Z :=
  fn ← pfield fields "setControl" p; UefiCall2 fn p control.

Definition GetControl (p control : Z) : SM Z :=
  fn ← pfield fields "getControl" p; UefiCall2 fn p control.

Definition Write (p bufSize buffer : Z) : SM Z :=
  fn ← pfield fields "write" p; UefiCall3 fn p bufSize buffer.

Definition Read (p bufSize buffer : Z) : SM Z :=
  fn ← pfield fields "read" p; UefiCall3 fn p bufSize buffer.

End Methods.
End SerialIo.

(** EFI_SIMPLE_TEXT_INPUT_PROTOCOL of simple_text_in.go. *)
Module TextInput.
Definition fields : list string :=
  [ "reset"; "readKeyStroke"; "WaitForKey" ]%string.

Section Methods.
Context `{Machine}.

Definition Reset (p : Z) (ExtendedVerification : bool) : SM Z :=
  fn ← pfield fields "reset" p; UefiCall2 fn p (convertBoolean ExtendedVerification).

Definition ReadKeyStroke (p Key : Z) : SM Z :=
  fn ← pfield fields "readKeyStroke" p; UefiCall2 fn p Key.

End Methods.
End TextInput.

(** EFI_SIMPLE_TEXT_INPUT_EX_PROTOCOL of simple_text_in.go. *)
Module TextInputEx.
Definition fields : list string :=
  [ "resetEx"; "readKeyStrokeEx"; "WaitForKeyEx"; "setState"; "registerKeystrokeNotify"; "unregisterKeystrokeNotify" ]%string.

Section Methods.
Context `{Machine}.

Definition Reset (p : Z) (ExtendedVerification : bool) : SM Z :=
  fn ← pfield fields "resetEx" p; UefiCall2 fn p (convertBoolean ExtendedVerification).

Definition ReadKeyStroke (p Key : Z) : SM Z :=
  fn ← pfield fields "readKeyStrokeEx" p; UefiCall2 fn p Key.

End Methods.
End TextInputEx.

(** EFI_SIMPLE_TEXT_OUTPUT_PROTOCOL of simple_text_out.go. *)
Module TextOutput.
Definition fields : list string :=
  [ "reset"; "outputString"; "testString"; "queryMode"; "setMode"; "setAttribute"; "clearScreen"; "setCursorPosition"; "enableCursor"; "Mode" ]%string.

Section Methods.
Context `{Machine}.

Definition Reset (p : Z) (ExtendedVerification : bool) : SM Z :=
  fn ← pfield fields "reset" p; UefiCall2 fn p (convertBoolean ExtendedVerification).

Definition OutputString (p String : Z) : SM Z :=
  fn ← pfield fields "outputString" p; UefiCall2 fn p String.

Definition TestString (p String : Z) : SM Z :=
  fn ← pfield fields "testString" p; UefiCall2 fn p String.

Definition QueryMode (p ModeNumber Columns Rows : Z) : SM Z :=
  fn ← pfield fields "queryMode" p; UefiCall4 fn p ModeNumber Columns Rows.

Definition SetMode (p ModeNumber : Z) : SM Z :=
  fn ← pfield fields "setMode" p; UefiCall2 fn p ModeNumber.

Definition SetAttribute (p Attribute : Z) : SM Z :=
  fn ← pfield fields "setAttribute" p; UefiCall2 fn p Attribute.

Definition ClearScreen (p : Z) : SM Z :=
  fn ← pfield fields "clearScreen" p; UefiCall1 fn p.

Definition SetCursorPosition (p Column Row : Z) : SM Z :=
  fn ← pfield fields "setCursorPosition" p; UefiCall3 fn p Column Row.

Definition EnableCursor (p : Z) (Visible : bool) : SM Z :=
  fn ← pfield fields "enableCursor" p; UefiCall2 fn p (convertBoolean Visible).

End Methods.
End TextOutput.

(** EFI_SIMPLE_NETWORK_PROTOCOL of simple_network_protocol.go. *)
Module SimpleNetwork.
Definition fields : list string :=
  [ "Revision"; "start"; "stop"; "initialize"; "reset"; "shutdown"; "receiveFilters"; "stationAddress"; "statistics"; "mCastIpToMac"; "nvData"; "getStatus"; "transmit"; "receive"; "WaitForPacket"; "Mode" ]%string.

Section Methods.
Context `{Machine}.

Definition Start (p : Z) : SM Z :=
  fn ← pfield fields "start" p; UefiCall1 fn p.

Definition Stop (p : Z) : SM Z :=
  fn ← pfield fields "stop" p; UefiCall1 fn p.

Definition Initialize (p : Z) : SM Z :=
  fn ← pfield fields "initialize" p; UefiCall1 fn p.

Definition Shutdown (p : Z) : SM Z :=
  fn ← pfield fields "shutdown" p; UefiCall1 fn p.

End Methods.
End SimpleNetwork.

(** EFI_DHCP4_SERVICE_BINDING_PROTOCOL of dhcpv4.go. *)
Module Dhcp4ServiceBinding.
Definition fields : list string :=
  [ "createChild"; "destroyChild" ]%string.

Section Methods.
Context `{Machine}.

Definition CreateChild (p childHandle : Z) : SM Z :=
  fn ← pfield fields "createChild" p; UefiCall2 fn p childHandle.

Definition DestroyChild (p childHandle : Z) : SM Z :=
  fn ← pfield fields "destroyChild" p; UefiCall2 fn p childHandle.

End Methods.
End Dhcp4ServiceBinding.

(** EFI_DHCP4_PROTOCOL of dhcpv4.go. *)
Module Dhcp4.
Definition fields : list string :=
  [ "getModeData"; "configure"; "start"; "renewRebind"; "release"; "stop"; "build"; "transmitReceive"; "parse" ]%string.

Section Methods.
Context `{Machine}.

Definition GetModeData (p modeData : Z) : SM Z :=
  fn ← pfield fields "getModeData" p; UefiCall2 fn p modeData.

Definition Configure (p cfg : Z) : SM Z :=
  fn ← pfield fields "configure" p; UefiCall2 fn p cfg.

Definition Start (p asyncEvent : Z) : SM Z :=
  fn ← pfield fields "start" p; UefiCall2 fn p asyncEvent.

Definition RenewRebind (p asyncEvent : Z) : SM Z :=
  fn ← pfield fields "renewRebind" p; UefiCall2 fn p asyncEvent.

Definition Release (p asyncEvent : Z) : SM Z :=
  fn ← pfield fields "release" p; UefiCall2 fn p asyncEvent.

Definition Stop (p : Z) : SM Z :=
  fn ← pfield fields "stop" p; UefiCall1 fn p.

Definition Build (p packetBuffer : Z) : SM Z :=
  fn ← pfield fields "build" p; UefiCall2 fn p packetBuffer.

Definition TransmitReceive (p token : Z) : SM Z :=
  fn ← pfield fields "transmitReceive" p; UefiCall2 fn p token.

Definition Parse (p packetBuffer parseResult : Z) : SM Z :=
  fn ← pfield fields "parse" p; UefiCall3 fn p packetBuffer parseResult.

End Methods.
End Dhcp4.

(** ** Where the methods go *)

(** A method whose service receives the protocol and then the parameters. *)
Definition proto `{Machine} (offset : Z) (n : nat) (f : Z -> words n) : method :=
  Method offset true [] n f [].

Definition direct `{Machine} : list method :=
  [ proto (poffset SimpleFileSystem.fields "openVolume") 1 SimpleFileSystem.OpenVolume;
    Method (poffset FileProtocol.fields "open") true [] 4 FileProtocol.Open [0];
    proto (poffset FileProtocol.fields "close") 0 FileProtocol.Close;
    proto (poffset FileProtocol.fields "delete") 0 FileProtocol.Delete;
    proto (poffset FileProtocol.fields "getPosition") 1 FileProtocol.GetPosition;
    proto (poffset FileProtocol.fields "setPosition") 1 FileProtocol.SetPosition;
    proto (poffset FileProtocol.fields "getInfo") 3 FileProtocol.GetInfo;
    proto (poffset FileProtocol.fields "setInfo") 3 FileProtocol.SetInfo;
    proto (poffset FileProtocol.fields "flush") 0 FileProtocol.Flush;
    Method (poffset BlockIo.fields "reset") true [] 0 (fun p => BlockIo.Reset p true) [1];
    Method (poffset BlockIo.fields "reset") true [] 0 (fun p => BlockIo.Reset p false) [0];
    proto (poffset BlockIo.fields "flushBlocks") 0 BlockIo.FlushBlocks;
    proto (poffset Gop.fields "queryMode") 3 Gop.QueryMode;
    proto (poffset Gop.fields "setMode") 1 Gop.SetMode;
    proto (poffset Gop.fields "blt") 9 Gop.Blt;
    proto (poffset SerialIo.fields "reset") 0 SerialIo.Reset;
    proto (poffset SerialIo.fields "setAttributes") 6 SerialIo.SetAttributes;
    proto (poffset SerialIo.fields "setControl") 1 SerialIo.SetControl;
    proto (poffset SerialIo.fields "getControl") 1 SerialIo.GetControl;
    Method (poffset TextInput.fields "reset") true [] 0 (fun p => TextInput.Reset p true) [1];
    Method (poffset TextInput.fields "reset") true [] 0 (fun p => TextInput.Reset p false) [0];
    proto (poffset TextInput.fields "readKeyStroke") 1 TextInput.ReadKeyStroke;
    Method (poffset TextInputEx.fields "resetEx") true [] 0 (fun p => TextInputEx.Reset p true) [1];
    Method (poffset TextInputEx.fields "resetEx") true [] 0 (fun p => TextInputEx.Reset p false) [0];
    proto (poffset TextInputEx.fields "readKeyStrokeEx") 1 TextInputEx.ReadKeyStroke;
    Method (poffset TextOutput.fields "reset") true [] 0 (fun p => TextOutput.Reset p true) [1];
    Method (poffset TextOutput.fields "reset") true [] 0 (fun p => TextOutput.Reset p false) [0];
    proto (poffset TextOutput.fields "outputString") 1 TextOutput.OutputString;
    proto (poffset TextOutput.fields "testString") 1 TextOutput.TestString;
    proto (poffset TextOutput.fields "queryMode") 3 TextOutput.QueryMode;
    proto (poffset TextOutput.fields "setMode") 1 TextOutput.SetMode;
    proto (poffset TextOutput.fields "setAttribute") 1 TextOutput.SetAttribute;
    proto (poffset TextOutput.fields "clearScreen") 0 TextOutput.ClearScreen;
    Method (poffset TextOutput.fields "enableCursor") true [] 0 (fun p => TextOutput.EnableCursor p true) [1];
    Method (poffset TextOutput.fields "enableCursor") true [] 0 (fun p => TextOutput.EnableCursor p false) [0];
    proto (poffset SimpleNetwork.fields "start") 0 SimpleNetwork.Start;
    proto (poffset SimpleNetwork.fields "stop") 0 SimpleNetwork.Stop;
    proto (poffset SimpleNetwork.fields "initialize") 0 SimpleNetwork.Initialize;
    proto (poffset SimpleNetwork.fields "shutdown") 0 SimpleNetwork.Shutdown;
    proto (poffset Dhcp4ServiceBinding.fields "createChild") 1 Dhcp4ServiceBinding.CreateChild;
    proto (poffset Dhcp4ServiceBinding.fields "destroyChild") 1 Dhcp4ServiceBinding.DestroyChild;
    proto (poffset Dhcp4.fields "getModeData") 1 Dhcp4.GetModeData;
    proto (poffset Dhcp4.fields "configure") 1 Dhcp4.Configure;
    proto (poffset Dhcp4.fields "start") 1 Dhcp4.Start;
    proto (poffset Dhcp4.fields "renewRebind") 1 Dhcp4.RenewRebind;
    proto (poffset Dhcp4.fields "release") 1 Dhcp4.Release;
    proto (poffset Dhcp4.fields "stop") 0 Dhcp4.Stop;
    proto (poffset Dhcp4.fields "build") 1 Dhcp4.Build;
    proto (poffset Dhcp4.fields "transmitReceive") 1 Dhcp4.TransmitReceive ].

Definition double `{Machine} : list method :=
  [ proto (poffset FileProtocol.fields "read") 2 FileProtocol.Read;
    proto (poffset FileProtocol.fields "write") 2 FileProtocol.Write;
    proto (poffset BlockIo.fields "readBlocks") 4 BlockIo.ReadBlocks;
    proto (poffset BlockIo.fields "writeBlocks") 4 BlockIo.WriteBlocks;
    proto (poffset DiskIo.fields "readDisk") 4 DiskIo.ReadDisk;
    proto (poffset DiskIo.fields "writeDisk") 4 DiskIo.WriteDisk;
    proto (poffset SerialIo.fields "write") 2 SerialIo.Write;
    proto (poffset SerialIo.fields "read") 2 SerialIo.Read;
    proto (poffset TextOutput.fields "setCursorPosition") 2 TextOutput.SetCursorPosition;
    proto (poffset Dhcp4.fields "parse") 2 Dhcp4.Parse ].

(** Which methods of the protocol bindings reach their service: those that go
    through the assembly stubs call the entry point in their field, with the
    protocol and the parameters in order; those with three or five words - file,
    block, disk and serial reads and writes among them - jump to whatever the
    first eight bytes of the service's code say. *)
Theorem protocol_targets `{Machine} :
  Forall (calls_target once) direct /\ Forall (calls_target twice) double.
Proof.
  unfold direct, double, poffset.
  split; repeat (apply Forall_cons_2; [method_target|]); apply Forall_nil_2.
Qed.
