(* ===== verification/Gop.v ===== *)
(** * Gop: choosing a graphics mode

    [Init] of graphics_output_protocol.go queries every mode of the device and
    sets the one with the most pixels, counted in 32 bits; on a device with such
    modes that is the one of the highest resolution unless a count overflows. *)

From S2P Require Import Prelude Binary Machine Status SpecTables Protocols.

(** EFI_GRAPHICS_OUTPUT_MODE_INFORMATION: nine words of 32 bits; the second and
    third are the resolution. *)
Definition info_len : nat := 36.
Definition HorizontalResolution (info : list Z) : Z := le_dec (sub 4 4 info).
Definition VerticalResolution (info : list Z) : Z := le_dec (sub 8 4 info).

(** [pixelCnt] *)
Definition pixelCnt (info : list Z) : Z :=
  u32 (HorizontalResolution info * VerticalResolution info).

(** How many pixels a mode has. *)
Definition resolution (info : list Z) : Z := HorizontalResolution info * VerticalResolution info.

Lemma resolution_nonneg info : Forall is_byte info -> 0 <= resolution info.
Proof.
  intros Hb. unfold resolution, HorizontalResolution, VerticalResolution.
  pose proof (le_dec_range (sub 4 4 info)). pose proof (le_dec_range (sub 8 4 info)).
  unfold sub in *. apply Z.mul_nonneg_nonneg; [apply H|apply H0]; by apply Forall_take, Forall_drop.
Qed.

Section Init.
Context `{Machine}.

(** [p.Mode.MaxMode] *)
Definition MaxMode (p : Z) : SM Z :=
  mode ← pfield Gop.fields "Mode" p; on_world (get32 mode).

(** The loop. [pinfo] is where the variable [info] lies, whose address QueryMode
    gets; [high] is where [highestModeInfo] lies. *)
Fixpoint Init_loop (fuel : nat) (p pinfo high i highestMode pixelMax : Z) : SM Z :=
  match fuel with
  | O => fun s => (NoFuel, s)
  | S fuel =>
      max ← MaxMode p;
      if i <? max then
        size ← on_world (alloc64 0);
        status ← Gop.QueryMode p i size pinfo;
        if negb (status =? 0) then Init_loop fuel p pinfo high (u32 (i + 1)) highestMode pixelMax
        else
          info ← on_world (get64 pinfo);
          bytes ← on_world (get_bytes info info_len);
          if pixelMax <? pixelCnt bytes then
            _ ← on_world (put_bytes high bytes);
            Init_loop fuel p pinfo high (u32 (i + 1)) i (pixelCnt bytes)
          else Init_loop fuel p pinfo high (u32 (i + 1)) highestMode pixelMax
      else mret highestMode
  end.

(** The result is the address of [highestModeInfo]; the status of SetMode is
    dropped. *)
Definition Init (fuel : nat) (p : Z) : SM Z :=
  high ← on_world (alloc (replicate info_len 0));
  info ← on_world (alloc (replicate info_len 0));
  pinfo ← on_world (alloc64 info);
  highestMode ← Init_loop fuel p pinfo high 0 0 0;
  _ ← Gop.SetMode p highestMode;
  mret high.
End Init.

(** ** A graphics device

    A device has a list of modes, some of which it refuses to describe; it
    describes a mode in a buffer that it chooses, in one of the rooms it has for
    them.  SetMode may fail, and may change any memory of the device, the Mode
    structure and the frame buffer among it. *)
Class GopService `{Machine} := {
  gop_modes : fwstate -> list (option (list Z));
  gop_room : Z -> Prop;
  gop_own : Z -> Prop;
  gop_error : Z;
  query_entry : Z;
  set_entry : Z;
  gop_error_nonzero : gop_error <> 0;
  gop_modes_ok : forall s, zlen (gop_modes s) < 2 ^ 32 /\
    forall k info, gop_modes s !! k = Some (Some info) ->
      length info = info_len /\ Forall is_byte info;
  query_contract : forall p k size pinfo m s,
    match gop_modes s !! k with
    | Some (Some info) =>
        exists buf s', gop_room buf /\ is_word 64 buf /\ gop_modes s' = gop_modes s /\
          firmware query_entry [p; Z.of_nat k; size; pinfo] m s =
          (0, store64 (store64 (store_bytes m buf info) size (Z.of_nat info_len)) pinfo buf, s')
    | _ => exists s', gop_modes s' = gop_modes s /\
        firmware query_entry [p; Z.of_nat k; size; pinfo] m s = (gop_error, m, s')
    end;
  set_contract : forall p k m s,
    exists st m' s', firmware set_entry [p; k] m s = (st, m', s') /\
      forall a n, (forall b, a <= b < a + Z.of_nat n -> ~ gop_own b) ->
        load_bytes m' a n = load_bytes m a n;
}.

Section InitCorrect.
Context `{GopService}.

(** The device's structs at [p], and its buffers, below [lo], apart from each
    other; what SetMode may change is not where [highestModeInfo] comes to lie. *)
Definition gop_at (p lo : Z) (w : World) : Prop :=
  let mode := load64 (w_mem w) (p + 24) in
  load64 (w_mem w) p = query_entry /\ load64 (w_mem w) (p + 8) = set_entry /\
  load32 (w_mem w) mode = zlen (gop_modes (w_fw w)) /\
  0 <= p /\ p + 32 <= lo /\ mode + 4 <= lo /\ lo <= 2 ^ 64 /\
  (forall buf, gop_room buf ->
    buf + 36 <= lo /\ disjoint_ranges buf 36 p 32 /\ disjoint_ranges buf 36 mode 4) /\
  forall a, lo <= a < lo + 36 -> ~ gop_own a.

(** The pixels of mode [k]; none for one the device refuses to describe. *)
Definition pixels (l : list (option (list Z))) (k : nat) : Z :=
  match l !! k with Some (Some info) => pixelCnt info | _ => 0 end.

(** [v] is the largest number of pixels of the modes before [n], and [k] the
    first mode that has them; when no mode has pixels, [k] is 0. *)
Definition best (l : list (option (list Z))) (n k : nat) (v : Z) : Prop :=
  (forall j, (j < n)%nat -> pixels l j <= v) /\
  ((v = 0 /\ k = 0%nat) \/
   ((k < n)%nat /\ 0 < v /\ pixels l k = v /\ forall j, (j < k)%nat -> pixels l j < v)).

Lemma pixelCnt_nonneg info : 0 <= pixelCnt info.
Proof. apply (wrap_range 32). lia. Qed.

Lemma pixels_nonneg l k : 0 <= pixels l k.
Proof. unfold pixels. repeat case_match; try lia. apply pixelCnt_nonneg. Qed.

Lemma best_value l n k v : best l n k v -> 0 <= v.
Proof. intros [_ [[-> _]|(_ & ? & _)]]; lia. Qed.

(** One more mode. *)
Lemma best_keep l n k v : best l n k v -> pixels l n <= v -> best l (S n) k v.
Proof.
  intros [Hmax Hk] Hn. split.
  - intros j Hj. destruct (decide (j = n)) as [->|]; [done|]. apply Hmax. lia.
  - destruct Hk as [Hk|(? & Hk)]; [by left|right]. split; [lia|done].
Qed.

Lemma best_take l n k v : best l n k v -> v < pixels l n -> best l (S n) n (pixels l n).
Proof.
  intros Hb Hn. pose proof (best_value _ _ _ _ Hb). destruct Hb as [Hmax _]. split.
  - intros j Hj. destruct (decide (j = n)) as [->|]; [done|]. pose proof (Hmax j). lia.
  - right. split_and!; [lia|lia|done|]. intros j Hj. pose proof (Hmax j Hj). lia.
Qed.

(** What [highestModeInfo] holds. *)
Definition best_info (l : list (option (list Z))) (k : nat) (v : Z) : list Z :=
  match l !! k with Some (Some info) => if v =? 0 then replicate info_len 0 else info
                  | _ => replicate info_len 0 end.

(** The invariant of the loop: the device is in place and [high] and [pinfo] are
    objects of the Go heap. *)
Definition looping (p lo high pinfo : Z) (l : list (option (list Z))) (w : World) : Prop :=
  gop_at p lo w /\ gop_modes (w_fw w) = l /\
  lo = high /\ high + 40 <= pinfo /\ pinfo + 8 <= w_brk w.

Lemma MaxMode_step p lo w : gop_at p lo w ->
  MaxMode p (false, w) = (Ret (zlen (gop_modes (w_fw w))), (false, w)).
Proof.
  intros (_ & _ & Hmax & Hp & Hlo & _ & H64 & _ & _). unfold MaxMode, pfield.
  replace (u64 (p + poffset Gop.fields "Mode")) with (p + 24)
    by (symmetry; apply wrap_small; unfold is_word; cbn; lia).
  erewrite sm_step by reflexivity. unfold on_world, get32. by rewrite Hmax.
Qed.

(** Memory that a query does not touch. *)
Lemma query_kept p lo high pinfo l w k info buf a n :
  looping p lo high pinfo l w -> l !! k = Some (Some info) ->
  disjoint_ranges buf 36 a n -> disjoint_ranges pinfo 8 a n ->
  a + Z.of_nat n <= w_brk w ->
  load_bytes (store64 (store64 (store_bytes (store_bytes (w_mem w) (w_brk w) (le_enc 8 0))
    buf info) (w_brk w) (Z.of_nat info_len)) pinfo buf) a n =
  load_bytes (w_mem w) a n.
Proof.
  intros (_ & <- & _) Hk Hbuf Hp Ha.
  destruct (gop_modes_ok (w_fw w)) as [_ Hok]. destruct (Hok k info Hk) as [Hlen _].
  unfold store64. rewrite !load_store_other; rewrite ?length_le_enc, ?Hlen;
    unfold disjoint_ranges in *; (done || lia).
Qed.

Lemma looping_kept p lo high pinfo l w w' :
  looping p lo high pinfo l w -> gop_modes (w_fw w') = gop_modes (w_fw w) -> w_brk w <= w_brk w' ->
  (forall a n, a + Z.of_nat n <= lo ->
     (forall buf, gop_room buf -> disjoint_ranges buf 36 a n) ->
     load_bytes (w_mem w') a n = load_bytes (w_mem w) a n) ->
  looping p lo high pinfo l w'.
Proof.
  intros ((Hq & Hs & Hmax & Hp & Hlo & Hmlo & H64 & Hbufs & Hown) & <- & Hhigh & Hpi & Hbrk) Hfw Hb Hkept.
  assert (forall a, p <= a -> a + 8 <= p + 32 -> load64 (w_mem w') a = load64 (w_mem w) a) as Hword.
  { intros a Ha1 Ha2. unfold load64. rewrite Hkept; [done|lia|].
    intros buf Hk. destruct (Hbufs buf Hk) as (_ & Hd & _). unfold disjoint_ranges in *. lia. }
  split_and!; try (by rewrite Hfw || lia).
  unfold gop_at. rewrite Hfw, !Hword by lia. split_and!; try done.
  unfold load32 in *. rewrite Hkept; [done|lia|]. intros buf Hk. apply (Hbufs buf Hk).
Qed.

(** The call of QueryMode for mode [k]. *)
Lemma QueryMode_step p lo high pinfo l w k : looping p lo high pinfo l w ->
  exists w', (size ← on_world (alloc64 0); Gop.QueryMode p (Z.of_nat k) size pinfo) (false, w) =
    (Ret (match l !! k with Some (Some _) => 0 | _ => gop_error end), (false, w')) /\
  looping p lo high pinfo l w' /\
  (forall n, Z.of_nat n <= pinfo - high -> load_bytes (w_mem w') high n = load_bytes (w_mem w) high n) /\
  match l !! k with
  | Some (Some info) => load_bytes (w_mem w') (load64 (w_mem w') pinfo) info_len = info
  | _ => True
  end.
Proof.
  intros HJ.
  pose proof HJ as ((Hq & Hs & Hmax & Hp & Hlo & Hmlo & H64 & Hbufs & _) & Hl & Hhigh & Hpi & Hbrk).
  erewrite sm_step by reflexivity.
  unfold Gop.QueryMode, pfield, UefiCall4, stub, call_entry, on_world, get64, alloc64, alloc.
  erewrite sm_step by reflexivity. cbn [w_mem w_fw alloc_world].
  replace (poffset Gop.fields "queryMode") with 0 by reflexivity.
  rewrite Z.add_0_r, (wrap_small 64 p) by (unfold is_word; lia).
  rewrite load64_store_other by (rewrite length_le_enc; unfold disjoint_ranges; lia).
  pose proof (query_contract p k (w_brk w) pinfo (store_bytes (w_mem w) (w_brk w) (le_enc 8 0)) (w_fw w)) as Hc.
  rewrite Hq. rewrite Hl in Hc.
  destruct (l !! k) as [[info|]|] eqn:Ek;
    [destruct Hc as (buf & s' & Hroom & Hword & Hm & E)|destruct Hc as (s' & Hm & E)..]; rewrite E.
  2, 3: eexists; split; [reflexivity|]; (split_and!; [|intros n Hn; apply alloc_world_other; lia|done]);
    apply looping_kept with w;
    [done|by cbn [w_fw]; rewrite Hm|cbn; rewrite alloc_size_word; lia
    |intros a n Ha _; apply alloc_world_other; lia].
  destruct (Hbufs buf Hroom) as (Hbl & _ & _). pose proof (gop_modes_ok (w_fw w)) as [_ Hok].
  rewrite Hl in Hok. destruct (Hok k info Ek) as [Hlen _].
  eexists. split; [reflexivity|]. cbn [w_mem].
  split_and!.
  - apply looping_kept with w; [done|by cbn [w_fw]; rewrite Hm|cbn; rewrite alloc_size_word; lia|].
    intros a n Ha Hd. cbn [w_mem]. specialize (Hd buf Hroom).
    eapply query_kept; eauto; unfold disjoint_ranges in *; lia.
  - intros n Hn. eapply query_kept; eauto; unfold disjoint_ranges; lia.
  - rewrite load64_store64 by done. unfold store64. rewrite !load_store_other
      by (rewrite ?length_le_enc; unfold disjoint_ranges, info_len; lia).
    rewrite <-Hlen. apply load_store_same.
Qed.

Lemma Init_loop_best fuel p lo high pinfo l w i k v :
  looping p lo high pinfo l w -> best l i k v -> (i <= length l)%nat ->
  (length l < i + fuel)%nat -> load_bytes (w_mem w) high info_len = best_info l k v ->
  exists k' v' w', Init_loop fuel p pinfo high (Z.of_nat i) (Z.of_nat k) v (false, w) =
      (Ret (Z.of_nat k'), (false, w')) /\ looping p lo high pinfo l w' /\
    best l (length l) k' v' /\ load_bytes (w_mem w') high info_len = best_info l k' v'.
Proof.
  revert i k v w. induction fuel as [|fuel IH]; intros i k v w HJ Hb Hi Hf Hbytes; [lia|].
  pose proof HJ as (Hgop & Hl & _). cbn [Init_loop].
  erewrite sm_step by (by eapply MaxMode_step). rewrite Hl.
  destruct (gop_modes_ok (w_fw w)) as [H32 _]. rewrite Hl in H32.
  destruct (Z.ltb_spec (Z.of_nat i) (zlen l)) as [Hlt|Hge].
  2: { exists k, v, w. split; [reflexivity|]. split; [done|].
       replace (length l) with i by (unfold zlen in *; lia). done. }
  replace (u32 (Z.of_nat i + 1)) with (Z.of_nat (S i))
    by (rewrite wrap_small; [lia|unfold is_word; lia]).
  destruct (QueryMode_step p lo high pinfo l w i HJ) as (w1 & E & HJ1 & Hh & Hm).
  unfold zlen in Hlt.
  assert (forall (f : Z -> SM Z), (size ← on_world (alloc64 0);
    status ← Gop.QueryMode p (Z.of_nat i) size pinfo; f status) (false, w) =
    f (match l !! i with Some (Some _) => 0 | _ => gop_error end) (false, w1)) as Ef.
  { intros f. revert E. unfold mbind, SM_bind. destruct (on_world _ _) as [[] ?]; try done.
    by intros ->. }
  rewrite Ef. clear E Ef.
  assert (pixels l i = match l !! i with Some (Some info) => pixelCnt info | _ => 0 end) as Epx
    by reflexivity.
  pose proof (best_value _ _ _ _ Hb) as Hv.
  assert (load_bytes (w_mem w1) high info_len = best_info l k v) as Hbytes1.
  { rewrite Hh; [done|]. destruct HJ as (_ & _ & _ & ? & _). unfold info_len. lia. }
  pose proof (gop_modes_ok (w_fw w)) as [_ Hok]. rewrite Hl in Hok.
  destruct (l !! i) as [[info|]|] eqn:Ei.
  - rewrite Z.eqb_refl. cbn [negb].
    do 2 (erewrite sm_step by reflexivity). rewrite Hm.
    destruct (Z.ltb_spec v (pixelCnt info)) as [Hgt|Hle].
    + erewrite sm_step by reflexivity. apply IH; [|rewrite <-Epx; by apply best_take with k v; [|lia]|lia|lia|].
      * apply looping_kept with w1; [done|done|cbn; lia|].
        intros a n Ha _. apply load_store_other.
        rewrite (proj1 (Hok i info Ei)). destruct HJ1 as (_ & _ & ? & _).
        unfold disjoint_ranges, info_len. lia.
      * cbn [w_mem set_mem]. unfold best_info. rewrite Ei.
        destruct (Z.eqb_spec (pixelCnt info) 0); [lia|].
        rewrite <-(proj1 (Hok i info Ei)). apply load_store_same.
    + apply IH; [done|apply best_keep; [done|lia]|lia|lia|done].
  - destruct (Z.eqb_spec gop_error 0) as [E0|_]; [by apply gop_error_nonzero in E0|]. cbn [negb].
    apply IH; [done|apply best_keep; [done|lia]|lia|lia|done].
  - apply lookup_ge_None in Ei. lia.
Qed.

Lemma SetMode_step p lo high pinfo l w k : looping p lo high pinfo l w ->
  exists st w', Gop.SetMode p k (false, w) = (Ret st, (false, w')) /\
    firmware set_entry [p; k] (w_mem w) (w_fw w) = (st, w_mem w', w_fw w') /\
    load_bytes (w_mem w') high info_len = load_bytes (w_mem w) high info_len.
Proof.
  intros ((_ & Hs & _ & Hp & Hlo & _ & H64 & _ & Hown) & _ & <- & _).
  unfold Gop.SetMode, pfield, UefiCall2, stub, call_entry, on_world, get64.
  erewrite sm_step by reflexivity.
  replace (poffset Gop.fields "setMode") with 8 by reflexivity.
  rewrite (wrap_small 64 (p + 8)) by (unfold is_word; lia). rewrite Hs.
  destruct (set_contract p k (w_mem w) (w_fw w)) as (st & m' & s' & -> & Hkept). do 2 eexists.
  split; [reflexivity|]. split; [done|]. apply Hkept, Hown.
Qed.

Lemma Init_best fuel p w :
  gop_at p (w_brk w) w -> (length (gop_modes (w_fw w)) < fuel)%nat ->
  let l := gop_modes (w_fw w) in
  exists k v w', best l (length l) k v /\
    Init fuel p (false, w) = (Ret (w_brk w), (false, w')) /\
    load_bytes (w_mem w') (w_brk w) info_len = best_info l k v /\
    exists m s st, gop_modes s = l /\
      firmware set_entry [p; Z.of_nat k] m s = (st, w_mem w', w_fw w').
Proof.
  intros Hgop Hfuel l. unfold Init.
  do 3 (erewrite sm_step by reflexivity).
  set (w1 := alloc_world (replicate info_len 0) w).
  set (w2 := alloc_world (replicate info_len 0) w1).
  set (w3 := alloc_world (le_enc 8 (w_brk w1)) w2).
  assert (w_brk w1 = w_brk w + 40) as B1 by reflexivity.
  assert (w_brk w2 = w_brk w + 80) as B2 by (unfold w2; rewrite alloc_world_brk, B1;
    change (alloc_size (length (replicate info_len 0))) with 40; lia).
  assert (w_brk w3 = w_brk w + 88) as B3
    by (unfold w3; rewrite alloc_world_brk, B2, alloc_size_word; lia).
  assert (forall a n, a + Z.of_nat n <= w_brk w ->
    load_bytes (w_mem w3) a n = load_bytes (w_mem w) a n) as Hkept.
  { intros a n Ha. unfold w3, w2, w1 in *. by rewrite !alloc_world_other by lia. }
  assert (looping p (w_brk w) (w_brk w) (w_brk w2) l w3) as HJ.
  { apply looping_kept with (mkWorld _ (w_mem w) (w_brk w3) (w_mux w) (w_log w) (w_fw w));
      [|done|cbn [w_brk]; lia|intros a n Ha _; by apply Hkept].
    split; [exact Hgop|]. split_and!; [done|done|lia|cbn [w_brk]; lia]. }
  destruct (Init_loop_best fuel p (w_brk w) (w_brk w) (w_brk w2) l w3 0 0 0 HJ)
    as (k & v & w4 & E & HJ4 & Hb & Hbytes); [|lia|exact Hfuel| |].
  - split; [lia|by left].
  - unfold w3. rewrite alloc_world_other by (unfold info_len; lia).
    unfold w2. rewrite alloc_world_other by (unfold info_len; lia).
    transitivity (replicate info_len 0); [apply alloc_world_load|].
    unfold best_info. by repeat case_match.
  - erewrite sm_step by exact E.
    destruct (SetMode_step p _ _ _ _ w4 (Z.of_nat k) HJ4) as (st & w5 & Est & Hset & Hsame).
    erewrite sm_step by exact Est. exists k, v, w5. split; [done|]. split; [reflexivity|].
    split; [by rewrite Hsame|]. exists (w_mem w4), (w_fw w4), st. split; [apply HJ4|done].
Qed.

(** The same in terms of the information of the modes. *)
Lemma best_max l k v : best l (length l) k v ->
  (forall j info', l !! j = Some (Some info') -> pixelCnt info' <= pixelCnt (best_info l k v)) /\
  ((k = 0%nat /\ best_info l k v = replicate info_len 0) \/
   (l !! k = Some (Some (best_info l k v)) /\
    forall j info', (j < k)%nat -> l !! j = Some (Some info') ->
      pixelCnt info' < pixelCnt (best_info l k v))).
Proof.
  assert (forall j info', l !! j = Some (Some info') -> pixels l j = pixelCnt info') as Hpx.
  { intros j info' Hj. unfold pixels. by rewrite Hj. }
  intros [Hmax [[-> ->]|(Hk & Hv & <- & Hfirst)]].
  - assert (best_info l 0 0 = replicate info_len 0) as -> by (unfold best_info; by repeat case_match).
    split; [|by left]. intros j info' Hj. rewrite <-(Hpx j info' Hj).
    apply Hmax. by apply lookup_lt_Some with (Some info').
  - assert (exists info, l !! k = Some (Some info) /\ best_info l k (pixels l k) = info) as (info & Ek & ->).
    { unfold best_info, pixels in *. destruct (l !! k) as [[info|]|]; [|lia..].
      exists info. split; [done|]. destruct (Z.eqb_spec (pixelCnt info) 0); [lia|done]. }
    rewrite (Hpx k info Ek) in *. split.
    + intros j info' Hj. rewrite <-(Hpx j info' Hj). apply Hmax. by apply lookup_lt_Some with (Some info').
    + right. split; [done|]. intros j info' Hj Ej. rewrite <-(Hpx j info' Ej). by apply Hfirst.
Qed.
End InitCorrect.

(** C34. [Init] ends and calls SetMode, as its last call, for a mode of the
    highest resolution among those the device describes, as long as none of these
    has 2^32 pixels or more, and returns that mode's information, which SetMode
    does not touch; modes that the device refuses are skipped.  In any case the
    mode is the first of those with the most pixels modulo 2^32, so that one with
    more pixels than the type counts can lose against a smaller one.  When no mode
    has pixels by that count, mode 0 is set and the information is blank.  One
    round more than there are modes is enough. *)
Theorem Gop_Init_correct `{GopService} fuel p w :
  gop_at p (w_brk w) w -> (length (gop_modes (w_fw w)) < fuel)%nat ->
  let l := gop_modes (w_fw w) in
  exists k w' info, Init fuel p (false, w) = (Ret (w_brk w), (false, w')) /\
    (exists m s st, gop_modes s = l /\
       firmware set_entry [p; Z.of_nat k] m s = (st, w_mem w', w_fw w')) /\
    load_bytes (w_mem w') (w_brk w) info_len = info /\
    ((forall j info', l !! j = Some (Some info') -> resolution info' < 2 ^ 32) ->
     forall j info', l !! j = Some (Some info') -> resolution info' <= resolution info) /\
    (forall j info', l !! j = Some (Some info') ->
       resolution info' mod 2 ^ 32 <= resolution info mod 2 ^ 32) /\
    ((k = 0%nat /\ info = replicate info_len 0) \/
     (l !! k = Some (Some info) /\
      forall j info', (j < k)%nat -> l !! j = Some (Some info') ->
        resolution info' mod 2 ^ 32 < resolution info mod 2 ^ 32)).
Proof.
  intros Hgop Hfuel l. destruct (Init_best fuel p w Hgop Hfuel) as (k & v & w' & Hb & E & Hbytes & Hfw).
  fold l in Hb, Hbytes, Hfw. exists k, w', (best_info l k v). do 3 (split; [done|]).
  destruct (best_max l k v Hb) as [Hmax Hk]. split; [|by split].
  intros Hsmall j info' Hj. pose proof (Hmax j info' Hj) as Hle.
  change (resolution info' mod 2 ^ 32 <= resolution (best_info l k v) mod 2 ^ 32) in Hle.
  assert (0 <= resolution (best_info l k v) /\ 0 <= resolution info') as [? ?].
  { pose proof (gop_modes_ok (w_fw w)) as [_ Hok]. fold l in Hok.
    split; apply resolution_nonneg; [|by apply (Hok j info' Hj)].
    destruct Hk as [[_ ->]|[Ek _]]; [|by apply (Hok _ _ Ek)].
    apply Forall_replicate. unfold is_byte. lia. }
  rewrite (Z.mod_small (resolution info')) in Hle by (specialize (Hsmall j info' Hj); lia).
  pose proof (Z.mod_le (resolution (best_info l k v)) (2 ^ 32)). lia.
Qed.

(** A device with a mode it does not describe, one of 65536 x 65536 pixels, whose
    count wraps around to 0, and one of 800 x 600; SetMode stores the number of the
    mode in the Mode structure at 0x1100. *)
Definition demo_info (h v : Z) : list Z :=
  le_enc 4 0 ++ le_enc 4 h ++ le_enc 4 v ++ replicate 24 0.

Definition demo_modes : list (option (list Z)) :=
  [None; Some (demo_info 65536 65536); Some (demo_info 800 600)].

Definition gop_machine : Machine := machine_with Z (fun fn args m s =>
  match args with
  | [_; k; size; pinfo] =>
      match demo_modes !! Z.to_nat k with
      | Some (Some info) =>
          (0, store64 (store64 (store_bytes m (0x2000 + 64 * k) info) size 36) pinfo (0x2000 + 64 * k), s)
      | _ => (Spec.code DEVICE_ERROR, m, s)
      end
  | [_; k] => (0, store_bytes m 0x1104 (le_enc 4 k), k)
  | _ => (Spec.code DEVICE_ERROR, m, s)
  end).

#[refine] Instance demo_gop : GopService (H := gop_machine) := {
  gop_modes _ := demo_modes;
  gop_room buf := 0x2000 <= buf < 0x2100;
  gop_own a := 0x1104 <= a < 0x1108;
  gop_error := Spec.code DEVICE_ERROR;
  query_entry := 0x9000;
  set_entry := 0x9001;
}.
Proof.
  - vm_compute. discriminate.
  - intros _. split; [reflexivity|]. intros k info.
    do 3 (destruct k as [|k]; [discriminate || (intros [= <-]; split; [reflexivity|];
      apply (bool_decide_unpack _); vm_compute; exact I)|]).
    discriminate.
  - intros p k size pinfo m s. cbn [firmware gop_machine machine_with]. rewrite Nat2Z.id.
    destruct (demo_modes !! k) as [[info|]|] eqn:E; [|by exists s..].
    exists (0x2000 + 64 * Z.of_nat k), s. apply lookup_lt_Some in E. cbn in E.
    split_and!; (done || unfold is_word; lia).
  - intros p k m s. do 3 eexists. split; [reflexivity|]. intros a n Ha.
    destruct (decide (n = 0%nat)) as [->|]; [done|].
    apply load_store_other. rewrite length_le_enc. unfold disjoint_ranges.
    destruct (decide (0x1104 + Z.of_nat 4 <= a)); [lia|].
    destruct (decide (a + Z.of_nat n <= 0x1104)); [lia|].
    exfalso. apply (Ha (Z.max a 0x1104)); lia.
Defined.

Definition gop_world : World (H := gop_machine) :=
  mkWorld gop_machine
    (store_bytes (store64 (store64 (store64 ∅ 0x1000 0x9000) 0x1008 0x9001) 0x1018 0x1100)
       0x1100 (le_enc 4 3)) 0x10000 false [] 1.

(** It sets 800 x 600. *)
Lemma Gop_Init_correct_witness :
  resolution (demo_info 65536 65536) = 2 ^ 32 /\
  exists k w' info, Init (H := gop_machine) 4 0x1000 (false, gop_world) = (Ret 0x10000, (false, w')) /\
    (exists m s st, gop_modes s = demo_modes /\
       firmware (Machine := gop_machine) 0x9001 [0x1000; Z.of_nat k] m s = (st, w_mem w', w_fw w')) /\
    load_bytes (w_mem w') 0x10000 info_len = info /\
    ((forall j info', demo_modes !! j = Some (Some info') -> resolution info' < 2 ^ 32) ->
     forall j info', demo_modes !! j = Some (Some info') -> resolution info' <= resolution info) /\
    (forall j info', demo_modes !! j = Some (Some info') ->
       resolution info' mod 2 ^ 32 <= resolution info mod 2 ^ 32) /\
    ((k = 0%nat /\ info = replicate info_len 0) \/
     (demo_modes !! k = Some (Some info) /\
      forall j info', (j < k)%nat -> demo_modes !! j = Some (Some info') ->
        resolution info' mod 2 ^ 32 < resolution info mod 2 ^ 32)).
Proof.
  split; [reflexivity|].
  apply (Gop_Init_correct (H := gop_machine) (H0 := demo_gop) 4 0x1000 gop_world); [|cbn; lia].
  split_and!; [vm_compute; reflexivity|vm_compute; reflexivity|vm_compute; reflexivity|vm_compute; discriminate|vm_compute; discriminate
              |vm_compute; discriminate|vm_compute; discriminate| |].
  - intros buf. cbn [gop_room demo_gop]. intros Hbuf.
    replace (load64 (w_mem gop_world) (0x1000 + 24)) with 0x1100 by (vm_compute; reflexivity).
    change (w_brk gop_world) with 0x10000. unfold disjoint_ranges. lia.
  - intros a. cbn [gop_own demo_gop]. change (w_brk gop_world) with 0x10000. lia.
Defined.
