(* ===== verification/Disk.v ===== *)
(** * Disk: byte access to a disk

    The [Disk] adapter of media_io_protocol.go over the disk and block I/O
    protocols: ReadAt, WriteAt, Flush and Size, and what they do on any firmware.
    A bool of a struct is the byte that holds it. *)

From S2P Require Import Prelude Binary Machine Status SpecTables Protocols.

(** Pointers to the protocols; 0 is nil. *)
Record Disk := mkDisk { DiskIO : Z; BlockIO : Z }.

Definition ErrDiskNotReady : goerror := ErrNew "disk not ready".
Definition ErrNoMediaPresent : goerror := ErrNew "no media present".
Definition ErrNegativeOffset : goerror := ErrNew "negative offset".
Definition ErrReadOnly : goerror := ErrNew "media is read-only".

Section Disk.
Context `{Machine}.

(** [d.BlockIO.Media] and the fields of EFI_BLOCK_IO_MEDIA, where a C compiler
    and Go both put them. *)
Definition Media (bio : Z) : SM Z := pfield BlockIo.fields "Media" bio.
Definition MediaId (media : Z) : SM Z := on_world (get32 (u64 (media + 0))).
Definition media_bool (media off : Z) : SM bool :=
  b ← on_world (get_bytes (u64 (media + off)) 1);
  mret (negb (nth 0 b 0 =? 0)).
Definition MediaPresent (media : Z) : SM bool := media_bool media 5.
Definition ReadOnly (media : Z) : SM bool := media_bool media 7.
Definition BlockSize (media : Z) : SM Z := on_world (get32 (u64 (media + 12))).
Definition LastBlock (media : Z) : SM Z := on_world (get64 (u64 (media + 24))).

(** The protocols and the media of a disk that has all three. *)
Definition ready (d : option Disk) : SM (option (Disk * Z)) :=
  match d with
  | None => mret None
  | Some d =>
      if (DiskIO d =? 0) || (BlockIO d =? 0) then mret None else
      media ← Media (BlockIO d);
      mret (if media =? 0 then None else Some (d, media))
  end.

Definition Size (d : option Disk) : SM Z :=
  match d with
  | None => mret 0
  | Some d =>
      if BlockIO d =? 0 then mret 0 else
      media ← Media (BlockIO d);
      if media =? 0 then mret 0 else
      blk ← BlockSize media;
      last ← LastBlock media;
      mret (i64 (i64 (u64 (last + 1)) * i64 blk))
  end.

Definition SectorSize (d : option Disk) : SM Z :=
  match d with
  | None => mret 0
  | Some d =>
      if BlockIO d =? 0 then mret 0 else
      media ← Media (BlockIO d);
      if media =? 0 then mret 0 else
      blk ← BlockSize media; mret (i64 blk)
  end.

(** [ReadAt] and [WriteAt] of [len] bytes at [p]. *)
Definition ReadAt (d : option Disk) (p len off : Z) : SM (Z * error) :=
  r ← ready d;
  match r with
  | None => mret (0, Some ErrDiskNotReady)
  | Some (d, media) =>
      present ← MediaPresent media;
      if negb (present : bool) then mret (0, Some ErrNoMediaPresent)
      else if off <? 0 then mret (0, Some ErrNegativeOffset)
      else if len =? 0 then mret (0, None) else
      id ← MediaId media;
      st ← DiskIo.ReadDisk (DiskIO d) id (u64 off) (u64 len) p;
      mret (if st =? 0 then (i64 (u64 len), None) else (0, Some (ErrEfi st)))
  end.

Definition WriteAt (d : option Disk) (p len off : Z) : SM (Z * error) :=
  r ← ready d;
  match r with
  | None => mret (0, Some ErrDiskNotReady)
  | Some (d, media) =>
      ro ← ReadOnly media;
      if (ro : bool) then mret (0, Some ErrReadOnly)
      else if off <? 0 then mret (0, Some ErrNegativeOffset)
      else if len =? 0 then mret (0, None) else
      id ← MediaId media;
      st ← DiskIo.WriteDisk (DiskIO d) id (u64 off) (u64 len) p;
      mret (if st =? 0 then (i64 (u64 len), None) else (0, Some (ErrEfi st)))
  end.

Definition Flush (d : option Disk) : SM error :=
  match d with
  | None => mret (Some ErrDiskNotReady)
  | Some d =>
      if BlockIO d =? 0 then mret (Some ErrDiskNotReady) else
      st ← BlockIo.FlushBlocks (BlockIO d);
      mret (if st =? 0 then None else Some (ErrEfi st))
  end.
End Disk.

(** ** A disk in memory *)

Section Present.
Context `{Machine}.

(** The media of a disk whose block protocol lies within the address space. *)
Definition media_of (d : Disk) (w : World) : Z := load64 (w_mem w) (BlockIO d + 8).

Definition disk_at (d : Disk) (w : World) : Prop :=
  0 < DiskIO d /\ DiskIO d + 24 <= 2 ^ 64 /\ 0 < BlockIO d /\ BlockIO d + 48 <= 2 ^ 64 /\
  0 < media_of d w /\ media_of d w + 32 <= 2 ^ 64.

Lemma Media_step d w : disk_at d w ->
  Media (BlockIO d) (false, w) = (Ret (media_of d w), (false, w)).
Proof.
  intros (_ & _ & Hb & Hb2 & _). unfold Media, pfield, on_world, get64.
  replace (poffset BlockIo.fields "Media") with 8 by reflexivity.
  by rewrite wrap_small by (unfold is_word; lia).
Qed.

Lemma ready_step d w : disk_at d w ->
  ready (Some d) (false, w) = (Ret (Some (d, media_of d w)), (false, w)).
Proof.
  intros Hd. pose proof Hd as (H1 & _ & H2 & _ & H3 & _). unfold ready.
  rewrite (proj2 (Z.eqb_neq (DiskIO d) 0)), (proj2 (Z.eqb_neq (BlockIO d) 0)) by lia. cbn [orb].
  erewrite sm_step by (by apply Media_step).
  by rewrite (proj2 (Z.eqb_neq (media_of d w) 0)) by lia.
Qed.

Lemma media_bool_step d w off : disk_at d w -> 0 <= off < 32 ->
  media_bool (media_of d w) off (false, w) =
  (Ret (negb (load8 (w_mem w) (media_of d w + off) =? 0)), (false, w)).
Proof.
  intros (_ & _ & _ & _ & H3 & H4) Ho. unfold media_bool. erewrite sm_step by reflexivity.
  rewrite wrap_small by (unfold is_word; lia). reflexivity.
Qed.
End Present.

(** ** What the operations do *)

Section Transfers.
Context `{Machine}.

Lemma MediaId_step d w : disk_at d w ->
  MediaId (media_of d w) (false, w) = (Ret (load32 (w_mem w) (media_of d w)), (false, w)).
Proof.
  intros (_ & _ & _ & _ & H3 & H4). unfold MediaId, on_world, get32.
  by rewrite Z.add_0_r, wrap_small by (unfold is_word; lia).
Qed.

(** A call with five arguments through the disk protocol. *)
Lemma disk_call name d a b c e f w : disk_at d w -> 0 <= poffset DiskIo.fields name <= 16 ->
  (fn ← pfield DiskIo.fields name (DiskIO d); UefiCall5 fn a b c e f) (false, w) =
  let r := call_entry (twice (w_mem w) (DiskIO d + poffset DiskIo.fields name)) [a; b; c; e; f] w in
  (Ret r.1, (false, r.2)).
Proof.
  intros (H1 & H2 & _) Ho. unfold pfield. erewrite sm_step by reflexivity.
  rewrite wrap_small by (unfold is_word; lia).
  unfold UefiCall5, on_world, callFn, call_entry, twice.
  by destruct (firmware _ _ _ _) as [[? ?] ?].
Qed.

Lemma FlushBlocks_step d w : disk_at d w ->
  BlockIo.FlushBlocks (BlockIO d) (false, w) =
  let r := call_entry (load64 (w_mem w) (BlockIO d + 40)) [BlockIO d] w in (Ret r.1, (false, r.2)).
Proof.
  intros (_ & _ & H1 & H2 & _). unfold BlockIo.FlushBlocks, pfield, UefiCall1.
  erewrite sm_step by reflexivity. change (poffset BlockIo.fields "flushBlocks") with 40.
  rewrite wrap_small by (unfold is_word; lia). unfold stub, on_world.
  by destruct (call_entry _ _ _).
Qed.

(** How a status becomes the result of a transfer of [len] bytes. *)
Definition transferred (len status : Z) : Z * error :=
  if status =? 0 then (len, None) else (0, Some (ErrEfi status)).

(** A transfer that passes all checks: one call, through the word that the entry
    at [off] of the disk protocol holds, and its status as the result. *)
Definition transfer (entry : Z) (d : Disk) (p len off : Z) (w : World) : outcome (Z * error) * (bool * World) :=
  let r := call_entry (twice (w_mem w) (DiskIO d + entry))
    [DiskIO d; load32 (w_mem w) (media_of d w); off; len; p] w in
  (Ret (transferred len r.1), (false, r.2)).

Lemma transfer_result len st : 0 <= len < 2 ^ 63 ->
  (if st =? 0 then (i64 (u64 len), None) else (0, Some (ErrEfi st))) = transferred len st.
Proof.
  intros Hl. unfold transferred. rewrite (wrap_small 64 len) by (unfold is_word; lia).
  by rewrite swrap_small by lia.
Qed.

Lemma ReadAt_step d p len off w : disk_at d w -> 0 <= len < 2 ^ 63 -> - 2 ^ 63 <= off < 2 ^ 63 ->
  ReadAt (Some d) p len off (false, w) =
  if load8 (w_mem w) (media_of d w + 5) =? 0 then (Ret (0, Some ErrNoMediaPresent), (false, w))
  else if off <? 0 then (Ret (0, Some ErrNegativeOffset), (false, w))
  else if len =? 0 then (Ret (0, None), (false, w))
  else transfer 8 d p len off w.
Proof.
  intros Hd Hl Ho. unfold ReadAt. erewrite sm_step by (by apply ready_step). cbv beta iota.
  erewrite sm_step by (apply media_bool_step; [done|lia]). rewrite negb_involutive.
  destruct (load8 _ _ =? 0); [done|]. destruct (Z.ltb_spec off 0); [done|].
  destruct (len =? 0); [done|].
  erewrite sm_step by (by apply MediaId_step). unfold DiskIo.ReadDisk.
  erewrite sm_step by (apply disk_call; [done|by vm_compute]). rewrite transfer_result by done.
  by rewrite (wrap_small 64 off), (wrap_small 64 len) by (unfold is_word; lia).
Qed.

Lemma WriteAt_step d p len off w : disk_at d w -> 0 <= len < 2 ^ 63 -> - 2 ^ 63 <= off < 2 ^ 63 ->
  WriteAt (Some d) p len off (false, w) =
  if negb (load8 (w_mem w) (media_of d w + 7) =? 0) then (Ret (0, Some ErrReadOnly), (false, w))
  else if off <? 0 then (Ret (0, Some ErrNegativeOffset), (false, w))
  else if len =? 0 then (Ret (0, None), (false, w))
  else transfer 16 d p len off w.
Proof.
  intros Hd Hl Ho. unfold WriteAt. erewrite sm_step by (by apply ready_step). cbv beta iota.
  erewrite sm_step by (apply media_bool_step; [done|lia]).
  destruct (load8 _ _ =? 0); [|done]. cbn [negb]. destruct (Z.ltb_spec off 0); [done|].
  destruct (len =? 0); [done|].
  erewrite sm_step by (by apply MediaId_step). unfold DiskIo.WriteDisk.
  erewrite sm_step by (apply disk_call; [done|by vm_compute]). rewrite transfer_result by done.
  by rewrite (wrap_small 64 off), (wrap_small 64 len) by (unfold is_word; lia).
Qed.

(** A disk without one of its parts. *)
Definition incomplete (d : option Disk) (w : World) : Prop :=
  match d with
  | None => True
  | Some d => DiskIO d = 0 \/ BlockIO d = 0 \/ load64 (w_mem w) (u64 (BlockIO d + 8)) = 0
  end.

Lemma ready_incomplete d w : incomplete d w -> ready d (false, w) = (Ret None, (false, w)).
Proof.
  destruct d as [d|]; [|done]. unfold ready. intros [->|[->|Hm]]; [done|by rewrite orb_true_r|].
  destruct (_ || _); [done|]. erewrite sm_step by reflexivity.
  change (poffset BlockIo.fields "Media") with 8. by rewrite Hm.
Qed.
End Transfers.

(** C33. What the operations of a disk do, on any firmware.  A disk without one of
    its parts is not ready, and reading, writing and flushing it call nothing.
    A read without a medium, a write to a protected medium and a negative offset
    are errors, in this order, and an empty transfer is none; none of them calls
    the firmware.  Every other transfer makes exactly one call, with the
    protocol, the identifier of the medium, the offset, the length and the
    buffer; success means the whole length and any other status no byte and
    this status as the error.  The code that is called is the one whose address
    is stored at the address in the field: since the protocol's fields hold the
    addresses of the functions themselves, this is the word that the first eight
    bytes of the function's code make.  Flush alone calls what its field holds. *)
Theorem transfers_exact `{Machine} d p len off w :
  0 <= len < 2 ^ 63 -> - 2 ^ 63 <= off < 2 ^ 63 ->
  (forall o, incomplete o w ->
     ReadAt o p len off (false, w) = (Ret (0, Some ErrDiskNotReady), (false, w)) /\
     WriteAt o p len off (false, w) = (Ret (0, Some ErrDiskNotReady), (false, w))) /\
  (forall o, (forall d', o = Some d' -> BlockIO d' = 0) ->
     Flush o (false, w) = (Ret (Some ErrDiskNotReady), (false, w))) /\
  (disk_at d w ->
     let flag i := negb (load8 (w_mem w) (media_of d w + i) =? 0) in
     let fails e : outcome (Z * error) * (bool * World) := (Ret (0, Some e), (false, w)) in
     let moves entry := if len =? 0 then (Ret (0, None), (false, w)) else
       let code := load64 (w_mem w) (DiskIO d + entry) in
       let r := call_entry (load64 (w_mem w) code)
         [DiskIO d; load32 (w_mem w) (media_of d w); off; len; p] w in
       (Ret (if r.1 =? 0 then (len, None) else (0, Some (ErrEfi r.1))), (false, r.2)) in
     ReadAt (Some d) p len off (false, w) =
       (if negb (flag 5) then fails ErrNoMediaPresent
        else if off <? 0 then fails ErrNegativeOffset else moves 8) /\
     WriteAt (Some d) p len off (false, w) =
       (if flag 7 then fails ErrReadOnly
        else if off <? 0 then fails ErrNegativeOffset else moves 16) /\
     Flush (Some d) (false, w) =
       let r := call_entry (load64 (w_mem w) (BlockIO d + 40)) [BlockIO d] w in
       (Ret (if r.1 =? 0 then None else Some (ErrEfi r.1)), (false, r.2))).
Proof.
  intros Hl Ho. split; [|split].
  - intros o Hi. unfold ReadAt, WriteAt. by split; erewrite sm_step by (by apply ready_incomplete).
  - intros [d'|] Hd'; [|done]. unfold Flush. by rewrite (Hd' d' eq_refl).
  - intros Hd flag fails moves. rewrite ReadAt_step, WriteAt_step by done. unfold flag. rewrite negb_involutive.
    split_and!; [by repeat case_match..|]. unfold Flush. pose proof Hd as (_ & _ & Hb & _).
    rewrite (proj2 (Z.eqb_neq (BlockIO d) 0)) by lia. by erewrite sm_step by (by apply FlushBlocks_step).
Qed.

(** [Size] is the number of bytes of the disk, [(LastBlock + 1) * BlockSize],
    exactly when this number fits an int64; a disk that is not complete has
    size 0. *)
Theorem Size_exact `{Machine} d w : disk_at d w ->
  let B := load32 (w_mem w) (media_of d w + 12) in
  let L := load64 (w_mem w) (media_of d w + 24) in
  0 < B < 2 ^ 32 -> is_word 64 L ->
  exists n, Size (Some d) (false, w) = (Ret n, (false, w)) /\
    (n = (L + 1) * B <-> (L + 1) * B < 2 ^ 63).
Proof.
  intros Hd B L HB HL. pose proof Hd as (_ & _ & Hb & _ & Hm & Hm2). unfold Size.
  rewrite (proj2 (Z.eqb_neq (BlockIO d) 0)) by lia.
  erewrite sm_step by (by apply Media_step).
  rewrite (proj2 (Z.eqb_neq (media_of d w) 0)) by lia.
  erewrite sm_step by reflexivity. erewrite sm_step by reflexivity.
  rewrite (wrap_small 64 (media_of d w + 12)), (wrap_small 64 (media_of d w + 24))
    by (unfold is_word; lia).
  fold B L. eexists. split; [reflexivity|]. unfold is_word in HL.
  rewrite (swrap_small 64 B) by lia. split.
  - intros E. pose proof (swrap_range 64 (i64 (u64 (L + 1)) * B) ltac:(lia)). lia.
  - intros Hlt. assert (L + 1 < 2 ^ 63) by nia.
    rewrite (wrap_small 64 (L + 1)) by (unfold is_word; lia).
    rewrite (swrap_small 64 (L + 1)) by lia. apply swrap_small; nia.
Qed.

(** A firmware whose every function counts its calls and succeeds. *)
Definition disk_machine : Machine := machine_with (list (Z * list Z)) (fun fn args m s =>
  (0, m, s ++ [(fn, args)])).

(** Two blocks of 8 bytes; the functions of the disk protocol start at 0x3000 and
    0x3100 with the code [push rbp; mov rbp, rsp; sub rsp, 32]. *)
Definition disk_world : World (H := disk_machine) :=
  mkWorld disk_machine
    (foldr (fun '(a, v) m => store64 m a v) (store_bytes ∅ 0x1204 [0; 1; 0; 0; 0; 0; 0; 0; 8; 0; 0; 0])
       [(0x1008, 0x3000); (0x1010, 0x3100); (0x3000, 0x20ec8348e5894855); (0x3100, 0x20ec8348e5894855);
        (0x1108, 0x1200); (0x1218, 1)])
    0x10000 false [] [].

Definition demo_d : Disk := mkDisk 0x1000 0x1100.

Lemma disk_world_at : disk_at (H := disk_machine) demo_d disk_world.
Proof. split_and!; vm_compute; (reflexivity || discriminate). Qed.

Lemma transfers_exact_witness :
  exists w', ReadAt (H := disk_machine) (Some demo_d) 0x5000 4 6 (false, disk_world) =
      (Ret (4, None), (false, w')) /\
    w_fw w' = [(0x20ec8348e5894855, [0x1000; 0; 6; 4; 0x5000])].
Proof.
  destruct (proj2 (proj2 (transfers_exact (H := disk_machine) demo_d 0x5000 4 6 disk_world
    ltac:(lia) ltac:(lia))) disk_world_at) as [E _].
  eexists. split; [exact E|]. vm_compute. reflexivity.
Defined.

Lemma Size_exact_witness :
  exists n, Size (H := disk_machine) (Some demo_d) (false, disk_world) = (Ret n, (false, disk_world)) /\
    (n = 16 <-> 16 < 2 ^ 63).
Proof.
  exact (Size_exact (H := disk_machine) demo_d disk_world disk_world_at
    ltac:(vm_compute; split; reflexivity) ltac:(vm_compute; split; congruence)).
Defined.
