(* ===== verification/Serial.v ===== *)
(** * Serial: reading and writing a serial port

    The [SerialPort] of serial_io_protocol.go over the serial I/O protocol:
    [Init], the blocking [Read] with its handshake on the modem control lines,
    and [Write] with hardware flow control; and when [Read] returns, whatever the
    calls of the protocol do. *)

From S2P Require Import Prelude Binary Machine Status SpecTables Protocols.

Definition ParityNone : Z := 1.
Definition StopBits1 : Z := 1.

Definition EFI_SERIAL_DATA_TERMINAL_READY : Z := 0x0001.
Definition EFI_SERIAL_REQUEST_TO_SEND : Z := 0x0002.
Definition EFI_SERIAL_CLEAR_TO_SEND : Z := 0x0010.

(** The embedded protocol pointer and the flag. *)
Record SerialPort := mkPort { sp_proto : Z; flowControl : bool }.

(** [StatusError(status).Error()] for a status that is not success. *)
Definition error_text (status : Z) : string :=
  match list_find (fun x => Spec.code x.1 = status) Spec.known with
  | Some (_, (_, text)) => text
  | None => "unknown EFI error"
  end.

Section Port.
Context `{Machine}.

Definition UseFlowControl (sp : SerialPort) (fc : bool) : SerialPort := mkPort (sp_proto sp) fc.

(** [&buf[0]] of a slice of [len] bytes at [buf]. *)
Definition elem_0 (buf len : Z) : SM Z :=
  if len <=? 0 then sm_panic PIndex else mret buf.

(** The loop of [Read]; [controlBits] is the address of the variable. *)
Fixpoint Read_loop (fuel : nat) (p controlBits buf len : Z) : SM (Z * error) :=
  match fuel with
  | O => fun s => (NoFuel, s)
  | S fuel =>
      _ ← SerialIo.GetControl p controlBits;
      bufLen ← on_world (alloc64 (u64 len));
      bits ← on_world (get32 controlBits);
      _ ← SerialIo.SetControl p
            (Z.lor (Z.lor bits EFI_SERIAL_REQUEST_TO_SEND) EFI_SERIAL_DATA_TERMINAL_READY);
      b0 ← elem_0 buf len;
      status ← SerialIo.Read p bufLen b0;
      n ← on_world (get64 bufLen);
      let status := if n =? 0 then Spec.code TIMEOUT else status in
      if status =? 0 then mret (i64 n, None)
      else if (status =? Spec.code TIMEOUT) || (status =? Spec.code NO_RESPONSE) then
        bits ← on_world (get32 controlBits);
        _ ← SerialIo.SetControl p (Z.ldiff bits EFI_SERIAL_REQUEST_TO_SEND);
        Read_loop fuel p controlBits buf len
      else
        _ ← on_world (println (error_text status));
        mret (0, Some (ErrEfi status))
  end.

Definition Read (fuel : nat) (sp : SerialPort) (buf len : Z) : SM (Z * error) :=
  controlBits ← on_world (alloc (le_enc 4 0));
  Read_loop fuel (sp_proto sp) controlBits buf len.

Definition Write (sp : SerialPort) (buf len : Z) : SM (Z * error) :=
  controlBits ← on_world (alloc (le_enc 4 0));
  _ ← SerialIo.GetControl (sp_proto sp) controlBits;
  bits ← on_world (get32 controlBits);
  if flowControl sp && (Z.land bits EFI_SERIAL_CLEAR_TO_SEND =? 0) then mret (0, None) else
  bufLen ← on_world (alloc64 (u64 len));
  b0 ← elem_0 buf len;
  status ← SerialIo.Write (sp_proto sp) bufLen b0;
  n ← on_world (get64 bufLen);
  mret (i64 n, if status =? 0 then None else Some (ErrEfi status)).

Definition Init (sp : SerialPort) : SM error :=
  status ← SerialIo.Reset (sp_proto sp);
  if negb (status =? 0) then mret (Some (ErrEfi status)) else
  zero ← on_world (alloc [0]);
  _ ← Write sp zero 1;
  status ← SerialIo.SetAttributes (sp_proto sp) 115200 0 1 ParityNone 8 StopBits1;
  if negb (status =? 0) then
    _ ← on_world (println (String.append "SetAttributes failed" (String "013"%char EmptyString)));
    mret (Some (ErrEfi status))
  else mret None.
End Port.

(** ** What [Read] waits for *)

Section Returns.
Context `{Machine}.

(** How a round of [Read] ends: with the count of bytes, which is not 0, and
    success, or with a status that is neither a success nor one of those on which
    it tries again. *)
Definition round_ends (count status : Z) (result : Z * error) : Prop :=
  count <> 0 /\
  ((status = 0 /\ result = (i64 count, None)) \/
   (status <> 0 /\ status <> Spec.code TIMEOUT /\ status <> Spec.code NO_RESPONSE /\
    result = (0, Some (ErrEfi status)))).

(** What the read method of the protocol at [p] does in world [w]. *)
Definition read_call (p size buf : Z) (w : World) : Z * World :=
  call_entry (twice (w_mem w) (u64 (p + 48))) [p; size; buf] w.

Lemma SerialRead_call p size buf w :
  SerialIo.Read p size buf (false, w) =
  let r := read_call p size buf w in (Ret r.1, (false, r.2)).
Proof.
  unfold SerialIo.Read, pfield, UefiCall3. erewrite sm_step by reflexivity.
  change (poffset SerialIo.fields "read") with 48.
  unfold callService, callFn, read_call, call_entry, twice. by destruct (firmware _ _ _ _) as [[? ?] ?].
Qed.

Lemma control_step p c (f : Z -> Z -> SM Z) w :
  f = SerialIo.GetControl \/ f = SerialIo.SetControl ->
  exists st w', f p c (false, w) = (Ret st, (false, w')) /\ w_brk w' = w_brk w.
Proof.
  intros [->| ->]; unfold SerialIo.GetControl, SerialIo.SetControl, pfield, UefiCall2, stub, call_entry;
    erewrite sm_step by reflexivity; cbv beta iota zeta; destruct (firmware _ _ _ _) as [[st m] s];
    do 2 eexists; (split; [reflexivity|done]).
Qed.

(** One round of the loop up to the read. *)
Lemma round_start p cb buf len w : exists w1, w_brk w1 = w_brk w + 8 /\
  forall fuel, Read_loop (S fuel) p cb buf len (false, w) =
    (b0 ← elem_0 buf len;
     status ← SerialIo.Read p (w_brk w) b0;
     n ← on_world (get64 (w_brk w));
     let status := if n =? 0 then Spec.code TIMEOUT else status in
     if status =? 0 then mret (i64 n, None)
     else if (status =? Spec.code TIMEOUT) || (status =? Spec.code NO_RESPONSE) then
       bits ← on_world (get32 cb);
       _ ← SerialIo.SetControl p (Z.ldiff bits EFI_SERIAL_REQUEST_TO_SEND);
       Read_loop fuel p cb buf len
     else
       _ ← on_world (println (error_text status));
       mret (0, Some (ErrEfi status))) (false, w1).
Proof.
  destruct (control_step p cb SerialIo.GetControl w) as (st & w1 & E1 & B1); [by left|].
  set (w2 := alloc_world (le_enc 8 (u64 len)) w1).
  destruct (control_step p (Z.lor (Z.lor (load32 (w_mem w2) cb) EFI_SERIAL_REQUEST_TO_SEND)
    EFI_SERIAL_DATA_TERMINAL_READY) SerialIo.SetControl w2) as (st' & w3 & E3 & B3); [by right|].
  exists w3. split.
  { rewrite B3. unfold w2. by rewrite alloc_world_brk, alloc_size_word, B1. }
  intros fuel. cbn [Read_loop]. erewrite sm_step by exact E1.
  erewrite sm_step by reflexivity. fold w2. erewrite sm_step by reflexivity.
  erewrite sm_step by exact E3. by rewrite B1.
Qed.

(** A round that reads: where it ends, and that it goes on otherwise. *)
Lemma serial_round p cb buf len w : 0 < len -> exists w1, w_brk w1 = w_brk w + 8 /\
  let r := read_call p (w_brk w) buf w1 in
  let count := load64 (w_mem r.2) (w_brk w) in
  (forall result, round_ends count r.1 result -> forall fuel, exists w',
     Read_loop (S fuel) p cb buf len (false, w) = (Ret result, (false, w')) /\ w_fw w' = w_fw r.2 /\
     w_mem w' = w_mem r.2) /\
  ((count = 0 \/ r.1 = Spec.code TIMEOUT \/ r.1 = Spec.code NO_RESPONSE) -> exists w',
     w_brk w' = w_brk w + 8 /\
     forall fuel, Read_loop (S fuel) p cb buf len (false, w) = Read_loop fuel p cb buf len (false, w')).
Proof.
  intros Hl. destruct (round_start p cb buf len w) as (w1 & B1 & Hs). exists w1. split; [exact B1|].
  intros r count.
  assert (forall {A} (f : Z -> SM A), (b0 ← elem_0 buf len; status ← SerialIo.Read p (w_brk w) b0; f status)
    (false, w1) = f r.1 (false, r.2)) as Hr.
  { intros A f. unfold elem_0. rewrite (proj2 (Z.leb_gt _ _)) by lia. erewrite sm_step by reflexivity.
    by erewrite sm_step by apply SerialRead_call. }
  split.
  - intros result [Hc Hends] fuel. rewrite Hs, Hr. erewrite sm_step by reflexivity. fold count. cbv zeta.
    rewrite (proj2 (Z.eqb_neq count 0)) by done. destruct Hends as [[-> ->]|(H0 & H1 & H2 & ->)].
    + exists r.2. by split_and!.
    + rewrite !(proj2 (Z.eqb_neq _ _)) by done. cbn [orb].
      eexists. split; [reflexivity|]. split; done.
  - intros Hc.
    destruct (control_step p (Z.ldiff (load32 (w_mem r.2) cb) EFI_SERIAL_REQUEST_TO_SEND)
      SerialIo.SetControl r.2) as (st & w2 & E2 & B2); [by right|].
    exists w2. assert (w_brk r.2 = w_brk w1) as Br.
    { unfold r, read_call, call_entry. by destruct (firmware _ _ _ _) as [[? ?] ?]. }
    split; [by rewrite B2, Br|]. intros fuel. rewrite Hs, Hr. erewrite sm_step by reflexivity. fold count.
    assert (exists st', (if count =? 0 then Spec.code TIMEOUT else r.1) = st' /\
      (st' =? 0) = false /\ ((st' =? Spec.code TIMEOUT) || (st' =? Spec.code NO_RESPONSE)) = true)
      as (st' & Est & Ez & Et).
    { eexists. split; [reflexivity|]. destruct (Z.eqb_spec count 0); [done|].
      by destruct Hc as [?|[->| ->]]. }
    cbv zeta. rewrite Est, Ez, Et.
    erewrite sm_step by reflexivity. by erewrite sm_step by exact E2.
Qed.

Lemma round_cases count status :
  (exists result, round_ends count status result) \/
  count = 0 \/ status = Spec.code TIMEOUT \/ status = Spec.code NO_RESPONSE.
Proof.
  destruct (decide (count = 0)); [tauto|]. destruct (decide (status = Spec.code TIMEOUT)); [tauto|].
  destruct (decide (status = Spec.code NO_RESPONSE)); [tauto|]. left.
  destruct (decide (status = 0)).
  - exists (i64 count, None). split; [done|by left].
  - exists (0, Some (ErrEfi status)). split; [done|by right].
Qed.

(** The last read is the one whose answer is returned. *)
Lemma Read_loop_returns fuel p cb buf len w : 0 < len ->
  (exists result w' w1 size, w_brk w <= size /\
     let r := read_call p size buf w1 in
     Read_loop fuel p cb buf len (false, w) = (Ret result, (false, w')) /\
     round_ends (load64 (w_mem r.2) size) r.1 result /\ w_fw w' = w_fw r.2 /\ w_mem w' = w_mem r.2) \/
  exists w', Read_loop fuel p cb buf len (false, w) = (NoFuel, (false, w')).
Proof.
  intros Hl. revert w. induction fuel as [|fuel IH]; intros w; [right; by exists w|].
  destruct (serial_round p cb buf len w Hl) as (w1 & B1 & Hends & Hagain).
  destruct (round_cases (load64 (w_mem (read_call p (w_brk w) buf w1).2) (w_brk w))
    (read_call p (w_brk w) buf w1).1) as [[result Hr]|Hr].
  - left. destruct (Hends result Hr fuel) as (w' & E & ? & ?).
    exists result, w', w1, (w_brk w). by split_and!.
  - destruct (Hagain Hr) as (w' & B' & E). rewrite E.
    destruct (IH w') as [(result & w2 & w3 & size & ? & ?)|Hn]; [left|by right].
    exists result, w2, w3, size. split; [lia|done].
Qed.
End Returns.


(** A port that first times out, then fails without a byte, then delivers two. *)
Definition serial_machine : Machine := machine_with nat (fun fn args m s =>
  match args with
  | [_; size; buf] =>
      match s with
      | 0%nat => (Spec.code TIMEOUT, store64 m size 0, 1%nat)
      | 1%nat => (Spec.code DEVICE_ERROR, store64 m size 0, 2%nat)
      | _ => (0, store64 (store_bytes m buf [0x41; 0x42]) size 2, s)
      end
  | _ => (0, m, s)
  end).

Definition serial_world : World (H := serial_machine) :=
  mkWorld serial_machine (store64 ∅ 0x1030 0x3000) 0x10000 false [] 0%nat.

