(* ===== verification/Handles.v ===== *)
(** * Handles: finding protocols

    The package-level variables of pkg/uefi (util.go) and the functions that find
    protocols with them: the five enumerations over LocateHandleBuffer and
    HandleProtocol, and the three lookups of a single interface.  How the
    enumerations end is proved for any firmware, since their calls do not reach the
    functions in the fields. *)

From S2P Require Import Prelude Binary Machine Status SpecTables Protocols Disk Serial.

(** ** The package-level variables *)

Record EFI_GUID := mkGuid { Data1 : Z; Data2 : Z; Data3 : Z; Data4 : list Z }.

(** The values of the GUID variables of the protocol files. *)
Module Guids.
Definition EFI_SIMPLE_FILE_SYSTEM_PROTOCOL_GUID : EFI_GUID :=
  mkGuid 0x964E5B22 0x6459 0x11D2 [0x8e; 0x39; 0x00; 0xa0; 0xc9; 0x69; 0x72; 0x3b].
Definition EFI_DISK_IO_PROTOCOL_GUID : EFI_GUID :=
  mkGuid 0xCE345171 0xBA0B 0x11D2 [0x8e; 0x4f; 0x00; 0xa0; 0xc9; 0x69; 0x72; 0x3b].
Definition EFI_BLOCK_IO_PROTOCOL_GUID : EFI_GUID :=
  mkGuid 0x964E5B21 0x6459 0x11D2 [0x8e; 0x39; 0x00; 0xa0; 0xc9; 0x69; 0x72; 0x3b].
Definition EFI_SERIAL_IO_PROTOCOL_GUID : EFI_GUID :=
  mkGuid 0xBB25CF6F 0xF1D4 0x11D2 [0x9a; 0x0c; 0x00; 0x90; 0x27; 0x3f; 0xc1; 0xfd].
Definition EFI_SIMPLE_NETWORK_PROTOCOL_GUID : EFI_GUID :=
  mkGuid 0xA19832B9 0xAC25 0x11D3 [0x9A; 0x2D; 0x00; 0x90; 0x27; 0x3F; 0xC1; 0x4D].
Definition EFI_DHCP4_SERVICE_BINDING_PROTOCOL_GUID : EFI_GUID :=
  mkGuid 0x9d9a39d8 0xbd42 0x4a73 [0xa4; 0xd5; 0x8e; 0xe9; 0x4b; 0xe1; 0x13; 0x80].
Definition EFI_DHCP4_PROTOCOL_GUID : EFI_GUID :=
  mkGuid 0x8a219718 0x4ef5 0x4761 [0x91; 0xc8; 0xc0; 0xf0; 0x4b; 0xda; 0x9e; 0x56].
Definition GraphicsOutputProtocolGUID : EFI_GUID :=
  mkGuid 0x9042a9de 0x23dc 0x4a38 [0x96; 0xfb; 0x7a; 0xde; 0xd0; 0x80; 0x51; 0x6a].
Definition SimpleTextInputExProtocolGUID : EFI_GUID :=
  mkGuid 0xdd9e7534 0x7762 0x4698 [0x8c; 0x14; 0xf5; 0x85; 0x17; 0xa6; 0x25; 0xaa].
Definition EFI_LOADED_IMAGE_PROTOCOL_GUID : EFI_GUID :=
  mkGuid 0x5B1B31A1 0x9562 0x11d2 [0x8E; 0x3F; 0x00; 0xA0; 0xC9; 0x69; 0x72; 0x3B].
End Guids.

(** The variables themselves. *)
Inductive guid_var :=
| EFI_SIMPLE_FILE_SYSTEM_PROTOCOL_GUID | EFI_DISK_IO_PROTOCOL_GUID | EFI_BLOCK_IO_PROTOCOL_GUID
| EFI_SERIAL_IO_PROTOCOL_GUID | EFI_SIMPLE_NETWORK_PROTOCOL_GUID
| EFI_DHCP4_SERVICE_BINDING_PROTOCOL_GUID | EFI_DHCP4_PROTOCOL_GUID
| GraphicsOutputProtocolGUID | SimpleTextInputExProtocolGUID | EFI_LOADED_IMAGE_PROTOCOL_GUID.

#[export] Instance guid_var_eq_dec : EqDecision guid_var.
Proof. solve_decision. Defined.

Definition guid_value (v : guid_var) : EFI_GUID :=
  match v with
  | EFI_SIMPLE_FILE_SYSTEM_PROTOCOL_GUID => Guids.EFI_SIMPLE_FILE_SYSTEM_PROTOCOL_GUID
  | EFI_DISK_IO_PROTOCOL_GUID => Guids.EFI_DISK_IO_PROTOCOL_GUID
  | EFI_BLOCK_IO_PROTOCOL_GUID => Guids.EFI_BLOCK_IO_PROTOCOL_GUID
  | EFI_SERIAL_IO_PROTOCOL_GUID => Guids.EFI_SERIAL_IO_PROTOCOL_GUID
  | EFI_SIMPLE_NETWORK_PROTOCOL_GUID => Guids.EFI_SIMPLE_NETWORK_PROTOCOL_GUID
  | EFI_DHCP4_SERVICE_BINDING_PROTOCOL_GUID => Guids.EFI_DHCP4_SERVICE_BINDING_PROTOCOL_GUID
  | EFI_DHCP4_PROTOCOL_GUID => Guids.EFI_DHCP4_PROTOCOL_GUID
  | GraphicsOutputProtocolGUID => Guids.GraphicsOutputProtocolGUID
  | SimpleTextInputExProtocolGUID => Guids.SimpleTextInputExProtocolGUID
  | EFI_LOADED_IMAGE_PROTOCOL_GUID => Guids.EFI_LOADED_IMAGE_PROTOCOL_GUID
  end.

(** The bytes of an EFI_GUID in memory. *)
Definition guid_bytes (g : EFI_GUID) : list Z :=
  le_enc 4 (Data1 g) ++ le_enc 2 (Data2 g) ++ le_enc 2 (Data3 g) ++ Data4 g.

(** [systemTable] and [imageHandle] of util.go, and the addresses of the GUID
    variables. *)
Record package := mkPackage {
  systemTable : Z;
  imageHandle : Z;
  guid_at : guid_var -> Z;
}.

(** [Init] of util.go. *)
Definition Init (argImageHandle argSystemTable : Z) (g : package) : package :=
  mkPackage argSystemTable argImageHandle (guid_at g).

Definition ST (g : package) : Z := systemTable g.
Definition GetImageHandle (g : package) : Z := imageHandle g.

Definition ByProtocol : Z := 2.

Section Handles.
Context `{Machine}.

Definition BS (g : package) : SM Z :=
  if systemTable g =? 0 then sm_panic PNil
  else on_world (get64 (u64 (systemTable g + 96))).

(** [unsafe.Slice(ptr, len)] of elements of [size] bytes; the slice is the
    address and the length. *)
Definition unsafe_Slice (ptr len size : Z) : SM (Z * Z) :=
  if (len <? 0) || (if ptr =? 0 then 0 <? len else 2 ^ 64 - ptr <? len * size)
  then sm_panic (PMsg "unsafe.Slice: len out of range") else mret (ptr, len).

(** The two variables and the call that every enumeration starts with: the
    status and the addresses of [handleCount] and [handleBuffer]. *)
Definition locate (g : package) (v : guid_var) : SM (Z * Z * Z) :=
  handleCount ← on_world (alloc64 0);
  handleBuffer ← on_world (alloc64 0);
  bs ← BS g;
  st ← BootTable.LocateHandleBuffer bs ByProtocol (guid_at g v) 0 handleCount handleBuffer;
  mret (st, handleCount, handleBuffer).

Definition handle_slice (handleCount handleBuffer : Z) : SM (Z * Z) :=
  buf ← on_world (get64 handleBuffer);
  n ← on_world (get64 handleCount);
  unsafe_Slice buf (i64 n) 8.

(** [HandleProtocol] with a variable for the interface: the status and the
    variable's value after the call. *)
Definition handle_protocol (g : package) (h : Z) (v : guid_var) : SM (Z * Z) :=
  iface ← on_world (alloc64 0);
  bs ← BS g;
  st ← BootTable.HandleProtocol bs h (guid_at g v) iface;
  p ← on_world (get64 iface);
  mret (st, p).

(** [for _, h := range handles] over [n] handles at [a], with the slice that
    the loop builds; the body may return from the function with an error. *)
Fixpoint for_handles {A} (n : nat) (a : Z) (body : list A -> Z -> SM (list A + goerror))
    (out : list A) : SM (list A * error) :=
  match n with
  | O => mret (out, None)
  | S n =>
      h ← on_world (get64 a);
      r ← body out h;
      match r with
      | inl out => for_handles n (a + 8) body out
      | inr e => mret ([], Some e)
      end
  end.

Definition EnumerateFileSystems (g : package) : SM (list Z * error) :=
  '(st, count, buffer) ← locate g EFI_SIMPLE_FILE_SYSTEM_PROTOCOL_GUID;
  if st =? Spec.code NOT_FOUND then mret ([], None)
  else if negb (st =? 0) then mret ([], Some (ErrEfi st)) else
  '(handles, len) ← handle_slice count buffer;
  _ ← make len 8;
  for_handles (Z.to_nat len) handles (fun out h =>
    '(st, sfs) ← handle_protocol g h EFI_SIMPLE_FILE_SYSTEM_PROTOCOL_GUID;
    mret (inl (if st =? 0 then out ++ [sfs] else out))) [].

Definition EnumerateDisks (g : package) : SM (list Disk * error) :=
  '(st, count, buffer) ← locate g EFI_DISK_IO_PROTOCOL_GUID;
  if st =? Spec.code NOT_FOUND then mret ([], None)
  else if negb (st =? 0) then mret ([], Some (ErrEfi st)) else
  '(handles, len) ← handle_slice count buffer;
  _ ← make len 8;
  for_handles (Z.to_nat len) handles (fun disks h =>
    '(st, dio) ← handle_protocol g h EFI_DISK_IO_PROTOCOL_GUID;
    if negb (st =? 0) then mret (inl disks) else
    '(st, bio) ← handle_protocol g h EFI_BLOCK_IO_PROTOCOL_GUID;
    if negb (st =? 0) then mret (inl disks)
    else mret (inl (disks ++ [mkDisk dio bio]))) [].

Definition EnumerateSerialPorts (g : package) : SM (list SerialPort * error) :=
  '(st, count, buffer) ← locate g EFI_SERIAL_IO_PROTOCOL_GUID;
  if negb (st =? 0) then mret ([], Some (ErrEfi st)) else
  '(handles, len) ← handle_slice count buffer;
  _ ← make len 8;
  for_handles (Z.to_nat len) handles (fun ports h =>
    '(st, serial) ← handle_protocol g h EFI_SERIAL_IO_PROTOCOL_GUID;
    mret (if negb (st =? 0) then inr (ErrEfi st) else inl (ports ++ [mkPort serial false]))) [].

Definition EnumerateSNP (g : package) : SM (list Z * error) :=
  '(st, count, buffer) ← locate g EFI_SIMPLE_NETWORK_PROTOCOL_GUID;
  if negb (st =? 0) then mret ([], Some (ErrEfi st)) else
  '(handles, len) ← handle_slice count buffer;
  for_handles (Z.to_nat len) handles (fun snps h =>
    bs ← BS g;
    _ ← BootTable.ConnectController bs h 0 0 true;
    '(st, snp) ← handle_protocol g h EFI_DHCP4_SERVICE_BINDING_PROTOCOL_GUID;
    mret (inl (if negb (st =? 0) then snps else snps ++ [snp]))) [].

Definition EnumerateDHCPv4 (g : package) : SM (list Z * error) :=
  '(st, count, buffer) ← locate g EFI_DHCP4_SERVICE_BINDING_PROTOCOL_GUID;
  if negb (st =? 0) then mret ([], Some (ErrEfi st)) else
  '(handles, len) ← handle_slice count buffer;
  _ ← make len 8;
  for_handles (Z.to_nat len) handles (fun dhcpv4s h =>
    '(st, binding) ← handle_protocol g h EFI_DHCP4_SERVICE_BINDING_PROTOCOL_GUID;
    if negb (st =? 0) then mret (inl dhcpv4s) else
    bindChild ← on_world (alloc64 0);
    st ← Dhcp4ServiceBinding.CreateChild binding bindChild;
    if negb (st =? 0) then mret (inl dhcpv4s) else
    child ← on_world (get64 bindChild);
    '(st, dhcpp) ← handle_protocol g child EFI_DHCP4_PROTOCOL_GUID;
    mret (inl (if negb (st =? 0) then dhcpv4s else dhcpv4s ++ [dhcpp]))) [].

(** ** One interface *)

Definition locate_protocol (g : package) (v : guid_var) : SM (Z * error) :=
  iFace ← on_world (alloc64 0);
  bs ← BS g;
  status ← BootTable.LocateProtocol bs (guid_at g v) 0 iFace;
  p ← on_world (get64 iFace);
  mret (if status =? 0 then (p, None) else (0, Some (ErrEfi status))).

Definition GraphicsOutputProtocol (g : package) : SM (Z * error) :=
  locate_protocol g GraphicsOutputProtocolGUID.

Definition SimpleTextInExProtocol (g : package) : SM (Z * error) :=
  locate_protocol g SimpleTextInputExProtocolGUID.

Definition GetLoadedImageProtocol (g : package) : SM (Z * error) :=
  '(status, lip) ← handle_protocol g (GetImageHandle g) EFI_LOADED_IMAGE_PROTOCOL_GUID;
  mret (if status =? 0 then (lip, None) else (0, Some (ErrEfi status))).

(** The fields of EFI_LOADED_IMAGE_PROTOCOL up to [unload] take 96 bytes, since
    EFI_MEMORY_TYPE is an int.  The method ignores its parameter. *)
Definition Unload (g : package) (p ImageHandle : Z) : SM Z :=
  fn ← on_world (get64 (u64 (p + 96)));
  UefiCall1 fn (imageHandle g).

Definition OpenRoot (sfs : Z) : SM (Z * Z) :=
  root ← on_world (alloc64 0);
  st ← SimpleFileSystem.OpenVolume sfs root;
  if negb (st =? 0) then mret (0, st)
  else p ← on_world (get64 root); mret (p, 0).
End Handles.

(** ** What the enumerations do *)

Definition off_locate : Z := Eval vm_compute in offset_of BootTable.fields "locateHandleBuffer".

Section Enumerations.
Context `{Machine}.

(** The call that an enumeration starts with: the two variables are allocated and
    LocateHandleBuffer is called through the word that its entry in the boot
    services holds. *)
Definition located (g : package) (v : guid_var) (w : World) : Z * World :=
  let w2 := alloc_world (le_enc 8 0) (alloc_world (le_enc 8 0) w) in
  let bs := load64 (w_mem w2) (u64 (systemTable g + 96)) in
  call_entry (twice (w_mem w2) (u64 (bs + off_locate)))
    [ByProtocol; guid_at g v; 0; w_brk w; w_brk w + 8] w2.

Lemma call_through fn b args w :
  (on_world (callFn fn (b :: args)) (false, w) =
   let r := call_entry (load64 (w_mem w) fn) (b :: args) w in (Ret r.1, (false, r.2))) /\
  (callService fn (b :: args) (false, w) =
   let r := call_entry (load64 (w_mem w) fn) (b :: args) w in (Ret r.1, (false, r.2))).
Proof.
  unfold on_world, callService, callFn, call_entry.
  by destruct (firmware _ _ _ _) as [[? ?] ?].
Qed.

Lemma BS_step g w : systemTable g <> 0 ->
  BS g (false, w) = (Ret (load64 (w_mem w) (u64 (systemTable g + 96))), (false, w)).
Proof. intros Hg. unfold BS. by rewrite (proj2 (Z.eqb_neq _ 0)) by done. Qed.

Lemma locate_step g v w : systemTable g <> 0 ->
  locate g v (false, w) =
  (Ret ((located g v w).1, w_brk w, w_brk w + 8), (false, (located g v w).2)).
Proof.
  intros Hg. unfold locate. do 2 (erewrite sm_step by reflexivity).
  rewrite !alloc_world_brk, alloc_size_word. erewrite sm_step by (by apply BS_step).
  unfold BootTable.LocateHandleBuffer, field, UefiCall5.
  erewrite sm_step; [reflexivity|]. erewrite sm_step by reflexivity.
  etransitivity; [apply call_through|]. unfold located, twice, off_locate. reflexivity.
Qed.

(** Asking for an interface ends with a status and a word. *)
Lemma handle_protocol_total g h v w : systemTable g <> 0 ->
  exists st p w', handle_protocol g h v (false, w) = (Ret (st, p), (false, w')).
Proof.
  intros Hg. unfold handle_protocol. erewrite sm_step by reflexivity.
  erewrite sm_step by (by apply BS_step).
  unfold BootTable.HandleProtocol, field, UefiCall3.
  do 3 eexists. erewrite sm_step.
  2: { erewrite sm_step by reflexivity. apply call_through. }
  erewrite sm_step by reflexivity. reflexivity.
Qed.

(** A body that ends, adding at most one entry or an error. *)
Definition adds_one {A} (strict : bool) (body : list A -> Z -> SM (list A + goerror)) : Prop :=
  forall out h w, exists r w', body out h (false, w) = (Ret r, (false, w')) /\
    match r with
    | inl out' => exists o, out' = out ++ option_list o
    | inr e => strict = true /\ exists st, st <> 0 /\ e = ErrEfi st
    end.

(** The end of an enumeration of at most [n] handles. *)
Definition listed {A} (strict : bool) (n : Z) (r : list A * error) : Prop :=
  match r.2 with
  | None => zlen r.1 <= n
  | Some e => strict = true /\ r.1 = [] /\ exists st, st <> 0 /\ e = ErrEfi st
  end.

Lemma for_handles_listed {A} strict (body : list A -> Z -> SM (list A + goerror)) n a out w :
  adds_one strict body -> exists r w', for_handles n a body out (false, w) = (Ret r, (false, w')) /\
    listed strict (zlen out + Z.of_nat n) r.
Proof.
  intros Hb. revert a out w. induction n as [|n IH]; intros a out w.
  - exists (out, None), w. split; [done|]. unfold listed. cbn [fst snd]. lia.
  - cbn [for_handles]. erewrite sm_step by reflexivity.
    destruct (Hb out (load64 (w_mem w) a) w) as ([out'|e] & w1 & E & Hr).
    + erewrite sm_step by exact E. cbv beta iota. destruct Hr as [o ->].
      destruct (IH (a + 8) (out ++ option_list o) w1) as (r & w2 & E2 & Hl).
      exists r, w2. split; [exact E2|]. revert Hl. unfold listed. destruct r.2; [done|].
      unfold zlen. rewrite length_app. destruct o; simpl; lia.
    + erewrite sm_step by exact E. exists ([], Some e), w1. split; [done|].
      destruct Hr as [? ?]. by split_and!.
Qed.

(** Whether [unsafe.Slice] accepts the handles, and [make] their number. *)
Definition slice_fits (buf n : Z) : bool :=
  negb ((n <? 0) || (if buf =? 0 then 0 <? n else 2 ^ 64 - buf <? n * 8)).

(** An enumeration [m] of the handles with [v].  When the firmware finds none, the
    [quiet] ones return nothing; any other status is returned.  Else the handles
    are as many as the firmware has stored; the [strict] one stops at the first
    that has no interface. *)
Definition enumerates {A} (g : package) (v : guid_var) (quiet strict makes : bool)
    (m : SM (list A * error)) (w : World) : Prop :=
  let '(st, w1) := located g v w in
  let n := i64 (load64 (w_mem w1) (w_brk w)) in
  let buf := load64 (w_mem w1) (w_brk w + 8) in
  if quiet && (st =? Spec.code NOT_FOUND) then m (false, w) = (Ret ([], None), (false, w1))
  else if negb (st =? 0) then m (false, w) = (Ret ([], Some (ErrEfi st)), (false, w1))
  else if slice_fits buf n && (negb makes || (n * 8 <=? maxAlloc)) then
    exists r w', m (false, w) = (Ret r, (false, w')) /\ listed strict n r
  else exists p, m (false, w) = (Panic p, (false, w1)).

Lemma slice_step count buffer w :
  let buf := load64 (w_mem w) buffer in
  let n := i64 (load64 (w_mem w) count) in
  handle_slice count buffer (false, w) =
  if slice_fits buf n then (Ret (buf, n), (false, w))
  else (Panic (PMsg "unsafe.Slice: len out of range"), (false, w)).
Proof.
  intros buf n. unfold handle_slice. do 2 (erewrite sm_step by reflexivity).
  unfold unsafe_Slice, slice_fits. fold buf n. by destruct (_ || _).
Qed.

(** The rest of an enumeration, with the allocation of the result and without. *)
Lemma rest_listed {A} strict (makes : bool) (body : list A -> Z -> SM (list A + goerror)) count buffer w :
  adds_one strict body ->
  let n := i64 (load64 (w_mem w) count) in
  let buf := load64 (w_mem w) buffer in
  let m := '(handles, len) ← handle_slice count buffer;
    if makes then _ ← make len 8; for_handles (Z.to_nat len) handles body []
    else for_handles (Z.to_nat len) handles body [] in
  if slice_fits buf n && (negb makes || (n * 8 <=? maxAlloc)) then
    exists r w', m (false, w) = (Ret r, (false, w')) /\ listed strict n r
  else exists p, m (false, w) = (Panic p, (false, w)).
Proof.
  intros Hb n buf m. pose proof (slice_step count buffer w) as Es. fold buf n in Es. cbv zeta in Es.
  destruct (slice_fits buf n) eqn:Hs; cbn [andb].
  2: { eexists. unfold m, mbind, SM_bind. by rewrite Es. }
  assert (0 <= n) as Hn by (unfold slice_fits in Hs; destruct (Z.ltb_spec n 0); [discriminate|done]).
  unfold m. erewrite sm_step by exact Es. cbv beta iota. destruct makes; cbn [negb orb].
  - destruct (Z.leb_spec (n * 8) maxAlloc) as [Hm|Hm].
    + erewrite sm_step by (by apply make_step).
      destruct (for_handles_listed strict body (Z.to_nat n) buf []
        (alloc_world (replicate (Z.to_nat (n * 8)) 0) w) Hb) as (r & w' & E & Hl).
      exists r, w'. split; [exact E|]. by rewrite Z2Nat.id in Hl.
    + exists PMakeslice. unfold mbind, SM_bind, make.
      by rewrite (proj2 (Z.ltb_ge n 0)), (proj2 (Z.ltb_lt _ _)) by lia.
  - destruct (for_handles_listed strict body (Z.to_nat n) buf [] w Hb) as (r & w' & E & Hl).
    exists r, w'. split; [exact E|]. by rewrite Z2Nat.id in Hl.
Qed.

(** Discharges [adds_one]: runs the calls of a body one after the other. *)
Ltac asks Hg :=
  match goal with
  | |- context [handle_protocol ?g ?h ?v] =>
      let st := fresh "st" in let p := fresh "p" in let w' := fresh "w" in let E := fresh "E" in
      match goal with |- context [(false, ?w)] =>
        destruct (handle_protocol_total g h v w Hg) as (st & p & w' & E);
        erewrite sm_step by exact E; cbv beta iota
      end
  end.

Lemma adds_nothing {A} strict (out : list A) w : exists r w',
  (mret (inl out) : SM (list A + goerror)) (false, w) = (Ret r, (false, w')) /\
  match r with
  | inl out' => exists o, out' = out ++ option_list o
  | inr e => strict = true /\ exists st, st <> 0 /\ e = ErrEfi st
  end.
Proof. exists (inl out), w. split; [done|]. exists None. by rewrite app_nil_r. Qed.

Lemma adds_entry {A} strict (out : list A) x w : exists r w',
  (mret (inl (out ++ [x])) : SM (list A + goerror)) (false, w) = (Ret r, (false, w')) /\
  match r with
  | inl out' => exists o, out' = out ++ option_list o
  | inr e => strict = true /\ exists st, st <> 0 /\ e = ErrEfi st
  end.
Proof. exists (inl (out ++ [x])), w. split; [done|]. by exists (Some x). Qed.

#[local] Hint Resolve adds_nothing adds_entry : core.

Lemma stub_answer fn args w :
  stub fn args (false, w) = let r := call_entry fn args w in (Ret r.1, (false, r.2)).
Proof. unfold stub. by destruct (call_entry fn args w). Qed.

Lemma stub_total fn args w : exists st w', stub fn args (false, w) = (Ret st, (false, w')).
Proof. rewrite stub_answer. by do 2 eexists. Qed.

(** The part of an enumeration that all share. *)
Lemma enumerates_from {A} g v quiet strict makes (body : list A -> Z -> SM (list A + goerror)) m w :
  systemTable g <> 0 -> adds_one strict body ->
  m = ('(st, count, buffer) ← locate g v;
    if quiet && (st =? Spec.code NOT_FOUND) then mret ([], None)
    else if negb (st =? 0) then mret ([], Some (ErrEfi st)) else
    '(handles, len) ← handle_slice count buffer;
    if (makes : bool) then _ ← make len 8; for_handles (Z.to_nat len) handles body []
    else for_handles (Z.to_nat len) handles body []) ->
  enumerates g v quiet strict makes m w.
Proof.
  intros Hg Hb ->. unfold enumerates. pose proof (locate_step g v w Hg) as E.
  destruct (located g v w) as [st w1]. cbn [fst snd] in E.
  pose proof (rest_listed strict makes body (w_brk w) (w_brk w + 8) w1 Hb) as Hr. cbv zeta in Hr.
  destruct (quiet && (st =? Spec.code NOT_FOUND)) eqn:Eq;
    [erewrite sm_step by exact E; cbv beta iota; by rewrite Eq|].
  destruct (negb (st =? 0)) eqn:Ez;
    [erewrite sm_step by exact E; cbv beta iota; by rewrite Eq, Ez|].
  destruct (_ && _); erewrite sm_step by exact E; cbv beta iota; rewrite Eq, Ez; exact Hr.
Qed.

(** The five enumerations, on any firmware.  Each starts with one call of
    LocateHandleBuffer by protocol, for the variable that has the identifier of
    its protocol.  When that finds nothing, the file systems and the disks are an
    empty list and no error; a status of failure is returned with an empty list
    otherwise.  A count or an address that make no slice, and a list too long to
    allocate, panic.  Else the enumeration ends with at most as many entries as the
    firmware has counted and no error; only that of the serial ports gives up,
    with an empty list and the status, when a handle has no interface.  The mutex
    of the package is free again in every case. *)
Theorem enumerations_end g w : systemTable g <> 0 ->
  enumerates g EFI_SIMPLE_FILE_SYSTEM_PROTOCOL_GUID true false true (EnumerateFileSystems g) w /\
  enumerates g EFI_DISK_IO_PROTOCOL_GUID true false true (EnumerateDisks g) w /\
  enumerates g EFI_SERIAL_IO_PROTOCOL_GUID false true true (EnumerateSerialPorts g) w /\
  enumerates g EFI_SIMPLE_NETWORK_PROTOCOL_GUID false false false (EnumerateSNP g) w /\
  enumerates g EFI_DHCP4_SERVICE_BINDING_PROTOCOL_GUID false false true (EnumerateDHCPv4 g) w.
Proof.
  intros Hg. split_and!; (eapply enumerates_from; [exact Hg| |reflexivity]); intros out h w0.
  - asks Hg. destruct (st =? 0); eauto.
  - asks Hg. destruct (negb (st =? 0)); eauto. asks Hg. destruct (negb (st0 =? 0)); eauto.
  - asks Hg. destruct (Z.eqb_spec st 0); cbn [negb]; eauto.
    eexists _, _. split; [reflexivity|]. split; [done|]. by exists st.
  - erewrite sm_step by (by apply BS_step).
    unfold BootTable.ConnectController, field, UefiCall4.
    edestruct (stub_total) as (st & w1 & E). erewrite sm_step.
    2: { erewrite sm_step by reflexivity. exact E. }
    asks Hg. destruct (negb (st0 =? 0)); eauto.
  - asks Hg. destruct (negb (st =? 0)); eauto. erewrite sm_step by reflexivity.
    unfold Dhcp4ServiceBinding.CreateChild, pfield, UefiCall2.
    edestruct (stub_total) as (st1 & w2 & E1). erewrite sm_step.
    2: { erewrite sm_step by reflexivity. exact E1. }
    destruct (negb (st1 =? 0)); eauto. erewrite sm_step by reflexivity.
    asks Hg. destruct (negb (st0 =? 0)); eauto.
Qed.
End Enumerations.

(** A firmware that lists three handles at 0x6000, the second of which has no
    interface. *)
Definition handles_machine : Machine := machine_with unit (fun fn args m s =>
  match args with
  | [_; _; _; count; buffer] =>
      (0, store64 (store64 (foldr (fun '(a, h) m => store64 m a h) m
        [(0x6000, 1); (0x6008, 2); (0x6010, 3)]) count 3) buffer 0x6000, s)
  | [h; _; p] => if h =? 2 then (Spec.code UNSUPPORTED, m, s) else (0, store64 m p (0x7000 + 16 * h), s)
  | _ => (0, m, s)
  end).

Definition handles_world : World (H := handles_machine) :=
  mkWorld handles_machine (store64 ∅ 0x1060 0x2000) 0x10000 false [] tt.

Lemma enumerations_end_witness :
  let g := mkPackage 0x1000 7 (fun _ => 0x1800) in
  (exists w', EnumerateFileSystems (H := handles_machine) g (false, handles_world) =
     (Ret ([0x7010; 0x7030], None), (false, w'))) /\
  exists w', EnumerateSerialPorts (H := handles_machine) g (false, handles_world) =
    (Ret ([], Some (ErrEfi (Spec.code UNSUPPORTED))), (false, w')).
Proof.
  intros g.
  destruct (enumerations_end (H := handles_machine) g handles_world ltac:(discriminate))
    as (Hf & _ & Hs & _).
  assert ((EnumerateFileSystems g (false, handles_world)).1 = Ret ([0x7010; 0x7030], None)) as Ef
    by (vm_compute; reflexivity).
  assert ((EnumerateSerialPorts g (false, handles_world)).1 =
    Ret ([], Some (ErrEfi (Spec.code UNSUPPORTED)))) as Es by (vm_compute; reflexivity).
  assert ((located g EFI_SIMPLE_FILE_SYSTEM_PROTOCOL_GUID handles_world).1 = 0) as L1 by (vm_compute; reflexivity).
  assert ((located g EFI_SERIAL_IO_PROTOCOL_GUID handles_world).1 = 0) as L2 by (vm_compute; reflexivity).
  split.
  - unfold enumerates in Hf. destruct (located g _ handles_world) as [st w1]. cbn [fst] in L1. subst st.
    cbn [andb negb Z.eqb Spec.code] in Hf.
    destruct (_ && _) in Hf; [destruct Hf as (r & w' & E & _)|destruct Hf as (p & E)];
      rewrite E in Ef; cbn [fst] in Ef; [|discriminate Ef].
    injection Ef as ->. exists w'. exact E.
  - unfold enumerates in Hs. destruct (located g _ handles_world) as [st w1]. cbn [fst] in L2. subst st.
    cbn [andb negb Z.eqb] in Hs.
    destruct (_ && _) in Hs; [destruct Hs as (r & w' & E & _)|destruct Hs as (p & E)];
      rewrite E in Es; cbn [fst] in Es; [|discriminate Es].
    injection Es as ->. exists w'. exact E.
Defined.
