(* ===== verification/Events.v ===== *)
(** * Events: waiting for an event and reading a key

    [WaitForEvent] of runtime.go polls an event until it is signalled; [GetKey]
    of simple_text_in.go waits for a key with it and reads the key, which is proved
    for a firmware that keeps events and keys. *)

From S2P Require Import Prelude Binary Machine Status SpecTables Protocols Disk Serial Handles.

Section Events.
Context `{Machine}.

Fixpoint WaitForEvent (fuel : nat) (g : package) (event : Z) : SM unit :=
  match fuel with
  | O => fun s => (NoFuel, s)
  | S fuel =>
      bs ← BS g;
      status ← BootTable.CheckEvent bs event;
      if status =? 0 then mret tt else WaitForEvent fuel g event
  end.

(** EFI_KEY_DATA: the scan code, the character and the key state, 12 bytes. *)
Definition key_len : nat := 12.

Definition GetKey (fuel : nat) (g : package) (p : Z) : SM (list Z) :=
  key ← on_world (alloc (replicate key_len 0));
  event ← pfield TextInputEx.fields "WaitForKeyEx" p;
  _ ← WaitForEvent fuel g event;
  status ← TextInputEx.ReadKeyStroke p key;
  if negb (status =? 0) then on_world (get_bytes key key_len)
  else on_world (get_bytes key key_len).
End Events.

(** ** Events and keys

    [waits s e]: after how many checks the event [e] is signalled, if ever;
    [tick] is what a check of it does to the firmware.  CheckEvent answers
    EFI_NOT_READY until then, as ReadKeyStrokeEx does without a key.  Both may change
    memory of the firmware's own, since a check can run notification functions. *)
Class EventService `{Machine} := {
  waits : fwstate -> Z -> option nat;
  tick : Z -> fwstate -> fwstate;
  next_key : fwstate -> option (list Z);
  pop_key : fwstate -> fwstate;
  own : Z -> Prop;
  waits_later : forall s e n, waits s e = Some (S n) -> waits (tick e s) e = Some n;
  waits_never : forall s e, waits s e = None -> waits (tick e s) e = None;
  key_length : forall s k, next_key s = Some k -> length k = key_len;
  check_code : Z;
  key_code : Z;
  spared (m m' : memory) : Prop := forall a n,
    (forall b, a <= b < a + Z.of_nat n -> ~ own b) -> load_bytes m' a n = load_bytes m a n;
  check_contract : forall e m s, exists m',
    firmware check_code [e] m s =
    (if decide (waits s e = Some 0%nat) then 0 else Spec.code NOT_READY, m', tick e s) /\ spared m m';
  key_contract : forall p a m s, exists m',
    firmware key_code [p; a] m s =
    match next_key s with
    | Some k => (0, store_bytes m' a k, pop_key s)
    | None => (Spec.code NOT_READY, m', s)
    end /\ spared m m';
}.

Section Wait.
Context `{EventService}.

Definition off_check : Z := Eval vm_compute in offset_of BootTable.fields "checkEvent".

(** The boot services and the keyboard at [p], below [lo]; the firmware's own
    memory is there too, but not where these fields are. *)
Definition keyboard_at (g : package) (p lo : Z) (m : memory) : Prop :=
  let bs := load64 m (systemTable g + 96) in
  0 < systemTable g /\ systemTable g + 104 <= lo /\ lo <= 2 ^ 64 /\ 0 <= bs /\ bs + 400 <= lo /\
  load64 m (bs + off_check) = check_code /\
  0 <= p /\ p + 48 <= lo /\ load64 m (p + 8) = key_code /\
  forall b, own b -> b < lo /\ ~ systemTable g + 96 <= b < systemTable g + 104 /\
    ~ bs + off_check <= b < bs + off_check + 8 /\ ~ p <= b < p + 48.

Lemma spared_refl m : spared m m.
Proof. by intros a n _. Qed.

Lemma spared_trans m1 m2 m3 : spared m1 m2 -> spared m2 m3 -> spared m1 m3.
Proof. intros H1 H2 a n Hn. by rewrite H2, H1. Qed.

(** What leaves the fields alone. *)
Lemma keyboard_kept g p lo m m' : keyboard_at g p lo m ->
  (forall a, a + 8 <= lo -> (forall b, a <= b < a + 8 -> ~ own b) -> load64 m' a = load64 m a) ->
  keyboard_at g p lo m' /\ load64 m' (p + 16) = load64 m (p + 16).
Proof.
  unfold keyboard_at, off_check. intros (? & ? & ? & ? & ? & ? & ? & ? & ? & Hown) Hm.
  assert (load64 m' (systemTable g + 96) = load64 m (systemTable g + 96)) as Eb.
  { apply Hm; [lia|]. intros b Hb Ho. destruct (Hown b Ho). lia. }
  assert (load64 m' (p + 8) = load64 m (p + 8)) as Ek.
  { apply Hm; [lia|]. intros b Hb Ho. destruct (Hown b Ho). lia. }
  rewrite Eb, Ek. rewrite (Hm (load64 m (systemTable g + 96) + _)).
  2: lia.
  2: { intros b Hb Ho. destruct (Hown b Ho). lia. }
  split; [done|]. apply Hm; [lia|]. intros b Hb Ho. destruct (Hown b Ho). lia.
Qed.

Lemma keyboard_spared g p lo m m' : keyboard_at g p lo m -> spared m m' ->
  keyboard_at g p lo m' /\ load64 m' (p + 16) = load64 m (p + 16).
Proof.
  intros Hk Hm. apply keyboard_kept with (1 := Hk). intros a _ Ha. unfold load64. by rewrite Hm.
Qed.

Lemma keyboard_below g p lo m m' : keyboard_at g p lo m -> agree_below lo m m' ->
  keyboard_at g p lo m' /\ load64 m' (p + 16) = load64 m (p + 16).
Proof.
  intros Hk Hm. apply keyboard_kept with (1 := Hk). intros a Ha _. by apply (agree_load64 lo m m').
Qed.

(** One round of the loop. *)
Lemma WaitForEvent_round fuel g p lo event w : keyboard_at g p lo (w_mem w) ->
  exists w', w_fw w' = tick event (w_fw w) /\ w_brk w' = w_brk w /\ spared (w_mem w) (w_mem w') /\
    WaitForEvent (S fuel) g event (false, w) =
    (if decide (waits (w_fw w) event = Some 0%nat) then mret tt else WaitForEvent fuel g event) (false, w').
Proof.
  intros (Hs & Hlo & H64 & Hb & Hb2 & Hc & _).
  destruct (check_contract event (w_mem w) (w_fw w)) as (m' & E & Hm).
  exists (mkWorld _ m' (w_brk w) (w_mux w) (w_log w) (tick event (w_fw w))). split_and!; [done..|].
  cbn [WaitForEvent]. unfold BS. rewrite (proj2 (Z.eqb_neq _ 0)) by lia.
  erewrite sm_step by reflexivity. rewrite wrap_small by (unfold is_word; lia).
  set (bs := load64 (w_mem w) (systemTable g + 96)) in *.
  assert (BootTable.CheckEvent bs event (false, w) = called w (firmware check_code [event] (w_mem w) (w_fw w)))
    as Ec.
  { unfold BootTable.CheckEvent, field, UefiCall1.
    change (offset_of BootTable.fields "checkEvent") with off_check.
    etransitivity; [apply stub_step; unfold off_check, is_word; lia|]. unfold once. by rewrite Hc. }
  rewrite E in Ec. erewrite sm_step by exact Ec. case_decide; [done|].
  by rewrite (proj2 (Z.eqb_neq (Spec.code NOT_READY) 0)) by (vm_compute; discriminate).
Qed.

Lemma WaitForEvent_signalled k fuel g p lo event w : keyboard_at g p lo (w_mem w) ->
  waits (w_fw w) event = Some k -> (k < fuel)%nat ->
  exists w', WaitForEvent fuel g event (false, w) = (Ret tt, (false, w')) /\
    w_fw w' = Nat.iter (S k) (tick event) (w_fw w) /\ w_brk w' = w_brk w /\ spared (w_mem w) (w_mem w').
Proof.
  revert fuel w. induction k as [|k IH]; intros fuel w Hk Hw Hf; (destruct fuel as [|fuel]; [lia|]);
    destruct (WaitForEvent_round fuel _ _ _ event _ Hk) as (w1 & Hs1 & Hb1 & Hm1 & ->); rewrite Hw.
  - rewrite decide_True by done. by exists w1.
  - rewrite decide_False by done.
    destruct (IH fuel w1) as (w2 & E & Hs2 & Hb2 & Hm2);
      [by apply (keyboard_spared _ _ _ _ _ Hk)|rewrite Hs1; by apply waits_later|lia|].
    exists w2. split; [done|]. rewrite Hs2, Hs1, Hb2, Hb1, (Nat.iter_succ_r (S k)).
    split_and!; [done..|]. by apply spared_trans with (w_mem w1).
Qed.

Lemma WaitForEvent_never fuel g p lo event w : keyboard_at g p lo (w_mem w) ->
  waits (w_fw w) event = None -> exists s, WaitForEvent fuel g event (false, w) = (NoFuel, s).
Proof.
  revert w. induction fuel as [|fuel IH]; intros w Hk Hw; [by eexists|].
  destruct (WaitForEvent_round fuel _ _ _ event _ Hk) as (w1 & Hs1 & _ & Hm1 & ->).
  rewrite Hw, decide_False by done. apply IH; [by apply (keyboard_spared _ _ _ _ _ Hk)|].
  rewrite Hs1. by apply waits_never.
Qed.

(** Reading the key into [a], which is above the firmware's memory. *)
Lemma ReadKeyStroke_step g p lo a w : keyboard_at g p lo (w_mem w) -> lo <= a ->
  load_bytes (w_mem w) a key_len = replicate key_len 0 ->
  exists st w', TextInputEx.ReadKeyStroke p a (false, w) = (Ret st, (false, w')) /\
    load_bytes (w_mem w') a key_len = default (replicate key_len 0) (next_key (w_fw w)) /\
    w_fw w' = match next_key (w_fw w) with Some _ => pop_key (w_fw w) | None => w_fw w end.
Proof.
  intros (_ & _ & H64 & _ & _ & _ & Hp & Hp2 & Hkey & Hown) Ha Hz.
  destruct (key_contract p a (w_mem w) (w_fw w)) as (m' & E & Hm).
  assert (TextInputEx.ReadKeyStroke p a (false, w) = called w (firmware key_code [p; a] (w_mem w) (w_fw w)))
    as ->.
  { unfold TextInputEx.ReadKeyStroke, pfield, UefiCall2. change (poffset _ _) with 8.
    etransitivity; [apply stub_step; unfold is_word; lia|]. unfold once. by rewrite Hkey. }
  rewrite E. destruct (next_key (w_fw w)) as [key|] eqn:Ek; do 2 eexists; (split; [reflexivity|]);
    cbn [w_mem w_fw default]; (split; [|done]).
  - rewrite <-(key_length _ _ Ek). apply load_store_same.
  - cbn [from_option id]. rewrite <-Hz. apply Hm. intros b Hb Ho. destruct (Hown b Ho). lia.
Qed.
End Wait.


(** A keyboard whose event is signalled at the third check; the firmware keeps a
    count in memory. *)
Definition key_machine : Machine := machine_with (nat * option (list Z)) (fun fn args m s =>
  match fn, args with
  | 0x9000, [_] => (if decide (Some s.1 = Some 0%nat) then 0 else Spec.code NOT_READY,
      store64 m 0x3000 (Z.of_nat s.1), (pred s.1, s.2))
  | 0x9001, [_; a] => match s.2 with
                      | Some k => (0, store_bytes m a (take 12 (k ++ replicate 12 0)), (s.1, None))
                      | None => (Spec.code NOT_READY, m, s)
                      end
  | _, _ => (Spec.code UNSUPPORTED, m, s)
  end).

#[refine] Instance demo_keys : EventService (H := key_machine) := {
  waits s _ := Some s.1;
  tick _ s := (pred s.1, s.2);
  next_key s := (fun k => take 12 (k ++ replicate 12 0)) <$> s.2;
  pop_key s := (s.1, None);
  own b := 0x3000 <= b < 0x3008;
  check_code := 0x9000;
  key_code := 0x9001;
}.
Proof.
  - by intros [n k] e n' [= ->].
  - done.
  - intros [n [k|]] k' [= <-]. unfold key_len. rewrite length_take, length_app. cbn [length]. lia.
  - intros e m s. exists (store64 m 0x3000 (Z.of_nat s.1)). split; [reflexivity|].
    intros a n Ha. destruct (decide (n = 0%nat)) as [->|]; [done|].
    apply load_store_other. rewrite length_le_enc. unfold disjoint_ranges.
    destruct (decide (0x3000 + Z.of_nat 8 <= a)); [lia|].
    destruct (decide (a + Z.of_nat n <= 0x3000)); [lia|].
    exfalso. apply (Ha (Z.max a 0x3000)); lia.
  - intros p a m [n [k|]]; exists m; (split; [reflexivity|by intros ? ?]).
Defined.

Definition key_world : World (H := key_machine) :=
  mkWorld key_machine
    (foldr (fun '(a, v) m => store64 m a v) ∅
       [(0x1060, 0x1100); (0x1100 + off_check, 0x9000); (0x2008, 0x9001); (0x2010, 0x55)])
    0x9000 false [] (2%nat, Some [23; 0; 0x41]).

