(* ===== verification/Ticks.v ===== *)
(** * Ticks: calibrating the time stamp counter

    [TicksFrequency] of clock.go: the frequency CPUID gives, else the one
    measured once with a timer event and kept in [calculatedFrequency]; [GetTime];
    and [DebugPrint] of util.go, which reports failures on the console.
    [getTscFrequency] and [Ticks] are parameters: their definitions are
    commented out in arch_x86.go.  What a calibration calls, and in which order, is
    proved for any firmware. *)

From S2P Require Import Prelude Binary Machine Status Text SpecTables Protocols Disk Serial Handles.

Definition EVT_TIMER : Z := 0x80000000.
Definition TPL_CALLBACK : Z := 8.
Definition TimerPeriodic : Z := 1.

Section Ticks.
Context `{Machine} (getTscFrequency Ticks : SM Z).

(** The message in [printBuf], at the address given, printed through ConOut. *)
Definition DebugPrint (g : package) (printBuf : Z) (text : gostring) (val : Z) : SM unit :=
  us ← on_world (lift (DebugPrint_buf text val));
  _ ← on_world (put_bytes printBuf (concat (map (le_enc 2) us)));
  conOut ← (if systemTable g =? 0 then sm_panic PNil else on_world (get64 (u64 (systemTable g + 64))));
  _ ← TextOutput.OutputString conOut printBuf;
  mret tt.

(** The result and the new value of [calculatedFrequency]; [calibrateMutex] is
    free at the entry and again at the exit of every path. *)
Definition TicksFrequency (g : package) (printBuf calculatedFrequency : Z) : SM (Z * Z) :=
  frequency ← getTscFrequency;
  if 0 <? frequency then mret (frequency, calculatedFrequency) else
  event ← on_world (alloc64 0);
  index ← on_world (alloc64 0);
  if 0 <? calculatedFrequency then mret (calculatedFrequency, calculatedFrequency) else
  bs ← BS g;
  status ← BootTable.CreateEvent bs EVT_TIMER TPL_CALLBACK 0 0 event;
  if negb (status =? 0) then
    _ ← DebugPrint g printBuf (bytes_of_string "GetTscFrequency) CreateEvent Failed") status;
    mret (0, calculatedFrequency)
  else
  deferred ← on_world (get64 event);
  st ← Ticks;
  e ← on_world (get64 event);
  status ← BootTable.SetTimer bs e TimerPeriodic (250 * 10000);
  if negb (status =? 0) then
    _ ← DebugPrint g printBuf (bytes_of_string "GetTscFrequency) SetTimer Failed") status;
    _ ← BootTable.CloseEvent bs deferred;
    mret (0, calculatedFrequency)
  else
  _ ← BootTable.WaitForEvent bs 1 event index;
  now ← Ticks;
  let diff := u64 (now - st) in
  let calculatedFrequency := u64 (diff * 4) in
  _ ← BootTable.CloseEvent bs deferred;
  mret (calculatedFrequency, calculatedFrequency).

(** EFI_TIME is 16 bytes. *)
Definition GetTime (g : package) : SM (list Z * Z) :=
  time ← on_world (alloc (replicate 16 0));
  rt ← (if systemTable g =? 0 then sm_panic PNil else on_world (get64 (u64 (systemTable g + 88))));
  status ← Runtime.GetTime rt time 0;
  bytes ← on_world (get_bytes time 16);
  mret (bytes, status).
End Ticks.

(** ** What the calibration does *)

Definition off_create : Z := Eval vm_compute in offset_of BootTable.fields "createEvent".
Definition off_arm : Z := Eval vm_compute in offset_of BootTable.fields "setTimer".
Definition off_wait : Z := Eval vm_compute in offset_of BootTable.fields "waitForEvent".
Definition off_close : Z := Eval vm_compute in offset_of BootTable.fields "closeEvent".

Section Calibrate.
Context `{Machine}.

(** The call of a service of the boot services at [bs] through the word that its
    entry holds, and the direct one. *)
Definition through (bs off : Z) (args : list Z) (w : World) : Z * World :=
  call_entry (twice (w_mem w) (u64 (bs + off))) args w.
Definition direct (bs off : Z) (args : list Z) (w : World) : Z * World :=
  call_entry (once (w_mem w) (u64 (bs + off))) args w.

Lemma CreateEvent_call bs a b c d e w :
  BootTable.CreateEvent bs a b c d e (false, w) =
  let r := through bs off_create [a; b; c; d; e] w in (Ret r.1, (false, r.2)).
Proof.
  unfold BootTable.CreateEvent, field, UefiCall5. erewrite sm_step by reflexivity. apply call_through.
Qed.

Lemma SetTimer_call bs a b c w :
  BootTable.SetTimer bs a b c (false, w) =
  let r := through bs off_arm [a; b; c] w in (Ret r.1, (false, r.2)).
Proof. unfold BootTable.SetTimer, field, UefiCall3. erewrite sm_step by reflexivity. apply call_through. Qed.

Lemma WaitForEvent_call bs a b c w :
  BootTable.WaitForEvent bs a b c (false, w) =
  let r := through bs off_wait [a; b; c] w in (Ret r.1, (false, r.2)).
Proof. unfold BootTable.WaitForEvent, field, UefiCall3. erewrite sm_step by reflexivity. apply call_through. Qed.

Lemma CloseEvent_call bs a w :
  BootTable.CloseEvent bs a (false, w) =
  let r := direct bs off_close [a] w in (Ret r.1, (false, r.2)).
Proof.
  unfold BootTable.CloseEvent, field, UefiCall1. erewrite sm_step by reflexivity.
  apply stub_answer.
Qed.

Lemma DebugPrint_buf_fits text val : zlen text <= 236 -> exists us, DebugPrint_buf text val = Ret us.
Proof.
  intros Hl. unfold DebugPrint_buf. rewrite decide_True; [by eexists|].
  rewrite !length_app, length_map, length_seqZ. unfold zlen in Hl. simpl. lia.
Qed.

(** Printing a short text makes one call, of OutputString with [printBuf]. *)
Lemma DebugPrint_step g printBuf text val w : systemTable g <> 0 -> zlen text <= 236 ->
  exists us, DebugPrint_buf text val = Ret us /\
  let w1 := set_mem (store_bytes (w_mem w) printBuf (concat (map (le_enc 2) us))) w in
  let conOut := load64 (w_mem w1) (u64 (systemTable g + 64)) in
  DebugPrint g printBuf text val (false, w) =
  (Ret tt, (false, (call_entry (once (w_mem w1) (u64 (conOut + 8))) [conOut; printBuf] w1).2)).
Proof.
  intros Hg Hl. destruct (DebugPrint_buf_fits text val Hl) as [us Hus]. exists us. split; [done|].
  intros w1 conOut.
  unfold DebugPrint. erewrite sm_step by (unfold on_world, lift; by rewrite Hus).
  erewrite sm_step by reflexivity. fold w1. rewrite (proj2 (Z.eqb_neq (systemTable g) 0)) by done.
  erewrite sm_step by reflexivity. fold conOut.
  unfold TextOutput.OutputString, pfield, UefiCall2. change (poffset _ _) with 8.
  erewrite sm_step; [reflexivity|]. erewrite sm_step by reflexivity. apply stub_answer.
Qed.

(** The world after printing. *)
Definition printed (g : package) (printBuf : Z) (text : string) (val : Z) (w : World) : World :=
  snd (snd (DebugPrint g printBuf (bytes_of_string text) val (false, w))).

Lemma printed_step g printBuf text val w : systemTable g <> 0 -> zlen (bytes_of_string text) <= 236 ->
  DebugPrint g printBuf (bytes_of_string text) val (false, w) =
  (Ret tt, (false, printed g printBuf text val w)).
Proof.
  intros Hg Hl. unfold printed. destruct (DebugPrint_step g printBuf (bytes_of_string text) val w Hg Hl)
    as (us & _ & E). cbv zeta in E. by rewrite E.
Qed.

(** The measured frequency: four times the ticks of a quarter, in 64 bits,
    also when the counter wraps around meanwhile. *)
Lemma measured c c' : u64 (u64 (c' - c) * 4) = u64 (4 * (c' - c)).
Proof. unfold wrap. rewrite Zmult_mod_idemp_l. f_equal. lia. Qed.

Variables (getTscFrequency Ticks : SM Z) (counter : World -> Z).

(** [Ticks] reads a counter and changes nothing. *)
Hypothesis ticks_counter : forall w, Ticks (false, w) = (Ret (counter w), (false, w)).

(** C40. What [TicksFrequency] does, on any firmware.  A frequency that CPUID gives,
    or one measured before, is returned without a call of the firmware.  Else a
    periodic timer event of 2,500,000 units is made, armed and waited for once, and the
    result is four times what the counter has advanced from before the arming to
    after the wait, in 64 bits, which is also kept; the status of the wait plays
    no part.  When the event cannot be made or armed, the failure is printed with
    its status, the result is 0 and what was kept stays.  On every path on which
    the event was made, the last call closes it, the event that CreateEvent has
    stored.  Making, arming and waiting go through the word that the entry of the
    boot services holds, printing and closing do not. *)
Theorem TicksFrequency_paths g printBuf calc f w :
  systemTable g <> 0 -> getTscFrequency (false, w) = (Ret f, (false, w)) ->
  let w1 := alloc_world (le_enc 8 0) (alloc_world (le_enc 8 0) w) in
  let event := w_brk w in
  let index := w_brk w + 8 in
  let bs := load64 (w_mem w1) (u64 (systemTable g + 96)) in
  let '(made, w2) := through bs off_create [EVT_TIMER; TPL_CALLBACK; 0; 0; event] w1 in
  let e := load64 (w_mem w2) event in
  let '(armed, w3) := through bs off_arm [e; TimerPeriodic; 2500000] w2 in
  let w4 := (through bs off_wait [1; event; index] w3).2 in
  let close w := (direct bs off_close [e] w).2 in
  let returns r calc' w' :=
    TicksFrequency getTscFrequency Ticks g printBuf calc (false, w) = (Ret (r, calc'), (false, w')) in
  if 0 <? f then returns f calc w
  else if 0 <? calc then returns calc calc w1
  else if negb (made =? 0) then
    returns 0 calc (printed g printBuf "GetTscFrequency) CreateEvent Failed" made w2)
  else if negb (armed =? 0) then
    returns 0 calc (close (printed g printBuf "GetTscFrequency) SetTimer Failed" armed w3))
  else let freq := u64 (4 * (counter w4 - counter w2)) in returns freq freq (close w4).
Proof.
  intros Hg Hf w1 event index bs.
  destruct (through bs off_create _ w1) as [made w2] eqn:E2. intros e.
  destruct (through bs off_arm _ w2) as [armed w3] eqn:E3. intros w4 close returns.
  unfold returns, TicksFrequency. erewrite sm_step by exact Hf. destruct (0 <? f); [done|].
  do 2 (erewrite sm_step by reflexivity). fold w1. destruct (0 <? calc); [done|].
  rewrite !alloc_world_brk, alloc_size_word. fold index event.
  erewrite sm_step by (by apply BS_step). fold bs.
  erewrite sm_step by (rewrite CreateEvent_call, E2; reflexivity). cbn [fst snd].
  destruct (negb (made =? 0)).
  { by erewrite sm_step by (apply printed_step; [done|vm_compute; discriminate]). }
  erewrite sm_step by reflexivity. fold e. erewrite sm_step by apply ticks_counter.
  erewrite sm_step by reflexivity. fold e. change (250 * 10000) with 2500000.
  erewrite sm_step by (rewrite SetTimer_call, E3; reflexivity). cbn [fst snd].
  destruct (negb (armed =? 0)).
  { erewrite sm_step by (apply printed_step; [done|vm_compute; discriminate]).
    by erewrite sm_step by apply CloseEvent_call. }
  erewrite sm_step by apply WaitForEvent_call. fold w4. erewrite sm_step by apply ticks_counter.
  erewrite sm_step by apply CloseEvent_call. by rewrite measured.
Qed.
End Calibrate.

(** A counter that runs at 1 MHz and is about to wrap around; the firmware keeps
    the open events and the counter, and knows its functions by their number of
    arguments. *)
Definition tick_machine : Machine := machine_with (gset Z * Z) (fun fn args m s =>
  match args with
  | [_; _; _; _; pe] => (0, store64 m pe 0x77, ({[0x77]} ∪ s.1, s.2))
  | [1; _; pi] => (0, store64 m pi 0, (s.1, u64 (s.2 + 250000)))
  | [e] => (0, m, (s.1 ∖ {[e]}, s.2))
  | _ => (0, m, s)
  end).

Definition demo_Ticks : SM (H := tick_machine) Z := fun '(mux, w) => (Ret (snd (w_fw w)), (mux, w)).

Definition tick_world : World (H := tick_machine) :=
  mkWorld tick_machine (foldr (fun '(a, v) m => store64 m a v) ∅ [(0x1060, 0x1100); (0x1040, 0x2000)])
    0x9000 false [] (∅, 2 ^ 64 - 5).

Lemma TicksFrequency_paths_witness :
  exists w', TicksFrequency (H := tick_machine) (fun s => (Ret 0, s)) demo_Ticks
      (mkPackage 0x1000 7 (fun _ => 0)) 0x4000 0 (false, tick_world) =
    (Ret (1000000, 1000000), (false, w')) /\ (w_fw w').1 = ∅.
Proof.
  pose proof (TicksFrequency_paths (H := tick_machine) (fun s => (Ret 0, s)) demo_Ticks
    (fun w => (w_fw w).2) ltac:(done) (mkPackage 0x1000 7 (fun _ => 0)) 0x4000 0 0 tick_world
    ltac:(discriminate) eq_refl) as E.
  eexists. split; [exact E|]. vm_compute. reflexivity.
Defined.
