(* ===== verification/Vars.v ===== *)
(** * Vars: the EFI variables, as cmd/efiload lists them

    [getkey] and [vars] of cmd/efiload/main.go: the loop over
    GetNextVariableName with its growing name buffer, and the value of every
    variable.  What [vars] prints is collected as a list of lines. *)

From S2P Require Import Prelude Binary Machine Status Text SpecTables.

(** A slice of CHAR16: address, length and capacity. *)
Record chars := mkChars { ch_ptr : Z; ch_len : Z; ch_cap : Z }.

Section Vars.
Context `{Machine}.

(** [s[:n]] *)
Definition chars_to (s : chars) (n : Z) : SM chars :=
  if (n <? 0) || (ch_cap s <? n) then sm_panic PSlice else mret (mkChars (ch_ptr s) n (ch_cap s)).

(** [&s[0]] *)
Definition chars_0 (s : chars) : SM Z :=
  if ch_len s <=? 0 then sm_panic PIndex else mret (ch_ptr s).

(** [uefi.ST().RuntimeServices] *)
Definition RuntimeServices (systemTable : Z) : SM Z :=
  on_world (get64 (u64 (systemTable + 88))).

Definition getkey (systemTable : Z) (key : chars) (vendor : Z) : SM (list Z * bool) :=
  dataSize ← on_world (alloc64 0);
  data ← make 16 1;
  rt ← RuntimeServices systemTable;
  name ← chars_0 key;
  status ← Runtime.GetVariable rt name vendor 0 dataSize data;
  if status =? Spec.code NOT_FOUND then mret ([], false)
  else if status =? Spec.code BUFFER_TOO_SMALL then
    n ← on_world (get64 dataSize);
    data ← make (i64 n) 1;
    rt ← RuntimeServices systemTable;
    name ← chars_0 key;
    p ← (if i64 n =? 0 then sm_panic PIndex else mret data);
    status ← Runtime.GetVariable rt name vendor 0 dataSize p;
    if negb (status =? 0) then mret ([], false)
    else value ← on_world (get_bytes data (Z.to_nat (i64 n))); mret (value, true)
  else
    n ← on_world (get64 dataSize);
    if 16 <? n then sm_panic PSlice
    else value ← on_world (get_bytes data (Z.to_nat n)); mret (value, false).

(** The loop of [vars]: the name buffer, and the addresses of the variables
    [varKeySize] and [vendorGUID]. *)
Fixpoint vars_loop (fuel : nat) (systemTable : Z) (varKey : chars) (varKeySize vendorGUID : Z)
    (printed : list (gostring * list Z)) : SM (list (gostring * list Z)) :=
  match fuel with
  | O => fun s => (NoFuel, s)
  | S fuel =>
      rt ← RuntimeServices systemTable;
      name ← chars_0 varKey;
      status ← Runtime.GetNextVariableName rt varKeySize name vendorGUID;
      if status =? Spec.code BUFFER_TOO_SMALL then
        n ← on_world (get64 varKeySize);
        new ← make n 2;
        old ← on_world (get_bytes (ch_ptr varKey) (Z.to_nat (2 * Z.min n (ch_len varKey))));
        _ ← on_world (put_bytes new old);
        varKey ← chars_to (mkChars new n n) (n / 2);
        vars_loop fuel systemTable varKey varKeySize vendorGUID printed
      else if status =? 0 then
        n ← on_world (get64 varKeySize);
        text ← chars_to varKey (u64 (n - 1) / 2);
        us ← on_world (fun w => (Ret (load16s (w_mem w) (ch_ptr text) (Z.to_nat (ch_len text))), w));
        keyString ← on_world (lift (UTF16ToString us));
        n ← on_world (get64 varKeySize);
        key ← chars_to varKey (n / 2);
        '(val, _) ← getkey systemTable key vendorGUID;
        vars_loop fuel systemTable varKey varKeySize vendorGUID (printed ++ [(keyString, val)])
      else if status =? Spec.code NOT_FOUND then mret printed
      else if status =? Spec.code INVALID_PARAMETER then
        sm_panic (PMsg "invalid parameter passed to GetNextVariableName")
      else sm_panic (PMsg "StatusError")
  end.

Definition vars (fuel : nat) (systemTable : Z) : SM (list (gostring * list Z)) :=
  key ← make 1 2;
  varKeySize ← on_world (alloc64 2);
  vendorGUID ← make 16 1;
  vars_loop fuel systemTable (mkChars key 1 1) varKeySize vendorGUID [].
End Vars.

(** ** A store of variables *)

Record variable := mkVar { v_name : list Z; v_guid : list Z; v_data : list Z }.

(** Names are CHAR16 texts without NUL; a variable without data does not exist. *)
Definition variable_ok (v : variable) : Prop :=
  v_name v <> [] /\ Forall (fun u => 0 < u < 2 ^ 16) (v_name v) /\ zlen (v_name v) < 2 ^ 40 /\
  length (v_guid v) = 16%nat /\ v_data v <> [] /\ zlen (v_data v) < 2 ^ 40.

(** The bytes of a name with its terminator. *)
Definition name_bytes (us : list Z) : list Z := concat (map (le_enc 2) us) ++ [0; 0].

(** Variable [k] of the list comes next after the name and GUID at the two
    addresses: the empty name asks for the first one. *)
Definition comes_next (l : list variable) (m : memory) (name guid : Z) (k : nat) : Prop :=
  match k with
  | O => load_bytes m name 2 = [0; 0]
  | S i => exists v, l !! i = Some v /\
      load_bytes m name (length (name_bytes (v_name v))) = name_bytes (v_name v) /\
      load_bytes m guid 16 = v_guid v
  end.

Class VariableStore `{Machine} := {
  vs_vars : fwstate -> list variable;
  next_entry : Z;
  get_entry : Z;
  vs_ok : forall s, Forall variable_ok (vs_vars s);
  next_contract : forall size name guid m s k,
    comes_next (vs_vars s) m name guid k ->
    firmware next_entry [size; name; guid] m s =
    match vs_vars s !! k with
    | None => (Spec.code NOT_FOUND, m, s)
    | Some v =>
        let need := zlen (name_bytes (v_name v)) in
        if load64 m size <? need then (Spec.code BUFFER_TOO_SMALL, store64 m size need, s)
        else (0, store64 (store_bytes (store_bytes m name (name_bytes (v_name v))) guid (v_guid v))
                   size need, s)
    end;
  get_contract : forall name guid attr size data m s k v,
    comes_next (vs_vars s) m name guid (S k) -> vs_vars s !! k = Some v ->
    firmware get_entry [name; guid; attr; size; data] m s =
    if load64 m size <? zlen (v_data v)
    then (Spec.code BUFFER_TOO_SMALL, store64 m size (zlen (v_data v)), s)
    else (0, store64 (store_bytes m data (v_data v)) size (zlen (v_data v)), s);
}.

(** ** Calling the two services *)

Section Store.
Context `{VariableStore}.

(** The system table and the runtime services table, below [lo]. *)
Definition tables_at (st lo : Z) (m : memory) : Prop :=
  let rt := load64 m (st + 88) in
  0 <= st /\ st + 96 <= lo /\ 0 <= rt /\ rt + 88 <= lo /\ lo <= 2 ^ 64 /\
  load64 m (rt + 72) = get_entry /\ load64 m (rt + 80) = next_entry.

Lemma tables_kept st lo m m' : tables_at st lo m -> agree_below lo m m' -> tables_at st lo m'.
Proof.
  intros (? & ? & ? & ? & ? & ? & ?) Hm. unfold tables_at.
  rewrite !(agree_load64 lo m m' (st + 88)) by (done || lia).
  rewrite !(agree_load64 lo m m') by (done || lia). done.
Qed.

Lemma RuntimeServices_step st lo w : tables_at st lo (w_mem w) ->
  RuntimeServices st (false, w) = (Ret (load64 (w_mem w) (st + 88)), (false, w)).
Proof.
  intros (? & ? & _ & _ & ? & _). unfold RuntimeServices, on_world, get64.
  by rewrite wrap_small by (unfold is_word; lia).
Qed.

Lemma GetNext_step st lo w size name guid : tables_at st lo (w_mem w) ->
  Runtime.GetNextVariableName (load64 (w_mem w) (st + 88)) size name guid (false, w) =
  called w (firmware next_entry [size; name; guid] (w_mem w) (w_fw w)).
Proof.
  intros (_ & _ & ? & ? & ? & _ & Hn).
  unfold Runtime.GetNextVariableName, field_addr. erewrite sm_step by reflexivity.
  replace (offset_of Runtime.fields "getNextVariableName") with 80 by reflexivity.
  rewrite wrap_small by (unfold is_word; lia).
  unfold UefiCall3, callService, callFn. rewrite Hn.
  by destruct (firmware _ _ _ _) as [[? ?] ?].
Qed.

Lemma Get_step st lo w name guid attr size data : tables_at st lo (w_mem w) ->
  Runtime.GetVariable (load64 (w_mem w) (st + 88)) name guid attr size data (false, w) =
  called w (firmware get_entry [name; guid; attr; size; data] (w_mem w) (w_fw w)).
Proof.
  intros (_ & _ & ? & ? & ? & Hg & _).
  unfold Runtime.GetVariable, field_addr. erewrite sm_step by reflexivity.
  replace (offset_of Runtime.fields "getVariable") with 72 by reflexivity.
  rewrite wrap_small by (unfold is_word; lia).
  unfold UefiCall5, on_world, callFn. rewrite Hg.
  by destruct (firmware _ _ _ _) as [[? ?] ?].
Qed.

(** The bytes that the name before variable [k] takes. *)
Definition name_size (l : list variable) (k : nat) : Z :=
  match k with
  | O => 2
  | S i => match l !! i with Some v => zlen (name_bytes (v_name v)) | None => 2 end
  end.

Lemma comes_next_kept l m m' name name' guid k :
  comes_next l m name guid k ->
  (forall n, Z.of_nat n <= name_size l k -> load_bytes m' name' n = load_bytes m name n) ->
  load_bytes m' guid 16 = load_bytes m guid 16 -> comes_next l m' name' guid k.
Proof.
  destruct k as [|i]; cbn [comes_next name_size].
  - intros E Hn _. rewrite Hn by lia. done.
  - intros (v & E & Hname & Hguid) Hn Hg. exists v. rewrite E in Hn.
    rewrite Hn by (unfold zlen; lia). by rewrite Hg.
Qed.

Lemma zlen_name_bytes us : zlen (name_bytes us) = 2 * zlen us + 2.
Proof. unfold zlen, name_bytes. rewrite length_app, length_units. simpl. lia. Qed.

Lemma chars_to_step s n w : 0 <= n <= ch_cap s ->
  chars_to s n (false, w) = (Ret (mkChars (ch_ptr s) n (ch_cap s)), (false, w)).
Proof.
  intros Hn. unfold chars_to. by rewrite (proj2 (Z.ltb_ge n 0)), (proj2 (Z.ltb_ge (ch_cap s) n)) by lia.
Qed.

Lemma chars_0_step s w : 0 < ch_len s -> chars_0 s (false, w) = (Ret (ch_ptr s), (false, w)).
Proof. intros Hs. unfold chars_0. by rewrite (proj2 (Z.leb_gt _ _)) by lia. Qed.

Lemma vs_var_ok s k v : vs_vars s !! k = Some v -> variable_ok v.
Proof. intros Hk. pose proof (vs_ok s) as Hok. rewrite Forall_lookup in Hok. eauto. Qed.

Lemma next_kept st lo w m key vendor k :
  tables_at st lo (w_mem w) -> lo <= w_brk w ->
  comes_next (vs_vars (w_fw w)) (w_mem w) key vendor k ->
  key + name_size (vs_vars (w_fw w)) k <= w_brk w -> vendor + 16 <= w_brk w ->
  agree_below (w_brk w) (w_mem w) m ->
  tables_at st lo m /\ comes_next (vs_vars (w_fw w)) m key vendor k.
Proof.
  intros Ht Hlo Hnext Hname Hguid Hm. split.
  - apply tables_kept with (w_mem w); [done|]. by apply agree_le with (w_brk w).
  - apply comes_next_kept with (w_mem w) key; [done| |apply Hm; lia]. intros n Hn. apply Hm. lia.
Qed.

(** The two objects that [getkey] starts with: a size of 0 and 16 bytes. *)
Definition getkey_room (w : World) : World :=
  alloc_world (replicate (Z.to_nat (16 * 1)) 0) (alloc_world (le_enc 8 0) w).

Lemma getkey_room_spec w :
  w_brk (getkey_room w) = w_brk w + 24 /\
  agree_below (w_brk w) (w_mem w) (w_mem (getkey_room w)) /\
  load64 (w_mem (getkey_room w)) (w_brk w) = 0.
Proof.
  unfold getkey_room. set (w1 := alloc_world (le_enc 8 0) w).
  assert (w_brk w1 = w_brk w + 8) as B1 by (unfold w1; by rewrite alloc_world_brk, alloc_size_word).
  split; [rewrite alloc_world_brk, B1; change (alloc_size _) with 16; lia|]. split.
  - apply agree_trans with (w_mem w1); [apply alloc_agree|].
    apply agree_le with (w_brk w1); [lia|apply alloc_agree].
  - rewrite (agree_load64 (w_brk w1) (w_mem w1)) by (apply alloc_agree || lia).
    apply alloc_world_word. unfold is_word. lia.
Qed.

(** The value of a variable, fetched in two calls. *)
Lemma getkey_step st lo w key vendor k v :
  let l := vs_vars (w_fw w) in
  tables_at st lo (w_mem w) -> lo <= w_brk w -> l !! k = Some v ->
  comes_next l (w_mem w) (ch_ptr key) vendor (S k) -> 0 < ch_len key ->
  ch_ptr key + name_size l (S k) <= w_brk w -> vendor + 16 <= w_brk w ->
  exists w', getkey st key vendor (false, w) = (Ret (v_data v, true), (false, w')) /\
    w_fw w' = w_fw w /\ w_brk w <= w_brk w' /\ agree_below (w_brk w) (w_mem w) (w_mem w').
Proof.
  intros l Ht Hlo Hk Hnext Hlen Hname Hguid.
  destruct (vs_var_ok _ _ _ Hk) as (_ & _ & _ & _ & Hne & Hdata).
  assert (0 < zlen (v_data v)) as Hpos by (destruct (v_data v); [done|unfold zlen; simpl; lia]).
  pose proof (next_kept st lo w) as Hkept.
  unfold getkey. erewrite sm_step by reflexivity.
  erewrite sm_step by (apply make_step; unfold maxAlloc; lia). fold (getkey_room w).
  destruct (getkey_room_spec w) as (B2 & A2 & Hsz). set (w2 := getkey_room w) in *.
  destruct (Hkept _ _ _ _ Ht Hlo Hnext Hname Hguid A2) as [Ht2 Hn2].
  erewrite sm_step by (by eapply RuntimeServices_step).
  erewrite sm_step by (by apply chars_0_step).
  erewrite sm_step.
  2: { erewrite Get_step by exact Ht2.
       rewrite (get_contract _ _ _ _ _ (w_mem w2) (w_fw w2) k v Hn2 Hk), Hsz.
       rewrite (proj2 (Z.ltb_lt _ _)) by lia. reflexivity. }
  set (m3 := store64 (w_mem w2) (w_brk w) (zlen (v_data v))).
  change (Spec.code BUFFER_TOO_SMALL =? Spec.code NOT_FOUND) with false.
  rewrite Z.eqb_refl. erewrite sm_step by reflexivity. cbn [w_mem].
  assert (load64 m3 (w_brk w) = zlen (v_data v)) as Hsz3
    by (apply load64_store64; unfold is_word; lia).
  rewrite Hsz3, (swrap_small 64) by lia.
  erewrite sm_step by (apply make_step; unfold maxAlloc; lia).
  cbn [w_brk w_mem w_mux w_log w_fw]. set (w4 := alloc_world _ _).
  assert (agree_below (w_brk w2) m3 (w_mem w4)) as A34 by (apply agree_store; cbn; lia).
  assert (agree_below (w_brk w) (w_mem w) (w_mem w4)) as A4.
  { apply agree_trans with m3; [|by apply agree_le with (w_brk w2); [lia|]].
    apply agree_trans with (w_mem w2); [done|]. apply agree_store. lia. }
  destruct (Hkept _ _ _ _ Ht Hlo Hnext Hname Hguid A4) as [Ht4 Hn4].
  erewrite sm_step by (by eapply RuntimeServices_step).
  erewrite sm_step by (by apply chars_0_step).
  rewrite (proj2 (Z.eqb_neq (zlen (v_data v)) 0)) by lia. erewrite sm_step by reflexivity.
  erewrite sm_step.
  2: { erewrite Get_step by exact Ht4.
       rewrite (get_contract _ _ _ _ _ (w_mem w4) (w_fw w4) k v Hn4 Hk).
       rewrite (agree_load64 (w_brk w2) m3 (w_mem w4)), Hsz3, Z.ltb_irrefl by (done || lia). reflexivity. }
  cbn [Z.eqb negb]. erewrite sm_step by reflexivity. eexists. split.
  { unfold mret, SM_ret. do 3 f_equal. cbn [w_mem]. unfold store64.
    replace (Z.to_nat (zlen (v_data v))) with (length (v_data v)) by (unfold zlen; lia).
    rewrite load_store_other by (rewrite length_le_enc; unfold disjoint_ranges; lia). apply load_store_same. }
  cbn [w_fw w_brk w_mem]. split; [done|]. split.
  { unfold w4. rewrite alloc_world_brk. cbn [w_brk].
    pose proof (alloc_size_ge (length (replicate (Z.to_nat (zlen (v_data v) * 1)) 0))). lia. }
  apply agree_trans with (w_mem w4); [done|]. unfold store64.
  eapply agree_trans; apply agree_store; lia.
Qed.

(** ** The loop *)

(** The invariant of the loop when variable [k] comes next: the name buffer, the
    size and the GUID are objects of the Go heap, the buffer holds the name
    before it, and the size lies between that name's and the buffer's. *)
Record listing (st lo : Z) (l : list variable) (k : nat) (key : chars) (size guid : Z) (w : World)
    : Prop := {
  li_tables : tables_at st lo (w_mem w);
  li_vars : vs_vars (w_fw w) = l;
  li_key : lo <= ch_ptr key /\ ch_ptr key + 2 * ch_cap key <= w_brk w;
  li_size : lo <= size /\ size + 8 <= guid;
  li_guid : guid + 16 <= w_brk w;
  li_apart : ch_ptr key + 2 * ch_cap key <= size \/ guid + 16 <= ch_ptr key;
  li_len : 0 < ch_len key <= ch_cap key;
  li_next : comes_next l (w_mem w) (ch_ptr key) guid k;
  li_fits : name_size l k <= load64 (w_mem w) size <= 2 * ch_len key;
}.

(** From one world to another the memory below [lo] and the firmware's state are
    kept. *)
Definition unchanged (lo : Z) (w w' : World) : Prop :=
  agree_below lo (w_mem w) (w_mem w') /\ w_fw w' = w_fw w.

Lemma unchanged_trans lo w1 w2 w3 : unchanged lo w1 w2 -> unchanged lo w2 w3 -> unchanged lo w1 w3.
Proof. intros [H12 E12] [H23 E23]. split; [by eapply agree_trans|by rewrite E23]. Qed.

Lemma name_size_S l k v : l !! k = Some v -> name_size l (S k) = zlen (name_bytes (v_name v)).
Proof. intros Hk. cbn [name_size]. by rewrite Hk. Qed.

Lemma need_range s k v : vs_vars s !! k = Some v ->
  4 <= zlen (name_bytes (v_name v)) <= 2 ^ 41 + 2 /\
  zlen (name_bytes (v_name v)) = 2 * (zlen (v_name v) + 1).
Proof.
  intros Hk. destruct (vs_var_ok _ _ _ Hk) as (Hne & _ & Hlt & _).
  rewrite zlen_name_bytes. destruct (v_name v); [done|]. rewrite zlen_cons in *.
  pose proof (zlen_nonneg l). lia.
Qed.

(** The world after the name buffer has grown to [need] characters, with the
    old name in it, when the firmware has stored [need] at [size]. *)
Definition grown (w : World) (key : chars) (size need : Z) : World :=
  let w1 := set_mem (store64 (w_mem w) size need) w in
  let w2 := alloc_world (replicate (Z.to_nat (need * 2)) 0) w1 in
  set_mem (store_bytes (w_mem w2) (w_brk w)
             (load_bytes (w_mem w2) (ch_ptr key) (Z.to_nat (2 * Z.min need (ch_len key))))) w2.

Lemma grown_spec w key size need : 0 <= need ->
  w_brk w + 2 * need <= w_brk (grown w key size need) /\
  agree_below (w_brk w) (store64 (w_mem w) size need) (w_mem (grown w key size need)) /\
  (forall n, Z.of_nat n <= 2 * Z.min need (ch_len key) -> ch_ptr key + Z.of_nat n <= w_brk w ->
    load_bytes (w_mem (grown w key size need)) (w_brk w) n =
    load_bytes (store64 (w_mem w) size need) (ch_ptr key) n).
Proof.
  intros Hneed. unfold grown. set (w1 := set_mem (store64 (w_mem w) size need) w).
  set (w2 := alloc_world _ w1). set (old := load_bytes _ _ _).
  assert (agree_below (w_brk w) (w_mem w1) (w_mem w2)) as A12 by exact (alloc_agree _ w1).
  assert (length old = Z.to_nat (2 * Z.min need (ch_len key))) as Hold by apply length_load_bytes.
  split; [|split].
  - change (w_brk w + 2 * need <= w_brk w + alloc_size (length (replicate (Z.to_nat (need * 2)) 0))).
    pose proof (alloc_size_ge (length (replicate (Z.to_nat (need * 2)) 0))) as Hge.
    rewrite length_replicate in *. lia.
  - apply agree_trans with (w_mem w2); [done|]. apply agree_store. lia.
  - intros n Hn Hp. cbn [set_mem w_mem]. rewrite load_store_prefix by lia. unfold old.
    rewrite take_load_bytes by lia. apply A12. lia.
Qed.

(** The name buffer is too small: it grows, with the old name in it. *)
Lemma round_grow fuel st lo l k v key size guid printed w :
  listing st lo l k key size guid w -> l !! k = Some v ->
  load64 (w_mem w) size < zlen (name_bytes (v_name v)) ->
  exists key' w', vars_loop (S fuel) st key size guid printed (false, w) =
      vars_loop fuel st key' size guid printed (false, w') /\
    listing st lo l k key' size guid w' /\ unchanged lo w w' /\
    load64 (w_mem w') size = zlen (name_bytes (v_name v)).
Proof.
  intros [Ht <- [Hk1 Hk2] [Hs1 Hs2] Hg Hap [Hl1 Hl2] Hnext [Hf1 Hf2]] Hk Hsmall.
  destruct (need_range _ _ _ Hk) as [Hneed Hneed2].
  set (need := zlen (name_bytes (v_name v))) in *.
  cbn [vars_loop]. erewrite sm_step by (by eapply RuntimeServices_step).
  erewrite sm_step by (by apply chars_0_step).
  erewrite sm_step.
  2: { erewrite GetNext_step by exact Ht. rewrite (next_contract _ _ _ _ _ k Hnext), Hk.
       cbv zeta. fold need. rewrite (proj2 (Z.ltb_lt _ _)) by lia. reflexivity. }
  rewrite Z.eqb_refl. erewrite sm_step by reflexivity. cbn [w_mem].
  rewrite load64_store64 by (unfold is_word; lia).
  erewrite sm_step by (apply make_step; unfold maxAlloc; lia).
  erewrite sm_step by reflexivity. erewrite sm_step by reflexivity.
  erewrite sm_step by (apply chars_to_step; cbn [ch_cap]; Z.div_mod_to_equations; lia).
  destruct (grown_spec w key size need) as (B & A1 & Hold); [lia|].
  eexists _, (grown w key size need). split; [reflexivity|]. cbn [w_brk ch_ptr ch_cap].
  set (w' := grown w key size need) in *.
  assert (load64 (w_mem w') size = need) as Hsz.
  { rewrite (agree_load64 _ _ _ _ A1) by lia. apply load64_store64. unfold is_word. lia. }
  assert (agree_below lo (w_mem w) (w_mem w')) as A0.
  { eapply agree_trans; [apply (agree_store lo _ size); lia|]. apply agree_le with (w_brk w); [lia|done]. }
  split; [|split; [split; [exact A0|reflexivity]|exact Hsz]].
  constructor; cbn [ch_ptr ch_len ch_cap]; try lia; [| | | |].
  - by apply tables_kept with (w_mem w).
  - reflexivity.
  - Z.div_mod_to_equations. lia.
  - apply comes_next_kept with (w_mem w) (ch_ptr key); [done| |].
    + intros n Hn. rewrite Hold by lia.
      apply load_store_other. rewrite length_le_enc. unfold disjoint_ranges. lia.
    + rewrite A1 by lia. apply load_store_other. rewrite length_le_enc. unfold disjoint_ranges. lia.
  - rewrite Hsz. split; [lia|]. rewrite Hneed2. Z.div_mod_to_equations. lia.
Qed.

Lemma load16s_units m a us rest : Forall (fun u => 0 < u < 2 ^ 16) us ->
  load_bytes m a (length (concat (map (le_enc 2) us) ++ rest)) = concat (map (le_enc 2) us) ++ rest ->
  load16s m a (length us) = us.
Proof.
  intros Hus E. unfold load16s. apply list_eq. intros i.
  destruct (us !! i) as [u|] eqn:Hu.
  - pose proof (lookup_lt_Some _ _ _ Hu) as Hi. rewrite list_lookup_fmap.
    rewrite lookup_seq_lt by done. cbn [fmap option_fmap option_map Nat.add].
    f_equal. replace (2 * Z.of_nat i) with (Z.of_nat (2 * i)) by lia.
    rewrite <-(sub_load_bytes m a (length (concat (map (le_enc 2) us) ++ rest)))
      by (rewrite length_app, length_units; lia).
    rewrite E, sub_app_l by (rewrite length_units; lia).
    rewrite (sub_units us i u Hu). rewrite Forall_lookup in Hus.
    apply le_dec_enc_word. pose proof (Hus i u Hu). unfold is_word. lia.
  - apply lookup_ge_None in Hu. apply lookup_ge_None.
    rewrite length_map, length_seq. done.
Qed.

(** What is printed for a variable. *)
Definition line (v : variable) : gostring * list Z := (UTF16PtrLenToString (v_name v), v_data v).

(** The memory after the firmware has stored a variable's name, GUID and the
    size of the name. *)
Definition named (m : memory) (key guid size : Z) (v : variable) : memory :=
  store64 (store_bytes (store_bytes m key (name_bytes (v_name v))) guid (v_guid v))
    size (zlen (name_bytes (v_name v))).

Lemma named_spec lo m key guid size v :
  lo <= key -> lo <= size -> size + 8 <= guid -> length (v_guid v) = 16%nat ->
  key + zlen (name_bytes (v_name v)) <= size \/ guid + 16 <= key ->
  is_word 64 (zlen (name_bytes (v_name v))) ->
  agree_below lo m (named m key guid size v) /\
  load_bytes (named m key guid size v) key (length (name_bytes (v_name v))) = name_bytes (v_name v) /\
  load_bytes (named m key guid size v) guid 16 = v_guid v /\
  load64 (named m key guid size v) size = zlen (name_bytes (v_name v)).
Proof.
  intros Hk Hs Hsg Hgl Hap Hw. unfold named. unfold zlen at 1 in Hap. split; [|split; [|split]].
  - unfold store64. eapply agree_trans; [|apply agree_store; lia]. eapply agree_trans; apply agree_store; lia.
  - unfold store64. rewrite !load_store_other by (rewrite ?length_le_enc, ?Hgl; unfold disjoint_ranges; lia).
    apply load_store_same.
  - unfold store64. rewrite load_store_other by (rewrite length_le_enc; unfold disjoint_ranges; lia).
    rewrite <-Hgl. apply load_store_same.
  - by apply load64_store64.
Qed.

(** A call that returns variable [k] makes the next one come next. *)
Lemma listing_next st lo k v key size guid w w' :
  let l := vs_vars (w_fw w) in
  listing st lo l k key size guid w -> l !! k = Some v ->
  w_fw w' = w_fw w -> w_brk w <= w_brk w' ->
  agree_below (w_brk w) (named (w_mem w) (ch_ptr key) guid size v) (w_mem w') ->
  zlen (name_bytes (v_name v)) <= load64 (w_mem w) size ->
  listing st lo l (S k) key size guid w' /\ unchanged lo w w'.
Proof.
  intros l [Ht _ [Hk1 Hk2] [Hs1 Hs2] Hg Hap [Hl1 Hl2] Hnext [Hf1 Hf2]] Hk Hfw Hb Ha Hfit.
  destruct (need_range _ _ _ Hk) as [Hneed _].
  destruct (vs_var_ok _ _ _ Hk) as (_ & _ & _ & Hgl & _).
  destruct (named_spec lo (w_mem w) (ch_ptr key) guid size v) as (A0 & Hname & Hguid & Hsz);
    [lia..|unfold is_word; lia|].
  assert (agree_below lo (w_mem w) (w_mem w')) as A.
  { eapply agree_trans; [exact A0|]. apply agree_le with (w_brk w); [lia|done]. }
  split; [|done]. constructor; try lia.
  - by apply tables_kept with (w_mem w).
  - by rewrite Hfw.
  - exists v. split; [done|]. rewrite !Ha by (unfold zlen in *; lia). done.
  - rewrite (name_size_S _ _ _ Hk), (agree_load64 _ _ _ _ Ha), Hsz by lia. lia.
Qed.

(** The name fits: the variable is read and printed. *)
Lemma round_read fuel st lo l k v key size guid printed w :
  listing st lo l k key size guid w -> l !! k = Some v ->
  zlen (name_bytes (v_name v)) <= load64 (w_mem w) size ->
  exists w', vars_loop (S fuel) st key size guid printed (false, w) =
      vars_loop fuel st key size guid (printed ++ [line v]) (false, w') /\
    listing st lo l (S k) key size guid w' /\ unchanged lo w w'.
Proof.
  intros Hl Hk Hfit. pose proof Hl as [Ht <- [Hk1 Hk2] [Hs1 Hs2] Hg Hap [Hl1 Hl2] Hnext [Hf1 Hf2]].
  destruct (need_range _ _ _ Hk) as [Hneed Hneed2].
  destruct (vs_var_ok _ _ _ Hk) as (Hne & Hus & _ & Hgl & _).
  destruct (named_spec lo (w_mem w) (ch_ptr key) guid size v) as (A0 & Hname & Hguid & Hsz);
    [lia..|unfold is_word; lia|].
  set (need := zlen (name_bytes (v_name v))) in *.
  cbn [vars_loop]. erewrite sm_step by (by eapply RuntimeServices_step).
  erewrite sm_step by (by apply chars_0_step).
  erewrite sm_step.
  2: { erewrite GetNext_step by exact Ht. rewrite (next_contract _ _ _ _ _ k Hnext), Hk.
       cbv zeta. rewrite (proj2 (Z.ltb_ge _ (zlen (name_bytes (v_name v)))) Hfit).
       fold (named (w_mem w) (ch_ptr key) guid size v). reflexivity. }
  change (0 =? Spec.code BUFFER_TOO_SMALL) with false. cbv iota. rewrite Z.eqb_refl.
  erewrite sm_step by reflexivity. cbn [w_mem]. rewrite Hsz.
  set (w1 := mkWorld _ _ _ _ _ _).
  replace (u64 (need - 1) / 2) with (zlen (v_name v))
    by (rewrite wrap_small by (unfold is_word; lia); Z.div_mod_to_equations; lia).
  erewrite sm_step by (apply chars_to_step; pose proof (zlen_nonneg (v_name v)); lia).
  cbn [ch_ptr ch_len]. erewrite sm_step by reflexivity. cbn [w1 w_mem].
  replace (Z.to_nat (zlen (v_name v))) with (length (v_name v)) by (unfold zlen; lia).
  rewrite (load16s_units _ _ _ _ Hus Hname).
  erewrite sm_step.
  2: { unfold on_world, lift, UTF16ToString. destruct (v_name v) eqn:En; [done|]. rewrite <-En. reflexivity. }
  erewrite sm_step by reflexivity. cbn [w1 w_mem]. rewrite Hsz.
  erewrite sm_step by (apply chars_to_step; Z.div_mod_to_equations; lia).
  destruct (getkey_step st lo w1 (mkChars (ch_ptr key) (need / 2) (ch_cap key)) guid k v)
    as (w2 & E & Hfw & Hb & Ha); cbn [ch_ptr ch_len w1 w_brk w_fw w_mem]; try done; try lia.
  - by apply tables_kept with (w_mem w).
  - by exists v.
  - Z.div_mod_to_equations. lia.
  - rewrite (name_size_S _ _ _ Hk). fold need. lia.
  - erewrite sm_step by exact E. exists w2. split; [reflexivity|]. by apply listing_next with v.
Qed.

Lemma round_end fuel st lo l key size guid printed w :
  listing st lo l (length l) key size guid w ->
  exists w', vars_loop (S fuel) st key size guid printed (false, w) = (Ret printed, (false, w')) /\
    unchanged lo w w'.
Proof.
  intros [Ht <- _ _ _ _ [Hl1 _] Hnext _].
  cbn [vars_loop]. erewrite sm_step by (by eapply RuntimeServices_step).
  erewrite sm_step by (by apply chars_0_step).
  erewrite sm_step.
  2: { erewrite GetNext_step by exact Ht. rewrite (next_contract _ _ _ _ _ _ Hnext).
       rewrite (proj2 (lookup_ge_None _ _)) by done. reflexivity. }
  eexists. split; [reflexivity|]. split; [apply agree_refl|done].
Qed.

Lemma vars_loop_lists fuel st lo l k key size guid printed w :
  listing st lo l k key size guid w -> (k <= length l)%nat ->
  (2 * (length l - k) < fuel)%nat ->
  exists w', vars_loop fuel st key size guid printed (false, w) =
    (Ret (printed ++ map line (drop k l)), (false, w')) /\ unchanged lo w w'.
Proof.
  remember (length l - k)%nat as r eqn:Er. revert fuel k key printed w Er.
  induction r as [|r IH]; intros fuel k key printed w Er Hli Hk Hf.
  - destruct fuel as [|fuel]; [lia|]. assert (k = length l) as -> by lia.
    destruct (round_end fuel st lo l key size guid printed w Hli) as (w' & -> & Hu).
    exists w'. by rewrite drop_all, app_nil_r.
  - destruct (lookup_lt_is_Some_2 l k ltac:(lia)) as [v Hv].
    assert (forall f key w, (2 * r < f)%nat -> listing st lo l k key size guid w ->
      zlen (name_bytes (v_name v)) <= load64 (w_mem w) size ->
      exists w', vars_loop (S f) st key size guid printed (false, w) =
        (Ret (printed ++ map line (drop k l)), (false, w')) /\ unchanged lo w w') as Hread.
    { intros f key' w1 Hf1 Hli1 Hfit.
      destruct (round_read f st lo l k v key' size guid printed w1 Hli1 Hv Hfit) as (w2 & -> & Hli2 & Hu2).
      destruct (IH f (S k) key' (printed ++ [line v]) w2 ltac:(lia) Hli2 ltac:(lia) Hf1) as (w3 & -> & Hu3).
      exists w3. rewrite (drop_S l v k Hv). split; [by rewrite <-app_assoc|by eapply unchanged_trans]. }
    destruct (Z.le_gt_cases (zlen (name_bytes (v_name v))) (load64 (w_mem w) size)) as [Hfit|Hsmall].
    + destruct fuel as [|fuel]; [lia|]. apply Hread; [lia|done|done].
    + destruct fuel as [|[|fuel]]; [lia..|].
      destruct (round_grow (S fuel) st lo l k v key size guid printed w Hli Hv Hsmall)
        as (key' & w' & -> & Hli' & Hu & Hsz).
      destruct (Hread fuel key' w') as (w2 & E & Hu2); [lia|done|lia|].
      exists w2. split; [exact E|by eapply unchanged_trans].
Qed.
(** The three objects that [vars] makes start the loop at the first variable. *)
Lemma vars_start fuel st w : tables_at st (w_brk w) (w_mem w) ->
  exists key size guid w', vars fuel st (false, w) = vars_loop fuel st key size guid [] (false, w') /\
    listing st (w_brk w) (vs_vars (w_fw w)) 0 key size guid w' /\ unchanged (w_brk w) w w'.
Proof.
  intros Ht. unfold vars.
  erewrite sm_step by (apply make_step; unfold maxAlloc; lia).
  set (w1 := alloc_world _ w). erewrite sm_step by reflexivity.
  set (w2 := alloc_world (le_enc 8 2) w1).
  erewrite sm_step by (apply make_step; unfold maxAlloc; lia).
  set (w3 := alloc_world _ w2).
  assert (w_brk w1 = w_brk w + 8) as B1 by reflexivity.
  assert (w_brk w2 = w_brk w + 16) as B2
    by (unfold w2; rewrite alloc_world_brk, alloc_size_word, B1; lia).
  assert (w_brk w3 = w_brk w + 32) as B3
    by (unfold w3; rewrite alloc_world_brk, B2; change (alloc_size _) with 16; lia).
  assert (agree_below (w_brk w) (w_mem w) (w_mem w3)) as A0.
  { intros a n Ha. unfold w3, w2, w1 in *. by rewrite !alloc_world_other by lia. }
  exists (mkChars (w_brk w) 1 1), (w_brk w1), (w_brk w2), w3.
  split; [reflexivity|]. split; [|by split].
  constructor; cbn [ch_ptr ch_len ch_cap]; try lia; try done.
  - by apply tables_kept with (w_mem w).
  - cbn [comes_next]. unfold w3. rewrite alloc_world_other by lia.
    unfold w2. rewrite alloc_world_other by lia. apply (alloc_world_load (replicate 2 0) w).
  - assert (load64 (w_mem w3) (w_brk w1) = 2) as ->; [|cbn [name_size]; lia].
    rewrite (agree_load64 (w_brk w2) (w_mem w2)) by (apply alloc_agree || lia).
    apply (alloc_world_word 2 w1). unfold is_word. lia.
Qed.
End Store.

(** C35. [vars] lists the variable store: on a firmware that keeps a list of
    variables, for any number of them and names of any length, it prints each
    variable's name and data, in the store's order and exactly once, and ends.
    Two rounds per variable and one more are enough, since a name buffer that is
    too small is grown at most once for each.  It leaves the firmware's state and
    the memory below the Go heap as they were. *)
Theorem vars_lists_store `{VariableStore} fuel st w :
  tables_at st (w_brk w) (w_mem w) ->
  (2 * length (vs_vars (w_fw w)) < fuel)%nat ->
  exists w', vars fuel st (false, w) =
    (Ret (map (fun v => (UTF16PtrLenToString (v_name v), v_data v)) (vs_vars (w_fw w))), (false, w')) /\
    agree_below (w_brk w) (w_mem w) (w_mem w') /\ w_fw w' = w_fw w.
Proof.
  intros Ht Hf. destruct (vars_start fuel st w Ht) as (key & size & guid & w1 & -> & Hli & Hu).
  destruct (vars_loop_lists fuel _ _ _ _ _ _ _ [] _ Hli) as (w2 & -> & Hu2); [lia|lia|].
  exists w2. split; [reflexivity|]. exact (unchanged_trans _ _ _ _ Hu Hu2).
Qed.

(** A store of two variables of different vendors; the second name is longer
    than the first, so the name buffer grows twice. *)
Definition demo_vars : list variable :=
  [ mkVar [0x41; 0x62] (replicate 16 1) [7];
    mkVar [0x42; 0x6f; 0x6f; 0x74] (replicate 16 2) [1; 2; 3] ].

Definition guid_index (g : list Z) : nat :=
  match list_find (fun v => v_guid v = g) demo_vars with Some (i, _) => i | None => 2%nat end.

Definition store_machine : Machine := machine_with unit (fun fn args m s =>
  match args with
  | [size; name; guid] =>
      let k := if decide (load_bytes m name 2 = [0; 0]) then 0%nat
               else S (guid_index (load_bytes m guid 16)) in
      match demo_vars !! k with
      | None => (Spec.code NOT_FOUND, m, s)
      | Some v =>
          let need := zlen (name_bytes (v_name v)) in
          if load64 m size <? need then (Spec.code BUFFER_TOO_SMALL, store64 m size need, s)
          else (0, store64 (store_bytes (store_bytes m name (name_bytes (v_name v))) guid (v_guid v))
                     size need, s)
      end
  | [name; guid; attr; size; data] =>
      match demo_vars !! guid_index (load_bytes m guid 16) with
      | None => (Spec.code NOT_FOUND, m, s)
      | Some v =>
          if load64 m size <? zlen (v_data v)
          then (Spec.code BUFFER_TOO_SMALL, store64 m size (zlen (v_data v)), s)
          else (0, store64 (store_bytes m data (v_data v)) size (zlen (v_data v)), s)
      end
  | _ => (Spec.code INVALID_PARAMETER, m, s)
  end).

Lemma demo_vars_ok : Forall variable_ok demo_vars.
Proof.
  repeat apply Forall_cons_2; [| |apply Forall_nil_2]; (split; [done|]); (split;
    [repeat apply Forall_cons_2; try lia; apply Forall_nil_2|]); vm_compute; repeat split; done.
Qed.

(** A name in memory does not start with the terminator. *)
Lemma name_not_empty m a us :
  Forall (fun u => 0 < u < 2 ^ 16) us -> us <> [] ->
  load_bytes m a (length (name_bytes us)) = name_bytes us -> load_bytes m a 2 <> [0; 0].
Proof.
  intros Hus Hne E E0. destruct us as [|u us]; [done|]. apply Forall_cons in Hus as [Hu _].
  assert (load_bytes m a 2 = le_enc 2 u) as E2.
  { rewrite <-(take_load_bytes m a (length (name_bytes (u :: us))))
      by (pose proof (zlen_name_bytes (u :: us)) as L; unfold zlen in L; cbn [length] in L; lia).
    rewrite E. reflexivity. }
  rewrite E2 in E0. pose proof (le_dec_enc_word 2 u) as Hd. rewrite E0 in Hd.
  change (le_dec [0; 0]) with 0 in Hd. unfold is_word in Hd. lia.
Qed.

#[refine] Instance demo_store : VariableStore (H := store_machine) := {
  vs_vars _ := demo_vars;
  next_entry := 0x9000;
  get_entry := 0x9001;
}.
Proof.
  - intros _. apply demo_vars_ok.
  - intros size name guid m s k Hk. cbn [firmware store_machine machine_with].
    destruct k as [|i]; cbn [comes_next] in Hk.
    + by rewrite decide_True.
    + destruct Hk as (v & Hv & Hname & Hguid).
      rewrite decide_False.
      2: { pose proof demo_vars_ok as Hok. rewrite Forall_lookup in Hok.
           destruct (Hok i v Hv) as (Hne & Hus & _). eapply name_not_empty; eauto. }
      rewrite Hguid. destruct i as [|[|i]]; [injection Hv as <-; reflexivity..|discriminate Hv].
  - intros name guid attr size data m s k v (v' & Hv & Hname & Hguid) Hk.
    rewrite Hk in Hv. injection Hv as <-. cbn [firmware store_machine machine_with].
    rewrite Hguid. destruct k as [|[|k]]; [injection Hk as <-; reflexivity..|discriminate Hk].
Defined.

Definition store_world : World (H := store_machine) :=
  mkWorld store_machine
    (store64 (store64 (store64 ∅ 0x1058 0x2000) 0x2048 0x9001) 0x2050 0x9000)
    0x10000 false [] tt.

Lemma vars_lists_store_witness :
  exists w', vars (H := store_machine) 5 0x1000 (false, store_world) =
    (Ret [(bytes_of_string "Ab", [7]); (bytes_of_string "Boot", [1; 2; 3])], (false, w')) /\
    agree_below 0x10000 (w_mem store_world) (w_mem w') /\ w_fw w' = tt.
Proof.
  apply (vars_lists_store (H := store_machine) (H0 := demo_store) 5 0x1000 store_world).
  - split_and!; [vm_compute; discriminate|vm_compute; discriminate|vm_compute; discriminate
                |vm_compute; discriminate|vm_compute; discriminate
                |vm_compute; reflexivity|vm_compute; reflexivity].
  - cbn. lia.
Defined.
