(* ===== verification/Commands.v ===== *)
(** * Commands: efiload and recovery

    The commands of cmd/efiload and cmd/recovery.  Both stand on the package
    go-boot, whose services are the fields of the class [GoBoot]; reading a file
    to its end is io.ReadAll over that package's files, and efiload also lists
    the variables with [vars].  A message that is printed is kept in the log by
    its fixed text. *)

From S2P Require Import Prelude Binary Machine Status Text Boot FileSys Image SpecTables Protocols.
From S2P Require Import Disk Serial Handles Vars.

(** What the commands use of go-boot: [x64.UEFI] with its boot and runtime
    services, the files of the boot volume, and the shell. *)
Class GoBoot `{Machine} := {
  root_t : Type;
  file_t : Type;
  Handles : M (Z * Z);
  Root : M (root_t * error);
  Open : root_t -> gostring -> M (file_t * error);
  file_Read : Reader file_t;
  LoadImageMem : Z -> root_t -> gostring -> slice -> M (Z * error);
  LoadImageHandle : Z -> M (Z * error);
  StartImage : Z -> M error;
  Exit : Z -> M error;
  SetWatchdogTimer : Z -> M error;
  ResetSystem : Z -> M error;
  goboot_EfiResetShutdown : Z;
  Ptrval_uint16 : Z -> M Z;
  shell_Start : (list gostring -> M (gostring * error)) -> M unit;
}.

#[export] Existing Instance file_Read.

Section Load.
Context `{GoBoot, Append}.

(** [loadAndVerify], which both commands have: an error of the read is only
    printed. *)
Definition loadAndVerify (fuel : nat) (path : gostring) : M (option slice * error) :=
  '(root, err) ← Root;
  match err with
  | Some e => mret (None, Some (ErrWrap "could not open root volume, " e))
  | None =>
      '(bf, err) ← Open root path;
      match err with
      | Some e =>
          _ ← println "Error opening";
          mret (None, Some (ErrWrap "could not open kernel, " e))
      | None =>
          _ ← println "Opened file";
          '(data, err) ← ReadAll fuel bf;
          _ ← match err with
              | Some _ => println "Error reading"
              | None => _ ← println "Loaded file"; println "SHA256 of"
              end;
          data ← slice_of data;
          mret (Some data, None)
      end
  end.
End Load.

Module Efiload.
Section Efiload.
Context `{GoBoot, Append}.

Definition executeKernel (fuel : nat) (path : gostring) (data : option slice) (cmdline : gostring) :
    M (gostring * error) :=
  '(root, err) ← Root;
  match err with
  | Some e => mret ([], Some (ErrWrap "could not open root volume, " e))
  | None =>
      '(data, err) ← (match data with
                      | Some _ => mret (data, None)
                      | None => loadAndVerify fuel path
                      end);
      match err, data with
      | Some _, _ => mret ([], err)
      | None, None => mret ([], Some (ErrNew "could not load kernel"))
      | None, Some data =>
          '(h, err) ← LoadImageMem 0 root path data;
          match err with
          | Some e => mret ([], Some (ErrWrap "could not load image, " e))
          | None =>
              '(rawMemoryAddress, _) ← LoadImageHandle h;
              _ ← set_load_options rawMemoryAddress cmdline;
              _ ← println "starting EFI image";
              err ← StartImage h;
              mret ([], err)
          end
      end
  end.

(** The kernel's length and the command line of the configuration, and the slice
    of the kernel; its first 16 bytes are printed. *)
Definition config : M (slice * gostring) :=
  cfg ← get_bytes cfgOff (Z.to_nat cfgLen);
  let parts := SplitN cfg 3 in
  cmdline ← match parts !! 1%nat with Some c => mret c | None => gopanic PIndex end;
  _ ← println "Config: len: ";
  let kerLen := Atoi (nth 0 parts []) in
  kerData ← Image.unsafe_Slice kerOff kerLen;
  _ ← (if sl_len kerData <? 16 then gopanic PSlice else println "Kernel length: ");
  mret (kerData, cmdline).

Definition exit_or_reset : M unit :=
  err ← Exit 0;
  match err with
  | Some _ => _ ← ResetSystem Boot.EfiResetShutdown; mret tt
  | None => mret tt
  end.

(** [main]: the package-level variables of pkg/uefi are [g]; [Some code] when
    it ends in [os.Exit(code)]. *)
Definition main (fuel : nat) (g : package) : SM (option Z) :=
  '(ah, sh) ← on_world Handles;
  let g := Init ah sh g in
  _ ← vars fuel (ST g);
  _ ← on_world (println "Starting");
  '(kerData, cmdline) ← on_world config;
  '(_, err) ← on_world (executeKernel fuel kernelPath (Some kerData) cmdline);
  match err with
  | Some _ => _ ← on_world (println "Error executing kernel"); mret (Some 1)
  | None => _ ← on_world exit_or_reset; _ ← on_world exit_or_reset; mret None
  end.
End Efiload.
End Efiload.

Module Recovery.
Definition CmdLine : gostring := bytes_of_string
  " initrd=\initrd.img console=tty1 rdinit=/sbin/initos-initrd net.ifnames=0 panic=0 init=/bin/sh console=ttyS0 initos_sidecar=/dev/sdb initos_debug=1 ".

Definition cmdlinePath : gostring := bytes_of_string "\EFI\linux\cmdline".

Section Recovery.
Context `{GoBoot, Append}.

(** The file's own copies of two functions of efiload: the same text. *)
Definition stringToUTF16Ptr (s : gostring) : M Z := Image.stringToUTF16Ptr s.
Definition loadAndVerify (fuel : nat) (path : gostring) : M (option slice * error) :=
  Commands.loadAndVerify fuel path.

(** The command line: the given one, else that of the boot volume, else the
    built-in one. *)
Definition choose_cmdline (fuel : nat) (cmdline : gostring) : M gostring :=
  match cmdline with
  | [] =>
      '(cmddata, err) ← loadAndVerify fuel cmdlinePath;
      match err, cmddata with
      | None, Some s => get_bytes (sl_ptr s) (Z.to_nat (sl_len s))
      | None, None => mret []
      | Some _, _ => _ ← println "Error opening default cmdline"; mret CmdLine
      end
  | _ => mret cmdline
  end.

(** The same as [Image.set_load_options], with go-boot's [Ptrval]. *)
Definition set_options (raw : Z) (cmdline : gostring) : M unit :=
  ptr ← stringToUTF16Ptr cmdline;
  _ ← println "Loaded image";
  _ ← put_bytes (u64 (raw + 48)) (le_enc 4 (u32 (zlen cmdline * 2)));
  p ← Ptrval_uint16 ptr;
  put_bytes (u64 (raw + 56)) (le_enc 8 p).

Definition executeKernel (fuel : nat) (path cmdline : gostring) : M (gostring * error) :=
  '(root, err) ← Root;
  match err with
  | Some e => mret ([], Some (ErrWrap "could not open root volume, " e))
  | None =>
      '(data, err) ← loadAndVerify fuel path;
      match err with
      | Some e =>
          _ ← println "Error opening";
          mret ([], Some (ErrWrap "could not open kernel, " e))
      | None =>
          _ ← println "loading EFI image";
          cmdline ← choose_cmdline fuel cmdline;
          '(h, err) ← LoadImageMem 0 root path (default (mkSlice 0 0) data);
          match err with
          | Some e => mret ([], Some (ErrWrap "could not load image, " e))
          | None =>
              '(rawMemoryAddress, _) ← LoadImageHandle h;
              _ ← set_options rawMemoryAddress cmdline;
              _ ← println "starting EFI image";
              err ← StartImage h;
              mret ([], err)
          end
      end
  end.

(** [strings.Join(arg, " ")] *)
Fixpoint join (arg : list gostring) : gostring :=
  match arg with
  | [] => []
  | [a] => a
  | a :: arg => a ++ 32 :: join arg
  end.

(** The shell command "recovery". *)
Definition recovery (fuel : nat) (arg : list gostring) : M (gostring * error) :=
  _ ← println "EFI linux start";
  let path := match arg with a :: _ => a | [] => kernelPath end in
  let cmdline := match arg with _ :: (_ :: _) as args => join args | _ => [] end in
  executeKernel fuel path cmdline.

Definition initGoBoot (fuel : nat) : M unit :=
  _ ← SetWatchdogTimer 0;
  _ ← shell_Start (recovery fuel);
  _ ← println "exit";
  err ← Exit 0;
  match err with
  | Some _ =>
      _ ← println "halting due to exit error";
      _ ← ResetSystem goboot_EfiResetShutdown;
      mret tt
  | None => mret tt
  end.

Definition main (fuel : nat) : M unit := initGoBoot fuel.
End Recovery.
End Recovery.

(** ** Properties *)

(** A message in the log. *)
Definition logged `{Machine} (s : string) (w : World) : World :=
  mkWorld _ (w_mem w) (w_brk w) (w_mux w) (s :: w_log w) (w_fw w).

Lemma println_step `{Machine} s w : println s w = (Ret tt, logged s w).
Proof. reflexivity. Qed.

Lemma on_world_step `{Machine} {A} (m : M A) a w w' :
  m w = (Ret a, w') -> on_world m (false, w) = (Ret a, (false, w')).
Proof. intros E. unfold on_world. by rewrite E. Qed.

Section Steps.
Context `{GoBoot, Append}.

(** What is printed after the read. *)
Definition read_world (err : error) (w : World) : World :=
  match err with Some _ => logged "Error reading" w | None => logged "SHA256 of" (logged "Loaded file" w) end.

Lemma loadAndVerify_step fuel path root bf data err w w1 w2 w3 :
  Root w = (Ret (root, None), w1) -> Open root path w1 = (Ret (bf, None), w2) ->
  ReadAll fuel bf (logged "Opened file" w2) = (Ret (data, err), w3) ->
  loadAndVerify fuel path w =
  (Ret (Some (mkSlice (w_brk w3) (zlen data)), None), alloc_world data (read_world err w3)).
Proof.
  intros Hr Ho Hd. unfold loadAndVerify. erewrite bind_step by exact Hr. cbv beta iota.
  erewrite bind_step by exact Ho. cbv beta iota. erewrite bind_step by apply println_step.
  erewrite bind_step by exact Hd. cbv beta iota. by destruct err.
Qed.

Lemma efiload_executeKernel_step fuel path data cmdline root h raw herr w w1 w2 w3 :
  Root w = (Ret (root, None), w1) ->
  LoadImageMem 0 root path data w1 = (Ret (h, None), w2) ->
  LoadImageHandle h w2 = (Ret (raw, herr), w3) ->
  Efiload.executeKernel fuel path (Some data) cmdline w =
  (err ← StartImage h; mret ([], err)) (logged "starting EFI image" (options_world raw cmdline w3)).
Proof.
  intros Hr Hl Hh. unfold Efiload.executeKernel. erewrite bind_step by exact Hr. cbv beta iota.
  erewrite bind_step by reflexivity. cbv beta iota. erewrite bind_step by exact Hl. cbv beta iota.
  erewrite bind_step by exact Hh. cbv beta iota. erewrite bind_step by apply set_load_options_step.
  by erewrite bind_step by apply println_step.
Qed.

Lemma config_step n cmdline rest w :
  load_bytes (w_mem w) cfgOff (Z.to_nat cfgLen) = decimal n ++ 10 :: cmdline ++ 10 :: rest ->
  0 <= n < 2 ^ 63 -> Forall (fun c => c <> 10) cmdline ->
  Efiload.config w =
  if n <? 16 then (Panic PSlice, logged "Config: len: " w)
  else (Ret (mkSlice kerOff n, cmdline), logged "Kernel length: " (logged "Config: len: " w)).
Proof.
  intros Hcfg Hn Hc. unfold Efiload.config. erewrite bind_step by reflexivity. rewrite Hcfg.
  destruct (config_parts n cmdline rest Hn Hc) as [Ha Hp].
  set (parts := SplitN _ 3) in *. cbv zeta. rewrite Hp.
  erewrite bind_step by reflexivity. erewrite bind_step by apply println_step. rewrite Ha.
  unfold Image.unsafe_Slice. rewrite (proj2 (Z.ltb_ge n 0)) by lia. erewrite bind_step by reflexivity.
  cbn [sl_len]. destruct (n <? 16); [by apply bind_panic|].
  by erewrite bind_step by apply println_step.
Qed.
End Steps.

(** [main] once the variables are listed. *)
Lemma main_listed `{GoBoot, Append} fuel g ah sh printed w w0 w1 :
  Handles w = (Ret (ah, sh), w0) ->
  vars fuel sh (false, w0) = (Ret printed, (false, w1)) ->
  Efiload.main fuel g (false, w) =
  ('(kerData, cmdline) ← on_world Efiload.config;
   '(_, err) ← on_world (Efiload.executeKernel fuel kernelPath (Some kerData) cmdline);
   match err with
   | Some _ => _ ← on_world (println "Error executing kernel"); mret (Some 1)
   | None => _ ← on_world Efiload.exit_or_reset; _ ← on_world Efiload.exit_or_reset; mret None
   end) (false, logged "Starting" w1).
Proof.
  intros Hh Hv. unfold Efiload.main.
  erewrite sm_step by (by apply on_world_step). cbv beta iota zeta. cbn [ST Init systemTable].
  erewrite sm_step by exact Hv. by erewrite sm_step by (apply on_world_step, println_step).
Qed.

(** C38. efiload, on a firmware that keeps a list of variables and with its
    configuration (a decimal length, a newline and a command line) in memory
    below the Go heap: it lists every variable first and leaves the configuration
    as it was; then it starts the image of that many bytes in memory, with its load
    options set to the command line before; a failure of StartImage ends it with
    code 1, and a success with two attempts to exit.  A kernel shorter than 16
    bytes makes it panic before anything is loaded. *)
Theorem efiload_starts `{GoBoot, Append, !VariableStore} fuel g ah sh n cmdline rest w w0 :
  Handles w = (Ret (ah, sh), w0) ->
  tables_at sh (w_brk w0) (w_mem w0) ->
  (2 * length (vs_vars (w_fw w0)) < fuel)%nat ->
  cfgOff + cfgLen <= w_brk w0 ->
  load_bytes (w_mem w0) cfgOff (Z.to_nat cfgLen) = decimal n ++ 10 :: cmdline ++ 10 :: rest ->
  0 <= n < 2 ^ 63 -> Forall (fun c => c <> 10) cmdline ->
  exists w1,
    vars fuel sh (false, w0) = (Ret (map line (vs_vars (w_fw w0))), (false, w1)) /\
    agree_below (w_brk w0) (w_mem w0) (w_mem w1) /\ w_fw w1 = w_fw w0 /\
    (n < 16 -> Efiload.main fuel g (false, w) =
       (Panic PSlice, (false, logged "Config: len: " (logged "Starting" w1)))) /\
    forall root h raw herr err w2 w3 w4 w5, 16 <= n ->
      Root (logged "Kernel length: " (logged "Config: len: " (logged "Starting" w1))) =
        (Ret (root, None), w2) ->
      LoadImageMem 0 root kernelPath (mkSlice kerOff n) w2 = (Ret (h, None), w3) ->
      LoadImageHandle h w3 = (Ret (raw, herr), w4) ->
      StartImage h (logged "starting EFI image" (options_world raw cmdline w4)) = (Ret err, w5) ->
      Efiload.main fuel g (false, w) =
      match err with
      | Some _ => (Ret (Some 1), (false, logged "Error executing kernel" w5))
      | None => (_ ← on_world Efiload.exit_or_reset; _ ← on_world Efiload.exit_or_reset; mret None)
                  (false, w5)
      end.
Proof.
  intros Hh Ht Hf Hb Hcfg Hn Hc.
  destruct (vars_start fuel sh w0 Ht) as (key & size & guid & wl & Hv & Hli & Hu).
  destruct (vars_loop_lists fuel _ _ _ _ _ _ _ [] _ Hli) as (w1 & E & Hu1); [lia|lia|].
  rewrite E in Hv. destruct (unchanged_trans _ _ _ _ Hu Hu1) as [Hm Hfw].
  assert (load_bytes (w_mem w1) cfgOff (Z.to_nat cfgLen) = decimal n ++ 10 :: cmdline ++ 10 :: rest) as Hcfg1.
  { rewrite <-Hcfg. apply Hm. unfold cfgLen in *. lia. }
  pose proof (config_step n cmdline rest (logged "Starting" w1) Hcfg1 Hn Hc) as Econf.
  exists w1. split_and!; [done..| |].
  - intros Hsmall. rewrite (main_listed _ _ _ _ _ _ _ _ Hh Hv).
    unfold mbind, SM_bind, on_world. rewrite Econf. by rewrite (proj2 (Z.ltb_lt _ _)) by lia.
  - intros root h raw herr err w2 w3 w4 w5 Hlarge Hr Hl Hi Hs.
    rewrite (main_listed _ _ _ _ _ _ _ _ Hh Hv).
    rewrite (proj2 (Z.ltb_ge _ _)) in Econf by lia.
    erewrite sm_step by (by apply on_world_step). cbv beta iota.
    pose proof (efiload_executeKernel_step fuel kernelPath (mkSlice kerOff n) cmdline _ _ _ _ _ _ _ _ Hr Hl Hi)
      as Eex.
    erewrite bind_step in Eex by exact Hs.
    erewrite sm_step by (apply on_world_step; exact Eex). cbv beta iota.
    destruct err; [|done]. by erewrite sm_step by (apply on_world_step, println_step).
Qed.

Section RecoverySteps.
Context `{GoBoot, Append}.

(** go-boot's [Ptrval] of a [*uint16] is the address. *)
Definition ptrval_law : Prop := forall a w, Ptrval_uint16 a w = (Ret a, w).

Lemma set_options_step raw cmdline w : ptrval_law ->
  Recovery.set_options raw cmdline w = (Ret tt, options_world raw cmdline (logged "Loaded image" w)).
Proof.
  intros Hp. unfold Recovery.set_options, Recovery.stringToUTF16Ptr, stringToUTF16Ptr. rewrite <-toUTF16_eq.
  erewrite bind_step by reflexivity. erewrite bind_step by apply println_step.
  erewrite bind_step by reflexivity. by erewrite bind_step by apply Hp.
Qed.

(** The command line: what is given, else the file's bytes, complete or not,
    else the built-in one. *)
Lemma choose_cmdline_given fuel c w : c <> [] -> Recovery.choose_cmdline fuel c w = (Ret c, w).
Proof. by destruct c. Qed.

Lemma choose_cmdline_file fuel root bf data err w w1 w2 w3 :
  Root w = (Ret (root, None), w1) -> Open root Recovery.cmdlinePath w1 = (Ret (bf, None), w2) ->
  ReadAll fuel bf (logged "Opened file" w2) = (Ret (data, err), w3) ->
  Recovery.choose_cmdline fuel [] w = (Ret data, alloc_world data (read_world err w3)).
Proof.
  intros Hr Ho Hd. unfold Recovery.choose_cmdline.
  erewrite bind_step by (by eapply loadAndVerify_step). cbv beta iota. unfold get_bytes.
  cbn [sl_ptr sl_len]. replace (Z.to_nat (zlen data)) with (length data) by (unfold zlen; lia).
  assert (w_brk w3 = w_brk (read_world err w3)) as -> by (by destruct err).
  by rewrite alloc_world_load.
Qed.

Lemma choose_cmdline_default fuel root bf e w w1 w2 :
  Root w = (Ret (root, None), w1) -> Open root Recovery.cmdlinePath w1 = (Ret (bf, Some e), w2) ->
  Recovery.choose_cmdline fuel [] w =
  (Ret Recovery.CmdLine, logged "Error opening default cmdline" (logged "Error opening" w2)).
Proof.
  intros Hr Ho. unfold Recovery.choose_cmdline.
  assert (loadAndVerify fuel Recovery.cmdlinePath w =
    (Ret (None, Some (ErrWrap "could not open kernel, " e)), logged "Error opening" w2)) as El.
  { unfold loadAndVerify. erewrite bind_step by exact Hr. cbv beta iota.
    erewrite bind_step by exact Ho. cbv beta iota. by erewrite bind_step by apply println_step. }
  erewrite bind_step by exact El. cbv beta iota. by erewrite bind_step by apply println_step.
Qed.
End RecoverySteps.

(** C39. The shell command of recovery starts what it has read of the kernel,
    whether or not the read failed ([rerr]) and whether or not the loaded image
    protocol was found ([herr]), with the load options set to the command line
    before; the path is the first argument or the default kernel, the command
    line the other arguments joined by spaces, else that of the boot volume,
    else the built-in one. *)
Theorem recovery_starts `{GoBoot, Append} fuel arg root root' bf data rerr c h raw herr
    w w1 w2 w3 w4 w5 w6 w7 :
  ptrval_law ->
  let path := match arg with a :: _ => a | [] => kernelPath end in
  let given := match arg with _ :: (_ :: _) as args => Recovery.join args | _ => [] end in
  Root (logged "EFI linux start" w) = (Ret (root, None), w1) ->
  Root w1 = (Ret (root', None), w2) ->
  Open root' path w2 = (Ret (bf, None), w3) ->
  ReadAll fuel bf (logged "Opened file" w3) = (Ret (data, rerr), w4) ->
  Recovery.choose_cmdline fuel given
    (logged "loading EFI image" (alloc_world data (read_world rerr w4))) = (Ret c, w5) ->
  LoadImageMem 0 root path (mkSlice (w_brk w4) (zlen data)) w5 = (Ret (h, None), w6) ->
  LoadImageHandle h w6 = (Ret (raw, herr), w7) ->
  Recovery.recovery fuel arg w =
  (err ← StartImage h; mret ([], err))
    (logged "starting EFI image" (options_world raw c (logged "Loaded image" w7))).
Proof.
  intros Hp path given Hr Hr' Ho Hd Hc Hl Hh. unfold Recovery.recovery.
  erewrite bind_step by apply println_step. fold path given. unfold Recovery.executeKernel.
  erewrite bind_step by exact Hr. cbv beta iota.
  erewrite bind_step by (by eapply loadAndVerify_step). cbv beta iota.
  erewrite bind_step by apply println_step. erewrite bind_step by exact Hc. cbn [default].
  erewrite bind_step by exact Hl. cbv beta iota. erewrite bind_step by exact Hh. cbv beta iota.
  erewrite bind_step by (by apply set_options_step). by erewrite bind_step by apply println_step.
Qed.

(** ** A go-boot to run on

    The store of two variables; the kernel's file fails after four bytes, there is no command
    line file, and the state keeps what the last image was loaded with. *)
Definition cmd_machine : Machine := machine_with (list Z) (fun fn args m s =>
  let '(status, m', _) := firmware (Machine := store_machine) fn args m tt in (status, m', s)).

#[export] Instance cmd_store : VariableStore (H := cmd_machine).
Proof.
  refine {| vs_vars _ := demo_vars; next_entry := 0x9000; get_entry := 0x9001 |}.
  - intros _. apply demo_vars_ok.
  - intros size name guid m s k Hk. pose proof (next_contract (VariableStore := demo_store) size name guid m tt k Hk) as E.
    cbn [firmware cmd_machine machine_with]. cbn [next_entry demo_store] in E. rewrite E.
    cbn [vs_vars demo_store]. destruct (demo_vars !! k); [|done]. by destruct (_ <? _).
  - intros name guid attr size data m s k v Hk Hv.
    pose proof (get_contract (VariableStore := demo_store) name guid attr size data m tt k v Hk Hv) as E.
    cbn [firmware cmd_machine machine_with]. cbn [get_entry demo_store] in E. rewrite E.
    by destruct (_ <? _).
Defined.

#[export] Instance demo_goboot : GoBoot (H := cmd_machine) := {
  root_t := unit;
  file_t := unit;
  Handles w := (Ret (7, 0x1000), w);
  Root w := (Ret (tt, None), w);
  Open _ path w := (Ret (tt, if decide (path = kernelPath) then None else Some (ErrNew "not found")), w);
  file_Read _ p n w :=
    if decide (w_fw w = []) then
      (Ret (4, None), mkWorld cmd_machine (store_bytes (w_mem w) p [77; 90; 1; 2]) (w_brk w) (w_mux w)
                        (w_log w) [1])
    else (Ret (0, Some (ErrNew "device error")), w);
  LoadImageMem _ _ _ s w := (Ret (9, None), mkWorld cmd_machine (w_mem w) (w_brk w) (w_mux w) (w_log w)
                               (load_bytes (w_mem w) (sl_ptr s) (Z.to_nat (sl_len s))));
  LoadImageHandle _ w := (Ret (0x5000, None), w);
  StartImage _ w := (Ret None, w);
  Exit _ w := (Ret None, w);
  SetWatchdogTimer _ w := (Ret None, w);
  ResetSystem _ w := (Ret None, w);
  goboot_EfiResetShutdown := 2;
  Ptrval_uint16 a w := (Ret a, w);
  shell_Start cmd w := let '(_, w') := cmd [] w in (Ret tt, w');
}.

Definition cmd_append : Append.
Proof. refine {| growslice c := c + 1 |}. intros. lia. Defined.

Definition cmd_world : World (H := cmd_machine) :=
  mkWorld cmd_machine
    (store_bytes (store64 (store64 (store64 ∅ 0x1058 0x2000) 0x2048 0x9001) 0x2050 0x9000) cfgOff
       (bytes_of_string "20" ++ 10 :: bytes_of_string "quiet" ++ [10])) 0x40000000 false [] [].

Lemma recovery_starts_witness :
  exists w', Recovery.recovery (H := cmd_machine) (H0 := demo_goboot) (H1 := cmd_append) 3 [] cmd_world = (Ret ([], None), w') /\
    w_fw w' = [77; 90; 1; 2].
Proof.
  eexists. split.
  - etransitivity.
    + eapply (recovery_starts (H := cmd_machine) (H0 := demo_goboot) (H1 := cmd_append) 3 [] tt tt tt [77; 90; 1; 2]
        (Some (ErrNew "device error")) Recovery.CmdLine 9 0x5000 None); try reflexivity.
      * intros a w. reflexivity.
      * apply (fst_eq (ReadAll _ _ _)). vm_compute. reflexivity.
    + reflexivity.
  - vm_compute. reflexivity.
Defined.

Lemma efiload_starts_witness :
  exists w', Efiload.main (H := cmd_machine) (H0 := demo_goboot) (H1 := cmd_append) 5
      (mkPackage 0 0 (fun _ => 0)) (false, cmd_world) = (Ret None, (false, w')) /\
    length (w_fw w') = 20%nat.
Proof.
  edestruct (efiload_starts (H := cmd_machine) (H0 := demo_goboot) (H1 := cmd_append)
    (H2 := cmd_store) 5 (mkPackage 0 0 (fun _ => 0)) 7 0x1000 20 (bytes_of_string "quiet")
    (replicate (Z.to_nat cfgLen - 9) 0) cmd_world cmd_world) as (w1 & _ & _ & _ & _ & Hmain).
  - reflexivity.
  - split_and!; [vm_compute; discriminate..|vm_compute; reflexivity|vm_compute; reflexivity].
  - cbn. lia.
  - vm_compute. discriminate.
  - vm_compute. reflexivity.
  - lia.
  - apply (bool_decide_unpack _). vm_compute. exact I.
  - eexists. split.
    + rewrite (Hmain tt 9 0x5000 None None _ _ _ _ ltac:(lia) eq_refl eq_refl eq_refl eq_refl). reflexivity.
    + cbn [w_fw options_world logged set_mem alloc_world]. apply length_load_bytes.
Defined.
