(* ===== verification/Clock.v ===== *)
(** * Clock: pkg/uefi/clock.go and device/x86/cpu.go

    The conversion of an EFI_TIME to Unix seconds, copied in the source from
    Go's package time, and the frequency of the time stamp counter from the
    CPUID leaves. Go's [int] and [int64] are [i64], [uint64] is [u64]. *)

From S2P Require Import Prelude Binary Tables.

(** ** clock.go: calendar arithmetic *)

Definition secondsPerMinute : Z := 60.
Definition secondsPerHour : Z := 60 * secondsPerMinute.
Definition secondsPerDay : Z := 24 * secondsPerHour.
Definition daysPer400Years : Z := 365 * 400 + 97.
Definition daysPer100Years : Z := 365 * 100 + 24.
Definition daysPer4Years : Z := 365 * 4 + 1.
Definition absoluteZeroYear : Z := -292277022399.
Definition internalYear : Z := 1.

(** The constant expression is exact: 365.2425 = 3652425 / 10000. *)
Definition absoluteToInternal : Z :=
  (absoluteZeroYear - internalYear) * 3652425 * secondsPerDay / 10000.
Definition unixToInternal : Z := (1969 * 365 + 1969 / 4 - 1969 / 100 + 1969 / 400) * secondsPerDay.
Definition internalToUnix : Z := - unixToInternal.

Definition daysBefore : list Z :=
  [ 0;
    31;
    31 + 28;
    31 + 28 + 31;
    31 + 28 + 31 + 30;
    31 + 28 + 31 + 30 + 31;
    31 + 28 + 31 + 30 + 31 + 30;
    31 + 28 + 31 + 30 + 31 + 30 + 31;
    31 + 28 + 31 + 30 + 31 + 30 + 31 + 31;
    31 + 28 + 31 + 30 + 31 + 30 + 31 + 31 + 30;
    31 + 28 + 31 + 30 + 31 + 30 + 31 + 31 + 30 + 31;
    31 + 28 + 31 + 30 + 31 + 30 + 31 + 31 + 30 + 31 + 30;
    31 + 28 + 31 + 30 + 31 + 30 + 31 + 31 + 30 + 31 + 30 + 31 ].

(** [daysBefore[i]], with Go's bounds check. *)
Definition daysBefore_at (i : Z) : outcome Z :=
  if decide (0 <= i) then
    match daysBefore !! Z.to_nat i with Some d => Ret d | None => Panic PIndex end
  else Panic PIndex.

Definition daysSinceEpoch (year : Z) : Z :=
  let y := u64 (i64 (year - absoluteZeroYear)) in
  let n := y / 400 in
  let y := u64 (y - u64 (400 * n)) in
  let d := u64 (daysPer400Years * n) in
  let n := y / 100 in
  let y := u64 (y - u64 (100 * n)) in
  let d := u64 (d + u64 (daysPer100Years * n)) in
  let n := y / 4 in
  let y := u64 (y - u64 (4 * n)) in
  let d := u64 (d + u64 (daysPer4Years * n)) in
  let n := y in
  u64 (d + u64 (365 * n)).

(** Go's [%] truncates. *)
Definition isLeap (year : Z) : bool :=
  (Z.rem year 4 =? 0) && (negb (Z.rem year 100 =? 0) || (Z.rem year 400 =? 0)).

Definition GetEpoch (t : EFI_TIME.t) : outcome (Z * Z) :=
  let year := EFI_TIME.Year t in
  let month := EFI_TIME.Month t - 1 in
  let d := daysSinceEpoch year in
  before ← daysBefore_at (month - 1);
  let d := u64 (d + u64 before) in
  let d := if isLeap year && (3 <=? month) then u64 (d + 1) else d in
  let d := u64 (d + u8 (EFI_TIME.Day t - 1)) in
  let abs := u64 (d * secondsPerDay) in
  let abs := u64 (abs + u64 (u64 (u64 (EFI_TIME.Hour t * secondsPerHour)
                                  + u64 (EFI_TIME.Minute t * secondsPerMinute))
                             + EFI_TIME.Second t)) in
  Ret (i64 (i64 abs + (absoluteToInternal + internalToUnix)), i32 (EFI_TIME.Nanosecond t)).

(** ** device/x86/cpu.go: the frequency of the time stamp counter *)

Section Cpu.
(** What CPUID answers for a leaf: EAX, EBX, ECX and EDX. *)
Context (AsmCpuid : Z -> Z * Z * Z * Z).

Definition CPUID_TIME_STAMP_COUNTER : Z := 0x15.
Definition CPU_FAMILY_INTEL_CORE : Z := 6.

(** [init] stores leaves 0 and 1 in package variables. *)
Definition maxCpuidIndex : Z := (AsmCpuid 0).1.1.1.
Definition stdVendorName0 : Z := (AsmCpuid 0).1.1.2.
Definition stdCpuid1Eax : Z := (AsmCpuid 1).1.1.1.

Definition GetExtendedCpuFamily : Z :=
  let family := u16 (Z.land (Z.shiftr stdCpuid1Eax 8) 0x0f) in
  u16 (family + u16 (Z.land (Z.shiftr stdCpuid1Eax 20) 0xff)).

Definition GetMaxCpuidIndex : Z := maxCpuidIndex.
Definition IsAmd : bool := stdVendorName0 =? 0x68747541.
Definition IsIntel : bool := stdVendorName0 =? 0x756e6547.
Definition IsIntelFamilyCore : bool := IsIntel && (GetExtendedCpuFamily =? CPU_FAMILY_INTEL_CORE).

Definition CpuidCoreClockCalculateTscFrequency : Z :=
  let '(RegEax, RegEbx, RegEcx, _) := AsmCpuid CPUID_TIME_STAMP_COUNTER in
  if (RegEax =? 0) || (RegEbx =? 0) then 0 else
  let compute CoreXtalFrequency :=
    u64 (u64 (CoreXtalFrequency * RegEbx) + RegEax / 2) / RegEax in
  if RegEcx =? 0 then
    if IsIntelFamilyCore then
      compute (if GetExtendedCpuFamily =? 0x5F then 25000000
               else if GetExtendedCpuFamily =? 0x5C then 19200000
               else if GetExtendedCpuFamily =? 0x7A then 19200000
               else 24000000)
    else 0
  else compute RegEcx.

Definition InternalGetPerformanceCounterFrequency : Z :=
  if CPUID_TIME_STAMP_COUNTER <=? maxCpuidIndex then CpuidCoreClockCalculateTscFrequency else 0.
End Cpu.

(** ** The calendar, as a count of days *)

Module Calendar.
(** The proleptic Gregorian calendar by counting: the days of the years and
    months that have gone by. *)
Definition leap (y : Z) : bool :=
  (y mod 4 =? 0) && (negb (y mod 100 =? 0) || (y mod 400 =? 0)).

Definition year_length (y : Z) : Z := if leap y then 366 else 365.

Fixpoint days_of_years (n : nat) : Z :=
  match n with
  | O => 0
  | S n => days_of_years n + year_length (Z.of_nat n)
  end.

Definition month_length (y : Z) (m : nat) : Z :=
  nth m [0; 31; if leap y then 29 else 28; 31; 30; 31; 30; 31; 31; 30; 31; 30; 31] 0.

(** The days of the months of year [y] before month [m], counted from 1. *)
Fixpoint days_of_months (y : Z) (m : nat) : Z :=
  match m with
  | O => 0
  | S m => days_of_months y m + month_length y m
  end.

(** Seconds from 1970-01-01 00:00 to the given moment, in the same zone. *)
Definition unix (y m : nat) (d h mi s : Z) : Z :=
  (days_of_years y - days_of_years 1970 + days_of_months (Z.of_nat y) m + (d - 1)) * 86400
  + h * 3600 + mi * 60 + s.
End Calendar.
Import Calendar.

(** The days from [absoluteZeroYear] to year [year], in closed form. *)
Definition closed_days (Y : Z) : Z := 365 * Y + Y / 4 - Y / 100 + Y / 400.

(** One round of [y -= k * (y / k)] and [d += c * (y / k)]. *)
Lemma cycle_rest k y : 0 < k -> 0 <= y < 2 ^ 63 -> u64 (y - u64 (k * (y / k))) = y mod k.
Proof.
  intros Hk Hy. pose proof (Z.div_mod y k ltac:(lia)).
  pose proof (Z.mod_pos_bound y k Hk). pose proof (Z.div_pos y k ltac:(lia) Hk).
  rewrite (wrap_small 64 (k * _)) by (unfold is_word; nia).
  rewrite wrap_small by (unfold is_word; nia). lia.
Qed.

Lemma cycle_days d c n : 0 <= d < 2 ^ 62 -> 0 <= c * n < 2 ^ 62 -> u64 (d + u64 (c * n)) = d + c * n.
Proof. intros. rewrite !wrap_small; unfold is_word; rewrite ?wrap_small; unfold is_word; lia. Qed.

Lemma daysSinceEpoch_closed year :
  0 <= year < 2 ^ 16 -> daysSinceEpoch year = closed_days (year - absoluteZeroYear).
Proof.
  intros Hy. unfold daysSinceEpoch, closed_days.
  unfold absoluteZeroYear, daysPer400Years, daysPer100Years, daysPer4Years.
  rewrite swrap_small by lia.
  rewrite (wrap_small 64 (year - _)) by (unfold is_word; lia).
  set (y := year - -292277022399).
  assert (292277022399 <= y < 292277022399 + 2 ^ 16) as Hb by lia. clearbody y.
  cbv zeta. rewrite (cycle_rest 400 y) by lia.
  pose proof (Z.mod_pos_bound y 400 ltac:(lia)) as H4.
  rewrite (cycle_rest 100 (y mod 400)) by lia.
  pose proof (Z.mod_pos_bound (y mod 400) 100 ltac:(lia)) as H1.
  rewrite (cycle_rest 4 ((y mod 400) mod 100)) by lia.
  rewrite (wrap_small 64 (_ * (y / 400))) by (unfold is_word; Z.div_mod_to_equations; lia).
  rewrite (cycle_days _ _ (y mod 400 / 100)) by (Z.div_mod_to_equations; lia).
  rewrite (cycle_days _ _ ((y mod 400) mod 100 / 4)) by (Z.div_mod_to_equations; lia).
  rewrite cycle_days by (Z.div_mod_to_equations; lia).
  Z.div_mod_to_equations; lia.
Qed.

Lemma div_succ k x : 0 < k -> (x + 1) / k = x / k + (if (x + 1) mod k =? 0 then 1 else 0).
Proof.
  intros Hk. pose proof (Z.div_mod x k ltac:(lia)). pose proof (Z.mod_pos_bound x k Hk).
  pose proof (Z.div_mod (x + 1) k ltac:(lia)). pose proof (Z.mod_pos_bound (x + 1) k Hk).
  destruct (Z.eqb_spec ((x + 1) mod k) 0); nia.
Qed.

(** The zero year is 1 modulo 400, so the leap years fall at the end of the cycles. *)
Lemma zero_year_mod k q year : k * q = 292277022400 -> 0 < k ->
  (year - absoluteZeroYear + 1) mod k = year mod k.
Proof.
  intros Hq Hk. unfold absoluteZeroYear.
  replace (year - -292277022399 + 1) with (year + q * k) by lia. apply Z.mod_add. lia.
Qed.

Lemma closed_days_step year :
  closed_days (year + 1 - absoluteZeroYear) =
  closed_days (year - absoluteZeroYear) + year_length year.
Proof.
  unfold closed_days, year_length, leap.
  replace (year + 1 - absoluteZeroYear) with (year - absoluteZeroYear + 1) by lia.
  rewrite !div_succ by lia.
  rewrite (zero_year_mod 4 73069255600), (zero_year_mod 100 2922770224),
    (zero_year_mod 400 730692556) by lia.
  destruct (Z.eqb_spec (year mod 4) 0), (Z.eqb_spec (year mod 100) 0),
    (Z.eqb_spec (year mod 400) 0); cbn [andb orb negb]; cbv iota; try lia;
    exfalso; Z.div_mod_to_equations; lia.
Qed.

Lemma closed_days_count (n : nat) :
  closed_days (Z.of_nat n - absoluteZeroYear) =
  closed_days (0 - absoluteZeroYear) + days_of_years n.
Proof.
  induction n as [|n IH]; [reflexivity|].
  replace (Z.of_nat (S n)) with (Z.of_nat n + 1) by lia.
  rewrite closed_days_step, IH. cbn [days_of_years]. lia.
Qed.

Lemma isLeap_leap year : 0 <= year -> isLeap year = leap year.
Proof. intros. unfold isLeap, leap. by rewrite !Z.rem_mod_nonneg by lia. Qed.

(** [daysBefore] and the leap day against the month lengths. *)
Lemma daysBefore_months year (m : nat) : 0 <= year -> (1 <= m <= 13)%nat ->
  exists b, daysBefore_at (Z.of_nat m - 1) = Ret b /\ 0 <= b < 366 /\
    b + (if isLeap year && (3 <=? Z.of_nat m) then 1 else 0) = days_of_months year m.
Proof.
  intros Hy Hm. rewrite isLeap_leap by done.
  exists (nth (m - 1) daysBefore 0). destruct m as [|m]; [lia|].
  do 13 (destruct m as [|m];
    [split_and!; [reflexivity|cbn; lia|cbn; lia|cbn; destruct (leap year); reflexivity]|]).
  lia.
Qed.

Lemma days_of_years_bound n : 0 <= days_of_years n <= 366 * Z.of_nat n.
Proof. induction n; cbn [days_of_years]; [lia|]. unfold year_length. destruct leap; lia. Qed.

(** A date that an EFI_TIME field of each width can hold. *)
Definition time_ok (t : EFI_TIME.t) : Prop :=
  is_word 16 (EFI_TIME.Year t) /\ is_word 8 (EFI_TIME.Month t) /\ is_word 8 (EFI_TIME.Day t) /\
  is_word 8 (EFI_TIME.Hour t) /\ is_word 8 (EFI_TIME.Minute t) /\ is_word 8 (EFI_TIME.Second t) /\
  is_word 32 (EFI_TIME.Nanosecond t).

#[export] Instance time_ok_dec t : Decision (time_ok t).
Proof. unfold time_ok. apply _. Defined.

Lemma swrap_add_l w a b : 0 < w -> swrap w (swrap w a + b) = swrap w (a + b).
Proof.
  intros Hw. rewrite <-(swrap_wrap w (swrap w a + b)), <-(swrap_wrap w (a + b)) by done.
  f_equal. unfold wrap, swrap.
  rewrite <-(Zplus_mod_idemp_l (_ - _)), Zminus_mod_idemp_l, Zplus_mod_idemp_l.
  f_equal. lia.
Qed.

(** The tail of [GetEpoch]: the wrap-arounds of the absolute count cancel. *)
Lemma epoch_seconds D x :
  i64 (i64 (u64 (u64 (D * secondsPerDay) + x)) + (absoluteToInternal + internalToUnix)) =
  i64 ((D - closed_days (1970 - absoluteZeroYear)) * 86400 + x).
Proof.
  replace (absoluteToInternal + internalToUnix)
    with (- closed_days (1970 - absoluteZeroYear) * 86400) by reflexivity.
  change secondsPerDay with 86400.
  generalize (closed_days (1970 - absoluteZeroYear)). intros c.
  rewrite swrap_wrap by lia. rewrite <-(swrap_wrap 64 (wrap _ _ + x)) by lia.
  replace (u64 (u64 (D * 86400) + x)) with (u64 (D * 86400 + x))
    by (unfold wrap; by rewrite Zplus_mod_idemp_l).
  rewrite swrap_wrap, swrap_add_l by lia. f_equal. lia.
Qed.

(** The date part of [GetEpoch], without wrap-around. *)
Lemma date_days year m b day :
  0 <= year < 2 ^ 16 -> 0 <= b < 366 -> is_word 8 day -> 1 <= day ->
  let d := u64 (daysSinceEpoch year + u64 b) in
  u64 ((if isLeap year && (3 <=? m) then u64 (d + 1) else d) + u8 (day - 1)) =
  closed_days (year - absoluteZeroYear)
  + (b + (if isLeap year && (3 <=? m) then 1 else 0)) + (day - 1).
Proof.
  intros Hy Hb Hd H1 d. subst d. rewrite daysSinceEpoch_closed by done.
  assert (0 <= closed_days (year - absoluteZeroYear) < 2 ^ 50) as Hc.
  { unfold closed_days, absoluteZeroYear. Z.div_mod_to_equations. lia. }
  unfold is_word in Hd.
  rewrite (wrap_small 64 b), (wrap_small 8) by (unfold is_word; lia).
  rewrite (wrap_small 64 (_ + b)) by (unfold is_word; lia).
  destruct (isLeap year && _); rewrite !wrap_small; unfold is_word; rewrite ?wrap_small;
    unfold is_word; lia.
Qed.

Lemma GetEpoch_date t (m : nat) : time_ok t -> 1 <= EFI_TIME.Day t -> (1 <= m <= 12)%nat ->
  EFI_TIME.Month t = Z.of_nat m + 1 ->
  GetEpoch t = Ret (Calendar.unix (Z.to_nat (EFI_TIME.Year t)) m (EFI_TIME.Day t)
    (EFI_TIME.Hour t) (EFI_TIME.Minute t) (EFI_TIME.Second t), i32 (EFI_TIME.Nanosecond t)).
Proof.
  intros (Hy & _ & Hd & Hh & Hmi & Hs & _) H1 Hm EM. unfold GetEpoch.
  destruct (daysBefore_months (EFI_TIME.Year t) m) as (b & Hb & Hbr & Hdays);
    [unfold is_word in Hy; lia | lia |].
  replace (EFI_TIME.Month t - 1) with (Z.of_nat m) by lia. rewrite Hb.
  unfold mbind, outcome_mbind, outcome_bind. do 2 f_equal.
  rewrite date_days, Hdays by (unfold is_word in *; lia || done).
  change secondsPerHour with 3600. change secondsPerMinute with 60.
  unfold is_word in *.
  rewrite (wrap_small 64 (EFI_TIME.Hour t * _)), (wrap_small 64 (EFI_TIME.Minute t * _))
    by (unfold is_word; lia).
  rewrite (wrap_small 64 (EFI_TIME.Hour t * 3600 + _)) by (unfold is_word; lia).
  rewrite (wrap_small 64 (EFI_TIME.Hour t * 3600 + _ + _)) by (unfold is_word; lia).
  rewrite epoch_seconds. unfold Calendar.unix.
  pose proof (days_of_years_bound (Z.to_nat (EFI_TIME.Year t))) as By.
  pose proof (closed_days_count (Z.to_nat (EFI_TIME.Year t))) as Cy.
  pose proof (closed_days_count 1970) as C1970.
  rewrite Z2Nat.id in * by lia. change (Z.of_nat 1970) with 1970 in C1970.
  rewrite swrap_small; [|lia|].
  all: pose proof (days_of_years_bound 1970); rewrite Cy, C1970;
    revert Hdays; case_match; intros; nia.
Qed.

(** C29. [GetEpoch] is one month early.  Its month is counted from 0 when it
    indexes the table of days before a month, and 1 is subtracted again: a time
    in February to December gives the Unix seconds of the same day and hour of
    the month before, leap years and all, and a time in January panics with an
    index out of range. *)
Theorem GetEpoch_month_off t : time_ok t -> 1 <= EFI_TIME.Day t ->
  (2 <= EFI_TIME.Month t <= 12 ->
   GetEpoch t = Ret
     (Calendar.unix (Z.to_nat (EFI_TIME.Year t)) (Z.to_nat (EFI_TIME.Month t - 1))
        (EFI_TIME.Day t) (EFI_TIME.Hour t) (EFI_TIME.Minute t) (EFI_TIME.Second t),
      i32 (EFI_TIME.Nanosecond t))) /\
  (EFI_TIME.Month t = 1 -> GetEpoch t = Panic PIndex).
Proof.
  intros Ht H1. split.
  - intros Hm. apply GetEpoch_date; [done..|lia|lia].
  - intros Hm. unfold GetEpoch. by rewrite Hm.
Qed.

Lemma GetEpoch_month_off_witness :
  let t := EFI_TIME.mk 2024 3 31 12 34 56 0 7 0 0 0 in
  time_ok t /\ GetEpoch t = Ret (Calendar.unix 2024 2 31 12 34 56, 7).
Proof.
  intros t. assert (time_ok t) as Ht by (unfold time_ok, is_word; cbn; lia).
  split; [exact Ht|].
  apply (GetEpoch_month_off t Ht ltac:(vm_compute; discriminate)).
  vm_compute. split; discriminate.
Defined.

(** [x * b / a] rounded to the nearest integer, as the source computes it. *)
Lemma ratio_nearest x a b : 0 < a -> is_word 32 a -> is_word 32 b -> is_word 32 x ->
  let f := u64 (u64 (x * b) + a / 2) / a in 2 * Z.abs (f * a - x * b) <= a.
Proof.
  intros Ha0 Ha Hb Hx f. subst f. unfold is_word in *.
  assert (0 <= x * b <= (2 ^ 32 - 1) * (2 ^ 32 - 1)) as Hxb by nia.
  rewrite (wrap_small 64 (x * b)) by (unfold is_word; lia).
  generalize dependent (x * b). intros y Hy.
  rewrite wrap_small by (unfold is_word; Z.div_mod_to_equations; lia).
  pose proof (Z.div_mod (y + a / 2) a ltac:(lia)).
  pose proof (Z.mod_pos_bound (y + a / 2) a Ha0).
  pose proof (Z.div_mod a 2 ltac:(lia)). pose proof (Z.mod_pos_bound a 2 ltac:(lia)). lia.
Qed.

(** The extended family of a Core processor is 6, so the cases for the Atom
    models cannot be taken. *)
Lemma core_default AsmCpuid {A} (x y z d : A) : IsIntelFamilyCore AsmCpuid = true ->
  (if GetExtendedCpuFamily AsmCpuid =? 0x5F then x
   else if GetExtendedCpuFamily AsmCpuid =? 0x5C then y
   else if GetExtendedCpuFamily AsmCpuid =? 0x7A then z else d) = d.
Proof.
  unfold IsIntelFamilyCore. intros [_ ->%Z.eqb_eq]%andb_true_iff. reflexivity.
Qed.

(** C30. The frequency of the time stamp counter is the crystal frequency times
    EBX / EAX of leaf 0x15, rounded to the nearest hertz without overflow, and 0
    when the leaf or its ratio is not enumerated.  A crystal frequency that is
    not enumerated is taken to be 24 MHz on every Intel Core processor: the
    source compares the family with the model numbers of the Atom cases, so
    those are never taken. *)
Theorem TscFrequency_correct AsmCpuid a b c d :
  AsmCpuid CPUID_TIME_STAMP_COUNTER = (a, b, c, d) ->
  is_word 32 a -> is_word 32 b -> is_word 32 c ->
  let f := InternalGetPerformanceCounterFrequency AsmCpuid in
  if decide (maxCpuidIndex AsmCpuid < 0x15 \/ a = 0 \/ b = 0) then f = 0
  else if decide (c = 0 /\ IsIntelFamilyCore AsmCpuid = false) then f = 0
  else 2 * Z.abs (f * a - (if decide (c = 0) then 24000000 else c) * b) <= a.
Proof.
  intros E Ha Hb Hc f. subst f.
  unfold InternalGetPerformanceCounterFrequency, CpuidCoreClockCalculateTscFrequency.
  rewrite E. change CPUID_TIME_STAMP_COUNTER with 0x15.
  destruct (Z.leb_spec 0x15 (maxCpuidIndex AsmCpuid)); [|case_decide; tauto].
  destruct (Z.eqb_spec a 0), (Z.eqb_spec b 0); cbn [orb]; case_decide; try tauto; try lia.
  destruct (Z.eqb_spec c 0) as [->|Hc0].
  - destruct (IsIntelFamilyCore AsmCpuid) eqn:Hcore; case_decide; try tauto; [naive_solver|].
    rewrite decide_True, core_default by done. apply ratio_nearest; unfold is_word in *; lia.
  - repeat (case_decide; try tauto). apply ratio_nearest; unfold is_word in *; lia.
Qed.

(** An Atom (family 6, model 0x5C) with a 19.2 MHz crystal that is not enumerated. *)
Definition atom_cpuid (leaf : Z) : Z * Z * Z * Z :=
  if leaf =? 0 then (0x15, 0x756e6547, 0, 0)
  else if leaf =? 1 then (0x000506C9, 0, 0, 0)
  else if leaf =? 0x15 then (3, 216, 0, 0) else (0, 0, 0, 0).

Lemma TscFrequency_correct_witness :
  2 * Z.abs (InternalGetPerformanceCounterFrequency atom_cpuid * 3 - 24000000 * 216) <= 3 /\
  InternalGetPerformanceCounterFrequency atom_cpuid = 1728000000.
Proof.
  split; [|reflexivity].
  exact (TscFrequency_correct atom_cpuid 3 216 0 0 eq_refl ltac:(unfold is_word; lia)
    ltac:(unfold is_word; lia) ltac:(unfold is_word; lia)).
Defined.
