(* ===== verification/Cpu.v ===== *)
(** * Cpu: the assembly of device/x86

    cpu_amd64.S, instruction by instruction, on a processor that answers CPUID
    and keeps a time stamp counter, and the [init] of cpu.go over it.  Clock
    takes what CPUID answers as an argument; here it is shown that the assembly
    delivers it to the package variables that Clock reads. *)

From S2P Require Import Prelude Binary Machine Clock.

(** ** The processor *)

(** CPUID, on EAX and ECX, gives EAX, EBX, ECX and EDX, which are 32-bit. *)
Class Processor := {
  cpuid : Z -> Z -> Z * Z * Z * Z;
  cpuid_words leaf sub : let '(a, b, c, d) := cpuid leaf sub in
    is_word 32 a /\ is_word 32 b /\ is_word 32 c /\ is_word 32 d;
}.

Inductive reg := RAX | RBX | RCX | RDX | RSP | R8 | R9.

Inductive label := SkipEcx | SkipEax | SkipEbx | SkipEdx.

(** AT&T order: source first.  [Movl] is the mov of 32-bit registers, which
    clears the upper half, [Storel] the mov of one to memory. *)
Inductive instr :=
| Pause | Rdtsc | Cpuid
| Pushq (r : reg) | Popq (r : reg)
| Movq (src dst : reg) | Movl (src dst : reg)
| Storel (src base : reg)                (* mov %src, (base) *)
| Loadq (off : Z) (base dst : reg)       (* mov off(base), dst *)
| Shlq (i : Z) (r : reg) | Orq (src dst : reg)
| Testq (a b : reg) | Jz (l : label) | Jrcxz (l : label)
| Label (l : label)
| Retq.

#[export] Instance reg_eq_dec : EqDecision reg.
Proof. solve_decision. Defined.
#[export] Instance label_eq_dec : EqDecision label.
Proof. solve_decision. Defined.
#[export] Instance instr_eq_dec : EqDecision instr.
Proof. solve_decision. Defined.

Record regs := mkRegs {
  rax : Z; rbx : Z; rcx : Z; rdx : Z; rsp : Z; r8 : Z; r9 : Z; zf : bool;
}.

Definition get (r : reg) (s : regs) : Z :=
  match r with
  | RAX => rax s | RBX => rbx s | RCX => rcx s | RDX => rdx s | RSP => rsp s
  | R8 => r8 s | R9 => r9 s
  end.

Definition set (r : reg) (v : Z) (s : regs) : regs :=
  let 'mkRegs a b c d p e f z := s in
  match r with
  | RAX => mkRegs v b c d p e f z | RBX => mkRegs a v c d p e f z
  | RCX => mkRegs a b v d p e f z | RDX => mkRegs a b c v p e f z
  | RSP => mkRegs a b c d v e f z | R8 => mkRegs a b c d p v f z
  | R9 => mkRegs a b c d p e v z
  end.

Definition set_zf (z : bool) (s : regs) : regs :=
  mkRegs (rax s) (rbx s) (rcx s) (rdx s) (rsp s) (r8 s) (r9 s) z.

Definition state : Type := regs * memory.

Section Steps.
Context `{Processor}.
(** The time stamp counter when it is read. *)
Context (now : Z).

Definition step (i : instr) (st : state) : state :=
  let '(s, m) := st in
  match i with
  | Rdtsc => (set RAX (u32 now) (set RDX (u32 (Z.shiftr now 32)) s), m)
  | Cpuid =>
      let '(a, b, c, d) := cpuid (u32 (rax s)) (u32 (rcx s)) in
      (set RAX a (set RBX b (set RCX c (set RDX d s))), m)
  | Pushq r => (set RSP (rsp s - 8) s, store64 m (rsp s - 8) (get r s))
  | Popq r => (set r (load64 m (rsp s)) (set RSP (rsp s + 8) s), m)
  | Movq a b => (set b (get a s) s, m)
  | Movl a b => (set b (u32 (get a s)) s, m)
  | Storel a b => (s, store32 m (get b s) (u32 (get a s)))
  | Loadq off b d => (set d (load64 m (get b s + off)) s, m)
  | Shlq i r => (set r (u64 (Z.shiftl (get r s) i)) s, m)
  | Orq a b => (set b (Z.lor (get a s) (get b s)) s, m)
  | Testq a b => (set_zf (Z.land (get a s) (get b s) =? 0) s, m)
  | Pause | Jz _ | Jrcxz _ | Label _ | Retq => st
  end.

(** Up to the return: the address returned to and the state.  Every jump goes
    forward: [skip] is the label on the way to it. *)
Fixpoint exec (l : list instr) (skip : option label) (st : state) : option (Z * state) :=
  match l with
  | [] => None
  | i :: l =>
      match skip with
      | Some target => exec l (if decide (i = Label target) then None else skip) st
      | None =>
          match i with
          | Jz target => exec l (if zf st.1 then Some target else None) st
          | Jrcxz target => exec l (if rcx st.1 =? 0 then Some target else None) st
          | Retq => Some (load64 st.2 (rsp st.1), (set RSP (rsp st.1 + 8) st.1, st.2))
          | _ => exec l None (step i st)
          end
      end
  end.
End Steps.

(** ** cpu_amd64.S *)

Definition asmPause : list instr := [ Pause; Retq ].

Definition asmReadRdtsc : list instr := [ Rdtsc; Shlq 0x20 RDX; Orq RDX RAX; Retq ].

Definition asmCpuid : list instr :=
  [ Pushq RBX;
    Movl RCX RAX;
    Pushq RAX;
    Pushq RDX;
    Cpuid;
    Testq R9 R9; Jz SkipEcx; Storel RCX R9; Label SkipEcx;
    Popq RCX; Jrcxz SkipEax; Storel RAX RCX; Label SkipEax;
    Movq R8 RCX; Jrcxz SkipEbx; Storel RBX RCX; Label SkipEbx;
    Loadq 0x38 RSP RCX; Jrcxz SkipEdx; Storel RDX RCX; Label SkipEdx;
    Popq RAX;
    Popq RBX;
    Retq ].

(** ** The Go side *)

(** The compiler's call of an exported function: four arguments in registers, the
    fifth above the shadow space, and the return address pushed. *)
Definition call `{Processor} (now : Z) (l : list instr) (ret : Z) (args : list Z) (st : state) :
    option state :=
  let '(s, m) := st in
  let arg k := nth k args 0 in
  let m := match args with [_; _; _; _; e] => store64 m (rsp s + 0x20) e | _ => m end in
  let m := store64 m (rsp s - 8) ret in
  let s := mkRegs (rax s) (rbx s) (arg 0%nat) (arg 1%nat) (rsp s - 8) (arg 2%nat) (arg 3%nat) (zf s) in
  '(back, st) ← exec now l None (s, m);
  if back =? ret then Some st else None.

(** The package variables of cpu.go, by address. *)
Record variables := mkVariables {
  p_maxCpuidIndex : Z; p_stdVendorName0 : Z;
  p_stdCpuid1Eax : Z; p_stdCpuid1Ebx : Z; p_stdCpuid1Ecx : Z; p_stdCpuid1Edx : Z;
}.

Section Go.
Context `{Processor} (now ret : Z).

Definition AsmPause (st : state) : option state := call now asmPause ret [] st.

Definition AsmReadRdtsc (st : state) : option (Z * state) :=
  st ← call now asmReadRdtsc ret [] st; Some (rax st.1, st).

Definition AsmCpuid (index registerEax registerEbx registerEcx registerEdx : Z) (st : state) :
    option (Z * state) :=
  st ← call now asmCpuid ret [index; registerEax; registerEbx; registerEcx; registerEdx] st;
  Some (i64 (rax st.1), st).

(** [init]. *)
Definition init (v : variables) (st : state) : option state :=
  '(_, st) ← AsmCpuid 0 (p_maxCpuidIndex v) (p_stdVendorName0 v) 0 0 st;
  '(_, st) ← AsmCpuid 1 (p_stdCpuid1Eax v) (p_stdCpuid1Ebx v) (p_stdCpuid1Ecx v) (p_stdCpuid1Edx v) st;
  Some st.
End Go.

(** ** What a call of [asmCpuid] does *)

(** An optional 32-bit result. *)
Definition put (p v : Z) (m : memory) : memory := if p =? 0 then m else store32 m p v.

(** The words below the stack pointer that a call uses. *)
Definition pushed (sp ret rbx index pEax pEdx : Z) (m : memory) : memory :=
  store64 (store64 (store64 (store64 (store64 m (sp + 0x20) pEdx) (sp - 8) ret)
    (sp - 16) rbx) (sp - 24) index) (sp - 32) pEax.

(** A pointer that is NULL or points away from the stack frame of the call. *)
Definition off_stack (sp p : Z) : Prop := p = 0 \/ p + 4 <= sp - 32 \/ sp + 0x28 <= p.

Lemma put_load64 p v m a : (p = 0 \/ p + 4 <= a \/ a + 8 <= p) -> load64 (put p v m) a = load64 m a.
Proof.
  intros Hp. unfold put. destruct (Z.eqb_spec p 0); [done|]. apply load64_store_other.
  rewrite length_le_enc. unfold disjoint_ranges. lia.
Qed.

(** Reads through stores elsewhere. *)
Ltac load_through :=
  repeat (first [rewrite put_load64 by (unfold off_stack in *; lia) | rewrite load64_store64 by done
                | rewrite load64_store64_other by lia]).

Section Pushed.
Context (sp ret rbx index pEax pEdx : Z) (m : memory).
Context (Hret : is_word 64 ret) (Hrbx : is_word 64 rbx) (Hindex : is_word 64 index)
  (HpEax : is_word 64 pEax) (HpEdx : is_word 64 pEdx).

(** The words that a call has pushed, in the order in which it reads them. *)
Lemma pushed_reads :
  let m := pushed sp ret rbx index pEax pEdx m in
  load64 m (sp - 32) = pEax /\ load64 m (sp + 0x20) = pEdx /\ load64 m (sp - 24) = index /\
  load64 m (sp - 16) = rbx /\ load64 m (sp - 8) = ret.
Proof using Hret Hrbx Hindex HpEax HpEdx. cbv zeta. unfold pushed. split_and!; by load_through. Qed.
End Pushed.

Section Calls.
Context `{Processor} (now : Z).

Definition plain (i : instr) : bool :=
  match i with Jz _ | Jrcxz _ | Retq => false | _ => true end.

Lemma exec_plain i l st : plain i = true -> exec now (i :: l) None st = exec now l None (step now i st).
Proof. by destruct i. Qed.

(** The two forms of a store that a null pointer skips. *)
Lemma exec_jrcxz r target l s m :
  exec now (Jrcxz target :: Storel r RCX :: Label target :: l) None (s, m) =
  exec now l None (s, put (rcx s) (u32 (get r s)) m).
Proof.
  unfold put. cbn [exec fst]. destruct (rcx s =? 0); [|reflexivity].
  rewrite decide_False by done. by rewrite decide_True by done.
Qed.

Lemma exec_testq r q target l s m :
  exec now (Testq q q :: Jz target :: Storel r q :: Label target :: l) None (s, m) =
  exec now l None (set_zf (get q s =? 0) s, put (get q s) (u32 (get r s)) m).
Proof.
  unfold put. cbn [exec step fst]. rewrite Z.land_diag.
  destruct (get q s =? 0) eqn:E; cbn [zf set_zf].
  - rewrite decide_False by done. by rewrite decide_True by done.
  - cbn [step]. by destruct r, q.
Qed.

Lemma AsmCpuid_call ret index pEax pEbx pEcx pEdx s m :
  let sp := rsp s in
  is_word 64 ret -> is_word 64 (rbx s) -> is_word 64 pEax -> is_word 64 pEdx -> is_word 32 index ->
  Forall (off_stack sp) [pEax; pEbx; pEcx; pEdx] ->
  let '(a, b, c, d) := cpuid index index in
  exists s', rbx s' = rbx s /\ rsp s' = sp /\
    AsmCpuid now ret index pEax pEbx pEcx pEdx (s, m) =
    Some (index, (s', put pEdx d (put pEbx b (put pEax a (put pEcx c
      (pushed sp ret (rbx s) index pEax pEdx m)))))).
Proof.
  intros sp Hret Hrbx Ha Hd Hi Hoff. pose proof (cpuid_words index index) as Hw.
  destruct (cpuid index index) as [[[a b] c] d] eqn:E. destruct Hw as (Wa & Wb & Wc & Wd).
  rewrite !Forall_cons in Hoff. destruct Hoff as (Oa & Ob & Oc & Od & _).
  unfold AsmCpuid, call. cbn [nth]. unfold asmCpuid.
  do 5 rewrite exec_plain by reflexivity. cbn [step set get rax rbx rcx rdx rsp r8 r9 zf].
  rewrite !(wrap_small 32 index), E by done. rewrite exec_testq.
  rewrite exec_plain by reflexivity. cbn [step set_zf set get rax rbx rcx rdx rsp r8 r9 zf].
  rewrite exec_jrcxz, exec_plain by reflexivity. cbn [step set get rax rbx rcx rdx rsp r8 r9 zf].
  rewrite exec_jrcxz, exec_plain by reflexivity. cbn [step set get rax rbx rcx rdx rsp r8 r9 zf].
  rewrite exec_jrcxz. do 2 rewrite exec_plain by reflexivity.
  cbn [step set get rax rbx rcx rdx rsp r8 r9 zf exec fst snd].
  fold sp. rewrite !(wrap_small 32) by done.
  replace (sp - 8 - 8) with (sp - 16) by lia. replace (sp - 16 - 8) with (sp - 24) by lia.
  replace (sp - 24 - 8) with (sp - 32) by lia.
  replace (sp - 32 + 8) with (sp - 24) by lia. replace (sp - 24 + 8) with (sp - 16) by lia.
  replace (sp - 16 + 8) with (sp - 8) by lia. replace (sp - 24 + 0x38) with (sp + 0x20) by lia.
  fold (pushed sp ret (rbx s) index pEax pEdx m).
  assert (is_word 64 index) by (unfold is_word in *; lia).
  destruct (pushed_reads sp ret (rbx s) index pEax pEdx m) as (R1 & R2 & R3 & R4 & R5); try done.
  assert (forall p v m a, off_stack sp p -> sp - 32 <= a <= sp + 0x20 -> load64 (put p v m) a = load64 m a) as Hput
    by (intros; apply put_load64; unfold off_stack in *; lia).
  rewrite !(Hput pEcx c), R1 by (done || lia).
  rewrite !(Hput pEbx b), !(Hput pEax a), !(Hput pEcx c), R2 by (done || lia).
  rewrite !(Hput pEdx d), !(Hput pEbx b), !(Hput pEax a), !(Hput pEcx c), R3, R4, R5 by (done || lia).
  cbn [mbind option_bind]. rewrite Z.eqb_refl. cbn [mbind option_bind rax rbx fst snd]. eexists.
  split; [|split; [|rewrite swrap_small by (unfold is_word in *; lia); reflexivity]]; [reflexivity|cbn [rsp]; lia].
Qed.
End Calls.

(** ** Reading the variables back *)

Lemma load32_put_same p v m : p <> 0 -> is_word 32 v -> load32 (put p v m) p = v.
Proof. intros Hp Hv. unfold put. rewrite (proj2 (Z.eqb_neq _ _) Hp). by apply load32_store32. Qed.

Lemma load32_other m a bs b : disjoint_ranges a (length bs) b 4 -> load32 (store_bytes m a bs) b = load32 m b.
Proof. intros H. unfold load32. by rewrite load_store_other. Qed.

Lemma load32_put_other p v m q : p = 0 \/ p + 4 <= q \/ q + 4 <= p -> load32 (put p v m) q = load32 m q.
Proof.
  intros Hp. unfold put. destruct (Z.eqb_spec p 0); [done|]. apply load32_other.
  rewrite length_le_enc. unfold disjoint_ranges. lia.
Qed.

Lemma load32_pushed sp ret rbx index pEax pEdx m q : off_stack sp q -> q <> 0 ->
  load32 (pushed sp ret rbx index pEax pEdx m) q = load32 m q.
Proof.
  unfold off_stack, pushed, store64. intros Hq H0.
  rewrite !load32_other by (rewrite length_le_enc; unfold disjoint_ranges; lia). done.
Qed.

Lemma load8_put p v m x : p = 0 \/ x < p \/ p + 4 <= x -> load8 (put p v m) x = load8 m x.
Proof.
  intros Hp. unfold put. destruct (Z.eqb_spec p 0); [done|]. unfold store32.
  rewrite load8_store_bytes, decide_False; [done|]. unfold zlen. rewrite length_le_enc. lia.
Qed.

Lemma load8_pushed sp ret rbx index pEax pEdx m x : x < sp - 32 \/ sp + 0x28 <= x ->
  load8 (pushed sp ret rbx index pEax pEdx m) x = load8 m x.
Proof.
  intros Hx. unfold pushed, store64.
  rewrite !load8_store_bytes, !decide_False; [done|unfold zlen; rewrite length_le_enc; lia..].
Qed.

(** Variables of four bytes that do not overlap. *)
Fixpoint apart (ps : list Z) : Prop :=
  match ps with
  | [] => True
  | p :: ps => Forall (fun q => p + 4 <= q \/ q + 4 <= p) ps /\ apart ps
  end.

Lemma apart_app ps qs : apart (ps ++ qs) <->
  apart ps /\ apart qs /\ Forall (fun p => Forall (fun q => p + 4 <= q \/ q + 4 <= p) qs) ps.
Proof.
  induction ps as [|p ps IH]; cbn [apart app]; [by rewrite Forall_nil; tauto|].
  rewrite IH, Forall_app, Forall_cons. tauto.
Qed.

Definition addresses (v : variables) : list Z :=
  [ p_maxCpuidIndex v; p_stdVendorName0 v; p_stdCpuid1Eax v; p_stdCpuid1Ebx v; p_stdCpuid1Ecx v;
    p_stdCpuid1Edx v ].

(** What the Go code finds in its variables where Clock asks CPUID. *)
Definition answers (v : variables) (m : memory) (leaf15 : Z * Z * Z) (leaf : Z) : Z * Z * Z * Z :=
  if leaf =? 0 then (load32 m (p_maxCpuidIndex v), load32 m (p_stdVendorName0 v), 0, 0)
  else if leaf =? 1 then
    (load32 m (p_stdCpuid1Eax v), load32 m (p_stdCpuid1Ebx v), load32 m (p_stdCpuid1Ecx v),
     load32 m (p_stdCpuid1Edx v))
  else (leaf15, 0).

Section Frequency.
Context `{Processor} (now ret : Z) (v : variables).
(** Where RegEax, RegEbx and RegEcx are. *)
Context (pEax pEbx pEcx : Z).

(** The call of CPUID and what is computed from its results. *)
Definition CpuidCoreClockCalculateTscFrequency (st : state) : option (Z * state) :=
  '(_, st) ← AsmCpuid now ret CPUID_TIME_STAMP_COUNTER pEax pEbx pEcx 0 st;
  let regs := (load32 st.2 pEax, load32 st.2 pEbx, load32 st.2 pEcx) in
  Some (Clock.CpuidCoreClockCalculateTscFrequency (answers v st.2 regs), st).

Definition InternalGetPerformanceCounterFrequency (st : state) : option (Z * state) :=
  if CPUID_TIME_STAMP_COUNTER <=? load32 st.2 (p_maxCpuidIndex v)
  then CpuidCoreClockCalculateTscFrequency st else Some (0, st).
End Frequency.

(** A null pointer, or two variables that do not overlap, in either order. *)
Ltac elsewhere := first [by left | by right | by (right; apply or_comm)].

Section Results.
Context `{Processor} (now ret : Z).

Lemma AsmReadRdtsc_now s m : is_word 64 ret -> is_word 64 now ->
  exists s', rbx s' = rbx s /\ rsp s' = rsp s /\
    AsmReadRdtsc now ret (s, m) = Some (now, (s', store64 m (rsp s - 8) ret)).
Proof.
  intros Hret Hnow. unfold AsmReadRdtsc, call, asmReadRdtsc.
  cbn [exec step set get rax rbx rcx rdx rsp r8 r9 zf fst snd mbind option_bind].
  rewrite load64_store64, Z.eqb_refl by done. cbn [mbind option_bind rax rbx rsp fst snd].
  eexists. split; [|split; [|do 2 f_equal]]; [reflexivity|cbn; lia|].
  assert (Z.shiftr now 32 = now / 2 ^ 32) as E by (by apply Z.shiftr_div_pow2).
  assert (is_word 32 (now / 2 ^ 32)) by (unfold is_word in *; Z.div_mod_to_equations; lia).
  rewrite E, (wrap_small 32 (now / 2 ^ 32)) by done.
  rewrite (wrap_small 64) by (rewrite Z.shiftl_mul_pow2 by done; unfold is_word in *; lia).
  rewrite lor_shifted by (done || by apply wrap_range). change (u32 now) with (now mod 2 ^ 32).
  Z.div_mod_to_equations; lia.
Qed.

Lemma Forall_fours (P : Z -> Prop) a b c d : P a -> P b -> P c -> P d -> Forall P [a; b; c; d].
Proof. by repeat constructor. Qed.

(** [init] leaves the leaves 0 and 1 in the package variables. *)
Lemma init_memory v s m :
  is_word 64 ret -> is_word 64 (rbx s) ->
  Forall (fun p => is_word 64 p /\ p <> 0 /\ off_stack (rsp s) p) (addresses v) -> apart (addresses v) ->
  let '(a0, b0, _, _) := cpuid 0 0 in let '(a1, b1, c1, d1) := cpuid 1 1 in
  exists s' m', init now ret v (s, m) = Some (s', m') /\ rbx s' = rbx s /\ rsp s' = rsp s /\
    map (load32 m') (addresses v) = [a0; b0; a1; b1; c1; d1] /\
    (forall x, x < rsp s - 32 \/ rsp s + 0x28 <= x -> Forall (fun p => x < p \/ p + 4 <= x) (addresses v) ->
       load8 m' x = load8 m x).
Proof.
  intros Hret Hrbx Hv Hap. destruct v as [pm pv pa pb pc pd].
  unfold addresses in *. cbn [p_maxCpuidIndex p_stdVendorName0 p_stdCpuid1Eax p_stdCpuid1Ebx
    p_stdCpuid1Ecx p_stdCpuid1Edx apart] in *.
  rewrite !Forall_cons in Hv. rewrite !Forall_cons in Hap. rewrite !Forall_nil in Hap.
  destruct Hv as ((Wm & Nm & Om) & (Wv & Nv & Ov) & (Wa & Na & Oa) & (Wb & Nb & Ob) & (Wc & Nc & Oc) & (Wd & Nd & Od) & _).
  pose proof (AsmCpuid_call now ret 0 pm pv 0 0 s m) as H0.
  pose proof (cpuid_words 0 0) as W0. pose proof (cpuid_words 1 1) as W1.
  destruct (cpuid 0 0) as [[[a0 b0] c0] d0]. cbv zeta in H0.
  destruct H0 as (s1 & Hrbx1 & Hrsp1 & E0); try done.
  { apply Forall_fours; (assumption || by left). }
  set (m1 := put 0 d0 _) in E0.
  pose proof (AsmCpuid_call now ret 1 pa pb pc pd s1 m1) as H1.
  destruct (cpuid 1 1) as [[[a1 b1] c1] d1]. cbv zeta in H1. rewrite Hrbx1, Hrsp1 in H1.
  destruct H1 as (s2 & Hrbx2 & Hrsp2 & E1); try done.
  { by apply Forall_fours. }
  destruct_and! Hap. destruct_and! W0. destruct_and! W1.
  exists s2. eexists. split; [|split; [done|split; [done|]]].
  { unfold init. cbn [p_maxCpuidIndex p_stdVendorName0 p_stdCpuid1Eax p_stdCpuid1Ebx
      p_stdCpuid1Ecx p_stdCpuid1Edx]. rewrite E0. cbn [mbind option_bind]. by rewrite E1. }
  split.
  - cbn [map]. unfold m1. repeat (apply (f_equal2 cons)); [..|done];
      repeat first [rewrite load32_put_same by done | rewrite load32_put_other by elsewhere
                   | rewrite load32_pushed by done]; done.
  - intros x Hx Hps. rewrite !Forall_cons in Hps. destruct_and! Hps. unfold m1.
    repeat first [rewrite load8_put by elsewhere | rewrite load8_pushed by done]. done.
Qed.

(** A call leaves the variables it is not given. *)
Lemma leaf15_memory pEax pEbx pEcx s m qs :
  is_word 64 ret -> is_word 64 (rbx s) ->
  Forall (fun p => is_word 64 p /\ p <> 0 /\ off_stack (rsp s) p) [pEax; pEbx; pEcx] ->
  Forall (fun q => q <> 0 /\ off_stack (rsp s) q) qs -> apart (qs ++ [pEax; pEbx; pEcx]) ->
  let '(a, b, c, _) := cpuid 0x15 0x15 in
  exists s' m', AsmCpuid now ret 0x15 pEax pEbx pEcx 0 (s, m) = Some (0x15, (s', m')) /\
    rbx s' = rbx s /\ rsp s' = rsp s /\
    (load32 m' pEax, load32 m' pEbx, load32 m' pEcx) = (a, b, c) /\
    map (load32 m') qs = map (load32 m) qs /\
    (forall x, x < rsp s - 32 \/ rsp s + 0x28 <= x ->
       Forall (fun p => x < p \/ p + 4 <= x) [pEax; pEbx; pEcx] -> load8 m' x = load8 m x).
Proof.
  intros Hret Hrbx Hps Hqs Hap. rewrite apart_app in Hap. destruct Hap as (_ & Hap & Hout).
  cbn [apart] in Hap. rewrite !Forall_cons in Hps. rewrite !Forall_cons in Hap. destruct_and! Hps. destruct_and! Hap.
  pose proof (AsmCpuid_call now ret 0x15 pEax pEbx pEcx 0 s m) as H15. pose proof (cpuid_words 0x15 0x15) as W.
  destruct (cpuid 0x15 0x15) as [[[a b] c] d]. destruct_and! W. cbv zeta in H15.
  destruct H15 as (s' & ? & ? & E); try done.
  { apply Forall_fours; (assumption || by left). }
  exists s'. eexists. split; [exact E|]. split; [done|]. split; [done|]. split; [|split].
  - repeat f_equal; repeat first [rewrite load32_put_same by done | rewrite load32_put_other by elsewhere]; done.
  - apply map_ext_in. intros q Hq%list_elem_of_In. rewrite Forall_forall in Hqs, Hout.
    destruct (Hqs _ Hq). specialize (Hout _ Hq). rewrite !Forall_cons in Hout. destruct_and! Hout.
    repeat first [rewrite load32_put_other by elsewhere | rewrite load32_pushed by done]. done.
  - intros x Hx Hx'. rewrite !Forall_cons in Hx'. destruct_and! Hx'.
    repeat first [rewrite load8_put by elsewhere | rewrite load8_pushed by done]. done.
Qed.
End Results.

(** What the results that the Go code has must be to be those of [leaf]. *)
Lemma answers_leaf (leaf : Z -> Z * Z * Z * Z) v m regs a0 b0 c0 d0 a1 b1 c1 d1 :
  leaf 0 = (a0, b0, c0, d0) -> leaf 1 = (a1, b1, c1, d1) -> (leaf CPUID_TIME_STAMP_COUNTER).1 = regs ->
  map (load32 m) (addresses v) = [a0; b0; a1; b1; c1; d1] ->
  Clock.GetMaxCpuidIndex (answers v m regs) = Clock.GetMaxCpuidIndex leaf /\
  Clock.IsIntel (answers v m regs) = Clock.IsIntel leaf /\
  Clock.IsAmd (answers v m regs) = Clock.IsAmd leaf /\
  Clock.GetExtendedCpuFamily (answers v m regs) = Clock.GetExtendedCpuFamily leaf /\
  Clock.CpuidCoreClockCalculateTscFrequency (answers v m regs) =
    Clock.CpuidCoreClockCalculateTscFrequency leaf.
Proof.
  intros E0 E1 E15 Em. unfold addresses in Em. cbn [map] in Em. injection Em as Em Ev Ea Eb Ec Ed.
  assert (Clock.GetExtendedCpuFamily (answers v m regs) = Clock.GetExtendedCpuFamily leaf) as Hfam.
  { unfold GetExtendedCpuFamily, stdCpuid1Eax. rewrite E1. unfold answers. cbn [Z.eqb Pos.eqb fst]. by rewrite Ea. }
  assert (Clock.IsIntel (answers v m regs) = Clock.IsIntel leaf) as Hintel.
  { unfold IsIntel, stdVendorName0. rewrite E0. unfold answers. cbn [Z.eqb fst snd]. by rewrite Ev. }
  split; [|split; [done|split; [|split; [done|]]]].
  - unfold GetMaxCpuidIndex, maxCpuidIndex. rewrite E0. exact Em.
  - unfold IsAmd, stdVendorName0. rewrite E0. unfold answers. cbn [Z.eqb fst snd]. by rewrite Ev.
  - unfold Clock.CpuidCoreClockCalculateTscFrequency, IsIntelFamilyCore. rewrite Hfam, Hintel.
    destruct (leaf CPUID_TIME_STAMP_COUNTER) as [[[a b] c] d]. cbn [fst] in E15. subst regs. reflexivity.
Qed.

(** The frequency, from the package variables and leaf 0x15. *)
Lemma frequency_memory `{Processor} now ret v pEax pEbx pEcx s m :
  let leaf i := cpuid i i in
  is_word 64 ret -> is_word 64 (rbx s) ->
  Forall (fun p => is_word 64 p /\ p <> 0 /\ off_stack (rsp s) p) (addresses v ++ [pEax; pEbx; pEcx]) ->
  apart (addresses v ++ [pEax; pEbx; pEcx]) ->
  (forall regs, (leaf CPUID_TIME_STAMP_COUNTER).1 = regs ->
     forall m', map (load32 m') (addresses v) = map (load32 m) (addresses v) ->
     Clock.GetMaxCpuidIndex (answers v m' regs) = Clock.GetMaxCpuidIndex leaf /\
     Clock.CpuidCoreClockCalculateTscFrequency (answers v m' regs) =
       Clock.CpuidCoreClockCalculateTscFrequency leaf) ->
  exists s' m', InternalGetPerformanceCounterFrequency now ret v pEax pEbx pEcx (s, m) =
      Some (Clock.InternalGetPerformanceCounterFrequency leaf, (s', m')) /\
    rbx s' = rbx s /\ rsp s' = rsp s /\
    map (load32 m') (addresses v) = map (load32 m) (addresses v) /\
    (forall x, x < rsp s - 32 \/ rsp s + 0x28 <= x ->
       Forall (fun p => x < p \/ p + 4 <= x) [pEax; pEbx; pEcx] -> load8 m' x = load8 m x).
Proof.
  intros leaf Hret Hrbx Hps Hap Hans. rewrite Forall_app in Hps. destruct Hps as [Hv Hl].
  unfold InternalGetPerformanceCounterFrequency, Clock.InternalGetPerformanceCounterFrequency.
  cbn [snd]. assert (load32 m (p_maxCpuidIndex v) = maxCpuidIndex leaf) as -> by apply (Hans _ eq_refl m eq_refl).
  destruct (CPUID_TIME_STAMP_COUNTER <=? maxCpuidIndex leaf); [|by exists s, m].
  assert (Forall (fun q => q <> 0 /\ off_stack (rsp s) q) (addresses v)) as Hq
    by (eapply Forall_impl; [exact Hv|]; naive_solver).
  pose proof (leaf15_memory now ret pEax pEbx pEcx s m (addresses v) Hret Hrbx Hl Hq Hap) as Hc.
  destruct (cpuid 0x15 0x15) as [[[a b] c] d] eqn:E.
  destruct Hc as (s' & m' & Ec & Hrbx' & Hrsp' & Hregs & Hm & Hf). exists s', m'.
  split; [|done]. unfold CpuidCoreClockCalculateTscFrequency. change CPUID_TIME_STAMP_COUNTER with 0x15.
  rewrite Ec. cbn [mbind option_bind snd]. rewrite Hregs.
  destruct (Hans (a, b, c)) with (m' := m') as [_ ->]; [|done|done].
  unfold leaf. change CPUID_TIME_STAMP_COUNTER with 0x15. by rewrite E.
Qed.

(** C26. The assembly delivers what CPUID answers: [init] leaves leaves 0 and 1 in
    the package variables, so the vendor, the family and the frequency of the time
    stamp counter, which asks for leaf 0x15 only where the processor has it, are
    those that Clock has of a function from leaves to answers (a leaf's
    number is also what ECX holds when it is asked for).  The calls restore the
    callee-saved register and the stack pointer, and change no byte but the
    variables they are given and the words of their own frame; [AsmReadRdtsc] puts
    the halves of the counter together. *)
Theorem cpu_refines `{Processor} now ret v pEax pEbx pEcx s m :
  is_word 64 ret -> is_word 64 (rbx s) -> is_word 64 now ->
  let ps := addresses v ++ [pEax; pEbx; pEcx] in
  let leaf i := cpuid i i in
  Forall (fun p => is_word 64 p /\ p <> 0 /\ off_stack (rsp s) p) ps -> apart ps ->
  exists st1 st2 regs st3, init now ret v (s, m) = Some st1 /\
    InternalGetPerformanceCounterFrequency now ret v pEax pEbx pEcx st1 =
      Some (Clock.InternalGetPerformanceCounterFrequency leaf, st2) /\
    Clock.IsIntel (answers v st2.2 regs) = Clock.IsIntel leaf /\
    Clock.IsAmd (answers v st2.2 regs) = Clock.IsAmd leaf /\
    Clock.GetExtendedCpuFamily (answers v st2.2 regs) = Clock.GetExtendedCpuFamily leaf /\
    rbx st2.1 = rbx s /\ rsp st2.1 = rsp s /\
    (forall x, x < rsp s - 32 \/ rsp s + 0x28 <= x -> Forall (fun p => x < p \/ p + 4 <= x) ps ->
       load8 st2.2 x = load8 m x) /\
    AsmReadRdtsc now ret st2 = Some (now, st3).
Proof.
  intros Hret Hrbx Hnow ps leaf Hps Hap. subst ps. pose proof Hap as Hap'.
  rewrite apart_app in Hap'. destruct Hap' as (Hapv & _). rewrite Forall_app in Hps. destruct Hps as [Hv Hl].
  pose proof (init_memory now ret v s m Hret Hrbx Hv Hapv) as Hi.
  destruct (cpuid 0 0) as [[[a0 b0] c0] d0] eqn:E0. destruct (cpuid 1 1) as [[[a1 b1] c1] d1] eqn:E1.
  destruct Hi as (s1 & m1 & Ei & Hrbx1 & Hrsp1 & Hm1 & Hf1).
  pose proof (fun m' regs E Em => answers_leaf leaf v m' regs a0 b0 c0 d0 a1 b1 c1 d1 E0 E1 E Em) as Hans.
  destruct (frequency_memory now ret v pEax pEbx pEcx s1 m1) as (s2 & m2 & Ef & Hrbx2 & Hrsp2 & Hm2 & Hf2).
  { done. } { by rewrite Hrbx1. } { by rewrite Hrsp1, Forall_app. } { done. }
  { intros regs E m' Em. rewrite Hm1 in Em. destruct (Hans m' regs E Em) as (? & _ & _ & _ & ?). done. }
  rewrite Hm1 in Hm2. destruct (Hans m2 _ eq_refl Hm2) as (_ & Hintel & Hamd & Hfam & _).
  destruct (AsmReadRdtsc_now now ret s2 m2 Hret Hnow) as (s3 & _ & _ & Etsc).
  exists (s1, m1), (s2, m2). eexists _, _. split; [exact Ei|]. split; [exact Ef|].
  split; [exact Hintel|]. split; [exact Hamd|]. split; [exact Hfam|]. cbn [fst snd].
  split; [congruence|]. split; [congruence|]. split; [|exact Etsc].
  intros x Hx Hx'. rewrite Forall_app in Hx'. destruct Hx'. rewrite Hf2, Hf1; try done. by rewrite Hrsp1.
Qed.

(** An Atom, in a state with a stack at 0x8000 and the variables at 0x5000. *)
Lemma atom_words leaf (sub : Z) : let '(a, b, c, d) := atom_cpuid leaf in
  is_word 32 a /\ is_word 32 b /\ is_word 32 c /\ is_word 32 d.
Proof.
  unfold atom_cpuid, is_word. repeat case_match; simplify_eq; lia.
Qed.

Definition atom : Processor := {| cpuid leaf _ := atom_cpuid leaf; cpuid_words := atom_words |}.

Definition demo_variables : variables := mkVariables 0x5000 0x5004 0x5008 0x500c 0x5010 0x5014.

Lemma cpu_refines_witness :
  exists st1 st2,
    init (H := atom) 0x123456789a 0x1234 demo_variables (mkRegs 0 7 0 0 0x8000 0 0 false, ∅) = Some st1 /\
    InternalGetPerformanceCounterFrequency (H := atom) 0x123456789a 0x1234 demo_variables
      0x8030 0x8034 0x8038 st1 = Some (Clock.InternalGetPerformanceCounterFrequency atom_cpuid, st2) /\
    rbx st2.1 = 7.
Proof.
  destruct (cpu_refines (H := atom) 0x123456789a 0x1234 demo_variables 0x8030 0x8034 0x8038
    (mkRegs 0 7 0 0 0x8000 0 0 false) ∅) as (st1 & st2 & _ & _ & E1 & E2 & _ & _ & _ & E3 & _).
  - unfold is_word. lia.
  - unfold is_word. cbn. lia.
  - unfold is_word. lia.
  - repeat (apply Forall_cons_2; [unfold is_word, off_stack; cbn; lia|]). apply Forall_nil_2.
  - cbn. repeat (split; [repeat (apply Forall_cons_2; [lia|]); apply Forall_nil_2|]). exact I.
  - exists st1, st2. split; [exact E1|]. split; [exact E2|exact E3].
Defined.
