(* ===== verification/Layouts.v ===== *)
(** * Layouts: where Go puts the fields of the structs of pkg/uefi

    pkg/uefi hands pointers to its structs to the firmware and follows pointers
    the firmware gives it, so the layout that Go's compiler chooses must be that of
    the C declarations of the UEFI specification.  This file computes sizes,
    alignments and offsets by the rules of Go for amd64, proves them sound, and
    compares the structs that ueficore declares too, field by field, in Go's and in
    C's layout, and the tables and protocols with the offsets the other files use. *)

From S2P Require Import Prelude Binary Machine Tables SpecTables Protocols Disk Handles Vars.

(** ** Types *)

Inductive gotype :=
| Basic (size : Z)                          (* an integer, bool or pointer *)
| GoInt                                     (* int and uint *)
| Array (n : nat) (t : gotype)
| Struct (fields : list (string * gotype)).

Abbreviation field_list := (list (string * gotype)).

Section Induction.
Context (P : gotype -> Prop).
Context (Hbasic : forall size, P (Basic size)) (Hint : P GoInt) (Harray : forall n t, P t -> P (Array n t)).
Context (Hstruct : forall fs, Forall (fun f => P f.2) fs -> P (Struct fs)).

Fixpoint gotype_nested (t : gotype) : P t :=
  match t with
  | Basic size => Hbasic size
  | GoInt => Hint
  | Array n t => Harray n t (gotype_nested t)
  | Struct fs => Hstruct fs
      ((fix go fs : Forall (fun f => P f.2) fs :=
          match fs with
          | [] => Forall_nil_2 _
          | f :: fs => Forall_cons_2 _ _ _ (gotype_nested f.2) (go fs)
          end) fs)
  end.
End Induction.

(** ** Sizes, alignments and offsets *)

Definition align_up (x a : Z) : Z := (x + a - 1) / a * a.

Fixpoint alignof (t : gotype) : Z :=
  match t with
  | Basic size => size
  | GoInt => 8
  | Array _ t => alignof t
  | Struct fs => foldr (fun f acc => Z.max (alignof f.2) acc) 1 fs
  end.

Fixpoint sizeof (t : gotype) : Z :=
  match t with
  | Basic size => size
  | GoInt => 8
  | Array n t => Z.of_nat n * sizeof t
  | Struct fs =>
      align_up (foldl (fun off f => align_up off (alignof f.2) + sizeof f.2) 0 fs)
        (foldr (fun f acc => Z.max (alignof f.2) acc) 1 fs)
  end.

(** The fields of a struct that continues at [off], with offsets. *)
Fixpoint place (off : Z) (fs : field_list) : list (string * Z) :=
  match fs with
  | [] => []
  | (name, t) :: fs =>
      let at_ := align_up off (alignof t) in (name, at_) :: place (at_ + sizeof t) fs
  end.

Definition fields_of (t : gotype) : field_list := match t with Struct fs => fs | _ => [] end.

Definition offsets (t : gotype) : list (string * Z) := place 0 (fields_of t).

(** [unsafe.Offsetof(x.name)], and -1 for a name the struct does not have. *)
Definition offset (t : gotype) (name : string) : Z :=
  match list_find (fun f => f.1 = name) (offsets t) with Some (_, f) => f.2 | None => -1 end.

(** Where the field that a chain of names selects lies in a struct at [off],
    and its size. *)
Fixpoint at_path (off : Z) (t : gotype) (path : list string) : option (Z * Z) :=
  match path with
  | [] => Some (off, sizeof t)
  | name :: path =>
      match list_find (fun f => f.1 = name) (fields_of t) with
      | Some (_, (_, t')) => at_path (off + offset t name) t' path
      | None => None
      end
  end.

(** The chains of names that select what is no struct itself. *)
Fixpoint leaves (t : gotype) : list (list string) :=
  match t with
  | Struct fs => concat (map (fun f => map (cons f.1) (leaves f.2)) fs)
  | _ => [[]]
  end.

(** The C declaration: enumerations have 4 bytes. *)
Fixpoint c_type (t : gotype) : gotype :=
  match t with
  | GoInt => Basic 4
  | Array n t => Array n (c_type t)
  | Struct fs => Struct (map (fun f => (f.1, c_type f.2)) fs)
  | Basic size => Basic size
  end.

(** The sizes that occur are those of amd64. *)
Fixpoint well_formed (t : gotype) : Prop :=
  match t with
  | Basic size => size = 1 \/ size = 2 \/ size = 4 \/ size = 8
  | GoInt => True
  | Array _ t => well_formed t
  | Struct fs => foldr (fun f acc => well_formed f.2 /\ acc) True fs
  end.

(** ** The structs of pkg/uefi *)

Abbreviation uint8 := (Basic 1).
Abbreviation uint16 := (Basic 2).
Abbreviation uint32 := (Basic 4).
Abbreviation uint64 := (Basic 8).
Abbreviation uintptr := (Basic 8).
Abbreviation pointer := (Basic 8).

Definition EFI_MAC_ADDRESS : gotype := Array 32 uint8.
Definition EFI_IPv4_ADDRESS : gotype := Array 4 uint8.

Definition EFI_GUID : gotype := Struct
  [ ("Data1", uint32); ("Data2", uint16); ("Data3", uint16); ("Data4", (Array 8 uint8)) ]%string.

Definition EFI_TIME : gotype := Struct
  [ ("Year", uint16); ("Month", uint8); ("Day", uint8); ("Hour", uint8); ("Minute", uint8);
    ("Second", uint8); ("Pad1", uint8); ("Nanosecond", uint32); ("TimeZone", uint16);
    ("Daylight", uint8); ("Pad2", uint8) ]%string.

Definition EFI_DEVICE_PATH_PROTOCOL : gotype := Struct
  [ ("Type", uint8); ("SubType", uint8); ("Length", (Array 2 uint8)) ]%string.

Definition EFI_TABLE_HEADER : gotype := Struct
  [ ("Signature", uint64); ("Revision", uint32); ("HeaderSize", uint32); ("CRC32", uint32);
    ("Reserved", uint32) ]%string.

Definition EFI_MEMORY_DESCRIPTOR : gotype := Struct
  [ ("Type", uint32); ("PhysicalStart", uint64); ("VirtualStart", uint64);
    ("NumberOfPages", uint64); ("Attribute", uint64) ]%string.

Definition EFI_TIME_CAPABILITIES : gotype := Struct
  [ ("Resolution", uint32); ("Accuracy", uint32); ("SetsToZero", uint8) ]%string.

Definition EFI_OPEN_PROTOCOL_INFORMATION_ENTRY : gotype := Struct
  [ ("AgentHandle", uintptr); ("ControllerHandle", uintptr); ("Attributes", uint32);
    ("OpenCount", uint32) ]%string.

Definition EFI_CAPSULE_BLOCK_DESCRIPTOR : gotype := Struct
  [ ("Length", uint64); ("DataBlock", uint64); ("ContinuationPointer", uint64) ]%string.

Definition EFI_CAPSULE_HEADER : gotype := Struct
  [ ("CapsuleGuid", EFI_GUID); ("HeaderSize", uint32); ("Flags", uint32);
    ("CapsuleImageSize", uint32) ]%string.

Definition EFI_CAPSULE_TABLE : gotype := Struct
  [ ("CapsuleArrayNumber", uint32) ]%string.

Definition EFI_RUNTIME_SERVICES : gotype := Struct
  (("Hdr"%string, EFI_TABLE_HEADER) :: map (fun name => (name, uintptr)) Runtime.fields).

Definition EFI_BOOT_SERVICES : gotype := Struct
  (("Hdr"%string, EFI_TABLE_HEADER) :: map (fun name => (name, uintptr)) BootTable.fields).

Definition EFI_CONFIGURATION_TABLE : gotype := Struct
  [ ("VendorGuid", EFI_GUID); ("VendorTable", pointer) ]%string.

Definition EFI_SYSTEM_TABLE : gotype := Struct
  [ ("Hdr", EFI_TABLE_HEADER); ("FirmwareVendor", pointer); ("FirmwareRevision", uint32);
    ("ConsoleInHandle", uintptr); ("ConIn", pointer); ("ConsoleOutHandle", uintptr);
    ("ConOut", pointer); ("StandardErrorHandle", uintptr); ("StdErr", pointer);
    ("RuntimeServices", pointer); ("BootServices", pointer); ("NumberOfTableEntries", uintptr);
    ("ConfigurationTable", pointer) ]%string.

Definition EFI_LOAD_OPTION : gotype := Struct
  [ ("Attributes", uint32); ("FilePathListLength", uint16) ]%string.

Definition EFI_LOADED_IMAGE_PROTOCOL : gotype := Struct
  [ ("Revision", uint32); ("ParentHandle", uintptr); ("SystemTable", pointer);
    ("DeviceHandle", uintptr); ("FilePath", pointer); ("Reserved", pointer);
    ("LoadOptionsSize", uint32); ("LoadOptions", pointer); ("ImageBase", pointer);
    ("ImageSize", uint64); ("ImageCodeType", GoInt); ("ImageDataType", GoInt);
    ("unload", uintptr) ]%string.

Definition EFI_SIMPLE_TEXT_OUTPUT_MODE : gotype := Struct
  [ ("MaxMode", uint32); ("Mode", uint32); ("Attribute", uint32); ("CursorColumn", uint32);
    ("CursorRow", uint32); ("CursorVisible", uint8) ]%string.

Definition EFI_SIMPLE_TEXT_OUTPUT_PROTOCOL : gotype := Struct
  [ ("reset", uintptr); ("outputString", uintptr); ("testString", uintptr);
    ("queryMode", uintptr); ("setMode", uintptr); ("setAttribute", uintptr);
    ("clearScreen", uintptr); ("setCursorPosition", uintptr); ("enableCursor", uintptr);
    ("Mode", pointer) ]%string.

Definition EFI_INPUT_KEY : gotype := Struct
  [ ("ScanCode", uint16); ("UnicodeChar", uint16) ]%string.

Definition EFI_SIMPLE_TEXT_INPUT_PROTOCOL : gotype := Struct
  [ ("reset", uintptr); ("readKeyStroke", uintptr); ("WaitForKey", uintptr) ]%string.

Definition EFI_SIMPLE_TEXT_INPUT_EX_PROTOCOL : gotype := Struct
  [ ("resetEx", uintptr); ("readKeyStrokeEx", uintptr); ("WaitForKeyEx", uintptr);
    ("setState", uintptr); ("registerKeystrokeNotify", uintptr);
    ("unregisterKeystrokeNotify", uintptr) ]%string.

Definition EFI_KEY_STATE : gotype := Struct
  [ ("KeyShiftState", uint32); ("KeyToggleState", uint8) ]%string.

Definition EFI_KEY_DATA : gotype := Struct
  [ ("Key", EFI_INPUT_KEY); ("KeyState", EFI_KEY_STATE) ]%string.

Definition EFI_SIMPLE_FILE_SYSTEM_PROTOCOL : gotype := Struct
  [ ("Revision", uint64); ("openVolume", uintptr) ]%string.

Definition EFI_FILE_PROTOCOL : gotype := Struct
  [ ("Revision", uint64); ("open", uintptr); ("close", uintptr); ("delete", uintptr);
    ("read", uintptr); ("write", uintptr); ("getPosition", uintptr); ("setPosition", uintptr);
    ("getInfo", uintptr); ("setInfo", uintptr); ("flush", uintptr) ]%string.

Definition EFI_FILE_INFO : gotype := Struct
  [ ("Size", uint64); ("FileSize", uint64); ("PhysicalSize", uint64); ("CreateTime", EFI_TIME);
    ("LastAccessTime", EFI_TIME); ("ModificationTime", EFI_TIME); ("Attribute", uint64) ]%string.

Definition EFI_FILE_SYSTEM_INFO : gotype := Struct
  [ ("Size", uint64); ("ReadOnly", uint8); ("_", (Array 7 uint8)); ("VolumeSize", uint64);
    ("FreeSpace", uint64); ("BlockSize", uint32); ("_", uint32) ]%string.

Definition EFI_BLOCK_IO_MEDIA : gotype := Struct
  [ ("MediaId", uint32); ("RemovableMedia", uint8); ("MediaPresent", uint8);
    ("LogicalPartition", uint8); ("ReadOnly", uint8); ("WriteCaching", uint8);
    ("BlockSize", uint32); ("IoAlign", uint32); ("LastBlock", uint64) ]%string.

Definition EFI_BLOCK_IO_PROTOCOL : gotype := Struct
  [ ("Revision", uint64); ("Media", pointer); ("reset", uintptr); ("readBlocks", uintptr);
    ("writeBlocks", uintptr); ("flushBlocks", uintptr) ]%string.

Definition EFI_DISK_IO_PROTOCOL : gotype := Struct
  [ ("Revision", uint64); ("readDisk", uintptr); ("writeDisk", uintptr) ]%string.

Definition EFI_SERIAL_IO_MODE : gotype := Struct
  [ ("ControlMask", uint32); ("Timeout", uint32); ("BaudRate", uint64);
    ("ReceiveFifoDepth", uint32); ("DataBits", uint32); ("Parity", uint32);
    ("StopBits", uint32) ]%string.

Definition EFI_SERIAL_IO_PROTOCOL : gotype := Struct
  [ ("Revision", uint32); ("reset", uintptr); ("setAttributes", uintptr); ("setControl", uintptr);
    ("getControl", uintptr); ("write", uintptr); ("read", uintptr); ("Mode", pointer);
    ("deviceTypeGuid", uintptr) ]%string.

Definition EFI_PIXEL_BITMASK : gotype := Struct
  [ ("RedMask", uint32); ("GreenMask", uint32); ("BlueMask", uint32);
    ("ReservedMask", uint32) ]%string.

Definition EFI_GRAPHICS_OUTPUT_MODE_INFORMATION : gotype := Struct
  [ ("Version", uint32); ("HorizontalResolution", uint32); ("VerticalResolution", uint32);
    ("PixelFormat", uint32); ("PixelInformation", EFI_PIXEL_BITMASK);
    ("PixelsPerScanLine", uint32) ]%string.

Definition EFI_GRAPHICS_OUTPUT_BLT_PIXEL : gotype := Struct
  [ ("Blue", uint8); ("Green", uint8); ("Red", uint8); ("Reserved", uint8) ]%string.

Definition EFI_GRAPHICS_OUTPUT_PROTOCOL_MODE : gotype := Struct
  [ ("MaxMode", uint32); ("Mode", uint32); ("Info", pointer); ("SizeOfInfo", uintptr);
    ("FrameBufferBase", uint64); ("FrameBufferSize", uintptr) ]%string.

Definition EFI_GRAPHICS_OUTPUT_PROTOCOL : gotype := Struct
  [ ("queryMode", uintptr); ("setMode", uintptr); ("blt", uintptr); ("Mode", pointer) ]%string.

Definition EFI_SIMPLE_NETWORK_MODE : gotype := Struct
  [ ("State", uint32); ("HwAddressSize", uint32); ("MediaHeaderSize", uint32);
    ("MaxPacketSize", uint32); ("NvRamSize", uint32); ("NvRamAccessSize", uint32);
    ("ReceiveFilterMask", uint32); ("ReceiveFilterSetting", uint32);
    ("MaxMCastFilterCount", uint32); ("MCastFilterCount", uint32);
    ("MCastFilter", (Array 32 EFI_MAC_ADDRESS)); ("CurrentAddress", EFI_MAC_ADDRESS);
    ("BroadcastAddress", EFI_MAC_ADDRESS); ("PermanentAddress", EFI_MAC_ADDRESS);
    ("IfType", uint8); ("MacAddressChangeable", uint8); ("MultipleTxSupported", uint8);
    ("MediaPresentSupported", uint8); ("MediaPresent", uint8) ]%string.

Definition EFI_SIMPLE_NETWORK_PROTOCOL : gotype := Struct
  [ ("Revision", uint64); ("start", uintptr); ("stop", uintptr); ("initialize", uintptr);
    ("reset", uintptr); ("shutdown", uintptr); ("receiveFilters", uintptr);
    ("stationAddress", uintptr); ("statistics", uintptr); ("mCastIpToMac", uintptr);
    ("nvData", uintptr); ("getStatus", uintptr); ("transmit", uintptr); ("receive", uintptr);
    ("WaitForPacket", uintptr); ("Mode", pointer) ]%string.

Definition EFI_DHCP4_PACKET_OPTION : gotype := Struct
  [ ("OpCode", uint8); ("Length", uint8); ("Data", (Array 1 uint8)) ]%string.

Definition EFI_DHCP4_SERVICE_BINDING_PROTOCOL : gotype := Struct
  [ ("createChild", uintptr); ("destroyChild", uintptr) ]%string.

Definition EFI_DHCP4_CONFIG_DATA : gotype := Struct
  [ ("DiscoverTryCount", uint32); ("DiscoverTimeout", pointer); ("RequestTryCount", uint32);
    ("RequestTimeout", pointer); ("ClientAddress", EFI_IPv4_ADDRESS); ("Dhcp4Callback", uintptr);
    ("CallbackContext", pointer); ("OptionCount", uint32); ("OptionList", pointer) ]%string.

Definition EFI_DHCP4_MODE_DATA : gotype := Struct
  [ ("State", uint32); ("ConfigData", EFI_DHCP4_CONFIG_DATA); ("ClientAddress", EFI_IPv4_ADDRESS);
    ("ClientMac", EFI_MAC_ADDRESS); ("ServerAddress", EFI_IPv4_ADDRESS);
    ("RouterAddress", EFI_IPv4_ADDRESS); ("SubnetMask", EFI_IPv4_ADDRESS) ]%string.

Definition EFI_DHCP4_PROTOCOL : gotype := Struct
  [ ("getModeData", uintptr); ("configure", uintptr); ("start", uintptr);
    ("renewRebind", uintptr); ("release", uintptr); ("stop", uintptr); ("build", uintptr);
    ("transmitReceive", uintptr); ("parse", uintptr) ]%string.

Definition is_Struct (t : gotype) : Prop := match t with Struct _ => True | _ => False end.

(** All of them by name. *)
Definition structs : list (string * gotype) :=
  [ ("EFI_GUID", EFI_GUID);
    ("EFI_TIME", EFI_TIME);
    ("EFI_DEVICE_PATH_PROTOCOL", EFI_DEVICE_PATH_PROTOCOL);
    ("EFI_TABLE_HEADER", EFI_TABLE_HEADER);
    ("EFI_MEMORY_DESCRIPTOR", EFI_MEMORY_DESCRIPTOR);
    ("EFI_TIME_CAPABILITIES", EFI_TIME_CAPABILITIES);
    ("EFI_OPEN_PROTOCOL_INFORMATION_ENTRY", EFI_OPEN_PROTOCOL_INFORMATION_ENTRY);
    ("EFI_CAPSULE_BLOCK_DESCRIPTOR", EFI_CAPSULE_BLOCK_DESCRIPTOR);
    ("EFI_CAPSULE_HEADER", EFI_CAPSULE_HEADER);
    ("EFI_CAPSULE_TABLE", EFI_CAPSULE_TABLE);
    ("EFI_RUNTIME_SERVICES", EFI_RUNTIME_SERVICES);
    ("EFI_BOOT_SERVICES", EFI_BOOT_SERVICES);
    ("EFI_CONFIGURATION_TABLE", EFI_CONFIGURATION_TABLE);
    ("EFI_SYSTEM_TABLE", EFI_SYSTEM_TABLE);
    ("EFI_LOAD_OPTION", EFI_LOAD_OPTION);
    ("EFI_LOADED_IMAGE_PROTOCOL", EFI_LOADED_IMAGE_PROTOCOL);
    ("EFI_SIMPLE_TEXT_OUTPUT_MODE", EFI_SIMPLE_TEXT_OUTPUT_MODE);
    ("EFI_SIMPLE_TEXT_OUTPUT_PROTOCOL", EFI_SIMPLE_TEXT_OUTPUT_PROTOCOL);
    ("EFI_INPUT_KEY", EFI_INPUT_KEY);
    ("EFI_SIMPLE_TEXT_INPUT_PROTOCOL", EFI_SIMPLE_TEXT_INPUT_PROTOCOL);
    ("EFI_SIMPLE_TEXT_INPUT_EX_PROTOCOL", EFI_SIMPLE_TEXT_INPUT_EX_PROTOCOL);
    ("EFI_KEY_STATE", EFI_KEY_STATE);
    ("EFI_KEY_DATA", EFI_KEY_DATA);
    ("EFI_SIMPLE_FILE_SYSTEM_PROTOCOL", EFI_SIMPLE_FILE_SYSTEM_PROTOCOL);
    ("EFI_FILE_PROTOCOL", EFI_FILE_PROTOCOL);
    ("EFI_FILE_INFO", EFI_FILE_INFO);
    ("EFI_FILE_SYSTEM_INFO", EFI_FILE_SYSTEM_INFO);
    ("EFI_BLOCK_IO_MEDIA", EFI_BLOCK_IO_MEDIA);
    ("EFI_BLOCK_IO_PROTOCOL", EFI_BLOCK_IO_PROTOCOL);
    ("EFI_DISK_IO_PROTOCOL", EFI_DISK_IO_PROTOCOL);
    ("EFI_SERIAL_IO_MODE", EFI_SERIAL_IO_MODE);
    ("EFI_SERIAL_IO_PROTOCOL", EFI_SERIAL_IO_PROTOCOL);
    ("EFI_PIXEL_BITMASK", EFI_PIXEL_BITMASK);
    ("EFI_GRAPHICS_OUTPUT_MODE_INFORMATION", EFI_GRAPHICS_OUTPUT_MODE_INFORMATION);
    ("EFI_GRAPHICS_OUTPUT_BLT_PIXEL", EFI_GRAPHICS_OUTPUT_BLT_PIXEL);
    ("EFI_GRAPHICS_OUTPUT_PROTOCOL_MODE", EFI_GRAPHICS_OUTPUT_PROTOCOL_MODE);
    ("EFI_GRAPHICS_OUTPUT_PROTOCOL", EFI_GRAPHICS_OUTPUT_PROTOCOL);
    ("EFI_SIMPLE_NETWORK_MODE", EFI_SIMPLE_NETWORK_MODE);
    ("EFI_SIMPLE_NETWORK_PROTOCOL", EFI_SIMPLE_NETWORK_PROTOCOL);
    ("EFI_DHCP4_PACKET_OPTION", EFI_DHCP4_PACKET_OPTION);
    ("EFI_DHCP4_SERVICE_BINDING_PROTOCOL", EFI_DHCP4_SERVICE_BINDING_PROTOCOL);
    ("EFI_DHCP4_CONFIG_DATA", EFI_DHCP4_CONFIG_DATA);
    ("EFI_DHCP4_MODE_DATA", EFI_DHCP4_MODE_DATA);
    ("EFI_DHCP4_PROTOCOL", EFI_DHCP4_PROTOCOL) ]%string.

(** ** The structs that both packages declare *)

(** A struct of ueficore with its counterpart in pkg/uefi: each field of the one
    under the names that select it in the other. *)
Record declared := Declared {
  d_name : string;
  d_struct : Type;
  d_binary : Binary d_struct;
  d_type : gotype;
  d_fields : list (list string * (d_struct -> fval));
}.

Definition SystemTable_fields : list (list string * (SystemTable.t -> fval)) :=
  let num path f := (path, fun v : SystemTable.t => VZ (f v)) in
  [ num ["Hdr"; "Signature"] (fun v => TableHeader.Signature (SystemTable.Header v));
    num ["Hdr"; "Revision"] (fun v => TableHeader.Revision (SystemTable.Header v));
    num ["Hdr"; "HeaderSize"] (fun v => TableHeader.HeaderSize (SystemTable.Header v));
    num ["Hdr"; "CRC32"] (fun v => TableHeader.CRC32 (SystemTable.Header v));
    num ["Hdr"; "Reserved"] (fun v => TableHeader.Reserved (SystemTable.Header v));
    num ["FirmwareVendor"] SystemTable.FirmwareVendor;
    num ["FirmwareRevision"] SystemTable.FirmwareRevision;
    num ["ConsoleInHandle"] SystemTable.ConsoleInHandle; num ["ConIn"] SystemTable.ConIn;
    num ["ConsoleOutHandle"] SystemTable.ConsoleOutHandle; num ["ConOut"] SystemTable.ConOut;
    num ["StandardErrorHandle"] SystemTable.StandardErrorHandle;
    num ["StdErr"] SystemTable.StdErr; num ["RuntimeServices"] SystemTable.RuntimeServices;
    num ["BootServices"] SystemTable.BootServices;
    num ["NumberOfTableEntries"] SystemTable.NumberOfTableEntries;
    num ["ConfigurationTable"] SystemTable.ConfigurationTable ]%string.

Definition MemoryDescriptor_fields : list (list string * (MemoryDescriptor.t -> fval)) :=
  let num path f := (path, fun v : MemoryDescriptor.t => VZ (f v)) in
  [ num ["Type"] MemoryDescriptor.Type_; num ["PhysicalStart"] MemoryDescriptor.PhysicalStart;
    num ["VirtualStart"] MemoryDescriptor.VirtualStart;
    num ["NumberOfPages"] MemoryDescriptor.NumberOfPages;
    num ["Attribute"] MemoryDescriptor.Attribute ]%string.

Definition ConfigurationTable_fields : list (list string * (ConfigurationTable.t -> fval)) :=
  [ (["VendorGuid"], fun v => VB (ConfigurationTable.GUID v));
    (["VendorTable"], fun v => VZ (ConfigurationTable.VendorTable v)) ]%string.

Definition LoadedImage_fields : list (list string * (LoadedImage.t -> fval)) :=
  let num path f := (path, fun v : LoadedImage.t => VZ (f v)) in
  [ num ["Revision"] LoadedImage.Revision; num ["ParentHandle"] LoadedImage.ParentHandle;
    num ["SystemTable"] LoadedImage.SystemTable; num ["DeviceHandle"] LoadedImage.DeviceHandle;
    num ["FilePath"] LoadedImage.FilePath; num ["LoadOptionsSize"] LoadedImage.LoadOptionsSize;
    num ["LoadOptions"] LoadedImage.LoadOptions; num ["ImageBase"] LoadedImage.ImageBase;
    num ["ImageSize"] LoadedImage.ImageSize; num ["ImageCodeType"] LoadedImage.ImageCodeType;
    num ["ImageDataType"] LoadedImage.ImageDataType; num ["unload"] LoadedImage.Unload ]%string.

Definition simpleFileSystem_fields : list (list string * (simpleFileSystem.t -> fval)) :=
  let num path f := (path, fun v : simpleFileSystem.t => VZ (f v)) in
  [ num ["Revision"] simpleFileSystem.Revision;
    num ["openVolume"] simpleFileSystem.OpenVolume ]%string.

Definition fileProtocol_fields : list (list string * (fileProtocol.t -> fval)) :=
  let num path f := (path, fun v : fileProtocol.t => VZ (f v)) in
  [ num ["Revision"] fileProtocol.Revision; num ["open"] fileProtocol.Open;
    num ["close"] fileProtocol.Close; num ["delete"] fileProtocol.Delete;
    num ["read"] fileProtocol.Read; num ["write"] fileProtocol.Write;
    num ["getPosition"] fileProtocol.GetPosition; num ["setPosition"] fileProtocol.SetPosition;
    num ["getInfo"] fileProtocol.GetInfo; num ["setInfo"] fileProtocol.SetInfo;
    num ["flush"] fileProtocol.Flush ]%string.

(** A file's time under the name of its field. *)
Definition time_fields (name : string) (time : fileInfo.t -> efiTime.t) :
    list (list string * (fileInfo.t -> fval)) :=
  let num path f := ([name; path], fun v : fileInfo.t => VZ (f (time v))) in
  [ num "Year" efiTime.Year; num "Month" efiTime.Month; num "Day" efiTime.Day;
    num "Hour" efiTime.Hour; num "Minute" efiTime.Minute; num "Second" efiTime.Second;
    num "Nanosecond" efiTime.Nanosecond; num "TimeZone" efiTime.TimeZone;
    num "Daylight" efiTime.Daylight ]%string.

Definition fileInfo_fields : list (list string * (fileInfo.t -> fval)) :=
  let num path f := (path, fun v : fileInfo.t => VZ (f v)) in
  [ num ["Size"%string] fileInfo.Size; num ["FileSize"%string] fileInfo.FileSize;
    num ["PhysicalSize"%string] fileInfo.PhysicalSize ] ++
  time_fields "CreateTime" fileInfo.CreateTime ++
  time_fields "LastAccessTime" fileInfo.LastAccessTime ++
  time_fields "ModificationTime" fileInfo.ModificationTime ++
  [ num ["Attribute"%string] fileInfo.Attribute ].

Definition DevicePathNode_fields : list (list string * (DevicePathNode.t -> fval)) :=
  let num path f := (path, fun v : DevicePathNode.t => VZ (f v)) in
  [ num ["Type"] DevicePathNode.Type_; num ["SubType"] DevicePathNode.SubType;
    num ["Length"] DevicePathNode.Length ]%string.

Definition ModeInformation_fields : list (list string * (ModeInformation.t -> fval)) :=
  let num path f := (path, fun v : ModeInformation.t => VZ (f v)) in
  [ num ["Version"] ModeInformation.Version;
    num ["HorizontalResolution"] ModeInformation.HorizontalResolution;
    num ["VerticalResolution"] ModeInformation.VerticalResolution;
    num ["PixelFormat"] ModeInformation.PixelFormat;
    num ["PixelInformation"; "RedMask"] ModeInformation.RedMask;
    num ["PixelInformation"; "GreenMask"] ModeInformation.GreenMask;
    num ["PixelInformation"; "BlueMask"] ModeInformation.BlueMask;
    num ["PixelInformation"; "ReservedMask"] ModeInformation.ReservedMask;
    num ["PixelsPerScanLine"] ModeInformation.PixelsPerScanLine ]%string.

Definition ProtocolMode_fields : list (list string * (ProtocolMode.t -> fval)) :=
  let num path f := (path, fun v : ProtocolMode.t => VZ (f v)) in
  [ num ["MaxMode"] ProtocolMode.MaxMode; num ["Mode"] ProtocolMode.Mode;
    num ["Info"] ProtocolMode.Info; num ["SizeOfInfo"] ProtocolMode.SizeOfInfo;
    num ["FrameBufferBase"] ProtocolMode.FrameBufferBase;
    num ["FrameBufferSize"] ProtocolMode.FrameBufferSize ]%string.

Definition GraphicsData_fields : list (list string * (GraphicsData.t -> fval)) :=
  let num path f := (path, fun v : GraphicsData.t => VZ (f v)) in
  [ num ["queryMode"] GraphicsData.QueryMode; num ["setMode"] GraphicsData.SetMode;
    num ["blt"] GraphicsData.Blt; num ["Mode"] GraphicsData.Mode ]%string.

Definition shared : list declared :=
  [ Declared "SystemTable" _ SystemTable.binary EFI_SYSTEM_TABLE SystemTable_fields;
    Declared "MemoryDescriptor" _ MemoryDescriptor.binary EFI_MEMORY_DESCRIPTOR MemoryDescriptor_fields;
    Declared "ConfigurationTable" _ ConfigurationTable.binary EFI_CONFIGURATION_TABLE ConfigurationTable_fields;
    Declared "LoadedImage" _ LoadedImage.binary EFI_LOADED_IMAGE_PROTOCOL LoadedImage_fields;
    Declared "simpleFileSystem" _ simpleFileSystem.binary EFI_SIMPLE_FILE_SYSTEM_PROTOCOL simpleFileSystem_fields;
    Declared "fileProtocol" _ fileProtocol.binary EFI_FILE_PROTOCOL fileProtocol_fields;
    Declared "fileInfo" _ fileInfo.binary EFI_FILE_INFO fileInfo_fields;
    Declared "DevicePathNode" _ DevicePathNode.binary EFI_DEVICE_PATH_PROTOCOL DevicePathNode_fields;
    Declared "ModeInformation" _ ModeInformation.binary EFI_GRAPHICS_OUTPUT_MODE_INFORMATION ModeInformation_fields;
    Declared "ProtocolMode" _ ProtocolMode.binary EFI_GRAPHICS_OUTPUT_PROTOCOL_MODE ProtocolMode_fields;
    Declared "GraphicsData" _ GraphicsData.binary EFI_GRAPHICS_OUTPUT_PROTOCOL GraphicsData_fields ]%string.

(** A value is what the bytes of a field hold: a number that its size can hold,
    little endian, or the bytes themselves. *)
Definition held (v : fval) (bs : list Z) : Prop :=
  match v with
  | VZ z => let bits := 8 * Z.of_nat (length bs) in
      - 2 ^ (bits - 1) <= z < 2 ^ bits /\ le_enc (length bs) z = bs
  | VB b => b = bs
  end.

#[global] Instance held_dec v bs : Decision (held v bs).
Proof. destruct v; unfold held; cbv zeta; apply _. Defined.

(** The field of ueficore [f] is, in whatever bytes the struct is decoded from,
    what these have at the place of the field of pkg/uefi that [path] selects. *)
Definition same_field {A} `{Binary A} (t : gotype) (path : list string) (f : A -> fval) : Prop :=
  exists off size, at_path 0 t path = Some (Z.of_nat off, Z.of_nat size) /\
    forall bs v0, (bin_size A <= length bs)%nat -> Forall is_byte bs ->
      held (f (fst (unmarshalBinary bs v0))) (take size (drop off bs)).

(** The fields of a file's times that efiTime has elsewhere: what follows the
    seconds. *)
Definition mistimed : list (list string) :=
  concat (map (fun time => map (fun name => [time; name]) ["Nanosecond"; "TimeZone"; "Daylight"])
    ["CreateTime"; "LastAccessTime"; "ModificationTime"])%string.

(** The fields of a loaded image that two enumerations of 8 bytes move. *)
Definition mistyped : list (list string) := [ ["ImageCodeType"]; ["ImageDataType"]; ["unload"] ]%string.

(** What no chain of [paths] selects or leads to. *)
Definition uncovered (t : gotype) (paths : list (list string)) : list (list string) :=
  filter (fun l => Forall (fun p => ~ p `prefix_of` l) paths) (leaves t).

(** The tables and protocols with the field lists that their methods use. *)
Definition tables : list (list string * gotype) :=
  [ (Runtime.fields, EFI_RUNTIME_SERVICES); (BootTable.fields, EFI_BOOT_SERVICES) ].

Definition protocols : list (list string * gotype) :=
  [ (SimpleFileSystem.fields, EFI_SIMPLE_FILE_SYSTEM_PROTOCOL); (FileProtocol.fields, EFI_FILE_PROTOCOL);
    (BlockIo.fields, EFI_BLOCK_IO_PROTOCOL); (DiskIo.fields, EFI_DISK_IO_PROTOCOL);
    (Gop.fields, EFI_GRAPHICS_OUTPUT_PROTOCOL); (SerialIo.fields, EFI_SERIAL_IO_PROTOCOL);
    (TextInput.fields, EFI_SIMPLE_TEXT_INPUT_PROTOCOL);
    (TextInputEx.fields, EFI_SIMPLE_TEXT_INPUT_EX_PROTOCOL);
    (TextOutput.fields, EFI_SIMPLE_TEXT_OUTPUT_PROTOCOL);
    (SimpleNetwork.fields, EFI_SIMPLE_NETWORK_PROTOCOL);
    (Dhcp4ServiceBinding.fields, EFI_DHCP4_SERVICE_BINDING_PROTOCOL);
    (Dhcp4.fields, EFI_DHCP4_PROTOCOL) ].

(** ** Soundness of the rules *)

Definition is_align (a : Z) : Prop := a = 1 \/ a = 2 \/ a = 4 \/ a = 8.

Lemma is_align_divides a b : is_align a -> is_align b -> a <= b -> (a | b).
Proof.
  intros [->|[->|[->| ->]]] [->|[->|[->| ->]]] Hle; try lia;
    first [by exists 1|by exists 2|by exists 4|by exists 8].
Qed.

Lemma is_align_max a b : is_align a -> is_align b -> is_align (Z.max a b).
Proof. unfold is_align. lia. Qed.

Lemma align_up_spec x a : 0 < a -> x <= align_up x a < x + a /\ (a | align_up x a).
Proof.
  intros Ha. unfold align_up. split; [|by exists ((x + a - 1) / a)].
  pose proof (Z.div_mod (x + a - 1) a ltac:(lia)). pose proof (Z.mod_pos_bound (x + a - 1) a Ha). lia.
Qed.

Lemma well_formed_fields fs : well_formed (Struct fs) <-> Forall (fun f => well_formed f.2) fs.
Proof.
  cbn [well_formed]. induction fs as [|f fs IH]; cbn [foldr]; [by split|].
  rewrite Forall_cons. by rewrite IH.
Qed.

Lemma alignof_ok t : well_formed t -> is_align (alignof t).
Proof.
  induction t as [size| |n t IH|fs IH] using gotype_nested; intros Hwf; cbn [alignof].
  - done.
  - unfold is_align. lia.
  - by apply IH.
  - apply well_formed_fields in Hwf.
    induction fs as [|f fs IHfs]; cbn [foldr]; [by left|].
    inversion IH; inversion Hwf; subst. apply is_align_max; auto.
Qed.

(** A struct's alignment is that of its most aligned field. *)
Lemma struct_align fs name t : well_formed (Struct fs) -> (name, t) ∈ fs ->
  (alignof t | alignof (Struct fs)).
Proof.
  intros Hwf Hin. pose proof (alignof_ok _ Hwf) as Ha. rewrite well_formed_fields, Forall_forall in Hwf.
  apply is_align_divides; [by apply alignof_ok, (Hwf _ Hin)|done|]. clear Ha Hwf. cbn [alignof].
  change t with (name, t).2. generalize dependent (name, t). intros f Hin.
  induction Hin as [f fs|f g fs Hin IH]; cbn [foldr]; lia.
Qed.

(** Where the last field that [place] places ends. *)
Definition end_of (off : Z) (fs : field_list) : Z :=
  foldl (fun off f => align_up off (alignof f.2) + sizeof f.2) off fs.

Lemma alignof_pos t : well_formed t -> 0 < alignof t.
Proof. intros Hwf. pose proof (alignof_ok t Hwf) as Ha. unfold is_align in Ha. lia. Qed.

Lemma end_of_ge off fs : Forall (fun f => well_formed f.2 /\ 0 <= sizeof f.2) fs -> off <= end_of off fs.
Proof.
  revert off. induction fs as [|f fs IH]; intros off Hfs; cbn [end_of foldl]; [lia|].
  apply Forall_cons in Hfs as [[Hwf Hs] Hfs]. specialize (IH (align_up off (alignof f.2) + sizeof f.2) Hfs).
  destruct (align_up_spec off (alignof f.2) (alignof_pos _ Hwf)) as [? _]. unfold end_of in IH. lia.
Qed.

Lemma sizeof_ok t : well_formed t -> 0 <= sizeof t /\ (alignof t | sizeof t).
Proof.
  induction t as [size| |n t IH|fs IH] using gotype_nested; intros Hwf.
  - cbn in *. split; [lia|exists 1; lia].
  - cbn. split; [lia|by exists 1].
  - cbn [sizeof alignof]. destruct (IH Hwf) as [? ?]. split; [lia|by apply Z.divide_mul_r].
  - destruct (align_up_spec (end_of 0 fs) (alignof (Struct fs)) (alignof_pos _ Hwf)) as [? Hd].
    split; [|exact Hd]. rewrite well_formed_fields in Hwf.
    assert (0 <= end_of 0 fs); [|change (0 <= align_up (end_of 0 fs) (alignof (Struct fs))); lia].
    apply end_of_ge. apply Forall_forall. intros f Hf. rewrite Forall_forall in IH, Hwf.
    split; [by apply Hwf|by apply IH, Hwf].
Qed.

(** Every field is aligned and lies within the struct; the next one follows it
    at the first offset that its alignment allows. *)
Lemma place_sound fs off i name o : Forall (fun f => well_formed f.2) fs ->
  place off fs !! i = Some (name, o) ->
  exists t, fs !! i = Some (name, t) /\ (alignof t | o) /\ off <= o /\ o + sizeof t <= end_of off fs /\
    (i = 0%nat -> o < off + alignof t) /\
    forall name' o', place off fs !! S i = Some (name', o') ->
      exists t', fs !! S i = Some (name', t') /\ o + sizeof t <= o' < o + sizeof t + alignof t'.
Proof.
  intros Hwf. revert off i name o. induction Hwf as [|[n t] fs Ht Hfs IH]; intros off i name o Hi; [done|]. cbn [snd] in Ht.
  destruct (align_up_spec off (alignof t) (alignof_pos _ Ht)) as [Hup Hdiv].
  destruct (sizeof_ok t Ht) as [Hsize _]. cbn [place] in *.
  assert (Forall (fun f => well_formed f.2 /\ 0 <= sizeof f.2) fs) as Hfs'.
  { eapply Forall_impl; [exact Hfs|]. intros f Hf. split; [done|by apply sizeof_ok]. }
  destruct i as [|i]; cbn [lookup list_lookup] in *.
  - simplify_eq. exists t. split_and!; try done; try lia.
    + exact (end_of_ge _ _ Hfs').
    + intros name' o' Hn. destruct (IH _ 0%nat _ _ Hn) as (t' & ? & _ & ? & _ & Hlt & _).
      specialize (Hlt eq_refl). exists t'. split; [done|lia].
  - destruct (IH _ _ _ _ Hi) as (t' & ? & ? & ? & ? & _ & Hnext). exists t'. split_and!; try done; try lia.
Qed.

Lemma offsets_sound fs i name o : well_formed (Struct fs) -> offsets (Struct fs) !! i = Some (name, o) ->
  exists t, fs !! i = Some (name, t) /\ (alignof t | o) /\ 0 <= o /\ o + sizeof t <= sizeof (Struct fs) /\
    forall name' o', offsets (Struct fs) !! S i = Some (name', o') ->
      exists t', fs !! S i = Some (name', t') /\ o + sizeof t <= o' < o + sizeof t + alignof t'.
Proof.
  intros Hwf Hi. pose proof (proj1 (well_formed_fields fs) Hwf) as Hfs.
  destruct (place_sound _ _ _ _ _ Hfs Hi) as (t & Ht & Hd & Ho & He & _ & Hnext).
  exists t. split_and!; try done.
  destruct (align_up_spec (end_of 0 fs) (alignof (Struct fs)) (alignof_pos _ Hwf)) as [? _].
  change (sizeof (Struct fs)) with (align_up (end_of 0 fs) (alignof (Struct fs))). lia.
Qed.

Lemma place_names off fs : map fst (place off fs) = map fst fs.
Proof. revert off. induction fs as [|[n t] fs IH]; intros off; cbn; [done|]. by rewrite IH. Qed.

Lemma structs_well_formed : Forall (fun s => well_formed s.2 /\ is_Struct s.2) structs.
Proof. repeat (apply Forall_cons_2; [cbn; tauto|]). apply Forall_nil_2. Qed.

(** Every struct of pkg/uefi is laid out soundly: each field has an offset
    that its alignment divides, starts where the one before it ends but for the
    least padding that its alignment needs, and ends within the struct, whose size
    its alignment divides, so that slices of it are aligned too. *)
Theorem structs_sound name fs : (name, Struct fs) ∈ structs ->
  (alignof (Struct fs) | sizeof (Struct fs)) /\
  map fst (offsets (Struct fs)) = map fst fs /\
  forall i field o, offsets (Struct fs) !! i = Some (field, o) ->
    exists t, fs !! i = Some (field, t) /\ (alignof t | o) /\ 0 <= o /\ o + sizeof t <= sizeof (Struct fs) /\
      (alignof t | alignof (Struct fs)) /\
      forall field' o', offsets (Struct fs) !! S i = Some (field', o') ->
        exists t', fs !! S i = Some (field', t') /\ o + sizeof t <= o' < o + sizeof t + alignof t'.
Proof.
  intros Hin. pose proof structs_well_formed as Hwf. rewrite Forall_forall in Hwf.
  destruct (Hwf _ Hin) as [Hs _]. cbn [snd] in Hs. split; [by apply sizeof_ok|]. split; [apply place_names|].
  intros i field o Hi. destruct (offsets_sound _ _ _ _ Hs Hi) as (t & Ht & ? & ? & ? & ?).
  exists t. split_and!; try done. by eapply struct_align, list_elem_of_lookup_2.
Qed.

(** The scalars of a packed struct, with the offset of each. *)
Fixpoint packed (off : nat) (fs : list fty) : list (nat * fty) :=
  match fs with
  | [] => []
  | f :: fs => (if is_pad f then [] else [(off, f)]) ++ packed (off + fsize f) fs
  end.

Lemma dec_fields_packed fs off bs :
  dec_fields fs (drop off bs) =
  map (fun '(o, f) => dec_field f (take (fsize f) (drop o bs))) (packed off fs).
Proof.
  revert off. induction fs as [|f fs IH]; intros off; [done|]. cbn [dec_fields packed].
  rewrite drop_drop, IH. by destruct (is_pad f).
Qed.

Lemma packed_in fs off o f : (o, f) ∈ packed off fs -> Forall fty_ok fs ->
  is_pad f = false /\ fty_ok f /\ (o + fsize f <= off + fields_size fs)%nat.
Proof.
  intros Hin Hok. revert off Hin. induction Hok as [|g fs Hg Hok IH]; intros off; cbn [packed].
  { intros Hin. by apply elem_of_nil in Hin. }
  assert (fields_size (g :: fs) = fsize g + fields_size fs)%nat as -> by reflexivity.
  rewrite elem_of_app. intros [Hin|Hin].
  - destruct (is_pad g) eqn:Hp; [by apply elem_of_nil in Hin|].
    apply list_elem_of_singleton in Hin. simplify_eq. split_and!; [done..|lia].
  - destruct (IH _ Hin) as (? & ? & ?). split_and!; [done..|lia].
Qed.

Lemma dec_field_held f bs : is_pad f = false -> fty_ok f -> length bs = fsize f -> Forall is_byte bs ->
  held (dec_field f bs) bs.
Proof.
  intros Hp Hf Hl Hb. pose proof (dec_field_ok _ _ Hp Hf Hl Hb) as Hv.
  pose proof (enc_dec_field _ _ Hp Hf Hl Hb) as He.
  destruct f as [n|n|n|n]; cbn in *; [..|done]; rewrite ?Hl; [| |done].
  - split; [|done]. unfold is_word in Hv. pose proof (Z.pow_nonneg 2 (8 * Z.of_nat n - 1)). lia.
  - split; [|done]. pose proof (Z.pow_le_mono_r 2 (8 * Z.of_nat n - 1) (8 * Z.of_nat n)). lia.
Qed.

(** A field that lies in the packed struct where Go puts it in [t] is the same. *)
Lemma same_field_packed {A} `{Binary A} t (views : list (list string * (A -> fval))) i path f o g :
  (forall v, map (fun p => p.2 v) views = to_vals v) ->
  views !! i = Some (path, f) -> packed 0 (bin_fields A) !! i = Some (o, g) ->
  at_path 0 t path = Some (Z.of_nat o, Z.of_nat (fsize g)) -> same_field t path f.
Proof.
  intros Hviews Hi Hg Hpath. exists o, (fsize g). split; [done|]. intros bs v0 Hl Hb.
  unfold unmarshalBinary. rewrite decide_False by lia. cbn [fst].
  pose proof (packed_in _ _ _ _ (list_elem_of_lookup_2 _ _ _ Hg) bin_fields_ok) as (Hp & Hok & Ho).
  assert (vals_ok (bin_fields A) (dec_fields (bin_fields A) bs)) as Hvals.
  { pose proof (dec_fields_ok (bin_fields A) (take (bin_size A) bs) bin_fields_ok) as Hd.
    assert (dec_fields (bin_fields A) (take (bin_size A) bs) = dec_fields (bin_fields A) bs) as <-.
    - rewrite <-(drop_0 bs), <-(drop_0 (take _ _)), !dec_fields_packed. apply map_ext_in.
      intros [o' g'] Hin. apply list_elem_of_In in Hin.
      destruct (packed_in _ _ _ _ Hin bin_fields_ok) as (_ & _ & Ho').
      rewrite !take_drop_commute, take_take. unfold bin_size.
      by rewrite Nat.min_l by exact Ho'.
    - apply Hd; [rewrite length_take; unfold bin_size in *; lia|by apply Forall_take]. }
  destruct (to_of_vals _ Hvals) as (v & -> & Hv). cbn [default from_option id].
  assert (to_vals v !! i = Some (f v)) as Hf.
  { rewrite <-Hviews, list_lookup_fmap, Hi. done. }
  rewrite Hv, <-(drop_0 bs), dec_fields_packed, list_lookup_fmap, Hg in Hf. cbn in Hf.
  injection Hf as <-. apply dec_field_held; [done..| |by apply Forall_take, Forall_drop].
  rewrite length_take, length_drop. unfold bin_size in *. lia.
Qed.

(** Bytes to tell two fields apart. *)
Definition sample (n : nat) : list Z := map (fun i => (Z.of_nat i + 1) mod 256) (seq 0 n).

Lemma sample_bytes n : Forall is_byte (sample n).
Proof. apply Forall_fmap, Forall_true. intros i. apply (Z.mod_pos_bound _ 256). lia. Qed.

(** The field of [t] is elsewhere, as the sample shows. *)
Definition differs {A} `{Binary A} (t : gotype) (path : list string) (f : A -> fval) : bool :=
  let bs := sample (bin_size A) in
  match at_path 0 t path with
  | Some (off, size) =>
      bool_decide (~ held (f (fst (unmarshalBinary bs (bin_zero A))))
        (take (Z.to_nat size) (drop (Z.to_nat off) bs)))
  | None => true
  end.

Lemma differs_sound {A} `{Binary A} t path (f : A -> fval) : differs t path f = true -> ~ same_field t path f.
Proof.
  unfold differs. intros Hd (off & size & Hp & Hs). rewrite Hp, !Nat2Z.id in Hd.
  apply bool_decide_eq_true in Hd. apply Hd, Hs; [|apply sample_bytes].
  unfold sample. by rewrite length_map, length_seq.
Qed.

(** What there is to compute for a struct whose fields [bad] alone differ. *)
Definition compare {A} `{Binary A} (t : gotype) (bad : list (list string))
    (views : list (list string * (A -> fval))) : bool :=
  (length views =? length (packed 0 (bin_fields A)))%nat &&
  forallb (fun '((path, f), (o, g)) =>
    if decide (path ∈ bad) then differs t path f
    else bool_decide (at_path 0 t path = Some (Z.of_nat o, Z.of_nat (fsize g))))
    (zip views (packed 0 (bin_fields A))).

Lemma compare_sound {A} `{Binary A} t bad (views : list (list string * (A -> fval))) :
  (forall v, map (fun p => p.2 v) views = to_vals v) -> compare t bad views = true ->
  Forall (fun p => same_field t p.1 p.2 <-> p.1 ∉ bad) views.
Proof.
  intros Hviews Hc. apply andb_prop in Hc as [Hl Hc]. apply Nat.eqb_eq in Hl.
  rewrite forallb_forall in Hc. apply Forall_lookup. intros i [path f] Hi. cbn [fst snd].
  destruct (lookup_lt_is_Some_2 (packed 0 (bin_fields A)) i) as [[o g] Hg].
  { rewrite <-Hl. by eapply lookup_lt_Some. }
  specialize (Hc ((path, f), (o, g))). cbn beta iota in Hc.
  assert (In ((path, f), (o, g)) (zip views (packed 0 (bin_fields A)))) as Hin.
  { apply list_elem_of_In, (list_elem_of_lookup_2 _ i), lookup_zip_with_Some. eauto. }
  specialize (Hc Hin). destruct (decide (path ∈ bad)) as [Hb|Hb].
  - apply differs_sound in Hc. tauto.
  - split; [done|]. intros _. apply bool_decide_eq_true in Hc. by eapply same_field_packed.
Qed.

(** A shared struct: its fields are all listed, and those of [bad] alone differ. *)
Definition agrees (t : gotype) (bad : list (list string)) (d : declared) : Prop :=
  let binary := d_binary d in
  (forall v, map (fun p => p.2 v) (d_fields d) = to_vals v) /\
  Forall (fun p => same_field t p.1 p.2 <-> p.1 ∉ bad) (d_fields d).

Lemma agrees_compare t bad d :
  (forall v, map (fun p => p.2 v) (d_fields d) = @to_vals _ (d_binary d) v) ->
  @compare _ (d_binary d) t bad (d_fields d) = true -> agrees t bad d.
Proof. intros Hv Hc. split; [done|]. by apply (@compare_sound _ (d_binary d)). Qed.

Ltac fields_listed :=
  let v := fresh "v" in
  intros v; destruct v;
  repeat match goal with
  | t : efiTime.t |- _ => destruct t
  | t : TableHeader.t |- _ => destruct t
  end; reflexivity.

(** C27. The two packages agree on the firmware's structs.  The fields of each
    struct of ueficore, all of them, hold whatever the bytes it is decoded from
    have where Go puts the field of that name in the struct of pkg/uefi, with its
    size; the exceptions are the nanoseconds, the zone and the daylight flag of a
    file's times.  Against the C declarations, whose enumerations have 4 bytes,
    the two types of a loaded image's memory and its Unload are wrong besides.
    Every field of pkg/uefi has its counterpart but for a reserved one and the
    padding of the times.  ueficore's sizes are those of the C structs but for the
    memory descriptor and the loaded image, which it gives 8 bytes more. *)
Theorem packages_agree :
  Forall (fun d => agrees (d_type d) mistimed d) shared /\
  Forall (fun d => agrees (c_type (d_type d)) (mistimed ++ mistyped) d) shared /\
  concat (map (fun d => uncovered (d_type d) (map fst (d_fields d))) shared) =
    [ ["Reserved"]; ["CreateTime"; "Pad1"]; ["CreateTime"; "Pad2"]; ["LastAccessTime"; "Pad1"];
      ["LastAccessTime"; "Pad2"]; ["ModificationTime"; "Pad1"]; ["ModificationTime"; "Pad2"] ]%string /\
  filter (fun p => p.2 <> 0) (map (fun d =>
    (d_name d, Z.of_nat (let binary := d_binary d in bin_size (d_struct d)) - sizeof (c_type (d_type d)))) shared) =
    [("MemoryDescriptor", 8); ("LoadedImage", 8)]%string.
Proof.
  split; [|split; [|split; vm_compute; reflexivity]];
    repeat (apply Forall_cons_2; [apply agrees_compare; [fields_listed|vm_compute; reflexivity]|]);
    apply Forall_nil_2.
Qed.

(** The offsets that the methods and accessors of this development use are
    those of Go's layouts: of every entry of the two service tables and of the
    protocols, of the fields of the media of a disk, and of the tables that the
    system table points to. *)
Theorem accessors_read_fields `{Machine} :
  Forall (fun p => Forall (fun name => offset p.2 name = offset_of p.1 name) p.1) tables /\
  Forall (fun p => Forall (fun name => offset p.2 name = poffset p.1 name) p.1) protocols /\
  (forall media,
     MediaId media = on_world (get32 (u64 (media + offset EFI_BLOCK_IO_MEDIA "MediaId"))) /\
     MediaPresent media = media_bool media (offset EFI_BLOCK_IO_MEDIA "MediaPresent") /\
     ReadOnly media = media_bool media (offset EFI_BLOCK_IO_MEDIA "ReadOnly") /\
     BlockSize media = on_world (get32 (u64 (media + offset EFI_BLOCK_IO_MEDIA "BlockSize"))) /\
     LastBlock media = on_world (get64 (u64 (media + offset EFI_BLOCK_IO_MEDIA "LastBlock")))) /\
  (forall st, RuntimeServices st = on_world (get64 (u64 (st + offset EFI_SYSTEM_TABLE "RuntimeServices")))) /\
  (forall g, systemTable g <> 0 ->
     BS g = on_world (get64 (u64 (systemTable g + offset EFI_SYSTEM_TABLE "BootServices")))).
Proof.
  split; [apply (bool_decide_unpack _); vm_compute; exact I|].
  split; [apply (bool_decide_unpack _); vm_compute; exact I|].
  split; [intros media; by repeat split|]. split; [done|].
  intros g Hg. unfold BS. by rewrite (proj2 (Z.eqb_neq _ _) Hg).
Qed.

Lemma structs_sound_witness :
  (alignof EFI_BLOCK_IO_MEDIA | sizeof EFI_BLOCK_IO_MEDIA) /\ sizeof EFI_BLOCK_IO_MEDIA = 32.
Proof.
  split; [|vm_compute; reflexivity].
  refine (proj1 (structs_sound "EFI_BLOCK_IO_MEDIA" _ _)).
  by apply (list_elem_of_lookup_2 _ 27).
Defined.

Lemma accessors_read_fields_witness :
  BS (H := machine_with unit (fun _ _ m s => (0, m, s))) (mkPackage 0x1000 0 (fun _ => 0)) =
  on_world (get64 (u64 (0x1000 + offset EFI_SYSTEM_TABLE "BootServices"))).
Proof.
  exact (proj2 (proj2 (proj2 (proj2 (accessors_read_fields
    (H := machine_with unit (fun _ _ m s => (0, m, s))))))) (mkPackage 0x1000 0 (fun _ => 0)) ltac:(discriminate)).
Defined.
