(* ===== verification/Constants.v ===== *)
(** * Constants: what pkg/uefi and pkg/ueficore both declare

    The GUID variables of pkg/uefi that Handles does not need, the revisions of
    uefi_spec.go and the memory types, against the constants of ueficore.  The
    two packages write a GUID differently: ueficore as text that [Bytes] turns
    into memory order, pkg/uefi as a struct whose memory the firmware sees. *)

From S2P Require Import Prelude Binary Machine Guid Tables Boot SpecTables FileSys Handles.
From stdpp Require Import pretty sorting.
Open Scope Z_scope.

(** ** GUIDs *)

Module Spec.
Definition EFI_FILE_INFO_ID : EFI_GUID :=
  mkGuid 0x09576e92 0x6d3f 0x11d2 [0x8e; 0x39; 0x00; 0xa0; 0xc9; 0x69; 0x72; 0x3b].
Definition EFI_FILE_SYSTEM_INFO_ID : EFI_GUID :=
  mkGuid 0x09576e93 0x6d3f 0x11d2 [0x8e; 0x39; 0x00; 0xa0; 0xc9; 0x69; 0x72; 0x3b].
Definition EFI_FILE_SYSTEM_VOLUME_LABEL_ID : EFI_GUID :=
  mkGuid 0xdb47d7d3 0xfe81 0x11d3 [0x9a; 0x35; 0x00; 0x90; 0x27; 0x3f; 0xc1; 0x4d].
Definition EFI_DEVICE_PATH_PROTOCOL_GUID : EFI_GUID :=
  mkGuid 0x9576e91 0x6d3f 0x11d2 [0x8e; 0x39; 0x0; 0xa0; 0xc9; 0x69; 0x72; 0x3b].
Definition EFI_LOADED_IMAGE_GUID : EFI_GUID :=
  mkGuid 0x5B1B31A1 0x9562 0x11d2 [0x8E; 0x3F; 0x00; 0xA0; 0xC9; 0x69; 0x72; 0x3B].
Definition EnvVendor : EFI_GUID :=
  mkGuid 0xaabc54d8 0x7b8e 0x5680 [0x9f; 0x6c; 0x68; 0xda; 0x0d; 0xbb; 0xcd; 0xbf].

Definition MPS_TABLE_GUID : EFI_GUID :=
  mkGuid 0xeb9d2d2f 0x2d88 0x11d3 [0x9a; 0x16; 0x00; 0x90; 0x27; 0x3f; 0xc1; 0x4d].
Definition ACPI_TABLE_GUID : EFI_GUID :=
  mkGuid 0xeb9d2d30 0x2d88 0x11d3 [0x9a; 0x16; 0x00; 0x90; 0x27; 0x3f; 0xc1; 0x4d].
Definition ACPI_20_TABLE_GUID : EFI_GUID :=
  mkGuid 0x8868e871 0xe4f1 0x11d3 [0xbc; 0x22; 0x00; 0x80; 0xc7; 0x3c; 0x88; 0x81].
Definition SMBIOS_TABLE_GUID : EFI_GUID :=
  mkGuid 0xeb9d2d31 0x2d88 0x11d3 [0x9a; 0x16; 0x00; 0x90; 0x27; 0x3f; 0xc1; 0x4d].
Definition SMBIOS3_TABLE_GUID : EFI_GUID :=
  mkGuid 0xf2fd1544 0x9794 0x4a2c [0x99; 0x2e; 0xe5; 0xbb; 0xcf; 0x20; 0xe3; 0x94].
Definition SAL_SYSTEM_TABLE_GUID : EFI_GUID :=
  mkGuid 0xeb9d2d32 0x2d88 0x11d3 [0x9a; 0x16; 0x00; 0x90; 0x27; 0x3f; 0xc1; 0x4d].
Definition EFI_DTB_TABLE_GUID : EFI_GUID :=
  mkGuid 0xb1b621d5 0xf19c 0x41a5 [0x83; 0x0b; 0xd9; 0x15; 0x2c; 0x69; 0xaa; 0xe0].
End Spec.

(** The GUIDs that both packages have, as ueficore's text and pkg/uefi's
    struct. *)
Definition both : list (gostring * EFI_GUID) :=
  [ (Boot.EFI_GRAPHICS_OUTPUT_PROTOCOL_GUID, guid_value GraphicsOutputProtocolGUID);
    (FileSys.EFI_FILE_INFO_ID, Spec.EFI_FILE_INFO_ID);
    (FileSys.EFI_LOADED_IMAGE_PROTOCOL_GUID, guid_value EFI_LOADED_IMAGE_PROTOCOL_GUID);
    (FileSys.EFI_LOADED_IMAGE_PROTOCOL_GUID, Spec.EFI_LOADED_IMAGE_GUID);
    (FileSys.EFI_LOADED_IMAGE_DEVICE_PATH_PROTOCOL_GUID, Spec.EFI_DEVICE_PATH_PROTOCOL_GUID);
    (FileSys.EFI_SIMPLE_FILE_SYSTEM_PROTOCOL_GUID, guid_value EFI_SIMPLE_FILE_SYSTEM_PROTOCOL_GUID) ].

(** Every GUID of pkg/uefi and efiload, the loaded image's once. *)
Definition all_guids : list EFI_GUID :=
  map guid_value
    [ EFI_SIMPLE_FILE_SYSTEM_PROTOCOL_GUID; EFI_DISK_IO_PROTOCOL_GUID; EFI_BLOCK_IO_PROTOCOL_GUID;
      EFI_SERIAL_IO_PROTOCOL_GUID; EFI_SIMPLE_NETWORK_PROTOCOL_GUID;
      EFI_DHCP4_SERVICE_BINDING_PROTOCOL_GUID; EFI_DHCP4_PROTOCOL_GUID; GraphicsOutputProtocolGUID;
      SimpleTextInputExProtocolGUID; EFI_LOADED_IMAGE_PROTOCOL_GUID ] ++
  [ Spec.EFI_FILE_INFO_ID; Spec.EFI_FILE_SYSTEM_INFO_ID; Spec.EFI_FILE_SYSTEM_VOLUME_LABEL_ID;
    Spec.EFI_DEVICE_PATH_PROTOCOL_GUID; Spec.EnvVendor; Spec.MPS_TABLE_GUID; Spec.ACPI_TABLE_GUID;
    Spec.ACPI_20_TABLE_GUID; Spec.SMBIOS_TABLE_GUID; Spec.SMBIOS3_TABLE_GUID;
    Spec.SAL_SYSTEM_TABLE_GUID; Spec.EFI_DTB_TABLE_GUID ].

(** ** Revisions *)

Definition EFI_SPECIFICATION_REVISION_MAJORMINOR (major minor : Z) : Z :=
  Z.lor (u32 (Z.shiftl major 16)) minor.

Definition EFI_SPECIFICATION_MAJOR_REVISION : Z := 1.
Definition EFI_SPECIFICATION_MINOR_REVISION : Z := 2.
Definition EFI_SPECIFICATION_VERSION : Z :=
  EFI_SPECIFICATION_REVISION_MAJORMINOR EFI_SPECIFICATION_MAJOR_REVISION EFI_SPECIFICATION_MINOR_REVISION.

(** The EFI1_02_SYSTEM_TABLE_REVISION to EFI2_100_SYSTEM_TABLE_REVISION
    variables; the service tables have the same ones. *)
Definition SYSTEM_TABLE_REVISIONS : list Z :=
  map (fun '(major, minor) => EFI_SPECIFICATION_REVISION_MAJORMINOR major minor)
    [ (1, 2); (1, 10); (2, 0); (2, 10); (2, 20); (2, 30); (2, 31); (2, 40); (2, 50); (2, 60); (2, 70);
      (2, 80); (2, 90); (2, 100) ].

(** ** Memory types *)

(** EFI_MEMORY_TYPE of uefi_spec.go counts from 0 in this order. *)
Definition EFI_MEMORY_TYPE : list string :=
  [ "EfiReservedMemoryType"; "EfiLoaderCode"; "EfiLoaderData"; "EfiBootServicesCode";
    "EfiBootServicesData"; "EfiRuntimeServicesCode"; "EfiRuntimeServicesData";
    "EfiConventionalMemory"; "EfiUnusableMemory"; "EfiACPIReclaimMemory"; "EfiACPIMemoryNVS";
    "EfiMemoryMappedIO"; "EfiMemoryMappedIOPortSpace"; "EfiPalCode"; "EfiPersistentMemory";
    "EfiUnacceptedMemoryType"; "EfiMaxMemoryType" ]%string.

Definition memory_type (name : string) : Z := index name EFI_MEMORY_TYPE.

(** ** Agreement *)

Lemma majorminor_parts major minor : is_word 16 major -> is_word 16 minor ->
  let r := EFI_SPECIFICATION_REVISION_MAJORMINOR major minor in
  r = major * 2 ^ 16 + minor /\ is_word 32 r /\ Z.shiftr r 16 = major /\ Z.land r 0xffff = minor.
Proof.
  intros Hma Hmi r. assert (r = major * 2 ^ 16 + minor) as E.
  { unfold r, EFI_SPECIFICATION_REVISION_MAJORMINOR, is_word in *.
    rewrite (wrap_small 32) by (rewrite Z.shiftl_mul_pow2 by lia; unfold is_word; lia).
    by apply lor_shifted. }
  rewrite E. clear r E. unfold is_word in *. split; [done|]. split; [lia|]. split.
  - rewrite Z.shiftr_div_pow2 by lia. symmetry. apply (Z.div_unique _ _ _ minor); lia.
  - change 0xffff with (Z.ones 16). rewrite Z.land_ones by lia. symmetry.
    apply (Z.mod_unique _ _ major); lia.
Qed.

(** The packages agree on the GUIDs that both have: the bytes that [Bytes]
    makes of ueficore's text are those of pkg/uefi's struct in memory.  No two of
    the GUIDs of pkg/uefi have the same bytes, so no lookup finds another's
    interface, and each is read back from its registry format, as the
    configuration table prints it.  The memory types that the E820 conversion
    and the heap use have the numbers of pkg/uefi's enumeration. *)
Theorem constants_agree :
  Forall (fun p => Bytes p.1 = guid_bytes p.2) both /\
  NoDup (map guid_bytes all_guids) /\
  Forall (fun g => Bytes (RegistryFormat (guid_bytes g)) = guid_bytes g) all_guids /\
  Forall (fun p => p.1 = memory_type p.2)
    [ (EfiLoaderCode, "EfiLoaderCode"); (EfiLoaderData, "EfiLoaderData");
      (EfiBootServicesCode, "EfiBootServicesCode"); (EfiBootServicesData, "EfiBootServicesData");
      (EfiConventionalMemory, "EfiConventionalMemory"); (EfiACPIReclaimMemory, "EfiACPIReclaimMemory");
      (EfiACPIMemoryNVS, "EfiACPIMemoryNVS"); (EfiPersistentMemory, "EfiPersistentMemory") ]%string.
Proof.
  split_and!; apply (bool_decide_unpack _); vm_compute; exact I.
Qed.

(** [Revision] prints the two numbers that MAJORMINOR was given, for all of
    them, so different pairs have different revisions; and those that pkg/uefi
    declares increase. *)
Theorem Revision_majorminor (d : SystemTable.t) major minor :
  is_word 16 major -> is_word 16 minor ->
  TableHeader.Revision (SystemTable.Header d) = EFI_SPECIFICATION_REVISION_MAJORMINOR major minor ->
  Revision d = (pretty major +:+ "." +:+ pretty minor)%string /\
  (forall major' minor', is_word 16 major' -> is_word 16 minor' ->
    EFI_SPECIFICATION_REVISION_MAJORMINOR major' minor' =
    EFI_SPECIFICATION_REVISION_MAJORMINOR major minor -> major' = major /\ minor' = minor) /\
  Sorted Z.lt SYSTEM_TABLE_REVISIONS.
Proof.
  intros Hma Hmi E. destruct (majorminor_parts _ _ Hma Hmi) as (_ & _ & Hhigh & Hlow).
  split; [unfold Revision; by rewrite E, Hhigh, Hlow|]. split.
  - intros major' minor' Hma' Hmi' E'. destruct (majorminor_parts _ _ Hma' Hmi') as (_ & _ & Hhigh' & Hlow').
    by rewrite E', Hhigh in Hhigh'; rewrite E', Hlow in Hlow'.
  - repeat constructor.
Qed.

Lemma Revision_majorminor_witness :
  Revision (SystemTable.mk (TableHeader.mk signature 0x2001f 120 0 0) 0 0 0 0 0 0 0 0 0 0 0 0) = "2.31"%string.
Proof.
  apply (Revision_majorminor _ 2 31); [unfold is_word; lia|unfold is_word; lia|vm_compute; reflexivity].
Defined.
