(* ===== verification/Flags.v ===== *)
(** * Flags: the enumerations and bit masks

    The constant blocks of pkg/uefi, ueficore and device/x86, a Definition per
    block, in the order of the source.  A block that the source writes with
    [iota] is written with [iota] here.  The theorems say what client code
    relies on: the flags of a mask can be set, cleared and tested one by one, the
    enumerations count as the firmware counts, and where the two packages, or a
    file of this development, have the same constant, they have the same value. *)

From S2P Require Import Prelude Binary Machine Guid Boot FileSys Handles Serial Ticks Constants.
From stdpp Require Import sorting.
Open Scope string_scope.
Open Scope Z_scope.

(** The underlying types of the constants: [int], which has 64 bits, and the
    unsigned types by their width. *)
Inductive ctype := Int | Uint (w : Z).

Definition fits (t : ctype) (v : Z) : Prop :=
  match t with Int => - 2 ^ 63 <= v < 2 ^ 63 | Uint w => is_word w v end.

(** A constant; the type is [None] for an untyped one, which takes the type of
    its use. *)
Record const := mkConst { c_name : string; c_type : option ctype; c_value : Z }.

Definition typed (t : ctype) (l : list (string * Z)) : list const :=
  map (fun '(n, v) => mkConst n (Some t) v) l.

Definition untyped (l : list (string * Z)) : list const :=
  map (fun '(n, v) => mkConst n None v) l.

(** Go's [iota], from a first value. *)
Definition iota (from : Z) (names : list string) : list (string * Z) :=
  imap (fun i n => (n, from + Z.of_nat i)) names.

(** The value of a constant of a block. *)
Definition value (l : list const) (name : string) : option Z :=
  c_value <$> find (fun c => bool_decide (c_name c = name)) l.

(** ** uefi_spec.go *)

Definition EFI_ALLOCATE_TYPE : list const :=
  typed Int (iota 0 ["AllocateAnyPages"; "AllocateMaxAddress"; "AllocateAddress"; "MaxAllocateType"]).

Definition memory_cacheability : list const := typed (Uint 64)
  [ ("EFI_MEMORY_UC", 0x0000000000000001); ("EFI_MEMORY_WC", 0x0000000000000002);
    ("EFI_MEMORY_WT", 0x0000000000000004); ("EFI_MEMORY_WB", 0x0000000000000008);
    ("EFI_MEMORY_UCE", 0x0000000000000010) ].

Definition memory_protection : list const := typed (Uint 64)
  [ ("EFI_MEMORY_WP", 0x0000000000001000); ("EFI_MEMORY_RP", 0x0000000000002000);
    ("EFI_MEMORY_XP", 0x0000000000004000); ("EFI_MEMORY_RO", 0x0000000000020000) ].

Definition memory_runtime : list const := typed (Uint 64)
  [ ("EFI_MEMORY_NV", 0x0000000000008000); ("EFI_MEMORY_RUNTIME", 0x8000000000000000) ].

Definition memory_other : list const := typed (Uint 64)
  [ ("EFI_MEMORY_MORE_RELIABLE", 0x0000000000010000); ("EFI_MEMORY_SP", 0x0000000000040000);
    ("EFI_MEMORY_CPU_CRYPTO", 0x0000000000080000); ("EFI_MEMORY_ISA_VALID", 0x4000000000000000);
    ("EFI_MEMORY_ISA_MASK", 0x0FFFF00000000000) ].

Definition EFI_MEMORY_DESCRIPTOR_VERSION : Z := 1.

Definition variable_attributes : list const :=
  typed (Uint 32) [ ("EFI_VARIABLE_NON_VOLATILE", 0x00000001) ] ++
  untyped [ ("EFI_VARIABLE_BOOTSERVICE_ACCESS", 0x00000002);
            ("EFI_VARIABLE_RUNTIME_ACCESS", 0x00000004) ].

Definition EFI_LOCATE_SEARCH_TYPE : list const :=
  typed Int [ ("AllHandles", 0); ("ByRegisterNotify", 1); ("ByProtocol", 2) ].

Definition EFI_RESET_TYPE : list const :=
  typed Int [ ("EfiResetCold", 0); ("EfiResetWarm", 1); ("EfiResetShutdown", 2) ].

Definition EFI_RUNTIME_SERVICES_SIGNATURE : Z := 0x56524553544e5552.
Definition EFI_BOOT_SERVICES_SIGNATURE : Z := 0x56524553544f4f42.
Definition EFI_SYSTEM_TABLE_SIGNATURE : Z := 0x5453595320494249.

(** The revisions of the runtime services and of the boot services are declared
    with the pairs of those of the system table. *)
Definition revisions (prefix suffix : string) : list (string * Z) :=
  map (fun '(tag, (major, minor)) =>
         ((prefix ++ tag ++ suffix)%string, EFI_SPECIFICATION_REVISION_MAJORMINOR major minor))
    [ ("1_02", (1, 2)); ("1_10", (1, 10)); ("2_00", (2, 0)); ("2_10", (2, 10)); ("2_20", (2, 20));
      ("2_30", (2, 30)); ("2_31", (2, 31)); ("2_40", (2, 40)); ("2_50", (2, 50)); ("2_60", (2, 60));
      ("2_70", (2, 70)); ("2_80", (2, 80)); ("2_90", (2, 90)); ("2_100", (2, 100)) ]%string.

Definition RUNTIME_SERVICES_REVISIONS : list const := typed (Uint 32)
  (revisions "EFI_" "_RUNTIME_SERVICES_REVISION" ++
   [("EFI_RUNTIME_SERVICES_REVISION", EFI_SPECIFICATION_VERSION)]).

Definition BOOT_SERVICES_REVISIONS : list const := typed (Uint 32)
  (revisions "EFI_" "_BOOT_SERVICES_REVISION" ++
   [("EFI_BOOT_SERVICES_REVISION", EFI_SPECIFICATION_VERSION)]).

Definition EVENT_TYPE : list const := typed (Uint 32)
  [ ("EVT_TIMER", 0x80000000); ("EVT_RUNTIME", 0x40000000); ("EVT_RUNTIME_CONTEXT", 0x20000000);
    ("EVT_NOTIFY_WAIT", 0x00000100); ("EVT_NOTIFY_SIGNAL", 0x00000200);
    ("EVT_SIGNAL_EXIT_BOOT_SERVICES", 0x00000201);
    ("EVT_SIGNAL_VIRTUAL_ADDRESS_CHANGE", 0x60000202);
    ("EVT_EFI_SIGNAL_MASK", 0x000000FF); ("EVT_EFI_SIGNAL_MAX", 4) ].

(** The second half of the block: a name each for the values of the first,
    with EFI_EVENT for EVT. *)
Definition EFI_EVENT_aliases : list (string * string) :=
  [ ("EFI_EVENT_TIMER", "EVT_TIMER"); ("EFI_EVENT_RUNTIME", "EVT_RUNTIME");
    ("EFI_EVENT_RUNTIME_CONTEXT", "EVT_RUNTIME_CONTEXT");
    ("EFI_EVENT_NOTIFY_WAIT", "EVT_NOTIFY_WAIT"); ("EFI_EVENT_NOTIFY_SIGNAL", "EVT_NOTIFY_SIGNAL");
    ("EFI_EVENT_SIGNAL_EXIT_BOOT_SERVICES", "EVT_SIGNAL_EXIT_BOOT_SERVICES");
    ("EFI_EVENT_SIGNAL_VIRTUAL_ADDRESS_CHANGE", "EVT_SIGNAL_VIRTUAL_ADDRESS_CHANGE");
    ("EFI_EVENT_EFI_SIGNAL_MASK", "EVT_EFI_SIGNAL_MASK");
    ("EFI_EVENT_EFI_SIGNAL_MAX", "EVT_EFI_SIGNAL_MAX") ]%string.

Definition TPL : list const := typed (Uint 64)
  [ ("TPL_APPLICATION", 4); ("TPL_CALLBACK", 8); ("TPL_NOTIFY", 16); ("TPL_HIGH_LEVEL", 31) ].

Definition EFI_TPL_aliases : list (string * string) :=
  [ ("EFI_TPL_APPLICATION", "TPL_APPLICATION"); ("EFI_TPL_CALLBACK", "TPL_CALLBACK");
    ("EFI_TPL_NOTIFY", "TPL_NOTIFY"); ("EFI_TPL_HIGH_LEVEL", "TPL_HIGH_LEVEL") ]%string.

Definition EFI_TIMER_DELAY : list const :=
  typed Int (iota 0 ["TimerCancel"; "TimerPeriodic"; "TimerRelative"; "TimerTypeMax"]).

Definition EFI_INTERFACE_TYPE : list const :=
  typed (Uint 64) (iota 0 ["EFI_NATIVE_INTERFACE"; "EFI_PCODE_INTERFACE"]).

(** ** The protocol files of pkg/uefi *)

Definition EFI_KEY_TOGGLE_STATE : list const :=
  typed (Uint 8) [ ("EFI_SCROLL_LOCK_ACTIVE", 0x01) ] ++
  untyped [ ("EFI_NUM_LOCK_ACTIVE", 0x02); ("EFI_CAPS_LOCK_ACTIVE", 0x04);
            ("EFI_KEY_STATE_EXPOSED", 0x40); ("EFI_TOGGLE_STATE_VALID", 0x80) ].

Definition key_shift_state : list const := untyped
  [ ("EFI_SHIFT_STATE_VALID", 0x80000000);
    ("EFI_RIGHT_SHIFT_PRESSED", 0x00000001); ("EFI_LEFT_SHIFT_PRESSED", 0x00000002);
    ("EFI_RIGHT_CONTROL_PRESSED", 0x00000004); ("EFI_LEFT_CONTROL_PRESSED", 0x00000008);
    ("EFI_RIGHT_ALT_PRESSED", 0x00000010); ("EFI_LEFT_ALT_PRESSED", 0x00000020);
    ("EFI_RIGHT_LOGO_PRESSED", 0x00000040); ("EFI_LEFT_LOGO_PRESSED", 0x00000080);
    ("EFI_MENU_KEY_PRESSED", 0x00000100); ("EFI_SYS_REQ_PRESSED", 0x00000200) ].

Definition Parity : list const :=
  untyped (iota 0 ["ParityDefault"; "ParityNone"; "ParityEven"; "ParityOdd"; "ParityMark"; "ParitySpace"]).

Definition StopBits : list const :=
  untyped (iota 0 ["StopBitsDefault"; "StopBits1"; "StopBits1_5"; "StopBits2"]).

Definition serial_control : list const := typed (Uint 32)
  [ ("EFI_SERIAL_DATA_TERMINAL_READY", 0x0001); ("EFI_SERIAL_REQUEST_TO_SEND", 0x0002);
    ("EFI_SERIAL_CLEAR_TO_SEND", 0x0010); ("EFI_SERIAL_DATA_SET_READY", 0x0020);
    ("EFI_SERIAL_RING_INDICATE", 0x0040); ("EFI_SERIAL_CARRIER_DETECT", 0x0080);
    ("EFI_SERIAL_INPUT_BUFFER_EMPTY", 0x0100); ("EFI_SERIAL_OUTPUT_BUFFER_EMPTY", 0x0200);
    ("EFI_SERIAL_HARDWARE_LOOPBACK_ENABLE", 0x1000); ("EFI_SERIAL_SOFTWARE_LOOPBACK_ENABLE", 0x2000);
    ("EFI_SERIAL_HARDWARE_FLOW_CONTROL_ENABLE", 0x4000) ].

Definition open_modes : list const := typed (Uint 64)
  [ ("EFI_FILE_MODE_READ", 0x0000000000000001); ("EFI_FILE_MODE_WRITE", 0x0000000000000002);
    ("EFI_FILE_MODE_CREATE", 0x8000000000000000) ].

Definition file_attributes : list const := typed (Uint 64)
  [ ("EFI_FILE_READ_ONLY", 0x0000000000000001); ("EFI_FILE_HIDDEN", 0x0000000000000002);
    ("EFI_FILE_SYSTEM", 0x0000000000000004); ("EFI_FILE_RESERVED", 0x0000000000000008);
    ("EFI_FILE_DIRECTORY", 0x0000000000000010); ("EFI_FILE_ARCHIVE", 0x0000000000000020) ].

Definition file_revisions : list const := untyped
  [ ("EFI_FILE_PROTOCOL_REVISION", 0x00010000); ("EFI_FILE_PROTOCOL_REVISION2", 0x00020000);
    ("EFI_FILE_PROTOCOL_LATEST", 0x00020000) ].

Definition pixel_formats : list const :=
  untyped (iota 0 ["PixelRedGreenBlueReserved8BitPerColor"; "PixelBlueGreenRedReserved8BitPerColor";
                   "PixelBitMask"; "PixelBltOnly"; "PixelFormatMax"]).

Definition EFI_GRAPHICS_OUTPUT_BLT_OPERATION : list const :=
  typed (Uint 32) (iota 0 ["BltVideoFill"; "BltVideoToBltBuffer"; "BltBufferToVideo"; "BltVideoToVideo";
                    "BltOperationMax"]).

Definition network_states : list const := untyped
  [ ("EFI_SIMPLE_NETWORK_STOPPED", 0); ("EFI_SIMPLE_NETWORK_STARTED", 1);
    ("EFI_SIMPLE_NETWORK_INITIALIZED", 2) ].

Definition dhcp4_states : list const :=
  untyped (iota 0 ["Dhcp4Stopped"; "Dhcp4Init"; "Dhcp4Selecting"; "Dhcp4Requesting"; "Dhcp4Bound";
                   "Dhcp4Renewing"; "Dhcp4Rebinding"; "Dhcp4InitReboot"; "Dhcp4Rebooting"]).

Definition dhcp4_events : list const :=
  untyped (iota 1 ["Dhcp4SendDiscover"; "Dhcp4RcvdOffer"; "Dhcp4SelectOffer"; "Dhcp4SendRequest";
                   "Dhcp4RcvdAck"; "Dhcp4RcvdNak"; "Dhcp4SendDecline"; "Dhcp4BoundCompleted";
                   "Dhcp4EnterRenewing"; "Dhcp4EnterRebinding"; "Dhcp4AddressLost"; "Dhcp4Fail"]).

(** ** device/x86/cpu.go *)

Definition CpuExtendedFamily : list const := typed (Uint 16)
  [ ("CPU_FAMILY_AMD_11H", 0x11); ("CPU_FAMILY_INTEL_CORE", 6);
    ("CPU_MODEL_NEHALEM", 0x1e); ("CPU_MODEL_NEHALEM_EP", 0x1a); ("CPU_MODEL_NEHALEM_EX", 0x2e);
    ("CPU_MODEL_WESTMERE", 0x25); ("CPU_MODEL_WESTMERE_EP", 0x2c); ("CPU_MODEL_WESTMERE_EX", 0x2f);
    ("CPU_MODEL_SANDYBRIDGE", 0x2a); ("CPU_MODEL_SANDYBRIDGE_EP", 0x2d);
    ("CPU_MODEL_IVYBRIDGE_EP", 0x3a); ("CPU_MODEL_HASWELL_E3", 0x3c); ("CPU_MODEL_HASWELL_E7", 0x3f);
    ("CPU_MODEL_BROADWELL", 0x3d) ].

(** ** ueficore *)

Module Core.
Definition text_attributes : list const := untyped
  [ ("EFI_BLACK", 0x00); ("EFI_BLUE", 0x01); ("EFI_GREEN", 0x02); ("EFI_CYAN", 0x03);
    ("EFI_RED", 0x04); ("EFI_MAGENTA", 0x05); ("EFI_BROWN", 0x06); ("EFI_LIGHTGRAY", 0x07);
    ("EFI_BRIGHT", 0x08); ("EFI_DARKGRAY", 0x08); ("EFI_LIGHTBLUE", 0x09); ("EFI_LIGHTGREEN", 0x0a);
    ("EFI_LIGHTCYAN", 0x0b); ("EFI_LIGHTRED", 0x0c); ("EFI_LIGHTMAGENTA", 0x0d);
    ("EFI_YELLOW", 0x0e); ("EFI_WHITE", 0x0f) ].

Definition blt_operations : list const :=
  untyped (iota 0 ["EfiBltVideoFill"; "EfiBltVideoToBltBuffer"; "EfiBltBufferToVideo";
                   "EfiBltVideoToVideo"; "EfiGraphicsOutputBltOperationMax"]).

Definition reset_types : list const :=
  untyped (iota 0 ["EfiResetCold"; "EfiResetWarm"; "EfiResetShutdown"; "EfiResetPlatformSpecific"]).

Definition open_modes : list const := untyped
  [ ("EFI_FILE_MODE_READ", 0x0000000000000001); ("EFI_FILE_MODE_WRITE", 0x0000000000000002);
    ("EFI_FILE_MODE_CREATE", 0x8000000000000000) ].
End Core.

(** ** Masks *)

(** The flags of a set, as the source writes them: one or after the other. *)
Definition mask (s : list Z) : Z := foldr Z.lor 0 s.

Definition values (l : list const) : list Z := map c_value l.

(** The blocks whose constants are combined, with the width of the field that
    holds the combination. *)
Definition mask_blocks : list (Z * list Z) :=
  [ (64, values (memory_cacheability ++ memory_protection ++ memory_runtime ++ take 4 memory_other));
    (32, values variable_attributes); (32, values (take 5 EVENT_TYPE));
    (8, values EFI_KEY_TOGGLE_STATE); (32, values key_shift_state); (32, values serial_control);
    (64, values open_modes); (64, values file_attributes); (64, values Core.open_modes) ].

(** A flag is one bit. *)
Definition one_bit (f : Z) : bool := (0 <? f) && (f =? 2 ^ Z.log2 f).

Lemma one_bit_testbit f k : one_bit f = true -> 0 <= k -> Z.testbit f k = (k =? Z.log2 f).
Proof.
  unfold one_bit. rewrite andb_true_iff, Z.ltb_lt, Z.eqb_eq. intros [Hf E] Hk.
  rewrite E at 1. rewrite Z.pow2_bits_eqb by apply Z.log2_nonneg. apply Z.eqb_sym.
Qed.

Lemma one_bit_inj f g : one_bit f = true -> one_bit g = true -> Z.log2 f = Z.log2 g -> f = g.
Proof.
  unfold one_bit. rewrite !andb_true_iff, !Z.ltb_lt, !Z.eqb_eq. intros [_ E1] [_ E2] E. by rewrite E1, E2, E.
Qed.

Section Mask.
Context (fs : list Z) (Hfs : Forall (fun f => one_bit f = true) fs).
Implicit Types s : list Z.

Lemma mask_testbit s f : s ⊆ fs -> f ∈ fs -> Z.testbit (mask s) (Z.log2 f) = bool_decide (f ∈ s).
Proof using Hfs.
  intros Hs Hf. rewrite Forall_forall in Hfs. induction s as [|g s IH]; cbn [mask foldr].
  - by rewrite Z.testbit_0_l, bool_decide_eq_false_2 by apply not_elem_of_nil.
  - apply list_subseteq_cons_iff in Hs as [Hg Hs]; fold (mask s). rewrite Z.lor_spec, IH by done.
    rewrite one_bit_testbit by auto using Z.log2_nonneg.
    rewrite (bool_decide_ext (f ∈ g :: s) (f = g \/ f ∈ s)) by apply elem_of_cons.
    rewrite bool_decide_or. f_equal. apply eq_bool_prop_intro. rewrite !Is_true_true.
    rewrite Z.eqb_eq, bool_decide_eq_true. split; [|by intros ->]. by apply one_bit_inj; auto.
Qed.

Lemma mask_testbit_other s k : s ⊆ fs -> 0 <= k -> Z.testbit (mask s) k = true ->
  exists f, f ∈ s /\ k = Z.log2 f.
Proof using Hfs.
  intros Hs Hk. rewrite Forall_forall in Hfs. induction s as [|g s IH]; cbn [mask foldr].
  - by rewrite Z.testbit_0_l.
  - apply list_subseteq_cons_iff in Hs as [Hg Hs]; fold (mask s). rewrite Z.lor_spec, orb_true_iff.
    rewrite one_bit_testbit, Z.eqb_eq by auto. intros [->|Hb].
    + exists g. split; [left|done].
    + destruct (IH Hs Hb) as (f & Hf & ->). exists f. split; [by right|done].
Qed.

Lemma mask_test s f : s ⊆ fs -> f ∈ fs -> Z.land (mask s) f <> 0 <-> f ∈ s.
Proof using Hfs.
  intros Hs Hf. assert (one_bit f = true) as H1 by (by rewrite Forall_forall in Hfs; auto).
  assert (f ∈ s <-> Z.testbit (Z.land (mask s) f) (Z.log2 f) = true) as ->.
  { rewrite Z.land_spec, mask_testbit, one_bit_testbit, Z.eqb_refl by auto using Z.log2_nonneg.
    by rewrite andb_true_r, bool_decide_eq_true. }
  split; [|intros H0 E; by rewrite E, Z.testbit_0_l in H0].
  intros Hne. destruct (Z.testbit _ _) eqn:E; [done|]. destruct Hne. apply Z.bits_inj'. intros k Hk.
  rewrite Z.testbit_0_l. rewrite Z.land_spec in *. rewrite (one_bit_testbit f) in E |- * by auto using Z.log2_nonneg.
  destruct (Z.eqb_spec k (Z.log2 f)) as [->|]; [by rewrite Z.eqb_refl in E|apply andb_false_r].
Qed.

Lemma mask_clear s f : s ⊆ fs -> f ∈ fs -> Z.ldiff (mask s) f = mask (filter (fun g => g <> f) s).
Proof using Hfs.
  intros Hs Hf. assert (one_bit f = true) as H1 by (by rewrite Forall_forall in Hfs; auto).
  induction s as [|g s IH]; [apply Z.ldiff_0_l|]. apply list_subseteq_cons_iff in Hs as [Hg Hs].
  assert (one_bit g = true) as H2 by (by rewrite Forall_forall in Hfs; auto).
  cbn [mask foldr]. fold (mask s). rewrite filter_cons.
  assert (Z.ldiff (Z.lor g (mask s)) f = Z.lor (Z.ldiff g f) (Z.ldiff (mask s) f)) as ->.
  { apply Z.bits_inj. intros k. rewrite Z.lor_spec, !Z.ldiff_spec, Z.lor_spec. by destruct (Z.testbit f k), (Z.testbit g k), (Z.testbit (mask s) k). }
  rewrite (IH Hs). destruct (decide (g <> f)) as [Hne|He].
  - cbn [mask foldr]. f_equal. apply Z.bits_inj'. intros k Hk.
    rewrite Z.ldiff_spec, !one_bit_testbit by done. destruct (Z.eqb_spec k (Z.log2 g)) as [->|]; [|done].
    cbn. destruct (Z.eqb_spec (Z.log2 g) (Z.log2 f)) as [E|]; [|done]. destruct Hne. by apply one_bit_inj.
  - apply dec_stable in He as ->. by rewrite Z.ldiff_diag.
Qed.

Lemma mask_is_word w s : 0 <= w -> Forall (is_word w) s -> is_word w (mask s).
Proof using.
  clear Hfs. intros Hw. induction 1; cbn [mask foldr]; [|by apply is_word_lor].
  unfold is_word. split; [done|]. by apply Z.pow_pos_nonneg.
Qed.
End Mask.

#[export] Instance fits_dec t v : Decision (fits t v).
Proof. destruct t; cbn [fits]; apply _. Defined.

Definition well_typed (c : const) : Prop :=
  match c_type c with Some t => fits t (c_value c) | None => True end.

#[export] Instance well_typed_dec c : Decision (well_typed c).
Proof. unfold well_typed. destruct (c_type c); apply _. Defined.

(** Whatever the width of the field: all flags fit it and are single bits. *)
Lemma mask_blocks_flags :
  Forall (fun b => 0 <= b.1 /\ Forall (is_word b.1) b.2 /\ Forall (fun f => one_bit f = true) b.2) mask_blocks.
Proof. apply (bool_decide_unpack _). vm_compute. exact I. Qed.

(** For every block of flags, and every set of its flags combined with
    bitwise or: the combination fits the field that holds it; testing a flag as the code does,
    [bits & flag != 0], says whether it is in the set; [bits | flag] adds it and
    [bits &^ flag] takes it out, and neither changes any other; so a combination
    has exactly one set of flags. *)
Theorem flags_exact w fs s : (w, fs) ∈ mask_blocks -> s ⊆ fs ->
  is_word w (mask s) /\
  (forall f, f ∈ fs -> (Z.land (mask s) f <> 0 <-> f ∈ s) /\
    Z.lor (mask s) f = mask (f :: s) /\ Z.ldiff (mask s) f = mask (filter (fun g => g <> f) s)) /\
  (forall s', s' ⊆ fs -> mask s' = mask s -> forall f, f ∈ s' <-> f ∈ s).
Proof.
  intros Hb Hs. pose proof mask_blocks_flags as Hall. rewrite Forall_forall in Hall.
  destruct (Hall _ Hb) as (Hw & Hwords & Hbits). cbn [fst snd] in *. clear Hall Hb.
  split; [|split].
  - apply mask_is_word; [done|]. rewrite Forall_forall in Hwords |- *. auto.
  - intros f Hf. split; [by eapply mask_test|]. split; [|by eapply mask_clear].
    apply Z.lor_comm.
  - intros s' Hs' E f. split; intros Hf.
    + apply (mask_test fs Hbits s); [done|by apply Hs'|]. rewrite <-E. by apply (mask_test fs Hbits); auto.
    + apply (mask_test fs Hbits s'); [done|by apply Hs|]. rewrite E. by apply (mask_test fs Hbits); auto.
Qed.

Lemma flags_exact_witness :
  Z.land (mask [EFI_SERIAL_REQUEST_TO_SEND; EFI_SERIAL_CLEAR_TO_SEND]) EFI_SERIAL_CLEAR_TO_SEND <> 0.
Proof.
  apply (flags_exact 32 (values serial_control) [EFI_SERIAL_REQUEST_TO_SEND; EFI_SERIAL_CLEAR_TO_SEND]);
    [| | |by right; left]; apply (bool_decide_unpack _); vm_compute; exact I.
Defined.

(** ** Agreement *)

(** The constants that the operations of the other files use, with the block
    that declares them. *)
Definition used : list (Z * option Z) :=
  [ (AllocateAddress, value EFI_ALLOCATE_TYPE "AllocateAddress");
    (ByProtocol, value EFI_LOCATE_SEARCH_TYPE "ByProtocol");
    (EfiResetCold, value EFI_RESET_TYPE "EfiResetCold");
    (EfiResetCold, value Core.reset_types "EfiResetCold");
    (EfiResetShutdown, value EFI_RESET_TYPE "EfiResetShutdown");
    (EfiResetShutdown, value Core.reset_types "EfiResetShutdown");
    (EVT_TIMER, value EVENT_TYPE "EVT_TIMER"); (TPL_CALLBACK, value TPL "TPL_CALLBACK");
    (TimerPeriodic, value EFI_TIMER_DELAY "TimerPeriodic");
    (ParityNone, value Parity "ParityNone"); (StopBits1, value StopBits "StopBits1");
    (EFI_SERIAL_DATA_TERMINAL_READY, value serial_control "EFI_SERIAL_DATA_TERMINAL_READY");
    (EFI_SERIAL_REQUEST_TO_SEND, value serial_control "EFI_SERIAL_REQUEST_TO_SEND");
    (EFI_SERIAL_CLEAR_TO_SEND, value serial_control "EFI_SERIAL_CLEAR_TO_SEND");
    (EFI_FILE_MODE_READ, value open_modes "EFI_FILE_MODE_READ");
    (EFI_FILE_DIRECTORY, value file_attributes "EFI_FILE_DIRECTORY");
    (EFI_FILE_PROTOCOL_REVISION, value file_revisions "EFI_FILE_PROTOCOL_REVISION");
    (EFI_FILE_PROTOCOL_REVISION2, value file_revisions "EFI_FILE_PROTOCOL_REVISION2") ].

(** Every block with a type of its own. *)
Definition typed_blocks : list const :=
  EFI_ALLOCATE_TYPE ++ memory_cacheability ++ memory_protection ++ memory_runtime ++ memory_other ++
  variable_attributes ++ EFI_LOCATE_SEARCH_TYPE ++ EFI_RESET_TYPE ++ RUNTIME_SERVICES_REVISIONS ++
  BOOT_SERVICES_REVISIONS ++ EVENT_TYPE ++ TPL ++ EFI_TIMER_DELAY ++ EFI_INTERFACE_TYPE ++
  EFI_KEY_TOGGLE_STATE ++ serial_control ++ open_modes ++ file_attributes ++
  EFI_GRAPHICS_OUTPUT_BLT_OPERATION ++ CpuExtendedFamily.

(** The colours with their bright forms. *)
Definition bright_forms : list (string * string) :=
  [ ("EFI_BLACK", "EFI_DARKGRAY"); ("EFI_BLUE", "EFI_LIGHTBLUE"); ("EFI_GREEN", "EFI_LIGHTGREEN");
    ("EFI_CYAN", "EFI_LIGHTCYAN"); ("EFI_RED", "EFI_LIGHTRED"); ("EFI_MAGENTA", "EFI_LIGHTMAGENTA");
    ("EFI_BROWN", "EFI_YELLOW"); ("EFI_LIGHTGRAY", "EFI_WHITE") ].

(** The constants fit together: each fits its type; the ones the operations use are
    those declared, in both packages; Blt and ResetSystem number their operations
    alike in both; the signatures are the eight letters of the specification, and
    the one [Init] compares is the system table's; the three tables have the same
    revisions; a bright colour is the colour with EFI_BRIGHT; the ISA mask has no
    bit of a memory attribute; the priorities increase up to the five bits of
    TPL_HIGH_LEVEL. *)
Theorem constants_consistent :
  Forall well_typed typed_blocks /\
  Forall (fun p => Some p.1 = p.2) used /\
  values Core.blt_operations = values EFI_GRAPHICS_OUTPUT_BLT_OPERATION /\
  take 3 (values Core.reset_types) = values EFI_RESET_TYPE /\
  values Core.open_modes = values open_modes /\
  le_enc 8 EFI_SYSTEM_TABLE_SIGNATURE = bytes_of_string "IBI SYST" /\
  le_enc 8 EFI_BOOT_SERVICES_SIGNATURE = bytes_of_string "BOOTSERV" /\
  le_enc 8 EFI_RUNTIME_SERVICES_SIGNATURE = bytes_of_string "RUNTSERV" /\
  EFI_SYSTEM_TABLE_SIGNATURE = signature /\
  values BOOT_SERVICES_REVISIONS = (SYSTEM_TABLE_REVISIONS ++ [EFI_SPECIFICATION_VERSION])%list /\
  values RUNTIME_SERVICES_REVISIONS = values BOOT_SERVICES_REVISIONS /\
  Forall (fun p => (c ← value Core.text_attributes p.1; Z.lor c <$> value Core.text_attributes "EFI_BRIGHT") =
                   value Core.text_attributes p.2) bright_forms /\
  Forall (fun f => Z.land f <$> value memory_other "EFI_MEMORY_ISA_MASK" = Some 0)
    (concat (map snd (take 1 mask_blocks))) /\
  Sorted Z.lt (values TPL).
Proof. split_and!; try reflexivity; try (apply (bool_decide_unpack _); vm_compute; exact I).
Qed.
