(* ===== verification/ModTime.v ===== *)
(** * ModTime: the modification time of a file

    [FileInfo.ModTime] of file.go, which hands the fields of [efiTime] to
    [time.Date] of Go's standard library with the time zone as a fixed offset.
    [time.Date] is modelled as package time defines it; its calendar functions
    are the ones that uefi/clock.go copies, so they are those of Clock. *)

From S2P Require Import Prelude Binary Tables Machine FileSys Clock.
Import Calendar.

(** A [time.Time]: seconds since 1970 in UTC, nanoseconds, and the offset of its
    location east of UTC. *)
Record gotime := mkTime { t_unix : Z; t_nsec : Z; t_offset : Z }.

(** [norm] of package time: [hi * base + lo] with [lo] brought into
    [0, base). *)
Definition norm (hi lo base : Z) : Z * Z :=
  let '(hi, lo) :=
    if lo <? 0 then let n := Z.quot (- lo - 1) base + 1 in (hi - n, lo + n * base) else (hi, lo) in
  if base <=? lo then let n := Z.quot lo base in (hi + n, lo - n * base) else (hi, lo).

(** [time.Date(year, month, day, hour, min, sec, nsec, time.FixedZone(_, offset))]. *)
Definition Date (year month day hour min sec nsec offset : Z) : outcome gotime :=
  let '(year, m) := norm year (month - 1) 12 in
  let month := m + 1 in
  let '(sec, nsec) := norm sec nsec 1000000000 in
  let '(min, sec) := norm min sec 60 in
  let '(hour, min) := norm hour min 60 in
  let '(day, hour) := norm day hour 24 in
  let d := daysSinceEpoch year in
  before ← daysBefore_at (month - 1);
  let d := u64 (d + u64 before) in
  let d := if isLeap year && (3 <=? month) then u64 (d + 1) else d in
  let d := u64 (d + u64 (day - 1)) in
  let abs := u64 (d * secondsPerDay) in
  let abs := u64 (abs + u64 (hour * secondsPerHour + min * secondsPerMinute + sec)) in
  let unix := i64 (i64 abs + (absoluteToInternal + internalToUnix)) in
  Ret (mkTime (i64 (unix - offset)) (i32 nsec) offset).

(** [ModTime]; [int(m.TimeZone)] is the offset of the zone in seconds. *)
Definition ModTime (fi : FileInfo) : outcome gotime :=
  let m := fileInfo.ModificationTime (fi_info fi) in
  Date (efiTime.Year m) (efiTime.Month m) (efiTime.Day m) (efiTime.Hour m) (efiTime.Minute m)
    (efiTime.Second m) (efiTime.Nanosecond m) (efiTime.TimeZone m).

(** ** [time.Date] against the count of days *)

Lemma norm_div hi lo base : 0 < base -> norm hi lo base = (hi + lo / base, lo mod base).
Proof.
  intros Hb. unfold norm. pose proof (Z.mod_pos_bound lo base Hb). pose proof (Z.div_mod lo base ltac:(lia)).
  destruct (Z.ltb_spec lo 0).
  - rewrite Z.quot_div_nonneg by lia.
    assert ((- lo - 1) / base + 1 = - (lo / base)) as ->.
    { assert ((- lo - 1) / base = - (lo / base) - 1); [|lia].
      symmetry. apply (Z.div_unique _ _ _ (base - 1 - lo mod base)); lia. }
    rewrite (proj2 (Z.leb_gt _ _)) by lia. f_equal; lia.
  - destruct (Z.leb_spec base lo).
    + rewrite Z.quot_div_nonneg by lia. f_equal; lia.
    + rewrite Z.div_small, Z.mod_small by lia. f_equal; lia.
Qed.

Lemma wrap_add_l w a b : wrap w (wrap w a + b) = wrap w (a + b).
Proof. apply Zplus_mod_idemp_l. Qed.

Lemma wrap_add_r w a b : wrap w (a + wrap w b) = wrap w (a + b).
Proof. apply Zplus_mod_idemp_r. Qed.

(** The date part: days are added as 64-bit words, so day 0 is the last of the
    month before. *)
Lemma Date_days year b (late : bool) day : 0 <= year < 2 ^ 16 ->
  let d := u64 (daysSinceEpoch year + u64 b) in
  u64 ((if late then u64 (d + 1) else d) + u64 (day - 1)) =
  u64 (closed_days (year - absoluteZeroYear) + (b + (if late then 1 else 0)) + (day - 1)).
Proof.
  intros Hy d. subst d. rewrite daysSinceEpoch_closed by done.
  rewrite (wrap_add_r 64 _ b). destruct late; rewrite wrap_add_l, wrap_add_r.
  - rewrite <-Z.add_assoc, wrap_add_l. f_equal. lia.
  - f_equal. lia.
Qed.

(** The fields of an [efiTime] as the program can read them. *)
Definition time_fields_ok (t : efiTime.t) : Prop :=
  is_word 16 (efiTime.Year t) /\ is_word 8 (efiTime.Month t) /\ is_word 8 (efiTime.Day t) /\
  is_word 8 (efiTime.Hour t) /\ is_word 8 (efiTime.Minute t) /\ is_word 8 (efiTime.Second t) /\
  is_word 8 (efiTime.Nanosecond t) /\ - 2 ^ 15 <= efiTime.TimeZone t < 2 ^ 15.

(** The seconds of the fields since 1970, without regard to a zone. *)
Definition local_seconds (year month day hour min sec : Z) : Z :=
  Calendar.unix (Z.to_nat year) (Z.to_nat month) day hour min sec.

Lemma days_of_months_bound y k : (k <= 12)%nat -> 0 <= days_of_months y k <= 31 * Z.of_nat k.
Proof.
  induction k as [|k IH]; intros Hle; [cbn; lia|]. cbn [days_of_months]. specialize (IH ltac:(lia)).
  assert (0 <= month_length y k <= 31); [|lia].
  unfold month_length. do 13 (destruct k as [|k]; [cbn; try case_match; lia|]). lia.
Qed.

Lemma local_small y m d h mi s : 0 <= y < 2 ^ 16 -> 0 <= m <= 12 -> 0 <= d < 2 ^ 8 -> 0 <= h < 2 ^ 8 ->
  0 <= mi < 2 ^ 8 -> 0 <= s < 2 ^ 8 -> Z.abs (local_seconds y m d h mi s) < 2 ^ 42.
Proof.
  intros Hy Hm Hd Hh Hmi Hs. unfold local_seconds, Calendar.unix.
  pose proof (days_of_years_bound (Z.to_nat y)). pose proof (days_of_years_bound 1970).
  pose proof (days_of_months_bound (Z.of_nat (Z.to_nat y)) (Z.to_nat m) ltac:(lia)). lia.
Qed.

(** The tail of [Date]: what was carried from the time of day comes back. *)
Lemma Date_seconds year dm day hour min sec :
  let min' := min + sec / 60 in let hour' := hour + min' / 60 in let day' := day + hour' / 24 in
  0 <= year < 2 ^ 16 -> 0 <= dm < 2 ^ 9 -> 0 <= day < 2 ^ 8 -> 0 <= hour < 2 ^ 8 ->
  0 <= min < 2 ^ 8 -> 0 <= sec < 2 ^ 8 ->
  i64 (i64 (u64 (u64 (u64 (closed_days (year - absoluteZeroYear) + (dm + (day' - 1))) * secondsPerDay) +
    u64 (hour' mod 24 * secondsPerHour + min' mod 60 * secondsPerMinute + sec mod 60))) +
    (absoluteToInternal + internalToUnix)) =
  i64 ((closed_days (year - absoluteZeroYear) - closed_days (1970 - absoluteZeroYear) + dm + (day - 1)) * 86400
    + hour * 3600 + min * 60 + sec).
Proof.
  intros min' hour' day' Hy Hdm Hd Hh Hmi Hs.
  change secondsPerHour with 3600. change secondsPerMinute with 60. rewrite epoch_seconds.
  assert (day' * 86400 + hour' mod 24 * 3600 + min' mod 60 * 60 + sec mod 60 =
    day * 86400 + hour * 3600 + min * 60 + sec) as Hcarry
    by (unfold day', hour', min'; Z.div_mod_to_equations; lia).
  assert (0 <= day' < 2 ^ 9) as Hday by (unfold day', hour', min'; Z.div_mod_to_equations; lia).
  assert (1 <= closed_days (year - absoluteZeroYear) < 2 ^ 50) as Hc
    by (unfold closed_days, absoluteZeroYear; Z.div_mod_to_equations; lia).
  rewrite !wrap_small; unfold is_word; [f_equal; lia| |lia].
  clear Hcarry. clearbody min' hour' day'. Z.div_mod_to_equations; lia.
Qed.

(** [time.Date] on fields that may be out of range, in terms of the calendar. *)
Lemma Date_local year month day hour min sec nsec offset :
  0 <= year < 2 ^ 16 -> 1 <= month <= 12 -> is_word 8 day -> is_word 8 hour -> is_word 8 min ->
  is_word 8 sec -> is_word 8 nsec -> - 2 ^ 15 <= offset < 2 ^ 15 ->
  Date year month day hour min sec nsec offset =
  Ret (mkTime (local_seconds year month day hour min sec - offset) nsec offset).
Proof.
  unfold is_word. intros Hy Hm Hd Hh Hmi Hs Hns Ho. unfold Date.
  rewrite norm_div by lia. rewrite (Z.div_small (month - 1)), (Z.mod_small (month - 1)) by lia.
  rewrite !norm_div by lia. rewrite (Z.div_small nsec), (Z.mod_small nsec) by lia.
  replace (sec + 0) with sec by lia.
  destruct (daysBefore_months year (Z.to_nat month)) as (b & Hb & Hbr & Hdays); [lia..|].
  rewrite Z2Nat.id in * by lia. replace (month - 1 + 1) with month by lia. replace (year + 0) with year by lia.
  rewrite Hb. unfold mbind, outcome_mbind, outcome_bind. rewrite Date_days by lia.
  rewrite <-(Z.add_assoc (closed_days _)), Hdays by done.
  pose proof (local_small year month day hour min sec ltac:(lia) ltac:(lia) ltac:(lia) ltac:(lia)
    ltac:(lia) ltac:(lia)) as Hsmall.
  pose proof (days_of_months_bound year (Z.to_nat month) ltac:(lia)) as Hdm.
  rewrite Date_seconds by lia. unfold local_seconds, Calendar.unix in *.
  pose proof (closed_days_count (Z.to_nat year)) as Cy. pose proof (closed_days_count 1970) as C1970.
  rewrite Z2Nat.id in * by lia. change (Z.of_nat 1970) with 1970 in C1970. rewrite Cy, C1970.
  do 2 f_equal; [|apply swrap_small; lia].
  match goal with |- i64 (i64 ?a - _) = ?b - _ => replace a with b by lia end.
  by rewrite (swrap_small 64 (_ + sec)), swrap_small by lia.
Qed.

(** UEFI's meaning of an EFI_TIME: its zone is in minutes, and local time is UTC
    less the zone, unless the zone is EFI_UNSPECIFIED_TIMEZONE (2047). *)
Definition efi_local (t : EFI_TIME.t) : Z :=
  local_seconds (EFI_TIME.Year t) (EFI_TIME.Month t) (EFI_TIME.Day t)
    (EFI_TIME.Hour t) (EFI_TIME.Minute t) (EFI_TIME.Second t).

Definition efi_utc (t : EFI_TIME.t) : Z := efi_local t + EFI_TIME.TimeZone t * 60.

Lemma bin_ok_time (t : EFI_TIME.t) : bin_ok t -> time_ok t.
Proof.
  destruct t. intros Hok. unfold bin_ok in Hok. cbn -[Z.pow] in Hok. decompose [and] Hok.
  by split_and!.
Qed.

(** C28. [ModTime] of a file whose information the firmware gave with the time
    [t]: for any date with a month from 1 to 12, leap years and all, and also
    for a day, hour, minute or second out of range, it is the Unix time of the
    fields [t] has, less a zone that is not that of [t] but the middle bytes of its
    nanoseconds, taken as seconds; its nanoseconds are the lowest byte of those of
    [t].  It is the time meant by a specified zone exactly if those bytes happen to
    be that zone in seconds, negated, as they are for a whole second in UTC. *)
Theorem ModTime_misread (fi : FileInfo) (t : EFI_TIME.t) :
  bin_ok t -> 1 <= EFI_TIME.Month t <= 12 ->
  unmarshalBinary (enc t) (bin_zero efiTime.t) = (fileInfo.ModificationTime (fi_info fi), None) ->
  let offset := i16 (EFI_TIME.Nanosecond t / 256) in
  ModTime fi = Ret (mkTime (efi_local t - offset) (EFI_TIME.Nanosecond t mod 256) offset) /\
  (efi_local t - offset = efi_utc t <-> offset = - (EFI_TIME.TimeZone t * 60)).
Proof.
  intros Hok Hm E offset. split; [|unfold efi_utc; lia].
  destruct (efiTime_misreads t (bin_zero efiTime.t) Hok)
    as (t' & E' & Ey & Emo & Ed & Eh & Emi & Es & Ens & Etz & _).
  rewrite E in E'. injection E' as Et. unfold ModTime. rewrite Et, Ey, Emo, Ed, Eh, Emi, Es, Ens, Etz.
  destruct (bin_ok_time t Hok) as (Hy & _ & Hd & Hh & Hmi & Hs & _).
  pose proof (Z.mod_pos_bound (EFI_TIME.Nanosecond t) 256 ltac:(lia)) as Hns.
  pose proof (swrap_range 16 (EFI_TIME.Nanosecond t / 256) ltac:(lia)) as Ho.
  rewrite (Date_local _ _ _ _ _ _ _ _ Hy Hm Hd Hh Hmi Hs Hns Ho). reflexivity.
Qed.

(** 2024-02-29 23:59:59 in New York, which is UTC-5. *)
Lemma ModTime_misread_witness :
  let t := EFI_TIME.mk 2024 2 29 23 59 59 0 0 300 0 0 in
  let fi := mkFileInfo (fileInfo.mk 0 0 0 (bin_zero efiTime.t) (bin_zero efiTime.t)
    (efiTime.mk 2024 2 29 23 59 59 0 0 0) 0) 0 [] in
  ModTime fi = Ret (mkTime 1709251199 0 0) /\ efi_utc t = 1709251199 + 5 * 3600.
Proof.
  intros t fi. split; [|vm_compute; reflexivity].
  destruct (ModTime_misread fi t) as [E _].
  - vm_compute. repeat split; (congruence || lia).
  - vm_compute. split; congruence.
  - vm_compute. reflexivity.
  - rewrite E. vm_compute. reflexivity.
Defined.
