(* ===== verification/Goroutines.v ===== *)
(** * Goroutines: service calls from several goroutines

    CallService and CallServiceTable of ueficore/uefi.go hold the mutex of that
    package during a call, callService of uefi/call.go the mutex of its own; the
    stubs of asm_amd64.S and UefiCall5 hold none.  A configuration is a list of
    goroutines over the shared world and the two mutexes; a call is entered and
    left in separate steps, so calls can overlap wherever no mutex forbids it.
    The rest of the development runs one goroutine with calls in one piece:
    [calls_serialize] is what allows that.  Which mutex a call has is not chosen here:
    [locks_as_coded] derives it from the functions of the other files. *)

From S2P Require Import Prelude Binary Machine SpecTables.

(** ** Calls and programs *)

Inductive service :=
| CoreCallService (fn : Z) (args : list Z)
| CoreCallServiceTable (tablePtr idx : Z) (args : list Z)
| SpecCallService (fn : Z) (args : list Z)
| SpecStub (fn : Z) (args : list Z)        (* UefiCall1, 2, 4 and 6 *)
| SpecCallFn (fn : Z) (args : list Z).     (* UefiCall5 *)

(** [mux] of ueficore/uefi.go and [mux] of uefi/call.go. *)
Inductive mutex := CoreMux | SpecMux.

#[export] Instance mutex_eq_dec : EqDecision mutex.
Proof. solve_decision. Defined.

(** The mutex that a call holds; [locks_as_coded] derives it from the code of the calls. *)
Definition mutex_of (c : service) : option mutex :=
  match c with
  | CoreCallService _ _ | CoreCallServiceTable _ _ _ => Some CoreMux
  | SpecCallService _ _ => Some SpecMux
  | SpecStub _ _ | SpecCallFn _ _ => None
  end.

(** What a goroutine does to the firmware: its calls, each chosen from the
    statuses of those before. *)
Inductive prog :=
| Done
| Call (c : service) (k : Z -> prog).

(** Calls through CallService or CallServiceTable of ueficore, and through callService of
    pkg/uefi. *)
Definition core_call (c : service) : Prop :=
  match c with CoreCallService _ _ | CoreCallServiceTable _ _ _ => True | _ => False end.

Definition spec_call (c : service) : Prop :=
  match c with SpecCallService _ _ => True | _ => False end.

(** Every call of the program is one of [P]. *)
Inductive only (P : service -> Prop) : prog -> Prop :=
| only_Done : only P Done
| only_Call c k : P c -> (forall status, only P (k status)) -> only P (Call c k).

(** Every call is made under the mutex [l]. *)
Definition uses (l : mutex) : prog -> Prop := only (fun c => mutex_of c = Some l).

Lemma only_impl (P Q : service -> Prop) p : (forall c, P c -> Q c) -> only P p -> only Q p.
Proof. intros HPQ. induction 1; constructor; auto. Qed.

Lemma core_call_mutex c : core_call c <-> mutex_of c = Some CoreMux.
Proof. by destruct c. Qed.

Lemma spec_call_mutex c : spec_call c <-> mutex_of c = Some SpecMux.
Proof. by destruct c. Qed.

(** Two calls hold the same mutex if they are calls of the same package through its locking
    functions. *)
Definition exclude (c1 c2 : service) : Prop :=
  core_call c1 /\ core_call c2 \/ spec_call c1 /\ spec_call c2.

Lemma exclude_mutex c1 c2 : exclude c1 c2 <-> exists l, mutex_of c1 = Some l /\ mutex_of c2 = Some l.
Proof.
  unfold exclude. rewrite !core_call_mutex, !spec_call_mutex. split.
  - intros [?|?]; eauto.
  - intros ([] & ?); auto.
Qed.

Section Goroutines.
Context `{Machine}.

(** A call in one piece, as the other files have it. *)
Definition run_service (c : service) : SM Z :=
  match c with
  | CoreCallService fn args => on_world (CallService fn args)
  | CoreCallServiceTable tablePtr idx args => on_world (CallServiceTable tablePtr idx args)
  | SpecCallService fn args => callService fn args
  | SpecStub fn args => stub fn args
  | SpecCallFn fn args => on_world (callFn fn args)
  end.

(** A call waits for its mutex, and for no other: in its code, one mutex that is held makes the
    call block, and the other does not. *)
Definition blocks (c : service) (x : bool * World) : Prop := run_service c x = (Deadlock, x).

(** What the call does between entry and return: [callFn] loads the entry point
    from the table, a stub is given it. *)
Definition through (fn : Z) (args : list Z) (m : memory) (s : fwstate) : Z * memory * fwstate :=
  match args with
  | [] => (stale_result, m, s)
  | _ => firmware (load64 m fn) args m s
  end.

Definition effect (c : service) (m : memory) (s : fwstate) : Z * memory * fwstate :=
  match c with
  | CoreCallService fn args | SpecCallService fn args | SpecCallFn fn args => through fn args m s
  | CoreCallServiceTable tablePtr idx args => through (u64 (tablePtr + 24 + u64 (8 * idx))) args m s
  | SpecStub fn args => firmware fn args m s
  end.

(** ** Steps *)

Definition shared : Type := bool * World.

Definition held (l : mutex) (x : shared) : bool :=
  match l with CoreMux => w_mux x.2 | SpecMux => x.1 end.

Definition set_held (l : mutex) (b : bool) (x : shared) : shared :=
  match l with CoreMux => (x.1, set_mux b x.2) | SpecMux => (b, x.2) end.

Definition set_effect (m : memory) (s : fwstate) (x : shared) : shared :=
  (x.1, mkWorld _ m (w_brk x.2) (w_mux x.2) (w_log x.2) s).

(** A goroutine: about to run, between Lock and the call, in the firmware with
    the memory and firmware state it was entered with, or returned with the
    deferred Unlock to run. *)
Inductive goroutine :=
| Run (p : prog)
| Locked (c : service) (k : Z -> prog)
| Inside (c : service) (k : Z -> prog) (m : memory) (s : fwstate)
| Leaving (c : service) (k : Z -> prog) (status : Z).

Inductive gstep : goroutine -> shared -> goroutine -> shared -> Prop :=
| step_lock c k l x : mutex_of c = Some l -> held l x = false ->
    gstep (Run (Call c k)) x (Locked c k) (set_held l true x)
| step_enter c k x : gstep (Locked c k) x (Inside c k (w_mem x.2) (w_fw x.2)) x
| step_enter_free c k x : mutex_of c = None ->
    gstep (Run (Call c k)) x (Inside c k (w_mem x.2) (w_fw x.2)) x
| step_return c k m s status m' s' x : effect c m s = (status, m', s') ->
    gstep (Inside c k m s) x (Leaving c k status) (set_effect m' s' x)
| step_unlock c k l status x : mutex_of c = Some l ->
    gstep (Leaving c k status) x (Run (k status)) (set_held l false x)
| step_leave_free c k status x : mutex_of c = None ->
    gstep (Leaving c k status) x (Run (k status)) x.

Definition config : Type := list goroutine * shared.

Inductive cstep : config -> config -> Prop :=
| cstep_at gs i g x g' x' : gs !! i = Some g -> gstep g x g' x' ->
    cstep (gs, x) (<[i := g']> gs, x').

(** The reference: a whole call is one step. *)
Inductive astep : list prog * shared -> list prog * shared -> Prop :=
| astep_at ps i c k x status x' : ps !! i = Some (Call c k) ->
    run_service c x = (Ret status, x') -> astep (ps, x) (<[i := k status]> ps, x').

(** Both mutexes are free. *)
Definition free (x : shared) : Prop := x.1 = false /\ w_mux x.2 = false.

Definition reachable (ps : list prog) (x : shared) (r : config) : Prop :=
  free x /\ rtc cstep (map Run ps, x) r.

(** ** The invariant: a mutex is held by the one goroutine in its section *)

Definition section (g : goroutine) : option mutex :=
  match g with
  | Run _ => None
  | Locked c _ | Inside c _ _ _ | Leaving c _ _ => mutex_of c
  end.

Record exclusive (r : config) : Prop := {
  ex_held : forall l, held l r.2 = true <-> exists i g, r.1 !! i = Some g /\ section g = Some l;
  ex_one : forall l i j g g', r.1 !! i = Some g -> r.1 !! j = Some g' ->
    section g = Some l -> section g' = Some l -> i = j;
}.

Lemma held_set l l' b x : held l' (set_held l b x) = if decide (l = l') then b else held l' x.
Proof. destruct l, l'; reflexivity. Qed.

Lemma held_effect l m s x : held l (set_effect m s x) = held l x.
Proof. by destruct l. Qed.

(** A step keeps the goroutine's section, enters one, or leaves one. *)
Inductive moves (g g' : goroutine) (x x' : shared) : Prop :=
| moves_within : section g' = section g -> (forall l, held l x' = held l x) -> moves g g' x x'
| moves_in l : section g = None -> section g' = Some l -> held l x = false ->
    x' = set_held l true x -> moves g g' x x'
| moves_out l : section g = Some l -> section g' = None -> x' = set_held l false x -> moves g g' x x'.

Lemma gstep_moves g x g' x' : gstep g x g' x' -> moves g g' x x'.
Proof.
  intros Hs. inversion Hs; subst; try (by eapply moves_in); try (by eapply moves_out);
    (apply moves_within; cbn [section]; [congruence|intros l; by rewrite ?held_effect]).
Qed.

Lemma insert_inv (gs : list goroutine) i g g' j h : gs !! i = Some g -> <[i := g']> gs !! j = Some h ->
  (j = i /\ h = g') \/ (j <> i /\ gs !! j = Some h).
Proof.
  intros Hi Hj. destruct (decide (j = i)) as [->|Hne]; [left|right].
  - rewrite list_lookup_insert_eq in Hj by (by eapply lookup_lt_Some). by simplify_eq.
  - by rewrite list_lookup_insert_ne in Hj by done.
Qed.

Lemma insert_at (gs : list goroutine) i g g' : gs !! i = Some g -> <[i := g']> gs !! i = Some g'.
Proof. intros Hi. apply list_lookup_insert_eq. by eapply lookup_lt_Some. Qed.

(** Uses [insert_inv] on every lookup in a changed list. *)
Ltac split_insert Hi :=
  repeat match goal with Hj : <[_ := _]> _ !! _ = Some _ |- _ =>
    destruct (insert_inv _ _ _ _ _ _ Hi Hj) as [[-> ->]|[? ?]]; clear Hj end.

Lemma exclusive_within gs i g g' x x' : exclusive (gs, x) -> gs !! i = Some g ->
  section g' = section g -> (forall l, held l x' = held l x) -> exclusive (<[i := g']> gs, x').
Proof.
  intros [Hheld Hone] Hi Hsec Hx. cbn [fst snd] in *. split; cbn [fst snd].
  - intros l. rewrite Hx, Hheld. split; intros (j & h & Hj & Hh).
    + destruct (decide (j = i)) as [->|Hne].
      * exists i, g'. split; [by eapply insert_at|congruence].
      * exists j, h. by rewrite list_lookup_insert_ne by done.
    + split_insert Hi; [exists i, g; split; [done|congruence]|by exists j, h].
  - intros l j j' h h' Hj Hj' Hh Hh'. split_insert Hi; try done; eapply (Hone l); eauto; congruence.
Qed.

Lemma exclusive_in gs i g g' l x : exclusive (gs, x) -> gs !! i = Some g ->
  section g = None -> section g' = Some l -> held l x = false ->
  exclusive (<[i := g']> gs, set_held l true x).
Proof.
  intros [Hheld Hone] Hi Hn Hsec Hfree. cbn [fst snd] in *.
  assert (forall j h, gs !! j = Some h -> section h <> Some l) as Hnone.
  { intros j h Hj Hh. assert (held l x = true) by (apply Hheld; eauto). congruence. }
  split; cbn [fst snd].
  - intros l'. rewrite held_set. case_decide as E.
    + subst l'. split; [intros _; exists i, g'; split; [by eapply insert_at|done]|done].
    + rewrite Hheld. split; intros (j & h & Hj & Hh).
      * exists j, h. rewrite list_lookup_insert_ne; [done|]. congruence.
      * split_insert Hi; [congruence|by exists j, h].
  - intros l' j j' h h' Hj Hj' Hh Hh'.
    split_insert Hi; simplify_eq; try done; try (by edestruct Hnone); by eapply (Hone l').
Qed.

Lemma exclusive_out gs i g g' l x : exclusive (gs, x) -> gs !! i = Some g ->
  section g = Some l -> section g' = None -> exclusive (<[i := g']> gs, set_held l false x).
Proof.
  intros [Hheld Hone] Hi Hsec Hn. cbn [fst snd] in *. split; cbn [fst snd].
  - intros l'. rewrite held_set. case_decide as E.
    + subst l'. split; [done|]. intros (j & h & Hj & Hh). split_insert Hi; [congruence|].
      by assert (j = i) by (eapply (Hone l); eauto).
    + rewrite Hheld. split; intros (j & h & Hj & Hh).
      * exists j, h. rewrite list_lookup_insert_ne; [done|]. congruence.
      * split_insert Hi; [congruence|by exists j, h].
  - intros l' j j' h h' Hj Hj' Hh Hh'. split_insert Hi; try congruence. by eapply (Hone l').
Qed.

Lemma exclusive_step r r' : exclusive r -> cstep r r' -> exclusive r'.
Proof.
  intros Hex Hs. inversion Hs as [gs i g x g' x' Hi Hg]; subst.
  destruct (gstep_moves _ _ _ _ Hg) as [Hsec Hx|l Hn Hsec Hfree ->|l Hsec Hn ->];
    eauto using exclusive_within, exclusive_in, exclusive_out.
Qed.

Lemma exclusive_start ps x : free x -> exclusive (map Run ps, x).
Proof.
  intros [H1 H2]. assert (forall i g, map Run ps !! i = Some g -> section g = None) as Hnone.
  { intros i g Hg. rewrite list_lookup_fmap in Hg. by destruct (ps !! i); simplify_eq/=. }
  split; cbn [fst snd].
  - intros l. split; [destruct l; cbn; congruence|]. intros (i & g & Hg & Hs).
    rewrite (Hnone _ _ Hg) in Hs. done.
  - intros l i j g g' Hg _ Hs. rewrite (Hnone _ _ Hg) in Hs. done.
Qed.

Lemma reachable_exclusive ps x r : reachable ps x r -> exclusive r.
Proof.
  intros [Hf Hr]. remember (map Run ps, x) as r0 eqn:E.
  assert (exclusive r0) as H0 by (subst; by apply exclusive_start). clear E.
  induction Hr as [|r0 r1 r2 Hs Hr IH]; [done|]. apply IH. by eapply exclusive_step.
Qed.

(** ** Progress and termination *)

Definition finished (gs : list goroutine) : Prop := Forall (fun g => g = Run Done) gs.

#[export] Instance run_done_dec g : Decision (g = Run Done).
Proof. by destruct g as [[|c k]|c k|c k m s|c k status]; [left|right..]. Defined.

(** A goroutine in a call always has a step; one that is about to make a call
    waits only for its mutex. *)
Lemma step_or_waits g x :
  g = Run Done \/ (exists g' x', gstep g x g' x') \/
  (exists c k l, g = Run (Call c k) /\ mutex_of c = Some l /\ held l x = true).
Proof.
  destruct g as [[|c k]|c k|c k m s|c k status]; [by left|right|right; left..].
  - destruct (mutex_of c) as [l|] eqn:E; [|left; eexists _, _; by apply step_enter_free].
    destruct (held l x) eqn:El; [by right; eauto 6|left; eexists _, _; by eapply step_lock].
  - eexists _, _. apply step_enter.
  - destruct (effect c m s) as [[status m'] s'] eqn:E. eexists _, _. by apply step_return.
  - destruct (mutex_of c) as [l|] eqn:E; eexists _, _; [by eapply step_unlock|by apply step_leave_free].
Qed.

Lemma exclusive_progress gs x : exclusive (gs, x) -> finished gs \/ exists r, cstep (gs, x) r.
Proof.
  intros [Hheld _]. cbn [fst snd] in *.
  destruct (decide (finished gs)) as [Hf|Hf]; [by left|right].
  apply not_Forall_Exists in Hf; [|apply _].
  apply Exists_exists in Hf as (g & (i & Hi)%list_elem_of_lookup & Hg).
  destruct (step_or_waits g x) as [->|[(g' & x' & Hs)|(c & k & l & -> & _ & Hl)]]; [by destruct Hg|eauto using cstep|].
  apply Hheld in Hl as (j & h & Hj & Hh).
  destruct (step_or_waits h x) as [->|[(h' & x' & Hs)|(c' & k' & l' & -> & _)]]; [done|eauto using cstep|done].
Qed.

(** Each goroutine can only make finitely many steps. *)
Definition advances (g g' : goroutine) : Prop := exists x x', gstep g x g' x'.

Ltac next_steps := constructor; intros ? (? & ? & Hs); inversion Hs; subst; clear Hs.

Lemma inside_sn c k m s : (forall status, sn advances (Run (k status))) -> sn advances (Inside c k m s).
Proof. intros Hk. next_steps. next_steps; apply Hk. Qed.

Lemma run_sn p : sn advances (Run p).
Proof.
  induction p as [|c k IH]; next_steps; [next_steps|]; by apply inside_sn.
Qed.

Lemma goroutine_sn g : sn advances g.
Proof.
  destruct g as [p|c k|c k m s|c k status]; [apply run_sn| | |]; next_steps;
    auto using run_sn, inside_sn. next_steps; apply run_sn.
Qed.

Lemma config_sn r : sn cstep r.
Proof.
  destruct r as [gs x].
  assert (sn (one_changes advances) gs) as Hsn by (apply one_changes_sn, Forall_forall; auto using goroutine_sn).
  revert x. induction Hsn as [gs _ IH]. intros x. constructor. intros r' Hs.
  inversion Hs as [? i g ? g' x' Hi Hg]; subst. apply IH. exists i, g, g'. split; [done|]. split; [by exists x, x'|done].
Qed.

(** ** Serializing the calls *)

Lemma callFn_through fn args w status m s : through fn args (w_mem w) (w_fw w) = (status, m, s) ->
  callFn fn args w = (Ret status, mkWorld _ m (w_brk w) (w_mux w) (w_log w) s).
Proof.
  unfold through, callFn. destruct args; intros E; [|by rewrite E].
  simplify_eq. by destruct w.
Qed.

Lemma run_effect c x status m s : free x -> effect c (w_mem x.2) (w_fw x.2) = (status, m, s) ->
  run_service c x = (Ret status, set_effect m s x).
Proof.
  destruct x as [mux w]. unfold free. cbn [fst snd]. intros [-> Hw] E.
  assert (forall fn args, through fn args (w_mem w) (w_fw w) = (status, m, s) ->
    (mux_Lock ≫= fun _ => callFn fn args ≫= fun status => mux_Unlock ≫= fun _ => mret status) w =
    (Ret status, mkWorld _ m (w_brk w) (w_mux w) (w_log w) s)) as Hlocked.
  { intros fn args Et. erewrite bind_step by (unfold mux_Lock; by rewrite Hw).
    erewrite bind_step by (apply callFn_through; exact Et).
    erewrite bind_step by reflexivity. by rewrite Hw. }
  unfold set_effect. cbn [fst snd]. destruct c; cbn [effect] in E; cbn [run_service]; unfold on_world.
  - unfold CallService. by rewrite (Hlocked _ _ E).
  - unfold CallServiceTable. by rewrite (Hlocked _ _ E).
  - unfold callService. by rewrite (callFn_through _ _ _ _ _ _ E).
  - unfold stub, call_entry. by rewrite E.
  - by rewrite (callFn_through _ _ _ _ _ _ E).
Qed.

(** What is left of a goroutine's program when a call counts from its return. *)
Definition left_to_run (g : goroutine) : prog :=
  match g with
  | Run p => p
  | Locked c k | Inside c k _ _ => Call c k
  | Leaving c k status => k status
  end.

(** The state with both mutexes free. *)
Definition calm (x : shared) : shared := (false, set_mux false x.2).

Lemma calm_free x : free (calm x).
Proof. done. Qed.

Lemma free_calm x : free x -> calm x = x.
Proof. destruct x as [mux w], w. unfold free. cbn. by intros [-> ->]. Qed.

Lemma calm_set_held l b x : calm (set_held l b x) = calm x.
Proof. by destruct l. Qed.

Lemma calm_effect m s x : calm (set_effect m s x) = set_effect m s (calm x).
Proof. done. Qed.

Definition goroutine_uses (l : mutex) (g : goroutine) : Prop :=
  match g with
  | Run p => uses l p
  | Locked c k | Inside c k _ _ | Leaving c k _ => mutex_of c = Some l /\ forall status, uses l (k status)
  end.

(** Nothing has changed since the goroutine entered the firmware. *)
Definition up_to_date (x : shared) (g : goroutine) : Prop :=
  match g with Inside _ _ m s => m = w_mem x.2 /\ s = w_fw x.2 | _ => True end.

Record serial (l : mutex) (r : config) : Prop := {
  se_exclusive : exclusive r;
  se_uses : forall i g, r.1 !! i = Some g -> goroutine_uses l g;
  se_current : forall i g, r.1 !! i = Some g -> up_to_date r.2 g;
}.

Lemma gstep_uses l g x g' x' : gstep g x g' x' -> goroutine_uses l g -> goroutine_uses l g'.
Proof.
  intros Hs Hu. inversion Hs; subst; cbn [goroutine_uses] in *; try done; try (by inversion Hu);
    destruct Hu as [_ Hk]; apply Hk.
Qed.

Lemma serial_step l r r' : serial l r -> cstep r r' -> serial l r'.
Proof.
  intros [Hex Hu Hc] Hs. inversion Hs as [gs i g x g' x' Hi Hg]; subst. cbn [fst snd] in *. split.
  - by eapply exclusive_step.
  - intros j h Hj. cbn [fst] in Hj. split_insert Hi; eauto using gstep_uses.
  - intros j h Hj. cbn [fst snd] in *.
    split_insert Hi; [inversion Hg; subst; done|]. inversion Hg; subst; try (by apply (Hc j));
      try (match goal with l : mutex |- _ => destruct l; by apply (Hc j) end).
    destruct h as [| |c' k' m2 s2|]; try done. exfalso.
    pose proof (Hu _ _ Hi) as [Hl _]. match goal with Hj : gs !! j = _ |- _ => pose proof (Hu _ _ Hj) as [Hl' _];
      by assert (j = i) by (eapply (ex_one _ Hex l); [exact Hj|exact Hi|exact Hl'|exact Hl]) end.
Qed.

(** Returning from the firmware is the step of the reference; the others are
    none. *)
Lemma serial_simulates l gs x gs' x' : serial l (gs, x) -> cstep (gs, x) (gs', x') ->
  (map left_to_run gs', calm x') = (map left_to_run gs, calm x) \/
  astep (map left_to_run gs, calm x) (map left_to_run gs', calm x').
Proof.
  intros [Hex Hu Hc] Hs. inversion Hs as [? i g ? g' ? Hi Hg]; subst. cbn [fst snd] in *.
  rewrite list_fmap_insert.
  assert (left_to_run g' = left_to_run g -> <[i := left_to_run g']> (left_to_run <$> gs) = left_to_run <$> gs)
    as Hsame.
  { intros ->. apply list_insert_id. by rewrite list_lookup_fmap, Hi. }
  inversion Hg; subst; try (left; by rewrite ?calm_set_held, Hsame by done). right.
  destruct (Hc _ _ Hi) as [-> ->]. cbn [left_to_run].
  eapply astep_at; [by rewrite list_lookup_fmap, Hi|]. rewrite calm_effect.
  apply run_effect; [apply calm_free|done].
Qed.

Lemma serial_run l r r' : rtc cstep r r' -> serial l r ->
  rtc astep (map left_to_run r.1, calm r.2) (map left_to_run r'.1, calm r'.2).
Proof.
  induction 1 as [|[gs x] [gs' x'] r' Hs Hr IH]; intros Hse; [done|].
  specialize (IH (serial_step _ _ _ Hse Hs)). cbn [fst snd] in *.
  destruct (serial_simulates _ _ _ _ _ Hse Hs) as [<-|Ha]; [done|by eapply rtc_l].
Qed.

(** A call in one piece is an execution of its steps. *)
Lemma astep_steps ps x ps' x' : free x -> astep (ps, x) (ps', x') ->
  free x' /\ rtc cstep (map Run ps, x) (map Run ps', x').
Proof.
  intros Hf Hs. inversion Hs as [? i c k ? status ? Hi Hr]; subst.
  destruct (effect c (w_mem x.2) (w_fw x.2)) as [[status' m] s] eqn:E.
  rewrite (run_effect _ _ _ _ _ Hf E) in Hr. simplify_eq. split; [exact Hf|].
  rewrite list_fmap_insert.
  assert (map Run ps !! i = Some (Run (Call c k))) as Hi' by (by rewrite list_lookup_fmap, Hi).
  assert (forall g (gs : list goroutine) h, gs !! i = Some h -> <[i := g]> gs !! i = Some g) as Hat
    by (intros; by eapply insert_at).
  assert (forall g g' y y' r, gstep g y g' y' -> rtc cstep (<[i := g']> (map Run ps), y') r ->
    rtc cstep (<[i := g]> (map Run ps), y) r) as Hstep.
  { intros g g' y y' r Hg Hrest. eapply rtc_l; [eapply cstep_at; [by eapply Hat|exact Hg]|].
    by rewrite list_insert_insert_eq. }
  replace (map Run ps) with (<[i := Run (Call c k)]> (map Run ps)) at 1 by (by apply list_insert_id).
  destruct (mutex_of c) as [l|] eqn:El.
  - destruct Hf as [Hf1 Hf2].
    assert (set_held l false (set_effect m s (set_held l true x)) = set_effect m s x) as Eend
      by (destruct x as [mux w], l; unfold set_held, set_effect, set_mux; cbn [fst snd w_mem w_brk w_mux w_log w_fw] in *; congruence).
    eapply Hstep; [apply step_lock; [exact El|by destruct l]|].
    eapply Hstep; [apply step_enter|]. eapply Hstep; [apply step_return; by destruct l|].
    eapply Hstep; [by apply step_unlock|]. by rewrite Eend.
  - eapply Hstep; [by apply step_enter_free|]. eapply Hstep; [by apply step_return|].
    by eapply Hstep; [apply step_leave_free|].
Qed.

Lemma rtc_astep_steps r r' : rtc astep r r' -> free r.2 ->
  rtc cstep (map Run r.1, r.2) (map Run r'.1, r'.2).
Proof.
  induction 1 as [|[ps x] [ps' x'] r' Hs _ IH]; intros Hf; [done|]. cbn [fst snd] in *.
  destruct (astep_steps _ _ _ _ Hf Hs) as [Hf' Hsteps]. etrans; [exact Hsteps|]. by apply IH.
Qed.

Lemma exclusive_free gs x : exclusive (gs, x) -> (forall i g, gs !! i = Some g -> section g = None) ->
  free x.
Proof.
  intros [Hheld _] Hno. assert (forall l, held l x = false) as Hl.
  { intros l. destruct (held l x) eqn:E; [|done]. apply Hheld in E as (i & g & Hi & Hs).
    by rewrite (Hno _ _ Hi) in Hs. }
  split; [apply (Hl SpecMux)|apply (Hl CoreMux)].
Qed.

Lemma reaches_end r : exclusive r ->
  exists gs x, rtc cstep r (gs, x) /\ finished gs /\ free x.
Proof.
  induction (config_sn r) as [[gs x] _ IH]. intros Hex.
  destruct (exclusive_progress _ _ Hex) as [Hf|(r' & Hs)].
  - exists gs, x. split; [done|]. split; [done|]. apply (exclusive_free gs); [done|].
    intros i g Hi. unfold finished in Hf. rewrite Forall_lookup in Hf. by rewrite (Hf _ _ Hi).
  - destruct (IH r' Hs (exclusive_step _ _ Hex Hs)) as (gs' & x' & Hr & Hf).
    exists gs', x'. split; [by eapply rtc_l|done].
Qed.

Lemma free_held l x : free x -> held l x = false.
Proof. intros [? ?]. by destruct l. Qed.

Lemma map_Run_lookup ps i g : map Run ps !! i = Some g -> exists p, ps !! i = Some p /\ g = Run p.
Proof. rewrite list_lookup_fmap. destruct (ps !! i); intros; simplify_eq/=; eauto. Qed.

Lemma serial_start l ps x : free x -> Forall (uses l) ps -> serial l (map Run ps, x).
Proof.
  intros Hf Hu. rewrite Forall_lookup in Hu. split; [by apply exclusive_start|..];
    intros i g (p & Hp & ->)%map_Run_lookup; [by eapply Hu|done].
Qed.

Lemma left_to_run_map ps : map left_to_run (map Run ps) = ps.
Proof. induction ps; simpl; congruence. Qed.

(** A goroutine whose mutex is free can enter the firmware. *)
Lemma enter_steps gs i c k x : gs !! i = Some (Run (Call c k)) ->
  (forall l, mutex_of c = Some l -> held l x = false) ->
  exists m s x', rtc cstep (gs, x) (<[i := Inside c k m s]> gs, x') /\
    forall l, mutex_of c <> Some l -> held l x' = held l x.
Proof.
  intros Hi Hfree. destruct (mutex_of c) as [l|] eqn:El.
  - eexists _, _, _. split.
    + eapply rtc_l; [eapply cstep_at; [exact Hi|eapply step_lock; [exact El|by apply Hfree]]|].
      eapply rtc_l; [eapply cstep_at; [by eapply insert_at|apply step_enter]|].
      by rewrite list_insert_insert_eq.
    + intros l' Hne. rewrite held_set, decide_False; [done|]. congruence.
  - eexists _, _, x. split; [|done]. eapply rtc_l; [|done].
    eapply cstep_at; [exact Hi|by apply step_enter_free].
Qed.
End Goroutines.

(** The mutex of a call is the one whose holding makes its code block. *)
Lemma locks_as_coded `{Machine} (x0 : shared) c l :
  mutex_of c = Some l <-> forall x, held l x = true -> blocks c x.
Proof.
  unfold blocks. split.
  - intros E [mux w] Hl. destruct c, l; cbn in E |- *; try discriminate E; cbn in Hl;
      unfold CallService, CallServiceTable, mux_Lock, mbind, M_bind; by rewrite Hl.
  - intros Hb. specialize (Hb (set_held l true (calm x0)) ltac:(by destruct l)).
    destruct c, l; try reflexivity; exfalso; revert Hb;
      unfold run_service, on_world, callService, stub, call_entry, CallService, CallServiceTable, mux_Lock,
        mux_Unlock, callFn, mbind, M_bind, mret, M_ret, set_held, calm; cbn [fst snd w_mux set_mux];
      repeat (case_match; simplify_eq/=; try discriminate).
Qed.

(** C7. Goroutines that all call through CallService and CallServiceTable of ueficore, or all
    through callService of pkg/uefi, in any number and whatever they call next after which
    status, are serialized: what they can reach through the steps of these functions (lock, enter
    the firmware, return, unlock), interleaved in any way, is exactly what they can reach when
    every call runs in one piece, with the same results and the same world. *)
Theorem calls_serialize `{Machine} ps qs x x' : free x ->
  Forall (only core_call) ps \/ Forall (only spec_call) ps ->
  rtc cstep (map Run ps, x) (map Run qs, x') <-> rtc astep (ps, x) (qs, x').
Proof.
  intros Hf Hps. assert (exists l, Forall (uses l) ps) as [l Hu].
  { destruct Hps as [Hps|Hps]; [exists CoreMux|exists SpecMux]; (eapply Forall_impl; [exact Hps|]);
      intros p; apply only_impl; intros c; [apply core_call_mutex|apply spec_call_mutex]. }
  split; intros Hr.
  - pose proof (serial_run l _ _ Hr (serial_start _ _ _ Hf Hu)) as Ha. cbn [fst snd] in Ha.
    rewrite !left_to_run_map, (free_calm x) in Ha by done. rewrite free_calm in Ha; [done|].
    eapply exclusive_free; [by eapply reachable_exclusive|]. by intros i g (p & _ & ->)%map_Run_lookup.
  - exact (rtc_astep_steps _ _ Hr Hf).
Qed.

(** C11. No two calls through CallService and CallServiceTable of ueficore are in the firmware at
    once, and no two through callService of pkg/uefi, whatever else runs; and nothing more is
    forbidden: any other two calls can be there at once, one of each package, or
    a stub or UefiCall5 and any other call.  The mutexes behind this are those of the code: a
    call's code blocks whenever its mutex is held, and a call without one never
    does. *)
Theorem calls_overlap `{Machine} x c1 k1 c2 k2 : free x ->
  (forall c l, mutex_of c = Some l <-> forall y, held l y = true -> blocks c y) /\
  (forall ps gs x' i j d1 h1 m1 s1 d2 h2 m2 s2, reachable ps x (gs, x') -> i <> j ->
    gs !! i = Some (Inside d1 h1 m1 s1) -> gs !! j = Some (Inside d2 h2 m2 s2) ->
    ~ (core_call d1 /\ core_call d2) /\ ~ (spec_call d1 /\ spec_call d2)) /\
  ((exists m1 s1 m2 s2 x', reachable [Call c1 k1; Call c2 k2] x
      ([Inside c1 k1 m1 s1; Inside c2 k2 m2 s2], x')) <->
   ~ (core_call c1 /\ core_call c2) /\ ~ (spec_call c1 /\ spec_call c2)).
Proof.
  intros Hf. assert (forall d1 d2, (~ exists l, mutex_of d1 = Some l /\ mutex_of d2 = Some l) <->
    ~ (core_call d1 /\ core_call d2) /\ ~ (spec_call d1 /\ spec_call d2)) as Hx.
  { intros d1 d2. rewrite <-exclude_mutex. unfold exclude. tauto. }
  assert (forall ps gs x' i j d1 h1 m1 s1 d2 h2 m2 s2, reachable ps x (gs, x') -> i <> j ->
    gs !! i = Some (Inside d1 h1 m1 s1) -> gs !! j = Some (Inside d2 h2 m2 s2) ->
    ~ exists l, mutex_of d1 = Some l /\ mutex_of d2 = Some l) as Hex.
  { intros ps gs x' i j d1 h1 m1 s1 d2 h2 m2 s2 Hr Hne Hi Hj (l & H1 & H2). apply Hne.
    by eapply (ex_one _ (reachable_exclusive _ _ _ Hr) l). }
  split; [intros; by apply locks_as_coded|]. rewrite <-Hx. setoid_rewrite <-Hx. split; [exact Hex|]. split.
  - intros (m1 & s1 & m2 & s2 & x' & Hr).
    exact (Hex _ _ _ 0%nat 1%nat _ _ _ _ _ _ _ _ Hr ltac:(done) eq_refl eq_refl).
  - intros Hne.
    destruct (enter_steps (map Run [Call c1 k1; Call c2 k2]) 0 c1 k1 x eq_refl) as (m1 & s1 & x1 & Hr1 & Hh);
      [intros; by apply free_held|].
    destruct (enter_steps [Inside c1 k1 m1 s1; Run (Call c2 k2)] 1 c2 k2 x1 eq_refl)
      as (m2 & s2 & x2 & Hr2 & _).
    { intros l Hl. rewrite Hh; [by apply free_held|]. intros Hl1. apply Hne. by exists l. }
    exists m1, s1, m2, s2, x2. split; [done|]. by transitivity ([Inside c1 k1 m1 s1; Run (Call c2 k2)], x1).
Qed.

(** C22. Goroutines that call services never deadlock and always finish, for any
    programs and any mix of locked and unlocked calls: from whatever they have
    reached, no execution goes on for ever, some execution ends with every
    goroutine done and both mutexes free, and none stops before. *)
Theorem calls_finish `{Machine} ps x r : reachable ps x r ->
  sn cstep r /\
  (exists gs' x', rtc cstep r (gs', x') /\ finished gs' /\ free x') /\
  (forall gs' x', rtc cstep r (gs', x') -> nf cstep (gs', x') -> finished gs').
Proof.
  intros Hr. pose proof (reachable_exclusive _ _ _ Hr) as Hex.
  split; [apply config_sn|]. split; [by apply reaches_end|]. intros gs' x' Hs Hnf.
  assert (exclusive (gs', x')) as Hex'.
  { destruct Hr as [Hf Hr]. apply (reachable_exclusive ps x). split; [done|by transitivity r]. }
  destruct (exclusive_progress _ _ Hex') as [?|(r' & Hs')]; [done|]. by destruct Hnf; exists r'.
Qed.

(** Two goroutines of one call each, on a firmware that counts its calls and
    returns the count. *)
Definition counter : Machine := machine_with Z (fun fn args m s => (s, m, s + 1)).

Definition counter_world : World (H := counter) := mkWorld counter ∅ 0x1000 false [] 0.

Definition two_calls : list prog :=
  [ Call (CoreCallService 0x2000 [1]) (fun _ => Done);
    Call (CoreCallServiceTable 0x2000 0 [2]) (fun status =>
      if status =? 0 then Call (CoreCallService 0x2000 [3]) (fun _ => Done) else Done) ].

Lemma two_calls_use : Forall (only core_call) two_calls.
Proof.
  repeat constructor. intros status. by destruct (status =? 0); repeat constructor.
Qed.

Lemma counter_free : free (H := counter) (false, counter_world).
Proof. done. Qed.

(** The second goroutine first: it makes its second call. *)
Lemma calls_serialize_witness :
  rtc (cstep (H := counter)) (map Run two_calls, (false, counter_world))
    (map Run [Done; Done], (false, mkWorld counter ∅ 0x1000 false [] 3)).
Proof.
  apply (calls_serialize (H := counter) two_calls); [apply counter_free|left; apply two_calls_use|].
  eapply rtc_l; [eapply (astep_at (H := counter) _ 1); reflexivity|].
  eapply rtc_l; [eapply (astep_at (H := counter) _ 1); reflexivity|].
  eapply rtc_l; [eapply (astep_at (H := counter) _ 0); reflexivity|]. reflexivity.
Defined.

(** A call of each package. *)
Lemma calls_overlap_witness :
  exists m1 s1 m2 s2 x', reachable (H := counter)
    [Call (CoreCallService 0x2000 [1]) (fun _ => Done); Call (SpecCallService 0x2000 [2]) (fun _ => Done)]
    (false, counter_world)
    ([Inside (CoreCallService 0x2000 [1]) (fun _ => Done) m1 s1;
      Inside (SpecCallService 0x2000 [2]) (fun _ => Done) m2 s2], x').
Proof.
  apply (calls_overlap (H := counter) (false, counter_world)); [apply counter_free|].
  split; intros [? ?]; done.
Defined.

Lemma calls_finish_witness :
  exists gs x', rtc (cstep (H := counter)) (map Run two_calls, (false, counter_world)) (gs, x') /\
    finished gs /\ free x'.
Proof.
  apply (calls_finish (H := counter) two_calls (false, counter_world)).
  split; [apply counter_free|done].
Defined.
